(* ===== verification/_CoqProject ===== *)
-Q . S2P
Prelude.v
Memory.v
CMem.v
CStr.v
Machine.v
Console.v
Pic.v
Rtc.v
Idt.v
Paging.v
KState.v
Filesystem.v
TermIO.v
Syscalls.v
Process.v
Launch.v
Terminal.v
Tty.v
Keyboard.v
Boot.v
Startup.v
Dispatch.v
Descriptors.v
UserLib.v
Programs.v
UserKernel.v
Userland.v
Syserr.v
Session.v
