(* ===== verification/Prelude.v ===== *)
(** * The ECE391 teaching kernel, verified

    The program under src/student-distrib is a small 32-bit x86 kernel: it
    takes over the interrupt controller, the real-time clock and the keyboard,
    builds one address space per process, serves a read-only file system image
    and lets up to six programs run through ten system calls on three text
    terminals.  This development translates its C code into Rocq functions and
    proves what the parts are for.  Most of the programs under src/syscalls are
  translated as well, and run on the kernel through its trap.

    ** How the parts interact, and where they are modelled

    <<
      Userland Syserr Session    what cat, ls, hello, counter, the acceptance
         |                       tests and the shell show on the kernel
      UserKernel                 the kernel behind int 0x80: it satisfies the
         |                       contract the programs rely on
      UserLib Programs           src/syscalls: wrappers, string library, the
         |                       programs, over an interface of system calls
         |  Descriptors         what the descriptor tables keep over any run
         |     |                of system calls and keystrokes
      Dispatch   syscall_table.S the system call gate
         |
      Startup, Boot   kernel.c   entry, from the multiboot information to the
         |                       first shell
      Tty        (specification) the terminal as a program and a user see it
         |
      Keyboard   keyboard.c     scancode -> modifier flags -> keystroke
         |
      Terminal   terminal.c     the line editor, terminal_read, the switch of
         |                      terminals (which may execute a shell)
      Launch     filesystem.c + systemcalls.c   loader and execute together
         |
      Process    systemcalls.c  parse_cmd, execute, halt
         |
      Syscalls   systemcalls.c  open, close, read, write, getargs, vidmap
         |  \       \
      TermIO  Filesystem  Rtc   terminal.c (write, read_helper), filesystem.c,
         |     |           |    rtc.c
      Console  KState     Pic   lib.c (clear, putc, puts, printf), the records
         |     |           |    of systemcalls.h / filesystem.h / terminal.h,
         |   Paging  Idt   |    i8259.c; pagefile.c, idt.c
      CMem, CStr     Machine    lib.c: memory and string routines; port I/O
         |             |        and the interrupt flag
             Memory             byte-addressed memory as an interface
             Prelude            integers, arrays, ranges, bounded search
    >>

    ** Interfaces

    [Memory.ByteStore] with its laws is what the string routines need of
    memory, so the kernel's and the programs' libraries are stated once over
    it.  [Machine.Platform] is what devices put on the bus.
    [UserLib.SysCalls] is all a program sees of the kernel: the trap and its
    own memory.  [UserLib.View] names what a program's state is worth to it
    (the terminal, what each open descriptor still delivers, the names the
    directory has, its argument, the lines the user will type), and
    [UserLib.Contract] is the promise of each system call in those words.  The
    programs are verified against the contract; [UserKernel.kernel_contract]
    proves it of the kernel, where the view is read off the kernel's state.
    What happens while a process runs in another address space is a
    parameter, [elsewhere], about which nothing is assumed.

    ** State

    [Machine.mach] is what the C library and the drivers see: memory [mm] (a
    [gmap] of bytes behind the interface [Memory.ByteStore]), the cursor
    statics of lib.c, the masks of i8259.c, the tick flag of rtc.c, the
    processor's interrupt flag, and the log [ports] of every port access.  The
    values devices put on the bus and what uninitialised C variables hold come
    from the class [Machine.Platform].  Nothing is assumed about it, with one
    exception: the theorems on programs that run on the kernel (Userland,
    Syserr, Session) are over [UserKernel.Layout], whose [ly_junk] says that
    the uninitialised local write_helper returns (terminal.c:284) is not -2,
    because write then returns -1 and the programs take that for a failure.  [KState.kst] adds one record per C file for its
    globals ([fsg] filesystem.c, [sysg] systemcalls.c, [trm] terminal.c), the
    registers that execute and halt handle ([cpu]) and [saved], the PCBs the
    kernel keeps below each process's kernel stack.  These records are not
    bytes of [mm].  The kernel checks the pointers given to read, getargs and
    vidmap against NULL only, so in the program a store through one can hit
    its variables or a PCB; in the model it cannot, and the theorem on runs of
    arbitrary calls ([Descriptors.standard_streams_stay_open]) is about calls
    whose buffers lie in the program's own page.  [mm] is total: where the code
    does not go through the page tables of its own accord (the loader does, by
    [Paging.translate]), an address in an unmapped page does not fault.  C structs are records
    with the C field names; the flags of keyboard.c are [Keyboard.kbd], the
    descriptor table of idt.c is a list of gates.

    Integers are [Z] with the truncation of the C type written out ([u8],
    [u16], [u32], [s8], [s32]); in C a store to a narrower type truncates, so
    does the model; the negation of INT_MIN that printf makes for %d, which C
    leaves undefined, wraps.  A pointer is an address of [mm], or a value of
    [CStr.cptr] where the code distinguishes NULL and string literals.

    A function of the C code that cannot fail is a function on its state; one
    that can is in the option monad, and [None] is undefined behaviour (an
    index out of its array, a call through NULL, a page fault) or a wait that
    the environment never ends.  Interrupts that arrive during a wait are an
    explicit argument: [irqs] is a list of handlers run in turn.  [execute]
    and [halt] leave the C calling convention, so they answer an
    [Process.outcome] that says where control goes.

    ** Fuel

    A loop with no bound of its own takes fuel.  [Console.STR_FUEL] = 4096
    bounds the scan for a NUL, more than any buffer of the kernel;
    [Filesystem.DIR_FUEL] = 64 exceeds the 63 entries of a boot block; [itoa]
    gets 33, one more than the binary digits of a word.  The loops of the
    programs take fuel as an argument, and their theorems ask for as much as
    the file has bytes, the directory names or the session lines.  Where a loop
    terminates, the theorems below say so with the result: the fuel never
    makes a statement true.  [read_data], [find_pid] and [free_task] are
    bounded by the data they scan.

    ** What the theorems show

    - lib.c: [memmove] moves a block under any overlap and the word-wise
      [memcpy] agrees with it on every pair of blocks an ascending copy can
      handle; the word-wise [memset] is the byte-wise fill; [strncmp] compares
      prefixes; [itoa] round-trips for every radix; [printf] shows the text
      its format denotes.
    - Devices: the cached interrupt masks refine the set of enabled lines and
      agree with what was last written to the ports; [rtc_write] accepts
      exactly the powers of two and programs the divider for them; an RTC read
      waits for the next tick and no longer; each of the 256 gates leads to the
      handler of what its vector is for, with the intended privilege, but for
      vectors 15 to 19, which init_idt shifts by one.
    - Paging: the tables [paging_init] builds mean exactly the intended
      address spaces, seen through the processor's own page walk, and two
      processes share nothing that user code can reach but the video page.
    - File system: name lookup, [read_data] (content, count, termination), the
      directory listing, and open-then-read as the programs cat and grep use
      it, all against the image's bytes.
    - System calls: descriptors are allocated and released as promised; from
      the first program on, over any run of system calls, keystrokes and
      terminal switches, descriptors 0 and 1 stay open on the terminal, no
      other leads to it, and close never indexes outside its table.
    - Processes: a command line starts the program it names, if its file is
      shorter than 8192 bytes, in its own address space with its argument, and
      halt undoes execute for the programs above a shell.
    - Boot: from a boot loader's state, entry comes to the first instruction
      of the shell, with the devices, the tables and the address space in
      place; with a wrong magic number or contradictory flags it halts.
    - Terminal and keyboard: write, the line editor and read implement the
      abstract terminal of Tty.v; what is typed is what is read; the line
      buffer never overflows; switching terminals back restores them, but for
      the counter of typed characters; the modifier flags follow the keys and
      the keys follow the layout.
    - User space: cat shows exactly the file's bytes, ls the directory's names
      (but for entries of type 0, which the directory read leaves out), hello
      greets the name as corrected while typing, counter counts, and the kernel
      passes the repository's own acceptance tests (ece391syserr.c); a session
      at the shell comes back to the prompt after every command that names no
      program, at the price of a task slot each.
    - The theorems with kind "error" and "bounds", and some lemmas beside them,
      state what the code does where it misbehaves: putc at the right edge,
      lookup by inode number, reads across two block ends, close of an older
      descriptor, execute of an unknown program.

    ** Not modelled

    User programs are their C source run call by call; their machine code and
    the page they run in are not modelled, and the theorem on halt quantifies
    over everything a process may do to memory and its PCB.  A pointer argument
    of a system call is an address of [mm] that is already translated.  The
    assembly that saves registers around the handlers and boot.S are not
    modelled; of x86_desc.S the sizes of the tables are.  grep, with its file
    search inside the directory loop, is translated without a theorem:
    the second read of the directory does not work on this kernel, because
    opening a file overwrites the directory's entry (see open in Syscalls.v).
    pingpong animates for ever on the real-time clock; sigtest needs signals,
    which the kernel's set_handler and sigreturn do not implement; fish draws
    through vidmap from data assembled with it; ece391emulate.c stands in for
    the kernel on a Linux host.  The debugging macros are not modelled.  *)

From Stdlib Require Import ZArith Lia String Ascii.
From stdpp Require Import base list gmap.

Declare Scope kernel_scope.
Delimit Scope kernel_scope with kernel.
Open Scope Z_scope.

(** ** Machine integers

    A C integer is a [Z]; every operation that can leave the type's range is
    followed by the truncation of its type. *)

Definition u8 (z : Z) : Z := z mod 256.
Definition u16 (z : Z) : Z := z mod 65536.
Definition u32 (z : Z) : Z := z mod 4294967296.
Definition s8 (z : Z) : Z := (z + 128) mod 256 - 128.
Definition s32 (z : Z) : Z := (z + 2147483648) mod 4294967296 - 2147483648.

(** C's [int]-valued truth value of a condition. *)
Definition b2z (b : bool) : Z := if b then 1 else 0.

Ltac width_unfold := unfold u8, u16, u32, s8, s32 in *.

(** [lia] with the Euclidean equations of every [/] and [mod] in sight. *)
Ltac zlia := width_unfold; Z.div_mod_to_equations; lia.

Lemma u8_range z : 0 <= u8 z < 256.
Proof. zlia. Qed.
Lemma u16_range z : 0 <= u16 z < 65536.
Proof. zlia. Qed.
Lemma u32_range z : 0 <= u32 z < 4294967296.
Proof. zlia. Qed.
Lemma s32_range z : -2147483648 <= s32 z < 2147483648.
Proof. zlia. Qed.
Lemma s8_range z : -128 <= s8 z < 128.
Proof. zlia. Qed.
Lemma u8_small z : 0 <= z < 256 -> u8 z = z.
Proof. intros. now apply Z.mod_small. Qed.
Lemma u32_small z : 0 <= z < 4294967296 -> u32 z = z.
Proof. intros. now apply Z.mod_small. Qed.
Lemma s32_small z : -2147483648 <= z < 2147483648 -> s32 z = z.
Proof. intros. zlia. Qed.
Lemma u8_u8 z : u8 (u8 z) = u8 z.
Proof. apply Z.mod_mod. lia. Qed.
Lemma u32_u32 z : u32 (u32 z) = u32 z.
Proof. apply Z.mod_mod. lia. Qed.
Lemma u32_add_l a b : u32 (u32 a + b) = u32 (a + b).
Proof. apply Z.add_mod_idemp_l. lia. Qed.
Lemma u32_add_r a b : u32 (a + u32 b) = u32 (a + b).
Proof. apply Z.add_mod_idemp_r. lia. Qed.
Lemma u32_s32 z : u32 (s32 z) = u32 z.
Proof. zlia. Qed.
Lemma s8_inj a b :
  0 <= a < 256 -> 0 <= b < 256 -> s8 a = s8 b -> a = b.
Proof. zlia. Qed.

Create HintDb width.
Create HintDb idt.
Create HintDb kst.
Create Rewrite HintDb width.
Create Rewrite HintDb arr.
Create Rewrite HintDb kst.
Create Rewrite HintDb mem.
Create Rewrite HintDb ports.
Create Rewrite HintDb bits.
#[export] Hint Resolve u8_range u16_range u32_range s8_range : width.
#[export] Hint Rewrite u8_u8 u32_u32 u32_add_l u32_add_r : width.

(** ** Arrays

    A C array is a list; [aget]/[aset] are the in-range accesses.  The
    operations that can leave an array say so in their own result type. *)

Definition aget {A} `{Inhabited A} (l : list A) (i : Z) : A := l !!! Z.to_nat i.
Definition aset {A} (l : list A) (i : Z) (v : A) : list A := <[Z.to_nat i := v]> l.
Definition in_range (i n : Z) : bool := (0 <=? i) && (i <? n).

Section Arrays.
Context {A : Type} `{!Inhabited A}.
Implicit Types l : list A.

Lemma length_aset l i v : length (aset l i v) = length l.
Proof. apply length_insert. Qed.

Lemma aget_aset_eq l i v :
  0 <= i < Z.of_nat (length l) -> aget (aset l i v) i = v.
Proof. intros. apply list_lookup_total_insert_eq. lia. Qed.

Lemma aget_aset_ne l i j v :
  0 <= i -> 0 <= j -> i <> j -> aget (aset l i v) j = aget l j.
Proof. intros. apply list_lookup_total_insert_ne. lia. Qed.

Lemma aset_aset l i v w : aset (aset l i v) i w = aset l i w.
Proof. apply list_insert_insert_eq. Qed.
End Arrays.
#[export] Hint Rewrite @length_aset : arr.

(** The characters of a C string literal, without its NUL. *)
Fixpoint chars (s : string) : list Z :=
  match s with
  | EmptyString => []
  | String c s' => Z.of_N (N_of_ascii c) :: chars s'
  end.
Arguments chars _%_string_scope.

(** the integers from [lo] up to, not including, [hi]: the indices of a C
    [for(i = lo; i < hi; i++)] *)
Definition zrange (lo hi : Z) : list Z :=
  map (fun k => lo + Z.of_nat k) (seq 0 (Z.to_nat (hi - lo))).

Lemma elem_of_zrange lo hi i : i ∈ zrange lo hi <-> lo <= i < hi.
Proof.
  unfold zrange. rewrite list_elem_of_In, in_map_iff. split.
  - intros (k & <- & Hk). apply in_seq in Hk. lia.
  - intros Hi. exists (Z.to_nat (i - lo)). rewrite in_seq. lia.
Qed.

Lemma length_zrange lo hi : length (zrange lo hi) = Z.to_nat (hi - lo).
Proof. unfold zrange. now rewrite length_map, length_seq. Qed.

Lemma zrange_lookup lo hi i :
  (i < Z.to_nat (hi - lo))%nat -> zrange lo hi !! i = Some (lo + Z.of_nat i).
Proof.
  intros Hi. unfold zrange. change (map ?f ?l) with (f <$> l).
  rewrite list_lookup_fmap, lookup_seq_lt by done. done.
Qed.

Lemma zrange_lookup_ge lo hi i :
  (Z.to_nat (hi - lo) <= i)%nat -> zrange lo hi !! i = None.
Proof. intros Hi. apply lookup_ge_None. now rewrite length_zrange. Qed.

Lemma zrange_app a b c : a <= b <= c -> zrange a c = zrange a b ++ zrange b c.
Proof.
  intros H. apply list_eq. intros i. destruct (decide (i < Z.to_nat (b - a))%nat).
  - rewrite lookup_app_l by (rewrite length_zrange; lia).
    rewrite !zrange_lookup by lia. done.
  - rewrite lookup_app_r by (rewrite length_zrange; lia). rewrite length_zrange.
    destruct (decide (i < Z.to_nat (c - a))%nat).
    + rewrite !zrange_lookup by lia. f_equal. lia.
    + rewrite !zrange_lookup_ge by lia. done.
Qed.

(** a C loop over part of an index range reads a slice *)
Lemma map_zrange_slice {A} (f : Z -> A) n o k :
  0 <= o -> 0 <= k -> o + k <= n ->
  map (fun j => f (o + j)) (zrange 0 k) =
  take (Z.to_nat k) (drop (Z.to_nat o) (map f (zrange 0 n))).
Proof.
  intros Ho Hk Hn. apply list_eq. intros i.
  change (map ?g ?l) with (g <$> l). rewrite lookup_take, lookup_drop, !list_lookup_fmap.
  case_decide.
  - rewrite !zrange_lookup by lia. cbn. do 2 f_equal. lia.
  - now rewrite zrange_lookup_ge by lia.
Qed.

Lemma map_zrange_const {A} (f : Z -> A) v lo hi :
  (forall j, lo <= j < hi -> f j = v) ->
  map f (zrange lo hi) = replicate (Z.to_nat (hi - lo)) v.
Proof.
  intros Hf. apply list_eq. intros i. change (map ?g ?l) with (g <$> l).
  rewrite list_lookup_fmap. destruct (decide (i < Z.to_nat (hi - lo))%nat).
  - rewrite zrange_lookup, lookup_replicate_2 by lia. cbn. f_equal. apply Hf. lia.
  - rewrite zrange_lookup_ge by lia. symmetry. apply lookup_replicate_None. lia.
Qed.

Lemma map_zrange_ext {A} (f g : Z -> A) lo hi :
  (forall j, lo <= j < hi -> f j = g j) -> map f (zrange lo hi) = map g (zrange lo hi).
Proof. intros H. apply map_ext_in. intros j Hj%list_elem_of_In%elem_of_zrange. auto. Qed.

Lemma map_zrange_shift {A} (f : Z -> A) o lo hi :
  map (fun j => f (o + j)) (zrange lo hi) = map f (zrange (o + lo) (o + hi)).
Proof.
  unfold zrange. rewrite !map_map. replace (o + hi - (o + lo)) with (hi - lo) by lia.
  apply map_ext. intros k. f_equal. lia.
Qed.

(** a loop that reads a whole array *)
Lemma map_aget_zrange {A} `{!Inhabited A} (l : list A) :
  map (aget l) (zrange 0 (Z.of_nat (length l))) = l.
Proof.
  apply list_eq. intros i. change (map ?g ?l) with (g <$> l). rewrite list_lookup_fmap.
  destruct (decide (i < length l)%nat) as [Hi|Hi].
  - rewrite zrange_lookup by lia. cbn. unfold aget. rewrite Z.add_0_l, Nat2Z.id.
    symmetry. now apply list_lookup_lookup_total_lt.
  - rewrite zrange_lookup_ge by lia. symmetry. apply lookup_ge_None. lia.
Qed.

Lemma map_aget_all {A} `{!Inhabited A} (l : list A) n :
  n = Z.of_nat (length l) -> map (aget l) (zrange 0 n) = l.
Proof. intros ->. apply map_aget_zrange. Qed.

Lemma zrange_one k : zrange k (k + 1) = [k].
Proof. unfold zrange. rewrite Z.add_simpl_l. change (Z.to_nat 1) with 1%nat.
  cbn [seq map]. now rewrite Z.add_0_r. Qed.
Lemma zrange_nil k : zrange k k = [].
Proof. unfold zrange. now rewrite Z.sub_diag. Qed.

Lemma filter_none {A} (f : A -> bool) l :
  (forall x, x ∈ l -> f x = false) -> List.filter f l = [].
Proof.
  induction l as [|x l IH]; intros H; cbn; [done|].
  rewrite H by apply list_elem_of_here. apply IH. intros y Hy. apply H.
  now apply list_elem_of_further.
Qed.

(** one step of the option monad *)
Lemma bind_some {A B} (f : A -> option B) x : Some x ≫= f = f x.
Proof. reflexivity. Qed.

(** ** Bounded search

    [find_first f n i] is the first [k] with [i <= k < i + n] and [f k], the
    result of a C [for] loop that leaves on a match. *)

Fixpoint find_first (f : Z -> bool) (n : nat) (i : Z) : option Z :=
  match n with
  | O => None
  | S n' => if f i then Some i else find_first f n' (i + 1)
  end.

Lemma find_first_Some f n i k :
  find_first f n i = Some k <->
  i <= k < i + Z.of_nat n /\ f k = true /\ (forall j, i <= j < k -> f j = false).
Proof.
  revert i. induction n as [|n IH]; intros i; cbn [find_first].
  - split; [done | lia].
  - destruct (f i) eqn:Hi.
    + split.
      * intros [= <-]. repeat split; [lia | lia | done | lia].
      * intros (Hk & Hf & Hlt). destruct (decide (i = k)) as [->|]; [done|].
        rewrite (Hlt i) in Hi; [done | lia].
    + rewrite IH. split; intros (Hk & Hf & Hlt); (split; [|split; [done|]]).
      * lia.
      * intros j Hj. destruct (decide (j = i)) as [->|]; [done | apply Hlt; lia].
      * destruct (decide (i = k)) as [->|]; [congruence | lia].
      * intros j Hj. apply Hlt. lia.
Qed.

Lemma find_first_None f n i :
  find_first f n i = None <-> (forall j, i <= j < i + Z.of_nat n -> f j = false).
Proof.
  revert i. induction n as [|n IH]; intros i; cbn [find_first].
  - split; [lia | done].
  - destruct (f i) eqn:Hi.
    + split; [done|]. intros H. rewrite (H i) in Hi; [done | lia].
    + rewrite IH. split; intros H j Hj; [|apply H; lia].
      destruct (decide (j = i)) as [->|]; [done | apply H; lia].
Qed.
