(* ===== verification/Memory.v ===== *)
(** * Byte-addressed memory

    The interface the C library is verified against (a store of 8-bit cells
    at 32-bit addresses), its finite-map instance, and the pointwise
    equivalence of memories with the operations that respect it. *)

From Stdlib Require Import ZArith Lia Setoid Morphisms.
From stdpp Require Import base list gmap.
From S2P Require Import Prelude.
Open Scope Z_scope.

(** ** The interface *)

Class ByteStore (M : Type) := {
  rd : M -> Z -> Z;               (* load one byte *)
  wr : M -> Z -> Z -> M           (* store one byte *)
}.

Class ByteStoreLaws (M : Type) `{ByteStore M} := {
  rd_range : forall m a, 0 <= rd m a < 256;
  rd_u32 : forall m a, rd m (u32 a) = rd m a;
  rd_wr : forall m a b v,
    rd (wr m a v) b = if u32 a =? u32 b then u8 v else rd m b
}.

(** ** Physical memory *)

Abbreviation mem := (gmap Z Z).

#[export] Instance mem_store : ByteStore mem := {
  rd m a := u8 (default 0 (m !! u32 a));
  wr m a v := <[u32 a := u8 v]> m
}.

#[export] Instance mem_laws : ByteStoreLaws mem.
Proof.
  split; intros; cbn.
  - apply u8_range.
  - now rewrite u32_u32.
  - rewrite lookup_insert. destruct (Z.eqb_spec (u32 a) (u32 b)) as [E|E].
    + rewrite decide_True by done. apply u8_u8.
    + now rewrite decide_False.
Qed.

(** ** Wider accesses and byte strings *)

Section Ops.
Context {M : Type} `{ByteStore M}.

(** little-endian loads and stores *)
Definition rd16 (m : M) (a : Z) : Z := rd m a + 256 * rd m (a + 1).
Definition rd32 (m : M) (a : Z) : Z :=
  rd m a + 256 * rd m (a + 1) + 65536 * rd m (a + 2) + 16777216 * rd m (a + 3).
Definition wr16 (m : M) (a v : Z) : M := wr (wr m a v) (a + 1) (v / 256).
Definition wr32 (m : M) (a v : Z) : M :=
  wr (wr (wr (wr m a v) (a + 1) (v / 256)) (a + 2) (v / 65536))
     (a + 3) (v / 16777216).

(** the [n] bytes from [a] on, and the store of a byte string *)
Fixpoint rdn (m : M) (a : Z) (n : nat) : list Z :=
  match n with O => [] | S n' => rd m a :: rdn m (a + 1) n' end.
Fixpoint wrl (m : M) (a : Z) (bs : list Z) : M :=
  match bs with [] => m | b :: bs' => wrl (wr m a b) (a + 1) bs' end.

(** two memories with the same contents *)
Definition mem_eq (m1 m2 : M) : Prop := forall a, rd m1 a = rd m2 a.
End Ops.

Notation "m1 ≃ m2" := (mem_eq m1 m2) (at level 70) : kernel_scope.
Open Scope kernel_scope.

(** offset of [b] in a region that starts at [a] *)
Abbreviation off a b := (u32 (b - a)).

Section Laws.
Context {M : Type} `{ByteStoreLaws M}.
Implicit Types m : M.

#[export] Instance mem_eq_equiv : Equivalence (mem_eq (M := M)).
Proof.
  split.
  - now intros m a.
  - intros m1 m2 E a. now rewrite E.
  - intros m1 m2 m3 E1 E2 a. now rewrite E1, E2.
Qed.

#[export] Instance rd_proper : Proper (mem_eq ==> eq ==> eq) (rd (M := M)).
Proof. intros m1 m2 E a ? <-. apply E. Qed.

#[export] Instance wr_proper : Proper (mem_eq ==> eq ==> eq ==> mem_eq) (wr (M := M)).
Proof. intros m1 m2 E a ? <- v ? <- b. now rewrite !rd_wr, E. Qed.

#[export] Instance rd32_proper : Proper (mem_eq ==> eq ==> eq) (rd32 (M := M)).
Proof. intros m1 m2 E a ? <-. unfold rd32. now rewrite !E. Qed.

#[export] Instance rdn_proper : Proper (mem_eq ==> eq ==> eq ==> eq) (rdn (M := M)).
Proof.
  intros m1 m2 E a ? <- n ? <-. revert a.
  induction n as [|n IH]; intros a; cbn; [done|]. now rewrite E, IH.
Qed.

#[export] Instance wrl_proper : Proper (mem_eq ==> eq ==> eq ==> mem_eq) (wrl (M := M)).
Proof.
  intros m1 m2 E a ? <- bs ? <-. revert m1 m2 a E.
  induction bs as [|b bs IH]; intros m1 m2 a E; cbn; [done|].
  apply IH. now rewrite E.
Qed.

Lemma rd_eq m a b : u32 a = u32 b -> rd m a = rd m b.
Proof. intros E. now rewrite <- (rd_u32 m a), E, rd_u32. Qed.

Lemma rd_wr_off m a b v :
  rd (wr m a v) b = if off a b =? 0 then u8 v else rd m b.
Proof.
  rewrite rd_wr.
  destruct (Z.eqb_spec (u32 a) (u32 b)), (Z.eqb_spec (off a b) 0);
    [done | zlia | zlia | done].
Qed.

Lemma u8_rd m a : u8 (rd m a) = rd m a.
Proof. apply u8_small, rd_range. Qed.

(** what a stored byte string reads back as, at every address *)
Lemma rd_wrl m a bs b :
  Z.of_nat (length bs) <= 4294967296 ->
  rd (wrl m a bs) b =
    if off a b <? Z.of_nat (length bs) then u8 (bs !!! Z.to_nat (off a b)) else rd m b.
Proof.
  revert m a. induction bs as [|x bs IH]; intros m a Hn; cbn [wrl length] in *.
  - change (Z.of_nat 0) with 0. destruct (Z.ltb_spec (off a b) 0); [zlia | done].
  - rewrite IH by lia. rewrite rd_wr_off.
    destruct (Z.eqb_spec (off a b) 0) as [E|E].
    + assert (off (a + 1) b = 4294967295) as -> by zlia. rewrite E.
      destruct (Z.ltb_spec 4294967295 (Z.of_nat (length bs))); [lia|].
      destruct (Z.ltb_spec 0 (Z.of_nat (S (length bs)))); [done | lia].
    + assert (off a b = off (a + 1) b + 1) as -> by zlia.
      pose proof (u32_range (b - (a + 1))).
      destruct (Z.ltb_spec (off (a + 1) b) (Z.of_nat (length bs))),
        (Z.ltb_spec (off (a + 1) b + 1) (Z.of_nat (S (length bs)))); try lia.
      replace (Z.to_nat (off (a + 1) b + 1)) with (S (Z.to_nat (off (a + 1) b))) by lia.
      done.
Qed.

Lemma length_rdn m a n : length (rdn m a n) = n.
Proof. revert a. induction n; intros a; cbn; auto. Qed.

Lemma rdn_lookup m a n i :
  (i < n)%nat -> rdn m a n !!! i = rd m (a + Z.of_nat i).
Proof.
  revert a i. induction n as [|n IH]; intros a [|i] Hi; cbn; try lia.
  - f_equal. lia.
  - change (rdn m (a + 1) n !!! i = rd m (a + Z.of_nat (S i))).
    rewrite IH by lia. f_equal. lia.
Qed.

Lemma take_rdn m a k n : (k <= n)%nat -> take k (rdn m a n) = rdn m a k.
Proof.
  revert a k. induction n as [|n IH]; intros a [|k] Hk; cbn; try done; try lia.
  f_equal. apply IH. lia.
Qed.

(** the word a 32-bit load yields holds the four bytes it read *)
Lemma rd32_bytes m a :
  u8 (rd32 m a) = rd m a /\ u8 (rd32 m a / 256) = rd m (a + 1) /\
  u8 (rd32 m a / 65536) = rd m (a + 2) /\ u8 (rd32 m a / 16777216) = rd m (a + 3).
Proof.
  unfold rd32.
  pose proof (rd_range m a). pose proof (rd_range m (a + 1)).
  pose proof (rd_range m (a + 2)). pose proof (rd_range m (a + 3)).
  repeat split; zlia.
Qed.

Lemma rd32_range m a : 0 <= rd32 m a < 4294967296.
Proof.
  unfold rd32.
  pose proof (rd_range m a). pose proof (rd_range m (a + 1)).
  pose proof (rd_range m (a + 2)). pose proof (rd_range m (a + 3)). lia.
Qed.
End Laws.

#[export] Hint Resolve rd_range rd32_range : width.
#[export] Hint Rewrite @u8_rd @length_rdn using typeclasses eauto : mem.
