(* ===== verification/CMem.v ===== *)
(** * Memory routines of lib.c

    [memcpy], [memmove] and the three [memset]s, instruction by instruction
    from their inline assembly, over any [ByteStore]; the specification of
    each is a pointwise statement about every address of the store.

    Registers are [Z]s: they are only ever used as addresses ([rd]/[wr] see
    their low 32 bits) or tested on low bits, so no explicit truncation of
    [%esi]/[%edi] is needed.  Counters are [nat]s. *)

From Stdlib Require Import ZArith Lia Setoid Morphisms.
From stdpp Require Import base list.
From S2P Require Import Prelude Memory.
Open Scope Z_scope.

Section CMem.
Context {M : Type} `{ByteStoreLaws M}.
Implicit Types m : M.

(** [movb (%esi),%al; movb %al,(%edi); addl $1,...] repeated [n] times:
    the byte loops of memcpy and a forward [rep movsb] *)
Fixpoint movsb_up (n : nat) (m : M) (esi edi : Z) : M :=
  match n with
  | O => m
  | S n' => movsb_up n' (wr m edi (rd m esi)) (esi + 1) (edi + 1)
  end.

(** [std; rep movsb] *)
Fixpoint movsb_down (n : nat) (m : M) (esi edi : Z) : M :=
  match n with
  | O => m
  | S n' => movsb_down n' (wr m edi (rd m esi)) (esi - 1) (edi - 1)
  end.

(** [cld; rep movsl]: memory, final %esi, final %edi *)
Fixpoint rep_movsl (ecx : nat) (m : M) (esi edi : Z) : M * Z * Z :=
  match ecx with
  | O => (m, esi, edi)
  | S ecx' => rep_movsl ecx' (wr32 m edi (rd32 m esi)) (esi + 4) (edi + 4)
  end.

(** [.memcpy_aligned] and [.memcpy_bottom] *)
Definition memcpy_aligned (ecx : nat) (m : M) (esi edi : Z) : M :=
  let edx := Z.to_nat (Z.land (Z.of_nat ecx) 3) in
  let ecx := Z.to_nat (Z.shiftr (Z.of_nat ecx) 2) in
  let '(m, esi, edi) := rep_movsl ecx m esi edi in
  movsb_up edx m esi edi.

(** [.memcpy_top] *)
Fixpoint memcpy_top (ecx : nat) (m : M) (esi edi : Z) : M :=
  match ecx with
  | O => m
  | S ecx' =>
      if Z.land edi 3 =? 0 then memcpy_aligned ecx m esi edi
      else memcpy_top ecx' (wr m edi (rd m esi)) (esi + 1) (edi + 1)
  end.

Definition memcpy (m : M) (dest src n : Z) : M :=
  memcpy_top (Z.to_nat (u32 n)) m src dest.

(** [memmove]: the memory and the direction flag it leaves behind *)
Definition memmove (m : M) (dest src n : Z) : M * bool :=
  if u32 dest <=? u32 src
  then (movsb_up (Z.to_nat (u32 n)) m src dest, false)
  else (movsb_down (Z.to_nat (u32 n)) m (src + u32 n - 1) (dest + u32 n - 1), true).

(** byte loops of memset, [rep stosl], [rep stosw] *)
Fixpoint stosb_up (n : nat) (m : M) (al edi : Z) : M :=
  match n with O => m | S n' => stosb_up n' (wr m edi al) al (edi + 1) end.
Fixpoint rep_stosl (ecx : nat) (m : M) (eax edi : Z) : M * Z :=
  match ecx with
  | O => (m, edi)
  | S ecx' => rep_stosl ecx' (wr32 m edi eax) eax (edi + 4)
  end.
Fixpoint rep_stosw (ecx : nat) (m : M) (ax edi : Z) : M :=
  match ecx with
  | O => m
  | S ecx' => rep_stosw ecx' (wr16 m edi ax) ax (edi + 2)
  end.

Definition memset_aligned (ecx : nat) (m : M) (eax edi : Z) : M :=
  let edx := Z.to_nat (Z.land (Z.of_nat ecx) 3) in
  let ecx := Z.to_nat (Z.shiftr (Z.of_nat ecx) 2) in
  let '(m, edi) := rep_stosl ecx m eax edi in
  stosb_up edx m eax edi.

Fixpoint memset_top (ecx : nat) (m : M) (eax edi : Z) : M :=
  match ecx with
  | O => m
  | S ecx' =>
      if Z.land edi 3 =? 0 then memset_aligned ecx m eax edi
      else memset_top ecx' (wr m edi eax) eax (edi + 1)
  end.

Definition memset (m : M) (s c n : Z) : M :=
  let c := Z.land c 255 in
  let eax := u32 (Z.lor (Z.lor (Z.lor (Z.shiftl c 24) (Z.shiftl c 16)) (Z.shiftl c 8)) c) in
  memset_top (Z.to_nat (u32 n)) m eax s.

Definition memset_word (m : M) (s c n : Z) : M :=
  rep_stosw (Z.to_nat (u32 n)) m (u32 c) s.

Definition memset_dword (m : M) (s c n : Z) : M :=
  fst (rep_stosl (Z.to_nat (u32 n)) m (u32 c) s).

(** ** Specifications *)

(** [m'] is [m] with the [n] bytes at [s] copied to [d]. *)
Definition copied (m m' : M) (s d n : Z) : Prop :=
  forall b, rd m' b = if off d b <? n then rd m (s + off d b) else rd m b.

(** [m'] is [m] with byte [f i] at offset [i] of the [n] bytes at [a]. *)
Definition filled (m m' : M) (a n : Z) (f : Z -> Z) : Prop :=
  forall b, rd m' b = if off a b <? n then f (off a b) else rd m b.

(** an ascending copy does not overwrite source bytes it has yet to read *)
Definition ascending_ok (s d n : Z) : Prop := off s d = 0 \/ n <= off s d.

Lemma copied_app m m1 m2 s d k n :
  0 <= k -> 0 <= n -> k + n <= 4294967296 -> ascending_ok s d (k + n) ->
  copied m m1 s d k -> copied m1 m2 (s + k) (d + k) n -> copied m m2 s d (k + n).
Proof.
  intros Hk Hn Hw Hov H1 H2 b. rewrite H2.
  pose proof (u32_range (b - d)) as Ho.
  destruct (Z.ltb_spec (off d b) (k + n)) as [Hb|Hb].
  - destruct (Z.ltb_spec (off d b) k) as [Hb'|Hb'].
    + destruct (Z.ltb_spec (off (d + k) b) n); [zlia|].
      rewrite H1. now destruct (Z.ltb_spec (off d b) k); [|lia].
    + assert (off (d + k) b = off d b - k) as -> by zlia.
      destruct (Z.ltb_spec (off d b - k) n); [|lia].
      rewrite H1. replace (s + k + (off d b - k)) with (s + off d b) by lia.
      destruct (Z.ltb_spec (off d (s + off d b)) k) as [Hc|]; [|done].
      exfalso. destruct Hov as [Hov|Hov]; zlia.
  - destruct (Z.ltb_spec (off (d + k) b) n); [zlia|].
    rewrite H1. now destruct (Z.ltb_spec (off d b) k); [lia|].
Qed.

Lemma copied_refl m s d : copied m m s d 0.
Proof. intros b. pose proof (u32_range (b - d)). now destruct (Z.ltb_spec (off d b) 0); [lia|]. Qed.

Lemma copied_one m s d : copied m (wr m d (rd m s)) s d 1.
Proof.
  intros b. rewrite rd_wr_off, u8_rd. pose proof (u32_range (b - d)).
  destruct (Z.eqb_spec (off d b) 0) as [->|], (Z.ltb_spec (off d b) 1); try lia; try done.
  all: cbn; f_equal; lia.
Qed.

(** byte [i] of the four stored at [a] *)
Lemma rd_wr32 m a v b :
  rd (wr32 m a v) b =
    if off a b <? 4 then u8 (v / 256 ^ off a b) else rd m b.
Proof.
  unfold wr32. rewrite !rd_wr_off. pose proof (u32_range (b - a)).
  destruct (Z.ltb_spec (off a b) 4) as [Hb|Hb].
  - assert (off a b = 0 \/ off a b = 1 \/ off a b = 2 \/ off a b = 3) as Hc by lia.
    destruct (Z.eqb_spec (off (a + 3) b) 0); [replace (off a b) with 3 by zlia; done|].
    destruct (Z.eqb_spec (off (a + 2) b) 0); [replace (off a b) with 2 by zlia; done|].
    destruct (Z.eqb_spec (off (a + 1) b) 0); [replace (off a b) with 1 by zlia; done|].
    destruct (Z.eqb_spec (off a b) 0) as [->|]; [f_equal; cbn; symmetry; apply Z.div_1_r|].
    exfalso. zlia.
  - destruct (Z.eqb_spec (off (a + 3) b) 0); [exfalso; zlia|].
    destruct (Z.eqb_spec (off (a + 2) b) 0); [exfalso; zlia|].
    destruct (Z.eqb_spec (off (a + 1) b) 0); [exfalso; zlia|].
    destruct (Z.eqb_spec (off a b) 0); [exfalso; lia | done].
Qed.

Lemma u8_rd32 m a i : 0 <= i < 4 -> u8 (rd32 m a / 256 ^ i) = rd m (a + i).
Proof.
  intros Hi. destruct (rd32_bytes m a) as (H0' & H1' & H2' & H3').
  assert (i = 0 \/ i = 1 \/ i = 2 \/ i = 3) as [->|[->|[->| ->] ] ] by lia; cbn.
  - now rewrite Z.div_1_r, H0', Z.add_0_r.
  - done.
  - done.
  - done.
Qed.

Lemma copied_word m s d : copied m (wr32 m d (rd32 m s)) s d 4.
Proof.
  intros b. rewrite rd_wr32. pose proof (u32_range (b - d)).
  destruct (Z.ltb_spec (off d b) 4); [apply u8_rd32; lia | done].
Qed.

(** ** Ascending copies *)

Lemma ascending_ok_weaken s d n k : k <= n -> ascending_ok s d n -> ascending_ok s d k.
Proof. unfold ascending_ok. lia. Qed.

Lemma ascending_ok_shift s d n k : ascending_ok s d n -> ascending_ok (s + k) (d + k) n.
Proof. unfold ascending_ok. now replace (d + k - (s + k)) with (d - s) by lia. Qed.

Hint Resolve copied_one copied_word copied_refl : core.

Lemma movsb_up_copied n m s d :
  Z.of_nat n <= 4294967296 -> ascending_ok s d (Z.of_nat n) ->
  copied m (movsb_up n m s d) s d (Z.of_nat n).
Proof.
  revert m s d. induction n as [|n IH]; intros m s d Hn Hov; cbn [movsb_up]; [done|].
  rewrite Nat2Z.inj_succ, <- Z.add_1_l in *.
  eapply copied_app; [lia | lia | lia | done | done |].
  apply IH; [lia|]. eapply ascending_ok_shift, ascending_ok_weaken, Hov. lia.
Qed.

Lemma rep_movsl_copied n m s d m' s' d' :
  4 * Z.of_nat n <= 4294967296 -> ascending_ok s d (4 * Z.of_nat n) ->
  rep_movsl n m s d = (m', s', d') ->
  copied m m' s d (4 * Z.of_nat n) /\ s' = s + 4 * Z.of_nat n /\ d' = d + 4 * Z.of_nat n.
Proof.
  revert m s d. induction n as [|n IH]; intros m s d Hn Hov; cbn [rep_movsl].
  - intros [= <- <- <-]. repeat split; [done | lia | lia].
  - intros E. apply IH in E as (Hc & -> & ->);
      [| lia | eapply ascending_ok_shift, ascending_ok_weaken, Hov; lia].
    repeat split; [|lia|lia].
    replace (4 * Z.of_nat (S n)) with (4 + 4 * Z.of_nat n) in * by lia.
    eapply copied_app; [lia | lia | lia | done | done | done].
Qed.

Lemma quads_and_rest n :
  Z.of_nat n = 4 * Z.of_nat (Z.to_nat (Z.shiftr (Z.of_nat n) 2))
               + Z.of_nat (Z.to_nat (Z.land (Z.of_nat n) 3)).
Proof.
  rewrite Z.shiftr_div_pow2 by lia. change 3 with (Z.ones 2).
  rewrite Z.land_ones by lia. change (2 ^ 2) with 4. zlia.
Qed.

Lemma memcpy_aligned_copied n m s d :
  Z.of_nat n <= 4294967296 -> ascending_ok s d (Z.of_nat n) ->
  copied m (memcpy_aligned n m s d) s d (Z.of_nat n).
Proof.
  intros Hn Hov. unfold memcpy_aligned. pose proof (quads_and_rest n) as Hq.
  set (q := Z.to_nat (Z.shiftr _ _)) in *. set (r := Z.to_nat (Z.land _ _)) in *.
  destruct (rep_movsl q m s d) as [[m1 s1] d1] eqn:E. rewrite Hq in *.
  apply rep_movsl_copied in E as (Hc & -> & ->);
    [| lia | eapply ascending_ok_weaken, Hov; lia].
  eapply copied_app; [lia | lia | lia | done | done |].
  apply movsb_up_copied; [lia|]. eapply ascending_ok_shift, ascending_ok_weaken, Hov. lia.
Qed.

Lemma memcpy_top_copied n m s d :
  Z.of_nat n <= 4294967296 -> ascending_ok s d (Z.of_nat n) ->
  copied m (memcpy_top n m s d) s d (Z.of_nat n).
Proof.
  revert m s d. induction n as [|n IH]; intros m s d Hn Hov; cbn [memcpy_top]; [done|].
  case_match; [now apply memcpy_aligned_copied|].
  rewrite Nat2Z.inj_succ, <- Z.add_1_l in *.
  eapply copied_app; [lia | lia | lia | done | done |].
  apply IH; [lia|]. eapply ascending_ok_shift, ascending_ok_weaken, Hov. lia.
Qed.

Lemma memcpy_copied m dest src n :
  ascending_ok src dest (u32 n) ->
  copied m (memcpy m dest src n) src dest (u32 n).
Proof.
  intros Hov. unfold memcpy. pose proof (u32_range n).
  rewrite <- (Z2Nat.id (u32 n)) in Hov |- * by lia. rewrite Nat2Z.id.
  apply memcpy_top_copied; [lia | done].
Qed.

Lemma copied_wrl m m' s d n :
  0 <= n <= 4294967296 -> copied m m' s d n -> m' ≃ wrl m d (rdn m s (Z.to_nat n)).
Proof.
  intros Hn Hc b. rewrite Hc, rd_wrl; rewrite length_rdn, ?Z2Nat.id by lia; [|lia].
  pose proof (u32_range (b - d)).
  destruct (Z.ltb_spec (off d b) n); [|done].
  rewrite rdn_lookup, Z2Nat.id, u8_rd by lia. done.
Qed.

(** ** Descending copies *)

(** a descending copy does not overwrite source bytes it has yet to read *)
Definition descending_ok (s d n : Z) : Prop := off d s = 0 \/ n <= off d s.

Lemma movsb_down_copied n m s d :
  Z.of_nat n <= 4294967296 -> descending_ok s d (Z.of_nat n) ->
  copied m (movsb_down n m (s + Z.of_nat n - 1) (d + Z.of_nat n - 1)) s d (Z.of_nat n).
Proof.
  revert m. induction n as [|n IH]; intros m Hn Hov; cbn [movsb_down]; [apply copied_refl|].
  replace (s + Z.of_nat (S n) - 1 - 1) with (s + Z.of_nat n - 1) by lia.
  replace (d + Z.of_nat (S n) - 1 - 1) with (d + Z.of_nat n - 1) by lia.
  intros b. rewrite IH; [|lia|unfold descending_ok in *; lia].
  rewrite !rd_wr_off, u8_rd. pose proof (u32_range (b - d)).
  destruct (Z.ltb_spec (off d b) (Z.of_nat n)) as [Hb|Hb].
  - destruct (Z.ltb_spec (off d b) (Z.of_nat (S n))); [|lia].
    destruct (Z.eqb_spec (off (d + Z.of_nat (S n) - 1) (s + off d b)) 0); [|done].
    exfalso. destruct Hov as [Hov|Hov]; zlia.
  - destruct (Z.eqb_spec (off (d + Z.of_nat (S n) - 1) b) 0) as [Hz|Hz].
    + assert (off d b = Z.of_nat n) as -> by zlia.
      destruct (Z.ltb_spec (Z.of_nat n) (Z.of_nat (S n))); [f_equal; lia | lia].
    + destruct (Z.ltb_spec (off d b) (Z.of_nat (S n))); [exfalso; zlia | done].
Qed.

Lemma memmove_copied m dest src n :
  u32 src + u32 n <= 4294967296 -> u32 dest + u32 n <= 4294967296 ->
  copied m (fst (memmove m dest src n)) src dest (u32 n).
Proof.
  intros Hs Hd. unfold memmove. pose proof (u32_range n) as Hn.
  rewrite <- (Z2Nat.id (u32 n)) in * by lia.
  set (k := Z.to_nat (u32 n)) in *.
  destruct (Z.leb_spec (u32 dest) (u32 src)) as [Hle|Hlt]; cbn [fst]; rewrite Nat2Z.id.
  - apply movsb_up_copied; [lia|]. unfold ascending_ok. zlia.
  - apply movsb_down_copied; [lia|]. unfold descending_ok. zlia.
Qed.

(** ** Fills *)

Lemma filled_app m m1 m2 a k n f g :
  0 <= k -> 0 <= n -> k + n <= 4294967296 ->
  (forall i, 0 <= i < n -> g i = f (i + k)) ->
  filled m m1 a k f -> filled m1 m2 (a + k) n g -> filled m m2 a (k + n) f.
Proof.
  intros Hk Hn Hw Hfg H1 H2 b. rewrite H2, H1. pose proof (u32_range (b - a)).
  destruct (Z.ltb_spec (off (a + k) b) n) as [Hb|Hb].
  - assert (off a b = off (a + k) b + k) as -> by (clear Hfg; zlia).
    rewrite Hfg by (pose proof (u32_range (b - (a + k))); lia).
    now destruct (Z.ltb_spec (off (a + k) b + k) (k + n)); [|lia].
  - destruct (Z.ltb_spec (off a b) k), (Z.ltb_spec (off a b) (k + n)); try lia; try done.
    exfalso. clear Hfg. zlia.
Qed.

Lemma filled_ext m m' a n f g :
  (forall i, 0 <= i < n -> f i = g i) -> filled m m' a n f -> filled m m' a n g.
Proof.
  intros Hfg Hf b. rewrite Hf. pose proof (u32_range (b - a)).
  destruct (Z.ltb_spec (off a b) n); [apply Hfg; lia | done].
Qed.

Lemma filled_refl m a f : filled m m a 0 f.
Proof. intros b. pose proof (u32_range (b - a)). now destruct (Z.ltb_spec (off a b) 0); [lia|]. Qed.

Lemma filled_one m a v f : f 0 = u8 v -> filled m (wr m a v) a 1 f.
Proof.
  intros Hf b. rewrite rd_wr_off. pose proof (u32_range (b - a)).
  destruct (Z.eqb_spec (off a b) 0) as [E|], (Z.ltb_spec (off a b) 1); try lia; try done.
  now rewrite E.
Qed.

Lemma filled_word m a v f :
  (forall i, 0 <= i < 4 -> f i = u8 (v / 256 ^ i)) -> filled m (wr32 m a v) a 4 f.
Proof.
  intros Hf b. rewrite rd_wr32. pose proof (u32_range (b - a)).
  destruct (Z.ltb_spec (off a b) 4); [symmetry; apply Hf; lia | done].
Qed.

Lemma stosb_up_filled n m v a :
  Z.of_nat n <= 4294967296 ->
  filled m (stosb_up n m v a) a (Z.of_nat n) (fun _ => u8 v).
Proof.
  revert m a. induction n as [|n IH]; intros m a Hn; cbn [stosb_up]; [apply filled_refl|].
  rewrite Nat2Z.inj_succ, <- Z.add_1_l in *.
  eapply filled_app; [lia | lia | lia | done | now apply filled_one | apply IH; lia].
Qed.

(** the bytes of a filled region *)
Lemma rdn_filled m m' a n f k :
  filled m m' a n f -> Z.of_nat k <= n -> n <= 4294967296 ->
  rdn m' a k = map f (zrange 0 (Z.of_nat k)).
Proof.
  intros Hf Hk Hn. apply list_eq. intros i. change (map ?g ?l) with (g <$> l).
  rewrite list_lookup_fmap. destruct (decide (i < k)%nat) as [Hi|Hi].
  - rewrite zrange_lookup by lia.
    rewrite (list_lookup_lookup_total_lt (rdn m' a k) i) by now rewrite length_rdn.
    rewrite rdn_lookup, Hf by done. cbn.
    assert (off a (a + Z.of_nat i) = Z.of_nat i) as ->
      by (rewrite Z.add_simpl_l; apply u32_small; lia).
    destruct (Z.ltb_spec (Z.of_nat i) n); [done | lia].
  - rewrite zrange_lookup_ge by lia. cbn. apply lookup_ge_None. rewrite length_rdn. lia.
Qed.

(** memory is filled with itself *)
Lemma filled_self m a n : filled m m a n (fun j => rd m (a + j)).
Proof.
  intros b. destruct (Z.ltb_spec (off a b) n); [|done]. apply rd_eq.
  rewrite u32_add_r. f_equal. lia.
Qed.

Lemma rdn_map m a k :
  Z.of_nat k <= 4294967296 -> rdn m a k = map (fun j => rd m (a + j)) (zrange 0 (Z.of_nat k)).
Proof. intros Hk. apply (rdn_filled m m a (Z.of_nat k)); [apply filled_self | lia | lia]. Qed.

Lemma rdn_ext m m' a k :
  (forall i, a <= i < a + Z.of_nat k -> rd m' i = rd m i) -> rdn m' a k = rdn m a k.
Proof.
  revert a. induction k as [|k IH]; intros a Hi; cbn [rdn]; [done|].
  rewrite Hi by lia. f_equal. apply IH. intros i Hr. apply Hi. lia.
Qed.

(** the destination of a copy holds the source's bytes *)
Lemma rdn_copied m m' s d n k :
  copied m m' s d n -> Z.of_nat k <= n -> n <= 4294967296 -> rdn m' d k = rdn m s k.
Proof.
  intros Hc Hk Hn. rewrite (rdn_filled m m' d n (fun j => rd m (s + j)) k) by (done || lia).
  now rewrite rdn_map by lia.
Qed.

(** a function on offsets that repeats every [p] bytes *)
Definition periodic (p : Z) (f : Z -> Z) : Prop := forall i, f (i + p) = f i.

Lemma rep_stosl_filled n m v a m' a' f :
  4 * Z.of_nat n <= 4294967296 -> periodic 4 f ->
  (forall i, 0 <= i < 4 -> f i = u8 (v / 256 ^ i)) ->
  rep_stosl n m v a = (m', a') ->
  filled m m' a (4 * Z.of_nat n) f /\ a' = a + 4 * Z.of_nat n.
Proof.
  intros Hn Hp Hf. revert m a Hn.
  induction n as [|n IH]; intros m a Hn; cbn [rep_stosl].
  - intros [= <- <-]. split; [apply filled_refl | lia].
  - intros E. apply IH in E as (Hc & ->); [|lia]. split; [|lia].
    replace (4 * Z.of_nat (S n)) with (4 + 4 * Z.of_nat n) in * by lia.
    eapply filled_app;
      [lia | lia | lia | intros i _; symmetry; apply Hp | apply filled_word, Hf | exact Hc].
Qed.

Lemma rep_stosw_filled n m v a f :
  2 * Z.of_nat n <= 4294967296 -> periodic 2 f -> f 0 = u8 v -> f 1 = u8 (v / 256) ->
  filled m (rep_stosw n m v a) a (2 * Z.of_nat n) f.
Proof.
  intros Hn Hp H0' H1'. revert m a Hn.
  induction n as [|n IH]; intros m a Hn; cbn [rep_stosw]; [apply filled_refl|].
  replace (2 * Z.of_nat (S n)) with (1 + (1 + 2 * Z.of_nat n)) in * by lia.
  eapply (filled_app _ (wr m a v) _ _ _ _ _ (fun i => f (i + 1)));
    [lia | lia | lia | done | now apply filled_one |].
  eapply filled_app; [lia | lia | lia | | apply filled_one; exact H1' |].
  - intros i _. cbn. replace (i + 1 + 1) with (i + 2) by lia. symmetry. apply Hp.
  - replace (a + 1 + 1) with (a + 2) by lia. apply IH. lia.
Qed.

(** the replicated byte of memset's %eax *)
Lemma splat_bytes c i : 0 <= i < 4 -> 0 <= c < 256 ->
  u8 (u32 (Z.lor (Z.lor (Z.lor (Z.shiftl c 24) (Z.shiftl c 16)) (Z.shiftl c 8)) c)
      / 256 ^ i) = c.
Proof.
  intros Hi Hc.
  assert (find_first (fun c => negb (forallb (fun i => u8 (u32
      (Z.lor (Z.lor (Z.lor (Z.shiftl c 24) (Z.shiftl c 16)) (Z.shiftl c 8)) c)
      / 256 ^ i) =? c) [0; 1; 2; 3])) 256 0 = None) as Hall by reflexivity.
  rewrite find_first_None in Hall. specialize (Hall c ltac:(lia)).
  apply negb_false_iff in Hall. rewrite forallb_forall in Hall.
  apply Z.eqb_eq, Hall. cbn. lia.
Qed.

Lemma memset_aligned_filled n m c eax a :
  Z.of_nat n <= 4294967296 -> (forall i, 0 <= i < 4 -> u8 (eax / 256 ^ i) = c) ->
  filled m (memset_aligned n m eax a) a (Z.of_nat n) (fun _ => c).
Proof.
  intros Hn Hs. unfold memset_aligned. pose proof (quads_and_rest n) as Hq.
  set (q := Z.to_nat (Z.shiftr _ _)) in *. set (r := Z.to_nat (Z.land _ _)) in *.
  destruct (rep_stosl q m eax a) as [m1 a1] eqn:E. rewrite Hq in *.
  apply (rep_stosl_filled _ _ _ _ _ _ (fun _ => c)) in E as (Hc & ->);
    [| lia | done | intros; symmetry; now apply Hs].
  assert (u8 eax = c) as Hc0 by (rewrite <- (Hs 0) by lia; cbn; now rewrite Z.div_1_r).
  eapply filled_app; [lia | lia | lia | done | done |].
  rewrite <- Hc0. apply stosb_up_filled. lia.
Qed.

Lemma memset_top_filled n m c eax a :
  Z.of_nat n <= 4294967296 -> (forall i, 0 <= i < 4 -> u8 (eax / 256 ^ i) = c) ->
  filled m (memset_top n m eax a) a (Z.of_nat n) (fun _ => c).
Proof.
  intros Hn Hs. revert m a Hn.
  induction n as [|n IH]; intros m a Hn; cbn [memset_top]; [apply filled_refl|].
  case_match; [now apply memset_aligned_filled|].
  rewrite Nat2Z.inj_succ, <- Z.add_1_l in *.
  eapply filled_app; [lia | lia | lia | done | apply filled_one | apply IH; lia].
  rewrite <- (Hs 0) by lia. cbn. now rewrite Z.div_1_r.
Qed.

Lemma memset_filled m s c n :
  filled m (memset m s c n) s (u32 n) (fun _ => u8 c).
Proof.
  unfold memset. pose proof (u32_range n).
  rewrite <- (Z2Nat.id (u32 n)) by lia. rewrite Nat2Z.id.
  apply memset_top_filled; [lia|]. intros i Hi.
  change 255 with (Z.ones 8). rewrite Z.land_ones by lia.
  apply splat_bytes; [lia | apply u8_range].
Qed.

Lemma memset_word_filled m s c n :
  2 * u32 n <= 4294967296 ->
  filled m (memset_word m s c n) s (2 * u32 n) (fun i => u8 (u32 c / 256 ^ (i mod 2))).
Proof.
  intros Hn. unfold memset_word. pose proof (u32_range n).
  rewrite <- (Z2Nat.id (u32 n)) in * by lia. rewrite Nat2Z.id.
  apply rep_stosw_filled; [lia | | cbn; now rewrite Z.div_1_r | done].
  intros i. do 3 f_equal. zlia.
Qed.

Lemma memset_dword_filled m s c n :
  4 * u32 n <= 4294967296 ->
  filled m (memset_dword m s c n) s (4 * u32 n) (fun i => u8 (u32 c / 256 ^ (i mod 4))).
Proof.
  intros Hn. unfold memset_dword. pose proof (u32_range n).
  destruct (rep_stosl (Z.to_nat (u32 n)) m (u32 c) s) as [m' a'] eqn:E.
  rewrite <- (Z2Nat.id (u32 n)) in Hn |- * by lia.
  eapply rep_stosl_filled in E as [Hf _]; [exact Hf | lia | |].
  - intros i. do 3 f_equal. zlia.
  - intros i Hi. cbn beta. now rewrite (Z.mod_small i 4) by lia.
Qed.

(** C27: memmove moves a block whatever the overlap, and touches nothing else;
    after a move towards higher addresses it leaves the direction flag set.
    The word-wise memcpy is the same function on every pair of blocks that an
    ascending copy can handle. *)
Theorem memmove_moves_and_memcpy_agrees m dest src (k : nat) :
  let n := Z.of_nat k in
  n < 4294967296 -> 0 <= src -> src + n <= 4294967296 -> 0 <= dest -> dest + n <= 4294967296 ->
  rdn (fst (memmove m dest src n)) dest k = rdn m src k /\
  (forall b, n <= off dest b -> rd (fst (memmove m dest src n)) b = rd m b) /\
  snd (memmove m dest src n) = (u32 src <? u32 dest) /\
  (ascending_ok src dest n -> memcpy m dest src n ≃ fst (memmove m dest src n)).
Proof.
  intros n Hn Hs0 Hs Hd0 Hd. assert (u32 n = n) as Hu by (apply u32_small; lia).
  assert (copied m (fst (memmove m dest src n)) src dest n) as Hm.
  { rewrite <- Hu at 2. apply memmove_copied; zlia. }
  split_and!.
  - apply (rdn_copied _ _ _ _ n); [exact Hm | lia | lia].
  - intros b Hb. rewrite Hm. destruct (Z.ltb_spec (off dest b) n); [lia | done].
  - unfold memmove. destruct (Z.leb_spec (u32 dest) (u32 src)), (Z.ltb_spec (u32 src) (u32 dest)); done || lia.
  - intros Ha b. rewrite Hm. pose proof (memcpy_copied m dest src n) as Hc. rewrite Hu in Hc. apply (Hc Ha).
Qed.

(** C28: memset, which fills byte by byte up to a word boundary, then words,
    then the rest, stores exactly the [n] copies of the byte that the plain
    loop stores. *)
Theorem memset_is_bytewise_fill m s c n :
  memset m s c n ≃ wrl m s (replicate (Z.to_nat (u32 n)) c).
Proof.
  intros b. pose proof (u32_range n). rewrite (memset_filled m s c n), rd_wrl;
    rewrite length_replicate, Z2Nat.id by lia; [|lia].
  pose proof (u32_range (b - s)). destruct (Z.ltb_spec (off s b) (u32 n)); [|done].
  rewrite (list_lookup_total_correct _ _ c); [done|]. apply lookup_replicate_2. lia.
Qed.
End CMem.

(** an overlapping move of eight bytes up by three *)
Lemma memmove_moves_and_memcpy_agrees_witness :
  let m := wrl (∅ : mem) 100 [1; 2; 3; 4; 5; 6; 7; 8] in
  rdn (fst (memmove m 103 100 8)) 103 8 = [1; 2; 3; 4; 5; 6; 7; 8].
Proof.
  intros m. destruct (memmove_moves_and_memcpy_agrees m 103 100 8) as [E _];
    [lia | lia | lia | lia | lia |]. exact E.
Defined.

(** an unaligned fill of nine bytes *)
Lemma memset_is_bytewise_fill_witness :
  memset (∅ : mem) 5 7 9 ≃ wrl (∅ : mem) 5 (replicate 9 7).
Proof. exact (memset_is_bytewise_fill (∅ : mem) 5 7 9). Defined.
