(* ===== verification/CStr.v ===== *)
(** * String routines of lib.c

    [strlen], [strncmp], [strcpy], [strncpy], [strrev] and [itoa] over any
    [ByteStore].  [int8_t] is a signed [char]: comparisons go through [s8].

    A [while] loop that runs to a NUL has no bound of its own, so [strlen]
    and its callers take a fuel and answer [None] when it is used up; the
    theorems show which fuel is enough. *)

From Stdlib Require Import ZArith Lia Setoid Morphisms.
From stdpp Require Import base list.
From S2P Require Import Prelude Memory CMem.
Open Scope Z_scope.

(** A [const char*] the kernel reads through: an address, or the bytes of a
    constant or kernel-owned array (NUL behind its end). *)
Inductive cptr := Addr (a : Z) | Obj (bs : list Z).

Definition is_null (p : cptr) : bool :=
  match p with Addr a => u32 a =? 0 | Obj _ => false end.

(** ASCII codes used throughout *)
Definition NL : Z := 10.
Definition SPACE : Z := 32.
Definition lookup_digits : list Z :=
  [48;49;50;51;52;53;54;55;56;57;65;66;67;68;69;70;71;72;73;74;75;76;77;78;79;
   80;81;82;83;84;85;86;87;88;89;90].

Section CStr.
Context {M : Type} `{ByteStoreLaws M}.
Implicit Types m : M.

Definition ldc (m : M) (p : cptr) (i : Z) : Z :=
  match p with
  | Addr a => rd m (a + i)
  | Obj bs => if in_range i (Z.of_nat (length bs)) then u8 (aget bs i) else 0
  end.

(** [while(s[len] != '\0') len++;] *)
Fixpoint strlen_loop (fuel : nat) (m : M) (s : cptr) (len : Z) : option Z :=
  match fuel with
  | O => None
  | S f => if negb (s8 (ldc m s len) =? 0) then strlen_loop f m s (len + 1) else Some len
  end.
Definition strlen (fuel : nat) (m : M) (s : cptr) : option Z := strlen_loop fuel m s 0.

Fixpoint strncmp_loop (n : nat) (m : M) (s1 s2 : cptr) (i : Z) : Z :=
  match n with
  | O => 0
  | S n' =>
      if negb (s8 (ldc m s1 i) =? s8 (ldc m s2 i)) || (s8 (ldc m s1 i) =? 0)
      then s8 (ldc m s1 i) - s8 (ldc m s2 i)
      else strncmp_loop n' m s1 s2 (i + 1)
  end.
Definition strncmp (m : M) (s1 s2 : cptr) (n : Z) : Z :=
  strncmp_loop (Z.to_nat (u32 n)) m s1 s2 0.

Fixpoint strcpy_loop (fuel : nat) (m : M) (dest : Z) (src : cptr) (i : Z) : option M :=
  match fuel with
  | O => None
  | S f =>
      if negb (s8 (ldc m src i) =? 0)
      then strcpy_loop f (wr m (dest + i) (ldc m src i)) dest src (i + 1)
      else Some (wr m (dest + i) 0)
  end.
Definition strcpy (fuel : nat) (m : M) (dest : Z) (src : cptr) : option M :=
  strcpy_loop fuel m dest src 0.

(** first loop of strncpy; [n] counts down from the argument, [i] up *)
Fixpoint strncpy_copy (n : nat) (m : M) (dest : Z) (src : cptr) (i : Z) : M * nat * Z :=
  match n with
  | O => (m, O, i)
  | S n' =>
      if negb (s8 (ldc m src i) =? 0)
      then strncpy_copy n' (wr m (dest + i) (ldc m src i)) dest src (i + 1)
      else (m, n, i)
  end.
Fixpoint strncpy_pad (n : nat) (m : M) (dest i : Z) : M :=
  match n with O => m | S n' => strncpy_pad n' (wr m (dest + i) 0) dest (i + 1) end.
Definition strncpy (m : M) (dest : Z) (src : cptr) (n : Z) : M :=
  let '(m, rest, i) := strncpy_copy (Z.to_nat (u32 n)) m dest src 0 in
  strncpy_pad rest m dest i.

(** [while(beg < end) { swap; beg++; end--; }] *)
Fixpoint strrev_loop (fuel : nat) (m : M) (s beg end_ : Z) : M :=
  match fuel with
  | O => m
  | S f =>
      if beg <? end_ then
        let tmp := rd m (s + end_) in
        let m := wr m (s + end_) (rd m (s + beg)) in
        let m := wr m (s + beg) tmp in
        strrev_loop f m s (beg + 1) (end_ - 1)
      else m
  end.
Definition strrev (fuel : nat) (m : M) (s : Z) : option M :=
  match strlen fuel m (Addr s) with
  | Some len => Some (strrev_loop (Z.to_nat len) m s 0 (len - 1))
  | None => None
  end.

Fixpoint itoa_loop (fuel : nat) (m : M) (newbuf newval radix : Z) : option (M * Z) :=
  if newval =? 0 then Some (m, newbuf)
  else match fuel with
    | O => None
    | S f =>
        match lookup_digits !! Z.to_nat (newval mod radix) with
        | Some c => itoa_loop f (wr m newbuf c) (newbuf + 1) (newval / radix) radix
        | None => None
        end
    end.
Definition itoa (m : M) (value buf radix : Z) : option M :=
  if value =? 0 then Some (wr (wr m buf 48) (buf + 1) 0)
  else match itoa_loop 32 m buf value (u32 radix) with
    | Some (m, newbuf) => strrev 33 (wr m newbuf 0) buf
    | None => None
    end.

(** ** Reading C strings *)

(** the bytes before the first NUL among the first [n], from offset [i] *)
Fixpoint cstrn (m : M) (p : cptr) (n : nat) (i : Z) : list Z :=
  match n with
  | O => []
  | S n' => if ldc m p i =? 0 then [] else ldc m p i :: cstrn m p n' (i + 1)
  end.

Lemma ldc_range m p i : 0 <= ldc m p i < 256.
Proof. destruct p; cbn; [apply rd_range|]. case_match; [apply u8_range | lia]. Qed.

Lemma s8_zero c : 0 <= c < 256 -> (s8 c =? 0) = (c =? 0).
Proof. intros. destruct (Z.eqb_spec (s8 c) 0), (Z.eqb_spec c 0); try done; zlia. Qed.

Lemma strlen_loop_find fuel m s i :
  strlen_loop fuel m s i = find_first (fun k => ldc m s k =? 0) fuel i.
Proof.
  revert i. induction fuel as [|f IH]; intros i; cbn; [done|].
  rewrite s8_zero by apply ldc_range. rewrite IH. now destruct (ldc m s i =? 0).
Qed.

(** strlen is the offset of the first NUL *)
Lemma strlen_spec fuel m s k :
  strlen fuel m s = Some k <->
  0 <= k < Z.of_nat fuel /\ ldc m s k = 0 /\ (forall j, 0 <= j < k -> ldc m s j <> 0).
Proof.
  unfold strlen. rewrite strlen_loop_find, find_first_Some, Z.eqb_eq, Z.add_0_l.
  split; intros (Hk & Hz & Hj); split_and!; try done; try lia;
    intros j Hlt; apply Z.eqb_neq, Hj; lia.
Qed.

(** strncmp: the common prefix is skipped; the first difference is the
    difference of the two signed characters *)
Lemma strncmp_loop_spec n m p q i :
  (strncmp_loop n m p q i = 0 <-> cstrn m p n i = cstrn m q n i) /\
  (strncmp_loop n m p q i <> 0 ->
   exists k, i <= k < i + Z.of_nat n /\
     cstrn m p (Z.to_nat (k - i)) i = cstrn m q (Z.to_nat (k - i)) i /\
     strncmp_loop n m p q i = s8 (ldc m p k) - s8 (ldc m q k)).
Proof.
  revert i. induction n as [|n IH]; intros i; cbn [strncmp_loop cstrn]; [done|].
  pose proof (ldc_range m p i) as Hp. pose proof (ldc_range m q i) as Hq.
  rewrite s8_zero by done.
  destruct (Z.eqb_spec (s8 (ldc m p i)) (s8 (ldc m q i))) as [E|E]; cbn [negb orb].
  - apply s8_inj in E; [|done|done]. rewrite <- E.
    destruct (Z.eqb_spec (ldc m p i) 0); [split; [split; [done | lia] | lia]|].
    destruct (IH (i + 1)) as [IH1 IH2]. split.
    + rewrite IH1. split; [now intros -> | now intros [= ->]].
    + intros Hne. destruct (IH2 Hne) as (k & Hk & Hpre & Hv). exists k.
      split; [lia|]. split; [|done].
      replace (Z.to_nat (k - i)) with (S (Z.to_nat (k - (i + 1)))) by lia.
      cbn [cstrn]. rewrite <- E, Hpre. done.
  - split.
    + split; [lia|]. intros Hc. exfalso. apply E.
      destruct (Z.eqb_spec (ldc m p i) 0), (Z.eqb_spec (ldc m q i) 0); congruence.
    + intros _. exists i. rewrite Z.sub_diag. split; [lia | done].
Qed.

Lemma strncmp_zero m p q n :
  strncmp m p q n = 0 <-> cstrn m p (Z.to_nat (u32 n)) 0 = cstrn m q (Z.to_nat (u32 n)) 0.
Proof. apply strncmp_loop_spec. Qed.

(** ** In-place reversal *)

Lemma strrev_loop_spec fuel m s beg end_ b :
  0 <= beg -> -1 <= end_ < 2147483648 -> end_ - beg <= Z.of_nat fuel ->
  rd (strrev_loop fuel m s beg end_) b =
    if (beg <=? off s b) && (off s b <=? end_)
    then rd m (s + (beg + end_ - off s b)) else rd m b.
Proof.
  revert m beg end_. induction fuel as [|f IH]; intros m beg end_ Hb He Hf;
    cbn [strrev_loop]; [|destruct (Z.ltb_spec beg end_) as [Hlt|Hge]].
  1, 3: pose proof (u32_range (b - s));
    destruct (Z.leb_spec beg (off s b)), (Z.leb_spec (off s b) end_); try done; cbn;
    apply rd_eq; assert (beg = off s b) by lia; zlia.
  rewrite IH by lia. rewrite !rd_wr_off, !u8_rd.
  pose proof (u32_range (b - s)) as Ho.
  assert (forall x, 0 <= x < 4294967296 -> (off (s + x) b =? 0) = (off s b =? x)) as Hz
    by (intros x Hx; destruct (Z.eqb_spec (off (s + x) b) 0),
          (Z.eqb_spec (off s b) x); try done; zlia).
  assert (forall x y, 0 <= x < 4294967296 -> 0 <= y < 4294967296 ->
            (off (s + x) (s + y) =? 0) = (y =? x)) as Hz2
    by (intros x y Hx Hy; destruct (Z.eqb_spec (off (s + x) (s + y)) 0),
          (Z.eqb_spec y x); try done; zlia).
  rewrite !Hz by lia.
  destruct (Z.leb_spec (beg + 1) (off s b)), (Z.leb_spec (off s b) (end_ - 1)),
    (Z.leb_spec beg (off s b)), (Z.leb_spec (off s b) end_),
    (Z.eqb_spec (off s b) beg), (Z.eqb_spec (off s b) end_);
    try lia; cbn [andb]; try done; rewrite ?Hz2 by lia.
  - destruct (Z.eqb_spec (beg + 1 + (end_ - 1) - off s b) beg); [lia|].
    destruct (Z.eqb_spec (beg + 1 + (end_ - 1) - off s b) end_); [lia|]. f_equal. lia.
  - f_equal. lia.
  - f_equal. lia.
Qed.

Lemma strrev_spec fuel m s len :
  strlen fuel m (Addr s) = Some len -> len < 2147483648 ->
  exists m', strrev fuel m s = Some m' /\
    forall b, rd m' b = if off s b <? len then rd m (s + (len - 1 - off s b)) else rd m b.
Proof.
  intros Hs Hlen. unfold strrev. rewrite Hs. eexists. split; [done|]. intros b.
  apply strlen_spec in Hs as (Hk & _ & _).
  rewrite strrev_loop_spec by lia. pose proof (u32_range (b - s)).
  destruct (Z.leb_spec 0 (off s b)), (Z.leb_spec (off s b) (len - 1)),
    (Z.ltb_spec (off s b) len); try lia; done.
Qed.

Lemma rd_wrl_in m a bs i :
  Z.of_nat (length bs) <= 4294967296 -> 0 <= i < Z.of_nat (length bs) ->
  rd (wrl m a bs) (a + i) = u8 (bs !!! Z.to_nat i).
Proof.
  intros Hl Hi. rewrite rd_wrl by done.
  replace (off a (a + i)) with i by zlia.
  now destruct (Z.ltb_spec i (Z.of_nat (length bs))); [|lia].
Qed.

(** a stored NUL-terminated string has the length of its bytes *)
Lemma strlen_wrl fuel m a l :
  Forall (fun c => 0 < c < 256) l -> (length l < fuel)%nat -> Z.of_nat fuel <= 4294967296 ->
  strlen fuel (wrl m a (l ++ [0])) (Addr a) = Some (Z.of_nat (length l)).
Proof.
  intros Hl Hf Hw. apply strlen_spec. split; [lia|]. cbn [ldc].
  split; [|intros j Hj]; rewrite rd_wrl_in by (rewrite length_app; cbn; lia).
  - rewrite Nat2Z.id, lookup_total_app_r, Nat.sub_diag by lia. done.
  - rewrite lookup_total_app_l by lia.
    destruct (lookup_lt_is_Some_2 l (Z.to_nat j)) as [c Hc]; [lia|].
    rewrite (list_lookup_total_correct _ _ _ Hc).
    rewrite Forall_lookup in Hl. specialize (Hl _ _ Hc). rewrite u8_small; lia.
Qed.

(** reversing a stored string stores the reversed string *)
Lemma strrev_wrl fuel m a l :
  Forall (fun c => 0 < c < 256) l -> (length l < fuel)%nat -> Z.of_nat fuel < 2147483648 ->
  exists m', strrev fuel (wrl m a (l ++ [0])) a = Some m' /\ m' ≃ wrl m a (reverse l ++ [0]).
Proof.
  intros Hl Hf Hw.
  destruct (strrev_spec fuel (wrl m a (l ++ [0])) a (Z.of_nat (length l))) as (m' & E & Hr);
    [apply strlen_wrl; [done | done | lia] | lia |].
  exists m'. split; [done|]. intros b. rewrite Hr.
  assert (length (reverse l ++ [0]) = length (l ++ [0])) as Hlen
    by (rewrite !length_app, length_reverse; done).
  rewrite !(rd_wrl m), Hlen by (rewrite ?Hlen, length_app; cbn; lia).
  rewrite length_app. cbn [length].
  pose proof (u32_range (b - a)) as Ho.
  destruct (Z.ltb_spec (off a b) (Z.of_nat (length l))) as [Hb|Hb].
  - destruct (Z.ltb_spec (off a b) (Z.of_nat (length l + 1))); [|lia].
    replace (off a (a + (Z.of_nat (length l) - 1 - off a b)))
      with (Z.of_nat (length l) - 1 - off a b) by zlia.
    destruct (Z.ltb_spec (Z.of_nat (length l) - 1 - off a b) (Z.of_nat (length l + 1))); [|lia].
    rewrite !lookup_total_app_l by (rewrite ?length_reverse; lia). f_equal.
    rewrite !list_lookup_total_alt, reverse_lookup by lia. do 2 f_equal. lia.
  - destruct (Z.ltb_spec (off a b) (Z.of_nat (length l + 1))); [|done].
    rewrite !lookup_total_app_r by (rewrite ?length_reverse; lia). now rewrite length_reverse.
Qed.

(** ** Number formatting *)

(** the characters itoa's loop emits, least significant first *)
Fixpoint digits_lsb (fuel : nat) (v r : Z) : list Z :=
  if v =? 0 then []
  else match fuel with
    | O => []
    | S f => (lookup_digits !!! Z.to_nat (v mod r)) :: digits_lsb f (v / r) r
    end.

(** the text of a number, and the number a text denotes *)
Definition itoa_string (v r : Z) : list Z :=
  if v =? 0 then [48] else reverse (digits_lsb 32 v r).
Definition digit_val (c : Z) : Z := if c <=? 57 then c - 48 else c - 55.
Definition parse_radix (r : Z) (l : list Z) : Z :=
  fold_left (fun acc c => acc * r + digit_val c) l 0.

Lemma wrl_app m a l1 l2 : wrl m a (l1 ++ l2) = wrl (wrl m a l1) (a + Z.of_nat (length l1)) l2.
Proof.
  revert m a. induction l1 as [|b l1 IH]; intros m a; cbn [wrl app length].
  - f_equal. lia.
  - rewrite IH. f_equal. lia.
Qed.

Lemma lookup_digits_spec k : 0 <= k < 36 ->
  lookup_digits !! Z.to_nat k = Some (lookup_digits !!! Z.to_nat k) /\
  0 < lookup_digits !!! Z.to_nat k < 256 /\
  digit_val (lookup_digits !!! Z.to_nat k) = k.
Proof.
  intros Hk.
  assert (find_first (fun k => negb (match lookup_digits !! Z.to_nat k with
      | Some c => (0 <? c) && (c <? 256) && (digit_val c =? k) | None => false end)) 36 0
    = None) as Hall by reflexivity.
  rewrite find_first_None in Hall. specialize (Hall k ltac:(lia)).
  apply negb_false_iff in Hall.
  destruct (lookup_digits !! Z.to_nat k) as [c|] eqn:E; [|done].
  rewrite (list_lookup_total_correct _ _ _ E). split; [done|]. lia.
Qed.

Lemma div_fuel f v r : 2 <= r -> 0 <= v < 2 ^ Z.of_nat (S f) -> 0 <= v / r < 2 ^ Z.of_nat f.
Proof.
  intros Hr Hv. rewrite Nat2Z.inj_succ, Z.pow_succ_r in Hv by lia.
  split; [apply Z.div_pos; lia|]. apply Z.div_lt_upper_bound; nia.
Qed.

Lemma digits_lsb_chars fuel v r :
  2 <= r <= 36 -> Forall (fun c => 0 < c < 256) (digits_lsb fuel v r).
Proof.
  intros Hr. revert v. induction fuel as [|f IH]; intros v; cbn [digits_lsb];
    destruct (v =? 0); try constructor; [|apply IH].
  apply lookup_digits_spec. pose proof (Z.mod_pos_bound v r). lia.
Qed.

Lemma digits_lsb_length fuel v r : (length (digits_lsb fuel v r) <= fuel)%nat.
Proof.
  revert v. induction fuel as [|f IH]; intros v; cbn [digits_lsb];
    destruct (v =? 0); cbn [length]; try lia. specialize (IH (v / r)). lia.
Qed.

Lemma itoa_loop_writes fuel m buf v r :
  2 <= r <= 36 -> 0 <= v < 2 ^ Z.of_nat fuel ->
  itoa_loop fuel m buf v r =
    Some (wrl m buf (digits_lsb fuel v r), buf + Z.of_nat (length (digits_lsb fuel v r))).
Proof.
  intros Hr. revert m buf v. induction fuel as [|f IH]; intros m buf v Hv;
    cbn [itoa_loop digits_lsb]; destruct (Z.eqb_spec v 0) as [->|Hne]; cbn [wrl length];
    try (f_equal; f_equal; lia).
  destruct (lookup_digits_spec (v mod r)) as [-> _];
      [pose proof (Z.mod_pos_bound v r); lia|].
    rewrite IH by (apply div_fuel; lia). do 2 f_equal. lia.
Qed.

Lemma parse_digits fuel v r :
  2 <= r <= 36 -> 0 <= v < 2 ^ Z.of_nat fuel ->
  parse_radix r (reverse (digits_lsb fuel v r)) = v.
Proof.
  intros Hr. unfold parse_radix. revert v.
  induction fuel as [|f IH]; intros v Hv; cbn [digits_lsb];
    destruct (Z.eqb_spec v 0) as [->|Hne]; try done.
  - change (2 ^ Z.of_nat 0) with 1 in Hv. lia.
  - rewrite reverse_cons, fold_left_app, IH by (apply div_fuel; lia). cbn [fold_left].
    destruct (lookup_digits_spec (v mod r)) as (_ & _ & ->);
      [pose proof (Z.mod_pos_bound v r); lia|].
    pose proof (Z.div_mod v r). lia.
Qed.

Lemma itoa_string_parse v r :
  2 <= r <= 36 -> 0 <= v < 4294967296 -> parse_radix r (itoa_string v r) = v.
Proof.
  intros Hr Hv. unfold itoa_string. destruct (Z.eqb_spec v 0) as [->|]; [done|].
  now apply parse_digits.
Qed.

Lemma itoa_writes m v buf r :
  2 <= r <= 36 -> 0 <= v < 4294967296 ->
  exists m', itoa m v buf r = Some m' /\ m' ≃ wrl m buf (itoa_string v r ++ [0]).
Proof.
  intros Hr Hv. unfold itoa, itoa_string. destruct (Z.eqb_spec v 0) as [->|Hne].
  - now eexists.
  - rewrite u32_small, itoa_loop_writes by (cbn; lia).
    change (wr (wrl m buf (digits_lsb 32 v r))
      (buf + Z.of_nat (length (digits_lsb 32 v r))) 0)
      with (wrl (wrl m buf (digits_lsb 32 v r))
      (buf + Z.of_nat (length (digits_lsb 32 v r))) [0]).
    rewrite <- wrl_app. apply strrev_wrl; [now apply digits_lsb_chars | | lia].
    pose proof (digits_lsb_length 32 v r). lia.
Qed.

Lemma itoa_string_chars v r :
  2 <= r <= 36 -> Forall (fun c => 0 < c < 256) (itoa_string v r).
Proof.
  intros Hr. unfold itoa_string. case_match; [repeat constructor; lia|].
  apply Forall_reverse, digits_lsb_chars, Hr.
Qed.

Lemma itoa_string_length v r : (length (itoa_string v r) <= 32)%nat.
Proof.
  unfold itoa_string. case_match; [cbn; lia|]. rewrite length_reverse.
  apply digits_lsb_length.
Qed.

(** ** Bounded copy *)

(** the [n] bytes at [dest] hold no byte of the string *)
Definition src_disjoint (src : cptr) (dest n : Z) : Prop :=
  match src with
  | Addr a => forall i, 0 <= i < n -> n <= off dest (a + i)
  | Obj _ => True
  end.

Lemma ldc_wr_disjoint m src dest n i j v :
  src_disjoint src dest n -> 0 <= i < n -> 0 <= j < n -> n <= 4294967296 ->
  ldc (wr m (dest + j) v) src i = ldc m src i.
Proof.
  destruct src as [a|bs]; cbn; [|done]. intros Hd Hi Hj Hn. rewrite rd_wr_off.
  destruct (Z.eqb_spec (off (dest + j) (a + i)) 0); [|done].
  specialize (Hd i Hi). exfalso. zlia.
Qed.

Lemma cstrn_wr_disjoint k m src dest n i j v :
  src_disjoint src dest n -> 0 <= i -> i + Z.of_nat k <= n -> 0 <= j < n ->
  n <= 4294967296 ->
  cstrn (wr m (dest + j) v) src k i = cstrn m src k i.
Proof.
  intros Hd. revert i. induction k as [|k IH]; intros i Hi Hk Hj Hn; cbn [cstrn]; [done|].
  rewrite (ldc_wr_disjoint _ _ _ n) by (done || lia).
  case_match; [done|]. f_equal. apply IH; lia.
Qed.

Lemma strncpy_pad_filled k m dest i :
  0 <= i -> i + Z.of_nat k <= 4294967296 ->
  filled m (strncpy_pad k m dest i) (dest + i) (Z.of_nat k) (fun _ => 0).
Proof.
  revert m i. induction k as [|k IH]; intros m i Hi Hk; cbn [strncpy_pad];
    [apply filled_refl|].
  rewrite Nat2Z.inj_succ, <- Z.add_1_l.
  eapply filled_app; [lia | lia | lia | done | now apply (filled_one _ _ 0) |].
  rewrite <- Z.add_assoc. apply IH; lia.
Qed.

Lemma strncpy_copy_filled k m dest src i n m' k' i' :
  src_disjoint src dest n -> 0 <= i -> i + Z.of_nat k = n -> n <= 4294967296 ->
  strncpy_copy k m dest src i = (m', k', i') ->
  filled m (strncpy_pad k' m' dest i') (dest + i) (Z.of_nat k)
    (fun j => default 0 (cstrn m src k i !! Z.to_nat j)).
Proof.
  intros Hd. revert m i. induction k as [|k IH]; intros m i Hi Hk Hn;
    cbn [strncpy_copy cstrn].
  - intros [= <- <- <-]. apply filled_refl.
  - rewrite s8_zero by apply ldc_range. destruct (Z.eqb_spec (ldc m src i) 0) as [E|E].
    + intros [= <- <- <-]. apply strncpy_pad_filled; lia.
    + intros Eq. apply IH in Eq; [|lia|lia|lia].
      rewrite Nat2Z.inj_succ, <- Z.add_1_l. rewrite Z.add_assoc in Eq.
      eapply filled_app; [lia | lia | lia | | apply filled_one | exact Eq].
      * intros j Hj. cbn beta. rewrite (cstrn_wr_disjoint _ _ _ _ n) by (done || lia).
        now replace (Z.to_nat (j + 1)) with (S (Z.to_nat j)) by lia.
      * cbn. now rewrite u8_small by apply ldc_range.
Qed.

Lemma strncpy_filled m dest src n :
  src_disjoint src dest (u32 n) ->
  filled m (strncpy m dest src n) dest (u32 n)
    (fun j => default 0 (cstrn m src (Z.to_nat (u32 n)) 0 !! Z.to_nat j)).
Proof.
  intros Hd. unfold strncpy. pose proof (u32_range n).
  destruct (strncpy_copy (Z.to_nat (u32 n)) m dest src 0) as [[m' k'] i'] eqn:E.
  eapply (strncpy_copy_filled _ _ _ _ _ (u32 n)) in E; [|done|lia|lia|lia].
  rewrite Z.add_0_r, Z2Nat.id in E by lia. exact E.
Qed.

(** C32: Numbers survive the round trip through text: for every 32-bit value and
    every radix from 2 to 36, itoa ends with a NUL-terminated string of at
    most 32 characters that reads back as the value. *)
Theorem itoa_round_trip m v buf r :
  2 <= r <= 36 -> 0 <= v < 4294967296 ->
  exists m' n, itoa m v buf r = Some m' /\ strlen 33 m' (Addr buf) = Some (Z.of_nat n) /\
    (n <= 32)%nat /\ parse_radix r (rdn m' buf n) = v.
Proof.
  intros Hr Hv. destruct (itoa_writes m v buf r Hr Hv) as (m' & E & Hm).
  pose proof (itoa_string_chars v r Hr) as Hch. pose proof (itoa_string_length v r) as Hlen.
  exists m', (length (itoa_string v r)). split; [exact E|].
  assert (strlen 33 (wrl m buf (itoa_string v r ++ [0])) (Addr buf) =
    Some (Z.of_nat (length (itoa_string v r)))) as Hs by (apply strlen_wrl; [done | lia | lia]).
  split; [|split; [exact Hlen|]].
  - apply strlen_spec in Hs as (H1 & H2 & H3). apply strlen_spec. cbn [ldc] in *.
    split; [exact H1|]. split; [now rewrite Hm|]. intros j Hj. rewrite Hm. now apply H3.
  - rewrite <- (itoa_string_parse v r Hr Hv) at 2. f_equal. rewrite Hm.
    apply list_eq. intros i. destruct (decide (i < length (itoa_string v r))%nat) as [Hi|Hi].
    + rewrite (list_lookup_lookup_total_lt (rdn _ _ _)) by (now rewrite length_rdn).
      rewrite rdn_lookup, rd_wrl_in by (rewrite ?length_app; cbn [length]; lia).
      rewrite Nat2Z.id, lookup_total_app_l by done.
      destruct (lookup_lt_is_Some_2 _ _ Hi) as [c Hc]. rewrite Hc.
      rewrite (list_lookup_total_correct _ _ _ Hc).
      rewrite Forall_lookup in Hch. now rewrite u8_small by (specialize (Hch _ _ Hc); lia).
    + rewrite !lookup_ge_None_2; [done | lia | rewrite length_rdn; lia].
Qed.

(** strncmp compares at most [n] characters up to a NUL: it returns 0
    exactly when the prefixes are equal, and otherwise the difference of the
    first two characters that differ, as signed characters. *)
Theorem strncmp_compares_prefixes m p q n :
  (strncmp m p q n = 0 <-> cstrn m p (Z.to_nat (u32 n)) 0 = cstrn m q (Z.to_nat (u32 n)) 0) /\
  (strncmp m p q n <> 0 ->
   exists k, 0 <= k < u32 n /\ cstrn m p (Z.to_nat k) 0 = cstrn m q (Z.to_nat k) 0 /\
     strncmp m p q n = s8 (ldc m p k) - s8 (ldc m q k)).
Proof.
  unfold strncmp. destruct (strncmp_loop_spec (Z.to_nat (u32 n)) m p q 0) as [H1 H2].
  split; [exact H1|]. intros Hne. destruct (H2 Hne) as (k & Hk & Hp & Hv). exists k.
  rewrite Z.sub_0_r in Hp. pose proof (u32_range n). split; [lia|]. now split.
Qed.
End CStr.

Lemma itoa_round_trip_witness :
  exists m' n, itoa (∅ : mem) 3735928559 500 16 = Some m' /\
    parse_radix 16 (rdn m' 500 n) = 3735928559.
Proof.
  destruct (itoa_round_trip (∅ : mem) 3735928559 500 16) as (m' & n & E & _ & _ & Hp); [lia | lia |].
  exists m', n. split; [exact E | exact Hp].
Defined.

(** "Ab" and "AC" differ in their second character *)
Lemma strncmp_compares_prefixes_witness :
  let m := wrl (∅ : mem) 100 [65; 98; 0; 65; 67; 0] in
  cstrn m (Addr 100) 2 0 <> cstrn m (Addr 103) 2 0.
Proof.
  intros m Heq.
  pose proof (proj2 (proj1 (strncmp_compares_prefixes m (Addr 100) (Addr 103) 2)) Heq) as E.
  vm_compute in E. discriminate E.
Defined.
