(* ===== verification/Machine.v ===== *)
(** * The machine below the kernel's C code

    The state that lib.c, i8259.c and rtc.c own (memory, the cursor
    variables, the two interrupt masks, the RTC tick flag) together with the
    processor's interrupt flag and the log of port accesses, and the port
    instructions on it. *)

From Stdlib Require Import ZArith Lia.
From stdpp Require Import base list gmap.
From S2P Require Import Prelude Memory.
Open Scope Z_scope.

(** One executed [outb] or [inb], in program order. *)
Inductive pevent := Out (data port : Z) | In (port value : Z).

#[export] Instance pevent_eq_dec : EqDecision pevent.
Proof. solve_decision. Defined.

(** What the kernel is linked and booted with: the value a device presents on
    a port after a history of port accesses, what an uninitialised stack slot
    holds at that point, and the link address of [page_directory] in
    x86_desc.S (4 KiB aligned, in the kernel's 4 MiB). *)
Class Platform := {
  port_in : list pevent -> Z -> Z;
  stack_junk : list pevent -> Z;
  pd_base : Z;
  pd_base_range : 4194304 <= pd_base < 8323072;
  pd_base_aligned : pd_base mod 4096 = 0
}.

(** Global state of lib.c, i8259.c and rtc.c, and the hardware they touch. *)
Record mach := Mach {
  mm : mem;  (* physical memory *)
  screen_x : Z;  (* lib.c *)
  screen_y : Z;  (* lib.c *)
  ports : list pevent;  (* port accesses, oldest first *)
  master_mask : Z;  (* i8259.c *)
  slave_mask : Z;  (* i8259.c *)
  intr_flag : Z;  (* rtc.c *)
  if_flag : bool  (* EFLAGS.IF *)
}.
Definition set_mm (v : mem) (s : mach) : mach :=
  Mach v (screen_x s) (screen_y s) (ports s) (master_mask s) (slave_mask s) (intr_flag
    s) (if_flag s).
Definition set_screen_x (v : Z) (s : mach) : mach :=
  Mach (mm s) v (screen_y s) (ports s) (master_mask s) (slave_mask s) (intr_flag s)
    (if_flag s).
Definition set_screen_y (v : Z) (s : mach) : mach :=
  Mach (mm s) (screen_x s) v (ports s) (master_mask s) (slave_mask s) (intr_flag s)
    (if_flag s).
Definition set_ports (v : list pevent) (s : mach) : mach :=
  Mach (mm s) (screen_x s) (screen_y s) v (master_mask s) (slave_mask s) (intr_flag s)
    (if_flag s).
Definition set_master_mask (v : Z) (s : mach) : mach :=
  Mach (mm s) (screen_x s) (screen_y s) (ports s) v (slave_mask s) (intr_flag s)
    (if_flag s).
Definition set_slave_mask (v : Z) (s : mach) : mach :=
  Mach (mm s) (screen_x s) (screen_y s) (ports s) (master_mask s) v (intr_flag s)
    (if_flag s).
Definition set_intr_flag (v : Z) (s : mach) : mach :=
  Mach (mm s) (screen_x s) (screen_y s) (ports s) (master_mask s) (slave_mask s) v
    (if_flag s).
Definition set_if_flag (v : bool) (s : mach) : mach :=
  Mach (mm s) (screen_x s) (screen_y s) (ports s) (master_mask s) (slave_mask s)
    (intr_flag s) v.

(** ** lib.h: port instructions and interrupt-flag macros *)

Definition outb (data port : Z) (s : mach) : mach :=
  set_ports (ports s ++ [Out (u8 data) port]) s.

Definition inb `{Platform} (port : Z) (s : mach) : Z * mach :=
  let v := u8 (port_in (ports s) port) in
  (v, set_ports (ports s ++ [In port v]) s).

Definition cli (s : mach) : mach := set_if_flag false s.
Definition sti (s : mach) : mach := set_if_flag true s.
Definition cli_and_save (s : mach) : bool * mach := (if_flag s, set_if_flag false s).
Definition restore_flags (f : bool) (s : mach) : mach := set_if_flag f s.

(** A concrete platform, for evaluating the model: every port reads 0x26,
    uninitialised slots hold 77 and the page directories start at 0x410000. *)
Definition demo_platform : Platform.
Proof.
  refine {| port_in := fun _ _ => 38; stack_junk := fun _ => 77; pd_base := 4259840 |}; [lia | reflexivity].
Defined.
