(* ===== verification/Console.v ===== *)
(** * The text console of lib.c

    Video memory is the part of [mm] at [VIDEO]; the cursor is the pair of
    statics [screen_x], [screen_y] (C [int]s, kept as [Z]). *)

From Stdlib Require Import ZArith Lia Setoid Morphisms.
From stdpp Require Import base list gmap.
From S2P Require Import Prelude Memory CMem CStr Machine.
Open Scope Z_scope.

Definition VIDEO : Z := 753664.            (* 0xB8000 *)
Definition NUM_COLS : Z := 80.
Definition NUM_ROWS : Z := 25.
Definition ATTRIB : Z := 7.

Definition getx (s : mach) : Z := screen_x s.
Definition gety (s : mach) : Z := screen_y s.
Definition setx (x : Z) (s : mach) : mach := set_screen_x x s.
Definition sety (y : Z) (s : mach) : mach := set_screen_y y s.
Definition setxy (x y : Z) (s : mach) : mach := set_screen_y y (set_screen_x x s).

(** address of the character cell in column [x] of row [y] *)
Definition cell (x y : Z) : Z := VIDEO + Z.shiftl (NUM_COLS * y + x) 1.

Definition get_char (x y : Z) (s : mach) : Z := rd (mm s) (cell x y).

Definition poke (a v : Z) (s : mach) : mach := set_mm (wr (mm s) a v) s.

Fixpoint clear_loop (n : nat) (i : Z) (s : mach) : mach :=
  match n with
  | O => s
  | S n' =>
      let s := poke (VIDEO + Z.shiftl i 1) SPACE s in
      let s := poke (VIDEO + Z.shiftl i 1 + 1) ATTRIB s in
      clear_loop n' (i + 1) s
  end.
Definition clear (s : mach) : mach := clear_loop (Z.to_nat (NUM_ROWS * NUM_COLS)) 0 s.

Definition putc (c : Z) (s : mach) : mach :=
  if (c =? 10) || (c =? 13) then set_screen_x 0 (set_screen_y (screen_y s + 1) s)
  else
    let s := poke (cell (screen_x s) (screen_y s)) c s in
    let s := poke (cell (screen_x s) (screen_y s) + 1) ATTRIB s in
    let s := set_screen_x (screen_x s + 1) s in
    let s := set_screen_x (Z.rem (screen_x s) NUM_COLS) s in
    set_screen_y (Z.rem (screen_y s + Z.quot (screen_x s) NUM_COLS) NUM_ROWS) s.

(** [puts] reads its string through [src], which may look at the state: the
    string can live in memory the console writes. *)
Fixpoint puts_loop (fuel : nat) (src : mach -> Z -> Z) (index : Z) (s : mach)
  : option (Z * mach) :=
  match fuel with
  | O => None
  | S f =>
      if negb (src s index =? 0) then puts_loop f src (index + 1) (putc (src s index) s)
      else Some (index, s)
  end.
Definition puts (fuel : nat) (src : mach -> Z -> Z) (s : mach) : option (Z * mach) :=
  puts_loop fuel src 0 s.

(** a string in a local buffer, or at an address of memory *)
Definition local_src (buf : mem) (at_ : Z) : mach -> Z -> Z := fun _ i => rd buf (at_ + i).
Definition mem_src (a : Z) : mach -> Z -> Z := fun s i => rd (mm s) (a + i).

(** ** printf

    The format is a string literal (its characters without the NUL), the
    arguments the 32-bit stack words behind it.  Each conversion is one
    function of the words left; [None] is undefined behaviour (an argument
    that is not there, a format read past its NUL). *)

Definition STR_FUEL : nat := 4096.

Fixpoint fill_zeros (n : nat) (i : Z) (buf : mem) : mem :=
  match n with O => buf | S n' => fill_zeros n' (i + 1) (wr buf i 48) end.

(** %x and %#x; [conv_buf] is the local array, at address 0 of its own store *)
Definition printf_x (alternate : bool) (v : Z) (s : mach) : option mach :=
  if negb alternate then
    buf ← itoa (∅ : mem) (u32 v) 0 16;
    snd <$> puts STR_FUEL (local_src buf 0) s
  else
    buf ← itoa (∅ : mem) (u32 v) 8 16;
    starting_index ← strlen STR_FUEL buf (Addr 8);
    let buf := fill_zeros (Z.to_nat (8 - starting_index)) starting_index buf in
    snd <$> puts STR_FUEL (local_src buf starting_index) s.

Definition printf_u (v : Z) (s : mach) : option mach :=
  buf ← itoa (∅ : mem) (u32 v) 0 10;
  snd <$> puts STR_FUEL (local_src buf 0) s.

Definition printf_d (v : Z) (s : mach) : option mach :=
  if s32 v <? 0 then
    let buf := wr (∅ : mem) 0 45 in
    buf ← itoa buf (u32 (- s32 v)) 1 10;
    snd <$> puts STR_FUEL (local_src buf 0) s
  else
    buf ← itoa (∅ : mem) (u32 v) 0 10;
    snd <$> puts STR_FUEL (local_src buf 0) s.

(** the inner [switch]: the rest of the format, the words left, the state *)
Fixpoint printf_conv (alternate : bool) (fmt args : list Z) (s : mach)
  : option (list Z * list Z * mach) :=
  match fmt with
  | [] => None                                          (* format ends in % *)
  | c :: fmt' =>
      if c =? 37 then Some (fmt', args, putc 37 s)                    (* %% *)
      else if c =? 35 then printf_conv true fmt' args s               (* %# *)
      else if c =? 120 then                                           (* %x *)
        match args with
        | v :: args' => s' ← printf_x alternate v s; Some (fmt', args', s')
        | [] => None
        end
      else if c =? 117 then                                           (* %u *)
        match args with
        | v :: args' => s' ← printf_u v s; Some (fmt', args', s')
        | [] => None
        end
      else if c =? 100 then                                           (* %d *)
        match args with
        | v :: args' => s' ← printf_d v s; Some (fmt', args', s')
        | [] => None
        end
      else if c =? 99 then                                            (* %c *)
        match args with
        | v :: args' => Some (fmt', args', putc (u8 v) s)
        | [] => None
        end
      else if c =? 115 then                                           (* %s *)
        match args with
        | v :: args' => '(_, s') ← puts STR_FUEL (mem_src v) s; Some (fmt', args', s')
        | [] => None
        end
      else Some (fmt', args, s)
  end.

Fixpoint printf_loop (fuel : nat) (fmt args : list Z) (s : mach) : option mach :=
  match fmt with
  | [] => Some s
  | c :: fmt' =>
      match fuel with
      | O => None
      | S f =>
          if c =? 37 then
            '(fmt', args', s') ← printf_conv false fmt' args s;
            printf_loop f fmt' args' s'
          else printf_loop f fmt' args (putc c s)
      end
  end.

(** value returned: the length of the format *)
Definition printf (fmt args : list Z) (s : mach) : option (Z * mach) :=
  s' ← printf_loop (length fmt) fmt args s; Some (Z.of_nat (length fmt), s').

Definition test_interrupts_loop : nat -> Z -> mach -> mach :=
  fix go (n : nat) (i : Z) (s : mach) : mach :=
    match n with
    | O => s
    | S n' => go n' (i + 1)
        (poke (VIDEO + Z.shiftl i 1) (rd (mm s) (VIDEO + Z.shiftl i 1) + 1) s)
    end.
Definition test_interrupts (s : mach) : mach :=
  test_interrupts_loop (Z.to_nat (NUM_ROWS * NUM_COLS)) 0 s.

(** ** Drawing characters *)

Definition put_chars (l : list Z) (s : mach) : mach := fold_left (fun s c => putc c s) l s.

Definition printable (c : Z) : Prop := c <> 10 /\ c <> 13.

(** cursor inside the 80x25 screen *)
Definition cursor_ok (s : mach) : Prop :=
  0 <= screen_x s < NUM_COLS /\ 0 <= screen_y s < NUM_ROWS.

(** the two bytes of each character cell *)
Definition cells (l : list Z) (j : Z) : Z :=
  if j mod 2 =? 0 then u8 (aget l (j / 2)) else ATTRIB.

(** [s'] differs from [s] in memory and cursor only *)
Definition same_but_console (s s' : mach) : Prop :=
  ports s' = ports s /\ master_mask s' = master_mask s /\ slave_mask s' = slave_mask s /\
  intr_flag s' = intr_flag s /\ if_flag s' = if_flag s.

#[export] Instance same_but_console_preorder : PreOrder same_but_console.
Proof.
  split; [intros s; now split_and!|]. intros s1 s2 s3 H1 H2.
  unfold same_but_console in *. destruct_and!. split_and!; congruence.
Qed.

Lemma cell_lin x y : cell x y = VIDEO + 2 * (NUM_COLS * y + x).
Proof. unfold cell. rewrite Z.shiftl_mul_pow2 by lia. lia. Qed.

Lemma filled_cell m a c :
  filled m (wr (wr m a c) (a + 1) ATTRIB) a 2 (cells [c]).
Proof.
  replace 2 with (1 + 1) by lia.
  eapply (filled_app _ _ _ _ _ _ _ (fun _ => ATTRIB)); [lia | lia | lia | | |].
  - intros i Hi. replace i with 0 by lia. done.
  - now apply filled_one.
  - now apply filled_one.
Qed.

Lemma putc_printable c s :
  printable c -> cursor_ok s ->
  filled (mm s) (mm (putc c s)) (cell (screen_x s) (screen_y s)) 2 (cells [c]) /\
  screen_x (putc c s) = (screen_x s + 1) mod NUM_COLS /\
  screen_y (putc c s) = screen_y s /\ same_but_console s (putc c s).
Proof.
  intros [H1 H2] [Hx Hy]. unfold putc, NUM_COLS, NUM_ROWS in *.
  destruct (Z.eqb_spec c 10), (Z.eqb_spec c 13); try done. cbn.
  split; [apply filled_cell|].
  rewrite !Z.rem_mod_nonneg by lia. split; [done|].
  rewrite Z.quot_div_nonneg by (pose proof (Z.mod_pos_bound (screen_x s + 1) 80); lia).
  rewrite (Z.div_small (_ mod _)) by (pose proof (Z.mod_pos_bound (screen_x s + 1) 80); lia).
  rewrite Z.add_0_r, Z.rem_mod_nonneg, Z.mod_small by lia. split; [done|].
  now split_and!.
Qed.

Lemma putc_cursor_ok c s : printable c -> cursor_ok s -> cursor_ok (putc c s).
Proof.
  intros Hc Hok. destruct (putc_printable c s Hc Hok) as (_ & -> & -> & _) || idtac.
  destruct (putc_printable c s Hc Hok) as (_ & Ex & Ey & _). split.
  - rewrite Ex. apply Z.mod_pos_bound. done.
  - rewrite Ey. apply Hok.
Qed.

Lemma cells_cons c l j : 2 <= j -> cells (c :: l) j = cells l (j - 2).
Proof.
  intros Hj. unfold cells. replace ((j - 2) mod 2) with (j mod 2) by zlia.
  case_match; [|done]. unfold aget. f_equal.
  replace (Z.to_nat (j / 2)) with (S (Z.to_nat ((j - 2) / 2))) by zlia. done.
Qed.

(** text that fits the rest of the row lands in consecutive cells *)
Lemma put_chars_row l s :
  Forall printable l -> cursor_ok s -> screen_x s + Z.of_nat (length l) <= NUM_COLS ->
  filled (mm s) (mm (put_chars l s)) (cell (screen_x s) (screen_y s))
    (2 * Z.of_nat (length l)) (cells l) /\
  screen_x (put_chars l s) = (screen_x s + Z.of_nat (length l)) mod NUM_COLS /\
  screen_y (put_chars l s) = screen_y s /\ same_but_console s (put_chars l s).
Proof.
  revert s. induction l as [|c l IH]; intros s Hl Hok Hfit; cbn [put_chars fold_left length].
  - destruct Hok. split_and!; try done; [apply filled_refl|].
    rewrite Z.add_0_r, Z.mod_small; done.
  - apply Forall_cons_1 in Hl as [Hc Hl]. cbn [length] in Hfit.
    destruct (putc_printable c s Hc Hok) as (Hf & Ex & Ey & Hs).
    pose proof (putc_cursor_ok c s Hc Hok) as Hok'.
    destruct (decide (l = [])) as [->|Hne].
    + cbn. now split_and!.
    + assert (0 < length l)%nat by (destruct l; [done | cbn; lia]).
      assert (screen_x (putc c s) = screen_x s + 1) as Ex'
        by (rewrite Ex; apply Z.mod_small; destruct Hok; lia).
      destruct (IH (putc c s) Hl Hok') as (Hf2 & Ex2 & Ey2 & Hs2); [lia|].
      fold (put_chars l (putc c s)). split_and!.
      * replace (2 * Z.of_nat (S (length l))) with (2 + 2 * Z.of_nat (length l)) by lia.
        destruct Hok as [Hx Hy]. rewrite Ex', Ey, cell_lin in Hf2.
        rewrite cell_lin in Hf |- *.
        replace (VIDEO + 2 * (NUM_COLS * screen_y s + (screen_x s + 1)))
          with (VIDEO + 2 * (NUM_COLS * screen_y s + screen_x s) + 2) in Hf2 by lia.
        eapply filled_app; [lia | lia | unfold NUM_COLS in *; lia | | | exact Hf2].
        -- intros i Hi. rewrite cells_cons by lia. f_equal. lia.
        -- eapply filled_ext; [|exact Hf]. intros i Hi.
           assert (i = 0 \/ i = 1) as [-> | ->] by lia; done.
      * rewrite Ex2, Ex'. f_equal. lia.
      * congruence.
      * etrans; [exact Hs | exact Hs2].
Qed.

(** ** clear *)

Definition blank_cells (j : Z) : Z := if j mod 2 =? 0 then SPACE else ATTRIB.

Lemma clear_loop_filled n i s :
  0 <= i -> 2 * Z.of_nat n <= 4294967296 ->
  filled (mm s) (mm (clear_loop n i s)) (VIDEO + 2 * i) (2 * Z.of_nat n) blank_cells /\
  screen_x (clear_loop n i s) = screen_x s /\ screen_y (clear_loop n i s) = screen_y s /\
  same_but_console s (clear_loop n i s).
Proof.
  revert i s. induction n as [|n IH]; intros i s Hi Hn; cbn [clear_loop].
  - split_and!; try done. apply filled_refl.
  - rewrite Z.shiftl_mul_pow2 by lia. replace (i * 2 ^ 1) with (2 * i) by lia.
    set (s1 := poke _ ATTRIB _). destruct (IH (i + 1) s1) as (Hf & Ex & Ey & Hs); [lia|lia|].
    split_and!; [|done|done|].
    + replace (2 * Z.of_nat (S n)) with (2 + 2 * Z.of_nat n) by lia.
      replace (VIDEO + 2 * (i + 1)) with (VIDEO + 2 * i + 2) in Hf by lia.
      eapply filled_app; [lia | lia | lia | | | exact Hf].
      * intros j Hj. unfold blank_cells. now replace ((j + 2) mod 2) with (j mod 2) by zlia.
      * eapply filled_ext; [|apply (filled_cell _ _ SPACE)].
        intros j Hj. assert (j = 0 \/ j = 1) as [-> | ->] by lia; done.
    + etrans; [|exact Hs]. now split_and!.
Qed.

Lemma clear_spec s :
  filled (mm s) (mm (clear s)) VIDEO 4000 blank_cells /\
  screen_x (clear s) = screen_x s /\ screen_y (clear s) = screen_y s /\
  same_but_console s (clear s).
Proof. apply (clear_loop_filled 2000 0 s); lia. Qed.

(** ** puts and printf write the text they denote *)

Lemma puts_loop_local fuel buf a m0 l i s :
  buf ≃ wrl m0 a (l ++ [0]) -> Forall (fun c => 0 < c < 256) l ->
  Z.of_nat (length l) < 65536 -> 0 <= i -> (length l < fuel + Z.to_nat i)%nat ->
  i <= Z.of_nat (length l) ->
  puts_loop fuel (local_src buf a) i s =
    Some (Z.of_nat (length l), put_chars (drop (Z.to_nat i) l) s).
Proof.
  intros Hb Hl Hw. revert i s. induction fuel as [|f IH]; intros i s Hi Hf Hle;
    cbn [puts_loop]; [lia|].
  assert (local_src buf a s i = u8 ((l ++ [0]) !!! Z.to_nat i)) as ->
    by (unfold local_src; rewrite Hb, rd_wrl_in by (rewrite length_app; cbn; lia); done).
  destruct (decide (i = Z.of_nat (length l))) as [->|Hne].
  - rewrite Nat2Z.id, lookup_total_app_r, Nat.sub_diag by lia. cbn.
    now rewrite drop_ge by lia.
  - rewrite lookup_total_app_l by lia.
    destruct (lookup_lt_is_Some_2 l (Z.to_nat i)) as [c Hc]; [lia|].
    rewrite (list_lookup_total_correct _ _ _ Hc).
    rewrite Forall_lookup in Hl. specialize (Hl _ _ Hc) as Hcr.
    rewrite u8_small by lia. destruct (Z.eqb_spec c 0); [lia|]. cbn [negb].
    rewrite IH by lia. rewrite (drop_S _ c (Z.to_nat i)) by done.
    now replace (Z.to_nat (i + 1)) with (S (Z.to_nat i)) by lia.
Qed.

Lemma puts_local buf a m0 l s :
  buf ≃ wrl m0 a (l ++ [0]) -> Forall (fun c => 0 < c < 256) l -> (length l < STR_FUEL)%nat ->
  puts STR_FUEL (local_src buf a) s = Some (Z.of_nat (length l), put_chars l s).
Proof.
  intros Hb Hl Hf. unfold puts. unfold STR_FUEL in *.
  rewrite (puts_loop_local _ _ _ m0 l) by (done || lia). done.
Qed.

(** the text of each numeric conversion *)
Definition hex_text (v : Z) : list Z := itoa_string (u32 v) 16.
Definition hex8_text (v : Z) : list Z :=
  replicate (8 - length (hex_text v)) 48 ++ hex_text v.
Definition dec_text (v : Z) : list Z := itoa_string (u32 v) 10.
Definition signed_text (v : Z) : list Z :=
  if s32 v <? 0 then 45 :: itoa_string (u32 (- s32 v)) 10 else dec_text v.

Lemma digits_lsb_short k f v r :
  2 <= r -> 0 <= v < r ^ Z.of_nat k -> (length (digits_lsb f v r) <= k)%nat.
Proof.
  intros Hr. revert k v. induction f as [|f IH]; intros k v Hv; cbn [digits_lsb];
    destruct (Z.eqb_spec v 0) as [->|Hne]; cbn [length]; try lia.
  destruct k as [|k]; [change (r ^ Z.of_nat 0) with 1 in Hv; lia|].
  apply le_n_S, IH. rewrite Nat2Z.inj_succ, Z.pow_succ_r in Hv by lia.
  split; [apply Z.div_pos; lia|]. apply Z.div_lt_upper_bound; lia.
Qed.

Lemma hex_text_length v : (1 <= length (hex_text v) <= 8)%nat.
Proof.
  unfold hex_text, itoa_string. pose proof (u32_range v).
  destruct (Z.eqb_spec (u32 v) 0) as [E|E]; [cbn; lia|]. rewrite length_reverse.
  split; [|now apply digits_lsb_short].
  cbn [digits_lsb]. destruct (Z.eqb_spec (u32 v) 0); [done | cbn; lia].
Qed.

Lemma fill_zeros_wrl n i buf : fill_zeros n i buf = wrl buf i (replicate n 48).
Proof. revert i buf. induction n as [|n IH]; intros i buf; cbn; [done | apply IH]. Qed.

(** stores of disjoint byte strings commute *)
Lemma wrl_comm (m : mem) a la b lb :
  Z.of_nat (length la) <= 4294967296 -> Z.of_nat (length lb) <= 4294967296 ->
  Z.of_nat (length la) <= off a b -> Z.of_nat (length lb) <= off b a ->
  wrl (wrl m a la) b lb ≃ wrl (wrl m b lb) a la.
Proof.
  intros Ha Hb Hab Hba x. rewrite !rd_wrl by done.
  pose proof (u32_range (x - a)). pose proof (u32_range (x - b)).
  destruct (Z.ltb_spec (off b x) (Z.of_nat (length lb))),
    (Z.ltb_spec (off a x) (Z.of_nat (length la))); try done. exfalso. zlia.
Qed.

Lemma put_chars_text v s : put_chars v s = fold_left (fun s c => putc c s) v s.
Proof. done. Qed.

Lemma printf_x_text alt v s :
  printf_x alt v s = Some (put_chars (if alt then hex8_text v else hex_text v) s).
Proof.
  pose proof (hex_text_length v) as Hlen. pose proof (u32_range v) as Hv.
  assert (Forall (fun c => 0 < c < 256) (hex_text v)) as Hch
    by (apply itoa_string_chars; lia).
  unfold printf_x. destruct alt; cbn [negb].
  - destruct (itoa_writes (∅ : mem) (u32 v) 8 16) as (buf & -> & Hb); [lia | lia |].
    cbn [mbind option_bind]. fold (hex_text v) in Hb.
    assert (strlen STR_FUEL buf (Addr 8) = Some (Z.of_nat (length (hex_text v)))) as ->.
    { apply strlen_spec. cbn [ldc]. unfold STR_FUEL. split; [lia|]. setoid_rewrite Hb.
      apply (strlen_spec STR_FUEL (wrl ∅ 8 (hex_text v ++ [0])) (Addr 8)), strlen_wrl;
        [done | unfold STR_FUEL; lia | done]. }
    cbn [mbind option_bind]. rewrite fill_zeros_wrl.
    set (k := length (hex_text v)) in *.
    replace (Z.to_nat (8 - Z.of_nat k)) with (8 - k)%nat by lia.
    erewrite (puts_local _ _ ∅ (hex8_text v)); [done | | |].
    + unfold hex8_text. rewrite <- app_assoc, wrl_app, length_replicate, Hb. fold k.
      replace (Z.of_nat k + Z.of_nat (8 - k)) with 8 by lia.
      destruct (decide (k = 8%nat)) as [Ek|Ek]; [now rewrite Ek|].
      apply wrl_comm; rewrite ?length_app, ?length_replicate; cbn [length]; fold k;
        [lia | lia | zlia | zlia].
    + apply Forall_app. split; [|done]. apply Forall_replicate. lia.
    + unfold hex8_text, STR_FUEL. rewrite length_app, length_replicate. fold k. lia.
  - destruct (itoa_writes (∅ : mem) (u32 v) 0 16) as (buf & -> & Hb); [lia | lia |].
    cbn [mbind option_bind]. erewrite (puts_local _ _ ∅ (hex_text v));
      [done | done | done | unfold STR_FUEL; lia].
Qed.

Lemma puts_number m0 a v r s :
  2 <= r <= 36 -> 0 <= v < 4294967296 ->
  exists buf, itoa m0 v a r = Some buf /\
    puts STR_FUEL (local_src buf a) s =
      Some (Z.of_nat (length (itoa_string v r)), put_chars (itoa_string v r) s).
Proof.
  intros Hr Hv. destruct (itoa_writes m0 v a r) as (buf & E & Hb); [lia | lia |].
  exists buf. split; [done|]. apply (puts_local _ _ m0); [done | now apply itoa_string_chars |].
  pose proof (itoa_string_length v r). unfold STR_FUEL. lia.
Qed.

Lemma printf_u_text v s : printf_u v s = Some (put_chars (dec_text v) s).
Proof.
  unfold printf_u. pose proof (u32_range v).
  destruct (puts_number ∅ 0 (u32 v) 10 s) as (buf & -> & Hp); [lia | lia |].
  cbn [mbind option_bind]. now rewrite Hp.
Qed.

Lemma printf_d_text v s : printf_d v s = Some (put_chars (signed_text v) s).
Proof.
  unfold printf_d, signed_text. pose proof (u32_range v).
  destruct (Z.ltb_spec (s32 v) 0); [|now apply printf_u_text].
  pose proof (u32_range (- s32 v)).
  destruct (itoa_writes (wr (∅ : mem) 0 45) (u32 (- s32 v)) 1 10) as (buf & -> & Hb);
    [lia | lia |].
  cbn [mbind option_bind].
  erewrite (puts_local _ 0 ∅ (45 :: itoa_string (u32 (- s32 v)) 10)); [done | done | |].
  - constructor; [lia|]. apply itoa_string_chars. lia.
  - pose proof (itoa_string_length (u32 (- s32 v)) 10). unfold STR_FUEL. cbn [length]. lia.
Qed.

(** what a format with numeric, character and literal conversions prints;
    [None] for %s, a missing argument, or a format that ends inside % *)
Fixpoint render_conv (alternate : bool) (fmt args : list Z)
  : option (list Z * list Z * list Z) :=
  match fmt with
  | [] => None
  | c :: fmt' =>
      if c =? 37 then Some ([37], fmt', args)
      else if c =? 35 then render_conv true fmt' args
      else if c =? 120 then
        match args with
        | v :: args' => Some (if alternate then hex8_text v else hex_text v, fmt', args')
        | [] => None end
      else if c =? 117 then
        match args with v :: args' => Some (dec_text v, fmt', args') | [] => None end
      else if c =? 100 then
        match args with v :: args' => Some (signed_text v, fmt', args') | [] => None end
      else if c =? 99 then
        match args with v :: args' => Some ([u8 v], fmt', args') | [] => None end
      else if c =? 115 then None
      else Some ([], fmt', args)
  end.

Fixpoint render (fuel : nat) (fmt args : list Z) : option (list Z) :=
  match fmt with
  | [] => Some []
  | c :: fmt' =>
      match fuel with
      | O => None
      | S f =>
          if c =? 37 then
            '(t, fmt', args') ← render_conv false fmt' args;
            rest ← render f fmt' args'; Some (t ++ rest)
          else rest ← render f fmt' args; Some (c :: rest)
      end
  end.

Lemma put_chars_app l1 l2 s : put_chars (l1 ++ l2) s = put_chars l2 (put_chars l1 s).
Proof. apply fold_left_app. Qed.

Lemma printf_conv_renders alt fmt args s t fmt' args' :
  render_conv alt fmt args = Some (t, fmt', args') ->
  printf_conv alt fmt args s = Some (fmt', args', put_chars t s).
Proof.
  revert alt. induction fmt as [|c fmt IH]; intros alt; cbn [render_conv printf_conv]; [done|].
  destruct (c =? 37); [now intros [= <- <- <-]|].
  destruct (c =? 35); [apply IH|].
  destruct (c =? 120); [destruct args; [done|]; intros [= <- <- <-]; now rewrite printf_x_text|].
  destruct (c =? 117); [destruct args; [done|]; intros [= <- <- <-]; now rewrite printf_u_text|].
  destruct (c =? 100); [destruct args; [done|]; intros [= <- <- <-]; now rewrite printf_d_text|].
  destruct (c =? 99); [destruct args; [done|]; now intros [= <- <- <-]|].
  destruct (c =? 115); [done|]. now intros [= <- <- <-].
Qed.

Lemma printf_loop_renders fuel fmt args s t :
  render fuel fmt args = Some t -> printf_loop fuel fmt args s = Some (put_chars t s).
Proof.
  revert fmt args s t. induction fuel as [|f IH]; intros [|c fmt] args s t;
    cbn [render printf_loop]; try done; try (now intros [= <-]).
  destruct (c =? 37).
  - destruct (render_conv false fmt args) as [[[t1 fmt1] args1]|] eqn:Ec; cbn; [|done].
    destruct (render f fmt1 args1) as [rest|] eqn:Er; cbn; [|done]. intros [= <-].
    rewrite (printf_conv_renders _ _ _ _ _ _ _ Ec). cbn.
    rewrite put_chars_app. now apply IH.
  - destruct (render f fmt args) as [rest|] eqn:Er; cbn; [|done]. intros [= <-].
    rewrite (IH _ _ (putc c s) _ Er). done.
Qed.

(** ** What printing leaves alone

    However a text runs over the screen, printing it only changes bytes of the
    video page: every newline moves the cursor down by one row, and the next
    character brings it back to the 25 rows. *)

(** a cursor at most [j] rows below the screen *)
Definition rows_ok (j : Z) (s : mach) : Prop :=
  0 <= screen_x s < NUM_COLS /\ 0 <= screen_y s < NUM_ROWS + j.

(** bytes outside the 50 rows from [VIDEO] on are as before *)
Definition VIDEO_SPAN : Z := 8000.
Record console_frame (s s' : mach) : Prop := {
  cf_same : same_but_console s s';
  cf_mem : forall a, VIDEO_SPAN <= off VIDEO a -> rd (mm s') a = rd (mm s) a
}.

#[export] Instance console_frame_preorder : PreOrder console_frame.
Proof.
  split; [intros s; split; [reflexivity | done]|]. intros s1 s2 s3 [H1 M1] [H2 M2].
  split; [etrans; [exact H1 | exact H2]|]. intros a Ha. now rewrite M2, M1.
Qed.

Definition newline (c : Z) : bool := (c =? 10) || (c =? 13).
Definition newlines (l : list Z) : Z := Z.of_nat (length (List.filter newline l)).

Lemma newlines_app l1 l2 : newlines (l1 ++ l2) = newlines l1 + newlines l2.
Proof. unfold newlines. rewrite List.filter_app, length_app. lia. Qed.
Lemma newlines_nonneg l : 0 <= newlines l.
Proof. unfold newlines. lia. Qed.
Lemma newlines_cons c l : newlines (c :: l) = (if newline c then 1 else 0) + newlines l.
Proof. unfold newlines. cbn [List.filter]. destruct (newline c); cbn [length]; lia. Qed.

Lemma putc_frame c j s :
  rows_ok j s -> 0 <= j <= 25 ->
  console_frame s (putc c s) /\ rows_ok (if newline c then j + 1 else 0) (putc c s).
Proof.
  intros [Hx Hy] Hj. unfold putc, newline. unfold NUM_COLS, NUM_ROWS in *.
  destruct ((c =? 10) || (c =? 13)).
  - split; [split; [now split_and! | done]|]. split; cbn; unfold NUM_COLS, NUM_ROWS; lia.
  - split.
    + split; [now split_and!|]. intros a Ha. unfold VIDEO_SPAN in Ha.
      cbn [mm set_mm set_screen_x set_screen_y poke screen_x screen_y]. rewrite cell_lin. unfold NUM_COLS. rewrite !rd_wr_off.
      destruct (Z.eqb_spec (off (VIDEO + 2 * (80 * screen_y s + screen_x s) + 1) a) 0),
        (Z.eqb_spec (off (VIDEO + 2 * (80 * screen_y s + screen_x s)) a) 0); try done;
        exfalso; unfold VIDEO in *; zlia.
    + unfold rows_ok. cbn. unfold NUM_COLS, NUM_ROWS.
      rewrite (Z.rem_mod_nonneg (screen_x s + 1)) by lia.
      pose proof (Z.mod_pos_bound (screen_x s + 1) 80 ltac:(lia)).
      rewrite Z.quot_div_nonneg, (Z.div_small (_ mod 80)), Z.add_0_r by lia.
      rewrite Z.rem_mod_nonneg by lia. pose proof (Z.mod_pos_bound (screen_y s) 25 ltac:(lia)). lia.
Qed.

Lemma put_chars_frame l j s :
  rows_ok j s -> 0 <= j -> j + newlines l <= 25 ->
  console_frame s (put_chars l s) /\ rows_ok (j + newlines l) (put_chars l s).
Proof.
  revert j s. induction l as [|c l IH]; intros j s Hr Hj Hn; cbn [put_chars fold_left].
  - split; [reflexivity|]. unfold newlines. cbn. now rewrite Z.add_0_r.
  - rewrite newlines_cons in *. pose proof (newlines_nonneg l).
    destruct (putc_frame c j s Hr) as [F1 R1]; [destruct (newline c); lia|].
    destruct (newline c).
    + destruct (IH (j + 1) (putc c s) R1) as [F2 R2]; [lia | lia |].
      split; [etrans; [exact F1 | exact F2]|]. now replace (j + (1 + newlines l)) with (j + 1 + newlines l) by lia.
    + destruct (IH 0 (putc c s) R1) as [F2 [R2 R3]]; [lia | lia |].
      split; [etrans; [exact F1 | exact F2]|]. split; [done|]. unfold newlines, put_chars in *. lia.
Qed.

(** a text that starts with a character brings the cursor back first *)
Lemma put_line_frame c l j s :
  rows_ok j s -> 0 <= j <= 25 -> newline c = false -> newlines l <= 25 ->
  console_frame s (put_chars (c :: l) s) /\ rows_ok (newlines l) (put_chars (c :: l) s).
Proof.
  intros Hr Hj Hc Hn. destruct (putc_frame c j s Hr Hj) as [F1 R1]. rewrite Hc in R1.
  destruct (put_chars_frame l 0 (putc c s) R1) as [F2 R2]; [lia | lia |].
  split; [etrans; [exact F1 | exact F2] | exact R2].
Qed.

Lemma newlines_none l : Forall printable l -> newlines l = 0.
Proof.
  induction 1 as [|c l [H1 H2] _ IH]; [done|]. rewrite newlines_cons, IH. unfold newline.
  destruct (Z.eqb_spec c 10), (Z.eqb_spec c 13); done.
Qed.

Lemma digits_lsb_printable f v r : 2 <= r <= 36 -> Forall printable (digits_lsb f v r).
Proof.
  intros Hr. revert v. induction f as [|f IH]; intros v; cbn [digits_lsb];
    destruct (v =? 0); try constructor; [|apply IH].
  destruct (lookup_digits_spec (v mod r)) as (_ & _ & Hd); [pose proof (Z.mod_pos_bound v r); lia|].
  pose proof (Z.mod_pos_bound v r). split; intros E; rewrite E in Hd; cbn in Hd; lia.
Qed.

Lemma itoa_string_printable v r : 2 <= r <= 36 -> Forall printable (itoa_string v r).
Proof.
  intros Hr. unfold itoa_string. case_match; [repeat constructor; discriminate|].
  apply Forall_reverse. now apply digits_lsb_printable.
Qed.

Lemma newlines_hex v : newlines (hex_text v) = 0.
Proof. apply newlines_none, itoa_string_printable. lia. Qed.
Lemma newlines_hex8 v : newlines (hex8_text v) = 0.
Proof.
  unfold hex8_text. rewrite newlines_app, newlines_hex, newlines_none; [done|].
  apply Forall_replicate. split; discriminate.
Qed.
Lemma newlines_dec v : newlines (dec_text v) = 0.
Proof. apply newlines_none, itoa_string_printable. lia. Qed.
Lemma newlines_signed v : newlines (signed_text v) = 0.
Proof.
  unfold signed_text. case_match; [|apply newlines_dec].
  rewrite newlines_cons, newlines_none; [done | apply itoa_string_printable; lia].
Qed.

Lemma clear_frame s : console_frame s (clear s).
Proof.
  destruct (clear_spec s) as (Hf & _ & _ & Hs). split; [exact Hs|]. intros a Ha.
  rewrite Hf. unfold VIDEO_SPAN in Ha. destruct (Z.ltb_spec (off VIDEO a) 4000); [lia | done].
Qed.

Lemma clear_rows j s : rows_ok j s -> rows_ok j (clear s).
Proof. destruct (clear_spec s) as (_ & Hx & Hy & _). unfold rows_ok. now rewrite Hx, Hy. Qed.

(** a NUL-terminated text in memory that printing cannot change *)
Record text_mem (m : mem) (a : Z) (l : list Z) : Prop := {
  tm_chars : forall k, 0 <= k < Z.of_nat (length l) -> rd m (a + k) = aget l k /\ aget l k <> 0;
  tm_nul : rd m (a + Z.of_nat (length l)) = 0;
  tm_apart : forall k, 0 <= k <= Z.of_nat (length l) -> VIDEO_SPAN <= off VIDEO (a + k)
}.

Lemma text_mem_tail m a c l : text_mem m a (c :: l) -> rd m a = c /\ c <> 0 /\ text_mem m (a + 1) l.
Proof.
  intros [Hc Hn Ha]. cbn [length] in *. destruct (Hc 0) as [H0 H1]; [lia|]. rewrite Z.add_0_r in H0.
  split; [exact H0|]. split; [exact H1|]. split.
  - intros k Hk. specialize (Hc (k + 1) ltac:(lia)).
    replace (a + 1 + k) with (a + (k + 1)) by lia. unfold aget in *.
    now replace (Z.to_nat (k + 1)) with (S (Z.to_nat k)) in Hc by lia.
  - rewrite <- Hn. f_equal. lia.
  - intros k Hk. replace (a + 1 + k) with (a + (k + 1)) by lia. apply Ha. lia.
Qed.

Lemma text_mem_frame s s' a l :
  console_frame s s' -> text_mem (mm s) a l -> text_mem (mm s') a l.
Proof.
  intros [_ Hm] [Hc Hn Ha]. split; [|rewrite Hm; [done | apply Ha; lia] | done].
  intros k Hk. rewrite Hm; [now apply Hc | apply Ha; lia].
Qed.

Lemma puts_mem fuel a b l i j s :
  text_mem (mm s) b l -> b = a + i -> (length l < fuel)%nat ->
  rows_ok j s -> 0 <= j -> j + newlines l <= 25 ->
  puts_loop fuel (mem_src a) i s = Some (i + Z.of_nat (length l), put_chars l s).
Proof.
  revert b l i j s. induction fuel as [|f IH]; intros b l i j s Ht -> Hf Hr Hj Hn; [lia|].
  cbn [puts_loop]. change (mem_src a s i) with (rd (mm s) (a + i)). destruct l as [|c l].
  - pose proof (tm_nul _ _ _ Ht) as Hz. cbn [length] in Hz. rewrite Z.add_0_r in Hz. rewrite Hz.
    cbn. do 2 f_equal. lia.
  - destruct (text_mem_tail _ _ _ _ Ht) as (-> & Hc & Ht').
    destruct (Z.eqb_spec c 0); [done|]. cbn [negb]. rewrite newlines_cons in Hn.
    pose proof (newlines_nonneg l).
    destruct (putc_frame c j s Hr) as [F1 R1]; [destruct (newline c); lia|].
    cbn [length] in Hf |- *.
    rewrite (IH (a + (i + 1)) l (i + 1) (if newline c then j + 1 else 0) (putc c s));
      [| | done | lia | done | destruct (newline c); lia | destruct (newline c); lia].
    + do 2 f_equal. lia.
    + apply (text_mem_frame s); [done|]. now replace (a + (i + 1)) with (a + i + 1) by lia.
Qed.

(** C33: printf shows what its format denotes: the literal characters, with each
    %x, %#x (eight digits), %u, %d, %c and %% replaced by the text of its
    argument ([render]), in the cells from the cursor on and nowhere else in
    memory, when that fits the row; it returns the length of the format. *)
Theorem printf_shows_format fmt args t s :
  render (length fmt) fmt args = Some t -> Forall printable t -> cursor_ok s ->
  screen_x s + Z.of_nat (length t) <= NUM_COLS ->
  exists s', printf fmt args s = Some (Z.of_nat (length fmt), s') /\
    filled (mm s) (mm s') (cell (screen_x s) (screen_y s)) (2 * Z.of_nat (length t)) (cells t) /\
    screen_x s' = (screen_x s + Z.of_nat (length t)) mod NUM_COLS /\
    screen_y s' = screen_y s /\ same_but_console s s'.
Proof.
  intros Hr Hp Hok Hfit. unfold printf. rewrite (printf_loop_renders _ _ _ _ _ Hr), bind_some.
  eexists. split; [reflexivity|]. now apply put_chars_row.
Qed.

(** C40: A character written in the last column leaves the cursor in column 0 of
    the same row: putc reduces the column before it uses it to advance the
    row, so a long text overwrites its own row instead of going on in the next
    one. *)
Theorem putc_wraps_within_row c s :
  printable c -> screen_x s = NUM_COLS - 1 -> 0 <= screen_y s < NUM_ROWS ->
  screen_x (putc c s) = 0 /\ screen_y (putc c s) = screen_y s /\
  get_char (NUM_COLS - 1) (screen_y s) (putc c s) = u8 c.
Proof.
  intros Hc Hx Hy. assert (cursor_ok s) as Hok by (unfold cursor_ok, NUM_COLS in *; lia).
  destruct (putc_printable c s Hc Hok) as (Hf & Ex & Ey & _). rewrite Ex, Ey, Hx.
  split; [reflexivity|]. split; [reflexivity|]. unfold get_char. rewrite Hf, Hx.
  rewrite Z.sub_diag. reflexivity.
Qed.

(** "x=%d" with -1 *)
Lemma printf_shows_format_witness :
  let s := Mach ∅ 5 3 [] 255 255 0 true in
  exists s', printf [120; 61; 37; 100] [4294967295] s = Some (4, s') /\ screen_x s' = 9.
Proof.
  intros s. destruct (printf_shows_format [120; 61; 37; 100] [4294967295] [120; 61; 45; 49] s)
    as (s' & E & _ & Hx & _).
  - reflexivity.
  - repeat constructor; discriminate.
  - unfold cursor_ok, NUM_COLS, NUM_ROWS. cbn. lia.
  - cbn. unfold NUM_COLS. lia.
  - exists s'. split; [exact E | exact Hx].
Defined.

Lemma putc_wraps_within_row_witness :
  screen_y (putc 65 (Mach ∅ 79 3 [] 255 255 0 true)) = 3.
Proof.
  destruct (putc_wraps_within_row 65 (Mach ∅ 79 3 [] 255 255 0 true)) as (_ & E & _);
    [split; discriminate | reflexivity | unfold NUM_ROWS; cbn; lia | exact E].
Defined.
