(* ===== verification/Pic.v ===== *)
(** * The interrupt controller driver (i8259.c)

    The two cached masks live in [mach]; every write the driver makes to a
    controller is in the port log, from which the registers the controllers
    hold can be read back. *)

From Stdlib Require Import ZArith Lia.
From stdpp Require Import base list gmap.
From S2P Require Import Prelude Memory Machine.
Open Scope Z_scope.

Definition MASTER_8259_PORT : Z := 32.     (* 0x20 *)
Definition MASTER_8259_IMR : Z := 33.      (* 0x21 *)
Definition SLAVE_8259_PORT : Z := 160.     (* 0xA0 *)
Definition SLAVE_8259_IMR : Z := 161.      (* 0xA1 *)
Definition PORTS : Z := 8.
Definition ICW1 : Z := 17.
Definition ICW2_MASTER : Z := 32.
Definition ICW2_SLAVE : Z := 40.
Definition ICW3_MASTER : Z := 4.
Definition ICW3_SLAVE : Z := 2.
Definition ICW4 : Z := 1.
Definition PIC_EOI : Z := 32.
Definition ALL_MASK : Z := 255.
Definition LONG_MASK : Z := 65280.         (* 0xFF00 *)
Definition PIC_1 : Z := 1.
Definition PIC_8 : Z := 8.

Definition i8259_init (s : mach) : mach :=
  let '(flag, s) := cli_and_save s in
  let s := outb ALL_MASK MASTER_8259_IMR s in
  let s := outb ALL_MASK SLAVE_8259_IMR s in
  let s := outb ICW1 MASTER_8259_PORT s in
  let s := outb ICW1 SLAVE_8259_PORT s in
  let s := outb ICW2_MASTER MASTER_8259_IMR s in
  let s := outb ICW2_SLAVE SLAVE_8259_IMR s in
  let s := outb ICW3_MASTER MASTER_8259_IMR s in
  let s := outb ICW3_SLAVE SLAVE_8259_IMR s in
  let s := outb ICW4 MASTER_8259_IMR s in
  let s := outb ICW4 SLAVE_8259_IMR s in
  let s := outb ALL_MASK MASTER_8259_IMR s in
  let s := outb ALL_MASK SLAVE_8259_IMR s in
  restore_flags flag s.

(** [1 << arg] is defined for [arg < 32]; every caller passes less than 16 *)
Definition enable_irq (arg : Z) (s : mach) : mach :=
  let mask := u32 (Z.lnot (Z.shiftl 1 arg)) in
  if negb (Z.land arg PORTS =? 0) then
    let s := set_slave_mask
      (u8 (Z.land (slave_mask s) (Z.shiftr (Z.land mask LONG_MASK) PORTS))) s in
    outb (slave_mask s) SLAVE_8259_IMR s
  else
    let s := set_master_mask (u8 (Z.land (master_mask s) (Z.land mask ALL_MASK))) s in
    outb (master_mask s) MASTER_8259_IMR s.

Definition disable_irq (arg : Z) (s : mach) : mach :=
  let mask := u32 (Z.shiftl 1 arg) in
  if negb (Z.land arg PORTS =? 0) then
    let s := set_slave_mask
      (u8 (Z.lor (slave_mask s) (Z.shiftr (Z.land mask LONG_MASK) PORTS))) s in
    outb (slave_mask s) SLAVE_8259_IMR s
  else
    let s := set_master_mask (u8 (Z.lor (master_mask s) (Z.land mask ALL_MASK))) s in
    outb (master_mask s) MASTER_8259_IMR s.

Definition send_eoi (arg : Z) (s : mach) : mach :=
  let s := if negb (Z.land arg PORTS =? 0) then outb PIC_EOI SLAVE_8259_PORT s else s in
  outb PIC_EOI MASTER_8259_PORT s.

(** ** The abstract controller: a set of 16 masked lines *)

(** line [i] is masked in the driver's cached masks *)
Definition masked (s : mach) (i : Z) : bool :=
  if i <? 8 then Z.testbit (master_mask s) i else Z.testbit (slave_mask s) (i - 8).

(** the last byte the driver sent to a port *)
Fixpoint last_out (port : Z) (log : list pevent) : option Z :=
  match log with
  | [] => None
  | Out d p :: log' =>
      match last_out port log' with
      | Some v => Some v
      | None => if p =? port then Some d else None
      end
  | In _ _ :: log' => last_out port log'
  end.

(** the controllers' mask registers hold the cached masks *)
Definition synced (s : mach) : Prop :=
  last_out MASTER_8259_IMR (ports s) = Some (master_mask s) /\
  last_out SLAVE_8259_IMR (ports s) = Some (slave_mask s) /\
  0 <= master_mask s < 256 /\ 0 <= slave_mask s < 256.

Lemma last_out_snoc port log d p :
  last_out port (log ++ [Out d p]) = if p =? port then Some d else last_out port log.
Proof.
  induction log as [|[d' p'|p' v] log IH]; cbn; [done | | done].
  rewrite IH. now destruct (p =? port).
Qed.

Lemma last_out_snoc_in port log p v : last_out port (log ++ [In p v]) = last_out port log.
Proof. induction log as [|[d' p'|p' v'] log IH]; cbn; [done | now rewrite IH | done]. Qed.

#[export] Hint Rewrite last_out_snoc last_out_snoc_in : ports.

Lemma testbit_u8 z i : 0 <= i -> Z.testbit (u8 z) i = (i <? 8) && Z.testbit z i.
Proof.
  intros Hi. unfold u8. change 256 with (2 ^ 8).
  destruct (Z.ltb_spec i 8); [now apply Z.mod_pow2_bits_low | now apply Z.mod_pow2_bits_high].
Qed.

Lemma testbit_u32 z i : 0 <= i -> Z.testbit (u32 z) i = (i <? 32) && Z.testbit z i.
Proof.
  intros Hi. unfold u32. change 4294967296 with (2 ^ 32).
  destruct (Z.ltb_spec i 32); [now apply Z.mod_pow2_bits_low | now apply Z.mod_pow2_bits_high].
Qed.

Lemma testbit_bit k i : 0 <= k -> Z.testbit (Z.shiftl 1 k) i = (k =? i).
Proof. intros. rewrite Z.shiftl_1_l. now apply Z.pow2_bits_eqb. Qed.

Lemma testbit_low_byte i : 0 <= i -> Z.testbit ALL_MASK i = (i <? 8).
Proof.
  intros Hi. change ALL_MASK with (Z.ones 8). now rewrite Z.testbit_ones_nonneg by lia.
Qed.

Lemma testbit_high_byte i : 0 <= i -> Z.testbit LONG_MASK i = (8 <=? i) && (i <? 16).
Proof.
  intros Hi. change LONG_MASK with (Z.shiftl (Z.ones 8) 8).
  destruct (Z.leb_spec 8 i).
  - rewrite Z.shiftl_spec_high, Z.testbit_ones_nonneg by lia.
    destruct (Z.ltb_spec (i - 8) 8), (Z.ltb_spec i 16); lia || done.
  - now rewrite Z.shiftl_spec_low by lia.
Qed.

Lemma land_8 i : 0 <= i < 16 -> negb (Z.land i PORTS =? 0) = (8 <=? i).
Proof.
  intros Hi.
  assert (find_first (fun i => negb (Bool.eqb (negb (Z.land i PORTS =? 0)) (8 <=? i))) 16 0
    = None) as Hall by reflexivity.
  rewrite find_first_None in Hall. specialize (Hall i ltac:(lia)).
  now apply negb_false_iff, eqb_prop in Hall.
Qed.

#[export] Hint Rewrite testbit_u8 testbit_u32 testbit_bit testbit_low_byte testbit_high_byte
  Z.land_spec Z.lor_spec Z.lnot_spec Z.shiftr_spec using lia : bits.

Lemma masked_enable s irq j :
  0 <= irq < 16 -> 0 <= j < 16 ->
  masked (enable_irq irq s) j = masked s j && negb (j =? irq).
Proof.
  intros Hi Hj. unfold enable_irq, masked. rewrite land_8 by done.
  destruct (Z.leb_spec 8 irq), (Z.ltb_spec j 8); cbn; unfold PORTS; autorewrite with bits.
  all: try (destruct (Z.eqb_spec j irq); [lia|]; now rewrite andb_true_r).
  - replace (j - 8 + 8) with j by lia.
    destruct (Z.ltb_spec (j - 8) 8), (Z.leb_spec 8 j), (Z.ltb_spec j 16), (Z.ltb_spec j 32),
      (Z.eqb_spec irq j), (Z.eqb_spec j irq); try lia; cbn; now rewrite ?andb_true_r, ?andb_false_r.
  - destruct (Z.ltb_spec j 8), (Z.ltb_spec j 32), (Z.eqb_spec irq j), (Z.eqb_spec j irq);
      try lia; cbn; now rewrite ?andb_true_r, ?andb_false_r.
Qed.

Lemma masked_disable s irq j :
  0 <= irq < 16 -> 0 <= j < 16 ->
  masked (disable_irq irq s) j = masked s j || (j =? irq).
Proof.
  intros Hi Hj. unfold disable_irq, masked. rewrite land_8 by done.
  destruct (Z.leb_spec 8 irq), (Z.ltb_spec j 8); cbn; unfold PORTS; autorewrite with bits.
  all: try (destruct (Z.eqb_spec j irq); [lia|]; now rewrite orb_false_r).
  - replace (j - 8 + 8) with j by lia.
    destruct (Z.ltb_spec (j - 8) 8), (Z.leb_spec 8 j), (Z.ltb_spec j 16), (Z.ltb_spec j 32),
      (Z.eqb_spec irq j), (Z.eqb_spec j irq); try lia; cbn; now rewrite ?orb_false_r, ?orb_true_r.
  - destruct (Z.ltb_spec j 8), (Z.ltb_spec j 32), (Z.eqb_spec irq j), (Z.eqb_spec j irq);
      try lia; cbn; now rewrite ?orb_false_r, ?orb_true_r.
Qed.

Ltac pic_step :=
  intros; unfold synced, enable_irq, disable_irq, send_eoi, outb in *;
  destruct_and?; repeat case_match; cbn in *; autorewrite with ports; cbn;
  rewrite ?u8_u8; split_and?; try done; apply u8_range.

Lemma synced_enable s irq : synced s -> synced (enable_irq irq s).
Proof. pic_step. Qed.
Lemma synced_disable s irq : synced s -> synced (disable_irq irq s).
Proof. pic_step. Qed.
Lemma synced_eoi s irq : synced s -> synced (send_eoi irq s).
Proof. pic_step. Qed.

(** ** Properties *)

Definition irq_line (i : Z) : Prop := 0 <= i < 16.

(** C19: on the 16 interrupt lines, [enable_irq] clears the mask bit of exactly
    the line asked for and [disable_irq] sets exactly it, whichever of the two
    controllers the line is on; and after either call the controllers' mask
    registers, as last written through their ports, are the cached masks. *)
Theorem irq_mask_refines_line_set s irq :
  irq_line irq -> synced s ->
  (forall j, irq_line j -> masked (enable_irq irq s) j = masked s j && negb (j =? irq)) /\
  (forall j, irq_line j -> masked (disable_irq irq s) j = masked s j || (j =? irq)) /\
  synced (enable_irq irq s) /\ synced (disable_irq irq s).
Proof.
  intros Hi Hs. split_and!.
  - intros j Hj. now apply masked_enable.
  - intros j Hj. now apply masked_disable.
  - now apply synced_enable.
  - now apply synced_disable.
Qed.

Definition boot_mach : mach := Mach ∅ 0 0 [] 255 255 0 false.

Lemma irq_mask_refines_line_set_witness :
  masked (enable_irq 8 (i8259_init boot_mach)) 8 = false /\
  masked (enable_irq 8 (i8259_init boot_mach)) 2 = true /\
  synced (enable_irq 8 (i8259_init boot_mach)).
Proof.
  destruct (irq_mask_refines_line_set (i8259_init boot_mach) 8) as (He & _ & Hs & _).
  - unfold irq_line. lia.
  - vm_compute. split_and!; reflexivity || discriminate.
  - split_and!; [rewrite He | rewrite He | exact Hs]; unfold irq_line; reflexivity || lia.
Defined.
