(* ===== verification/Rtc.v ===== *)
(** * The real-time clock driver (rtc.c) *)

From Stdlib Require Import ZArith Lia.
From stdpp Require Import base list gmap.
From S2P Require Import Prelude Memory Machine Pic.
Open Scope Z_scope.

Definition RTC_SEL_A : Z := 138.           (* 0x8A *)
Definition RTC_SEL_B : Z := 139.
Definition RTC_SEL_C : Z := 140.
Definition RTC_ENABLE_PIE : Z := 64.
Definition RTC_INDEX_PORT : Z := 112.      (* 0x70 *)
Definition RTC_DATA_PORT : Z := 113.
Definition RTC_BASE_FREQ : Z := 15.
Definition RTC_WRITE_MASK : Z := 240.
Definition RTC_MIN : Z := 2.
Definition RTC_MAX : Z := 1024.
Definition IRQ2 : Z := 2.
Definition IRQ8 : Z := 8.
Definition POW2_MAX : Z := 1024.
Definition NBYTE_4 : Z := 4.

Section Rtc.
Context `{Platform}.

Definition rtc_init (s : mach) : mach :=
  let s := cli s in
  let s := outb RTC_SEL_B RTC_INDEX_PORT s in
  let '(prev_val, s) := inb RTC_DATA_PORT s in
  let s := outb RTC_SEL_B RTC_INDEX_PORT s in
  let s := outb (Z.lor prev_val RTC_ENABLE_PIE) RTC_DATA_PORT s in
  let s := outb RTC_SEL_A RTC_INDEX_PORT s in
  let '(prev_val, s) := inb RTC_DATA_PORT s in
  let s := outb RTC_SEL_A RTC_INDEX_PORT s in
  let s := outb (Z.lor (Z.land prev_val RTC_WRITE_MASK) RTC_BASE_FREQ) RTC_DATA_PORT s in
  let s := sti s in
  let s := enable_irq IRQ2 s in
  enable_irq IRQ8 s.

Definition rtc_open (s : mach) : Z * mach := (0, rtc_init s).
Definition rtc_close (fd : Z) (s : mach) : Z * mach := (0, s).

(** [while(intr_flag == 0);] — between two polls an interrupt handler may
    run; [irqs] is what happens between successive polls.  [None]: still
    waiting when [irqs] ends. *)
Fixpoint rtc_wait (irqs : list (mach -> mach)) (s : mach) : option mach :=
  if intr_flag s =? 0 then
    match irqs with [] => None | irq :: irqs' => rtc_wait irqs' (irq s) end
  else Some s.
Definition rtc_read (irqs : list (mach -> mach)) (fd buf nbytes : Z) (s : mach)
  : option (Z * mach) :=
  s' ← rtc_wait irqs (set_intr_flag 0 s); Some (0, s').

(** [for(i = 2; i < freq; i *= 2) write_freq--;]; 10 rounds reach 1024 *)
Fixpoint rtc_rate_loop (fuel : nat) (i freq write_freq : Z) : Z :=
  match fuel with
  | O => write_freq
  | S f => if i <? freq then rtc_rate_loop f (i * 2) freq (u8 (write_freq - 1))
           else write_freq
  end.

Definition rtc_set (freq : Z) (s : mach) : mach :=
  let freq := if freq <? RTC_MIN then RTC_MIN
              else if freq >? RTC_MAX then RTC_MAX else freq in
  let write_freq := rtc_rate_loop 10 2 freq RTC_BASE_FREQ in
  let s := cli s in
  let s := outb RTC_SEL_A RTC_INDEX_PORT s in
  let '(prev_val, s) := inb RTC_DATA_PORT s in
  let s := outb RTC_SEL_A RTC_INDEX_PORT s in
  let s := outb (Z.lor (Z.land prev_val RTC_WRITE_MASK) write_freq) RTC_DATA_PORT s in
  sti s.

(** [for (i = RTC_MIN; i <= POW2_MAX; i *= RTC_MIN) if (intr_freq == i) flag = 1;] *)
Fixpoint rtc_po2_loop (fuel : nat) (i intr_freq po2_flag : Z) : Z :=
  match fuel with
  | O => po2_flag
  | S f =>
      if i <=? POW2_MAX
      then rtc_po2_loop f (i * RTC_MIN) intr_freq (if intr_freq =? i then 1 else po2_flag)
      else po2_flag
  end.

Definition rtc_write (fd buf nbytes : Z) (s : mach) : Z * mach :=
  if u32 buf =? 0 then (-1, s)
  else if negb (nbytes =? NBYTE_4) then (-1, s)
  else
    let intr_freq := s32 (rd32 (mm s) buf) in
    let po2_flag := rtc_po2_loop 11 RTC_MIN intr_freq 0 in
    if po2_flag =? 0 then (-1, s) else (0, rtc_set intr_freq s).

Definition rtc_interrupt (s : mach) : mach :=
  let s := outb RTC_SEL_C RTC_INDEX_PORT s in
  let '(_, s) := inb RTC_DATA_PORT s in
  let s := set_intr_flag (s32 (intr_flag s + 1)) s in
  let s := send_eoi IRQ8 s in
  send_eoi IRQ2 s.

(** ** Frequencies *)

(** the interrupt rate the chip derives from the low nibble of register A *)
Definition rate_hz (rate : Z) : Z := 32768 / 2 ^ (rate - 1).

Definition rtc_freqs : list Z := [2; 4; 8; 16; 32; 64; 128; 256; 512; 1024].

Lemma rtc_po2_loop_spec freq :
  negb (rtc_po2_loop 11 RTC_MIN freq 0 =? 0) = bool_decide (freq ∈ rtc_freqs).
Proof.
  unfold rtc_freqs. cbn.
  repeat (match goal with |- context [freq =? ?k] => destruct (Z.eqb_spec freq k) as [->|] end;
          [done|]).
  symmetry. cbn. apply bool_decide_eq_false.
  intros Hin. repeat (apply elem_of_cons in Hin as [Hin|Hin]; [done|]).
  now apply not_elem_of_nil in Hin.
Qed.

(** the byte rtc_set leaves in register A, and where it goes *)
Definition rtc_set_events (prev rate : Z) : list pevent :=
  [Out RTC_SEL_A RTC_INDEX_PORT; In RTC_DATA_PORT prev; Out RTC_SEL_A RTC_INDEX_PORT;
   Out (Z.lor (Z.land prev RTC_WRITE_MASK) rate) RTC_DATA_PORT].

Lemma rtc_rate_spec freq :
  freq ∈ rtc_freqs ->
  let rate := rtc_rate_loop 10 2 freq RTC_BASE_FREQ in
  6 <= rate <= 15 /\ rate_hz rate = freq.
Proof.
  intros Hf. unfold rtc_freqs in Hf.
  repeat (apply elem_of_cons in Hf as [-> |Hf]; [vm_compute; split; [split; discriminate|done]|]).
  now apply not_elem_of_nil in Hf.
Qed.

Lemma rate_nibble prev rate :
  0 <= prev < 256 -> 0 <= rate < 16 ->
  let a := Z.lor (Z.land prev RTC_WRITE_MASK) rate in
  0 <= a < 256 /\ a mod 16 = rate /\ a / 16 = prev / 16.
Proof.
  intros Hp Hr.
  assert (find_first (fun k => let prev := k / 16 in let rate := k mod 16 in
    let a := Z.lor (Z.land prev RTC_WRITE_MASK) rate in
    negb ((0 <=? a) && (a <? 256) && (a mod 16 =? rate) && (a / 16 =? prev / 16)))
    4096 0 = None) as Hall by (vm_compute; reflexivity).
  rewrite find_first_None in Hall. specialize (Hall (prev * 16 + rate) ltac:(lia)).
  cbn zeta in Hall.
  replace ((prev * 16 + rate) / 16) with prev in Hall by zlia.
  replace ((prev * 16 + rate) mod 16) with rate in Hall by zlia.
  apply negb_false_iff in Hall. cbn zeta. lia.
Qed.

Lemma rtc_set_ports freq s :
  freq ∈ rtc_freqs ->
  exists prev, 0 <= prev < 256 /\
    ports (rtc_set freq s)
      = ports s ++ rtc_set_events prev (rtc_rate_loop 10 2 freq RTC_BASE_FREQ) /\
    if_flag (rtc_set freq s) = true.
Proof.
  intros Hf. pose proof (rtc_rate_spec freq Hf) as [Hr _].
  unfold rtc_set.
  assert (2 <= freq <= 1024) as Hb
    by (unfold rtc_freqs in Hf; repeat (apply elem_of_cons in Hf as [-> |Hf]; [lia|]);
        now apply not_elem_of_nil in Hf).
  destruct (Z.ltb_spec freq RTC_MIN), (Z.gtb_spec freq RTC_MAX);
    unfold RTC_MIN, RTC_MAX in *; try lia.
  set (rate := rtc_rate_loop _ _ _ _) in *. clearbody rate. unfold inb, outb, cli, sti. cbn.
  eexists. split; [apply u8_range|]. split; [|done].
  unfold rtc_set_events. rewrite <- !app_assoc. cbn. do 4 f_equal.
  rewrite u8_small; [done|]. apply rate_nibble; [apply u8_range | lia].
Qed.

(** handlers that run while a reader waits, other than the RTC's *)
Definition quiet (irq : mach -> mach) : Prop := forall s, intr_flag (irq s) = intr_flag s.

Lemma rtc_wait_quiet irqs s :
  Forall quiet irqs -> intr_flag s = 0 -> rtc_wait irqs s = None.
Proof.
  intros Hq. revert s. induction Hq as [|irq irqs Hirq Hq IH]; intros s Hs;
    cbn [rtc_wait]; rewrite Hs; cbn; [done|]. apply IH. now rewrite Hirq.
Qed.

Lemma rtc_wait_tick irqs rest s :
  Forall quiet irqs -> intr_flag s = 0 ->
  rtc_wait (irqs ++ rtc_interrupt :: rest) s =
    Some (rtc_interrupt (fold_left (fun s irq => irq s) irqs s)).
Proof.
  intros Hq. revert s. induction Hq as [|irq irqs Hirq Hq IH]; intros s Hs;
    cbn [rtc_wait app fold_left]; rewrite Hs; cbn [Z.eqb].
  - assert (intr_flag (rtc_interrupt s) = 1) as Ht by (unfold rtc_interrupt; cbn; now rewrite Hs).
    destruct rest; cbn [rtc_wait]; rewrite Ht; done.
  - apply IH. now rewrite Hirq.
Qed.

(** ** Properties *)

(** C34: [rtc_write] accepts exactly a four-byte request for a power of two
    from 2 to 1024: it then reprograms register A so that its rate nibble
    divides 32768 Hz to the requested frequency and its high nibble is
    unchanged, and returns 0; every other call returns -1 and leaves the
    machine (ports, memory, flags) as it was. *)
Theorem rtc_write_sets_frequency fd buf nbytes s :
  let freq := s32 (rd32 (mm s) buf) in
  if (bool_decide (u32 buf <> 0 /\ nbytes = 4 /\ freq ∈ rtc_freqs)) then
    exists prev rate, 0 <= prev < 256 /\
      fst (rtc_write fd buf nbytes s) = 0 /\
      ports (snd (rtc_write fd buf nbytes s)) = ports s ++ rtc_set_events prev rate /\
      let a := Z.lor (Z.land prev RTC_WRITE_MASK) rate in
      0 <= a < 256 /\ rate_hz (a mod 16) = freq /\ a / 16 = prev / 16 /\
      mm (snd (rtc_write fd buf nbytes s)) = mm s /\
      if_flag (snd (rtc_write fd buf nbytes s)) = true
  else rtc_write fd buf nbytes s = (-1, s).
Proof.
  intros freq. unfold rtc_write. fold freq.
  change 4 with NBYTE_4. case_bool_decide as Hc;
    pose proof (rtc_po2_loop_spec freq) as Hp.
  - destruct Hc as (Hb & -> & Hf). rewrite bool_decide_true in Hp by done.
    destruct (Z.eqb_spec (u32 buf) 0); [done|]. cbn [Z.eqb negb Pos.eqb NBYTE_4].
    destruct (rtc_po2_loop 11 RTC_MIN freq 0 =? 0); [done|]. cbn [fst snd].
    destruct (rtc_set_ports freq s Hf) as (prev & Hprev & Hports & Hif).
    destruct (rtc_rate_spec freq Hf) as [Hr Hhz]. cbn zeta in *.
    set (rate := rtc_rate_loop 10 2 freq RTC_BASE_FREQ) in *.
    exists prev, rate. destruct (rate_nibble prev rate) as (Ha & Hm & Hd); [done|lia|].
    split_and!; try done; try lia; congruence.
  - destruct (Z.eqb_spec (u32 buf) 0); [done|].
    destruct (Z.eqb_spec nbytes NBYTE_4); [cbn [negb] | done].
    destruct (rtc_po2_loop 11 RTC_MIN freq 0 =? 0); [done|].
    cbn [negb] in Hp. symmetry in Hp. apply bool_decide_eq_true in Hp. tauto.
Qed.

(** C35: a read of the RTC blocks until the next RTC interrupt and no longer:
    whatever other handlers run first, it is still waiting when no RTC
    interrupt has come, and returns 0 right after the first one. *)
Theorem rtc_read_waits_for_tick irqs rest fd buf nbytes s :
  Forall quiet irqs ->
  rtc_read irqs fd buf nbytes s = None /\
  rtc_read (irqs ++ rtc_interrupt :: rest) fd buf nbytes s =
    Some (0, rtc_interrupt (fold_left (fun s irq => irq s) irqs (set_intr_flag 0 s))).
Proof.
  intros Hq. unfold rtc_read. rewrite rtc_wait_quiet, rtc_wait_tick by done. done.
Qed.
End Rtc.

#[local] Existing Instance demo_platform.

Lemma rtc_read_waits_for_tick_witness :
  rtc_read [send_eoi 1] 2 0 4 boot_mach = None /\
  rtc_read [send_eoi 1; rtc_interrupt] 2 0 4 boot_mach =
    Some (0, rtc_interrupt (send_eoi 1 boot_mach)).
Proof.
  apply (rtc_read_waits_for_tick [send_eoi 1] [] 2 0 4 boot_mach).
  repeat constructor.
Defined.

(** a request for 4 Hz, and one for 3 Hz *)
Lemma rtc_write_sets_frequency_witness :
  fst (rtc_write 2 100 4 (set_mm (wr32 ∅ 100 4) boot_mach)) = 0 /\
  rtc_write 2 100 4 (set_mm (wr32 ∅ 100 3) boot_mach) = (-1, set_mm (wr32 ∅ 100 3) boot_mach).
Proof.
  pose proof (rtc_write_sets_frequency 2 100 4 (set_mm (wr32 ∅ 100 4) boot_mach)) as H4.
  pose proof (rtc_write_sets_frequency 2 100 4 (set_mm (wr32 ∅ 100 3) boot_mach)) as H3.
  cbv zeta in H3, H4. rewrite bool_decide_true in H4.
  2:{ split; [discriminate | split; [reflexivity|]]. apply (bool_decide_eq_true_1 _). reflexivity. }
  rewrite bool_decide_false in H3 by (apply (bool_decide_eq_false_1 _); reflexivity).
  destruct H4 as (prev & rate & _ & E & _). split; [exact E | exact H3].
Defined.
