(* ===== verification/Idt.v ===== *)
(** * The interrupt descriptor table (idt.c, x86_desc.h)

    The table is a list of 256 gate records with the bit-fields of
    [idt_desc_t]; handler entry points are symbols whose link addresses are a
    parameter.  The exception bodies print a message and spin. *)

From Stdlib Require Import ZArith Lia String.
From stdpp Require Import base list gmap.
From S2P Require Import Prelude Memory CMem CStr Machine Console Pic.
Open Scope Z_scope.
Open Scope list_scope.

Record idt_desc := Gate {
  offset_15_00 : Z;
  seg_selector : Z;
  reserved4 : Z;
  reserved3 : Z;
  reserved2 : Z;
  reserved1 : Z;
  size : Z;
  reserved0 : Z;
  dpl : Z;
  present : Z;
  offset_31_16 : Z
}.

#[export] Instance idt_desc_inhabited : Inhabited idt_desc :=
  populate (Gate 0 0 0 0 0 0 0 0 0 0 0).

(** the .rept NUM_VEC of zeros in x86_desc.S *)
Definition NUM_VEC : Z := 256.
Definition zero_idt : list idt_desc := replicate (Z.to_nat NUM_VEC) (Gate 0 0 0 0 0 0 0 0 0 0 0).

Definition KERNEL_CS : Z := 16.
Definition six_bit_mask : Z := 31.

(** SET_IDT_ENTRY *)
Definition SET_IDT_ENTRY (g : idt_desc) (handler : Z) : idt_desc :=
  Gate (Z.land (u32 handler) 65535) (seg_selector g) (reserved4 g) (reserved3 g)
    (reserved2 g) (reserved1 g) (size g) (reserved0 g) (dpl g) (present g)
    (Z.shiftr (Z.land (u32 handler) 4294901760) 16).

Definition set_trap_gate (num address : Z) (idt : list idt_desc) : list idt_desc :=
  let g := aget idt num in
  aset idt num
    (SET_IDT_ENTRY (Gate (offset_15_00 g) KERNEL_CS (Z.land (reserved4 g) six_bit_mask)
                      1 1 1 1 0 0 1 (offset_31_16 g)) address).

Definition set_intr_gate (num address : Z) (idt : list idt_desc) : list idt_desc :=
  let g := aget idt num in
  aset idt num
    (SET_IDT_ENTRY (Gate (offset_15_00 g) KERNEL_CS (Z.land (reserved4 g) six_bit_mask)
                      0 1 1 1 0 0 1 (offset_31_16 g)) address).

Definition set_system_gate (num address : Z) (idt : list idt_desc) : list idt_desc :=
  let g := aget idt num in
  aset idt num
    (SET_IDT_ENTRY (Gate (offset_15_00 g) KERNEL_CS (Z.land (reserved4 g) six_bit_mask)
                      1 1 1 1 0 3 1 (offset_31_16 g)) address).

(** entry points named in init_idt *)
Inductive handler :=
| divide_by_0 | debug | non_mask_intr | breakpoint | overflow | out_of_bounds
| invalid_op | no_coprocessor | double_fault | coprocessor_segment_overrun | bad_TSS
| no_segment | stack_fault | general_protection | page_fault | coprocessor_fault
| alignment_check | machine_check | simd_coprocessor_error | ignore_int
| keyboard_handler | rtc_handler | syscall_handler.

#[export] Instance handler_eq_dec : EqDecision handler.
Proof. solve_decision. Defined.

Section Init.
Variable addr : handler -> Z.

Definition init_idt (idt : list idt_desc) : list idt_desc :=
  let idt := set_trap_gate 0 (addr divide_by_0) idt in
  let idt := set_trap_gate 1 (addr debug) idt in
  let idt := set_intr_gate 2 (addr non_mask_intr) idt in
  let idt := set_system_gate 3 (addr breakpoint) idt in
  let idt := set_system_gate 4 (addr overflow) idt in
  let idt := set_system_gate 5 (addr out_of_bounds) idt in
  let idt := set_trap_gate 6 (addr invalid_op) idt in
  let idt := set_trap_gate 7 (addr no_coprocessor) idt in
  let idt := set_trap_gate 8 (addr double_fault) idt in
  let idt := set_trap_gate 9 (addr coprocessor_segment_overrun) idt in
  let idt := set_trap_gate 10 (addr bad_TSS) idt in
  let idt := set_trap_gate 11 (addr no_segment) idt in
  let idt := set_trap_gate 12 (addr stack_fault) idt in
  let idt := set_trap_gate 13 (addr general_protection) idt in
  let idt := set_intr_gate 14 (addr page_fault) idt in
  let idt := set_trap_gate 15 (addr coprocessor_fault) idt in
  let idt := set_trap_gate 16 (addr alignment_check) idt in
  let idt := set_trap_gate 17 (addr machine_check) idt in
  let idt := set_trap_gate 18 (addr simd_coprocessor_error) idt in
  let idt := fold_left (fun idt i => set_trap_gate i (addr ignore_int) idt) (zrange 19 32) idt in
  let idt := fold_left (fun idt i => set_intr_gate i (addr ignore_int) idt) (zrange 32 256) idt in
  let idt := set_intr_gate 33 (addr keyboard_handler) idt in
  let idt := set_intr_gate 40 (addr rtc_handler) idt in
  set_system_gate 128 (addr syscall_handler) idt.
End Init.

(** ** Exception bodies

    Each prints its message and never returns ([while(1);]); all but
    [ignore_int] disable interrupts first. *)

Definition exception_message (h : handler) : list Z :=
  match h with
  | divide_by_0 => chars "divide_by_0 error exception"
  | debug => chars "debug error exception"
  | non_mask_intr => chars "non_mask_intr exception"
  | breakpoint => chars "breakpoint exception"
  | overflow => chars "overflow exception"
  | out_of_bounds => chars "out_of_bounds exception"
  | invalid_op => chars "invalid_op exception"
  | no_coprocessor => chars "no_coprocessor exception"
  | double_fault => chars "double_fault exception"
  | coprocessor_segment_overrun => chars "coprocessor_segment_overrun exception"
  | bad_TSS => chars "bad_TSS exception"
  | no_segment => chars "no_segment exception"
  | stack_fault => chars "stack_fault exception"
  | general_protection => chars "general_protection exception"
  | page_fault => chars "page_fault exception" ++ [10]
  | coprocessor_fault => chars "coprocessor_fault exception"
  | alignment_check => chars "alignment_check exception"
  | machine_check => chars "machine_check exception"
  | simd_coprocessor_error => chars "simd_coprocessor_error exception"
  | ignore_int => chars "ignored exceptions. "
  | keyboard_handler | rtc_handler | syscall_handler => []
  end.

Definition is_exception (h : handler) : bool :=
  match h with keyboard_handler | rtc_handler | syscall_handler => false | _ => true end.

(** the state in which the handler spins for ever *)
Definition exception_body (h : handler) (s : mach) : option mach :=
  '(_, s) ← printf (exception_message h) [] s;
  Some (match h with ignore_int => s | _ => cli s end).

(** ** What the processor reads from a gate *)

Inductive gate_kind := Interrupt | Trap.

(** the 64 bits of a gate, and the fields the processor takes from them *)
Definition gate_bits (g : idt_desc) : Z :=
  offset_15_00 g + 2^16 * seg_selector g + 2^32 * reserved4 g + 2^40 * reserved3 g
  + 2^41 * reserved2 g + 2^42 * reserved1 g + 2^43 * size g + 2^44 * reserved0 g
  + 2^45 * dpl g + 2^47 * present g + 2^48 * offset_31_16 g.

Definition gate_target (bits : Z) : Z := (bits mod 2^16) + 2^16 * (bits / 2^48).
Definition gate_selector (bits : Z) : Z := (bits / 2^16) mod 2^16.
Definition gate_dpl (bits : Z) : Z := (bits / 2^45) mod 4.
Definition gate_present (bits : Z) : bool := (bits / 2^47) mod 2 =? 1.
Definition gate_type (bits : Z) : option gate_kind :=
  let t := (bits / 2^40) mod 32 in
  if t =? 14 then Some Interrupt else if t =? 15 then Some Trap else None.

(** the processor, taking vector through this gate, enters [h] *)
Definition gate_is (addr : handler -> Z) (g : idt_desc) (h : handler) (k : gate_kind) (d : Z)
  : Prop :=
  let bits := gate_bits g in
  gate_target bits = u32 (addr h) /\ gate_selector bits = KERNEL_CS /\
  gate_type bits = Some k /\ gate_dpl bits = d /\ gate_present bits = true /\
  0 <= reserved4 g < 32.

Definition kind_bit (k : gate_kind) : Z := match k with Interrupt => 0 | Trap => 1 end.

Definition gate_for (r4 : Z) (a : Z) (k : gate_kind) (d : Z) : idt_desc :=
  Gate (Z.land (u32 a) 65535) KERNEL_CS r4 (kind_bit k) 1 1 1 0 d 1
    (Z.shiftr (Z.land (u32 a) 4294901760) 16).

Lemma offset_halves a :
  let lo := Z.land (u32 a) 65535 in
  let hi := Z.shiftr (Z.land (u32 a) 4294901760) 16 in
  0 <= lo < 65536 /\ 0 <= hi < 65536 /\ lo + 65536 * hi = u32 a.
Proof.
  cbn zeta. pose proof (u32_range a) as Ha. set (b := u32 a) in *. clearbody b.
  change 65535 with (Z.ones 16). rewrite Z.land_ones by lia.
  assert (Z.shiftr (Z.land b 4294901760) 16 = b / 65536) as ->.
  { change 4294901760 with (Z.shiftl (Z.ones 16) 16).
    apply Z.bits_inj'. intros i Hi. change 65536 with (2 ^ 16).
    rewrite <- Z.shiftr_div_pow2, !Z.shiftr_spec, Z.land_spec, Z.shiftl_spec by lia.
    replace (i + 16 - 16) with i by lia. rewrite Z.testbit_ones_nonneg by lia.
    destruct (Z.ltb_spec i 16); [apply andb_true_r|]. cbn. rewrite andb_false_r.
    symmetry. apply Z.bits_above_log2; [lia|].
    destruct (decide (b = 0)) as [->|]; [cbn; lia|].
    apply Z.log2_lt_pow2; [lia|]. assert (2 ^ 32 <= 2 ^ (i + 16)); [|lia].
    apply Z.pow_le_mono_r; lia. }
  change (2 ^ 16) with 65536. zlia.
Qed.

Lemma gate_for_is addr h r4 k d :
  0 <= r4 < 32 -> 0 <= d < 4 -> gate_is addr (gate_for r4 (addr h) k d) h k d.
Proof.
  intros Hr Hd. unfold gate_is, gate_bits, gate_for, gate_target, gate_selector, gate_type,
    gate_dpl, gate_present. cbn [offset_15_00 seg_selector reserved4 reserved3 reserved2
      reserved1 size reserved0 dpl present offset_31_16].
  destruct (offset_halves (addr h)) as (Hlo & Hhi & Hsum). cbn zeta in *.
  set (lo := Z.land _ 65535) in *. set (hi := Z.shiftr _ 16) in *. clearbody lo hi.
  unfold KERNEL_CS.
  set (bits := lo + _ + _ + _ + _ + _ + _ + _ + _ + _ + _).
  assert (bits mod 2 ^ 16 = lo) as -> by (subst bits; zlia).
  assert (bits / 2 ^ 48 = hi) as -> by (subst bits; destruct k; cbn [kind_bit]; zlia).
  assert ((bits / 2 ^ 16) mod 2 ^ 16 = 16) as -> by (subst bits; destruct k; cbn [kind_bit]; zlia).
  assert ((bits / 2 ^ 45) mod 4 = d) as -> by (subst bits; destruct k; cbn [kind_bit]; zlia).
  assert ((bits / 2 ^ 47) mod 2 = 1) as -> by (subst bits; destruct k; cbn [kind_bit]; zlia).
  assert ((bits / 2 ^ 40) mod 32 = 14 + kind_bit k) as ->
    by (subst bits; destruct k; cbn [kind_bit]; zlia).
  split_and!; try done; try lia. now destruct k.
Qed.

(** ** The table as a map from vectors to gates *)

Definition gate_view := Z -> option (handler * gate_kind * Z).
Definition view_set (num : Z) (g : handler * gate_kind * Z) (w : gate_view) : gate_view :=
  fun j => if j =? num then Some g else w j.

(** every entry the view names sends the processor where the view says *)
Definition denotes (addr : handler -> Z) (idt : list idt_desc) (w : gate_view) : Prop :=
  length idt = 256%nat /\
  forall j h k d, 0 <= j < 256 -> w j = Some (h, k, d) -> gate_is addr (aget idt j) h k d.

Section Denotes.
Variable addr : handler -> Z.

Lemma set_gate_for num a idt :
  set_trap_gate num a idt = aset idt num (gate_for (Z.land (reserved4 (aget idt num)) 31) a Trap 0) /\
  set_intr_gate num a idt = aset idt num (gate_for (Z.land (reserved4 (aget idt num)) 31) a Interrupt 0) /\
  set_system_gate num a idt = aset idt num (gate_for (Z.land (reserved4 (aget idt num)) 31) a Trap 3).
Proof. done. Qed.

Lemma denotes_aset idt w num h k d r4 :
  denotes addr idt w -> 0 <= num < 256 -> 0 <= d < 4 ->
  denotes addr (aset idt num (gate_for (Z.land r4 31) (addr h) k d)) (view_set num (h, k, d) w).
Proof.
  intros [Hl Hw] Hn Hd. split; [now rewrite length_aset|].
  intros j h' k' d' Hj. unfold view_set. destruct (Z.eqb_spec j num) as [->|Hne].
  - intros [= <- <- <-]. rewrite aget_aset_eq by lia. apply gate_for_is; [|done].
    change 31 with (Z.ones 5). rewrite Z.land_ones by lia. apply Z.mod_pos_bound. done.
  - intros Hv. rewrite aget_aset_ne by lia. now apply Hw.
Qed.

Lemma denotes_trap idt w num h : denotes addr idt w -> 0 <= num < 256 ->
  denotes addr (set_trap_gate num (addr h) idt) (view_set num (h, Trap, 0) w).
Proof.
  intros. destruct (set_gate_for num (addr h) idt) as (-> & _ & _).
  apply denotes_aset; [done | done | lia].
Qed.
Lemma denotes_intr idt w num h : denotes addr idt w -> 0 <= num < 256 ->
  denotes addr (set_intr_gate num (addr h) idt) (view_set num (h, Interrupt, 0) w).
Proof.
  intros. destruct (set_gate_for num (addr h) idt) as (_ & -> & _).
  apply denotes_aset; [done | done | lia].
Qed.
Lemma denotes_system idt w num h : denotes addr idt w -> 0 <= num < 256 ->
  denotes addr (set_system_gate num (addr h) idt) (view_set num (h, Trap, 3) w).
Proof.
  intros. destruct (set_gate_for num (addr h) idt) as (_ & _ & ->).
  apply denotes_aset; [done | done | lia].
Qed.

Lemma denotes_loop (set : Z -> Z -> list idt_desc -> list idt_desc) h g l idt w :
  (forall idt w i, i ∈ l -> denotes addr idt w ->
     denotes addr (set i (addr h) idt) (view_set i g w)) ->
  denotes addr idt w ->
  denotes addr (fold_left (fun idt i => set i (addr h) idt) l idt)
    (fold_left (fun w i => view_set i g w) l w).
Proof.
  revert idt w. induction l as [|i l IH]; intros idt w Hset Hd; cbn [fold_left]; [done|].
  apply IH; [|apply Hset; [now left | done]].
  intros idt' w' i' Hi'. apply Hset. now right.
Qed.

Lemma denotes_ext idt w w' :
  (forall j, 0 <= j < 256 -> w j = w' j) -> denotes addr idt w -> denotes addr idt w'.
Proof. intros He [Hl Hw]. split; [done|]. intros. apply Hw; [done|]. now rewrite He. Qed.
End Denotes.

#[export] Hint Resolve denotes_trap denotes_intr denotes_system : idt.

(** the exceptions the x86 architecture raises on vectors 0 to 19; 15 is
    reserved *)
Definition x86_exceptions : list (option handler) :=
  [Some divide_by_0; Some debug; Some non_mask_intr; Some breakpoint; Some overflow;
   Some out_of_bounds; Some invalid_op; Some no_coprocessor; Some double_fault;
   Some coprocessor_segment_overrun; Some bad_TSS; Some no_segment; Some stack_fault;
   Some general_protection; Some page_fault; None; Some coprocessor_fault;
   Some alignment_check; Some machine_check; Some simd_coprocessor_error].

(** where a vector should lead: to the handler of its exception, of the device
    on its line (keyboard on 1, RTC on 8, behind 32) or of system calls *)
Definition intended_handler (v : Z) : handler :=
  if v =? 32 + 1 then keyboard_handler else if v =? 32 + 8 then rtc_handler
  else if v =? 128 then syscall_handler
  else default ignore_int (default None (x86_exceptions !! Z.to_nat v)).

(** where it does: init_idt leaves out the reserved vector *)
Definition vector_handler (v : Z) : handler :=
  if v =? 19 then ignore_int
  else if (15 <=? v) && (v <=? 18) then intended_handler (v + 1) else intended_handler v.

(** device interrupts, NMI and page faults run with interrupts off *)
Definition vector_kind (v : Z) : gate_kind :=
  if (v =? 2) || (v =? 14) || ((32 <=? v) && negb (v =? 128)) then Interrupt else Trap.

(** user code may raise breakpoint, overflow, bound and the system call *)
Definition vector_dpl (v : Z) : Z :=
  if (v =? 3) || (v =? 4) || (v =? 5) || (v =? 128) then 3 else 0.

Definition gate_data_eqb (a b : option (handler * gate_kind * Z)) : bool :=
  match a, b with
  | Some (h, k, d), Some (h', k', d') =>
      bool_decide (h = h') && (kind_bit k =? kind_bit k') && (d =? d')
  | None, None => true
  | _, _ => false
  end.

Lemma gate_data_eqb_eq a b : gate_data_eqb a b = true -> a = b.
Proof.
  destruct a as [[[h k] d]|], b as [[[h' k'] d']|]; cbn; try done.
  rewrite !andb_true_iff, bool_decide_eq_true, !Z.eqb_eq. intros [[-> Hk] ->].
  destruct k, k'; done.
Qed.

Definition init_view : gate_view :=
  let w := view_set 18 (simd_coprocessor_error, Trap, 0) (view_set 17 (machine_check, Trap, 0)
    (view_set 16 (alignment_check, Trap, 0) (view_set 15 (coprocessor_fault, Trap, 0)
    (view_set 14 (page_fault, Interrupt, 0) (view_set 13 (general_protection, Trap, 0)
    (view_set 12 (stack_fault, Trap, 0) (view_set 11 (no_segment, Trap, 0)
    (view_set 10 (bad_TSS, Trap, 0) (view_set 9 (coprocessor_segment_overrun, Trap, 0)
    (view_set 8 (double_fault, Trap, 0) (view_set 7 (no_coprocessor, Trap, 0)
    (view_set 6 (invalid_op, Trap, 0) (view_set 5 (out_of_bounds, Trap, 3)
    (view_set 4 (overflow, Trap, 3) (view_set 3 (breakpoint, Trap, 3)
    (view_set 2 (non_mask_intr, Interrupt, 0) (view_set 1 (debug, Trap, 0)
    (view_set 0 (divide_by_0, Trap, 0) (fun _ => None))))))))))))))))))) in
  let w := fold_left (fun w i => view_set i (ignore_int, Trap, 0) w) (zrange 19 32) w in
  let w := fold_left (fun w i => view_set i (ignore_int, Interrupt, 0) w) (zrange 32 256) w in
  view_set 128 (syscall_handler, Trap, 3) (view_set 40 (rtc_handler, Interrupt, 0)
    (view_set 33 (keyboard_handler, Interrupt, 0) w)).

Lemma init_idt_denotes addr idt :
  length idt = 256%nat -> denotes addr (init_idt addr idt) init_view.
Proof.
  intros Hl. unfold init_idt, init_view. cbn zeta.
  apply denotes_system; [|lia]. do 2 (apply denotes_intr; [|lia]).
  apply (denotes_loop addr set_intr_gate ignore_int).
  { intros ? ? i Hi%elem_of_zrange Hd. apply denotes_intr; [done | lia]. }
  apply (denotes_loop addr set_trap_gate ignore_int).
  { intros ? ? i Hi%elem_of_zrange Hd. apply denotes_trap; [done | lia]. }
  repeat (first [apply denotes_trap | apply denotes_intr | apply denotes_system]; [|lia]).
  now split.
Qed.

Lemma init_view_spec j :
  0 <= j < 256 -> init_view j = Some (vector_handler j, vector_kind j, vector_dpl j).
Proof.
  intros Hj. apply gate_data_eqb_eq.
  assert (find_first (fun j => negb (gate_data_eqb (init_view j)
    (Some (vector_handler j, vector_kind j, vector_dpl j)))) 256 0 = None) as Hall
    by (vm_compute; reflexivity).
  rewrite find_first_None in Hall. apply negb_false_iff, Hall. lia.
Qed.

(** ** Properties *)

(** C20: After [init_idt], whatever the table held before, taking one of the
    256 vectors enters, at its link address through a present kernel-code gate,
    the handler of what the vector is for: the exception the x86 architecture
    raises on it, the keyboard on 33, the RTC on 40, system calls on 128, and
    [ignore_int] on the others - but for vectors 15 to 19: as init_idt leaves
    out the reserved vector 15, each of 15 to 18 enters the handler of the next
    one's exception (the alignment check's on a coprocessor error, for one) and
    19 enters [ignore_int].  Interrupts are off on entry exactly for vectors 2,
    14 and the device range 32-255 without 128, and user code can raise exactly
    vectors 3, 4, 5 and 128. *)
Theorem init_idt_routes_vectors addr idt v :
  length idt = 256%nat -> 0 <= v < 256 ->
  exists h, gate_is addr (aget (init_idt addr idt) v) h (vector_kind v) (vector_dpl v) /\
    (~ 15 <= v <= 19 -> h = intended_handler v) /\
    (15 <= v <= 18 -> h = intended_handler (v + 1) /\ h <> intended_handler v) /\
    (v = 19 -> h = ignore_int /\ h <> intended_handler v).
Proof.
  intros Hl Hv. destruct (init_idt_denotes addr idt Hl) as [_ Hw].
  exists (vector_handler v). split; [apply Hw; [done | now apply init_view_spec]|].
  unfold vector_handler. split_and!.
  - intros Hn. destruct (Z.eqb_spec v 19); [lia|].
    destruct (Z.leb_spec 15 v), (Z.leb_spec v 18); cbn [andb]; done || lia.
  - intros Hr. assert (v = 15 \/ v = 16 \/ v = 17 \/ v = 18) as [-> | [-> | [-> | ->] ] ] by lia; now split.
  - intros ->. now split.
Qed.

(** link addresses 16 bytes apart, for evaluation *)
Definition demo_addr (h : handler) : Z :=
  4194304 + match h with keyboard_handler => 16 | rtc_handler => 32 | syscall_handler => 48
            | _ => 64 end.

Lemma init_idt_routes_vectors_witness :
  gate_target (gate_bits (aget (init_idt demo_addr zero_idt) 128)) = 4194352 /\
  gate_dpl (gate_bits (aget (init_idt demo_addr zero_idt) 128)) = 3.
Proof.
  destruct (init_idt_routes_vectors demo_addr zero_idt 128) as (h & (Ht & _ & _ & Hd & _) & Hi & _).
  - reflexivity.
  - lia.
  - rewrite Hi in Ht by lia. split; [exact Ht | exact Hd].
Defined.

(** Every exception handler prints its message at the cursor and then
    spins for ever; all but [ignore_int] do so with interrupts disabled, so
    no later device interrupt is taken. *)
Theorem exception_body_stops h s :
  exists s', exception_body h s = Some s' /\
    mm s' = mm (put_chars (exception_message h) s) /\
    screen_x s' = screen_x (put_chars (exception_message h) s) /\
    screen_y s' = screen_y (put_chars (exception_message h) s) /\
    ports s' = ports (put_chars (exception_message h) s) /\
    (h <> ignore_int -> if_flag s' = false).
Proof.
  unfold exception_body, printf.
  assert (render (length (exception_message h)) (exception_message h) []
    = Some (exception_message h)) as Hr by (destruct h; vm_compute; reflexivity).
  rewrite (printf_loop_renders _ _ _ _ _ Hr). cbn [mbind option_bind].
  set (s1 := put_chars _ s). clearbody s1. clear Hr.
  eexists. split; [reflexivity|]. now destruct h.
Qed.

Lemma exception_body_stops_witness :
  exists s', exception_body divide_by_0 boot_mach = Some s' /\ if_flag s' = false.
Proof.
  destruct (exception_body_stops divide_by_0 boot_mach) as (s' & E & _ & _ & _ & _ & Hif).
  exists s'. split; [exact E | apply Hif; discriminate].
Defined.
