(* ===== verification/Paging.v ===== *)
(** * Paging (pagefile.c, x86_desc.S) and process identity

    Page directories and tables are arrays of 32-bit words in physical
    memory at the addresses x86_desc.S lays them out at; [paging_init] fills
    them in, and [translate] is the processor's walk of them. *)

From Stdlib Require Import ZArith Lia Setoid Morphisms.
From stdpp Require Import base list gmap.
From S2P Require Import Prelude Memory CMem Machine.
Open Scope Z_scope.

Definition NUM_ENTRIES_PD : Z := 1024.
Definition NUM_ENTRIES_PT : Z := 1024.
Definition KERNEL_PTR : Z := 4194691.            (* 0x00400183 *)
Definition PRESENT : Z := 1.
Definition MASK_RW : Z := 2.
Definition USER_SUPERVISOR : Z := 4.
Definition VIDEO_MEM_LOCATION : Z := 184.
Definition VIDEO_MEM_PAGE_SU : Z := 753669.      (* 0x000B8005 *)
Definition VIDEO_MEM_PAGE_U : Z := 753671.       (* 0x000B8007 *)
Definition MB_8_MAP : Z := 8388743.              (* 0x00800087 *)
Definition MB_12_MAP : Z := 12583047.
Definition MB_16_MAP : Z := 16777351.
Definition MB_20_MAP : Z := 20971655.
Definition MB_24_MAP : Z := 25165959.
Definition MB_28_MAP : Z := 29360263.
Definition MB_32_MAP : Z := 33554567.
Definition P_32 : Z := 32.
Definition EMPTY : Z := 0.
Definition CR4_PSE : Z := 16.
Definition ENABLE_PAGING : Z := 2147483648.

Section Layout.
Context `{Platform}.

(** x86_desc.S: the arrays follow each other, 4096 bytes each *)
Definition page_directory : Z := pd_base + 4096 * 0.
Definition page_table : Z := pd_base + 4096 * 1.
Definition page_table1 : Z := pd_base + 4096 * 2.
Definition page_table2 : Z := pd_base + 4096 * 3.
Definition page_table3 : Z := pd_base + 4096 * 4.
Definition page_table4 : Z := pd_base + 4096 * 5.
Definition page_table5 : Z := pd_base + 4096 * 6.
Definition page_table6 : Z := pd_base + 4096 * 7.
Definition terminal_page_table : Z := pd_base + 4096 * 8.
Definition task1_page_directory : Z := pd_base + 4096 * 9.
Definition task2_page_directory : Z := pd_base + 4096 * 10.
Definition task3_page_directory : Z := pd_base + 4096 * 11.
Definition task4_page_directory : Z := pd_base + 4096 * 12.
Definition task5_page_directory : Z := pd_base + 4096 * 13.
Definition task6_page_directory : Z := pd_base + 4096 * 14.
Definition terminal_page_directory : Z := pd_base + 4096 * 15.

(** [find_pid] (systemcalls.c) and [get_pid_from_cr3] (terminal.c); the
    first reads %CR3 itself *)
Definition get_pid_from_cr3 (cr3 : Z) : Z :=
  if cr3 =? page_directory then 0
  else if cr3 =? task1_page_directory then 1
  else if cr3 =? task2_page_directory then 2
  else if cr3 =? task3_page_directory then 3
  else if cr3 =? task4_page_directory then 4
  else if cr3 =? task5_page_directory then 5
  else if cr3 =? task6_page_directory then 6
  else -1.
Definition find_pid (cr3 : Z) : Z :=
  if cr3 =? page_directory then 0
  else if cr3 =? task1_page_directory then 1
  else if cr3 =? task2_page_directory then 2
  else if cr3 =? task3_page_directory then 3
  else if cr3 =? task4_page_directory then 4
  else if cr3 =? task5_page_directory then 5
  else if cr3 =? task6_page_directory then 6
  else -1.

(** [a[i] = v] for a [uint32_t] array at [a] *)
Definition store_entry (a i v : Z) (m : mem) : mem := wr32 m (a + 4 * i) v.

Definition entry_of (table : Z) : Z :=
  Z.lor (Z.lor (Z.lor (u32 table) USER_SUPERVISOR) PRESENT) MASK_RW.

(** the control registers paging_init writes *)
Record cregs := CRegs { cr0 : Z; cr3_reg : Z; cr4 : Z }.

Definition paging_init (m : mem) (r : cregs) : mem * cregs :=
  let cr4' := Z.lor (cr4 r) CR4_PSE in
  let m := fold_left (fun m i =>
    let m := store_entry page_directory i EMPTY m in
    let m := store_entry task1_page_directory i EMPTY m in
    let m := store_entry task2_page_directory i EMPTY m in
    let m := store_entry task3_page_directory i EMPTY m in
    let m := store_entry task4_page_directory i EMPTY m in
    let m := store_entry task5_page_directory i EMPTY m in
    store_entry task6_page_directory i EMPTY m) (zrange 0 NUM_ENTRIES_PD) m in
  let m := fold_left (fun m i => store_entry page_table i EMPTY m)
             (zrange 1 NUM_ENTRIES_PT) m in
  (* kernel *)
  let m := store_entry page_table VIDEO_MEM_LOCATION VIDEO_MEM_PAGE_SU m in
  let m := store_entry page_directory 0 (entry_of page_table) m in
  let m := store_entry page_directory 1 KERNEL_PTR m in
  (* program 1 *)
  let m := store_entry page_table1 VIDEO_MEM_LOCATION VIDEO_MEM_PAGE_U m in
  let m := store_entry task1_page_directory 0 (entry_of page_table1) m in
  let m := store_entry task1_page_directory 1 KERNEL_PTR m in
  let m := store_entry task1_page_directory P_32 MB_8_MAP m in
  (* program 2 *)
  let m := store_entry page_table2 VIDEO_MEM_LOCATION VIDEO_MEM_PAGE_U m in
  let m := store_entry task2_page_directory 0 (entry_of page_table2) m in
  let m := store_entry task2_page_directory 1 KERNEL_PTR m in
  let m := store_entry task2_page_directory P_32 MB_12_MAP m in
  (* program 3 *)
  let m := store_entry page_table3 VIDEO_MEM_LOCATION VIDEO_MEM_PAGE_U m in
  let m := store_entry task3_page_directory 0 (entry_of page_table3) m in
  let m := store_entry task3_page_directory 1 KERNEL_PTR m in
  let m := store_entry task3_page_directory P_32 MB_16_MAP m in
  (* program 4 *)
  let m := store_entry page_table4 VIDEO_MEM_LOCATION VIDEO_MEM_PAGE_U m in
  let m := store_entry task4_page_directory 0 (entry_of page_table4) m in
  let m := store_entry task4_page_directory 1 KERNEL_PTR m in
  let m := store_entry task4_page_directory P_32 MB_20_MAP m in
  (* program 5 *)
  let m := store_entry page_table5 VIDEO_MEM_LOCATION VIDEO_MEM_PAGE_U m in
  let m := store_entry task5_page_directory 0 (entry_of page_table5) m in
  let m := store_entry task5_page_directory 1 KERNEL_PTR m in
  let m := store_entry task5_page_directory P_32 MB_24_MAP m in
  (* program 6 *)
  let m := store_entry page_table6 VIDEO_MEM_LOCATION VIDEO_MEM_PAGE_U m in
  let m := store_entry task6_page_directory 0 (entry_of page_table6) m in
  let m := store_entry task6_page_directory 1 KERNEL_PTR m in
  let m := store_entry task6_page_directory P_32 MB_28_MAP m in
  (* terminals *)
  let m := store_entry terminal_page_table VIDEO_MEM_LOCATION VIDEO_MEM_PAGE_U m in
  let m := store_entry terminal_page_directory 0 (entry_of terminal_page_table) m in
  let m := store_entry terminal_page_directory 1 KERNEL_PTR m in
  let m := store_entry terminal_page_directory P_32 MB_32_MAP m in
  (m, CRegs (Z.lor (cr0 r) ENABLE_PAGING) page_directory cr4').
End Layout.

(** ** The processor's page walk

    32-bit paging with 4 MiB pages (CR4.PSE): the physical address and the
    combined user/write permission, or [None] for a page fault. *)

Record mapping := Mapping { phys : Z; user_ok : bool; write_ok : bool }.

Definition bit_set (e i : Z) : bool := Z.testbit e i.

Definition translate (m : mem) (cr3 va : Z) : option mapping :=
  let pde := rd32 m (cr3 + 4 * (va / 4194304)) in
  if negb (bit_set pde 0) then None
  else if bit_set pde 7 then
    Some (Mapping (pde / 4194304 * 4194304 + va mod 4194304) (bit_set pde 2) (bit_set pde 1))
  else
    let pte := rd32 m (pde / 4096 * 4096 + 4 * (va / 4096 mod 1024)) in
    if negb (bit_set pte 0) then None
    else Some (Mapping (pte / 4096 * 4096 + va mod 4096)
                 (bit_set pde 2 && bit_set pte 2) (bit_set pde 1 && bit_set pte 1)).

(** the page directory of process [p]; 0 is the kernel before any process *)
Definition proc_pd `{Platform} (p : Z) : Z :=
  if p =? 0 then page_directory else pd_base + 4096 * (8 + p).

(** ** The address spaces paging_init is to build *)

Definition MB4 : Z := 4194304.

(** virtual page 184 is the video page, 4-8 MiB is the kernel, 128-132 MiB the
    program image, at 8 MiB + 4 MiB * (p - 1) for process [p] *)
Definition process_map (p va : Z) : option mapping :=
  if va <? MB4 then
    if va / 4096 =? VIDEO_MEM_LOCATION then Some (Mapping va true (negb (p =? 0))) else None
  else if va <? 2 * MB4 then Some (Mapping va false true)
  else if (va / MB4 =? 32) && negb (p =? 0) then
    Some (Mapping (MB4 * (1 + p) + va mod MB4) true true)
  else None.

(** ** Word stores into the page arrays

    [paging_init] is a sequence of word stores at known offsets from
    [pd_base]; the finite map of the last value stored at each offset answers
    every later load. *)

(** a stored value: a constant, or the entry that points at the array at an offset *)
Inductive pval := Const (v : Z) | TableAt (o : Z).

Section Stores.
Context `{Platform}.

Definition pval_val (v : pval) : Z :=
  match v with Const z => z | TableAt o => entry_of (pd_base + o) end.

(** array offset, index, value *)
Abbreviation pstore := (Z * Z * pval)%type.
Definition run_stores (l : list pstore) (m : mem) : mem :=
  fold_left (fun m '(o, i, v) => store_entry (pd_base + o) i (pval_val v) m) l m.
Definition stores_map (l : list pstore) : gmap Z pval :=
  fold_left (fun acc '(o, i, v) => <[o + 4 * i := v]> acc) l ∅.

Definition pstore_ok '((o, i, v) : pstore) : Prop :=
  o mod 4 = 0 /\ 0 <= o + 4 * i < 65536.

Lemma rd32_wr32_aligned (m : mem) a b v :
  a mod 4 = 0 -> b mod 4 = 0 -> 0 <= a < 4294967296 -> 0 <= b < 4294967296 ->
  rd32 (wr32 m a v) b = if a =? b then u32 v else rd32 m b.
Proof.
  intros Ha Hb Hra Hrb. unfold rd32. rewrite !rd_wr32.
  destruct (Z.eqb_spec a b) as [<-|Hne].
  - replace (off a a) with 0 by zlia. replace (off a (a + 1)) with 1 by zlia.
    replace (off a (a + 2)) with 2 by zlia. replace (off a (a + 3)) with 3 by zlia.
    cbn. rewrite Z.div_1_r. zlia.
  - assert (forall k, 0 <= k < 4 -> (off a (b + k) <? 4) = false) as Hk
      by (intros k Hk; apply Z.ltb_ge; zlia).
    pose proof (Hk 0) as Hk0. rewrite Z.add_0_r in Hk0.
    now rewrite Hk0, !Hk by lia.
Qed.

Lemma run_stores_app l1 l2 m : run_stores (l1 ++ l2) m = run_stores l2 (run_stores l1 m).
Proof. apply fold_left_app. Qed.

Lemma rd32_run_stores l m k :
  Forall pstore_ok l -> k mod 4 = 0 -> 0 <= k < 65536 ->
  rd32 (run_stores l m) (pd_base + k) =
    match stores_map l !! k with
    | Some v => u32 (pval_val v) | None => rd32 m (pd_base + k) end.
Proof.
  intros Hl Hk Hr. pose proof pd_base_range. pose proof pd_base_aligned.
  unfold stores_map, run_stores.
  induction l as [|[[o i] v] l IH] using rev_ind; [cbn; now rewrite lookup_empty|].
  apply Forall_app in Hl as [Hl Hx]. apply Forall_cons_1 in Hx as [[Ho Hi] _].
  rewrite !fold_left_app. cbn [fold_left]. unfold store_entry in *.
  rewrite rd32_wr32_aligned, IH by (done || lia || zlia).
  rewrite lookup_insert.
  destruct (Z.eqb_spec (pd_base + o + 4 * i) (pd_base + k)).
  - now rewrite decide_True by lia.
  - now rewrite decide_False by lia.
Qed.

(** the stores of [paging_init], in its order *)
Definition paging_stores : list pstore :=
  flat_map (fun i => map (fun o => (o, i, Const EMPTY))
    [4096 * 0; 4096 * 9; 4096 * 10; 4096 * 11; 4096 * 12; 4096 * 13; 4096 * 14])
    (zrange 0 NUM_ENTRIES_PD) ++
  map (fun i => (4096 * 1, i, Const EMPTY)) (zrange 1 NUM_ENTRIES_PT) ++
  [(4096 * 1, VIDEO_MEM_LOCATION, Const VIDEO_MEM_PAGE_SU);
   (4096 * 0, 0, TableAt (4096 * 1)); (4096 * 0, 1, Const KERNEL_PTR);
   (4096 * 2, VIDEO_MEM_LOCATION, Const VIDEO_MEM_PAGE_U);
   (4096 * 9, 0, TableAt (4096 * 2)); (4096 * 9, 1, Const KERNEL_PTR);
   (4096 * 9, P_32, Const MB_8_MAP);
   (4096 * 3, VIDEO_MEM_LOCATION, Const VIDEO_MEM_PAGE_U);
   (4096 * 10, 0, TableAt (4096 * 3)); (4096 * 10, 1, Const KERNEL_PTR);
   (4096 * 10, P_32, Const MB_12_MAP);
   (4096 * 4, VIDEO_MEM_LOCATION, Const VIDEO_MEM_PAGE_U);
   (4096 * 11, 0, TableAt (4096 * 4)); (4096 * 11, 1, Const KERNEL_PTR);
   (4096 * 11, P_32, Const MB_16_MAP);
   (4096 * 5, VIDEO_MEM_LOCATION, Const VIDEO_MEM_PAGE_U);
   (4096 * 12, 0, TableAt (4096 * 5)); (4096 * 12, 1, Const KERNEL_PTR);
   (4096 * 12, P_32, Const MB_20_MAP);
   (4096 * 6, VIDEO_MEM_LOCATION, Const VIDEO_MEM_PAGE_U);
   (4096 * 13, 0, TableAt (4096 * 6)); (4096 * 13, 1, Const KERNEL_PTR);
   (4096 * 13, P_32, Const MB_24_MAP);
   (4096 * 7, VIDEO_MEM_LOCATION, Const VIDEO_MEM_PAGE_U);
   (4096 * 14, 0, TableAt (4096 * 7)); (4096 * 14, 1, Const KERNEL_PTR);
   (4096 * 14, P_32, Const MB_28_MAP);
   (4096 * 8, VIDEO_MEM_LOCATION, Const VIDEO_MEM_PAGE_U);
   (4096 * 15, 0, TableAt (4096 * 8)); (4096 * 15, 1, Const KERNEL_PTR);
   (4096 * 15, P_32, Const MB_32_MAP)].

Lemma run_stores_flat {A} (f : A -> list pstore) l m :
  run_stores (flat_map f l) m = fold_left (fun m x => run_stores (f x) m) l m.
Proof.
  revert m. induction l as [|x l IH]; intros m; cbn; [done|].
  rewrite run_stores_app. apply IH.
Qed.

Lemma run_stores_map {A} (f : A -> pstore) l m :
  run_stores (map f l) m = fold_left (fun m x => run_stores [f x] m) l m.
Proof. revert m. induction l as [|x l IH]; intros m; [done | apply IH]. Qed.

Lemma paging_init_stores m r :
  fst (paging_init m r) = run_stores paging_stores m.
Proof.
  unfold paging_stores. rewrite !run_stores_app, run_stores_flat, run_stores_map.
  unfold run_stores. cbn [map fold_left pval_val]. unfold paging_init. cbn [fst].
  unfold page_directory, page_table, page_table1, page_table2, page_table3, page_table4,
    page_table5, page_table6, terminal_page_table, task1_page_directory,
    task2_page_directory, task3_page_directory, task4_page_directory,
    task5_page_directory, task6_page_directory, terminal_page_directory.
  reflexivity.
Qed.

(** the stores stay inside the page arrays *)
Lemma run_stores_frame l m a :
  Forall pstore_ok l -> 65536 <= off pd_base a -> rd (run_stores l m) a = rd m a.
Proof.
  intros Hl Ha. unfold run_stores. pose proof pd_base_range.
  induction l as [|[[o i] v] l IH] using rev_ind; [done|].
  apply Forall_app in Hl as [Hl Hx]. apply Forall_cons_1 in Hx as [[Ho Hi] _].
  rewrite fold_left_app. cbn [fold_left]. unfold store_entry at 1. rewrite rd_wr32, IH by done.
  destruct (Z.ltb_spec (off (pd_base + o + 4 * i) a) 4); [zlia | done].
Qed.

Lemma paging_stores_ok : Forall pstore_ok paging_stores.
Proof.
  apply (proj2 (Forall_forall _ _)). intros [[o i] v] Hin.
  assert (forallb (fun '((o, i, v) : pstore) =>
    (o mod 4 =? 0) && (0 <=? o + 4 * i) && (o + 4 * i <? 65536)) paging_stores = true)
    as Hall by (vm_compute; reflexivity).
  rewrite forallb_forall in Hall. apply list_elem_of_In in Hin.
  specialize (Hall _ Hin). cbn in Hall. unfold pstore_ok. lia.
Qed.

Lemma paging_init_frame m r a : 65536 <= off pd_base a -> rd (fst (paging_init m r)) a = rd m a.
Proof. rewrite paging_init_stores. apply run_stores_frame, paging_stores_ok. Qed.

(** the directory entries and table entries that result *)
Definition pde_value (p i : Z) : pval :=
  if i =? 0 then TableAt (4096 * (1 + p))
  else if i =? 1 then Const KERNEL_PTR
  else if (i =? 32) && negb (p =? 0) then Const (MB_8_MAP + MB4 * (p - 1))
  else Const EMPTY.
Definition pte_value (p j : Z) : option pval :=
  if j =? VIDEO_MEM_LOCATION
  then Some (Const (if p =? 0 then VIDEO_MEM_PAGE_SU else VIDEO_MEM_PAGE_U))
  else if (p =? 0) && negb (j =? 0) then Some (Const EMPTY) else None.
Definition pd_offset (p : Z) : Z := if p =? 0 then 0 else 4096 * (8 + p).

Definition pval_eqb (a b : option pval) : bool :=
  match a, b with
  | Some (Const x), Some (Const y) | Some (TableAt x), Some (TableAt y) => x =? y
  | None, None => true
  | _, _ => false
  end.
Lemma pval_eqb_eq a b : pval_eqb a b = true -> a = b.
Proof. destruct a as [[]|], b as [[]|]; cbn; try done; now intros ->%Z.eqb_eq. Qed.

Lemma stored_entries p i :
  0 <= p <= 6 -> 0 <= i < 1024 ->
  stores_map paging_stores !! (pd_offset p + 4 * i) = Some (pde_value p i) /\
  stores_map paging_stores !! (4096 * (1 + p) + 4 * i) = pte_value p i.
Proof.
  intros Hp Hi.
  assert ((let M := stores_map paging_stores in
           find_first (fun n => let p := n / 1024 in let i := n mod 1024 in
             negb (pval_eqb (M !! (pd_offset p + 4 * i)) (Some (pde_value p i)) &&
                   pval_eqb (M !! (4096 * (1 + p) + 4 * i)) (pte_value p i)))
             (Z.to_nat 7168) 0) = None) as Hall by (vm_compute; reflexivity).
  cbv zeta in Hall. rewrite find_first_None in Hall.
  specialize (Hall (1024 * p + i) ltac:(lia)).
  replace ((1024 * p + i) / 1024) with p in Hall by zlia.
  replace ((1024 * p + i) mod 1024) with i in Hall by zlia.
  apply negb_false_iff, andb_true_iff in Hall as [H1 H2].
  split; now apply pval_eqb_eq.
Qed.

Lemma entry_of_value o :
  o mod 4096 = 0 -> 0 <= o < 65536 -> u32 (pval_val (TableAt o)) = pd_base + o + 7.
Proof.
  intros Ho Hr. pose proof pd_base_range. pose proof pd_base_aligned.
  cbn [pval_val]. unfold entry_of, USER_SUPERVISOR, PRESENT, MASK_RW.
  rewrite <- !Z.lor_assoc. change (Z.lor 4 (Z.lor 1 2)) with 7.
  rewrite (u32_small (pd_base + o)) by lia.
  assert (Z.land (pd_base + o) 7 = 0) as Hl.
  { change 7 with (Z.ones 3). rewrite Z.land_ones by lia. change (2 ^ 3) with 8. zlia. }
  rewrite <- Z.lxor_lor by done. rewrite <- Z.add_nocarry_lxor by done.
  apply u32_small. lia.
Qed.

Lemma table_entry_bits t :
  t mod 4096 = 0 ->
  bit_set (t + 7) 0 = true /\ bit_set (t + 7) 1 = true /\ bit_set (t + 7) 2 = true /\
  bit_set (t + 7) 7 = false /\ (t + 7) / 4096 * 4096 = t.
Proof.
  intros Ht. unfold bit_set.
  assert (forall i, 0 <= i < 12 -> Z.testbit (t + 7) i = Z.testbit 7 i) as Hb.
  { intros i Hi. rewrite <- (Z.mod_pow2_bits_low (t + 7) 12 i) by lia.
    change (2 ^ 12) with 4096. f_equal. zlia. }
  rewrite !Hb by lia. split_and!; try done. zlia.
Qed.

(** the page arrays as the loader leaves them: all zero *)
Definition tables_zero (m : mem) : Prop := forall k, 0 <= k < 65536 -> rd m (pd_base + k) = 0.

Lemma pde_load m r p i :
  0 <= p <= 6 -> 0 <= i < 1024 ->
  rd32 (fst (paging_init m r)) (proc_pd p + 4 * i) = u32 (pval_val (pde_value p i)).
Proof.
  intros Hp Hi.
  assert (proc_pd p + 4 * i = pd_base + (pd_offset p + 4 * i)) as ->
    by (unfold proc_pd, pd_offset, page_directory; destruct (p =? 0); lia).
  rewrite paging_init_stores.
  assert (pd_offset p mod 4096 = 0 /\ 0 <= pd_offset p <= 57344) as [Ho Hr]
    by (unfold pd_offset; destruct (Z.eqb_spec p 0); split; zlia).
  rewrite rd32_run_stores; [| apply paging_stores_ok | zlia | lia].
  now destruct (stored_entries p i Hp Hi) as [-> _].
Qed.

Lemma pte_load m r p j :
  tables_zero m -> 0 <= p <= 6 -> 0 <= j < 1024 ->
  rd32 (fst (paging_init m r)) (pd_base + 4096 * (1 + p) + 4 * j) =
    if j =? VIDEO_MEM_LOCATION
    then (if p =? 0 then VIDEO_MEM_PAGE_SU else VIDEO_MEM_PAGE_U) else 0.
Proof.
  intros Hz Hp Hj. rewrite paging_init_stores, <- Z.add_assoc.
  rewrite rd32_run_stores; [| apply paging_stores_ok | zlia | lia].
  destruct (stored_entries p j Hp Hj) as [_ ->]. unfold pte_value.
  destruct (j =? VIDEO_MEM_LOCATION); [now destruct (p =? 0)|].
  destruct ((p =? 0) && negb (j =? 0)); [done|].
  unfold rd32. rewrite <- !Z.add_assoc. rewrite !Hz by lia. done.
Qed.

(** the page arrays hold what paging_init stores there *)
Record tables_built (m : mem) : Prop := {
  tb_pde : forall p i, 0 <= p <= 6 -> 0 <= i < 1024 ->
    rd32 m (proc_pd p + 4 * i) = u32 (pval_val (pde_value p i));
  tb_pte : forall p j, 0 <= p <= 6 -> 0 <= j < 1024 ->
    rd32 m (pd_base + 4096 * (1 + p) + 4 * j) =
      if j =? VIDEO_MEM_LOCATION
      then (if p =? 0 then VIDEO_MEM_PAGE_SU else VIDEO_MEM_PAGE_U) else 0
}.

Lemma paging_init_built m r : tables_zero m -> tables_built (fst (paging_init m r)).
Proof. intros Hz. split; intros p i Hp Hi; [now apply pde_load | now apply pte_load]. Qed.

Lemma tables_built_kept m m' :
  (forall a, pd_base <= a < pd_base + 65536 -> rd m' a = rd m a) ->
  tables_built m -> tables_built m'.
Proof.
  intros Hk [Hd Ht]. split; intros p i Hp Hi; [rewrite <- (Hd p i) by done | rewrite <- (Ht p i) by done];
    unfold rd32, proc_pd, page_directory; [destruct (Z.eqb_spec p 0)|]; now rewrite !Hk by lia.
Qed.

Lemma translate_built m p va :
  tables_built m -> 0 <= p <= 6 -> 0 <= va < 4294967296 ->
  translate m (proc_pd p) va = process_map p va.
Proof.
  intros [pde_load pte_load] Hp Hva. unfold translate, process_map, MB4.
  pose proof pd_base_range. pose proof pd_base_aligned.
  rewrite pde_load by (done || zlia). unfold pde_value.
  destruct (Z.ltb_spec va 4194304) as [Hv1|Hv1].
  - replace (va / 4194304) with 0 by zlia. cbn [Z.eqb].
    rewrite entry_of_value by zlia.
    destruct (table_entry_bits (pd_base + 4096 * (1 + p))) as (-> & -> & -> & -> & ->); [zlia|].
    cbn [negb]. replace (va / 4096 mod 1024) with (va / 4096) by zlia.
    rewrite pte_load by (done || zlia).
    destruct (Z.eqb_spec (va / 4096) VIDEO_MEM_LOCATION) as [E|]; [|done].
    unfold VIDEO_MEM_LOCATION in E. destruct (p =? 0); cbn; unfold VIDEO_MEM_PAGE_SU, VIDEO_MEM_PAGE_U;
      do 2 f_equal; zlia.
  - destruct (Z.ltb_spec va (2 * 4194304)) as [Hv2|Hv2].
    + replace (va / 4194304) with 1 by zlia. cbn. unfold KERNEL_PTR. do 2 f_equal. zlia.
    + assert ((va / 4194304 =? 0) = false) as -> by (apply Z.eqb_neq; zlia).
      assert ((va / 4194304 =? 1) = false) as -> by (apply Z.eqb_neq; zlia).
      destruct ((va / 4194304 =? 32) && negb (p =? 0)) eqn:E; [|done].
      apply andb_true_iff in E as [_ E]. apply negb_true_iff, Z.eqb_neq in E.
      assert (p = 1 \/ p = 2 \/ p = 3 \/ p = 4 \/ p = 5 \/ p = 6)
        as [-> | [-> | [-> | [-> | [-> | ->] ] ] ] ] by lia; reflexivity.
Qed.

Lemma translate_process m r p va :
  tables_zero m -> 0 <= p <= 6 -> 0 <= va < 4294967296 ->
  translate (fst (paging_init m r)) (proc_pd p) va = process_map p va.
Proof. intros Hz. now apply translate_built, paging_init_built. Qed.

Lemma get_pid_proc_pd p : 0 <= p <= 6 -> get_pid_from_cr3 (proc_pd p) = p.
Proof.
  intros Hp. unfold get_pid_from_cr3, proc_pd, page_directory, task1_page_directory,
    task2_page_directory, task3_page_directory, task4_page_directory,
    task5_page_directory, task6_page_directory.
  generalize pd_base. intros b.
  assert (p = 0 \/ p = 1 \/ p = 2 \/ p = 3 \/ p = 4 \/ p = 5 \/ p = 6)
    as [-> | [-> | [-> | [-> | [-> | [-> | ->] ] ] ] ] ] by lia; clear Hp;
    cbn [Z.eqb Pos.eqb Z.add Pos.add];
    repeat (rewrite (proj2 (Z.eqb_neq _ _)) by lia);
    now rewrite (proj2 (Z.eqb_eq _ _)) by lia.
Qed.
End Stores.

(** ** Properties *)

Section Properties.
Context `{Platform}.

(** C11: from zeroed page arrays, [paging_init] builds for the kernel (0) and
    each process 1-6 exactly the intended address space: at every 32-bit
    address the processor's walk yields the video page (user-accessible, but
    writable by user code only in processes), the supervisor-only identity
    map of 4-8 MiB, the process's own 4 MiB image page at 128 MiB, and a
    page fault everywhere else; and the process number can be read back from
    the directory address. *)
Theorem paging_init_address_spaces m r p va :
  tables_zero m -> 0 <= p <= 6 -> 0 <= va < 4294967296 ->
  translate (fst (paging_init m r)) (proc_pd p) va = process_map p va /\
  get_pid_from_cr3 (proc_pd p) = p /\ find_pid (proc_pd p) = p /\
  cr3_reg (snd (paging_init m r)) = proc_pd 0.
Proof.
  intros Hz Hp Hva. split_and!; [now apply translate_process | now apply get_pid_proc_pd | | done].
  now apply get_pid_proc_pd.
Qed.

(** C10: isolation. After [paging_init] two different processes can reach a
    common physical byte from user mode only in the video page. *)
Theorem processes_share_only_video m r p q va vb ma mb :
  tables_zero m -> 1 <= p <= 6 -> 1 <= q <= 6 -> p <> q ->
  0 <= va < 4294967296 -> 0 <= vb < 4294967296 ->
  translate (fst (paging_init m r)) (proc_pd p) va = Some ma ->
  translate (fst (paging_init m r)) (proc_pd q) vb = Some mb ->
  user_ok ma = true -> user_ok mb = true -> phys ma = phys mb ->
  phys ma / 4096 = VIDEO_MEM_LOCATION.
Proof.
  intros Hz Hp Hq Hpq Hva Hvb. rewrite !translate_process by (done || lia).
  unfold process_map, MB4.
  repeat case_match; try done; intros [= <-] [= <-]; cbn; try done; intros _ _ Heq;
    repeat match goal with
           | H : (_ && _) = true |- _ => apply andb_true_iff in H as [? _]
           | H : (_ =? _) = true |- _ => apply Z.eqb_eq in H
           end; try zlia.
Qed.
End Properties.

#[local] Existing Instance demo_platform.

Lemma tables_zero_empty : tables_zero ∅.
Proof. intros k Hk. reflexivity. Qed.

Lemma paging_init_address_spaces_witness :
  translate (fst (paging_init ∅ (CRegs 0 0 0))) (proc_pd 2) 134512640
    = Some (Mapping 12877824 true true).
Proof.
  destruct (paging_init_address_spaces ∅ (CRegs 0 0 0) 2 134512640) as [E _].
  - exact tables_zero_empty.
  - lia.
  - lia.
  - exact E.
Defined.

Lemma processes_share_only_video_witness :
  exists ma mb,
    translate (fst (paging_init ∅ (CRegs 0 0 0))) (proc_pd 1) 753664 = Some ma /\
    translate (fst (paging_init ∅ (CRegs 0 0 0))) (proc_pd 2) 753664 = Some mb /\
    phys ma / 4096 = VIDEO_MEM_LOCATION.
Proof.
  assert (translate (fst (paging_init ∅ (CRegs 0 0 0))) (proc_pd 1) 753664
    = Some (Mapping 753664 true true)) as H1
    by (rewrite translate_process; [reflexivity | exact tables_zero_empty | lia | lia]).
  assert (translate (fst (paging_init ∅ (CRegs 0 0 0))) (proc_pd 2) 753664
    = Some (Mapping 753664 true true)) as H2
    by (rewrite translate_process; [reflexivity | exact tables_zero_empty | lia | lia]).
  exists (Mapping 753664 true true), (Mapping 753664 true true).
  split; [exact H1|]. split; [exact H2|].
  exact (processes_share_only_video ∅ (CRegs 0 0 0) 1 2 753664 753664 _ _
    tables_zero_empty ltac:(lia) ltac:(lia) ltac:(lia) ltac:(lia) ltac:(lia)
    H1 H2 eq_refl eq_refl eq_refl).
Defined.
