(* ===== verification/KState.v ===== *)
(** * Kernel data structures and global state

    The structures of filesystem.h, systemcalls.h and terminal.h and the
    global variables of filesystem.c, systemcalls.c and terminal.c, as one
    record per source file inside the kernel state [kst].

    A saved process control block is a typed cell at its address in [saved]
    (the kernel only ever copies whole [pcb_t]s there); everything else that
    is reached through a pointer is bytes of [mm]. *)

From Stdlib Require Import ZArith Lia.
From stdpp Require Import base list gmap.
From S2P Require Import Prelude Memory Machine.
Open Scope Z_scope.

(** ** filesystem.h *)

(** which jump table [fops_ptr] points at *)
Inductive fops_t := NULL_fops | rtc_fops | terminal_fops | filesystem_fops.

#[export] Instance fops_eq_dec : EqDecision fops_t.
Proof. solve_decision. Defined.

Record dentry_t := Dentry {
  file_name : list Z;
  file_type : Z;
  inode_number : Z;
  reserved : list Z
}.
Definition set_file_name (v : list Z) (d : dentry_t) : dentry_t :=
  Dentry v (file_type d) (inode_number d) (reserved d).
Definition set_file_type (v : Z) (d : dentry_t) : dentry_t :=
  Dentry (file_name d) v (inode_number d) (reserved d).
Definition set_inode_number (v : Z) (d : dentry_t) : dentry_t :=
  Dentry (file_name d) (file_type d) v (reserved d).
Definition set_reserved (v : list Z) (d : dentry_t) : dentry_t :=
  Dentry (file_name d) (file_type d) (inode_number d) v.

Record file_struct_t := FileStruct {
  fops_ptr : fops_t;
  inode_ptr : Z;
  fpos : Z;
  flags : Z
}.
Definition set_fops_ptr (v : fops_t) (f : file_struct_t) : file_struct_t :=
  FileStruct v (inode_ptr f) (fpos f) (flags f).
Definition set_inode_ptr (v : Z) (f : file_struct_t) : file_struct_t :=
  FileStruct (fops_ptr f) v (fpos f) (flags f).
Definition set_fpos (v : Z) (f : file_struct_t) : file_struct_t :=
  FileStruct (fops_ptr f) (inode_ptr f) v (flags f).
Definition set_flags (v : Z) (f : file_struct_t) : file_struct_t :=
  FileStruct (fops_ptr f) (inode_ptr f) (fpos f) v.

Record fs_t := Fs {
  num_dir_entries : Z;
  num_inodes : Z;
  num_data_blocks : Z;
  dentry_begin : Z;
  data_start : Z
}.
Definition set_num_dir_entries (v : Z) (f : fs_t) : fs_t :=
  Fs v (num_inodes f) (num_data_blocks f) (dentry_begin f) (data_start f).
Definition set_num_inodes (v : Z) (f : fs_t) : fs_t :=
  Fs (num_dir_entries f) v (num_data_blocks f) (dentry_begin f) (data_start f).
Definition set_num_data_blocks (v : Z) (f : fs_t) : fs_t :=
  Fs (num_dir_entries f) (num_inodes f) v (dentry_begin f) (data_start f).
Definition set_dentry_begin (v : Z) (f : fs_t) : fs_t :=
  Fs (num_dir_entries f) (num_inodes f) (num_data_blocks f) v (data_start f).
Definition set_data_start (v : Z) (f : fs_t) : fs_t :=
  Fs (num_dir_entries f) (num_inodes f) (num_data_blocks f) (dentry_begin f) v.

Definition zero_dentry : dentry_t := Dentry (replicate 32 0) 0 0 (replicate 24 0).
Definition zero_file : file_struct_t := FileStruct NULL_fops 0 0 0.
#[export] Instance dentry_inhabited : Inhabited dentry_t := populate zero_dentry.
#[export] Instance file_struct_inhabited : Inhabited file_struct_t := populate zero_file.

(** ** systemcalls.h *)

Record pcb_t := Pcb {
  prev_pcb : Z;
  esp : Z;
  eip : Z;
  ebp : Z;
  cr3 : Z;
  parent_pid : Z;
  file_struct : list file_struct_t;
  dentry : list dentry_t;
  cmd_name : list Z;
  arg_name : list Z;
  data_arg_size : Z
}.
Definition set_prev_pcb (v : Z) (p : pcb_t) : pcb_t :=
  Pcb v (esp p) (eip p) (ebp p) (cr3 p) (parent_pid p) (file_struct p) (dentry p)
    (cmd_name p) (arg_name p) (data_arg_size p).
Definition set_esp (v : Z) (p : pcb_t) : pcb_t :=
  Pcb (prev_pcb p) v (eip p) (ebp p) (cr3 p) (parent_pid p) (file_struct p) (dentry p)
    (cmd_name p) (arg_name p) (data_arg_size p).
Definition set_eip (v : Z) (p : pcb_t) : pcb_t :=
  Pcb (prev_pcb p) (esp p) v (ebp p) (cr3 p) (parent_pid p) (file_struct p) (dentry p)
    (cmd_name p) (arg_name p) (data_arg_size p).
Definition set_ebp (v : Z) (p : pcb_t) : pcb_t :=
  Pcb (prev_pcb p) (esp p) (eip p) v (cr3 p) (parent_pid p) (file_struct p) (dentry p)
    (cmd_name p) (arg_name p) (data_arg_size p).
Definition set_cr3 (v : Z) (p : pcb_t) : pcb_t :=
  Pcb (prev_pcb p) (esp p) (eip p) (ebp p) v (parent_pid p) (file_struct p) (dentry p)
    (cmd_name p) (arg_name p) (data_arg_size p).
Definition set_parent_pid (v : Z) (p : pcb_t) : pcb_t :=
  Pcb (prev_pcb p) (esp p) (eip p) (ebp p) (cr3 p) v (file_struct p) (dentry p)
    (cmd_name p) (arg_name p) (data_arg_size p).
Definition set_file_struct (v : list file_struct_t) (p : pcb_t) : pcb_t :=
  Pcb (prev_pcb p) (esp p) (eip p) (ebp p) (cr3 p) (parent_pid p) v (dentry p)
    (cmd_name p) (arg_name p) (data_arg_size p).
Definition set_dentry (v : list dentry_t) (p : pcb_t) : pcb_t :=
  Pcb (prev_pcb p) (esp p) (eip p) (ebp p) (cr3 p) (parent_pid p) (file_struct p) v
    (cmd_name p) (arg_name p) (data_arg_size p).
Definition set_cmd_name (v : list Z) (p : pcb_t) : pcb_t :=
  Pcb (prev_pcb p) (esp p) (eip p) (ebp p) (cr3 p) (parent_pid p) (file_struct p)
    (dentry p) v (arg_name p) (data_arg_size p).
Definition set_arg_name (v : list Z) (p : pcb_t) : pcb_t :=
  Pcb (prev_pcb p) (esp p) (eip p) (ebp p) (cr3 p) (parent_pid p) (file_struct p)
    (dentry p) (cmd_name p) v (data_arg_size p).
Definition set_data_arg_size (v : Z) (p : pcb_t) : pcb_t :=
  Pcb (prev_pcb p) (esp p) (eip p) (ebp p) (cr3 p) (parent_pid p) (file_struct p)
    (dentry p) (cmd_name p) (arg_name p) v.

Definition zero_pcb : pcb_t :=
  Pcb 0 0 0 0 0 0 (replicate 8 zero_file) (replicate 8 zero_dentry)
    (replicate 40 0) (replicate 40 0) 0.

(** ** terminal.h *)

Record terminal_t := Terminal {
  t_linebuffer : list Z;
  pos_x : Z;
  pos_y : Z;
  t_counter : Z;
  t_esp : Z;
  t_ebp : Z;
  kernel_esp : Z;
  t_cr3 : Z;
  t_file_struct : list file_struct_t
}.
Definition set_t_linebuffer (v : list Z) (t : terminal_t) : terminal_t :=
  Terminal v (pos_x t) (pos_y t) (t_counter t) (t_esp t) (t_ebp t) (kernel_esp t)
    (t_cr3 t) (t_file_struct t).
Definition set_pos_x (v : Z) (t : terminal_t) : terminal_t :=
  Terminal (t_linebuffer t) v (pos_y t) (t_counter t) (t_esp t) (t_ebp t) (kernel_esp
    t) (t_cr3 t) (t_file_struct t).
Definition set_pos_y (v : Z) (t : terminal_t) : terminal_t :=
  Terminal (t_linebuffer t) (pos_x t) v (t_counter t) (t_esp t) (t_ebp t) (kernel_esp
    t) (t_cr3 t) (t_file_struct t).
Definition set_t_counter (v : Z) (t : terminal_t) : terminal_t :=
  Terminal (t_linebuffer t) (pos_x t) (pos_y t) v (t_esp t) (t_ebp t) (kernel_esp t)
    (t_cr3 t) (t_file_struct t).
Definition set_t_esp (v : Z) (t : terminal_t) : terminal_t :=
  Terminal (t_linebuffer t) (pos_x t) (pos_y t) (t_counter t) v (t_ebp t) (kernel_esp
    t) (t_cr3 t) (t_file_struct t).
Definition set_t_ebp (v : Z) (t : terminal_t) : terminal_t :=
  Terminal (t_linebuffer t) (pos_x t) (pos_y t) (t_counter t) (t_esp t) v (kernel_esp
    t) (t_cr3 t) (t_file_struct t).
Definition set_kernel_esp (v : Z) (t : terminal_t) : terminal_t :=
  Terminal (t_linebuffer t) (pos_x t) (pos_y t) (t_counter t) (t_esp t) (t_ebp t) v
    (t_cr3 t) (t_file_struct t).
Definition set_t_cr3 (v : Z) (t : terminal_t) : terminal_t :=
  Terminal (t_linebuffer t) (pos_x t) (pos_y t) (t_counter t) (t_esp t) (t_ebp t)
    (kernel_esp t) v (t_file_struct t).
Definition set_t_file_struct (v : list file_struct_t) (t : terminal_t) : terminal_t :=
  Terminal (t_linebuffer t) (pos_x t) (pos_y t) (t_counter t) (t_esp t) (t_ebp t)
    (kernel_esp t) (t_cr3 t) v.

Definition zero_terminal : terminal_t :=
  Terminal (replicate 128 0) 0 0 0 0 0 0 0 (replicate 8 zero_file).
#[export] Instance terminal_inhabited : Inhabited terminal_t := populate zero_terminal.

(** ** Global variables, per file *)

(** filesystem.c / filesystem.h *)
Record fs_glob := FsGlob {
  filesystem : fs_t;
  BOOT_BLOCK_PTR : Z;
  pc : Z;
  fd_val : Z;
  dentry1 : dentry_t
}.
Definition set_filesystem (v : fs_t) (g : fs_glob) : fs_glob :=
  FsGlob v (BOOT_BLOCK_PTR g) (pc g) (fd_val g) (dentry1 g).
Definition set_BOOT_BLOCK_PTR (v : Z) (g : fs_glob) : fs_glob :=
  FsGlob (filesystem g) v (pc g) (fd_val g) (dentry1 g).
Definition set_pc (v : Z) (g : fs_glob) : fs_glob :=
  FsGlob (filesystem g) (BOOT_BLOCK_PTR g) v (fd_val g) (dentry1 g).
Definition set_fd_val (v : Z) (g : fs_glob) : fs_glob :=
  FsGlob (filesystem g) (BOOT_BLOCK_PTR g) (pc g) v (dentry1 g).
Definition set_dentry1 (v : dentry_t) (g : fs_glob) : fs_glob :=
  FsGlob (filesystem g) (BOOT_BLOCK_PTR g) (pc g) (fd_val g) v.

(** systemcalls.c / systemcalls.h *)
Record sys_glob := SysGlob {
  pcblock : pcb_t;
  fd_index : Z;
  new_pid : Z;
  fd_rtc : Z;
  tasks : list Z;
  term1_rst : Z;
  term2_rst : Z;
  term3_rst : Z
}.
Definition set_pcblock (v : pcb_t) (g : sys_glob) : sys_glob :=
  SysGlob v (fd_index g) (new_pid g) (fd_rtc g) (tasks g) (term1_rst g) (term2_rst g)
    (term3_rst g).
Definition set_fd_index (v : Z) (g : sys_glob) : sys_glob :=
  SysGlob (pcblock g) v (new_pid g) (fd_rtc g) (tasks g) (term1_rst g) (term2_rst g)
    (term3_rst g).
Definition set_new_pid (v : Z) (g : sys_glob) : sys_glob :=
  SysGlob (pcblock g) (fd_index g) v (fd_rtc g) (tasks g) (term1_rst g) (term2_rst g)
    (term3_rst g).
Definition set_fd_rtc (v : Z) (g : sys_glob) : sys_glob :=
  SysGlob (pcblock g) (fd_index g) (new_pid g) v (tasks g) (term1_rst g) (term2_rst g)
    (term3_rst g).
Definition set_tasks (v : list Z) (g : sys_glob) : sys_glob :=
  SysGlob (pcblock g) (fd_index g) (new_pid g) (fd_rtc g) v (term1_rst g) (term2_rst
    g) (term3_rst g).
Definition set_term1_rst (v : Z) (g : sys_glob) : sys_glob :=
  SysGlob (pcblock g) (fd_index g) (new_pid g) (fd_rtc g) (tasks g) v (term2_rst g)
    (term3_rst g).
Definition set_term2_rst (v : Z) (g : sys_glob) : sys_glob :=
  SysGlob (pcblock g) (fd_index g) (new_pid g) (fd_rtc g) (tasks g) (term1_rst g) v
    (term3_rst g).
Definition set_term3_rst (v : Z) (g : sys_glob) : sys_glob :=
  SysGlob (pcblock g) (fd_index g) (new_pid g) (fd_rtc g) (tasks g) (term1_rst g)
    (term2_rst g) v.

(** terminal.c / terminal.h *)
Record term_glob := TermGlob {
  text_buf : list Z;
  counter : Z;
  entered : Z;
  cur_terminal : Z;
  term2_flag : Z;
  term3_flag : Z;
  term2_press : Z;
  term3_press : Z;
  terminals : list terminal_t;
  term_pcb : pcb_t
}.
Definition set_text_buf (v : list Z) (g : term_glob) : term_glob :=
  TermGlob v (counter g) (entered g) (cur_terminal g) (term2_flag g) (term3_flag g)
    (term2_press g) (term3_press g) (terminals g) (term_pcb g).
Definition set_counter (v : Z) (g : term_glob) : term_glob :=
  TermGlob (text_buf g) v (entered g) (cur_terminal g) (term2_flag g) (term3_flag g)
    (term2_press g) (term3_press g) (terminals g) (term_pcb g).
Definition set_entered (v : Z) (g : term_glob) : term_glob :=
  TermGlob (text_buf g) (counter g) v (cur_terminal g) (term2_flag g) (term3_flag g)
    (term2_press g) (term3_press g) (terminals g) (term_pcb g).
Definition set_cur_terminal (v : Z) (g : term_glob) : term_glob :=
  TermGlob (text_buf g) (counter g) (entered g) v (term2_flag g) (term3_flag g)
    (term2_press g) (term3_press g) (terminals g) (term_pcb g).
Definition set_term2_flag (v : Z) (g : term_glob) : term_glob :=
  TermGlob (text_buf g) (counter g) (entered g) (cur_terminal g) v (term3_flag g)
    (term2_press g) (term3_press g) (terminals g) (term_pcb g).
Definition set_term3_flag (v : Z) (g : term_glob) : term_glob :=
  TermGlob (text_buf g) (counter g) (entered g) (cur_terminal g) (term2_flag g) v
    (term2_press g) (term3_press g) (terminals g) (term_pcb g).
Definition set_term2_press (v : Z) (g : term_glob) : term_glob :=
  TermGlob (text_buf g) (counter g) (entered g) (cur_terminal g) (term2_flag g)
    (term3_flag g) v (term3_press g) (terminals g) (term_pcb g).
Definition set_term3_press (v : Z) (g : term_glob) : term_glob :=
  TermGlob (text_buf g) (counter g) (entered g) (cur_terminal g) (term2_flag g)
    (term3_flag g) (term2_press g) v (terminals g) (term_pcb g).
Definition set_terminals (v : list terminal_t) (g : term_glob) : term_glob :=
  TermGlob (text_buf g) (counter g) (entered g) (cur_terminal g) (term2_flag g)
    (term3_flag g) (term2_press g) (term3_press g) v (term_pcb g).
Definition set_term_pcb (v : pcb_t) (g : term_glob) : term_glob :=
  TermGlob (text_buf g) (counter g) (entered g) (cur_terminal g) (term2_flag g)
    (term3_flag g) (term2_press g) (term3_press g) (terminals g) v.

(** processor registers and the TSS fields the kernel sets *)
Record cpu_t := Cpu {
  r_cr3 : Z;
  r_esp : Z;
  r_ebp : Z;
  tss_esp0 : Z;
  tss_ss0 : Z
}.
Definition set_r_cr3 (v : Z) (c : cpu_t) : cpu_t :=
  Cpu v (r_esp c) (r_ebp c) (tss_esp0 c) (tss_ss0 c).
Definition set_r_esp (v : Z) (c : cpu_t) : cpu_t :=
  Cpu (r_cr3 c) v (r_ebp c) (tss_esp0 c) (tss_ss0 c).
Definition set_r_ebp (v : Z) (c : cpu_t) : cpu_t :=
  Cpu (r_cr3 c) (r_esp c) v (tss_esp0 c) (tss_ss0 c).
Definition set_tss_esp0 (v : Z) (c : cpu_t) : cpu_t :=
  Cpu (r_cr3 c) (r_esp c) (r_ebp c) v (tss_ss0 c).
Definition set_tss_ss0 (v : Z) (c : cpu_t) : cpu_t :=
  Cpu (r_cr3 c) (r_esp c) (r_ebp c) (tss_esp0 c) v.

(** the kernel's state *)
Record kst := Kst {
  hw : mach;
  fsg : fs_glob;
  sysg : sys_glob;
  trm : term_glob;
  cpu : cpu_t;
  saved : gmap Z pcb_t
}.
Definition set_hw (v : mach) (s : kst) : kst :=
  Kst v (fsg s) (sysg s) (trm s) (cpu s) (saved s).
Definition set_fsg (v : fs_glob) (s : kst) : kst :=
  Kst (hw s) v (sysg s) (trm s) (cpu s) (saved s).
Definition set_sysg (v : sys_glob) (s : kst) : kst :=
  Kst (hw s) (fsg s) v (trm s) (cpu s) (saved s).
Definition set_trm (v : term_glob) (s : kst) : kst :=
  Kst (hw s) (fsg s) (sysg s) v (cpu s) (saved s).
Definition set_cpu (v : cpu_t) (s : kst) : kst :=
  Kst (hw s) (fsg s) (sysg s) (trm s) v (saved s).
Definition set_saved (v : gmap Z pcb_t) (s : kst) : kst :=
  Kst (hw s) (fsg s) (sysg s) (trm s) (cpu s) v.

(** ** Shorthands for nested updates *)

Definition mem_of (s : kst) : mem := mm (hw s).
Definition pcb_of (s : kst) : pcb_t := pcblock (sysg s).
Definition upd_hw (f : mach -> mach) (s : kst) : kst := set_hw (f (hw s)) s.
Definition upd_mem (f : mem -> mem) (s : kst) : kst := upd_hw (fun h => set_mm (f (mm h)) h) s.
Definition upd_fsg (f : fs_glob -> fs_glob) (s : kst) : kst := set_fsg (f (fsg s)) s.
Definition upd_sysg (f : sys_glob -> sys_glob) (s : kst) : kst := set_sysg (f (sysg s)) s.
Definition upd_trm (f : term_glob -> term_glob) (s : kst) : kst := set_trm (f (trm s)) s.
Definition upd_cpu (f : cpu_t -> cpu_t) (s : kst) : kst := set_cpu (f (cpu s)) s.
Definition upd_pcb (f : pcb_t -> pcb_t) (s : kst) : kst :=
  upd_sysg (fun g => set_pcblock (f (pcblock g)) g) s.
Definition upd_file (fd : Z) (f : file_struct_t -> file_struct_t) (s : kst) : kst :=
  upd_pcb (fun p => set_file_struct (aset (file_struct p) fd (f (aget (file_struct p) fd))) p) s.
Definition upd_dentry (fd : Z) (f : dentry_t -> dentry_t) (s : kst) : kst :=
  upd_pcb (fun p => set_dentry (aset (dentry p) fd (f (aget (dentry p) fd))) p) s.

(** [pcblock.file_struct[fd]] and [pcblock.dentry[fd]] *)
Definition file_at (s : kst) (fd : Z) : file_struct_t := aget (file_struct (pcb_of s)) fd.
Definition dentry_at (s : kst) (fd : Z) : dentry_t := aget (dentry (pcb_of s)) fd.

(** the arrays of the PCB have their declared sizes *)
Definition pcb_wf (p : pcb_t) : Prop :=
  length (file_struct p) = 8%nat /\ length (dentry p) = 8%nat /\
  length (cmd_name p) = 40%nat /\ length (arg_name p) = 40%nat.

(** reading a field back after an update of another or of the same *)
Ltac kst_cbn :=
  cbn [hw fsg sysg trm cpu saved set_hw set_fsg set_sysg set_trm set_cpu set_saved
       upd_hw upd_fsg upd_sysg upd_trm upd_cpu upd_pcb upd_mem upd_file upd_dentry
       pcb_of mem_of file_at dentry_at
       pcblock fd_index new_pid fd_rtc tasks term1_rst term2_rst term3_rst
       set_pcblock set_fd_index set_new_pid set_fd_rtc set_tasks
       set_term1_rst set_term2_rst set_term3_rst
       filesystem BOOT_BLOCK_PTR pc fd_val dentry1
       set_filesystem set_BOOT_BLOCK_PTR set_pc set_fd_val set_dentry1
       prev_pcb esp eip ebp cr3 parent_pid file_struct dentry cmd_name arg_name data_arg_size
       set_prev_pcb set_esp set_eip set_ebp set_cr3 set_parent_pid set_file_struct set_dentry
       set_cmd_name set_arg_name set_data_arg_size
       fops_ptr inode_ptr fpos flags set_fops_ptr set_inode_ptr set_fpos set_flags
       file_name file_type inode_number reserved
       set_file_name set_file_type set_inode_number set_reserved
       mm set_mm screen_x screen_y ports master_mask slave_mask intr_flag if_flag
       set_screen_x set_screen_y set_ports set_master_mask set_slave_mask set_intr_flag set_if_flag
       text_buf counter entered cur_terminal term2_flag term3_flag term2_press term3_press
       terminals term_pcb set_text_buf set_counter set_entered set_cur_terminal
       set_term2_flag set_term3_flag set_term2_press set_term3_press set_terminals set_term_pcb
       r_cr3 r_esp r_ebp tss_esp0 tss_ss0 set_r_cr3 set_r_esp set_r_ebp
       set_tss_esp0 set_tss_ss0] in *.

(** the zeroed globals of the boot image over a memory *)
Definition boot_kst (m : mem) : kst :=
  Kst (Mach m 0 0 [] 255 255 0 false)
    (FsGlob (Fs 0 0 0 0 0) 0 0 0 zero_dentry)
    (SysGlob zero_pcb 0 0 0 [1; 0; 0; 0; 0; 0; 0] 0 0 0)
    (TermGlob (replicate 128 0) 0 0 1 0 0 0 0 (replicate 3 zero_terminal) zero_pcb)
    (Cpu 0 0 0 0 0) ∅.

(** ** Descriptor table accesses *)

(** fd is an index of both descriptor arrays of a well-formed PCB *)
Definition fd_ok (s : kst) (fd : Z) : Prop := pcb_wf (pcb_of s) /\ 0 <= fd < 8.

Lemma fd_ok_file s fd : fd_ok s fd -> 0 <= fd < Z.of_nat (length (file_struct (pcb_of s))).
Proof. intros [(-> & _) ?]. lia. Qed.
Lemma fd_ok_dentry s fd : fd_ok s fd -> 0 <= fd < Z.of_nat (length (dentry (pcb_of s))).
Proof. intros [(_ & -> & _) ?]. lia. Qed.

Lemma file_at_upd_file s fd f : fd_ok s fd -> file_at (upd_file fd f s) fd = f (file_at s fd).
Proof. intros H. kst_cbn. now apply aget_aset_eq, fd_ok_file. Qed.

Lemma file_at_upd_file_ne s fd fd' f :
  0 <= fd -> 0 <= fd' -> fd <> fd' -> file_at (upd_file fd f s) fd' = file_at s fd'.
Proof. intros. kst_cbn. now apply aget_aset_ne. Qed.

Lemma dentry_at_upd_dentry s fd f :
  fd_ok s fd -> dentry_at (upd_dentry fd f s) fd = f (dentry_at s fd).
Proof. intros H. kst_cbn. now apply aget_aset_eq, fd_ok_dentry. Qed.

Lemma dentry_at_upd_dentry_ne s fd fd' f :
  0 <= fd -> 0 <= fd' -> fd <> fd' -> dentry_at (upd_dentry fd f s) fd' = dentry_at s fd'.
Proof. intros. kst_cbn. now apply aget_aset_ne. Qed.

Lemma upd_file_upd_file s fd f g :
  fd_ok s fd -> upd_file fd f (upd_file fd g s) = upd_file fd (fun x => f (g x)) s.
Proof. intros H. unfold upd_file, upd_pcb, upd_sysg. kst_cbn.
  rewrite (aget_aset_eq (file_struct (pcblock (sysg s)))), aset_aset by now apply fd_ok_file.
  done. Qed.

Lemma upd_file_ext s fd f g :
  f (file_at s fd) = g (file_at s fd) -> upd_file fd f s = upd_file fd g s.
Proof. intros H. unfold file_at, pcb_of in H. unfold upd_file, upd_pcb, upd_sysg. now rewrite H. Qed.

Lemma upd_dentry_ext s fd f g :
  f (dentry_at s fd) = g (dentry_at s fd) -> upd_dentry fd f s = upd_dentry fd g s.
Proof.
  intros H. unfold dentry_at, pcb_of in H. unfold upd_dentry, upd_pcb, upd_sysg. now rewrite H.
Qed.

Lemma fd_ok_upd_file s fd fd' f : fd_ok s fd -> fd_ok (upd_file fd' f s) fd.
Proof.
  intros [(H1 & H2 & H3 & H4) ?]. split; [|done]. unfold pcb_wf. kst_cbn.
  now rewrite length_aset.
Qed.

Lemma fd_ok_upd_dentry s fd fd' f : fd_ok s fd -> fd_ok (upd_dentry fd' f s) fd.
Proof.
  intros [(H1 & H2 & H3 & H4) ?]. split; [|done]. unfold pcb_wf. kst_cbn.
  now rewrite length_aset.
Qed.
#[export] Hint Resolve fd_ok_upd_file fd_ok_upd_dentry : kst.

Lemma mem_of_upd_mem f s : mem_of (upd_mem f s) = f (mem_of s).
Proof. reflexivity. Qed.
Lemma mem_of_upd_file fd f s : mem_of (upd_file fd f s) = mem_of s.
Proof. reflexivity. Qed.
Lemma upd_mem_ext f g s : f (mem_of s) = g (mem_of s) -> upd_mem f s = upd_mem g s.
Proof. unfold mem_of, upd_mem, upd_hw. now intros ->. Qed.

Lemma file_at_upd_dentry s fd fd' f : file_at (upd_dentry fd f s) fd' = file_at s fd'.
Proof. done. Qed.
Lemma dentry_at_upd_file s fd fd' f : dentry_at (upd_file fd f s) fd' = dentry_at s fd'.
Proof. done. Qed.
Lemma mem_of_upd_dentry fd f s : mem_of (upd_dentry fd f s) = mem_of s.
Proof. done. Qed.
Lemma fsg_upd_file fd f s : fsg (upd_file fd f s) = fsg s.
Proof. done. Qed.
Lemma fsg_upd_dentry fd f s : fsg (upd_dentry fd f s) = fsg s.
Proof. done. Qed.
Lemma file_at_fd_index s v fd : file_at (upd_sysg (set_fd_index v) s) fd = file_at s fd.
Proof. done. Qed.
Lemma dentry_at_fd_index s v fd : dentry_at (upd_sysg (set_fd_index v) s) fd = dentry_at s fd.
Proof. done. Qed.
Lemma file_at_fd_rtc s v fd : file_at (upd_sysg (set_fd_rtc v) s) fd = file_at s fd.
Proof. done. Qed.
Lemma dentry_at_fd_rtc s v fd : dentry_at (upd_sysg (set_fd_rtc v) s) fd = dentry_at s fd.
Proof. done. Qed.
Lemma file_at_upd_hw s f fd : file_at (upd_hw f s) fd = file_at s fd.
Proof. done. Qed.
Lemma dentry_at_upd_hw s f fd : dentry_at (upd_hw f s) fd = dentry_at s fd.
Proof. done. Qed.
Lemma file_at_upd_fsg s f fd : file_at (upd_fsg f s) fd = file_at s fd.
Proof. done. Qed.
Lemma dentry_at_upd_fsg s f fd : dentry_at (upd_fsg f s) fd = dentry_at s fd.
Proof. done. Qed.
Lemma mem_of_upd_fsg s f : mem_of (upd_fsg f s) = mem_of s.
Proof. done. Qed.
Lemma file_at_upd_mem s f fd : file_at (upd_mem f s) fd = file_at s fd.
Proof. done. Qed.
Lemma dentry_at_upd_mem s f fd : dentry_at (upd_mem f s) fd = dentry_at s fd.
Proof. done. Qed.
Lemma fsg_upd_mem s f : fsg (upd_mem f s) = fsg s.
Proof. done. Qed.
Lemma file_at_set_saved s v fd : file_at (set_saved v s) fd = file_at s fd.
Proof. done. Qed.
Lemma dentry_at_set_saved s v fd : dentry_at (set_saved v s) fd = dentry_at s fd.
Proof. done. Qed.
#[export] Hint Rewrite file_at_upd_dentry dentry_at_upd_file mem_of_upd_dentry mem_of_upd_file
  mem_of_upd_mem fsg_upd_file fsg_upd_dentry file_at_fd_index dentry_at_fd_index file_at_fd_rtc
  dentry_at_fd_rtc file_at_upd_hw dentry_at_upd_hw file_at_upd_fsg dentry_at_upd_fsg mem_of_upd_fsg
  file_at_upd_mem dentry_at_upd_mem fsg_upd_mem file_at_set_saved dentry_at_set_saved : kst.

(** [fd_ok] depends on the sizes of the descriptor tables only *)
Lemma fd_ok_pcb s s' fd : pcb_of s' = pcb_of s -> fd_ok s fd -> fd_ok s' fd.
Proof. unfold fd_ok. now intros ->. Qed.

(** [upd_file] on the PCB it belongs to *)
Definition pcb_file (fd : Z) (f : file_struct_t -> file_struct_t) (p : pcb_t) : pcb_t :=
  set_file_struct (aset (file_struct p) fd (f (aget (file_struct p) fd))) p.

Lemma pcb_of_upd_file fd f s : pcb_of (upd_file fd f s) = pcb_file fd f (pcb_of s).
Proof. done. Qed.

(** a loop over states keeps what each round keeps *)
Lemma fold_kept {A B} (view : kst -> B) (f : kst -> A -> kst) l s :
  (forall s x, view (f s x) = view s) -> view (fold_left f l s) = view s.
Proof.
  intros Hf. revert s. induction l as [|x l IH]; intros s; cbn [fold_left]; [done|].
  now rewrite IH, Hf.
Qed.
