(* ===== verification/Filesystem.v ===== *)
(** * The read-only file system (filesystem.c)

    The image is bytes of memory at [BOOT_BLOCK_PTR]: a boot block with the
    counts and 64-byte directory entries, inodes, then 4 KiB data blocks.
    [None] is a fault: an array index outside its array, or a loop that is
    still running when its fuel ends (excluded by the theorems below where the
    loop terminates). *)

From Stdlib Require Import ZArith Lia Setoid Morphisms.
From stdpp Require Import base list gmap.
From S2P Require Import Prelude Memory CMem CStr Machine Console Paging KState.
Open Scope Z_scope.

Definition BYTES_4 : Z := 1.
Definition BYTES_8 : Z := 2.
Definition BYTES_64 : Z := 16.
Definition BYTES_4K : Z := 1024.
Definition MAX_FILE : Z := 62.
Definition B_32 : Z := 32.
Definition B_36 : Z := 36.
Definition B_40 : Z := 40.
Definition B_64 : Z := 64.
Definition ONE_BLOCK_SIZE : Z := 4096.
Definition PROGRAM_IMG : Z := 134512640.       (* 0x08048000 *)
(** [(uint8_t* )NEW_LOAD]: the cast binds to 0x600000, a byte pointer *)
Definition NEW_LOAD : Z := 6311936.            (* 0x605000 *)

Definition init_fs (s : kst) : kst :=
  let b := BOOT_BLOCK_PTR (fsg s) in
  let num_inodes := rd32 (mem_of s) (b + 4 * BYTES_4) in
  upd_fsg (fun g => set_pc 0 (set_filesystem
    (Fs (rd32 (mem_of s) b) num_inodes (rd32 (mem_of s) (b + 4 * BYTES_8))
        (u32 (b + 4 * BYTES_64)) (u32 (b + 4 * u32 ((num_inodes + 1) * BYTES_4K)))) g)) s.

(** [memcpy(dentry, p, B_40)] into a [dentry_t]: name, type and inode number;
    [reserved] starts at byte 40 *)
Definition load_dentry (m : mem) (p : Z) (d : dentry_t) : dentry_t :=
  Dentry (rdn m p 32) (rd32 m (p + 32)) (rd32 m (p + 36)) (reserved d).

Definition entry_addr (s : kst) (i : Z) : Z := dentry_begin (filesystem (fsg s)) + i * B_64.

(** the [for] loop of read_dentry_by_name, from index [i] on *)
Fixpoint name_loop (n : nat) (i : Z) (fname : cptr) (s : kst) : option Z :=
  match n with
  | O => None
  | S n' =>
      let file_name := rdn (mem_of s) (entry_addr s i) 32 in
      if strncmp (mem_of s) fname (Obj file_name) B_32 =? 0 then Some i
      else name_loop n' (i + 1) fname s
  end.

(** returns the value and the filled-in [*dentry] *)
Definition read_dentry_by_name (fname : cptr) (d : dentry_t) (s : kst) : Z * dentry_t :=
  match name_loop (Z.to_nat MAX_FILE) 0 fname s with
  | Some i => (0, load_dentry (mem_of s) (entry_addr s i) d)
  | None => (-1, d)
  end.

Definition read_dentry_by_index (index : Z) (d : dentry_t) (s : kst) : Z * dentry_t :=
  match find_first (fun i =>
      u32 (rd (mem_of s) (dentry_begin (filesystem (fsg s))) + i * B_64 + B_36) =? index)
    (Z.to_nat MAX_FILE) 0 with
  | Some i => (0, load_dentry (mem_of s) (entry_addr s i) d)
  | None => (-1, d)
  end.

(** ** read_data *)

(** [for(i=0;i<length;i++) buf[i]=0;] *)
Fixpoint zero_buf (n : nat) (i buf : Z) (m : mem) : mem :=
  match n with O => m | S n' => zero_buf n' (i + 1) buf (wr m (buf + i) 0) end.

Section ReadBlocks.
Variables (inode_ptr data_start buf index : Z).

Definition block_at (m : mem) (i : Z) : Z :=
  let block_num := rd32 m (inode_ptr + 4 * u32 (u32 (i + 1) * BYTES_4)) in
  data_start + 4 * u32 (block_num * BYTES_4K).

(** [while(left>0)]: the memory when the loop ends *)
Fixpoint read_blocks (fuel : nat) (m : mem) (left_ i bufholder : Z) (index_flag : bool)
  : option mem :=
  if left_ =? 0 then Some m
  else match fuel with
  | O => None
  | S f =>
      let block_p8tr := block_at m i in
      if index_flag then
        let block_p8tr := block_p8tr + index in
        if u32 (index + left_) <=? ONE_BLOCK_SIZE then
          read_blocks f (memcpy m buf block_p8tr left_) 0 i bufholder false
        else
          read_blocks f (memcpy m bufholder block_p8tr (u32 (ONE_BLOCK_SIZE - index)))
            (u32 (left_ - u32 (ONE_BLOCK_SIZE - index))) (u32 (i + 1))
            (bufholder + u32 (ONE_BLOCK_SIZE - index)) false
      else
        let '(m, left_, i, bufholder) :=
          if left_ >=? ONE_BLOCK_SIZE then
            (memcpy m bufholder block_p8tr ONE_BLOCK_SIZE,
             u32 (left_ - u32 (ONE_BLOCK_SIZE - index)), u32 (i + 1),
             bufholder + u32 (ONE_BLOCK_SIZE - index))
          else (m, left_, i, bufholder) in
        if left_ <? ONE_BLOCK_SIZE then
          read_blocks f (memcpy m bufholder block_p8tr left_) 0 i bufholder false
        else read_blocks f m left_ i bufholder false
  end.
End ReadBlocks.

(** arguments and [length], [offset] are [uint32_t]s *)
Definition read_data (inode offset buf length : Z) (s : kst) : option (Z * kst) :=
  let s := upd_mem (zero_buf (Z.to_nat length) 0 buf) s in
  let m := mem_of s in
  let inode_ptr := BOOT_BLOCK_PTR (fsg s) + 4 * u32 (u32 (inode + 1) * BYTES_4K) in
  let data_length := rd32 m inode_ptr in
  if offset >=? data_length then Some (0, s)
  else if inode >=? u32 (num_inodes (filesystem (fsg s)) - 1) then Some (-1, s)
  else
    let rval := if u32 (offset + length) >? data_length
                then u32 (data_length - offset) else length in
    let i := offset / ONE_BLOCK_SIZE in
    let index := offset mod ONE_BLOCK_SIZE in
    m' ← read_blocks inode_ptr (data_start (filesystem (fsg s))) buf index
           (S (Z.to_nat rval)) m rval i buf true;
    let s := upd_mem (fun _ => m') s in
    if in_range (fd_val (fsg s)) 8
    then Some (s32 rval, upd_file (fd_val (fsg s)) (set_fpos (u32 (offset + rval))) s)
    else None.

(** ** Operations behind the jump table *)

Definition filesystem_open (filename : cptr) (s : kst) : option (Z * kst) :=
  if negb (strncmp (mem_of s) filename (Obj []) 1 =? 0) then
    if in_range (fd_val (fsg s)) 8 then
      let fd := fd_val (fsg s) in
      let '(r, d) := read_dentry_by_name filename (dentry_at s fd) s in
      Some (r, upd_dentry fd (fun _ => d) s)
    else None
  else Some (-1, s).

Definition diropen (filename : cptr) (s : kst) : Z * kst := (0, s).
Definition dirclose (fd : Z) (s : kst) : Z * kst := (0, s).
Definition dirwrite (s : kst) : Z * kst := (-1, s).

Definition filesystem_close (fd : Z) (s : kst) : Z * kst :=
  let s := upd_fsg (set_fd_val fd) s in
  if file_type (dentry_at s fd) =? 1 then dirclose fd s
  else if (fd =? 0) || (fd =? 1) then (-1, s)
  else (0, upd_file fd (set_flags 0) s).

Definition filesystem_write (fd buf nbytes : Z) (s : kst) : Z * kst := (-1, s).

(** [while(!temp)] of dirread; [None] when the scan outruns the fuel *)
Definition DIR_FUEL : nat := 64.
Fixpoint dir_scan (fuel : nat) (fd : Z) (s : kst) : option (Z * kst) :=
  match fuel with
  | O => None
  | S f =>
      let currptr := dentry_begin (filesystem (fsg s)) + fpos (file_at s fd) * B_64 in
      let temp := rd (mem_of s) (currptr + B_32) in
      let s := upd_file fd (fun f => set_fpos (u32 (fpos f + 1)) f) s in
      if temp =? 0 then dir_scan f fd s else Some (currptr, s)
  end.

Definition dirread (fd buf : Z) (s : kst) : option (Z * kst) :=
  if fpos (file_at s fd) >=? num_dir_entries (filesystem (fsg s)) then Some (0, s)
  else
    '(currptr, s) ← dir_scan DIR_FUEL fd s;
    len ← strlen STR_FUEL (mem_of s) (Addr currptr);
    let s := upd_mem (fun m => memcpy m buf currptr len) s in
    len ← strlen STR_FUEL (mem_of s) (Addr currptr);
    Some (len, s).

Definition filesystem_read (fd buf nbytes : Z) (s : kst) : option (Z * kst) :=
  let s := upd_fsg (set_fd_val fd) s in
  if file_type (dentry_at s fd) =? 1 then dirread fd buf s
  else read_data (inode_number (dentry_at s fd)) (fpos (file_at s fd)) buf (u32 nbytes) s.

(** ** The program loader *)

Definition MAGIC : list Z := [127; 69; 76; 70].     (* 0x7f E L F *)

(** [buf[0] == MAGIC_NUM_1 && ...] on the four bytes at [p] *)
Definition has_magic (m : mem) (p : Z) : bool := bool_decide (rdn m p 4 = MAGIC).

(** the CR3 load of the [if]-chain on [new_pid], and its [pc++] *)
Definition load_page_directory `{Platform} (s : kst) : kst :=
  let set_pd pd := upd_cpu (set_r_cr3 pd) in
  let incr_pc := upd_fsg (fun g => set_pc (u32 (pc g + 1)) g) in
  let p := new_pid (sysg s) in
  if p =? 1 then incr_pc (set_pd task1_page_directory s)
  else if p =? 2 then set_pd task2_page_directory s
  else if p =? 3 then set_pd task3_page_directory s
  else if p =? 4 then incr_pc (set_pd task4_page_directory s)
  else if p =? 5 then incr_pc (set_pd task5_page_directory s)
  else if p =? 6 then incr_pc (set_pd task6_page_directory s)
  else s.

(** stores through the current page directory: [n] bytes that stay in one
    4 MiB page, or a page fault *)
Definition memcpy_virtual (va src n : Z) (s : kst) : option kst :=
  match translate (mem_of s) (r_cr3 (cpu s)) va with
  | Some mp =>
      if va mod MB4 + n <=? MB4
      then Some (upd_mem (fun m => memcpy m (phys mp) src n) s) else None
  | None => None
  end.

Definition loader `{Platform} (filename : cptr) (s : kst) : option (Z * kst) :=
  let '(r, d) := read_dentry_by_name filename (dentry1 (fsg s)) s in
  let s := upd_fsg (set_dentry1 d) s in
  if r =? -1 then Some (-1, s)
  else
    let inode := inode_number (dentry1 (fsg s)) in
    let inode_ptr := BOOT_BLOCK_PTR (fsg s) + 4 * u32 (u32 (inode + 1) * BYTES_4K) in
    let data_length := rd32 (mem_of s) inode_ptr in
    if data_length <? 4 then Some (-1, s)
    else
      let block_num := rd32 (mem_of s) (inode_ptr + 4 * BYTES_4) in
      let block_ptr := data_start (filesystem (fsg s)) + 4 * u32 (block_num * BYTES_4K) in
      if has_magic (mem_of s) block_ptr then
        '(_, s) ← read_data inode 0 NEW_LOAD data_length s;
        let eip := rd32 (mem_of s) (NEW_LOAD + 24) in
        let s := load_page_directory s in
        s ← memcpy_virtual PROGRAM_IMG NEW_LOAD data_length s;
        Some (s32 eip, s)
      else Some (-1, s).

(** ** Looking names up *)

(** the name compared: up to 32 bytes before a NUL *)
Definition entry_name (s : kst) (i : Z) : list Z :=
  cstrn (mem_of s) (Obj (rdn (mem_of s) (entry_addr s i) 32)) 32 0.
Definition name_of (s : kst) (fname : cptr) : list Z := cstrn (mem_of s) fname 32 0.

Lemma strncmp_entry s fname i :
  (strncmp (mem_of s) fname (Obj (rdn (mem_of s) (entry_addr s i) 32)) B_32 =? 0)
  = bool_decide (name_of s fname = entry_name s i).
Proof.
  apply eq_true_iff_eq. rewrite Z.eqb_eq, bool_decide_eq_true.
  unfold name_of, entry_name. rewrite strncmp_zero.
  change (Z.to_nat (u32 B_32)) with 32%nat. done.
Qed.

Lemma name_loop_find n i fname s :
  name_loop n i fname s = find_first (fun i => bool_decide (name_of s fname = entry_name s i)) n i.
Proof.
  revert i. induction n as [|n IH]; intros i; cbn [name_loop find_first]; [done|].
  rewrite strncmp_entry, IH. done.
Qed.

(** the directory search is the first index with an equal name *)
Lemma read_dentry_by_name_spec fname d s :
  match find_first (fun i => bool_decide (name_of s fname = entry_name s i)) 62 0 with
  | Some i => read_dentry_by_name fname d s = (0, load_dentry (mem_of s) (entry_addr s i) d)
  | None => read_dentry_by_name fname d s = (-1, d)
  end.
Proof.
  unfold read_dentry_by_name. rewrite name_loop_find. change (Z.to_nat MAX_FILE) with 62%nat.
  now destruct (find_first _ _ _).
Qed.

(** ** Reading data *)

(** every read of the loop terminates: the bytes left strictly decrease *)
Lemma read_blocks_total ip ds buf index fuel m l i h fl :
  0 <= index < 4096 -> 0 <= l < 4294967296 -> (Z.to_nat l < fuel)%nat ->
  exists m', read_blocks ip ds buf index fuel m l i h fl = Some m'.
Proof.
  intros Hx. revert m l i h fl.
  induction fuel as [|f IH]; intros m l i h fl Hl Hf; cbn [read_blocks]; [lia|].
  destruct (Z.eqb_spec l 0); [now eexists|]. unfold ONE_BLOCK_SIZE.
  assert (u32 (4096 - index) = 4096 - index) as -> by (apply u32_small; lia).
  destruct fl.
  - destruct (Z.leb_spec (u32 (index + l)) 4096) as [Hle|Hgt]; apply IH; zlia.
  - destruct (Z.geb_spec l 4096) as [Hge|Hlt].
    + rewrite (u32_small (l - (4096 - index))) by lia.
      destruct (Z.ltb_spec (l - (4096 - index)) 4096); apply IH; lia.
    + destruct (Z.ltb_spec l 4096); [apply IH; lia | lia].
Qed.

Definition apart (a la b lb : Z) : Prop := a + la <= b \/ b + lb <= a.
Definition region (a l : Z) : Prop := 0 <= a /\ 0 <= l /\ a + l <= 4294967296.

(** byte [pos] of the file whose inode is at [ip] *)
Definition file_byte (m : mem) (ip ds pos : Z) : Z :=
  rd m (block_at ip ds m (pos / 4096) + pos mod 4096).

(** the inode and the blocks of its [size] bytes lie in the image
    [lo, lo + sz) *)
Record file_in_image (m : mem) (lo sz ip ds size : Z) : Prop := {
  fi_inode : lo <= ip /\ ip + 4096 <= lo + sz;
  fi_size : 0 <= size <= 1023 * 4096;
  fi_blocks : forall i, 0 <= i -> 4096 * i < size ->
    lo <= block_at ip ds m i /\ block_at ip ds m i + 4096 <= lo + sz
}.

(** overwriting part of a filled region *)
Lemma filled_over (m m1 m2 : mem) a n k l f g :
  0 <= k -> 0 <= l -> k + l <= n -> n <= 4294967296 ->
  filled m m1 a n f -> filled m1 m2 (a + k) l g ->
  filled m m2 a n (fun j => if (k <=? j) && (j <? k + l) then g (j - k) else f j).
Proof.
  intros Hk Hl Hn Hw H1 H2 b. rewrite H2, H1.
  pose proof (u32_range (b - a)). pose proof (u32_range (b - (a + k))).
  destruct (Z.ltb_spec (off (a + k) b) l) as [Hi|Hi].
  - assert (off a b = off (a + k) b + k) as -> by zlia.
    destruct (Z.ltb_spec (off (a + k) b + k) n); [|lia].
    destruct (Z.leb_spec k (off (a + k) b + k)); [|lia].
    destruct (Z.ltb_spec (off (a + k) b + k) (k + l)); [|lia].
    cbn. f_equal. lia.
  - destruct (Z.ltb_spec (off a b) n); [|done].
    destruct (Z.leb_spec k (off a b)); [|done].
    destruct (Z.ltb_spec (off a b) (k + l)); [exfalso; zlia | done].
Qed.

(** a fill followed by another one *)
Lemma filled_tail (m m1 m2 : mem) a k n f g h :
  0 <= k <= n -> n <= 4294967296 -> 
  filled m m1 a k f -> filled m1 m2 (a + k) (n - k) g ->
  (forall j, 0 <= j < k -> f j = h j) -> (forall j, 0 <= j < n - k -> g j = h (j + k)) ->
  filled m m2 a n h.
Proof.
  intros Hk Hn H1 H2 Hf Hg. replace n with (k + (n - k)) by lia.
  eapply filled_app; [lia | lia | lia | exact Hg | | exact H2].
  now apply (filled_ext _ _ _ _ f).
Qed.

Lemma zero_buf_filled k i buf m :
  0 <= i -> i + Z.of_nat k <= 4294967296 ->
  filled m (zero_buf k i buf m) (buf + i) (Z.of_nat k) (fun _ => 0).
Proof.
  revert i m. induction k as [|k IH]; intros i m Hi Hk; cbn [zero_buf]; [apply filled_refl|].
  rewrite Nat2Z.inj_succ, <- Z.add_1_l.
  eapply filled_app; [lia | lia | lia | done | now apply (filled_one _ _ 0) |].
  rewrite <- Z.add_assoc. apply IH; lia.
Qed.

Section Image.
(** the image occupies [lo, lo + sz); the caller's buffer [buf, buf + n) *)
Variables (lo sz buf n : Z) (m0 : mem).

Definition same_image (m : mem) : Prop := forall a, lo <= a < lo + sz -> rd m a = rd m0 a.

Hypothesis Hlo : region lo sz.
Hypothesis Hbuf : region buf n.
Hypothesis Hapart : apart lo sz buf n.

Lemma same_image_rd32 m a : same_image m -> lo <= a -> a + 4 <= lo + sz -> rd32 m a = rd32 m0 a.
Proof. intros Hs Ha Hb. unfold rd32. now rewrite !Hs by lia. Qed.

(** a fill inside the buffer leaves a disjoint image alone *)
Lemma filled_same_image m m' a k f :
  buf <= a -> a + k <= buf + n -> filled m m' a k f -> same_image m -> same_image m'.
Proof.
  unfold region, apart in *. intros H1 H2 Hf Hs x Hx. rewrite Hf.
  destruct (Z.ltb_spec (off a x) k); [exfalso; zlia | now apply Hs].
Qed.

(** copying image bytes into the buffer, whatever the buffer held *)
Lemma memcpy_image m dst src k :
  same_image m -> 0 <= k -> lo <= src -> src + k <= lo + sz ->
  buf <= dst -> dst + k <= buf + n ->
  filled m (memcpy m dst src k) dst k (fun j => rd m0 (src + j)).
Proof.
  intros Hs Hk Hs1 Hs2 Hd1 Hd2. unfold region, apart in *.
  assert (copied m (memcpy m dst src k) src dst k) as Hc.
  { rewrite <- (u32_small k) at 2 by lia. apply memcpy_copied.
    rewrite u32_small by lia. unfold ascending_ok. zlia. }
  intros b. rewrite Hc. pose proof (u32_range (b - dst)).
  destruct (Z.ltb_spec (off dst b) k); [apply Hs; lia | done].
Qed.

Variables (ip ds size : Z).
Hypothesis Hfile : file_in_image m0 lo sz ip ds size.

Lemma block_at_same m i :
  same_image m -> 0 <= i -> 4096 * i < size -> block_at ip ds m i = block_at ip ds m0 i.
Proof.
  intros Hs Hi Hl. destruct Hfile as [Hip Hsz _]. unfold block_at, BYTES_4.
  assert (u32 (u32 (i + 1) * 1) = i + 1) as ->
    by (rewrite Z.mul_1_r, u32_u32; apply u32_small; lia).
  now rewrite (same_image_rd32 m) by (done || lia).
Qed.

(** copying [k] bytes of block [i], from its byte [x] on, to the buffer *)
Lemma copy_block m i x h k :
  same_image m -> 0 <= i -> 4096 * i < size -> 0 <= x -> 0 <= k -> x + k <= 4096 ->
  buf <= h -> h + k <= buf + n ->
  let m' := memcpy m h (block_at ip ds m i + x) k in
  filled m m' h k (fun j => file_byte m0 ip ds (4096 * i + x + j)) /\ same_image m'.
Proof.
  intros Hs Hi Hl Hx Hk Hxk Hh1 Hh2. rewrite block_at_same by done.
  destruct (fi_blocks _ _ _ _ _ _ Hfile i Hi Hl) as [Hb1 Hb2].
  assert (filled m (memcpy m h (block_at ip ds m0 i + x) k) h k
    (fun j => rd m0 (block_at ip ds m0 i + x + j))) as Hf
    by (apply memcpy_image; [done | lia..]).
  split; [|now apply (filled_same_image m _ h k _ Hh1 Hh2 Hf)].
  intros b. rewrite Hf. destruct (Z.ltb_spec (off h b) k) as [Ho|]; [|done].
  pose proof (u32_range (b - h)). unfold file_byte.
  replace (4096 * i + x + off h b) with (x + off h b + i * 4096) by lia.
  rewrite Z.mod_add, Z.div_add, Z.mod_small, Z.div_small by lia.
  rewrite Z.add_0_l. f_equal. lia.
Qed.

(** where byte [j] of a read of [l] bytes from a block boundary comes from,
    once [w] bytes are what a whole-block step needs: a tail after whole blocks
    comes from the last whole block *)
Definition stale (w l j : Z) : Z :=
  if (w <=? l) && (4096 * (l / 4096) <=? j) then j - 4096 else j.

Lemma stale_short w l j : l < w -> stale w l j = j.
Proof. intros. unfold stale. now destruct (Z.leb_spec w l); [lia|]. Qed.

Lemma stale_head w l j : j < 4096 <= l -> stale w l j = j.
Proof.
  intros. unfold stale. destruct (Z.leb_spec (4096 * (l / 4096)) j); [zlia|].
  now rewrite andb_false_r.
Qed.

(** the loop after the first block: [x] is the offset in the first block *)
Lemma read_rest b0 x fuel m l i h :
  same_image m -> (Z.to_nat l < fuel)%nat -> 0 <= l < 4294967296 -> 0 <= i ->
  4096 * i + l <= size -> buf <= h -> h + l <= buf + n -> x = 0 \/ l < 4096 ->
  exists m', read_blocks ip ds b0 x fuel m l i h false = Some m' /\
    filled m m' h l (fun j => file_byte m0 ip ds (4096 * i + stale 4096 l j)).
Proof.
  revert m l i h.
  induction fuel as [|f IH]; intros m l i h Hs Hf Hl Hi Hsz Hh1 Hh2 Hx; [lia|].
  cbn [read_blocks]. destruct (Z.eqb_spec l 0) as [->|Hl0].
  { eexists. split; [done | apply filled_refl]. }
  pose proof (fi_size _ _ _ _ _ _ Hfile) as Hmax. unfold ONE_BLOCK_SIZE.
  assert (forall m' i' h', read_blocks ip ds b0 x f m' 0 i' h' false = Some m') as Hstop
    by (intros; destruct f; done).
  destruct (Z.geb_spec l 4096) as [Hge|Hlt].
  - destruct Hx as [->|]; [|lia]. rewrite Z.sub_0_r, (u32_small 4096), (u32_small (l - 4096)),
      (u32_small (i + 1)) by lia.
    destruct (copy_block m i 0 h 4096) as [Hc Hs1]; [done | lia.. |].
    rewrite Z.add_0_r in Hc, Hs1. set (m1 := memcpy m h (block_at ip ds m i) 4096) in *.
    destruct (Z.ltb_spec (l - 4096) 4096) as [Htail|Hmore].
    + rewrite Hstop. eexists. split; [done|].
      destruct (copy_block m1 i 0 (h + 4096) (l - 4096)) as [Hc2 _]; [done | lia.. |].
      rewrite Z.add_0_r, (block_at_same m1 i), <- (block_at_same m i) in Hc2 by (done || lia).
      eapply filled_tail; [| | exact Hc | exact Hc2 | |]; [lia | lia | |].
      * intros j Hj. cbn beta. f_equal. rewrite stale_head by lia. lia.
      * intros j Hj. cbn beta. f_equal. unfold stale.
        replace (4096 * (l / 4096)) with 4096 by (Z.div_mod_to_equations; lia).
        destruct (Z.leb_spec 4096 l), (Z.leb_spec 4096 (j + 4096)); cbn; lia.
    + destruct (IH m1 (l - 4096) (i + 1) (h + 4096)) as (m2 & Hr & Hc2);
        [done | lia.. | now left |].
      exists m2. split; [done|].
      eapply filled_tail; [| | exact Hc | exact Hc2 | |]; [lia | lia | |].
      * intros j Hj. cbn beta. f_equal. rewrite stale_head by lia. lia.
      * intros j Hj. cbn beta. f_equal. unfold stale.
        replace (l / 4096) with ((l - 4096) / 4096 + 1) by (Z.div_mod_to_equations; lia).
        destruct (Z.leb_spec 4096 l), (Z.leb_spec 4096 (l - 4096)),
          (Z.leb_spec (4096 * ((l - 4096) / 4096 + 1)) (j + 4096)),
          (Z.leb_spec (4096 * ((l - 4096) / 4096)) j); cbn; lia.
  - destruct (Z.ltb_spec l 4096); [|lia]. rewrite Hstop. eexists. split; [done|].
    destruct (copy_block m i 0 h l) as [Hc _]; [done | lia.. |]. rewrite Z.add_0_r in Hc.
    eapply filled_ext; [|exact Hc]. intros j Hj. cbn beta. f_equal.
    rewrite stale_short by lia. lia.
Qed.

(** the whole loop, from file offset [4096 * i + x] *)
Lemma read_blocks_spec x m l i :
  same_image m -> 0 <= l <= n -> 0 <= i -> 0 <= x < 4096 ->
  4096 * i + x + l <= size -> x = 0 \/ x + l < 8192 ->
  exists m', read_blocks ip ds buf x (S (Z.to_nat l)) m l i buf true = Some m' /\
    filled m m' buf l (fun j => file_byte m0 ip ds (4096 * i + x + stale 8192 l j)).
Proof.
  intros Hs Hl Hi Hx Hsz Hshape. unfold region in Hbuf.
  pose proof (fi_size _ _ _ _ _ _ Hfile) as Hmax.
  cbn [read_blocks]. destruct (Z.eqb_spec l 0) as [->|Hl0].
  { eexists. split; [done | apply filled_refl]. }
  unfold ONE_BLOCK_SIZE. rewrite !(u32_small (4096 - x)), (u32_small (x + l)),
    (u32_small (i + 1)) by lia.
  destruct (Z.leb_spec (x + l) 4096) as [Hone|Hmore].
  - exists (memcpy m buf (block_at ip ds m i + x) l). split; [now destruct (Z.to_nat l)|].
    destruct (copy_block m i x buf l) as [Hc _]; [done | lia.. |].
    eapply filled_ext; [|exact Hc]. intros j Hj. cbn beta. f_equal. rewrite stale_short by lia. lia.
  - destruct (copy_block m i x buf (4096 - x)) as [Hc Hs1]; [done | lia.. |].
    rewrite (u32_small (l - (4096 - x))) by lia.
    destruct (read_rest buf x (Z.to_nat l) _ (l - (4096 - x)) (i + 1) (buf + (4096 - x)) Hs1)
      as (m2 & Hr & Hc2); [lia.. |].
    exists m2. split; [done|].
    eapply filled_tail; [| | exact Hc | exact Hc2 | |]; [lia | lia | |].
    + intros j Hj. cbn beta. f_equal. unfold stale.
      destruct (Z.leb_spec 8192 l); [|cbn; lia].
      destruct (Z.leb_spec (4096 * (l / 4096)) j); [exfalso; zlia | cbn; lia].
    + intros j Hj. cbn beta. f_equal. destruct Hshape as [->|Hshape].
      * rewrite Z.sub_0_r in *. unfold stale.
        replace (l / 4096) with ((l - 4096) / 4096 + 1) by (Z.div_mod_to_equations; lia).
        destruct (Z.leb_spec 8192 l), (Z.leb_spec 4096 (l - 4096)),
          (Z.leb_spec (4096 * ((l - 4096) / 4096 + 1)) (j + 4096)),
          (Z.leb_spec (4096 * ((l - 4096) / 4096)) j); cbn; lia.
      * rewrite !stale_short by lia. lia.
Qed.
End Image.

(** ** Reading file contents *)

Definition inode_addr (s : kst) (inode : Z) : Z :=
  BOOT_BLOCK_PTR (fsg s) + 4 * u32 (u32 (inode + 1) * BYTES_4K).
Definition file_size (s : kst) (inode : Z) : Z := rd32 (mem_of s) (inode_addr s inode).

(** what the file holds *)
Definition file_content (s : kst) (inode : Z) : list Z :=
  map (file_byte (mem_of s) (inode_addr s inode) (data_start (filesystem (fsg s))))
    (zrange 0 (file_size s inode)).

(** a valid request: the file is stored inside the image, the image is apart
    from the buffer, the sizes do not wrap *)
Record readable (s : kst) (lo sz inode offset buf n : Z) : Prop := {
  ra_image : region lo sz;
  ra_buffer : region buf n;
  ra_apart : apart lo sz buf n;
  ra_file : file_in_image (mem_of s) lo sz (inode_addr s inode)
              (data_start (filesystem (fsg s))) (file_size s inode);
  ra_inode : 0 <= inode < u32 (num_inodes (filesystem (fsg s)) - 1);
  ra_offset : 0 <= offset < file_size s inode;
  ra_sum : offset + n < 4294967296;
  ra_fd : in_range (fd_val (fsg s)) 8 = true
}.

(** the number of bytes a read of [n] bytes returns *)
Definition avail (s : kst) (inode offset n : Z) : Z := n `min` (file_size s inode - offset).

Lemma read_data_spec s lo sz inode offset buf n :
  readable s lo sz inode offset buf n ->
  let r := avail s inode offset n in
  offset mod 4096 = 0 \/ offset mod 4096 + r < 8192 ->
  exists m', read_data inode offset buf n s =
      Some (r, upd_file (fd_val (fsg s)) (set_fpos (offset + r)) (upd_mem (fun _ => m') s)) /\
    filled (mem_of s) m' buf n (fun j => if j <? r
      then file_byte (mem_of s) (inode_addr s inode) (data_start (filesystem (fsg s)))
             (offset + stale 8192 r j)
      else 0).
Proof.
  intros [Hlo Hbuf Hap Hfile Hino Hoff Hsum Hfd] r Hshape.
  pose proof (fi_size _ _ _ _ _ _ Hfile) as Hsize. pose proof Hbuf as (Hb0 & Hn0 & Hb1).
  set (m1 := zero_buf (Z.to_nat n) 0 buf (mem_of s)).
  assert (filled (mem_of s) m1 buf n (fun _ => 0)) as Hzero.
  { pose proof (zero_buf_filled (Z.to_nat n) 0 buf (mem_of s)) as Hz.
    rewrite Z2Nat.id, Z.add_0_r in Hz by lia. apply Hz; lia. }
  assert (same_image lo sz (mem_of s) m1) as Hs1
    by (apply (filled_same_image lo sz buf n (mem_of s) Hlo Hbuf Hap (mem_of s) m1 buf n (fun _ => 0));
        [lia | lia | done | done]).
  destruct (read_blocks_spec lo sz buf n (mem_of s) Hlo Hbuf Hap (inode_addr s inode)
    (data_start (filesystem (fsg s))) (file_size s inode) Hfile
    (offset mod 4096) m1 r (offset / 4096) Hs1) as (m2 & Hr & Hf2);
    [unfold r, avail; lia | Z.div_mod_to_equations; lia | apply Z.mod_pos_bound; lia |
     unfold r, avail; Z.div_mod_to_equations; lia | done |].
  exists m2. split.
  - unfold read_data. kst_cbn. fold (mem_of s) m1. fold (inode_addr s inode).
    assert (rd32 m1 (inode_addr s inode) = file_size s inode) as ->.
    { destruct Hfile as [Hip _ _]. apply (same_image_rd32 lo sz (mem_of s)); [done | lia | lia]. }
    destruct (Z.geb_spec offset (file_size s inode)); [lia|].
    destruct (Z.geb_spec inode (u32 (num_inodes (filesystem (fsg s)) - 1))); [lia|].
    assert ((if u32 (offset + n) >? file_size s inode then u32 (file_size s inode - offset) else n)
      = r) as ->.
    { unfold r, avail. rewrite (u32_small (offset + n)), (u32_small (file_size s inode - offset)) by lia.
      destruct (Z.gtb_spec (offset + n) (file_size s inode)); lia. }
    unfold ONE_BLOCK_SIZE. rewrite Hr. cbn [mbind option_bind]. rewrite Hfd.
    rewrite s32_small, u32_small by (unfold r, avail; lia). done.
  - replace (4096 * (offset / 4096) + offset mod 4096) with offset in Hf2
      by (Z.div_mod_to_equations; lia).
    eapply filled_ext; [|eapply (filled_over _ _ _ buf n 0 r); [lia | unfold r, avail; lia
      | unfold r, avail; lia | lia | exact Hzero | rewrite Z.add_0_r; exact Hf2]].
    intros j Hj. cbn beta. rewrite Z.add_0_l, Z.sub_0_r.
    destruct (Z.leb_spec 0 j); [done | lia].
Qed.

(** the bytes a read leaves in the buffer, as slices of the content *)
Lemma read_buffer m m' s inode offset buf n r w :
  filled m m' buf n (fun j => if j <? r
    then file_byte (mem_of s) (inode_addr s inode) (data_start (filesystem (fsg s)))
           (offset + stale w r j) else 0) ->
  0 <= r <= n -> n <= 4294967296 -> 0 <= offset -> offset + r <= file_size s inode ->
  (w <= r -> 4096 <= w) ->
  rdn m' buf (Z.to_nat n) =
    (if r <? w then take (Z.to_nat r) (drop (Z.to_nat offset) (file_content s inode))
     else let k := 4096 * (r / 4096) in
       take (Z.to_nat k) (drop (Z.to_nat offset) (file_content s inode)) ++
       take (Z.to_nat (r - k)) (drop (Z.to_nat (offset + k - 4096)) (file_content s inode)))
    ++ replicate (Z.to_nat (n - r)) 0.
Proof.
  intros Hf Hr Hn Ho Hsz Hw. rewrite (rdn_filled m m' buf n _ _ Hf) by lia.
  rewrite Z2Nat.id by lia. rewrite (zrange_app 0 r n), map_app by lia. f_equal.
  2:{ apply map_zrange_const. intros j Hj. destruct (Z.ltb_spec j r); [lia | done]. }
  unfold file_content. destruct (Z.ltb_spec r w) as [Hlt|Hge].
  - rewrite <- map_zrange_slice by lia. apply map_zrange_ext. intros j Hj.
    destruct (Z.ltb_spec j r); [|lia]. now rewrite stale_short.
  - assert (0 <= 4096 * (r / 4096) <= r) as Hk by (Z.div_mod_to_equations; lia).
    assert (4096 <= 4096 * (r / 4096)) as Hk1 by (Z.div_mod_to_equations; lia).
    unfold stale. destruct (Z.leb_spec w r); [|lia]. cbn [andb].
    set (k := 4096 * (r / 4096)) in *. cbn zeta.
    rewrite (zrange_app 0 k r), map_app by lia. f_equal.
    + rewrite <- map_zrange_slice by lia. apply map_zrange_ext. intros j Hj.
      destruct (Z.ltb_spec j r); [|lia]. destruct (Z.leb_spec k j); [lia | done].
    + rewrite <- map_zrange_slice by lia.
      assert (zrange k r = zrange (k + 0) (k + (r - k))) as -> by (f_equal; lia).
      rewrite <- map_zrange_shift. apply map_zrange_ext. intros j Hj. cbn beta.
      destruct (Z.ltb_spec (k + j) r); [|lia]. destruct (Z.leb_spec k (k + j)); [|lia].
      f_equal. lia.
Qed.

(** what [read_data] promises of the buffer and of the rest of the state *)
Definition read_effect (s s' : kst) (buf n offset r : Z) (bytes : list Z) : Prop :=
  rdn (mem_of s') buf (Z.to_nat n) = bytes /\
  (forall a, n <= off buf a -> rd (mem_of s') a = rd (mem_of s) a) /\
  exists m', s' = upd_file (fd_val (fsg s)) (set_fpos (offset + r)) (upd_mem (fun _ => m') s).

Lemma filled_frame (m m' : mem) a n f b : filled m m' a n f -> n <= off a b -> rd m' b = rd m b.
Proof. intros Hf Hb. rewrite Hf. now destruct (Z.ltb_spec (off a b) n); [lia|]. Qed.

(** the lemma behind the theorem on short reads, for the callers of read_data *)
Lemma read_data_short s lo sz inode offset buf n :
  readable s lo sz inode offset buf n -> 0 <= n ->
  let r := avail s inode offset n in
  offset mod 4096 + r < 8192 ->
  exists s', read_data inode offset buf n s = Some (r, s') /\
    read_effect s s' buf n offset r
      (take (Z.to_nat r) (drop (Z.to_nat offset) (file_content s inode))
       ++ replicate (Z.to_nat (n - r)) 0).
Proof.
  intros Hra Hn r Hshape. pose proof Hra as [_ (Hb0 & _ & Hw) _ _ _ Hoff _ _].
  destruct (read_data_spec _ _ _ _ _ _ _ Hra) as (m' & -> & Hf); [right; exact Hshape|].
  fold r in Hf. eexists. split; [done|]. split; [|split; [|now exists m']].
  - erewrite read_buffer; [|exact Hf | unfold r, avail; lia | lia | lia | unfold r, avail; lia | lia].
    destruct (Z.ltb_spec r 8192); [done | pose proof (Z.mod_pos_bound offset 4096 ltac:(lia)); lia].
  - intros a Ha. exact (filled_frame _ _ _ _ _ _ Hf Ha).
Qed.

(** A read of 8192 bytes or more from a block boundary returns the right
    count, but only its whole blocks are the file's: the remaining bytes are
    copied again from the last whole block instead of the next one. *)
Lemma read_data_repeats_last_block s lo sz inode offset buf n :
  readable s lo sz inode offset buf n ->
  let r := avail s inode offset n in
  offset mod 4096 = 0 -> 8192 <= r ->
  let whole := 4096 * (r / 4096) in
  exists s', read_data inode offset buf n s = Some (r, s') /\
    read_effect s s' buf n offset r
      (take (Z.to_nat whole) (drop (Z.to_nat offset) (file_content s inode))
       ++ take (Z.to_nat (r - whole)) (drop (Z.to_nat (offset + whole - 4096)) (file_content s inode))
       ++ replicate (Z.to_nat (n - r)) 0).
Proof.
  intros Hra r Hshape Hr whole. pose proof Hra as [_ (Hb0 & _ & Hw) _ _ _ Hoff _ _].
  destruct (read_data_spec _ _ _ _ _ _ _ Hra) as (m' & -> & Hf); [now left|].
  fold r in Hf. eexists. split; [done|]. split; [|split; [|now exists m']].
  - erewrite read_buffer; [|exact Hf | unfold r, avail in *; lia | lia | lia | unfold r, avail; lia | lia].
    destruct (Z.ltb_spec r 8192); [lia|]. cbn zeta. fold whole. now rewrite <- app_assoc.
  - intros a Ha. exact (filled_frame _ _ _ _ _ _ Hf Ha).
Qed.

(** C15: What a read delivers, of a file of the image, from an offset before
    its end, into a buffer apart from the image.  One that ends before the end
    of the second data block it touches (offset mod 4096 + count < 8192,
    strictly: a read of 8092 bytes from offset 100 already is not one) returns
    the number of bytes that are left, at most [n]; the buffer then holds
    exactly that slice of the file's content followed by zeros, no other memory
    changes, and the descriptor's position advances past the bytes read.  A
    read of 8192 bytes or more from a block boundary returns the right count
    too, but only its whole blocks are the file's: the bytes behind them are
    copied again from the last whole block instead of the next one.  *)
Theorem read_data_reads_content s lo sz inode offset buf n :
  readable s lo sz inode offset buf n -> 0 <= n ->
  let r := avail s inode offset n in
  let whole := 4096 * (r / 4096) in
  (offset mod 4096 + r < 8192 ->
   exists s', read_data inode offset buf n s = Some (r, s') /\
     read_effect s s' buf n offset r
       (take (Z.to_nat r) (drop (Z.to_nat offset) (file_content s inode))
        ++ replicate (Z.to_nat (n - r)) 0)) /\
  (offset mod 4096 = 0 -> 8192 <= r ->
   exists s', read_data inode offset buf n s = Some (r, s') /\
     read_effect s s' buf n offset r
       (take (Z.to_nat whole) (drop (Z.to_nat offset) (file_content s inode))
        ++ take (Z.to_nat (r - whole)) (drop (Z.to_nat (offset + whole - 4096)) (file_content s inode))
        ++ replicate (Z.to_nat (n - r)) 0)).
Proof.
  intros Hra Hn r whole. split.
  - now apply (read_data_short _ lo sz).
  - now apply (read_data_repeats_last_block _ lo sz).
Qed.

(** ** The image seen from a state whose image bytes are unchanged *)

Section SameImage.
Variables (lo sz ip ds size : Z) (m0 m : mem).
Hypothesis Hlo : region lo sz.
Hypothesis Hfile : file_in_image m0 lo sz ip ds size.
Hypothesis Hsame : same_image lo sz m0 m.

Lemma block_at_kept i : 0 <= i -> 4096 * i < size -> block_at ip ds m i = block_at ip ds m0 i.
Proof. intros. now apply (block_at_same lo sz m0 ip ds size Hfile). Qed.

Lemma file_in_image_kept : file_in_image m lo sz ip ds size.
Proof.
  destruct Hfile as [Hip Hsz Hb]. split; [done | done |].
  intros i Hi Hs. rewrite block_at_kept by done. now apply Hb.
Qed.

Lemma file_byte_kept pos : 0 <= pos < size -> file_byte m ip ds pos = file_byte m0 ip ds pos.
Proof.
  intros Hp. unfold file_byte. pose proof Hfile as [_ _ Hb].
  assert (0 <= pos / 4096 /\ 4096 * (pos / 4096) < size) as [H1 H2] by (Z.div_mod_to_equations; lia).
  rewrite block_at_kept by done. destruct (Hb _ H1 H2) as [Hb1 Hb2].
  apply Hsame. Z.div_mod_to_equations. lia.
Qed.
End SameImage.

(** ... and the files and the directory of such a state *)
Section Moved.
Variables (lo sz : Z) (s s' : kst).
Hypothesis Hlo : region lo sz.
Hypothesis Hg : fsg s' = fsg s.
Hypothesis Hm : same_image lo sz (mem_of s) (mem_of s').

Lemma entry_addr_moved i : entry_addr s' i = entry_addr s i.
Proof. unfold entry_addr. now rewrite Hg. Qed.
Lemma inode_addr_moved inode : inode_addr s' inode = inode_addr s inode.
Proof. unfold inode_addr. now rewrite Hg. Qed.

Lemma file_size_moved inode ds size :
  file_in_image (mem_of s) lo sz (inode_addr s inode) ds size ->
  file_size s' inode = file_size s inode.
Proof.
  intros [Hip _ _]. unfold file_size. rewrite inode_addr_moved.
  apply (same_image_rd32 lo sz); [done | lia | lia].
Qed.

Lemma file_content_moved inode :
  file_in_image (mem_of s) lo sz (inode_addr s inode) (data_start (filesystem (fsg s)))
    (file_size s inode) ->
  file_content s' inode = file_content s inode.
Proof.
  intros Hf. unfold file_content. rewrite (file_size_moved _ _ _ Hf), inode_addr_moved, Hg.
  apply map_zrange_ext. intros j Hj. now apply (file_byte_kept lo sz _ _ (file_size s inode)).
Qed.

(** the directory lies in the image *)
Hypothesis Hdir : lo <= dentry_begin (filesystem (fsg s)) /\
  dentry_begin (filesystem (fsg s)) + 4032 <= lo + sz.

Lemma entry_moved i n : 0 <= i < 62 -> 0 <= Z.of_nat n <= 64 ->
  rdn (mem_of s') (entry_addr s i) n = rdn (mem_of s) (entry_addr s i) n.
Proof.
  intros Hi Hn. unfold region in Hlo. rewrite !rdn_map by lia. apply map_zrange_ext. intros j Hj.
  apply Hm. unfold entry_addr, B_64. lia.
Qed.

Lemma entry_word_moved i k : 0 <= i < 62 -> 0 <= k <= 60 ->
  rd32 (mem_of s') (entry_addr s i + k) = rd32 (mem_of s) (entry_addr s i + k).
Proof.
  intros Hi Hk. apply (same_image_rd32 lo sz); [done | |]; unfold entry_addr, B_64; lia.
Qed.

Lemma load_dentry_moved i d : 0 <= i < 62 ->
  load_dentry (mem_of s') (entry_addr s i) d = load_dentry (mem_of s) (entry_addr s i) d.
Proof. intros Hi. unfold load_dentry. now rewrite entry_moved, !entry_word_moved by lia. Qed.

Lemma lookup_moved bs d :
  read_dentry_by_name (Obj bs) d s' = read_dentry_by_name (Obj bs) d s.
Proof.
  unfold read_dentry_by_name. change (Z.to_nat MAX_FILE) with 62%nat.
  assert (forall n i, 0 <= i -> i + Z.of_nat n <= 62 ->
    name_loop n i (Obj bs) s' = name_loop n i (Obj bs) s /\
    forall k, name_loop n i (Obj bs) s = Some k -> 0 <= k < 62) as Hl.
  { induction n as [|n IH]; intros i Hi Hn; cbn [name_loop]; [done|].
    rewrite entry_addr_moved, entry_moved by lia.
    destruct (IH (i + 1)) as [-> Hk]; [lia | lia |].
    change (strncmp (mem_of s') (Obj bs) (Obj (rdn (mem_of s) (entry_addr s i) 32)) B_32)
      with (strncmp (mem_of s) (Obj bs) (Obj (rdn (mem_of s) (entry_addr s i) 32)) B_32).
    split; [done|]. intros k. case_match; [intros [= <-]; lia | apply Hk]. }
  destruct (Hl 62%nat 0) as [-> Hk]; [lia | lia |].
  destruct (name_loop 62 0 (Obj bs) s) as [k|]; [|done].
  rewrite entry_addr_moved, load_dentry_moved by now apply Hk. done.
Qed.
End Moved.

(** past the end of the file nothing but the clearing of the buffer happens *)
Lemma read_data_eof inode offset buf n s :
  let z := upd_mem (zero_buf (Z.to_nat n) 0 buf) s in
  file_size z inode <= offset -> read_data inode offset buf n s = Some (0, z).
Proof.
  intros z Hs. unfold read_data. fold z. change (fsg z) with (fsg s).
  change (rd32 (mem_of z) (BOOT_BLOCK_PTR (fsg s) + 4 * u32 (u32 (inode + 1) * BYTES_4K)))
    with (file_size z inode).
  destruct (Z.geb_spec offset (file_size z inode)); [done | lia].
Qed.

(** ** Reading directories *)

(** entry [i] has a file type other than 0, the test of dirread's scan *)
Definition listed (s : kst) (i : Z) : bool := negb (rd (mem_of s) (entry_addr s i + B_32) =? 0).

Lemma dir_scan_spec fuel fd s k :
  fd_ok s fd -> 0 <= fpos (file_at s fd) -> fpos (file_at s fd) + Z.of_nat fuel < 4294967296 ->
  find_first (listed s) fuel (fpos (file_at s fd)) = Some k ->
  dir_scan fuel fd s = Some (entry_addr s k, upd_file fd (set_fpos (k + 1)) s).
Proof.
  revert s. induction fuel as [|f IH]; intros s Hfd Hp Hw; [done|].
  cbn [find_first dir_scan]. unfold listed at 1, entry_addr at 1.
  destruct (Z.eqb_spec (rd (mem_of s) (dentry_begin (filesystem (fsg s)) +
    fpos (file_at s fd) * B_64 + B_32)) 0) as [E|E]; cbn [negb].
  - intros Hk. set (s1 := upd_file fd (fun f0 => set_fpos (u32 (fpos f0 + 1)) f0) s).
    assert (fpos (file_at s1 fd) = fpos (file_at s fd) + 1) as Hp1.
    { unfold s1. rewrite file_at_upd_file by done. cbn [fpos set_fpos]. apply u32_small. lia. }
    rewrite IH.
    + unfold s1. now rewrite upd_file_upd_file.
    + now apply fd_ok_upd_file.
    + lia.
    + lia.
    + rewrite Hp1. exact Hk.
  - intros [= <-]. unfold entry_addr. do 2 f_equal. apply upd_file_ext.
    rewrite (u32_small (_ + 1)) by lia. done.
Qed.

(** the name of entry [i] is [l]: its characters, then a NUL in the 32 bytes *)
Definition has_name (s : kst) (i : Z) (l : list Z) : Prop :=
  (length l < 32)%nat /\ Forall (fun c => 0 < c) l /\
  rdn (mem_of s) (entry_addr s i) (S (length l)) = l ++ [0].

Lemma name_fuel : (32 <= STR_FUEL)%nat.
Proof. apply Nat.leb_le. reflexivity. Qed.

Lemma strlen_rdn (m : mem) a l :
  Forall (fun c => 0 < c) l -> (length l < STR_FUEL)%nat ->
  rdn m a (S (length l)) = l ++ [0] -> strlen STR_FUEL m (Addr a) = Some (Z.of_nat (length l)).
Proof.
  intros Hl Hf Hr. apply strlen_spec. cbn [ldc].
  assert (forall i, (i < S (length l))%nat -> rd m (a + Z.of_nat i) = (l ++ [0]) !!! i) as Hi.
  { intros i Hi. rewrite <- Hr. now rewrite rdn_lookup. }
  split; [lia|]. split.
  - rewrite Hi by lia. rewrite lookup_total_app_r, Nat.sub_diag by lia. done.
  - intros j Hj. rewrite <- (Z2Nat.id j) by lia. rewrite Hi by lia.
    rewrite lookup_total_app_l by lia. rewrite Forall_lookup in Hl.
    destruct (lookup_lt_is_Some_2 l (Z.to_nat j)) as [x Hx]; [lia|].
    rewrite (list_lookup_total_correct _ _ _ Hx). specialize (Hl _ _ Hx). cbn in Hl. lia.
Qed.

(** the entry of index [i] is apart from the buffer *)
Definition entry_apart (s : kst) (i buf : Z) : Prop :=
  region (entry_addr s i) 64 /\ region buf 32 /\ apart (entry_addr s i) 64 buf 32.

(** one dirread: the next listed entry's name goes to the buffer *)
Lemma dirread_step fd buf s k l :
  fd_ok s fd -> 0 <= fpos (file_at s fd) < num_dir_entries (filesystem (fsg s)) ->
  fpos (file_at s fd) < 4294967200 ->
  find_first (listed s) DIR_FUEL (fpos (file_at s fd)) = Some k ->
  has_name s k l -> entry_apart s k buf ->
  exists m', dirread fd buf s = Some (Z.of_nat (length l),
      upd_mem (fun _ => m') (upd_file fd (set_fpos (k + 1)) s)) /\
    rdn m' buf (length l) = l /\
    (forall a, Z.of_nat (length l) <= off buf a -> rd m' a = rd (mem_of s) a).
Proof.
  intros Hfd Hp Hw Hk (Hl & Hpos & Hname) ((He0 & _ & He1) & (Hb0 & _ & Hb1) & Hap).
  unfold dirread. destruct (Z.geb_spec (fpos (file_at s fd)) (num_dir_entries (filesystem (fsg s)))); [lia|].
  rewrite (dir_scan_spec _ _ _ k) by (done || lia || (unfold DIR_FUEL; lia)).
  rewrite bind_some. cbv beta iota zeta. rewrite mem_of_upd_file.
  pose proof (strlen_rdn (mem_of s) (entry_addr s k) l Hpos) as Hlen.
  rewrite Hlen, bind_some by (done || (pose proof name_fuel; lia)).
  set (n := Z.of_nat (length l)). set (m' := memcpy (mem_of s) buf (entry_addr s k) n).
  assert (filled (mem_of s) m' buf n (fun j => rd (mem_of s) (entry_addr s k + j))) as Hf.
  { apply (memcpy_image (entry_addr s k) 64 buf 32 (mem_of s)); unfold region; (done || lia). }
  assert (rdn m' (entry_addr s k) (S (length l)) = l ++ [0]) as Hname'.
  { rewrite <- Hname. apply rdn_ext. intros i Hi. apply (filled_frame _ _ _ _ _ _ Hf).
    unfold apart in Hap. zlia. }
  exists m'. split; [|split].
  - rewrite mem_of_upd_mem, mem_of_upd_file. fold m'.
    rewrite (strlen_rdn m' (entry_addr s k) l Hpos) by (done || (pose proof name_fuel; lia)).
    done.
  - rewrite (rdn_filled _ _ _ _ _ _ Hf) by lia.
    assert (rdn (mem_of s) (entry_addr s k) (length l) = l) as Hl0.
    { apply (f_equal (take (length l))) in Hname. rewrite take_app_length in Hname.
      rewrite <- Hname at 2. symmetry. apply take_rdn. lia. }
    rewrite <- Hl0 at 2. now rewrite rdn_map by lia.
  - intros a Ha. exact (filled_frame _ _ _ _ _ _ Hf Ha).
Qed.

(** a client that reads a directory until dirread returns 0, collecting what it
    finds in its buffer *)
Fixpoint list_dir (fuel : nat) (fd buf : Z) (s : kst) : option (list (list Z)) :=
  match fuel with
  | O => None
  | S f =>
      '(r, s) ← dirread fd buf s;
      if r =? 0 then Some []
      else
        names ← list_dir f fd buf s;
        Some (rdn (mem_of s) buf (Z.to_nat r) :: names)
  end.

Section Listing.
Variables (fd buf : Z) (s0 : kst) (name : Z -> list Z).
#[local] Abbreviation N := (num_dir_entries (filesystem (fsg s0))).
#[local] Abbreviation db := (dentry_begin (filesystem (fsg s0))).

Hypothesis Hdir : region db (64 * N).
Hypothesis Hbuf : region buf 32.
Hypothesis Hapart : apart db (64 * N) buf 32.
Hypothesis Hcount : N <= 63.
Hypothesis Hnames : forall i, 0 <= i < N -> listed s0 i = true -> has_name s0 i (name i) /\ name i <> [].
Hypothesis Hlast : 0 < N -> listed s0 (N - 1) = true.

(** a state of the listing: the directory is as it was *)
Definition scanning (s : kst) : Prop :=
  fd_ok s fd /\ filesystem (fsg s) = filesystem (fsg s0) /\ 0 <= fpos (file_at s fd) <= N /\
  (forall a, db <= a < db + 64 * N -> rd (mem_of s) a = rd (mem_of s0) a).

Lemma scanning_listed s i : scanning s -> 0 <= i < N -> listed s i = listed s0 i.
Proof.
  intros (_ & Hg & _ & Hm) Hi. unfold listed, entry_addr. rewrite Hg.
  unfold B_64, B_32. rewrite Hm; [done | lia].
Qed.

Lemma scanning_name s i l : scanning s -> 0 <= i < N -> has_name s0 i l -> has_name s i l.
Proof.
  intros (_ & Hg & _ & Hm) Hi (Hl & Hp & Hr). split; [done|]. split; [done|].
  rewrite <- Hr. unfold entry_addr. rewrite Hg. apply rdn_ext.
  unfold B_64. intros a Ha. apply Hm. lia.
Qed.

(** the scan stops at an entry of the directory *)
Lemma scanning_next s :
  scanning s -> fpos (file_at s fd) < N ->
  exists k, find_first (listed s) DIR_FUEL (fpos (file_at s fd)) = Some k /\
    fpos (file_at s fd) <= k < N /\ listed s0 k = true /\
    (forall j, fpos (file_at s fd) <= j < k -> listed s0 j = false).
Proof.
  intros Hs Hp. pose proof Hs as (_ & _ & Hp0 & _).
  destruct (find_first (listed s) DIR_FUEL (fpos (file_at s fd))) as [k|] eqn:E.
  - apply find_first_Some in E as (Hk & Hl & Hj). exists k. split; [done|].
    assert (k < N) as HkN.
    { destruct (Z.lt_ge_cases k N); [done|]. specialize (Hj (N - 1) ltac:(lia)).
      rewrite scanning_listed in Hj by (done || lia). rewrite Hlast in Hj by lia. done. }
    split; [lia|]. rewrite <- (scanning_listed s) by (done || lia). split; [done|].
    intros j Hjk. rewrite <- (scanning_listed s) by (done || lia). now apply Hj.
  - rewrite find_first_None in E. exfalso. specialize (E (N - 1)).
    rewrite scanning_listed, Hlast in E by (done || lia). unfold DIR_FUEL in E.
    discriminate E. lia.
Qed.

(** the names of the entries from index [p] on *)
Definition names_from (p : Z) : list (list Z) := map name (List.filter (listed s0) (zrange p N)).

Lemma names_from_next p k :
  0 <= p <= k -> k < N -> listed s0 k = true -> (forall j, p <= j < k -> listed s0 j = false) ->
  names_from p = name k :: names_from (k + 1).
Proof.
  intros Hp Hk Hl Hj. unfold names_from. rewrite (zrange_app p k N), (zrange_app k (k + 1) N) by lia.
  rewrite !List.filter_app, !map_app.
  assert (List.filter (listed s0) (zrange p k) = []) as ->
    by (apply filter_none; intros j Hjk%elem_of_zrange; now apply Hj).
  rewrite zrange_one. cbn. now rewrite Hl.
Qed.

(** one step of the listing *)
Lemma scanning_step s :
  scanning s -> fpos (file_at s fd) < N ->
  exists k m', dirread fd buf s = Some (Z.of_nat (length (name k)),
      upd_mem (fun _ => m') (upd_file fd (set_fpos (k + 1)) s)) /\
    names_from (fpos (file_at s fd)) = name k :: names_from (k + 1) /\
    fpos (file_at s fd) <= k < N /\
    name k <> [] /\ (length (name k) < 32)%nat /\ rdn m' buf (length (name k)) = name k /\
    (forall a, Z.of_nat (length (name k)) <= off buf a -> rd m' a = rd (mem_of s) a).
Proof.
  intros Hs Hlt. pose proof Hs as (Hfd & Hg & Hp & Hm).
  destruct (scanning_next s Hs Hlt) as (k & Hk & HkN & Hkl & Hkj).
  destruct (Hnames k ltac:(lia) Hkl) as [Hname Hne].
  unfold region, apart in Hdir, Hbuf, Hapart.
  destruct (dirread_step fd buf s k (name k)) as (m' & E & Hrd & Hframe); try done.
  { rewrite Hg. lia. }
  { lia. }
  { now apply scanning_name; [| lia |]. }
  { unfold entry_apart, entry_addr, region, apart, B_64. rewrite Hg. lia. }
  exists k, m'. split; [exact E|]. split; [now apply names_from_next; [lia | lia | |]|].
  split; [lia|]. split; [exact Hne|]. split; [apply Hname | now split].
Qed.

Lemma list_dir_from f s :
  scanning s -> N - fpos (file_at s fd) < Z.of_nat f ->
  list_dir f fd buf s = Some (names_from (fpos (file_at s fd))).
Proof.
  revert s. induction f as [|f IH]; intros s Hs Hf; pose proof Hs as (Hfd & Hg & Hp & Hm); [lia|].
  cbn [list_dir]. destruct (Z.lt_ge_cases (fpos (file_at s fd)) N) as [Hlt|Hge].
  - destruct (scanning_step s Hs Hlt) as (k & m' & -> & -> & Hk & Hne & Hlen & Hrd & Hframe).
    cbn [mbind option_bind].
    destruct (Z.eqb_spec (Z.of_nat (length (name k))) 0) as [E|_];
      [destruct (name k); [done | cbn in E; lia]|].
    set (s1 := upd_mem (fun _ => m') (upd_file fd (set_fpos (k + 1)) s)).
    assert (fpos (file_at s1 fd) = k + 1) as Hp1
      by (change (file_at s1 fd) with (file_at (upd_file fd (set_fpos (k + 1)) s) fd);
          now rewrite file_at_upd_file).
    assert (scanning s1) as Hs1.
    { split; [|split; [done | split; [lia|]]].
      - now apply (fd_ok_upd_file s fd fd (set_fpos (k + 1))).
      - intros a Ha. change (mem_of s1) with m'. rewrite Hframe; [now apply Hm|].
        clear -Ha Hdir Hbuf Hapart Hlen. unfold region, apart in *. zlia. }
    rewrite IH by (done || lia). cbn [mbind option_bind].
    change (mem_of s1) with m'. now rewrite Nat2Z.id, Hrd, Hp1.
  - unfold dirread. rewrite Hg. destruct (Z.geb_spec (fpos (file_at s fd)) N); [|lia].
    cbn. assert (fpos (file_at s fd) = N) as -> by lia. unfold names_from. now rewrite zrange_nil.
Qed.

(** C17: Reading a directory until the end yields exactly the names of its
    entries, in order, leaving out those of file type 0, provided the names
    have room for their NUL and the last entry is not one that is left out. *)
Theorem directory_listing :
  fd_ok s0 fd -> fpos (file_at s0 fd) = 0 ->
  list_dir (S (Z.to_nat N)) fd buf s0 = Some (map name (List.filter (listed s0) (zrange 0 N))).
Proof.
  intros Hfd Hp. unfold region in Hdir. fold (names_from 0). rewrite <- Hp. apply list_dir_from; [|lia].
  split; [done|]. split; [done|]. rewrite Hp. split; [lia | done].
Qed.
End Listing.

(** ** Directory search and outcomes of read_data *)

(** Looking a name up fills the caller's dentry from the first of the 62
    directory slots whose 32-byte name field equals the name (both cut at
    their NUL, at most 32 characters), and fails with -1, the dentry
    untouched, exactly when no slot does. *)
Theorem lookup_finds_first_entry fname d s :
  (forall i, 0 <= i < 62 -> entry_name s i = name_of s fname ->
     (forall j, 0 <= j < i -> entry_name s j <> name_of s fname) ->
     read_dentry_by_name fname d s = (0, load_dentry (mem_of s) (entry_addr s i) d)) /\
  ((forall i, 0 <= i < 62 -> entry_name s i <> name_of s fname) <->
   read_dentry_by_name fname d s = (-1, d)).
Proof.
  pose proof (read_dentry_by_name_spec fname d s) as Hspec. split.
  - intros i Hi Hn Hj.
    assert (find_first (fun i => bool_decide (name_of s fname = entry_name s i)) 62 0 = Some i) as E.
    { apply find_first_Some. split; [lia|]. cbn beta. split.
      - apply bool_decide_eq_true. symmetry. exact Hn.
      - intros j Hlt. cbn beta. apply bool_decide_eq_false. intros Eq. apply (Hj j Hlt).
        symmetry. exact Eq. }
    now rewrite E in Hspec.
  - destruct (find_first _ 62 0) as [k|] eqn:E; rewrite Hspec.
    + apply find_first_Some in E as (Hk & Hn%bool_decide_eq_true & _).
      split; [|done]. intros H. exfalso. now apply (H k ltac:(lia)).
    + split; [intros _; reflexivity|]. intros _ i Hi Hn. rewrite find_first_None in E.
      specialize (E i ltac:(lia)). cbn beta in E. apply bool_decide_eq_false in E.
      apply E. symmetry. exact Hn.
Qed.

(** The search by inode number compares the number with the first character
    of each name plus 64 times its slot plus 36, so no inode number below 36 is
    ever found, whatever the directory holds. *)
Theorem lookup_by_index_misses index d s :
  0 <= index < 36 -> read_dentry_by_index index d s = (-1, d).
Proof.
  intros Hi. unfold read_dentry_by_index.
  destruct (find_first _ _ _) as [k|] eqn:E; [|done]. exfalso.
  apply find_first_Some in E as (Hk & Heq%Z.eqb_eq & _).
  change (Z.of_nat (Z.to_nat MAX_FILE)) with 62 in Hk. unfold B_64, B_36 in Heq.
  pose proof (rd_range (mem_of s) (dentry_begin (filesystem (fsg s)))).
  rewrite u32_small in Heq by lia. lia.
Qed.

(** C23: read_data returns for every request of an open descriptor: past the end
    of the file it returns 0, for an inode number the check rejects it returns
    -1, in both cases after zeroing the buffer and doing nothing else; otherwise
    the copying loop ends and the result is the requested count clipped to the
    end of the file. *)
Theorem read_data_terminates inode offset buf n s :
  in_range (fd_val (fsg s)) 8 = true -> 0 <= offset -> 0 <= n < 4294967296 ->
  let z := upd_mem (zero_buf (Z.to_nat n) 0 buf) s in
  let size := file_size z inode in
  exists r s', read_data inode offset buf n s = Some (r, s') /\
    (size <= offset -> r = 0 /\ s' = z) /\
    (offset < size -> u32 (num_inodes (filesystem (fsg s)) - 1) <= inode -> r = -1 /\ s' = z) /\
    (offset < size -> inode < u32 (num_inodes (filesystem (fsg s)) - 1) ->
     let k := if u32 (offset + n) <=? size then n else size - offset in
     r = s32 k /\
     exists m', s' = upd_file (fd_val (fsg s)) (set_fpos (u32 (offset + k))) (upd_mem (fun _ => m') s)).
Proof.
  intros Hfd Ho Hn z size. unfold read_data. fold z. change (fsg z) with (fsg s).
  change (rd32 (mem_of z) (BOOT_BLOCK_PTR (fsg s) + 4 * u32 (u32 (inode + 1) * BYTES_4K))) with size.
  pose proof (rd32_range (mem_of z) (inode_addr z inode)) as Hsz. fold (file_size z inode) size in Hsz.
  destruct (Z.geb_spec offset size).
  { exists 0, z. split; [done|]. split; [done|]. split; lia. }
  destruct (Z.geb_spec inode (u32 (num_inodes (filesystem (fsg s)) - 1))).
  { exists (-1), z. split; [done|]. split; [lia|]. split; [done | lia]. }
  set (k := if u32 (offset + n) <=? size then n else size - offset).
  assert ((if u32 (offset + n) >? size then u32 (size - offset) else n) = k) as ->.
  { unfold k. rewrite Z.gtb_ltb, (u32_small (size - offset)) by lia.
    destruct (Z.leb_spec (u32 (offset + n)) size), (Z.ltb_spec size (u32 (offset + n))); lia. }
  assert (0 <= k < 4294967296) as Hk by (unfold k; case_match; lia).
  destruct (read_blocks_total (BOOT_BLOCK_PTR (fsg s) + 4 * u32 (u32 (inode + 1) * BYTES_4K))
    (data_start (filesystem (fsg s))) buf (offset mod ONE_BLOCK_SIZE) (S (Z.to_nat k)) (mem_of z) k
    (offset / ONE_BLOCK_SIZE) buf true) as (m' & ->);
    [unfold ONE_BLOCK_SIZE; apply Z.mod_pos_bound; lia | lia | lia |].
  cbn [mbind option_bind]. change (fd_val (fsg (upd_mem (fun _ => m') z))) with (fd_val (fsg s)).
  rewrite Hfd. eexists _, _. split; [done|]. split; [lia|]. split; [lia|].
  intros _ _. split; [done|]. exists m'. done.
Qed.

(** ** A small image *)

Definition demo_boot : Z := 1048576.

(** three directory entries, three inodes, three data blocks; inode 1 is a file
    of 9000 bytes over blocks 2, 0 and 1 *)
Definition demo_image : mem :=
  let w32 a v m := wr32 m (demo_boot + a) v in
  let str a l m := wrl m (demo_boot + a) l in
  (w32 0 3 ∘ w32 4 3 ∘ w32 8 3 ∘
   str 64 [46] ∘ w32 96 1 ∘ w32 100 0 ∘
   str 128 [102; 105; 115; 104] ∘ w32 160 2 ∘ w32 164 1 ∘
   str 192 [108; 115] ∘ w32 224 2 ∘ w32 228 1 ∘
   w32 8192 9000 ∘ w32 8196 2 ∘ w32 8200 0 ∘ w32 8204 1 ∘
   str 24576 [72; 105; 33; 10]) ∅.

Definition demo_fs : kst := init_fs (upd_fsg (set_BOOT_BLOCK_PTR demo_boot) (boot_kst demo_image)).

Lemma demo_readable offset n :
  0 <= offset < 9000 -> 0 <= n <= 65536 -> readable demo_fs demo_boot 65536 1 offset 4194304 n.
Proof.
  intros Ho Hn. split; unfold region, apart, demo_boot; try lia.
  - assert (file_size demo_fs 1 = 9000) as -> by reflexivity.
    assert (inode_addr demo_fs 1 = 1056768) as -> by reflexivity.
    split; [lia | lia |]. intros i Hi Hs.
    assert (i = 0 \/ i = 1 \/ i = 2) as [-> | [-> | ->]] by lia; vm_compute; intuition discriminate.
  - vm_compute. intuition discriminate.
  - assert (file_size demo_fs 1 = 9000) as -> by reflexivity. lia.
  - reflexivity.
Qed.

Lemma read_data_reads_content_witness :
  (exists s', read_data 1 100 4194304 5000 demo_fs = Some (5000, s') /\
    read_effect demo_fs s' 4194304 5000 100 5000
      (take 5000 (drop 100 (file_content demo_fs 1)) ++ replicate 0 0)) /\
  exists s', read_data 1 0 4194304 10000 demo_fs = Some (9000, s') /\
    read_effect demo_fs s' 4194304 10000 0 9000
      (take (Z.to_nat 8192) (drop 0 (file_content demo_fs 1)) ++
       take (Z.to_nat 808) (drop (Z.to_nat 4096) (file_content demo_fs 1)) ++
       replicate (Z.to_nat 1000) 0).
Proof.
  split.
  - destruct (read_data_reads_content demo_fs demo_boot 65536 1 100 4194304 5000) as [Hs _];
      [apply demo_readable; lia | lia |]. apply Hs. vm_compute. reflexivity.
  - destruct (read_data_reads_content demo_fs demo_boot 65536 1 0 4194304 10000) as [_ Hl];
      [apply demo_readable; lia | lia |]. apply Hl; [reflexivity|]. vm_compute. discriminate.
Defined.

Lemma read_data_terminates_witness :
  exists r s', read_data 1 9000 4194304 10 demo_fs = Some (r, s') /\ r = 0.
Proof.
  destruct (read_data_terminates 1 9000 4194304 10 demo_fs) as (r & s' & E & H0 & _);
    [reflexivity | lia | lia |].
  exists r, s'. split; [exact E|]. apply H0. vm_compute. discriminate.
Defined.

Lemma lookup_by_index_misses_witness :
  read_dentry_by_index 1 zero_dentry demo_fs = (-1, zero_dentry).
Proof. apply lookup_by_index_misses. lia. Defined.

Definition demo_name (i : Z) : list Z :=
  if i =? 0 then [46] else if i =? 1 then [102; 105; 115; 104] else [108; 115].

Lemma directory_listing_witness :
  list_dir 4 2 4194304 demo_fs = Some [[46]; [102; 105; 115; 104]; [108; 115]].
Proof.
  apply (directory_listing 2 4194304 demo_fs demo_name).
  - vm_compute. intuition discriminate.
  - unfold region. lia.
  - left. vm_compute. discriminate.
  - vm_compute. discriminate.
  - intros i Hi _. change (num_dir_entries (filesystem (fsg demo_fs))) with 3 in Hi.
    assert (i = 0 \/ i = 1 \/ i = 2) as [-> | [-> | ->]] by lia;
      (split; [|discriminate]; split; [cbn; lia | split; [|reflexivity]];
       repeat constructor; lia).
  - reflexivity.
  - split; [|lia]. repeat split.
  - reflexivity.
Defined.

Lemma lookup_finds_first_entry_witness :
  read_dentry_by_name (Obj [102; 105; 115; 104]) zero_dentry demo_fs =
    (0, load_dentry (mem_of demo_fs) (entry_addr demo_fs 1) zero_dentry).
Proof.
  apply (lookup_finds_first_entry (Obj [102; 105; 115; 104]) zero_dentry demo_fs);
    [lia | reflexivity |].
  intros j Hj. replace j with 0 by lia. vm_compute. discriminate.
Defined.
