(* ===== verification/TermIO.v ===== *)
(** * Terminal input and output (terminal.c)

    The screen operations work on the machine state of Console; reading a
    line also uses the line buffer of terminal.c, so it works on [kst].
    Pointer arguments are addresses of [mm]. *)

From Stdlib Require Import ZArith Lia.
From stdpp Require Import base list gmap.
From S2P Require Import Prelude Memory CMem CStr Machine Console Pic KState.
Open Scope Z_scope.

Definition WIDTH : Z := 80.
Definition HEIGHT : Z := 25.
Definition LOW_CURSOR_PORT : Z := 15.
Definition HIGH_CURSOR_PORT : Z := 14.
Definition CURSOR_MASK : Z := 255.
Definition VGA_CMD : Z := 980.           (* 0x3D4 *)
Definition VGA_DATA : Z := 981.
Definition SHIFT : Z := 8.
Definition BUF_MAX : Z := 128.
Definition BUF_MIN : Z := 7.
Definition MEM_6MB : Z := 6291456.
Definition MEM_4KB : Z := 4096.
Definition V_MEM_ADDR : Z := 753664.     (* 0xB8000 *)
(** [(uint32_t* )TERM2] is [(uint32_t* )MEM_6MB + MEM_4KB]: the sum counts words *)
Definition TERM1 : Z := MEM_6MB.
Definition TERM2 : Z := MEM_6MB + 4 * MEM_4KB.
Definition TERM3 : Z := MEM_6MB + 4 * (MEM_4KB * 2).

(** [x], [y] are C [int]s, [position] is unsigned *)
Definition set_cursor (x y : Z) (s : mach) : mach :=
  let position := u32 (y * WIDTH + x) in
  let s := outb LOW_CURSOR_PORT VGA_CMD s in
  let s := outb (Z.land position CURSOR_MASK) VGA_DATA s in
  let s := outb HIGH_CURSOR_PORT VGA_CMD s in
  let s := outb (Z.land (Z.shiftr position SHIFT) CURSOR_MASK) VGA_DATA s in
  let s := setx x s in
  sety y s.

Definition terminal_open (filename : cptr) (s : kst) : Z * kst :=
  let s := upd_trm (set_text_buf (map (fun _ => 0) (zrange 0 BUF_MAX))) s in
  let s := upd_trm (set_counter 0) s in
  let s := upd_hw (set_cursor 0 0) s in
  let s := upd_trm (fun g => set_term3_press 0 (set_term2_press 0 g)) s in
  (0, upd_hw (enable_irq PIC_1) s).

Definition terminal_close (fd : Z) (s : kst) : Z * kst :=
  (-1, upd_hw (disable_irq PIC_1) s).

(** [text_hist]: row [i], column [j] *)
Definition text_hist (f : Z -> Z -> Z) : list (list Z) :=
  map (fun i => map (fun j => f i j) (zrange 0 WIDTH)) (zrange 0 HEIGHT).

(** [for(i = 1; i < HEIGHT; i++)]: row [i] of the history is drawn in row [i - 1] *)
Definition shift_rows (hist : list (list Z)) (s : mach) : mach :=
  fold_left (fun s i => put_chars (aget hist i) (set_cursor 0 (i - 1) s)) (zrange 1 HEIGHT) s.

(** the scroll of write_helper *)
Definition write_scroll (s : mach) : mach :=
  let hist := text_hist (fun i j => if i >=? HEIGHT - 1 then 32 else get_char j i s) in
  set_cursor 0 (HEIGHT - 2) (shift_rows hist s).

(** one round of write_helper's loop: [i] is the C local *)
Definition write_char (text : cptr) (k i : Z) (s : mach) : Z * mach :=
  let x := getx s in
  let y := gety s in
  let '(i, s) := if y >=? HEIGHT - 1 then (HEIGHT, write_scroll s) else (i, s) in
  let c := ldc (mm s) text k in
  let s := if c =? 0 then s
           else if c =? 10 then set_cursor 0 (gety s + 1) s
           else putc c s in
  let s := if (x =? WIDTH) && negb (ldc (mm s) text (k + 1) =? 10) then putc 10 s else s in
  (i, s).

Fixpoint write_loop (n : nat) (text : cptr) (k i : Z) (s : mach) : Z * mach :=
  match n with
  | O => (i, s)
  | S n' => let '(i, s) := write_char text k i s in write_loop n' text (k + 1) i s
  end.

(** [i] is uninitialised until the first scroll *)
Definition write_helper `{Platform} (text : cptr) (length : Z) (s : mach) : Z * mach :=
  let s := cli s in
  if is_null text || (length <? 0) then (-1, s)
  else
    let '(i, s) := write_loop (Z.to_nat length) text 0 (s32 (stack_junk (ports s))) s in
    let s := set_cursor (getx s) (gety s) s in
    (s32 (i + 1), sti s).

Definition terminal_write `{Platform} (fd : Z) (buf : cptr) (len : Z) (s : kst) : Z * kst :=
  if fd =? 0 then (-1, s)
  else let '(r, h) := write_helper buf len (hw s) in (r, set_hw h s).

(** [for(i = 0; (i < length) && (i < BUF_MAX); i++)]: the value returned, if a
    newline was seen, and the memory *)
Fixpoint read_loop (n : nat) (buf i : Z) (text : list Z) (m : mem) : option Z * mem :=
  match n with
  | O => (None, m)
  | S n' =>
      let m := wr m (buf + i) (aget text i) in
      if aget text i =? 10 then (Some i, m) else read_loop n' buf (i + 1) text m
  end.

(** [while(1) if(entered == 1) ...]: [irqs] is what the interrupt handlers do
    between two polls; [None]: still waiting when [irqs] ends.  Without a
    newline in range the value returned is an uninitialised local. *)
Fixpoint read_helper `{Platform} (irqs : list (kst -> kst)) (buf length : Z) (s : kst)
  : option (Z * kst) :=
  if entered (trm s) =? 1 then
    let '(r, m) := read_loop (Z.to_nat (length `min` BUF_MAX)) buf 0 (text_buf (trm s)) (mem_of s) in
    let s := upd_mem (fun _ => m) s in
    Some (default (s32 (stack_junk (ports (hw s)))) r, upd_trm (set_entered 0) s)
  else match irqs with
  | [] => None
  | irq :: irqs' => read_helper irqs' buf length (irq s)
  end.

Definition terminal_read `{Platform} (irqs : list (kst -> kst)) (fd buf len : Z) (s : kst)
  : option (Z * kst) :=
  if fd =? 1 then Some (-1, s) else read_helper irqs buf len s.

Definition multi_init (m : mem) : mem :=
  let m := memcpy m TERM1 V_MEM_ADDR MEM_4KB in
  let m := memcpy m TERM2 V_MEM_ADDR MEM_4KB in
  memcpy m TERM3 V_MEM_ADDR MEM_4KB.

(** ** The cursor *)

Lemma set_cursor_frame x y s :
  mm (set_cursor x y s) = mm s /\ screen_x (set_cursor x y s) = x /\
  screen_y (set_cursor x y s) = y /\ if_flag (set_cursor x y s) = if_flag s.
Proof. done. Qed.

Lemma get_char_set_cursor x y i j s : get_char j i (set_cursor x y s) = get_char j i s.
Proof. done. Qed.

(** what the CRT controller's cursor registers hold after a log *)
Definition vga_cursor (x y : Z) : list pevent :=
  let p := u32 (y * WIDTH + x) in
  [Out 15 VGA_CMD; Out (p mod 256) VGA_DATA; Out 14 VGA_CMD; Out (p / 256 mod 256) VGA_DATA].

Lemma set_cursor_ports x y s : ports (set_cursor x y s) = ports s ++ vga_cursor x y.
Proof.
  unfold set_cursor, vga_cursor, outb. cbn [ports set_ports setx sety set_screen_x set_screen_y].
  rewrite <- !app_assoc. cbn [app]. unfold u8, CURSOR_MASK, SHIFT. change 255 with (Z.ones 8).
  rewrite !Z.land_ones, Z.shiftr_div_pow2, !Z.mod_mod by lia. done.
Qed.

(** ** Scrolling *)

(** drawing rows 1 .. r of the history one row higher *)
Definition shifted (hist : list (list Z)) (o : Z) : Z := cells (aget hist (o / 160 + 1)) (o mod 160).

Lemma shift_rows_upto hist s r :
  (forall i, 1 <= i < 25 -> length (aget hist i) = 80%nat /\ Forall printable (aget hist i)) ->
  (r <= 24)%nat ->
  let s' := fold_left (fun s i => put_chars (aget hist i) (set_cursor 0 (i - 1) s))
              (zrange 1 (1 + Z.of_nat r)) s in
  filled (mm s) (mm s') VIDEO (160 * Z.of_nat r) (shifted hist) /\ if_flag s' = if_flag s.
Proof.
  intros Hrows. induction r as [|r IH]; intros Hr.
  - cbn. split; [apply filled_refl | done].
  - rewrite (zrange_app 1 (1 + Z.of_nat r)) by lia.
    replace (1 + Z.of_nat (S r)) with (1 + Z.of_nat r + 1) by lia.
    rewrite zrange_one, fold_left_app. cbn [fold_left].
    destruct IH as [IH1 IH2]; [lia|]. set (s1 := fold_left _ _ s) in *.
    destruct (Hrows (1 + Z.of_nat r)) as [Hlen Hpr]; [lia|].
    set (row := aget hist (1 + Z.of_nat r)) in *.
    set (s2 := set_cursor 0 (1 + Z.of_nat r - 1) s1).
    destruct (put_chars_row row s2) as (Hf & _ & _ & Hs); [done | | rewrite Hlen; change (screen_x s2) with 0; unfold NUM_COLS; lia |].
    { unfold cursor_ok, NUM_COLS, NUM_ROWS. change (screen_x s2) with 0.
      change (screen_y s2) with (1 + Z.of_nat r - 1). lia. }
    split; [|destruct Hs as (_ & _ & _ & _ & ->); exact IH2].
    rewrite Hlen, cell_lin in Hf. change (mm s2) with (mm s1) in Hf.
    change (screen_x s2) with 0 in Hf. change (screen_y s2) with (1 + Z.of_nat r - 1) in Hf.
    unfold NUM_COLS in Hf.
    replace (160 * Z.of_nat (S r)) with (160 * Z.of_nat r + 160) by lia.
    eapply filled_app; [lia | lia | lia | | exact IH1 |].
    2:{ replace (VIDEO + 160 * Z.of_nat r) with
          (VIDEO + 2 * (80 * (1 + Z.of_nat r - 1) + 0)) by lia. exact Hf. }
    intros o Ho. unfold shifted.
    replace ((o + 160 * Z.of_nat r) mod 160) with o by (Z.div_mod_to_equations; lia).
    replace ((o + 160 * Z.of_nat r) / 160 + 1) with (1 + Z.of_nat r)
      by (Z.div_mod_to_equations; lia).
    done.
Qed.

Lemma text_hist_row f i : 0 <= i < 25 -> aget (text_hist f) i = map (fun j => f i j) (zrange 0 80).
Proof.
  intros Hi. unfold aget, text_hist. apply list_lookup_total_correct.
  change (map ?g ?l) with (g <$> l). rewrite list_lookup_fmap, zrange_lookup by (unfold WIDTH, HEIGHT; lia).
  cbn [fmap option_fmap option_map]. do 2 f_equal.
  all: now replace (0 + Z.of_nat (Z.to_nat i)) with i by lia.
Qed.

Lemma get_char_filled m m' s s' n f i j :
  mm s = m -> mm s' = m' -> filled m m' VIDEO n f -> n <= 4000 -> 0 <= i < 25 -> 0 <= j < 80 ->
  get_char j i s' = if 160 * i + 2 * j <? n then f (160 * i + 2 * j) else get_char j i s.
Proof.
  intros <- <- Hf Hn Hi Hj. unfold get_char. rewrite Hf, cell_lin. unfold NUM_COLS.
  replace (VIDEO + 2 * (80 * i + j) - VIDEO) with (160 * i + 2 * j) by lia.
  rewrite u32_small by lia. done.
Qed.

Lemma shifted_cell f i j :
  0 <= i < 24 -> 0 <= j < 80 -> 0 <= f (i + 1) j < 256 ->
  shifted (text_hist f) (160 * i + 2 * j) = f (i + 1) j.
Proof.
  intros Hi Hj Hr. unfold shifted, cells.
  replace ((160 * i + 2 * j) / 160) with i by (Z.div_mod_to_equations; lia).
  replace ((160 * i + 2 * j) mod 160) with (2 * j) by (Z.div_mod_to_equations; lia).
  replace (2 * j mod 2) with 0 by (Z.div_mod_to_equations; lia). cbn [Z.eqb].
  rewrite text_hist_row by lia. replace (2 * j / 2) with j by (Z.div_mod_to_equations; lia).
  unfold aget. rewrite (list_lookup_total_correct _ _ (f (i + 1) j)); [now apply u8_small|].
  change (map ?g ?l) with (g <$> l). rewrite list_lookup_fmap, zrange_lookup by (unfold WIDTH, HEIGHT; lia).
  cbn. do 2 f_equal. lia.
Qed.

(** the characters of the screen can be redrawn: no stored control character *)
Definition screen_printable (s : mach) : Prop :=
  forall i j, 0 <= i < 25 -> 0 <= j < 80 -> printable (get_char j i s).

Lemma hist_rows f i :
  (forall i j, 0 <= i < 25 -> 0 <= j < 80 -> printable (f i j) /\ 0 <= f i j < 256) -> 0 <= i < 25 ->
  length (aget (text_hist f) i) = 80%nat /\ Forall printable (aget (text_hist f) i).
Proof.
  intros Hf Hi. rewrite text_hist_row by lia. rewrite length_map, length_zrange.
  split; [done|]. apply Forall_forall. intros c Hc%list_elem_of_In.
  apply in_map_iff in Hc as (j' & <- & Hj'%list_elem_of_In%elem_of_zrange). apply Hf; lia.
Qed.

Lemma shift_rows_filled f s :
  (forall i j, 0 <= i < 25 -> 0 <= j < 80 -> printable (f i j) /\ 0 <= f i j < 256) ->
  filled (mm s) (mm (shift_rows (text_hist f) s)) VIDEO 3840 (shifted (text_hist f)).
Proof.
  intros Hf. destruct (shift_rows_upto (text_hist f) s 24) as [Hs _]; [|lia|exact Hs].
  intros k Hk. apply hist_rows; [exact Hf | lia].
Qed.

Lemma shift_rows_screen f s i j :
  (forall i j, 0 <= i < 25 -> 0 <= j < 80 -> printable (f i j) /\ 0 <= f i j < 256) ->
  0 <= i < 25 -> 0 <= j < 80 ->
  get_char j i (shift_rows (text_hist f) s) = if i <? 24 then f (i + 1) j else get_char j i s.
Proof.
  intros Hf Hi Hj. pose proof (shift_rows_filled f s Hf) as Hs.
  rewrite (get_char_filled _ _ s _ _ _ i j eq_refl eq_refl Hs) by lia.
  destruct (Z.ltb_spec (160 * i + 2 * j) 3840), (Z.ltb_spec i 24); try lia.
  apply shifted_cell; [lia | lia | apply Hf; lia].
Qed.

(** what the scroll shows, and where it writes *)
Lemma write_scroll_rows s i j :
  screen_printable s -> 0 <= i < 25 -> 0 <= j < 80 ->
  get_char j i (write_scroll s) =
    (if i <? 23 then get_char j (i + 1) s else if i =? 23 then 32 else get_char j i s) /\
  screen_x (write_scroll s) = 0 /\ screen_y (write_scroll s) = 23.
Proof.
  intros Hp Hi Hj. split; [|done]. unfold write_scroll.
  rewrite get_char_set_cursor, shift_rows_screen; [|clear i j Hi Hj; intros i j Hi Hj | done | done].
  - unfold HEIGHT. destruct (Z.ltb_spec i 24), (Z.geb_spec (i + 1) (25 - 1)),
      (Z.ltb_spec i 23), (Z.eqb_spec i 23); try lia; done.
  - case_match; [split; [done | lia]|]. split; [now apply Hp | apply rd_range].
Qed.

(** When a write finds the cursor on the last row, every line of the screen
    moves up by one: rows 0 to 22 show what rows 1 to 23 showed, row 23 is
    blank, the last row keeps its contents, and the cursor is at the start
    of row 23. *)
Theorem write_scroll_moves_rows s i j :
  screen_printable s -> 0 <= i < 25 -> 0 <= j < 80 ->
  get_char j i (write_scroll s) =
    (if i <? 23 then get_char j (i + 1) s else if i =? 23 then 32 else get_char j i s) /\
  screen_x (write_scroll s) = 0 /\ screen_y (write_scroll s) = 23.
Proof. apply write_scroll_rows. Qed.

(** ** Writing one line *)

(** [l] is the text at [p], from offset [k], in memory [m] *)
Definition text_at (m : mem) (p : cptr) (k : Z) (l : list Z) : Prop :=
  forall j, 0 <= j < Z.of_nat (length l) -> ldc m p (k + j) = aget l j.

(** the [n] bytes of the source are not in video memory *)
Definition off_screen (p : cptr) (n : Z) : Prop :=
  match p with
  | Addr a => 0 <= a /\ a + n <= 4294967296 /\ (a + n <= VIDEO \/ VIDEO + 4000 <= a)
  | Obj _ => True
  end.

(** a character the terminal shows as it is *)
Definition text_char (c : Z) : Prop := c <> 0 /\ c <> 10 /\ c <> 13.

Lemma off_screen_filled p n (m m' : mem) a k f j :
  off_screen p n -> filled m m' a k f -> VIDEO <= a -> a + k <= VIDEO + 4000 -> 0 <= j < n ->
  ldc m' p j = ldc m p j.
Proof.
  destruct p as [b|]; [|done]. cbn [ldc off_screen]. intros Ho Hf H1 H2 Hj. rewrite Hf.
  destruct (Z.ltb_spec (off a (b + j)) k); [|done]. exfalso. unfold VIDEO in *. zlia.
Qed.

Lemma write_loop_row n p l k i s :
  off_screen p n -> text_at (mm s) p k l -> 0 <= k -> k + Z.of_nat (length l) <= n ->
  Forall text_char l -> 0 <= screen_x s -> screen_x s + Z.of_nat (length l) <= 80 ->
  0 <= screen_y s < 24 ->
  write_loop (length l) p k i s = (i, put_chars l s).
Proof.
  intros Hoff. revert k s. induction l as [|c l IH]; intros k s Ht Hk Hn Hl Hx Hfit Hy; [done|].
  apply Forall_cons_1 in Hl as [(Hc0 & Hc1 & Hc2) Hl]. cbn [length write_loop] in *.
  assert (ldc (mm s) p k = c) as Hc
    by (rewrite <- (Z.add_0_r k); apply (Ht 0); cbn [length]; lia).
  unfold write_char, getx, gety, HEIGHT, WIDTH.
  destruct (Z.geb_spec (screen_y s) (25 - 1)); [lia|]. cbn zeta. rewrite Hc.
  destruct (Z.eqb_spec c 0), (Z.eqb_spec c 10), (Z.eqb_spec (screen_x s) 80); try lia.
  cbn [andb]. assert (cursor_ok s) as Hok by (unfold cursor_ok, NUM_COLS, NUM_ROWS; lia).
  destruct (putc_printable c s) as (Hf & Ex & Ey & _); [done | done |].
  destruct (decide (l = [])) as [->|Hne]; [done|].
  assert (0 < length l)%nat by (destruct l; [done | cbn; lia]).
  assert (screen_x (putc c s) = screen_x s + 1) as Ex'
    by (rewrite Ex; apply Z.mod_small; unfold NUM_COLS; lia).
  rewrite IH; [done | | lia | lia | done | lia | lia | lia].
  intros j Hj. rewrite (off_screen_filled p n _ _ _ _ _ _ Hoff Hf);
    [| rewrite cell_lin; unfold NUM_COLS; lia | rewrite cell_lin; unfold NUM_COLS; lia | lia].
  specialize (Ht (j + 1) ltac:(cbn [length]; lia)). rewrite Z.add_assoc, Z.add_comm, Z.add_assoc in Ht.
  replace (k + 1 + j) with (1 + k + j) by lia. rewrite Ht. unfold aget.
  now replace (Z.to_nat (j + 1)) with (S (Z.to_nat j)) by lia.
Qed.

(** Writing text that fits the rest of the cursor's row shows it there: the
    cells from the cursor on hold exactly the text in the standard attribute
    and no other memory changes, the cursor moves to the column behind it
    (column 0 of the same row from the right edge), both in the C variables
    and in the CRT controller's registers, and interrupts are enabled. *)
Theorem terminal_write_shows_line `{Platform} fd p l s :
  let h := hw s in
  let n := Z.of_nat (length l) in
  fd <> 0 -> is_null p = false -> off_screen p n -> text_at (mm h) p 0 l ->
  Forall text_char l -> 0 <= screen_x h -> screen_x h + n <= 80 -> screen_x h < 80 ->
  0 <= screen_y h < 24 ->
  exists r s', terminal_write fd p n s = (r, s') /\
    filled (mm h) (mm (hw s')) (cell (screen_x h) (screen_y h)) (2 * n) (cells l) /\
    screen_x (hw s') = (screen_x h + n) mod 80 /\ screen_y (hw s') = screen_y h /\
    ports (hw s') = ports h ++ vga_cursor ((screen_x h + n) mod 80) (screen_y h) /\
    if_flag (hw s') = true /\ s' = set_hw (hw s') s.
Proof.
  intros h n Hfd Hnull Hoff Ht Hl Hx Hfit Hx' Hy. subst h.
  unfold terminal_write, write_helper.
  destruct (Z.eqb_spec fd 0); [done|]. rewrite Hnull.
  destruct (Z.ltb_spec n 0); [lia|]. cbn [orb]. unfold n at 1. rewrite Nat2Z.id.
  rewrite (write_loop_row n) by (done || (cbn; lia)).
  destruct (put_chars_row l (cli (hw s))) as (Hf & Ex & Ey & Hp & _).
  { eapply Forall_impl; [exact Hl|]. intros c (? & ? & ?). now split. }
  { unfold cursor_ok, NUM_COLS, NUM_ROWS. cbn. lia. }
  { cbn. unfold NUM_COLS. lia. }
  unfold getx, gety. rewrite Ex, Ey.
  eexists _, _. split; [reflexivity|]. split; [exact Hf|].
  split; [reflexivity|]. split; [reflexivity|]. split; [|split; reflexivity].
  transitivity (ports (set_cursor ((screen_x (hw s) + n) mod 80) (screen_y (hw s))
    (put_chars l (cli (hw s))))); [reflexivity|].
  rewrite set_cursor_ports, Hp. reflexivity.
Qed.

(** ** Reading a line *)

Lemma read_loop_line n buf i text m l :
  (length l < n)%nat -> 0 <= i -> Forall (fun c => 0 <= c < 256 /\ c <> 10) l ->
  (forall j, 0 <= j < Z.of_nat (length l) -> aget text (i + j) = aget l j) ->
  aget text (i + Z.of_nat (length l)) = 10 -> Z.of_nat (length l) < 65536 ->
  exists m', read_loop n buf i text m = (Some (i + Z.of_nat (length l)), m') /\
    filled m m' (buf + i) (Z.of_nat (length l) + 1) (aget (l ++ [10])).
Proof.
  revert i m l. induction n as [|n IH]; intros i m l Hn Hi Hl Ht Hnl Hw; [lia|].
  cbn [read_loop]. destruct l as [|c l].
  - cbn [length] in Hnl |- *. rewrite Z.add_0_r in *. rewrite Hnl. change (10 =? 10) with true. cbv iota.
    change (Z.of_nat 0 + 1) with 1.
    eexists. split; [done|]. intros b. rewrite rd_wr_off.
    pose proof (u32_range (b - (buf + i))).
    destruct (Z.eqb_spec (off (buf + i) b) 0) as [E|E], (Z.ltb_spec (off (buf + i) b) 1); try lia.
    rewrite E. done.
  - apply Forall_cons_1 in Hl as [[Hc Hc10] Hl]. cbn [length] in *.
    specialize (Ht 0) as Ht0. rewrite Z.add_0_r in Ht0. rewrite Ht0 by lia.
    change (aget (c :: l) 0) with c. destruct (Z.eqb_spec c 10); [done|].
    destruct (IH (i + 1) (wr m (buf + i) c) l) as (m' & Hr & Hf); [lia|lia|done| |..|].
    { intros j Hj. replace (i + 1 + j) with (i + (j + 1)) by lia. rewrite Ht by lia.
      unfold aget. now replace (Z.to_nat (j + 1)) with (S (Z.to_nat j)) by lia. }
    { rewrite <- Hnl. f_equal. lia. }
    { lia. }
    exists m'. split; [rewrite Hr; do 2 f_equal; lia|].
    replace (Z.of_nat (S (length l)) + 1) with (1 + (Z.of_nat (length l) + 1)) by lia.
    rewrite Z.add_assoc in Hf.
    eapply filled_app; [lia | lia | lia | | apply filled_one | exact Hf].
    + intros j Hj. unfold aget. now replace (Z.to_nat (j + 1)) with (S (Z.to_nat j)) by lia.
    + cbn. now rewrite u8_small.
Qed.

(** the line buffer holds the finished line [l] *)
Definition line_ready (s : kst) (l : list Z) : Prop :=
  entered (trm s) = 1 /\ (length l < 128)%nat /\ Forall (fun c => 0 <= c < 256 /\ c <> 10) l /\
  (forall j, 0 <= j < Z.of_nat (length l) -> aget (text_buf (trm s)) j = aget l j) /\
  aget (text_buf (trm s)) (Z.of_nat (length l)) = 10.

(** reading a finished line into a buffer with room for it *)
Lemma terminal_read_line `{Platform} irqs fd buf len s l :
  fd <> 1 -> line_ready s l -> Z.of_nat (length l) < len ->
  exists m', terminal_read irqs fd buf len s =
      Some (Z.of_nat (length l), upd_trm (set_entered 0) (upd_mem (fun _ => m') s)) /\
    filled (mem_of s) m' buf (Z.of_nat (length l) + 1) (aget (l ++ [10])).
Proof.
  intros Hfd (He & Hl & Hc & Ht & Hnl) Hlen. unfold terminal_read.
  destruct (Z.eqb_spec fd 1); [done|].
  destruct (read_loop_line (Z.to_nat (len `min` BUF_MAX)) buf 0 (text_buf (trm s)) (mem_of s) l)
    as (m' & Hr & Hf); [unfold BUF_MAX; lia | lia | done | exact Ht | exact Hnl | lia |].
  exists m'. split; [|now rewrite Z.add_0_r in Hf].
  destruct irqs; cbn [read_helper]; rewrite He, Hr; done.
Qed.

#[local] Existing Instance demo_platform.

Lemma write_scroll_moves_rows_witness :
  let s := Mach ∅ 0 24 [] 255 255 0 true in
  get_char 5 3 (write_scroll s) = get_char 5 4 s.
Proof.
  intros s. refine (proj1 (write_scroll_moves_rows s 3 5 _ _ _)); [|lia|lia].
  intros i j _ _. split; discriminate.
Defined.

Lemma terminal_write_shows_line_witness :
  let s := upd_hw (fun h => setxy 7 2 h) (boot_kst ∅) in
  exists r s', terminal_write 1 (Obj [108; 115]) 2 s = (r, s') /\
    filled (mm (hw s)) (mm (hw s')) (cell 7 2) 4 (cells [108; 115]) /\
    screen_x (hw s') = 9.
Proof.
  intros s. destruct (terminal_write_shows_line 1 (Obj [108; 115]) [108; 115] s)
    as (r & s' & E & Hf & Hx & _); try done.
  - intros j Hj. cbn in Hj. assert (j = 0 \/ j = 1) as [-> | ->] by lia; reflexivity.
  - repeat constructor; lia.
  - exists r, s'. split; [exact E|]. split; [exact Hf | exact Hx].
Defined.
