(* ===== verification/Syscalls.v ===== *)
(** * File system calls (systemcalls.c)

    [open], [close], [read], [write], [getargs], [vidmap] and the two stubs.
    The descriptor tables are those of the global [pcblock].  [None] is
    undefined behaviour: a call through the NULL jump table, an index or a
    copy outside its array, or a wait that [schedule] does not end. *)

From Stdlib Require Import ZArith Lia.
From stdpp Require Import base list gmap.
From S2P Require Import Prelude Memory CMem CStr Machine Console Pic Rtc Paging KState Filesystem TermIO.
Open Scope Z_scope.

Definition EIGHT_MB : Z := 8388608.
Definition FOUR_MB : Z := 4194304.
Definition ZERO_MB : Z := 0.
Definition KB_8 : Z := 8192.
Definition STACK_EIGHTKB : Z := 8192.
Definition START : Z := 4.
Definition T_6 : Z := 6.
Definition FD_MAX : Z := 7.
Definition FD_MIN : Z := 2.
Definition FILE_ARRAY_SIZE : Z := 8.
Definition B_24 : Z := 24.
Definition BUFF_MAX : Z := 1024.
Definition video_mem : Z := 753664.

(** where the PCB of process [pid] is saved *)
Definition pcb_slot (pid : Z) : Z := u32 (EIGHT_MB - STACK_EIGHTKB * pid - START - T_6 * STACK_EIGHTKB).

(** [memcpy(pcb_ptr, &pcblock, PCB_SIZE)] *)
Definition save_pcb (slot : Z) (s : kst) : kst := set_saved (<[slot := pcb_of s]> (saved s)) s.

(** what interrupt handlers do while a call waits *)
Record schedule := Schedule {
  key_irqs : list (kst -> kst);
  tick_irqs : list (mach -> mach)
}.

Section Calls.
Context `{Platform}.

(** the jump tables, [fops_read] and [fops_write] columns *)
Definition call_read (ops : fops_t) (w : schedule) (fd buf nbytes : Z) (s : kst) : option (Z * kst) :=
  match ops with
  | NULL_fops => None
  | rtc_fops => '(r, h) ← rtc_read (tick_irqs w) fd buf nbytes (hw s); Some (r, set_hw h s)
  | terminal_fops => terminal_read (key_irqs w) fd buf nbytes s
  | filesystem_fops => filesystem_read fd buf nbytes s
  end.
Definition call_write (ops : fops_t) (fd : Z) (buf : cptr) (nbytes : Z) (s : kst) : option (Z * kst) :=
  match ops with
  | NULL_fops => None
  | rtc_fops =>
      match buf with
      | Addr a => let '(r, h) := rtc_write fd a nbytes (hw s) in Some (r, set_hw h s)
      | Obj _ => None
      end
  | terminal_fops => Some (terminal_write fd buf nbytes s)
  | filesystem_fops => Some (terminal_write fd buf nbytes s)
  end.

Definition read (w : schedule) (fd buf nbytes : Z) (s : kst) : option (Z * kst) :=
  if (u32 buf =? 0) || (fd <? 0) || (fd >? FD_MAX) || (flags (file_at s fd) =? 0) || (nbytes <? 0)
  then Some (-1, s)
  else call_read (fops_ptr (file_at s fd)) w fd buf nbytes s.

Definition write (fd : Z) (buf : cptr) (nbytes : Z) (s : kst) : option (Z * kst) :=
  if is_null buf || (fd <? 0) || (fd >? FD_MAX) || (flags (file_at s fd) =? 0) || (nbytes <? 0)
  then Some (-1, s)
  else call_write (fops_ptr (file_at s fd)) fd buf nbytes s.

(** [pcblock.file_struct[i].flags]; index 8 is the word at
    [pcblock.dentry[0].file_name[12]] *)
Definition flags_at (s : kst) (i : Z) : Z :=
  if i <? FILE_ARRAY_SIZE then flags (file_at s i)
  else let name := file_name (dentry_at s 0) in
    aget name 12 + 256 * aget name 13 + 65536 * aget name 14 + 16777216 * aget name 15.

Definition open (filename : cptr) (s : kst) : option (Z * kst) :=
  let pid_open := find_pid (r_cr3 (cpu s)) in
  let s := upd_sysg (set_fd_index FD_MIN) s in
  let pcb_ptr := pcb_slot pid_open in
  if is_null filename then Some (-1, s)
  else
    match find_first (fun i => flags_at s i =? 0) 7 FD_MIN with
    | None => None                       (* index_temp is uninitialised *)
    | Some index_temp =>
        let s := upd_sysg (set_fd_index index_temp) s in
        if index_temp =? FILE_ARRAY_SIZE then Some (-1, s)
        else
          let fd := index_temp in
          let s := upd_file fd (set_flags 1) s in
          let s := if negb (strncmp (mem_of s) filename (Obj []) 1 =? 0)
                   then upd_dentry fd (fun d => snd (read_dentry_by_name filename d s)) s
                   else s in
          '(r, s) ← filesystem_open filename s;
          if r =? -1 then
            let s := upd_file fd (set_flags 0) s in
            Some (-1, save_pcb pcb_ptr s)
          else if file_type (dentry_at s fd) =? 0 then
            let s := upd_sysg (set_fd_rtc fd) s in
            let s := upd_hw (fun h => snd (rtc_open h)) s in
            let s := upd_file fd (set_flags 1) s in
            let s := upd_file fd (set_fops_ptr rtc_fops) s in
            Some (fd, save_pcb pcb_ptr s)
          else
            let s := upd_file fd (set_fpos 0) s in
            let s := upd_file fd (set_fops_ptr filesystem_fops) s in
            Some (fd, save_pcb pcb_ptr s)
    end.

(** [pcblock.file_struct[fd_index].fops_ptr = NULL]; index 8 is the word at
    [pcblock.dentry[0].file_name[0]] *)
Definition null_fops (i : Z) (s : kst) : option kst :=
  if in_range i FILE_ARRAY_SIZE then Some (upd_file i (set_fops_ptr NULL_fops) s)
  else if i =? FILE_ARRAY_SIZE
  then Some (upd_dentry 0 (fun d => set_file_name (replicate 4 0 ++ drop 4 (file_name d)) d) s)
  else None.

Definition close (fd : Z) (s : kst) : option (Z * kst) :=
  if (fd >? FD_MAX) || (fd <? FD_MIN) then Some (-1, s)
  else if flags (file_at s fd) =? 1 then
    let s := upd_file fd (set_fpos 0) s in
    let s := upd_dentry fd (set_file_type 0) s in
    let s := upd_dentry fd (set_inode_number 0) s in
    s ← null_fops (fd_index (sysg s)) s;
    let s := upd_dentry fd (set_file_name (map (fun _ => 0) (zrange 0 B_32))) s in
    let s := upd_dentry fd (set_reserved (map (fun _ => 0) (zrange 0 B_24))) s in
    let s := if (fd_rtc (sysg s) >? 1) && (fd =? fd_rtc (sysg s))
             then upd_hw (fun h => snd (rtc_close fd h)) s
             else snd (filesystem_close fd s) in
    Some (0, upd_file fd (set_flags 0) s)
  else Some (-1, s).

(** [memcpy(buf, pcblock.arg_name, n)] *)
Definition copy_args (buf n : Z) (s : kst) : option kst :=
  if n <=? 40 then Some (upd_mem (fun m => wrl m buf (take (Z.to_nat n) (arg_name (pcb_of s)))) s)
  else None.

Definition getargs (buf nbytes : Z) (s : kst) : option (Z * kst) :=
  if (u32 buf =? 0) || (nbytes <? 0) then Some (-1, s)
  else
    let s := upd_mem (zero_buf (Z.to_nat BUFF_MAX) 0 buf) s in
    let size := data_arg_size (pcb_of s) in
    s ← copy_args buf (if size <? nbytes then size else nbytes) s;
    Some (0, s).

Definition vidmap (screen_start : Z) (s : kst) : Z * kst :=
  if (screen_start =? ZERO_MB) || (screen_start =? FOUR_MB) then (-1, s)
  else (0, upd_mem (fun m => wr32 m screen_start video_mem) s).

Definition set_handler (signum handler : Z) (s : kst) : Z * kst := (0, s).
Definition sigreturn (s : kst) : Z * kst := (0, s).
End Calls.

(** ** Opening a file *)

Lemma name_loop_ext n i fname s s' :
  fsg s' = fsg s -> mem_of s' = mem_of s -> name_loop n i fname s' = name_loop n i fname s.
Proof.
  intros Hg Hm. revert i. induction n as [|n IH]; intros i; cbn [name_loop]; [done|].
  unfold entry_addr. rewrite Hg, Hm, IH. done.
Qed.

Lemma lookup_ext fname d s s' :
  fsg s' = fsg s -> mem_of s' = mem_of s ->
  read_dentry_by_name fname d s' = read_dentry_by_name fname d s.
Proof.
  intros Hg Hm. unfold read_dentry_by_name.
  rewrite (name_loop_ext _ _ _ s s') by done. unfold entry_addr. now rewrite Hg, Hm.
Qed.

Lemma strncmp_empty (m : mem) p : (strncmp m p (Obj []) 1 =? 0) = (ldc m p 0 =? 0).
Proof.
  apply eq_true_iff_eq. rewrite !Z.eqb_eq, strncmp_zero.
  change (Z.to_nat (u32 1)) with 1%nat. cbn [cstrn]. change (ldc m (Obj []) 0) with 0. cbn.
  destruct (Z.eqb_spec (ldc m p 0) 0); now split.
Qed.

(** the directory holds [fname] in slot [i] *)
Definition found (s : kst) (fname : cptr) (i : Z) : Prop :=
  is_null fname = false /\ ldc (mem_of s) fname 0 <> 0 /\
  forall d, read_dentry_by_name fname d s = (0, load_dentry (mem_of s) (entry_addr s i) d).

(** descriptor [k] is the lowest one from 2 on that is not in use *)
Definition lowest_free (s : kst) (k : Z) : Prop :=
  2 <= k < 8 /\ flags (file_at s k) = 0 /\ forall j, 2 <= j < k -> flags (file_at s j) <> 0.

Lemma lowest_free_find s k :
  lowest_free s k -> find_first (fun i => flags_at s i =? 0) 7 FD_MIN = Some k.
Proof.
  intros (Hk & Hf & Hj). apply find_first_Some. unfold FD_MIN, flags_at, FILE_ARRAY_SIZE.
  cbv beta. split; [lia|]. split.
  - destruct (Z.ltb_spec k 8); [|lia]. now apply Z.eqb_eq.
  - intros j Hlt. destruct (Z.ltb_spec j 8); [|lia]. apply Z.eqb_neq. apply Hj. lia.
Qed.

Section Opening.
Context `{Platform}.

(** what a successful open does to the descriptor tables *)
Record opened (s s' : kst) (i k : Z) (ops : fops_t) : Prop := {
  op_ops : fops_ptr (file_at s' k) = ops;
  op_flags : flags (file_at s' k) = 1;
  op_entry : dentry_at s' k = load_dentry (mem_of s) (entry_addr s i) (dentry_at s k);
  op_files : forall j, 0 <= j < 8 -> j <> k -> file_at s' j = file_at s j;
  op_dentries : forall j, 0 <= j < 8 -> j <> k -> j <> fd_val (fsg s) ->
                dentry_at s' j = dentry_at s j;
  op_last : let v := fd_val (fsg s) in
            v <> k -> dentry_at s' v = load_dentry (mem_of s) (entry_addr s i) (dentry_at s v);
  op_saved : saved s' = <[pcb_slot (find_pid (r_cr3 (cpu s))) := pcb_of s']> (saved s);
  op_fsg : fsg s' = fsg s;
  op_mem : mem_of s' = mem_of s;
  op_wf : pcb_wf (pcb_of s')
}.

Lemma found_ext s s' fname i :
  fsg s' = fsg s -> mem_of s' = mem_of s -> found s fname i -> found s' fname i.
Proof.
  intros Hg Hm (Hn & H0 & Hd). split; [done|]. rewrite Hm. split; [done|].
  intros d. unfold entry_addr. rewrite (lookup_ext _ _ s) by done. rewrite Hd. unfold entry_addr.
  now rewrite Hg.
Qed.

Lemma filesystem_open_found s fname i :
  found s fname i -> in_range (fd_val (fsg s)) 8 = true ->
  filesystem_open fname s =
    Some (0, upd_dentry (fd_val (fsg s)) (load_dentry (mem_of s) (entry_addr s i)) s).
Proof.
  intros (_ & H0 & Hd) Hr. unfold filesystem_open. rewrite strncmp_empty.
  destruct (Z.eqb_spec (ldc (mem_of s) fname 0) 0); [done|]. cbn [negb].
  rewrite Hr, Hd. done.
Qed.

(** the state of open after both lookups *)
Definition looked_up (s : kst) (i k : Z) : kst :=
  upd_dentry (fd_val (fsg s)) (load_dentry (mem_of s) (entry_addr s i))
    (upd_dentry k (load_dentry (mem_of s) (entry_addr s i))
      (upd_file k (set_flags 1) (upd_sysg (set_fd_index k) s))).

Lemma open_found s fname i k :
  found s fname i -> lowest_free s k -> in_range (fd_val (fsg s)) 8 = true ->
  let s1 := looked_up s i k in
  open fname s =
    (if file_type (dentry_at s1 k) =? 0
     then Some (k, save_pcb (pcb_slot (find_pid (r_cr3 (cpu s))))
            (upd_file k (set_fops_ptr rtc_fops) (upd_file k (set_flags 1)
              (upd_hw (fun h => snd (rtc_open h)) (upd_sysg (set_fd_rtc k) s1)))))
     else Some (k, save_pcb (pcb_slot (find_pid (r_cr3 (cpu s))))
            (upd_file k (set_fops_ptr filesystem_fops) (upd_file k (set_fpos 0) s1)))).
Proof.
  intros Hf Hk Hv s1. pose proof Hf as (Hnull & H0 & Hd). unfold open. rewrite Hnull.
  change (find_first _ 7 FD_MIN) with (find_first (fun i => flags_at s i =? 0) 7 FD_MIN).
  rewrite (lowest_free_find s k Hk). destruct Hk as (Hk & _).
  unfold FILE_ARRAY_SIZE at 1. destruct (Z.eqb_spec k 8); [lia|].
  set (sa := upd_file k (set_flags 1) _).
  assert (found sa fname i) as Ha by now apply (found_ext s).
  assert (negb (strncmp (mem_of sa) fname (Obj []) 1 =? 0) = true) as ->.
  { rewrite strncmp_empty. destruct Ha as (_ & Ha & _). now apply negb_true_iff, Z.eqb_neq. }
  assert (upd_dentry k (fun d => snd (read_dentry_by_name fname d sa)) sa =
    upd_dentry k (load_dentry (mem_of s) (entry_addr s i)) sa) as ->.
  { apply upd_dentry_ext. cbv beta. destruct Ha as (_ & _ & ->). done. }
  rewrite (filesystem_open_found _ fname i) by (done || now apply (found_ext s)).
  rewrite bind_some. done.
Qed.

Lemma dentry_at_looked_up s i k :
  pcb_wf (pcb_of s) -> 0 <= k < 8 -> 0 <= fd_val (fsg s) < 8 ->
  dentry_at (looked_up s i k) k = load_dentry (mem_of s) (entry_addr s i) (dentry_at s k).
Proof.
  intros Hwf Hk Hv. unfold looked_up.
  assert (forall j, 0 <= j < 8 -> fd_ok (upd_file k (set_flags 1) (upd_sysg (set_fd_index k) s)) j)
    as Hok by (intros j Hj; apply fd_ok_upd_file; now split).
  destruct (decide (fd_val (fsg s) = k)) as [->|Hne].
  - rewrite dentry_at_upd_dentry by now apply fd_ok_upd_dentry, Hok.
    now rewrite dentry_at_upd_dentry by now apply Hok.
  - rewrite dentry_at_upd_dentry_ne by lia. now rewrite dentry_at_upd_dentry by now apply Hok.
Qed.

(** the descriptor tables after the last updates of either branch *)
Lemma opened_from s i k ops s2 g :
  pcb_wf (pcb_of s) -> 2 <= k < 8 -> 0 <= fd_val (fsg s) < 8 ->
  pcb_of s2 = pcb_of (looked_up s i k) -> fsg s2 = fsg s -> mem_of s2 = mem_of s ->
  saved s2 = saved s ->
  (forall f, fops_ptr (g f) = ops /\ (flags f = 1 -> flags (g f) = 1)) ->
  opened s (save_pcb (pcb_slot (find_pid (r_cr3 (cpu s)))) (upd_file k g s2)) i k ops.
Proof.
  intros Hwf Hk Hv Hp Hg Hm Hsv Hops.
  assert (forall j, file_at s2 j = file_at (looked_up s i k) j) as Hf
    by (intros; unfold file_at; now rewrite Hp).
  assert (forall j, dentry_at s2 j = dentry_at (looked_up s i k) j) as Hd
    by (intros; unfold dentry_at; now rewrite Hp).
  assert (forall j, 0 <= j < 8 -> fd_ok s2 j) as Hok.
  { intros j Hj. apply (fd_ok_pcb (looked_up s i k)); [done|].
    apply fd_ok_upd_dentry, fd_ok_upd_dentry, fd_ok_upd_file. now split. }
  assert (fd_ok s k) as Hoks by (split; [done | lia]).
  assert (file_at (looked_up s i k) k = set_flags 1 (file_at s k)) as Hfk.
  { unfold looked_up. autorewrite with kst. now rewrite file_at_upd_file. }
  unfold save_pcb. split; autorewrite with kst; try done.
  - rewrite file_at_upd_file by (apply Hok; lia). apply Hops.
  - rewrite file_at_upd_file by (apply Hok; lia). apply Hops. now rewrite Hf, Hfk.
  - rewrite Hd. apply dentry_at_looked_up; [done | lia | done].
  - intros j Hj Hne. autorewrite with kst. rewrite file_at_upd_file_ne, Hf by lia. unfold looked_up.
    autorewrite with kst. now rewrite file_at_upd_file_ne by lia.
  - intros j Hj Hne Hnv. autorewrite with kst. rewrite Hd. unfold looked_up.
    rewrite !dentry_at_upd_dentry_ne by lia. done.
  - intros v Hne. autorewrite with kst. rewrite Hd. unfold looked_up. fold v.
    rewrite dentry_at_upd_dentry.
    + rewrite dentry_at_upd_dentry_ne by lia. done.
    + apply fd_ok_upd_dentry, fd_ok_upd_file. now split.
  - cbn [saved set_saved]. change (saved (upd_file k g s2)) with (saved s2). now rewrite Hsv.
  - destruct (fd_ok_upd_file s2 k k g (Hok k ltac:(lia))) as [Hw _]. exact Hw.
Qed.

(** opening a file or a directory: the state, and what it says *)
Definition opened_file (s : kst) (i k : Z) : kst :=
  save_pcb (pcb_slot (find_pid (r_cr3 (cpu s))))
    (upd_file k (set_fops_ptr filesystem_fops) (upd_file k (set_fpos 0) (looked_up s i k))).

Lemma open_file s fname i k :
  pcb_wf (pcb_of s) -> 0 <= fd_val (fsg s) < 8 -> found s fname i -> lowest_free s k ->
  rd32 (mem_of s) (entry_addr s i + 32) <> 0 ->
  open fname s = Some (k, opened_file s i k) /\ opened s (opened_file s i k) i k filesystem_fops /\
  fpos (file_at (opened_file s i k) k) = 0.
Proof.
  intros Hwf Hv Hf Hk Hty. pose proof Hk as (Hk2 & _).
  rewrite (open_found s fname i k Hf Hk) by (unfold in_range; lia).
  rewrite dentry_at_looked_up by (done || lia).
  change (file_type (load_dentry (mem_of s) (entry_addr s i) (dentry_at s k)))
    with (rd32 (mem_of s) (entry_addr s i + 32)).
  destruct (Z.eqb_spec (rd32 (mem_of s) (entry_addr s i + 32)) 0); [done|].
  split; [reflexivity|]. unfold opened_file.
  assert (fd_ok (looked_up s i k) k) as Hok
    by (apply fd_ok_upd_dentry, fd_ok_upd_dentry, fd_ok_upd_file; split; [done | lia]).
  rewrite upd_file_upd_file by exact Hok. split; [apply opened_from; (done || now split)|].
  unfold save_pcb. autorewrite with kst. now rewrite file_at_upd_file.
Qed.

(** C24: Opening a name the directory holds returns the lowest unused descriptor
    from 2 on, marks it in use with the jump table of the entry's type (RTC
    for type 0, file system otherwise) and, for a file, position 0; it copies
    the directory entry into the descriptor's dentry, keeps every other
    file structure, and saves the PCB in the process's slot.  It also
    overwrites the dentry of the descriptor used last ([op_last]). *)
Theorem open_returns_lowest_descriptor s fname i k :
  pcb_wf (pcb_of s) -> 0 <= fd_val (fsg s) < 8 -> found s fname i -> lowest_free s k ->
  let type := rd32 (mem_of s) (entry_addr s i + 32) in
  exists s', open fname s = Some (k, s') /\
    opened s s' i k (if type =? 0 then rtc_fops else filesystem_fops) /\
    (type <> 0 -> fpos (file_at s' k) = 0) /\ fd_index (sysg s') = k.
Proof.
  intros Hwf Hv Hf Hk type. pose proof Hk as (Hk2 & _). destruct (Z.eqb_spec type 0) as [E|Hne].
  - rewrite (open_found s fname i k Hf Hk) by (unfold in_range; lia).
    rewrite dentry_at_looked_up by (done || lia).
    change (file_type (load_dentry (mem_of s) (entry_addr s i) (dentry_at s k))) with type.
    rewrite E. eexists. split; [reflexivity|]. rewrite upd_file_upd_file.
    2:{ apply (fd_ok_pcb (looked_up s i k)); [done|].
        apply fd_ok_upd_dentry, fd_ok_upd_dentry, fd_ok_upd_file. split; [done | lia]. }
    split; [apply opened_from; (done || now split) | done].
  - destruct (open_file s fname i k Hwf Hv Hf Hk Hne) as (E & Ho & Hp).
    exists (opened_file s i k). split; [exact E|]. split; [exact Ho|]. now split.
Qed.
End Opening.

(** ** Reading a whole file *)

(** descriptor [fd] is an open regular file at position [p] *)
Record file_open (s : kst) (fd inode p : Z) : Prop := {
  fo_ok : fd_ok s fd;
  fo_flags : flags (file_at s fd) <> 0;
  fo_ops : fops_ptr (file_at s fd) = filesystem_fops;
  fo_type : file_type (dentry_at s fd) <> 1;
  fo_inode : inode_number (dentry_at s fd) = inode;
  fo_pos : fpos (file_at s fd) = p
}.

(** what a program does to get a file's contents: read into the same buffer
    until 0 comes back *)
Fixpoint read_all `{Platform} (fuel : nat) (w : schedule) (fd buf n : Z) (s : kst) : option (list Z) :=
  match fuel with
  | O => None
  | S f =>
      '(r, s) ← read w fd buf n s;
      if r =? 0 then Some []
      else
        rest ← read_all f w fd buf n s;
        Some (rdn (mem_of s) buf (Z.to_nat r) ++ rest)
  end.

Section WholeFile.
Context `{Platform}.
Variables (w : schedule) (fd buf n lo sz inode : Z) (s0 : kst).

(** the image holds the file, apart from the buffer of [n] bytes *)
Hypothesis Himg : region lo sz.
Hypothesis Hbuf : region buf n.
Hypothesis Hapart : apart lo sz buf n.
Hypothesis Hfile : file_in_image (mem_of s0) lo sz (inode_addr s0 inode)
  (data_start (filesystem (fsg s0))) (file_size s0 inode).
Hypothesis Hino : 0 <= inode < u32 (num_inodes (filesystem (fsg s0)) - 1).
Hypothesis Hn : 0 < n <= 4096.
Hypothesis Hnull : u32 buf <> 0.

(** a state of the reading loop, at position [p] *)
Definition reading (s : kst) (p : Z) : Prop :=
  file_open s fd inode p /\ filesystem (fsg s) = filesystem (fsg s0) /\
  BOOT_BLOCK_PTR (fsg s) = BOOT_BLOCK_PTR (fsg s0) /\
  same_image lo sz (mem_of s0) (mem_of s).

Lemma reading_size s p : reading s p -> file_size s inode = file_size s0 inode.
Proof.
  intros (_ & _ & Hb & Hm). unfold file_size, inode_addr. rewrite Hb.
  destruct Hfile as [[H1 H2] _ _]. unfold inode_addr in H1, H2.
  apply (same_image_rd32 lo sz (mem_of s0)); [done | lia | lia].
Qed.

Lemma reading_content s p : reading s p -> file_content s inode = file_content s0 inode.
Proof.
  intros Hr. unfold file_content. rewrite (reading_size s p Hr). destruct Hr as (_ & Hg & Hb & Hm).
  assert (inode_addr s inode = inode_addr s0 inode) as -> by (unfold inode_addr; now rewrite Hb).
  rewrite Hg. apply map_zrange_ext. intros j Hj. eapply file_byte_kept; [exact Hfile | done | done].
Qed.

Lemma reading_readable s p :
  reading s p -> 0 <= p < file_size s0 inode ->
  readable (upd_fsg (set_fd_val fd) s) lo sz inode p buf n.
Proof.
  intros Hr Hp. pose proof (reading_size s p Hr) as Hsz. destruct Hr as (Ho & Hg & Hb & Hm).
  assert (inode_addr s inode = inode_addr s0 inode) as Ha by (unfold inode_addr; now rewrite Hb).
  change (upd_fsg (set_fd_val fd) s) with (upd_fsg (set_fd_val fd) s).
  split; try done.
  - change (file_in_image (mem_of s) lo sz (inode_addr s inode) (data_start (filesystem (fsg s)))
      (file_size s inode)).
    rewrite Hsz, Ha, Hg. now apply (file_in_image_kept _ _ _ _ _ (mem_of s0)).
  - change (0 <= inode < u32 (num_inodes (filesystem (fsg s)) - 1)). now rewrite Hg.
  - change (0 <= p < file_size s inode). now rewrite Hsz.
  - pose proof (fi_size _ _ _ _ _ _ Hfile). lia.
  - change (in_range fd 8 = true). destruct (fo_ok _ _ _ _ Ho) as [_ ?]. unfold in_range. lia.
Qed.

(** the call reaches read_data *)
Lemma reading_call s p :
  reading s p -> read w fd buf n s = read_data inode p buf n (upd_fsg (set_fd_val fd) s).
Proof.
  intros ([(Hwf & Hfd) Hfl Hops Hty Hi Hp] & _). unfold read, FD_MAX.
  destruct (Z.eqb_spec (u32 buf) 0), (Z.ltb_spec fd 0), (Z.gtb_spec fd 7),
    (Z.eqb_spec (flags (file_at s fd)) 0), (Z.ltb_spec n 0); try done; try lia.
  cbn [orb]. rewrite Hops. cbn [call_read]. unfold filesystem_read. autorewrite with kst.
  destruct (Z.eqb_spec (file_type (dentry_at s fd)) 1); [done|].
  rewrite Hi, Hp, u32_small by lia. done.
Qed.

(** one read inside the file: the state it leaves, but for the bytes read *)
Lemma reading_exact s p :
  reading s p -> 0 <= p < file_size s0 inode ->
  let r := n `min` (file_size s0 inode - p) in
  exists m', read w fd buf n s =
      Some (r, upd_file fd (set_fpos (p + r)) (upd_mem (fun _ => m') (upd_fsg (set_fd_val fd) s))) /\
    rdn m' buf (Z.to_nat r) = take (Z.to_nat r) (drop (Z.to_nat p) (file_content s0 inode)) /\
    (forall a, n <= off buf a -> rd m' a = rd (mem_of s) a).
Proof.
  intros Hr Hp r. rewrite (reading_call s p Hr).
  pose proof (reading_readable s p Hr Hp) as Hra.
  assert (avail (upd_fsg (set_fd_val fd) s) inode p n = r) as Hav
    by (unfold avail; change (file_size (upd_fsg _ s) inode) with (file_size s inode);
        now rewrite (reading_size s p Hr)).
  destruct (read_data_short _ _ _ _ _ _ _ Hra) as (s' & E & Hbytes & Hframe & m' & ->);
    [lia | rewrite Hav; unfold r; pose proof (Z.mod_pos_bound p 4096); lia |].
  rewrite Hav in E, Hbytes, Hframe. exists m'. split; [exact E|]. split; [|exact Hframe].
  change (file_content (upd_fsg (set_fd_val fd) s) inode) with (file_content s inode) in Hbytes.
  rewrite (reading_content s p Hr) in Hbytes.
  change (mem_of (upd_file _ _ (upd_mem (fun _ => m') _))) with m' in Hbytes.
  rewrite <- (take_rdn _ _ _ (Z.to_nat n)) by lia. rewrite Hbytes.
  rewrite take_app_le by (rewrite length_take, length_drop; unfold file_content;
    rewrite length_map, length_zrange; lia).
  now rewrite take_take, Nat.min_id.
Qed.

(** ... and it is a state of the loop again *)
Lemma reading_step s p :
  reading s p -> 0 <= p < file_size s0 inode ->
  let r := n `min` (file_size s0 inode - p) in
  exists s', read w fd buf n s = Some (r, s') /\ reading s' (p + r) /\
    rdn (mem_of s') buf (Z.to_nat r) =
      take (Z.to_nat r) (drop (Z.to_nat p) (file_content s0 inode)).
Proof.
  intros Hr Hp r. destruct (reading_exact s p Hr Hp) as (m' & E & Hbytes & Hframe). fold r in E, Hbytes.
  destruct Hr as ([Hok Hfl Hops Hty Hi Hpos] & Hg & Hb & Hm).
  set (s1 := upd_mem (fun _ => m') (upd_fsg (set_fd_val fd) s)) in *.
  assert (file_at (upd_file fd (set_fpos (p + r)) s1) fd = set_fpos (p + r) (file_at s fd)) as Hfile'
    by (rewrite file_at_upd_file; [done | exact Hok]).
  eexists. split; [exact E|]. split; [split; [split|]|exact Hbytes].
  - now apply fd_ok_upd_file.
  - now rewrite Hfile'.
  - now rewrite Hfile'.
  - exact Hty.
  - exact Hi.
  - now rewrite Hfile'.
  - split; [done|]. split; [done|].
    intros a Ha. rewrite <- (Hm a Ha). apply Hframe. unfold region, apart in *. zlia.
Qed.

(** a read at the end of the file *)
Lemma reading_end s p :
  reading s p -> file_size s0 inode <= p ->
  read w fd buf n s = Some (0, upd_mem (zero_buf (Z.to_nat n) 0 buf) (upd_fsg (set_fd_val fd) s)).
Proof.
  intros Hr Hp. rewrite (reading_call s p Hr). apply read_data_eof.
  assert (reading (upd_mem (zero_buf (Z.to_nat n) 0 buf) (upd_fsg (set_fd_val fd) s)) p) as Hz.
  { destruct Hr as ([Hok Hfl Hops Hty Hi Hpos] & Hg & Hb & Hm).
    split; [now split|]. split; [done|]. split; [done|].
    intros a Ha. rewrite <- (Hm a Ha). rewrite mem_of_upd_mem, mem_of_upd_fsg.
    unfold region, apart in *.
    apply (filled_frame _ _ (buf + 0) (Z.of_nat (Z.to_nat n)) _ _
      (zero_buf_filled (Z.to_nat n) 0 buf (mem_of s) ltac:(lia) ltac:(lia))). zlia. }
  rewrite (reading_size _ _ Hz). lia.
Qed.

Lemma read_all_from f s p :
  reading s p -> 0 <= p <= file_size s0 inode ->
  file_size s0 inode - p < Z.of_nat f ->
  read_all f w fd buf n s = Some (drop (Z.to_nat p) (file_content s0 inode)).
Proof.
  revert s p. induction f as [|f IH]; intros s p Hr Hp Hf; [lia|]. cbn [read_all].
  destruct (Z.lt_ge_cases p (file_size s0 inode)) as [Hlt|Hge].
  - destruct (reading_step s p Hr) as (s' & E & Hr' & Hb); [lia|].
    rewrite E, bind_some. cbv beta iota. set (r := n `min` (file_size s0 inode - p)) in *.
    destruct (Z.eqb_spec r 0); [lia|].
    rewrite (IH s' (p + r)) by (done || lia). rewrite bind_some, Hb.
    f_equal. replace (Z.to_nat (p + r)) with (Z.to_nat p + Z.to_nat r)%nat by lia.
    rewrite <- drop_drop. apply take_drop.
  - rewrite (reading_end s p Hr), bind_some by lia. cbn. rewrite drop_ge; [done|].
    unfold file_content. rewrite length_map, length_zrange. lia.
Qed.

End WholeFile.

Section Calls2.
Context `{Platform}.

(** a regular file just opened *)
Lemma opened_file_open s s' i k :
  opened s s' i k filesystem_fops -> 2 <= k < 8 -> rd32 (mem_of s) (entry_addr s i + 32) <> 1 ->
  fpos (file_at s' k) = 0 ->
  file_open s' k (rd32 (mem_of s) (entry_addr s i + 36)) 0.
Proof.
  intros [Hops Hfl Hd _ _ _ _ _ _ Hwf] Hk Hty Hp. split; try done.
  - split; [done | lia].
  - now rewrite Hfl.
  - now rewrite Hd.
  - now rewrite Hd.
Qed.

(** C9: Opening a regular file and reading it to the end, as the programs cat
    and grep do, yields exactly the contents of the file the directory entry
    names, whatever was open before. *)
Theorem open_then_read_whole_file s fname i k w buf n lo sz :
  let inode := rd32 (mem_of s) (entry_addr s i + 36) in
  pcb_wf (pcb_of s) -> 0 <= fd_val (fsg s) < 8 -> found s fname i -> lowest_free s k ->
  1 < rd32 (mem_of s) (entry_addr s i + 32) ->
  region lo sz -> region buf n -> apart lo sz buf n -> 0 < n <= 4096 -> u32 buf <> 0 ->
  file_in_image (mem_of s) lo sz (inode_addr s inode)
    (data_start (filesystem (fsg s))) (file_size s inode) ->
  0 <= inode < u32 (num_inodes (filesystem (fsg s)) - 1) ->
  exists s', open fname s = Some (k, s') /\
    read_all (S (Z.to_nat (file_size s inode))) w k buf n s' = Some (file_content s inode).
Proof.
  intros inode Hwf Hv Hf Hk Hty Hlo Hbuf Hap Hn Hnull Hfile Hino.
  pose proof Hk as (Hk2 & _).
  destruct (open_file s fname i k Hwf Hv Hf Hk ltac:(lia)) as (E & Hop & Hp).
  exists (opened_file s i k). split; [exact E|]. generalize dependent (opened_file s i k). intros s' _ Hop Hp.
  assert (file_open s' k inode 0) as Ho by (apply (opened_file_open s); [done | lia | lia | exact Hp]).
  pose proof (op_fsg _ _ _ _ _ Hop) as Hg. pose proof (op_mem _ _ _ _ _ Hop) as Hm.
  assert (inode_addr s' inode = inode_addr s inode) as Ha by (unfold inode_addr; now rewrite Hg).
  assert (file_size s' inode = file_size s inode) as Hs by (unfold file_size; now rewrite Ha, Hm).
  assert (file_content s' inode = file_content s inode) as Hc
    by (unfold file_content; now rewrite Ha, Hm, Hs, Hg).
  rewrite <- Hs, <- Hc. pose proof (fi_size _ _ _ _ _ _ Hfile).
  rewrite (read_all_from w k buf n lo sz inode s') with (p := 0);
    rewrite ?Ha, ?Hs, ?Hm, ?Hg; try done; try lia.
Qed.

(** the check at the head of read and write *)
Lemma rejected w fd buf nbytes s :
  fd < 0 \/ 7 < fd \/ flags (file_at s fd) = 0 \/ nbytes < 0 \/ u32 buf = 0 ->
  read w fd buf nbytes s = Some (-1, s) /\ write fd (Addr buf) nbytes s = Some (-1, s).
Proof.
  intros Hbad. unfold read, write, is_null, FD_MAX.
  destruct (Z.eqb_spec (u32 buf) 0), (Z.ltb_spec fd 0), (Z.gtb_spec fd 7),
    (Z.eqb_spec (flags (file_at s fd)) 0), (Z.ltb_spec nbytes 0); cbn [orb]; try done.
  exfalso. intuition lia.
Qed.

(** read and write on a descriptor that is out of range or not in use, with
    a NULL buffer or a negative count, return -1 and change nothing. *)
Theorem bad_arguments_are_rejected w fd buf nbytes s :
  fd < 0 \/ 7 < fd \/ flags (file_at s fd) = 0 \/ nbytes < 0 \/ u32 buf = 0 ->
  read w fd buf nbytes s = Some (-1, s) /\ write fd (Addr buf) nbytes s = Some (-1, s).
Proof. apply rejected. Qed.

(** a failed lookup writes the dentry back as it was *)
Lemma upd_dentry_same s fd f : fd_ok s fd -> f (dentry_at s fd) = dentry_at s fd -> upd_dentry fd f s = s.
Proof.
  intros Hok Hf. apply fd_ok_dentry in Hok. unfold upd_dentry, upd_pcb, upd_sysg, dentry_at, pcb_of in *.
  rewrite Hf. destruct s as [h g sg t c sv], sg as [pc ? ? ? ? ? ? ?], pc. cbn in *.
  unfold set_sysg, set_pcblock, set_dentry, aset, aget in *. cbn in *. do 3 f_equal.
  apply list_insert_id, list_lookup_lookup_total_lt. lia.
Qed.

(** the name is empty, or the directory does not hold it *)
Definition missing (fname : cptr) (s : kst) : Prop :=
  ldc (mem_of s) fname 0 = 0 \/ forall d, read_dentry_by_name fname d s = (-1, d).

Lemma missing_ext fname s s' : fsg s' = fsg s -> mem_of s' = mem_of s -> missing fname s -> missing fname s'.
Proof.
  unfold missing. intros Hg Hm [H0|Hd]; [left; now rewrite Hm | right]. intros d. now rewrite (lookup_ext _ _ s).
Qed.

Lemma filesystem_open_missing s fname :
  fd_ok s (fd_val (fsg s)) -> missing fname s -> filesystem_open fname s = Some (-1, s).
Proof.
  intros Hok Hd. unfold filesystem_open. rewrite strncmp_empty.
  destruct (Z.eqb_spec (ldc (mem_of s) fname 0) 0); [done|]. cbn [negb].
  assert (in_range (fd_val (fsg s)) 8 = true) as -> by (destruct Hok; unfold in_range; lia).
  destruct Hd as [|Hd]; [done|]. rewrite Hd. do 2 f_equal. now apply upd_dentry_same.
Qed.

(** open on a name that is not there touches the chosen descriptor's flags only *)
Lemma open_missing s fname k :
  is_null fname = false -> lowest_free s k -> pcb_wf (pcb_of s) -> 0 <= fd_val (fsg s) < 8 ->
  missing fname s ->
  open fname s = Some (-1, save_pcb (pcb_slot (find_pid (r_cr3 (cpu s))))
    (upd_file k (set_flags 0) (upd_sysg (set_fd_index k) s))).
Proof.
  intros Hnull Hk Hwf Hv Hd. unfold open. rewrite Hnull.
  change (find_first _ 7 FD_MIN) with (find_first (fun i => flags_at s i =? 0) 7 FD_MIN).
  rewrite (lowest_free_find s k Hk). destruct Hk as (Hk & _).
  unfold FILE_ARRAY_SIZE at 1. destruct (Z.eqb_spec k 8); [lia|].
  set (s1 := upd_sysg (set_fd_index k) (upd_sysg (set_fd_index FD_MIN) s)).
  assert (forall j, 0 <= j < 8 -> fd_ok s1 j) as Hok1 by (intros j Hj; now split).
  set (sa := upd_file k (set_flags 1) s1).
  assert (forall j, 0 <= j < 8 -> fd_ok sa j) as Hok by (intros j Hj; apply fd_ok_upd_file; auto).
  assert (missing fname sa) as Ha by now apply (missing_ext fname s).
  assert ((if negb (strncmp (mem_of sa) fname (Obj []) 1 =? 0)
    then upd_dentry k (fun d => snd (read_dentry_by_name fname d sa)) sa else sa) = sa) as ->.
  { rewrite strncmp_empty. destruct (Z.eqb_spec (ldc (mem_of sa) fname 0) 0); [done|].
    destruct Ha as [|Ha]; [done|]. apply upd_dentry_same; [apply Hok; lia | now rewrite Ha]. }
  rewrite filesystem_open_missing by (done || now apply Hok). rewrite bind_some.
  change (-1 =? -1) with true. cbv iota. do 3 f_equal. unfold sa. rewrite upd_file_upd_file by (apply Hok1; lia).
  reflexivity.
Qed.

(** open with every descriptor in use, and the word behind the table 0 *)
Lemma open_full s fname :
  is_null fname = false -> (forall j, 2 <= j < 8 -> flags (file_at s j) <> 0) -> flags_at s 8 = 0 ->
  open fname s = Some (-1, upd_sysg (set_fd_index 8) s).
Proof.
  intros Hnull Hfull H8. unfold open. rewrite Hnull.
  change (find_first _ 7 FD_MIN) with (find_first (fun i => flags_at s i =? 0) 7 FD_MIN).
  assert (find_first (fun i => flags_at s i =? 0) 7 FD_MIN = Some 8) as ->.
  { apply find_first_Some. unfold FD_MIN. split; [lia|]. split; [now apply Z.eqb_eq|].
    intros j Hj. unfold flags_at, FILE_ARRAY_SIZE. destruct (Z.ltb_spec j 8); [|lia].
    apply Z.eqb_neq, Hfull. lia. }
  reflexivity.
Qed.

(** open returns -1 for a NULL name, for a name the directory does not hold
    and when the descriptors 2 to 7 are all in use; no file structure and no
    directory entry of the process changes.  (The scan for a free descriptor
    looks at one slot too many, so the last case also needs the word behind
    the table to be 0.) *)
Theorem open_failures_change_no_descriptor s fname :
  pcb_wf (pcb_of s) -> 0 <= fd_val (fsg s) < 8 ->
  is_null fname = true \/
  (exists k, lowest_free s k /\ forall d, read_dentry_by_name fname d s = (-1, d)) \/
  ((forall j, 2 <= j < 8 -> flags (file_at s j) <> 0) /\ flags_at s 8 = 0) ->
  exists s', open fname s = Some (-1, s') /\
    (forall j, 0 <= j < 8 -> file_at s' j = file_at s j) /\
    (forall j, 0 <= j < 8 -> dentry_at s' j = dentry_at s j).
Proof.
  intros Hwf Hv Hcase.
  destruct (is_null fname) eqn:Hnull;
    [unfold open; rewrite Hnull; eexists; split; [reflexivity | done]|].
  destruct Hcase as [|[(k & Hk & Hd) | [Hfull H8]]]; [done | |].
  - pose proof Hk as (Hk2 & Hfl & _). rewrite (open_missing s fname k) by (done || now right).
    eexists. split; [reflexivity|]. unfold save_pcb. split; intros j Hj; autorewrite with kst; [|done].
    destruct (decide (j = k)) as [->|Hne].
    + rewrite file_at_upd_file by (split; [done | lia]). rewrite file_at_fd_index, <- Hfl.
      now destruct (file_at s k).
    + now rewrite file_at_upd_file_ne by lia.
  - rewrite open_full by assumption. eexists. split; [reflexivity | done].
Qed.

(** ** Closing *)

(** the device's close function, and the flags it clears *)
Lemma device_close_kept b s fd :
  fd_ok s fd -> 2 <= fd -> file_type (dentry_at s fd) = 0 ->
  let s' := if b : bool then upd_hw (fun h => snd (rtc_close fd h)) s
            else snd (filesystem_close fd s) in
  mem_of s' = mem_of s /\ (forall j, dentry_at s' j = dentry_at s j) /\
  set_flags 0 (file_at s' fd) = set_flags 0 (file_at s fd) /\
  (forall j, 0 <= j < 8 -> j <> fd -> file_at s' j = file_at s j) /\ fd_ok s' fd.
Proof.
  intros Hok H2 Hty. destruct b; [done|]. unfold filesystem_close. autorewrite with kst.
  rewrite Hty. change (0 =? 1) with false. cbv iota.
  destruct (Z.eqb_spec fd 0), (Z.eqb_spec fd 1); try lia. cbn [orb snd].
  assert (fd_ok (upd_fsg (set_fd_val fd) s) fd) as Hok' by done.
  split; [done|]. split; [done|]. split; [now rewrite file_at_upd_file|].
  split; [|now apply fd_ok_upd_file]. intros j Hj Hne.
  rewrite file_at_upd_file_ne by lia. now autorewrite with kst.
Qed.

Lemma null_fops_in q s : 0 <= q < 8 -> null_fops q s = Some (upd_file q (set_fops_ptr NULL_fops) s).
Proof.
  intros Hq. unfold null_fops, in_range, FILE_ARRAY_SIZE.
  destruct (Z.leb_spec 0 q), (Z.ltb_spec q 8); try lia. done.
Qed.

Lemma close_open s fd :
  let q := fd_index (sysg s) in
  fd_ok s fd -> 2 <= fd -> flags (file_at s fd) = 1 -> 0 <= q < 8 ->
  exists s', close fd s = Some (0, s') /\
    file_at s' fd = set_fpos 0 (set_flags 0 (if q =? fd then set_fops_ptr NULL_fops (file_at s fd)
                                              else file_at s fd)) /\
    dentry_at s' fd = zero_dentry /\
    (forall j, 0 <= j < 8 -> j <> fd ->
       file_at s' j = (if q =? j then set_fops_ptr NULL_fops (file_at s j) else file_at s j) /\
       dentry_at s' j = dentry_at s j) /\
    mem_of s' = mem_of s /\ pcb_wf (pcb_of s').
Proof.
  intros q Hok H2 Hfl Hq. pose proof Hok as [Hwf Hfd]. unfold close, FD_MAX, FD_MIN.
  destruct (Z.gtb_spec fd 7), (Z.ltb_spec fd 2); try lia. cbn [orb].
  rewrite Hfl. change (1 =? 1) with true. cbv iota.
  set (s1 := upd_file fd (set_fpos 0) s).
  set (s3 := upd_dentry fd (set_inode_number 0) _).
  change (fd_index (sysg s3)) with q. rewrite (null_fops_in q s3 Hq), bind_some. cbv beta zeta.
  set (s4 := upd_file q (set_fops_ptr NULL_fops) s3).
  set (s5 := upd_dentry fd (set_reserved (map (fun _ => 0) (zrange 0 B_24))) _).
  assert (fd_ok s1 fd) as Hok1 by now apply fd_ok_upd_file.
  assert (fd_ok s3 fd) as Hok3 by (unfold s3; auto 6 with kst).
  assert (fd_ok s4 fd) as Hok4 by (unfold s4; auto with kst).
  assert (fd_ok s5 fd) as Hok5 by (unfold s5; auto with kst).
  assert (dentry_at s5 fd = zero_dentry) as Hz.
  { unfold s5. rewrite !dentry_at_upd_dentry by auto with kst. unfold s4. autorewrite with kst.
    unfold s3. rewrite !dentry_at_upd_dentry by auto with kst. reflexivity. }
  assert (forall j, file_at s5 j = file_at s4 j) as Hf5
    by (intros; unfold s5; now autorewrite with kst).
  assert (forall j, file_at s3 j = file_at s1 j) as Hf3
    by (intros; unfold s3; now autorewrite with kst).
  assert (forall j, 0 <= j < 8 ->
    file_at s4 j = if q =? j then set_fops_ptr NULL_fops (file_at s1 j) else file_at s1 j) as Hf4.
  { intros j Hj. unfold s4. destruct (Z.eqb_spec q j) as [->|Hne].
    - rewrite file_at_upd_file, Hf3; [done|]. now destruct Hok3.
    - now rewrite file_at_upd_file_ne, Hf3 by lia. }
  destruct (device_close_kept ((fd_rtc (sysg s5) >? 1) && (fd =? fd_rtc (sysg s5))) s5 fd)
    as (Hm & Hd & Hf & Hfne & Hok6); [done | lia | now rewrite Hz |].
  set (s6 := if _ : bool then _ else _) in *.
  eexists. split; [reflexivity|]. split_and!.
  - rewrite file_at_upd_file, Hf, Hf5, Hf4 by (done || lia). unfold s1.
    rewrite file_at_upd_file by done. now destruct (q =? fd).
  - autorewrite with kst. now rewrite Hd.
  - intros j Hj Hne. autorewrite with kst. rewrite file_at_upd_file_ne, Hfne, Hf5, Hf4 by lia.
    unfold s1. rewrite file_at_upd_file_ne by lia. split; [done|]. rewrite Hd. unfold s5.
    rewrite !dentry_at_upd_dentry_ne by lia. unfold s4. autorewrite with kst. unfold s3.
    now rewrite !dentry_at_upd_dentry_ne by lia.
  - autorewrite with kst. now rewrite Hm.
  - now destruct (fd_ok_upd_file s6 fd fd (set_flags 0) Hok6).
Qed.


(** Closing a descriptor other than the one opened last leaves the latter
    in use but with a NULL jump table, so the next read or write of it calls
    through address 0. *)
Theorem close_breaks_last_opened s fd w buf nbytes :
  let q := fd_index (sysg s) in
  fd_ok s fd -> 2 <= fd -> flags (file_at s fd) = 1 -> 0 <= q < 8 -> q <> fd ->
  flags (file_at s q) <> 0 -> u32 buf <> 0 -> 0 <= nbytes ->
  exists s', close fd s = Some (0, s') /\ flags (file_at s' q) <> 0 /\
    read w q buf nbytes s' = None /\ write q (Addr buf) nbytes s' = None.
Proof.
  intros q Hok H2 Hfl Hq Hne Hflq Hb Hn.
  destruct (close_open s fd Hok H2 Hfl Hq) as (s' & E & _ & _ & Ho & _).
  exists s'. split; [exact E|]. destruct (Ho q Hq Hne) as [Hf _]. fold q in Hf.
  rewrite Z.eqb_refl in Hf. unfold read, write, is_null, FD_MAX. rewrite Hf.
  split; [done|]. change (flags (set_fops_ptr NULL_fops (file_at s q))) with (flags (file_at s q)).
  destruct (Z.eqb_spec (u32 buf) 0), (Z.ltb_spec q 0), (Z.gtb_spec q 7),
    (Z.eqb_spec (flags (file_at s q)) 0), (Z.ltb_spec nbytes 0); try done; lia.
Qed.

(** what getargs leaves in the buffer *)
Lemma getargs_fills s buf nbytes :
  pcb_wf (pcb_of s) -> 0 <= data_arg_size (pcb_of s) <= 40 ->
  Forall (fun c => 0 <= c < 256) (arg_name (pcb_of s)) -> u32 buf <> 0 -> 0 <= nbytes ->
  let n := data_arg_size (pcb_of s) `min` nbytes in
  exists m', getargs buf nbytes s = Some (0, upd_mem (fun _ => m') s) /\
    filled (mem_of s) m' buf 1024 (fun j => if j <? n then aget (arg_name (pcb_of s)) j else 0).
Proof.
  intros (_ & _ & _ & Hlen) Hsz Hc Hbuf Hnb n. unfold getargs.
  destruct (Z.eqb_spec (u32 buf) 0), (Z.ltb_spec nbytes 0); try done; try lia. cbn [orb].
  set (size := data_arg_size (pcb_of s)) in *.
  change (data_arg_size (pcb_of (upd_mem (zero_buf (Z.to_nat BUFF_MAX) 0 buf) s))) with size.
  assert ((if size <? nbytes then size else nbytes) = n) as ->
    by (unfold n; destruct (Z.ltb_spec size nbytes); lia).
  unfold copy_args. destruct (Z.leb_spec n 40); [|lia]. rewrite bind_some.
  set (z := zero_buf (Z.to_nat BUFF_MAX) 0 buf (mem_of s)).
  exists (wrl z buf (take (Z.to_nat n) (arg_name (pcb_of s)))). split; [done|].
  assert (filled (mem_of s) z buf 1024 (fun _ => 0)) as Hz
    by (pose proof (zero_buf_filled 1024 0 buf (mem_of s) ltac:(lia) ltac:(lia)) as Hz;
        rewrite Z.add_0_r in Hz; exact Hz).
  intros b. set (a := arg_name (pcb_of s)) in *.
  assert (length (take (Z.to_nat n) a) = Z.to_nat n) as Hl by (rewrite length_take; lia).
  rewrite rd_wrl, Hl, Z2Nat.id by lia. rewrite Hz. pose proof (u32_range (b - buf)).
  destruct (Z.ltb_spec (off buf b) n), (Z.ltb_spec (off buf b) 1024); try lia; try done.
  rewrite lookup_total_take, decide_True by lia. rewrite Forall_lookup in Hc.
  destruct (lookup_lt_is_Some_2 a (Z.to_nat (off buf b))) as [x Hx]; [lia|].
  unfold aget. rewrite (list_lookup_total_correct _ _ _ Hx). apply u8_small, (Hc _ _ Hx).
Qed.

(** getargs returns -1 for a NULL buffer or a negative size, and otherwise 0
    with the argument, cut to the buffer's size, at the start of the buffer.
    It always clears 1024 bytes, so a smaller buffer's neighbours are zeroed. *)
Theorem getargs_copies_argument s buf nbytes :
  pcb_wf (pcb_of s) -> 0 <= data_arg_size (pcb_of s) <= 40 ->
  Forall (fun c => 0 <= c < 256) (arg_name (pcb_of s)) ->
  let n := data_arg_size (pcb_of s) `min` nbytes in
  if (u32 buf =? 0) || (nbytes <? 0) then getargs buf nbytes s = Some (-1, s)
  else exists m', getargs buf nbytes s = Some (0, upd_mem (fun _ => m') s) /\
    filled (mem_of s) m' buf 1024 (fun j => if j <? n then aget (arg_name (pcb_of s)) j else 0).
Proof.
  intros Hwf Hsz Hc n. destruct ((u32 buf =? 0) || (nbytes <? 0)) eqn:Hb.
  - unfold getargs. now rewrite Hb.
  - apply orb_false_iff in Hb as [Hb%Z.eqb_neq Hnb%Z.ltb_ge]. now apply getargs_fills.
Qed.
End Calls2.

#[local] Existing Instance demo_platform.

(** descriptor 3 reads from file "fish", descriptor 2 was opened before it *)
Definition demo_opened : kst :=
  match open (Obj [108; 115]) demo_fs with
  | Some (_, s) => match open (Obj [102; 105; 115; 104]) s with Some (_, s) => s | None => s end
  | None => demo_fs
  end.

Lemma demo_found_fish : found demo_fs (Obj [102; 105; 115; 104]) 1.
Proof. split; [done|]. split; [done|]. intros d. destruct d. vm_compute. reflexivity. Qed.

Lemma demo_lowest_free : lowest_free demo_fs 2.
Proof. split; [lia|]. split; [done|]. lia. Qed.

Lemma open_returns_lowest_descriptor_witness :
  exists s', open (Obj [102; 105; 115; 104]) demo_fs = Some (2, s') /\ fpos (file_at s' 2) = 0.
Proof.
  destruct (open_returns_lowest_descriptor demo_fs (Obj [102; 105; 115; 104]) 1 2)
    as (s' & E & _ & Hp & _).
  - repeat split.
  - vm_compute. intuition discriminate.
  - exact demo_found_fish.
  - exact demo_lowest_free.
  - exists s'. split; [exact E|]. apply Hp. vm_compute. discriminate.
Defined.

Lemma demo_file_in_image :
  file_in_image (mem_of demo_fs) demo_boot 65536 (inode_addr demo_fs 1)
    (data_start (filesystem (fsg demo_fs))) (file_size demo_fs 1).
Proof. apply (ra_file _ _ _ _ _ _ _ (demo_readable 0 0 ltac:(lia) ltac:(lia))). Qed.

Lemma open_then_read_whole_file_witness :
  exists s', open (Obj [102; 105; 115; 104]) demo_fs = Some (2, s') /\
    read_all 9001 (Schedule [] []) 2 4194304 1024 s' = Some (file_content demo_fs 1).
Proof.
  apply (open_then_read_whole_file demo_fs (Obj [102; 105; 115; 104]) 1 2 (Schedule [] [])
    4194304 1024 demo_boot 65536).
  - repeat split.
  - vm_compute. intuition discriminate.
  - exact demo_found_fish.
  - exact demo_lowest_free.
  - vm_compute. reflexivity.
  - unfold region, demo_boot. lia.
  - unfold region. lia.
  - left. unfold demo_boot. lia.
  - lia.
  - discriminate.
  - exact demo_file_in_image.
  - vm_compute. intuition discriminate.
Defined.

Lemma bad_arguments_are_rejected_witness :
  read (Schedule [] []) 9 4194304 10 demo_fs = Some (-1, demo_fs).
Proof. apply (bad_arguments_are_rejected (Schedule [] []) 9 4194304 10 demo_fs). lia. Defined.

Lemma open_failures_change_no_descriptor_witness :
  exists s', open (Addr 0) demo_fs = Some (-1, s') /\ file_at s' 2 = file_at demo_fs 2.
Proof.
  destruct (open_failures_change_no_descriptor demo_fs (Addr 0)) as (s' & E & Hf & _).
  - repeat split.
  - vm_compute. intuition discriminate.
  - now left.
  - exists s'. split; [exact E | apply Hf; lia].
Defined.


Lemma close_breaks_last_opened_witness :
  exists s', close 2 demo_opened = Some (0, s') /\
    read (Schedule [] []) 3 4194304 10 s' = None.
Proof.
  destruct (close_breaks_last_opened demo_opened 2 (Schedule [] []) 4194304 10)
    as (s' & E & _ & Hr & _).
  - split; [repeat split | lia].
  - lia.
  - reflexivity.
  - vm_compute. intuition discriminate.
  - vm_compute. discriminate.
  - vm_compute. discriminate.
  - discriminate.
  - lia.
  - exists s'. split; [exact E | exact Hr].
Defined.

Lemma getargs_copies_argument_witness :
  exists m', getargs 4194304 10 demo_fs = Some (0, upd_mem (fun _ => m') demo_fs) /\
    filled (mem_of demo_fs) m' 4194304 1024
      (fun j => if j <? 0 then aget (arg_name (pcb_of demo_fs)) j else 0).
Proof.
  apply (getargs_copies_argument demo_fs 4194304 10).
  - repeat split.
  - cbn. lia.
  - apply Forall_replicate. lia.
Defined.
