(* ===== verification/Process.v ===== *)
(** * Processes (systemcalls.c): parse_cmd, execute, halt

    [execute] and [halt] leave the C calling convention: the first enters user
    mode with [iret], the second unwinds into the frame execute saved in the
    parent's PCB.  [outcome] says which way control goes; [None] is undefined
    behaviour (an array index out of range, a page fault, a PCB slot that was
    never written). *)

From Stdlib Require Import ZArith Lia String.
From stdpp Require Import base list gmap.
From S2P Require Import Prelude Memory CMem CStr Machine Console Pic Paging KState Filesystem TermIO Syscalls.
Open Scope Z_scope.

Definition CMD_LEN : Z := 40.
Definition MAX_TASKS : Z := 7.
Definition T_SHELL_MAX : Z := 3.
Definition MAX_FD : Z := 7.
Definition SDIN : Z := 0.
Definition SDOUT : Z := 1.
Definition MB_132 : Z := 138412032.      (* 0x08400000 *)
Definition KERNEL_DS : Z := 24.
Definition FILE_MIN : Z := 2.
Definition FILE_MAX : Z := 8.

Inductive outcome :=
| Returns (v : Z) (s : kst)               (* an ordinary C return *)
| EntersUser (eip esp : Z) (s : kst)      (* iret to user mode *)
| ResumesParent (eax : Z) (s : kst).      (* leave; ret in the frame of [r_ebp] *)

Definition state_of (o : outcome) : kst :=
  match o with Returns _ s | EntersUser _ _ s | ResumesParent _ s => s end.

(** ** parse_cmd *)

(** the locals of parse_cmd and the two PCB arrays it fills *)
Record parse_st := ParseSt {
  p_cmd : list Z; p_cmd_size : Z;
  p_arg : list Z; p_arg_size : Z;
  switch_flag : bool
}.

(** [name[size] = c; size++;] into an array of [CMD_LEN] bytes *)
Definition append_char (name : list Z) (size c : Z) : option (list Z * Z) :=
  if size <? CMD_LEN then Some (aset name size c, u8 (size + 1)) else None.

(** one round of the loops over [i]: [c] and [next] are [input[i]], [input[i + 1]] *)
Definition parse_char (c next : Z) (p : parse_st) : option parse_st :=
  p ← (if negb (switch_flag p) && negb (c =? 32) then
         '(cmd, n) ← append_char (p_cmd p) (p_cmd_size p) c;
         Some (ParseSt cmd n (p_arg p) (p_arg_size p) (switch_flag p))
       else Some p);
  p ← (if switch_flag p && negb (c =? 32) then
         '(arg, n) ← append_char (p_arg p) (p_arg_size p) c;
         Some (ParseSt (p_cmd p) (p_cmd_size p) arg n (switch_flag p))
       else Some p);
  Some (if negb (switch_flag p) && (next =? 32)
        then ParseSt (p_cmd p) (p_cmd_size p) (p_arg p) (p_arg_size p) true else p).

Fixpoint parse_loop (n : nat) (i : Z) (m : mem) (input : cptr) (p : parse_st) : option parse_st :=
  match n with
  | O => Some p
  | S n' =>
      p ← parse_char (ldc m input i) (ldc m input (i + 1)) p;
      parse_loop n' (i + 1) m input p
  end.

(** [for(i = 0; i < input_length; i++) if(input[i] == ' ') space_offset++;] *)
Fixpoint count_spaces (n : nat) (i : Z) (m : mem) (input : cptr) : Z :=
  match n with
  | O => 0
  | S n' => (if ldc m input i =? 32 then 1 else 0) + count_spaces n' (i + 1) m input
  end.

(** the new command name, argument and argument size; counters are [uint8_t] *)
Definition parse_cmd (input : cptr) (s : kst) : option kst :=
  len ← strlen STR_FUEL (mem_of s) input;
  let input_length := u8 len in
  let zeros := map (fun _ => 0) (zrange 0 CMD_LEN) in
  let start := if ldc (mem_of s) input 0 =? 32
               then u8 (count_spaces (Z.to_nat input_length) 0 (mem_of s) input) else 0 in
  p ← parse_loop (Z.to_nat (input_length - start)) start (mem_of s) input
        (ParseSt zeros 0 zeros 0 false);
  Some (upd_pcb (fun b => set_data_arg_size (p_arg_size p)
                            (set_arg_name (p_arg p) (set_cmd_name (p_cmd p) b))) s).

(** ** execute *)

Section Process.
Context `{Platform}.

(** [for(i = 1; i < MAX_TASKS; i++)]: slots 1, 4, 5 and 6 *)
Fixpoint free_task (fuel : nat) (i : Z) (tasks : list Z) : Z :=
  match fuel with
  | O => MAX_TASKS
  | S f =>
      if i <? MAX_TASKS then
        let i := if i =? 2 then i + i else i in
        if aget tasks i =? 0 then i else free_task f (i + 1) tasks
      else MAX_TASKS
  end.

Definition SHELL : list Z := chars "shell".
Definition is_shell (command : cptr) (s : kst) : bool :=
  strncmp (mem_of s) command (Obj SHELL) 5 =? 0.
Definition FULL_MESSAGE : list Z := chars "6 programs already open." ++ [10].

(** the choice of [new_pid], with the restart flag it clears *)
Definition choose_pid (command : cptr) (s : kst) : kst :=
  let g := sysg s in
  if pc (fsg s) =? 0 then upd_sysg (set_new_pid 1) s
  else if is_shell command s && negb (term1_rst g =? 0) then
    upd_sysg (fun g => set_new_pid 1 (set_term1_rst 0 g)) s
  else if is_shell command s && (negb (term2_press (trm s) =? 0) || negb (term2_rst g =? 0)) then
    upd_sysg (fun g => set_new_pid 2 (set_term2_rst 0 g)) s
  else if is_shell command s && (negb (term3_press (trm s) =? 0) || negb (term3_rst g =? 0)) then
    upd_sysg (fun g => set_new_pid 3 (set_term3_rst 0 g)) s
  else s.

(** [stdin], [stdout] open on the terminal, all else closed *)
Definition init_files (s : kst) : kst :=
  let s := upd_file SDIN (fun f => set_fops_ptr terminal_fops (set_flags 1 f)) s in
  let s := upd_file SDOUT (fun f => set_fops_ptr terminal_fops (set_flags 1 f)) s in
  fold_left (fun s i => upd_file i (set_flags 0) s) (zrange 2 (MAX_FD + 1)) s.

(** the [switch] that puts the new process's page directory in the PCB *)
Definition task_directory (p : Z) : option Z :=
  if p =? 1 then Some task1_page_directory
  else if p =? 2 then Some task2_page_directory
  else if p =? 3 then Some task3_page_directory
  else if p =? 4 then Some task4_page_directory
  else if p =? 5 then Some task5_page_directory
  else if p =? 6 then Some task6_page_directory
  else None.

(** the parent is recorded in [tasks]; its stack registers go to its PCB *)
Definition save_parent (cur_pid : Z) (s : kst) : kst :=
  let s := upd_sysg (fun g => set_tasks (aset (tasks g) (new_pid g) (u32 cur_pid)) g) s in
  let s := upd_pcb (fun b => set_ebp (r_ebp (cpu s)) (set_esp (r_esp (cpu s)) b)) s in
  if new_pid (sysg s) =? 1 then s
  else upd_pcb (set_prev_pcb (pcb_slot cur_pid)) (save_pcb (pcb_slot cur_pid) s).

(** the child's PCB is filled in and saved *)
Definition fill_pcb (cur_pid : Z) (s : kst) : kst :=
  let s := upd_pcb (set_cr3 (r_cr3 (cpu s))) s in
  let pcbptr := pcb_slot (new_pid (sysg s)) in
  let s := save_pcb pcbptr s in
  upd_pcb (fun b => set_parent_pid (u32 cur_pid) (set_prev_pcb pcbptr b)) s.

(** from the successful load on *)
Definition start_process (cur_pid eip : Z) (s : kst) : outcome :=
  let s := upd_trm (fun g => set_term3_press 0 (set_term2_press 0 g)) s in
  let s := fill_pcb cur_pid (init_files s) in
  match task_directory (new_pid (sysg s)) with
  | None => Returns (-1) s
  | Some pd =>
      let s := upd_pcb (set_cr3 pd) s in
      let s := upd_cpu (fun c => set_tss_esp0 (u32 (EIGHT_MB - KB_8 * (new_pid (sysg s) - 1) - START))
                                   (set_tss_ss0 KERNEL_DS c)) s in
      (* iret pops the EFLAGS pushed with IF set *)
      EntersUser eip (MB_132 - START) (upd_hw sti s)
  end.

Definition execute (command : cptr) (s : kst) : option outcome :=
  if is_null command then Some (Returns (-1) s)
  else
    let s := upd_pcb (set_cr3 (r_cr3 (cpu s))) s in
    let s := upd_sysg (set_new_pid MAX_TASKS) s in
    let cur_pid := find_pid (r_cr3 (cpu s)) in
    let s := upd_sysg (fun g => set_new_pid (free_task 7 1 (tasks g)) g) s in
    let s := choose_pid command s in
    if new_pid (sysg s) =? MAX_TASKS then
      '(_, s) ← write 1 (Obj FULL_MESSAGE) 25 s;
      Some (Returns (-1) s)
    else
      let cur_pid := if cur_pid =? 0 then cur_pid + 1 else cur_pid in
      let s := save_parent cur_pid s in
      s ← parse_cmd command s;
      '(eip, s) ← loader (Obj (cmd_name (pcb_of s))) s;
      if u32 eip =? u32 (-1) then Some (Returns (-1) s)
      else Some (start_process cur_pid (u32 eip) s).

(** ** halt *)

(** [for(i = FILE_MIN; i < FILE_MAX; i++) close(i);] *)
Fixpoint close_all (n : nat) (i : Z) (s : kst) : option kst :=
  match n with
  | O => Some s
  | S n' => '(_, s) ← close i s; close_all n' (i + 1) s
  end.

Definition halt (status : Z) (s : kst) : option outcome :=
  let pidf := find_pid (r_cr3 (cpu s)) in
  if pidf <=? T_SHELL_MAX then
    let s := if pidf =? 1 then upd_sysg (set_term1_rst 1) s
             else if pidf =? 2 then upd_sysg (set_term2_rst 1) s
             else if pidf =? 3 then upd_sysg (set_term3_rst 1) s else s in
    if pidf <? 0 then None                                   (* tasks[-1] *)
    else
      let s := upd_sysg (fun g => set_tasks (aset (tasks g) pidf 0) g) s in
      let s := upd_fsg (fun g => set_pc (u32 (pc g - 1)) g) s in
      o ← execute (Obj SHELL) s;
      Some (match o with Returns _ s => Returns 0 s | _ => o end)
  else
    let s := upd_fsg (fun g => set_pc (u32 (pc g - 1)) g) s in
    temp_pcb ← saved s !! pcb_slot (aget (tasks (sysg s)) pidf);
    let s := upd_sysg (fun g => set_tasks (aset (tasks g) pidf 0) g) s in
    s ← close_all (Z.to_nat (FILE_MAX - FILE_MIN)) FILE_MIN s;
    let s := upd_cpu (set_r_cr3 (cr3 temp_pcb)) s in
    let s := upd_cpu (fun c => set_tss_esp0
               (u32 (EIGHT_MB - KB_8 * (find_pid (r_cr3 c) - 1) - START)) c) s in
    let s := upd_cpu (set_r_esp (esp temp_pcb)) s in
    let s := upd_cpu (set_r_ebp (ebp temp_pcb)) s in
    Some (ResumesParent 0 s).
End Process.

(** ** What the file system and the parser leave alone *)

(** the state of processes other than the running one's PCB *)
Record proc_same (s s' : kst) : Prop := {
  ps_tasks : tasks (sysg s') = tasks (sysg s);
  ps_new_pid : new_pid (sysg s') = new_pid (sysg s);
  ps_fd_index : fd_index (sysg s') = fd_index (sysg s);
  ps_saved : saved s' = saved s;
  ps_cpu : cpu s' = cpu s;
  ps_pc : pc (fsg s') = pc (fsg s)
}.

#[export] Instance proc_same_preorder : PreOrder proc_same.
Proof.
  split; [now intros s|]. intros s1 s2 s3 [] []. split; congruence.
Qed.

Lemma proc_same_pcb f s : proc_same s (upd_pcb f s).
Proof. now split. Qed.
Lemma proc_same_file fd f s : proc_same s (upd_file fd f s).
Proof. now split. Qed.
Lemma proc_same_dentry fd f s : proc_same s (upd_dentry fd f s).
Proof. now split. Qed.
Lemma proc_same_mem f s : proc_same s (upd_mem f s).
Proof. now split. Qed.
Lemma proc_same_hw f s : proc_same s (upd_hw f s).
Proof. now split. Qed.
Lemma proc_same_trm f s : proc_same s (upd_trm f s).
Proof. now split. Qed.
#[export] Hint Resolve proc_same_pcb proc_same_file proc_same_dentry proc_same_mem proc_same_hw
  proc_same_trm : kst.

Lemma read_data_same inode offset buf n s r s' :
  read_data inode offset buf n s = Some (r, s') -> proc_same s s'.
Proof.
  unfold read_data. set (z := upd_mem _ s).
  assert (proc_same s z) as Hz by apply proc_same_mem.
  repeat case_match; try discriminate; try (intros [= <- <-]; exact Hz).
  all: intros (m' & _ & E)%bind_Some; case_match; [|discriminate]; injection E as <- <-.
  all: etrans; [exact Hz|]; etrans; [apply (proc_same_mem (fun _ => m'))|]; apply proc_same_file.
Qed.

Lemma parse_cmd_same input s s' : parse_cmd input s = Some s' -> proc_same s s'.
Proof.
  unfold parse_cmd. intros (len & _ & (p & _ & [= <-])%bind_Some)%bind_Some. apply proc_same_pcb.
Qed.

Lemma close_same fd s r s' : close fd s = Some (r, s') -> proc_same s s'.
Proof.
  unfold close. repeat case_match; try (intros [= <- <-]; reflexivity).
  intros (s1 & E & [= <- <-])%bind_Some. etrans; [|apply proc_same_file].
  set (s4 := upd_dentry fd (set_reserved _) _).
  assert (proc_same s s4) as H4.
  { unfold s4. etrans; [|apply proc_same_dentry]. etrans; [|apply proc_same_dentry].
    revert E. unfold null_fops. repeat case_match; intros [= <-]; now split. }
  etrans; [exact H4|]. case_match; [apply proc_same_hw|]. unfold filesystem_close.
  repeat case_match; now split.
Qed.

(** close cannot fail once the scan index of open is one it can leave behind *)
Lemma close_total fd s : 0 <= fd_index (sysg s) <= 8 -> exists r s', close fd s = Some (r, s').
Proof.
  intros Hq. unfold close. repeat case_match; try (eexists _, _; reflexivity).
  set (s3 := upd_dentry fd (set_inode_number 0) _).
  assert (exists s4, null_fops (fd_index (sysg s)) s3 = Some s4) as (s4 & E).
  { unfold null_fops, in_range, FILE_ARRAY_SIZE.
    destruct (Z.leb_spec 0 (fd_index (sysg s))), (Z.ltb_spec (fd_index (sysg s)) 8),
      (Z.eqb_spec (fd_index (sysg s)) 8); try lia; now eexists. }
  change (fd_index (sysg s3)) with (fd_index (sysg s)). rewrite E, bind_some.
  eexists _, _. reflexivity.
Qed.

Lemma close_all_same n i s :
  0 <= fd_index (sysg s) <= 8 -> exists s', close_all n i s = Some s' /\ proc_same s s'.
Proof.
  revert i s. induction n as [|n IH]; intros i s Hq; cbn [close_all]; [now eexists|].
  destruct (close_total i s Hq) as (r & s1 & E). rewrite E, bind_some.
  pose proof (close_same _ _ _ _ E) as Hs. destruct (IH (i + 1) s1) as (s' & E' & Hs').
  { now rewrite (ps_fd_index _ _ Hs). }
  exists s'. split; [exact E' | etrans; [exact Hs | exact Hs']].
Qed.

Section Frames.
Context `{Platform}.

(** the count of running programs, which [load_page_directory] keeps, but not
    for the shells of terminals 2 and 3 *)
Definition pc_after (p v : Z) : Z := if (p =? 2) || (p =? 3) then v else u32 (v + 1).

Lemma load_page_directory_effect s :
  let p := new_pid (sysg s) in
  1 <= p <= 6 ->
  load_page_directory s = upd_fsg (fun g => set_pc (pc_after p (pc g)) g)
    (upd_cpu (set_r_cr3 (proc_pd p)) s).
Proof.
  intros p Hp. unfold load_page_directory. fold p.
  assert (p = 1 \/ p = 2 \/ p = 3 \/ p = 4 \/ p = 5 \/ p = 6) as Hc by lia. clearbody p.
  destruct Hc as [-> | [-> | [-> | [-> | [-> | ->] ] ] ] ]; try reflexivity;
    destruct s as [h g sg t c sv]; now destruct g.
Qed.

(** a loader that fails has changed [dentry1] only; one that succeeds has
    switched to the new process's page directory *)
Lemma loader_effect filename s r s' :
  1 <= new_pid (sysg s) <= 6 -> loader filename s = Some (r, s') ->
  tasks (sysg s') = tasks (sysg s) /\ new_pid (sysg s') = new_pid (sysg s) /\
  fd_index (sysg s') = fd_index (sysg s) /\ saved s' = saved s /\
  r_esp (cpu s') = r_esp (cpu s) /\ r_ebp (cpu s') = r_ebp (cpu s) /\
  (r <> -1 \/ r_cr3 (cpu s') <> r_cr3 (cpu s) ->
     r_cr3 (cpu s') = proc_pd (new_pid (sysg s)) /\
     pc (fsg s') = pc_after (new_pid (sysg s)) (pc (fsg s))).
Proof.
  intros Hp. unfold loader. destruct (read_dentry_by_name _ _ _) as [r0 d].
  set (s1 := upd_fsg (set_dentry1 d) s).
  repeat case_match; try discriminate; try (intros [= <- <-]; split_and!; try done; intros [Hr|Hr]; done).
  intros ([r1 s2] & Er & Hb)%bind_Some. apply read_data_same in Er.
  cbv beta iota zeta in Hb. apply bind_Some in Hb as (s4 & Em & Hb). injection Hb as <- <-.
  unfold memcpy_virtual in Em. repeat case_match; try discriminate. injection Em as <-.
  destruct Er as [E1 E2 E3 E4 E5 E6].
  rewrite load_page_directory_effect by (rewrite E2; exact Hp).
  rewrite E2. cbn [new_pid sysg set_fsg]. kst_cbn. change (new_pid (sysg s1)) with (new_pid (sysg s)) in *.
  rewrite E1, E3, E4, E5, E6. split_and!; done.
Qed.

Lemma proc_same_fold {A} (f : kst -> A -> kst) l s :
  (forall s x, proc_same s (f s x)) -> proc_same s (fold_left f l s).
Proof.
  intros Hf. revert s. induction l as [|x l IH]; intros s; cbn [fold_left]; [reflexivity|].
  etrans; [apply (Hf s x) | apply IH].
Qed.

Lemma init_files_same s : proc_same s (init_files s).
Proof.
  unfold init_files. etrans; [apply (proc_same_file SDIN)|].
  etrans; [apply (proc_same_file SDOUT)|]. apply proc_same_fold. intros. apply proc_same_file.
Qed.

Lemma init_files_frame s :
  mem_of (init_files s) = mem_of s /\ arg_name (pcb_of (init_files s)) = arg_name (pcb_of s).
Proof.
  unfold init_files. split.
  - rewrite fold_kept; [done|]. intros. apply mem_of_upd_file.
  - rewrite (fold_kept (fun s => arg_name (pcb_of s))); [done|]. done.
Qed.

(** init_files on the PCB alone *)
Lemma init_files_pcb s :
  pcb_of (init_files s) =
  fold_left (fun p i => pcb_file i (set_flags 0) p) (zrange 2 (MAX_FD + 1))
    (pcb_file SDOUT (fun f => set_fops_ptr terminal_fops (set_flags 1 f))
      (pcb_file SDIN (fun f => set_fops_ptr terminal_fops (set_flags 1 f)) (pcb_of s))).
Proof.
  unfold init_files. generalize (zrange 2 (MAX_FD + 1)) as l. intros l.
  rewrite <- !pcb_of_upd_file. set (s1 := upd_file SDOUT _ _). clearbody s1. revert s1.
  induction l as [|i l IH]; intros s1; cbn [fold_left]; [done|].
  now rewrite IH, pcb_of_upd_file.
Qed.

Lemma free_task_range n i tasks : 1 <= i -> 1 <= free_task n i tasks <= 7.
Proof.
  revert i. induction n as [|n IH]; intros i Hi; cbn [free_task]; unfold MAX_TASKS; [lia|].
  destruct (Z.ltb_spec i 7); [|lia].
  destruct (Z.eqb_spec i 2); case_match; try lia; apply IH; lia.
Qed.

(** only the choice and a restart flag *)
Lemma choose_pid_effect command s :
  1 <= new_pid (sysg s) <= 7 ->
  let s' := choose_pid command s in
  1 <= new_pid (sysg s') <= 7 /\ tasks (sysg s') = tasks (sysg s) /\
  fd_index (sysg s') = fd_index (sysg s) /\ pcblock (sysg s') = pcblock (sysg s) /\
  saved s' = saved s /\ cpu s' = cpu s /\ fsg s' = fsg s /\ hw s' = hw s.
Proof.
  intros Hp s'. subst s'. unfold choose_pid.
  repeat case_match; kst_cbn; split_and!; (done || lia).
Qed.

Lemma task_directory_pd q : 1 <= q <= 6 -> task_directory q = Some (proc_pd q).
Proof.
  intros Hq. assert (q = 1 \/ q = 2 \/ q = 3 \/ q = 4 \/ q = 5 \/ q = 6) as Hc by lia.
  now destruct Hc as [-> | [-> | [-> | [-> | [-> | ->] ] ] ] ].
Qed.

Lemma find_pid_proc_pd p : 0 <= p <= 6 -> find_pid (proc_pd p) = p.
Proof. apply get_pid_proc_pd. Qed.

(** the last part of execute *)
Lemma start_process_effect cur_pid eip s :
  let q := new_pid (sysg s) in
  1 <= q <= 6 ->
  exists b s', start_process cur_pid eip s = EntersUser eip (MB_132 - START) s' /\
    tasks (sysg s') = tasks (sysg s) /\ new_pid (sysg s') = q /\
    fd_index (sysg s') = fd_index (sysg s) /\ saved s' = <[pcb_slot q := b]> (saved s) /\
    r_cr3 (cpu s') = r_cr3 (cpu s) /\ r_esp (cpu s') = r_esp (cpu s) /\
    r_ebp (cpu s') = r_ebp (cpu s) /\
    tss_esp0 (cpu s') = u32 (EIGHT_MB - KB_8 * (q - 1) - START) /\
    pc (fsg s') = pc (fsg s) /\ parent_pid (pcb_of s') = u32 cur_pid /\
    file_struct (pcb_of s') = file_struct (pcb_of (init_files s)) /\
    arg_name (pcb_of s') = arg_name (pcb_of s) /\ mem_of s' = mem_of s.
Proof.
  intros q Hq. unfold start_process.
  set (s1 := init_files (upd_trm _ s)).
  assert (file_struct (pcb_of s1) = file_struct (pcb_of (init_files s)) /\
    arg_name (pcb_of s1) = arg_name (pcb_of s) /\ mem_of s1 = mem_of s) as (E7 & E8 & E9).
  { unfold s1. set (s0 := upd_trm _ s). destruct (init_files_frame s0) as [-> ->].
    split; [|done]. rewrite !init_files_pcb. now replace (pcb_of s0) with (pcb_of s) by reflexivity. }
  assert (proc_same s s1) as [E1 E2 E3 E4 E5 E6]
    by (etrans; [apply (proc_same_trm (fun g => set_term3_press 0 (set_term2_press 0 g)))
                | apply init_files_same]).
  clearbody s1. destruct s1 as [h1 g1 [b1 fi1 np1 fr1 ta1 r1 r2 r3] t1 [c1 c2 c3 c4 c5] v1].
  destruct b1. unfold pcb_of, mem_of in E7, E8, E9. cbn in E1, E2, E3, E4, E5, E6, E7, E8, E9.
  subst np1. set (s2 := fill_pcb cur_pid _).
  assert (new_pid (sysg s2) = q) as E10 by reflexivity. rewrite E10, task_directory_pd by done.
  eexists _, _. split; [reflexivity|].
  apply (f_equal r_cr3) in E5 as F1. apply (f_equal r_esp) in E5 as F2. apply (f_equal r_ebp) in E5 as F3.
  split_and!; [exact E1 | done | exact E3 | | exact F1 | exact F2 | exact F3 | done | exact E6 | done
              | exact E7 | exact E8 | exact E9].
  rewrite <- E4. reflexivity.
Qed.

(** the process number execute runs under *)
Definition current_pid (s : kst) : Z :=
  let p := find_pid (r_cr3 (cpu s)) in if p =? 0 then 1 else p.

(** a successful execute, as seen by the rest of the kernel *)
Record launched (s s' : kst) (q : Z) : Prop := {
  la_pid : new_pid (sysg s') = q /\ 1 <= q <= 6;
  la_tasks : tasks (sysg s') = aset (tasks (sysg s)) q (u32 (current_pid s));
  la_fd_index : fd_index (sysg s') = fd_index (sysg s);
  la_cr3 : r_cr3 (cpu s') = proc_pd q;
  la_stack : tss_esp0 (cpu s') = u32 (EIGHT_MB - KB_8 * (q - 1) - START);
  la_saved : exists b c, saved s' = <[pcb_slot q := c]>
      (if q =? 1 then saved s else <[pcb_slot (current_pid s) := b]> (saved s)) /\
      cr3 b = r_cr3 (cpu s) /\ esp b = r_esp (cpu s) /\ ebp b = r_ebp (cpu s);
  la_pc : pc (fsg s') = pc_after q (pc (fsg s))
}.

Lemma save_parent_effect p s :
  let s' := save_parent p s in
  new_pid (sysg s') = new_pid (sysg s) /\
  tasks (sysg s') = aset (tasks (sysg s)) (new_pid (sysg s)) (u32 p) /\
  fd_index (sysg s') = fd_index (sysg s) /\ cpu s' = cpu s /\ fsg s' = fsg s /\
  saved s' = (if new_pid (sysg s) =? 1 then saved s
              else <[pcb_slot p := set_ebp (r_ebp (cpu s)) (set_esp (r_esp (cpu s)) (pcb_of s))]> (saved s)).
Proof.
  unfold save_parent, save_pcb. kst_cbn. destruct (new_pid (sysg s) =? 1); kst_cbn; split_and!; done.
Qed.

Lemma execute_launched command s eip usp s' :
  execute command s = Some (EntersUser eip usp s') ->
  usp = MB_132 - START /\ launched s s' (new_pid (sysg s')).
Proof.
  unfold execute. case_match; [done|].
  set (s1 := upd_sysg (fun g => set_new_pid (free_task 7 1 (tasks g)) g) _).
  pose proof (choose_pid_effect command s1 (free_task_range 7 1 (tasks (sysg s)) ltac:(lia)))
    as (Hq & E1 & E2 & E3 & E4 & E5 & E6 & _).
  set (s2 := choose_pid command s1) in *. case_match eqn:Hfull;
    [intros ([r w] & _ & Hb)%bind_Some; discriminate|]. apply Z.eqb_neq in Hfull.
  unfold MAX_TASKS in Hfull.
  change (r_cr3 (cpu (upd_sysg (set_new_pid MAX_TASKS) (upd_pcb (set_cr3 (r_cr3 (cpu s))) s))))
    with (r_cr3 (cpu s)).
  assert ((if find_pid (r_cr3 (cpu s)) =? 0 then find_pid (r_cr3 (cpu s)) + 1
           else find_pid (r_cr3 (cpu s))) = current_pid s) as ->
    by (unfold current_pid; destruct (Z.eqb_spec (find_pid (r_cr3 (cpu s))) 0); lia).
  pose proof (save_parent_effect (current_pid s) s2) as (P1 & P2 & P3 & P4 & P5 & P6).
  set (q := new_pid (sysg s2)) in *. set (s4 := save_parent (current_pid s) s2) in *.
  intros (s5 & [A1 A2 A3 A4 A5 A6]%parse_cmd_same & Hb)%bind_Some.
  apply bind_Some in Hb as ([e s6] & Hload & Hb).
  apply loader_effect in Hload as (L1 & L2 & L3 & L4 & L5 & L6 & L7); [|rewrite A2, P1; lia].
  cbv beta iota in Hb. destruct (Z.eqb_spec (u32 e) (u32 (-1))) as [|Hne]; [discriminate|].
  destruct L7 as [L7 L8]; [left; intros ->; done|].
  assert (new_pid (sysg s6) = q) as H6 by congruence.
  destruct (start_process_effect (current_pid s) (u32 e) s6) as
    (c & s7 & E & S1 & S2 & S3 & S4 & S5 & S6 & S7 & S8 & S9 & _); [lia|].
  rewrite E in Hb. injection Hb as <- <- <-. split; [done|]. rewrite S2, H6.
  split.
  - split; [congruence | lia].
  - rewrite S1, L1, A1, P2, E1. done.
  - rewrite S3, L3, A3, P3, E2. done.
  - rewrite S5, L7, A2, P1. done.
  - rewrite S8, H6. done.
  - exists (set_ebp (r_ebp (cpu s)) (set_esp (r_esp (cpu s)) (pcb_of s2))), c.
    rewrite S4, H6, L4, A4, P6, E4, E5. split; [done|]. split; [|done].
    unfold pcb_of. rewrite E3. done.
  - rewrite S9, L8, A2, A6, P1, P5, E6. done.
Qed.
End Frames.

(** ** Creating and ending processes *)

Lemma pcb_slot_inj p q : 0 <= p <= 6 -> 0 <= q <= 6 -> pcb_slot p = pcb_slot q -> p = q.
Proof. intros Hp Hq. unfold pcb_slot, EIGHT_MB, STACK_EIGHTKB, START, T_6. zlia. Qed.

Section Lifecycle.
Context `{Platform}.

(** halting a process other than a shell, given its parent's saved PCB *)
Lemma halt_resumes s status p q b :
  r_cr3 (cpu s) = proc_pd q -> 4 <= q <= 6 -> aget (tasks (sysg s)) q = p ->
  saved s !! pcb_slot p = Some b -> cr3 b = proc_pd p -> 1 <= p <= 6 ->
  0 <= fd_index (sysg s) <= 8 ->
  exists s', halt status s = Some (ResumesParent 0 s') /\
    r_cr3 (cpu s') = proc_pd p /\ r_esp (cpu s') = esp b /\ r_ebp (cpu s') = ebp b /\
    tss_esp0 (cpu s') = u32 (EIGHT_MB - KB_8 * (p - 1) - START) /\
    tasks (sysg s') = aset (tasks (sysg s)) q 0 /\ pc (fsg s') = u32 (pc (fsg s) - 1).
Proof.
  intros Hcr Hq Ht Hsv Hb Hp Hfd. unfold halt. rewrite Hcr, find_pid_proc_pd by lia.
  unfold T_SHELL_MAX. destruct (Z.leb_spec q 3); [lia|]. cbv zeta. kst_cbn.
  rewrite Ht, Hsv, bind_some.
  set (s1 := upd_sysg _ _).
  destruct (close_all_same (Z.to_nat (FILE_MAX - FILE_MIN)) FILE_MIN s1) as (s2 & E & [E1 _ _ _ E5 E6]);
    [exact Hfd|]. rewrite E, bind_some.
  eexists. split; [reflexivity|]. kst_cbn. rewrite Hb, find_pid_proc_pd, E1, E6 by lia.
  split_and!; done.
Qed.

(** C7: Round trip of execute and halt for the programs that run above a shell,
    in task slots 4 to 6: a process started by execute whose parent is process
    [p] runs in its own address space; when it halts, whatever it did to
    memory, files and its PCB in between (while it runs in its own address
    space again, and the task table and the parent's saved PCB are as they
    were, and the scan index of open is one that open leaves), the parent's
    address space, kernel stack pointer, frame pointer and TSS stack are back,
    its task slot is free again, and execute's caller receives 0.  A process in
    slots 1 to 3, a terminal's shell, is not covered: its halt executes the
    shell again.  *)
Theorem halt_returns_to_caller_of_execute command s eip usp s1 s2 status p :
  let q := new_pid (sysg s1) in
  execute command s = Some (EntersUser eip usp s1) ->
  r_cr3 (cpu s) = proc_pd p -> 1 <= p <= 6 -> 4 <= q -> q <> p ->
  length (tasks (sysg s)) = 7%nat ->
  r_cr3 (cpu s2) = r_cr3 (cpu s1) -> tasks (sysg s2) = tasks (sysg s1) ->
  saved s2 !! pcb_slot p = saved s1 !! pcb_slot p -> 0 <= fd_index (sysg s2) <= 8 ->
  r_cr3 (cpu s1) = proc_pd q /\
  exists s3, halt status s2 = Some (ResumesParent 0 s3) /\
    r_cr3 (cpu s3) = r_cr3 (cpu s) /\ r_esp (cpu s3) = r_esp (cpu s) /\
    r_ebp (cpu s3) = r_ebp (cpu s) /\
    tss_esp0 (cpu s3) = EIGHT_MB - KB_8 * (p - 1) - START /\
    tasks (sysg s3) = aset (tasks (sysg s)) q 0 /\
    pc (fsg s3) = u32 (pc (fsg s2) - 1).
Proof.
  intros q He Hcr Hp Hq Hqp Hlen Hcr2 Ht2 Hsv2 Hfd2.
  apply execute_launched in He as [_ Hla]. fold q in Hla. pose proof Hla as [[_ Hq6] Ht _ Hc _ (b & c & Hs & Hb1 & Hb2 & Hb3) _].
  split; [exact Hc|].
  assert (current_pid s = p) as Hcur.
  { unfold current_pid. rewrite Hcr, find_pid_proc_pd by lia. destruct (Z.eqb_spec p 0); lia. }
  rewrite Hcur, u32_small in Ht by lia.
  assert (saved s2 !! pcb_slot p = Some b) as Hsv.
  { rewrite Hsv2, Hs. destruct (Z.eqb_spec q 1); [lia|]. rewrite Hcur.
    rewrite lookup_insert_ne by (intros Heq; apply pcb_slot_inj in Heq; lia).
    apply lookup_insert_eq. }
  destruct (halt_resumes s2 status p q b) as (s3 & E & H1 & H2 & H3 & H4 & H5 & H6);
    [congruence | lia | | done | congruence | lia | done |].
  { rewrite Ht2, Ht. apply (aget_aset_eq (tasks (sysg s))). lia. }
  exists s3. split; [exact E|]. rewrite H1, H2, H3, H4, H5, H6, Ht2, Ht, (aset_aset (tasks (sysg s))).
  split_and!; try congruence.
  unfold EIGHT_MB, KB_8, START. apply u32_small. lia.
Qed.
End Lifecycle.

(** ** Splitting the command line *)

(** the text up to the first space, what follows, and a text without spaces *)
Fixpoint word (t : list Z) : list Z :=
  match t with [] => [] | c :: t' => if c =? 32 then [] else c :: word t' end.
Fixpoint after_word (t : list Z) : list Z :=
  match t with [] => [] | c :: t' => if c =? 32 then t else after_word t' end.
Definition nonspaces (t : list Z) : list Z := List.filter (fun c => negb (c =? 32)) t.

(** an array of [CMD_LEN] bytes that holds [l] *)
Definition padded (l : list Z) : list Z := l ++ replicate (40 - length l) 0.

(** the string [t], NUL-terminated, at [p] *)
Definition string_at (m : mem) (p : cptr) (t : list Z) : Prop :=
  text_at m p 0 t /\ ldc m p (Z.of_nat (length t)) = 0 /\ Forall (fun c => 0 < c < 256) t.

Lemma append_padded l c :
  (length l < 40)%nat ->
  append_char (padded l) (Z.of_nat (length l)) c = Some (padded (l ++ [c]), Z.of_nat (length (l ++ [c]))).
Proof.
  intros Hl. unfold append_char, CMD_LEN. destruct (Z.ltb_spec (Z.of_nat (length l)) 40); [|lia].
  rewrite length_app. cbn [length]. rewrite u8_small by lia. f_equal. f_equal; [|lia].
  unfold padded, aset. rewrite Nat2Z.id, insert_app_r_alt, Nat.sub_diag by lia.
  rewrite length_app. cbn [length].
  replace (40 - length l)%nat with (S (40 - (length l + 1))) by lia. cbn [replicate].
  rewrite <- app_assoc. done.
Qed.

(** characters [i, ...) of the input are [u], then a NUL *)
Definition suffix_at (m : mem) (p : cptr) (i : Z) (u : list Z) : Prop :=
  text_at m p i u /\ ldc m p (i + Z.of_nat (length u)) = 0.

Lemma suffix_cons m p i c u :
  suffix_at m p i (c :: u) -> ldc m p i = c /\ suffix_at m p (i + 1) u /\
    ldc m p (i + 1) = hd 0 u.
Proof.
  intros [Ht Hz].
  assert (suffix_at m p (i + 1) u) as Hu.
  { split.
    - intros j Hj. specialize (Ht (j + 1)). cbn [length] in Ht.
      replace (i + 1 + j) with (i + (j + 1)) by lia. rewrite Ht by lia. unfold aget.
      now replace (Z.to_nat (j + 1)) with (S (Z.to_nat j)) by lia.
    - rewrite <- Hz. f_equal. cbn [length]. lia. }
  split; [|split; [exact Hu|]].
  - specialize (Ht 0). rewrite Z.add_0_r in Ht. apply Ht. cbn [length]. lia.
  - destruct Hu as [Hu Hu0]. destruct u as [|d u]; cbn [hd].
    + cbn [length] in Hu0. now rewrite Z.add_0_r in Hu0.
    + specialize (Hu 0). rewrite Z.add_0_r in Hu. apply Hu. cbn [length]. lia.
Qed.

(** one character, before and after the end of the command word *)
Lemma parse_char_cmd c next w a n :
  c <> 32 -> (length w < 40)%nat ->
  parse_char c next (ParseSt (padded w) (Z.of_nat (length w)) a n false) =
  Some (ParseSt (padded (w ++ [c])) (Z.of_nat (length (w ++ [c]))) a n (next =? 32)).
Proof.
  intros Hc Hw. unfold parse_char. cbn [switch_flag negb andb p_cmd p_cmd_size p_arg p_arg_size].
  destruct (Z.eqb_spec c 32); [done|]. cbn [negb]. rewrite append_padded by done.
  now destruct (next =? 32).
Qed.

Lemma parse_char_arg c next cmd n a :
  (length a < 40)%nat ->
  parse_char c next (ParseSt cmd n (padded a) (Z.of_nat (length a)) true) =
  let a' := if c =? 32 then a else a ++ [c] in
  Some (ParseSt cmd n (padded a') (Z.of_nat (length a')) true).
Proof.
  intros Ha. unfold parse_char. cbn [switch_flag negb andb p_cmd p_cmd_size p_arg p_arg_size].
  destruct (Z.eqb_spec c 32); [done|]. cbn [negb]. rewrite bind_some.
  cbn [switch_flag negb andb p_cmd p_cmd_size p_arg p_arg_size]. now rewrite append_padded.
Qed.

Lemma parse_char_space next cmd n a k :
  parse_char 32 next (ParseSt cmd n a k true) = Some (ParseSt cmd n a k true).
Proof. done. Qed.

(** after the command word: every other character goes to the argument *)
Lemma parse_rest m p u i cmd n a :
  suffix_at m p i u -> (length a + length (nonspaces u) <= 40)%nat ->
  parse_loop (length u) i m p (ParseSt cmd n (padded a) (Z.of_nat (length a)) true) =
  Some (ParseSt cmd n (padded (a ++ nonspaces u)) (Z.of_nat (length (a ++ nonspaces u))) true).
Proof.
  revert i a. induction u as [|c u IH]; intros i a Hs Ha; cbn [length parse_loop].
  - cbn. now rewrite app_nil_r.
  - apply suffix_cons in Hs as (Hc & Hs & _). rewrite Hc.
    unfold nonspaces in *. cbn [List.filter] in *.
    destruct (Z.eqb_spec c 32) as [->|Hne]; cbn [negb] in *.
    + rewrite parse_char_space, bind_some. now apply IH.
    + cbn [length] in Ha. rewrite parse_char_arg, bind_some by lia. cbv zeta.
      destruct (Z.eqb_spec c 32); [done|].
      rewrite IH; [|done | rewrite length_app; cbn [length]; lia].
      rewrite <- !app_assoc. done.
Qed.

(** the command word, then the argument *)
Lemma parse_words m p u i w :
  suffix_at m p i u -> hd 0 u <> 32 ->
  (length w + length (word u) <= 40)%nat -> (length (nonspaces (after_word u)) <= 40)%nat ->
  exists sw, parse_loop (length u) i m p (ParseSt (padded w) (Z.of_nat (length w)) (padded []) 0 false) =
  Some (ParseSt (padded (w ++ word u)) (Z.of_nat (length (w ++ word u)))
    (padded (nonspaces (after_word u))) (Z.of_nat (length (nonspaces (after_word u)))) sw).
Proof.
  revert i w. induction u as [|c u IH]; intros i w Hs Hhd Hw Ha; cbn [length parse_loop].
  - exists false. cbn. now rewrite app_nil_r.
  - apply suffix_cons in Hs as (Hc & Hs & Hn). rewrite Hc, Hn.
    cbn [hd] in Hhd. cbn [word after_word] in Hw, Ha |- *.
    destruct (Z.eqb_spec c 32) as [|Hne]; [done|]. cbn [length] in Hw.
    rewrite parse_char_cmd, bind_some by (done || lia).
    destruct (Z.eqb_spec (hd 0 u) 32) as [E|E].
    + exists true. assert (word u = []) as Hwu by (destruct u; [done|]; cbn [word hd] in *; now rewrite E).
      assert (after_word u = u) as Hau by (destruct u; [done|]; cbn [after_word hd] in *; now rewrite E).
      rewrite Hwu, Hau in *.
      pose proof (parse_rest m p u (i + 1) (padded (w ++ [c])) (Z.of_nat (length (w ++ [c]))) [] Hs) as Hr.
      cbn [length app] in Hr. now apply Hr.
    + destruct (IH (i + 1) (w ++ [c]) Hs E) as (sw & Hr); [rewrite length_app; cbn [length]; lia | done |].
      exists sw. rewrite Hr. rewrite <- !app_assoc. done.
Qed.

Lemma count_spaces_at m p u i :
  suffix_at m p i u ->
  count_spaces (length u) i m p = Z.of_nat (length (List.filter (fun c => c =? 32) u)).
Proof.
  revert i. induction u as [|c u IH]; intros i Hs; cbn [length count_spaces List.filter]; [done|].
  apply suffix_cons in Hs as (Hc & Hs & _). rewrite Hc, IH by done.
  destruct (c =? 32); cbn [length]; lia.
Qed.

Lemma suffix_drop m p t k :
  (k <= length t)%nat -> suffix_at m p 0 t -> suffix_at m p (Z.of_nat k) (drop k t).
Proof.
  intros Hk [Ht Hz]. split.
  - intros j Hj. rewrite length_drop in Hj. specialize (Ht (Z.of_nat k + j)).
    rewrite Z.add_0_l in Ht. rewrite Ht by lia. unfold aget. rewrite lookup_total_drop.
    f_equal. lia.
  - rewrite length_drop. rewrite <- Hz. f_equal. lia.
Qed.

Lemma string_strlen (m : mem) p t :
  string_at m p t -> (length t < STR_FUEL)%nat -> strlen STR_FUEL m p = Some (Z.of_nat (length t)).
Proof.
  intros (Ht & Hz & Hc) Hf. apply strlen_spec. split; [lia|]. split; [done|].
  intros j Hj. specialize (Ht j Hj). rewrite Z.add_0_l in Ht. rewrite Ht.
  rewrite Forall_lookup in Hc. destruct (lookup_lt_is_Some_2 t (Z.to_nat j)) as [x Hx]; [lia|].
  unfold aget. rewrite (list_lookup_total_correct _ _ _ Hx). specialize (Hc _ _ Hx). cbn in Hc. lia.
Qed.

(** the text parse_cmd splits: a leading space makes it skip as many
    characters as the line has spaces anywhere *)
Definition command_text (t : list Z) : list Z :=
  if hd 0 t =? 32 then drop (length (List.filter (fun c => c =? 32) t)) t else t.

(** a single space in front of the first word is skipped; behind two or more
    the command word is taken to be over *)
Definition trim_space (u : list Z) : list Z :=
  match u with
  | c :: v => if (c =? 32) && negb (hd 0 v =? 32) then v else u
  | [] => []
  end.

Lemma trim_space_word u : hd 0 u <> 32 -> trim_space u = u.
Proof. destruct u as [|c u]; cbn; [done|]. intros Hc. now destruct (Z.eqb_spec c 32). Qed.

(** the same from the start of any text *)
Lemma parse_trimmed m p u i :
  let v := trim_space u in
  suffix_at m p i u -> (length (word v) <= 40)%nat -> (length (nonspaces (after_word v)) <= 40)%nat ->
  exists sw, parse_loop (length u) i m p (ParseSt (padded []) 0 (padded []) 0 false) =
  Some (ParseSt (padded (word v)) (Z.of_nat (length (word v)))
    (padded (nonspaces (after_word v))) (Z.of_nat (length (nonspaces (after_word v)))) sw).
Proof.
  intros v Hs Hw Ha. destruct (decide (hd 0 u = 32)) as [H32|Hne].
  - destruct u as [|c u]; [done|]. cbn [hd] in H32. subst c.
    apply suffix_cons in Hs as (Hc & Hs & Hn). cbn [length parse_loop]. rewrite Hc, Hn.
    change (parse_char 32 (hd 0 u) (ParseSt (padded []) 0 (padded []) 0 false))
      with (Some (if negb false && (hd 0 u =? 32) then ParseSt (padded []) 0 (padded []) 0 true
                  else ParseSt (padded []) 0 (padded []) 0 false)).
    rewrite bind_some. cbn [negb andb]. subst v. cbn [trim_space] in Hw, Ha |- *. rewrite Z.eqb_refl in *.
    cbn [andb] in *. destruct (Z.eqb_spec (hd 0 u) 32) as [Hu|Hu]; cbn [negb] in *.
    + exists true. exact (parse_rest m p u (i + 1) (padded []) 0 [] Hs Ha).
    + exact (parse_words m p u (i + 1) [] Hs Hu Hw Ha).
  - revert Hw Ha. subst v. rewrite (trim_space_word u Hne). intros Hw Ha. exact (parse_words m p u i [] Hs Hne Hw Ha).
Qed.

Lemma line_fuel : (256 <= STR_FUEL)%nat.
Proof. apply Nat.leb_le. reflexivity. Qed.

Lemma parse_cmd_line s p t :
  let v := trim_space (command_text t) in
  string_at (mem_of s) p t -> (length t < 256)%nat ->
  (length (word v) <= 40)%nat -> (length (nonspaces (after_word v)) <= 40)%nat ->
  parse_cmd p s = Some (upd_pcb (fun b =>
    set_data_arg_size (Z.of_nat (length (nonspaces (after_word v))))
      (set_arg_name (padded (nonspaces (after_word v))) (set_cmd_name (padded (word v)) b))) s).
Proof.
  intros v Hs Hl Hw Ha. unfold parse_cmd. pose proof line_fuel.
  rewrite (string_strlen _ _ t), bind_some by (done || lia). rewrite u8_small by lia.
  destruct Hs as (Ht & Hz & _). assert (suffix_at (mem_of s) p 0 t) as Hsuf by done.
  assert (ldc (mem_of s) p 0 = hd 0 t) as ->.
  { destruct t as [|c t]; [done|]. now apply suffix_cons in Hsuf as (-> & _). }
  rewrite Nat2Z.id, count_spaces_at by done.
  set (k := length (List.filter (fun c => c =? 32) t)).
  assert (k <= length t)%nat as Hk by apply List.filter_length_le.
  rewrite (u8_small (Z.of_nat k)) by lia.
  change (map (fun _ => 0) (zrange 0 CMD_LEN)) with (padded []).
  assert (exists k0, (if hd 0 t =? 32 then Z.of_nat k else 0) = Z.of_nat k0 /\ (k0 <= length t)%nat /\
    command_text t = drop k0 t) as (k0 & -> & Hk0 & Hu).
  { unfold command_text. fold k. destruct (hd 0 t =? 32); [now exists k | exists 0%nat].
    split; [done|]. split; [lia | done]. }
  replace (Z.to_nat (Z.of_nat (length t) - Z.of_nat k0)) with (length (command_text t))
    by (rewrite Hu, length_drop; lia).
  destruct (parse_trimmed (mem_of s) p (command_text t) (Z.of_nat k0)) as (sw & E); try done.
  { rewrite Hu. now apply suffix_drop. }
  now rewrite E.
Qed.

Lemma parse_cmd_spec s p t :
  let u := command_text t in
  string_at (mem_of s) p t -> (length t < 256)%nat -> hd 0 u <> 32 ->
  (length (word u) <= 40)%nat -> (length (nonspaces (after_word u)) <= 40)%nat ->
  parse_cmd p s = Some (upd_pcb (fun b =>
    set_data_arg_size (Z.of_nat (length (nonspaces (after_word u))))
      (set_arg_name (padded (nonspaces (after_word u))) (set_cmd_name (padded (word u)) b))) s).
Proof.
  intros u Hs Hl Hhd Hw Ha. pose proof (parse_cmd_line s p t) as E. cbv zeta in E. fold u in E.
  rewrite (trim_space_word u Hhd) in E. now apply E.
Qed.

(** C25: parse_cmd splits a command line of at most 255 characters at its first
    space: the command name is the text before it, the argument is everything
    after it without its spaces, both at most 40 characters and zero-padded,
    and the argument's size is recorded.  With a leading space, what is split
    is not the line but what is left when as many characters are cut off its
    front as it has spaces anywhere ([command_text]); if that starts with one
    space, it is skipped, and if it starts with two, the name is empty. *)
Theorem parse_cmd_splits_line s p t :
  let v := trim_space (command_text t) in
  string_at (mem_of s) p t -> (length t < 256)%nat ->
  (length (word v) <= 40)%nat -> (length (nonspaces (after_word v)) <= 40)%nat ->
  exists s', parse_cmd p s = Some s' /\
    cmd_name (pcb_of s') = word v ++ replicate (40 - length (word v)) 0 /\
    arg_name (pcb_of s') = nonspaces (after_word v) ++
      replicate (40 - length (nonspaces (after_word v))) 0 /\
    data_arg_size (pcb_of s') = Z.of_nat (length (nonspaces (after_word v))) /\
    mem_of s' = mem_of s /\ file_struct (pcb_of s') = file_struct (pcb_of s).
Proof.
  intros v Hs Hl Hw Ha. rewrite (parse_cmd_line s p t) by done.
  eexists. split; [reflexivity|]. now split_and!.
Qed.

(** ** A failed execute *)

Section Failure.
Context `{Platform}.

Lemma loader_missing fname s :
  (forall d, read_dentry_by_name fname d s = (-1, d)) ->
  exists s', loader fname s = Some (-1, s') /\ proc_same s s' /\ mem_of s' = mem_of s.
Proof. intros Hd. unfold loader. rewrite Hd. eexists. split; [reflexivity|]. now split. Qed.

(** an execute that picks no shell slot *)
Definition ordinary (command : cptr) (s : kst) : Prop :=
  is_null command = false /\ pc (fsg s) <> 0 /\ is_shell command s = false.

(** the state in which execute has chosen a slot *)
Definition chosen (s : kst) : kst :=
  upd_sysg (fun g => set_new_pid (free_task 7 1 (tasks g)) g)
    (upd_sysg (set_new_pid MAX_TASKS) (upd_pcb (set_cr3 (r_cr3 (cpu s))) s)).

Lemma choose_ordinary command s : ordinary command s -> choose_pid command (chosen s) = chosen s.
Proof.
  intros (_ & Hpc & Hsh). unfold choose_pid.
  change (pc (fsg (chosen s))) with (pc (fsg s)).
  change (is_shell command (chosen s)) with (is_shell command s). rewrite Hsh.
  destruct (Z.eqb_spec (pc (fsg s)) 0); done.
Qed.

(** a command line whose words fit the PCB *)
Record command_line (s : kst) (command : cptr) (t : list Z) : Prop := {
  cl_string : string_at (mem_of s) command t;
  cl_length : (length t < 256)%nat;
  cl_word : hd 0 (command_text t) <> 32;
  cl_cmd : (length (word (command_text t)) <= 40)%nat;
  cl_arg : (length (nonspaces (after_word (command_text t))) <= 40)%nat
}.

(** the state in which execute calls the loader *)
Definition parsed (s : kst) (t : list Z) : kst :=
  let u := command_text t in
  upd_pcb (fun b =>
    set_data_arg_size (Z.of_nat (length (nonspaces (after_word u))))
      (set_arg_name (padded (nonspaces (after_word u))) (set_cmd_name (padded (word u)) b)))
    (save_parent (find_pid (r_cr3 (cpu s))) (chosen s)).

Lemma parsed_frame s t :
  mem_of (parsed s t) = mem_of s /\ fsg (parsed s t) = fsg s /\ cpu (parsed s t) = cpu s /\
  new_pid (sysg (parsed s t)) = free_task 7 1 (tasks (sysg s)) /\
  file_struct (pcb_of (parsed s t)) = file_struct (pcb_of s) /\
  dentry (pcb_of (parsed s t)) = dentry (pcb_of s) /\
  cmd_name (pcb_of (parsed s t)) = padded (word (command_text t)) /\
  arg_name (pcb_of (parsed s t)) = padded (nonspaces (after_word (command_text t))) /\
  tasks (sysg (parsed s t)) = aset (tasks (sysg s)) (free_task 7 1 (tasks (sysg s)))
                                (u32 (find_pid (r_cr3 (cpu s)))).
Proof.
  unfold parsed, save_parent, save_pcb, chosen. kst_cbn.
  destruct (_ =? 1); kst_cbn; split_and!; done.
Qed.

(** execute of an ordinary command, up to the loader *)
Lemma execute_ordinary command s t :
  ordinary command s -> free_task 7 1 (tasks (sysg s)) < 7 ->
  1 <= find_pid (r_cr3 (cpu s)) <= 6 -> command_line s command t ->
  execute command s =
    '(eip, s') ← loader (Obj (padded (word (command_text t)))) (parsed s t);
    if u32 eip =? u32 (-1) then Some (Returns (-1) s')
    else Some (start_process (find_pid (r_cr3 (cpu s))) (u32 eip) s').
Proof.
  intros Hord Hq Hcur [Hs Hl Hhd Hw Ha]. unfold execute. pose proof Hord as (-> & _).
  fold (chosen s). rewrite choose_ordinary by done.
  change (new_pid (sysg (chosen s))) with (free_task 7 1 (tasks (sysg s))). unfold MAX_TASKS.
  destruct (Z.eqb_spec (free_task 7 1 (tasks (sysg s))) 7); [lia|].
  change (r_cr3 (cpu (upd_sysg (set_new_pid 7) (upd_pcb (set_cr3 (r_cr3 (cpu s))) s))))
    with (r_cr3 (cpu s)).
  destruct (Z.eqb_spec (find_pid (r_cr3 (cpu s))) 0); [lia|]. cbv zeta.
  assert (mem_of (save_parent (find_pid (r_cr3 (cpu s))) (chosen s)) = mem_of s) as Pm
    by (unfold save_parent; cbv zeta; destruct (new_pid _ =? 1); done).
  rewrite (parse_cmd_spec _ command t), bind_some by (rewrite ?Pm; done).
  fold (parsed s t). destruct (parsed_frame s t) as (_ & _ & _ & _ & _ & _ & -> & _). done.
Qed.

(** C37: An execute of a program the directory does not hold returns -1, but the
    task slot it had chosen stays occupied, although no process runs in it. *)
Theorem failed_execute_keeps_slot command s t :
  let q := free_task 7 1 (tasks (sysg s)) in
  ordinary command s -> q < 7 -> length (tasks (sysg s)) = 7%nat ->
  1 <= find_pid (r_cr3 (cpu s)) <= 6 -> command_line s command t ->
  (forall d, read_dentry_by_name (Obj (padded (word (command_text t)))) d s = (-1, d)) ->
  exists s', execute command s = Some (Returns (-1) s') /\
    tasks (sysg s') = aset (tasks (sysg s)) q (find_pid (r_cr3 (cpu s))) /\
    aget (tasks (sysg s')) q <> 0 /\ r_cr3 (cpu s') = r_cr3 (cpu s).
Proof.
  intros q Hord Hq Hlen Hcur Hcl Hmiss.
  pose proof (free_task_range 7 1 (tasks (sysg s)) ltac:(lia)) as Hq1. fold q in Hq1.
  rewrite (execute_ordinary command s t) by done.
  destruct (parsed_frame s t) as (Fm & Fg & Fc & _ & _ & _ & _ & _ & Ft).
  destruct (loader_missing (Obj (padded (word (command_text t)))) (parsed s t))
    as (s6 & -> & [E1 _ _ _ E5 _] & _).
  { intros d. now rewrite (lookup_ext _ _ s). }
  rewrite bind_some. cbv beta iota. change (u32 (-1) =? u32 (-1)) with true. cbv iota.
  eexists. split; [reflexivity|]. rewrite E1, E5, Ft, Fc, u32_small by lia. fold q.
  split; [done|]. split; [|done]. rewrite (aget_aset_eq (tasks (sysg s))); lia.
Qed.

(** When no slot is left, an execute of anything but a pending shell writes
    the message on descriptor 1 and returns -1; tasks, saved PCBs, the current
    address space and memory outside the screen are as before. *)
Theorem execute_without_slot command s :
  ordinary command s -> free_task 7 1 (tasks (sysg s)) = 7 ->
  flags (file_at s 1) <> 0 -> fops_ptr (file_at s 1) = terminal_fops ->
  exists s', execute command s = Some (Returns (-1) s') /\
    tasks (sysg s') = tasks (sysg s) /\ saved s' = saved s /\ cpu s' = cpu s /\
    fsg s' = fsg s /\ if_flag (hw s') = true.
Proof.
  intros Hord Hfull Hfl Hops. unfold execute. pose proof Hord as (-> & _). fold (chosen s).
  rewrite choose_ordinary by done.
  change (new_pid (sysg (chosen s))) with (free_task 7 1 (tasks (sysg s))). rewrite Hfull.
  change (7 =? MAX_TASKS) with true. cbv iota zeta. unfold write.
  change (file_at (chosen s) 1) with (file_at s 1). cbn [is_null orb].
  change (1 <? 0) with false. change (1 >? FD_MAX) with false. cbn [orb].
  destruct (Z.eqb_spec (flags (file_at s 1)) 0); [done|]. cbn [orb].
  change (25 <? 0) with false. rewrite Hops. cbn [call_write]. rewrite bind_some.
  unfold terminal_write. change (1 =? 0) with false. cbv iota.
  destruct (write_helper (Obj FULL_MESSAGE) 25 (hw (chosen s))) as [r h] eqn:E.
  eexists. split; [reflexivity|]. kst_cbn. split_and!; try done.
  revert E. unfold write_helper. cbn [is_null orb]. change (25 <? 0) with false.
  destruct (write_loop _ _ _ _ _) as [i h']. intros [= _ <-]. done.
Qed.
End Failure.

(** ** A small system

    The directory of [demo_fs] with an executable "ls" (inode 0, 64 bytes,
    entry point 0x08048000), after paging_init, with the first shell running. *)

#[local] Existing Instance demo_platform.

Definition demo_exec_image : mem :=
  let w32 a v m := wr32 m (demo_boot + a) v in
  let str a l m := wrl m (demo_boot + a) l in
  (w32 228 0 ∘ w32 4096 64 ∘ w32 4100 0 ∘ str 16384 MAGIC ∘ w32 (16384 + 24) PROGRAM_IMG) demo_image.

Definition demo_shell : kst :=
  let s := boot_kst (fst (paging_init demo_exec_image (CRegs 0 0 0))) in
  let s := upd_fsg (set_pc 1) (init_fs (upd_fsg (set_BOOT_BLOCK_PTR demo_boot) s)) in
  let s := upd_sysg (set_tasks [1; 1; 0; 0; 0; 0; 0]) s in
  let s := upd_file 1 (fun f => set_fops_ptr terminal_fops (set_flags 1 f)) s in
  upd_cpu (set_r_cr3 (proc_pd 1)) s.

Definition demo_command : cptr := Obj (chars "ls -a x").
Definition demo_missing : cptr := Obj (chars "vi").

Lemma demo_ordinary c : is_null c = false -> is_shell c demo_shell = false -> ordinary c demo_shell.
Proof. intros Hn Hs. split; [exact Hn|]. split; [vm_compute; discriminate | exact Hs]. Qed.

(** an evaluated run that enters user mode *)
Lemma enters_user (o : option outcome) (f : kst -> bool) :
  match o with Some (EntersUser _ _ s) => f s | _ => false end = true ->
  exists eip usp s, o = Some (EntersUser eip usp s) /\ f s = true.
Proof. destruct o as [[| eip usp s |] |]; try discriminate. intros Hf. now exists eip, usp, s. Qed.

Lemma halt_returns_to_caller_of_execute_witness :
  exists eip usp s1 s3, execute demo_command demo_shell = Some (EntersUser eip usp s1) /\
    halt 0 s1 = Some (ResumesParent 0 s3) /\ r_cr3 (cpu s3) = r_cr3 (cpu demo_shell) /\
    tasks (sysg s3) = [1; 1; 0; 0; 0; 0; 0].
Proof.
  destruct (enters_user (execute demo_command demo_shell)
    (fun s => (new_pid (sysg s) =? 4) && (fd_index (sysg s) =? 0))) as (eip & usp & s1 & E & Hc);
    [vm_compute; reflexivity|].
  apply andb_true_iff in Hc as [Hq Hfd]. apply Z.eqb_eq in Hq, Hfd.
  assert (r_cr3 (cpu demo_shell) = proc_pd 1) as Hcr by (vm_compute; reflexivity).
  assert (tasks (sysg demo_shell) = [1; 1; 0; 0; 0; 0; 0]) as Htk by (vm_compute; reflexivity).
  exists eip, usp, s1. generalize dependent demo_shell. intros s E Hcr Htk.
  destruct (halt_returns_to_caller_of_execute demo_command s eip usp s1 s1 0 1 E Hcr)
    as (_ & s3 & Hh & Hcr' & _ & _ & _ & Ht & _); rewrite ?Hq, ?Hfd, ?Htk; try lia; try reflexivity.
  exists s3. split; [exact E|]. split; [exact Hh|]. split; [exact Hcr'|].
  rewrite Ht, Hq, Htk. reflexivity.
Defined.

Lemma demo_string m l :
  forallb (fun c => (0 <? c) && (c <? 256)) l = true -> string_at m (Obj l) l.
Proof.
  intros Hl. rewrite forallb_forall in Hl.
  assert (Forall (fun c => 0 < c < 256) l) as Hf.
  { apply List.Forall_forall. intros c Hc%Hl. lia. }
  split; [|split; [|exact Hf]].
  - intros j Hj. cbn [ldc]. rewrite Z.add_0_l. unfold in_range.
    assert ((0 <=? j) && (j <? Z.of_nat (length l)) = true) as -> by lia.
    apply u8_small. rewrite Forall_lookup in Hf.
    destruct (lookup_lt_is_Some_2 l (Z.to_nat j)) as [c Hc]; [lia|].
    unfold aget. rewrite (list_lookup_total_correct _ _ _ Hc). specialize (Hf _ _ Hc). cbn in Hf. lia.
  - cbn [ldc]. unfold in_range.
    assert ((0 <=? Z.of_nat (length l)) && (Z.of_nat (length l) <? Z.of_nat (length l)) = false) as -> by lia.
    done.
Qed.

Lemma demo_line s l :
  forallb (fun c => (0 <? c) && (c <? 256)) l = true -> hd 0 l <> 32 -> (length l <= 40)%nat ->
  command_line s (Obj l) l.
Proof.
  intros Hl Hh Hlen.
  assert (command_text l = l) as Hc by (unfold command_text; destruct (Z.eqb_spec (hd 0 l) 32); done).
  split; rewrite ?Hc; try lia; [now apply demo_string | |].
  - assert (forall u, (length (word u) <= length u)%nat) as Hw
      by (intros u; induction u as [|c u IH]; cbn [word after_word length];
          [lia | destruct (c =? 32); cbn [length]; lia]).
    specialize (Hw l). lia.
  - assert (forall u, (length (after_word u) <= length u)%nat) as Hw
      by (intros u; induction u as [|c u IH]; cbn [word after_word length];
          [lia | destruct (c =? 32); cbn [length]; lia]). specialize (Hw l).
    unfold nonspaces. pose proof (List.filter_length_le (fun c => negb (c =? 32)) (after_word l)). lia.
Qed.

(** one line that starts with its command, one with a space *)
Lemma parse_cmd_splits_line_witness :
  (exists s', parse_cmd demo_command demo_shell = Some s' /\
    cmd_name (pcb_of s') = [108; 115] ++ replicate 38 0 /\
    arg_name (pcb_of s') = [45; 97; 120] ++ replicate 37 0 /\ data_arg_size (pcb_of s') = 3) /\
  exists s', parse_cmd (Obj (chars " a  b")) demo_shell = Some s' /\
    cmd_name (pcb_of s') = [98] ++ replicate 39 0 /\ data_arg_size (pcb_of s') = 0.
Proof.
  split.
  - destruct (parse_cmd_splits_line demo_shell demo_command (chars "ls -a x")) as (s' & E & Hc & Ha & Hn & _).
    + now apply demo_string.
    + apply Nat.ltb_lt. reflexivity.
    + apply Nat.leb_le. reflexivity.
    + apply Nat.leb_le. reflexivity.
    + exists s'. split; [exact E|]. split; [exact Hc|]. split; [exact Ha | exact Hn].
  - destruct (parse_cmd_splits_line demo_shell (Obj (chars " a  b")) (chars " a  b")) as (s' & E & Hc & _ & Hn & _).
    + now apply demo_string.
    + apply Nat.ltb_lt. reflexivity.
    + apply Nat.leb_le. reflexivity.
    + apply Nat.leb_le. reflexivity.
    + exists s'. split; [exact E|]. split; [exact Hc | exact Hn].
Defined.

Lemma failed_execute_keeps_slot_witness :
  exists s', execute demo_missing demo_shell = Some (Returns (-1) s') /\ aget (tasks (sysg s')) 4 = 1.
Proof.
  destruct (failed_execute_keeps_slot demo_missing demo_shell (chars "vi")) as (s' & E & Ht & _).
  - apply demo_ordinary; vm_compute; reflexivity.
  - vm_compute. reflexivity.
  - vm_compute. reflexivity.
  - vm_compute. split; discriminate.
  - now apply demo_line; [reflexivity | discriminate | apply Nat.leb_le].
  - intros d. destruct d. vm_compute. reflexivity.
  - exists s'. split; [exact E|]. rewrite Ht. vm_compute. reflexivity.
Defined.

(** the same system with every slot taken *)
Definition demo_full : kst := upd_sysg (set_tasks [1; 1; 1; 1; 4; 5; 1]) demo_shell.

Lemma execute_without_slot_witness :
  exists s', execute demo_missing demo_full = Some (Returns (-1) s') /\ cpu s' = cpu demo_full.
Proof.
  destruct (execute_without_slot demo_missing demo_full) as (s' & E & _ & _ & Hc & _).
  - split; [reflexivity|]. split; [vm_compute; discriminate | vm_compute; reflexivity].
  - vm_compute. reflexivity.
  - vm_compute. discriminate.
  - vm_compute. reflexivity.
  - exists s'. split; [exact E | exact Hc].
Defined.
