(* ===== verification/Launch.v ===== *)
(** * Starting a program: loader and execute together

    The successful path of [loader] (filesystem.c) and [execute]
    (systemcalls.c), from a command line to the processor in user mode at the
    program's entry point. *)

From Stdlib Require Import ZArith Lia String.
From stdpp Require Import base list gmap.
From S2P Require Import Prelude Memory CMem CStr Machine Console Pic Paging KState Filesystem TermIO Syscalls Process.
Open Scope Z_scope.

(** little-endian word at offset [k] of a byte list *)
Definition le32 (l : list Z) (k : Z) : Z :=
  aget l k + 256 * aget l (k + 1) + 65536 * aget l (k + 2) + 16777216 * aget l (k + 3).

Lemma rd32_rdn (m : mem) a n l k :
  rdn m a n = l -> 0 <= k -> k + 4 <= Z.of_nat n -> rd32 m (a + k) = le32 l k.
Proof.
  intros <- Hk Hn. unfold rd32, le32, aget.
  rewrite !rdn_lookup by lia. rewrite !Z2Nat.id by lia. now rewrite !Z.add_assoc.
Qed.

Section Launch.
Context `{Platform}.

(** page-directory entry 32 of process [p] maps its 4 MiB image page *)
Definition image_mapped (m : mem) (p : Z) : Prop :=
  rd32 m (proc_pd p + 128) = MB4 * (1 + p) + 135.

(** where the program image of process [p] is loaded *)
Definition image_base (p : Z) : Z := MB4 * (1 + p) + 294912.

Lemma image_translate m p :
  1 <= p <= 6 -> image_mapped m p ->
  translate m (proc_pd p) PROGRAM_IMG = Some (Mapping (image_base p) true true).
Proof.
  intros Hp Hm. unfold image_mapped in Hm. unfold translate. change (PROGRAM_IMG / 4194304) with 32. change (4 * 32) with 128.
  rewrite !Hm. change (PROGRAM_IMG mod 4194304) with 294912. unfold image_base, MB4.
  assert (p = 1 \/ p = 2 \/ p = 3 \/ p = 4 \/ p = 5 \/ p = 6) as Hc by lia.
  destruct Hc as [-> | [-> | [-> | [-> | [-> | ->] ] ] ] ]; reflexivity.
Qed.

(** an executable file: found under [fname] in slot [i], of at least 28 bytes,
    which hold its entry point, and fewer than 8192, below which read_data
    reads it whole; stored in an image that is apart from the staging buffer at
    [NEW_LOAD], with the page directories apart from it too *)
Record executable (s : kst) (fname : cptr) (i lo sz : Z) : Prop := {
  ex_found : forall d, read_dentry_by_name fname d s = (0, load_dentry (mem_of s) (entry_addr s i) d);
  ex_inode : 0 <= rd32 (mem_of s) (entry_addr s i + 36) < u32 (num_inodes (filesystem (fsg s)) - 1);
  ex_size : 28 <= file_size s (rd32 (mem_of s) (entry_addr s i + 36)) < 8192;
  ex_image : region lo sz;
  ex_apart : apart lo sz NEW_LOAD 8192;
  ex_file : let inode := rd32 (mem_of s) (entry_addr s i + 36) in
    file_in_image (mem_of s) lo sz (inode_addr s inode) (data_start (filesystem (fsg s)))
      (file_size s inode);
  ex_magic : take 4 (file_content s (rd32 (mem_of s) (entry_addr s i + 36))) = MAGIC;
  ex_fd : in_range (fd_val (fsg s)) 8 = true;
  ex_tables : apart pd_base 65536 NEW_LOAD 8192
}.

Lemma content_head s inode :
  4 <= file_size s inode ->
  rdn (mem_of s) (block_at (inode_addr s inode) (data_start (filesystem (fsg s))) (mem_of s) 0) 4 =
  take 4 (file_content s inode).
Proof.
  intros Hs. rewrite rdn_map by lia. unfold file_content.
  pose proof (map_zrange_slice (file_byte (mem_of s) (inode_addr s inode)
    (data_start (filesystem (fsg s)))) (file_size s inode) 0 4) as E.
  change (Z.to_nat 4) with 4%nat in E. change (Z.to_nat 0) with 0%nat in E.
  rewrite drop_0 in E. rewrite <- E by lia.
  apply map_zrange_ext. intros j Hj. unfold file_byte.
  now rewrite Z.div_small, Z.mod_small by lia.
Qed.

(** the page directories are where the platform says *)
Lemma image_mapped_kept m m' p :
  1 <= p <= 6 -> (forall a, pd_base <= a < pd_base + 65536 -> rd m' a = rd m a) ->
  image_mapped m p -> image_mapped m' p.
Proof.
  intros Hp Hk Hm. unfold image_mapped in *. rewrite <- Hm. unfold rd32.
  assert (proc_pd p = pd_base + 4096 * (8 + p)) as ->
    by (unfold proc_pd; now destruct (Z.eqb_spec p 0); [lia|]).
  now rewrite !Hk by lia.
Qed.

(** the copy from the staging buffer to the image *)
Lemma image_copied (m : mem) p size :
  1 <= p <= 6 -> 0 <= size < 8192 ->
  copied m (memcpy m (image_base p) NEW_LOAD size) NEW_LOAD (image_base p) (u32 size).
Proof.
  intros Hp Hs. apply memcpy_copied. right. rewrite u32_small by lia.
  unfold image_base, NEW_LOAD, MB4. rewrite u32_small; lia.
Qed.
Lemma image_copy_frame (m : mem) p size a :
  1 <= p <= 6 -> 0 <= size < 8192 -> 0 <= a < image_base p ->
  rd (memcpy m (image_base p) NEW_LOAD size) a = rd m a.
Proof.
  intros Hp Hs Ha. rewrite (image_copied m p size Hp Hs), (u32_small size) by lia.
  assert (0 <= image_base p <= 33554432) by (unfold image_base, MB4; lia).
  destruct (Z.ltb_spec (off (image_base p) a) size); [zlia | done].
Qed.

Lemma hw_after_load s s2 s3 m' f :
  hw s3 = hw s2 -> hw s2 = set_mm m' (hw s) ->
  hw (upd_mem f s3) = set_mm (mem_of (upd_mem f s3)) (hw s).
Proof.
  intros H3 H2. unfold mem_of. cbn [upd_mem upd_hw hw set_hw]. rewrite H3, H2. now destruct (hw s).
Qed.

(** the hardware is as before, but for memory in the staging buffer and from
    [base] on *)
Definition loaded_frame (base : Z) (s s' : kst) : Prop :=
  hw s' = set_mm (mem_of s') (hw s) /\
  forall a, 0 <= a < NEW_LOAD \/ NEW_LOAD + 8192 <= a < base -> rd (mem_of s') a = rd (mem_of s) a.

(** The loader puts an executable of at most two blocks into the process's
    image: it switches to the directory of the process being created, the
    whole file is at 0x08048000 of that address space, and the value returned
    is the entry point in bytes 24 to 27 of the file. *)
Lemma loader_loads s fname i lo sz :
  let p := new_pid (sysg s) in
  let inode := rd32 (mem_of s) (entry_addr s i + 36) in
  let size := file_size s inode in
  executable s fname i lo sz -> 1 <= p <= 6 -> image_mapped (mem_of s) p ->
  exists s', loader fname s = Some (s32 (le32 (file_content s inode) 24), s') /\
    rdn (mem_of s') (image_base p) (Z.to_nat size) = file_content s inode /\
    r_cr3 (cpu s') = proc_pd p /\
    pcb_of s' = pcb_file (fd_val (fsg s)) (set_fpos size) (pcb_of s) /\
    loaded_frame (image_base p) s s'.
Proof.
  intros p inode size [Hf Hi Hsz Hlo Hap Hfile Hmagic Hfd Htab] Hp Hmap.
  fold inode in Hi, Hsz, Hmagic. fold size in Hsz.
  unfold loader. rewrite Hf. change (0 =? -1) with false. cbv iota zeta.
  set (s1 := upd_fsg (set_dentry1 _) s).
  change (inode_number (dentry1 (fsg s1))) with inode.
  change (BOOT_BLOCK_PTR (fsg s1) + 4 * u32 (u32 (inode + 1) * BYTES_4K)) with (inode_addr s inode).
  change (rd32 (mem_of s1) (inode_addr s inode)) with size.
  destruct (Z.ltb_spec size 4); [lia|].
  assert (has_magic (mem_of s1) (data_start (filesystem (fsg s1)) + 4 *
    u32 (rd32 (mem_of s1) (inode_addr s inode + 4 * BYTES_4) * BYTES_4K)) = true) as ->.
  { unfold has_magic. apply bool_decide_eq_true. rewrite <- Hmagic, <- content_head by lia. done. }
  destruct (read_data_short s1 lo sz inode 0 NEW_LOAD size) as (s2 & E & Hb & Hfr & m' & Hs2).
  { assert (0 <= 0 < size) as Hpos by lia. assert (0 + size < 4294967296) by lia.
    split; try done; [unfold region, NEW_LOAD; lia | unfold apart in *; lia]. }
  { lia. }
  { unfold avail. change (file_size s1 inode) with size. change (0 mod 4096) with 0. lia. }
  assert (avail s1 inode 0 size = size) as Hav
    by (unfold avail; change (file_size s1 inode) with size; lia).
  rewrite Hav in E, Hb, Hs2. rewrite E, bind_some. cbv beta iota.
  change (file_content s1 inode) with (file_content s inode) in Hb.
  assert (length (file_content s inode) = Z.to_nat size) as Hlen
    by (unfold file_content; rewrite length_map, length_zrange; f_equal; fold size; lia).
  change (Z.to_nat 0) with 0%nat in Hb.
  rewrite drop_0, take_ge, Z.sub_diag, app_nil_r in Hb by lia.
  assert (new_pid (sysg s2) = p) as Hp2 by (rewrite Hs2; done).
  assert (mem_of s2 = m') as Hm2 by (rewrite Hs2; done).
  rewrite load_page_directory_effect by (rewrite Hp2; exact Hp). rewrite Hp2.
  set (s3 := upd_fsg _ (upd_cpu _ s2)).
  assert (image_mapped (mem_of s2) p) as Hmap2.
  { apply (image_mapped_kept (mem_of s)); [done | | done]. intros a Ha. rewrite Hfr; [done|].
    pose proof pd_base_range. unfold apart, NEW_LOAD in *. zlia. }
  unfold memcpy_virtual. change (mem_of s3) with (mem_of s2).
  change (r_cr3 (cpu s3)) with (proc_pd p). rewrite image_translate by done.
  change (PROGRAM_IMG mod MB4) with 294912. unfold MB4.
  destruct (Z.leb_spec (294912 + size) 4194304); [|lia]. rewrite bind_some.
  rewrite (rd32_rdn (mem_of s2) NEW_LOAD (Z.to_nat size) (file_content s inode) 24 Hb) by lia.
  eexists. split; [reflexivity|]. split.
  2:{ split; [done|]. split.
      - change (pcb_of s2 = pcb_file (fd_val (fsg s)) (set_fpos size) (pcb_of s)). rewrite Hs2. done.
      - split; [apply (hw_after_load s s2 s3 m'); [reflexivity | rewrite Hs2; reflexivity]|].
        intros a Ha. rewrite mem_of_upd_mem. change (mem_of s3) with (mem_of s2). cbn [phys].
        assert (8388608 <= image_base p <= 33554432) as Hbase by (unfold image_base, MB4; lia).
        unfold NEW_LOAD in Ha. rewrite image_copy_frame by lia. apply Hfr. unfold NEW_LOAD. zlia. }
  rewrite mem_of_upd_mem, <- Hb.
  change (mem_of s3) with (mem_of s2). cbn [phys].
  apply (rdn_copied _ _ _ _ (u32 size)); rewrite ?u32_small by lia; try lia.
  rewrite <- (u32_small size) at 2 by lia. apply image_copied; lia.
Qed.

Lemma executable_ext s s' fname i lo sz :
  fsg s' = fsg s -> mem_of s' = mem_of s -> executable s fname i lo sz ->
  executable s' fname i lo sz.
Proof.
  intros Hg Hm [Hf Hi Hsz Hlo Hap Hfile Hmagic Hfd Htab].
  assert (forall j, entry_addr s' j = entry_addr s j) as He by (intros; unfold entry_addr; now rewrite Hg).
  assert (forall j, inode_addr s' j = inode_addr s j) as Ha by (intros; unfold inode_addr; now rewrite Hg).
  assert (forall j, file_size s' j = file_size s j) as Hs by (intros; unfold file_size; now rewrite Ha, Hm).
  assert (forall j, file_content s' j = file_content s j) as Hc
    by (intros; unfold file_content; now rewrite Ha, Hm, Hs, Hg).
  split; cbv zeta; rewrite ?Hg, ?Hm, ?He, ?Hs, ?Hc, ?Ha; try done.
  intros d. rewrite (lookup_ext _ _ s) by done. apply Hf.
Qed.

(** ** The descriptors of a new process *)

Lemma init_files_spec s :
  pcb_wf (pcb_of s) ->
  (forall j, 0 <= j < 2 -> file_at (init_files s) j = set_fops_ptr terminal_fops (set_flags 1 (file_at s j))) /\
  (forall j, 2 <= j < 8 -> file_at (init_files s) j = set_flags 0 (file_at s j)).
Proof.
  intros Hwf. unfold init_files, SDIN, SDOUT. change (zrange 2 (MAX_FD + 1)) with [2; 3; 4; 5; 6; 7].
  cbn [fold_left]. split; intros j Hj.
  - assert (j = 0 \/ j = 1) as [-> | ->] by lia; rewrite !(file_at_upd_file_ne _ _ _ (set_flags 0)) by lia.
    + rewrite file_at_upd_file_ne by lia. now apply file_at_upd_file.
    + rewrite file_at_upd_file; [now rewrite file_at_upd_file_ne by lia|].
      apply fd_ok_upd_file. split; [done | lia].
  - assert (j = 2 \/ j = 3 \/ j = 4 \/ j = 5 \/ j = 6 \/ j = 7) as Hc by lia.
    assert (fd_ok s j) as Hok by (split; [done | lia]).
    destruct Hc as [-> | [-> | [-> | [-> | [-> | ->] ] ] ] ];
      repeat (rewrite file_at_upd_file_ne by lia);
      (rewrite file_at_upd_file; [|auto 12 with kst]);
      repeat (rewrite file_at_upd_file_ne by lia); done.
Qed.

#[local] Opaque init_files parsed start_process loader execute.

(** the loader returned the entry point: execute starts the process *)
Lemma execute_loaded command s t q e s6 :
  ordinary command s -> free_task 7 1 (tasks (sysg s)) = q -> q < 7 ->
  1 <= find_pid (r_cr3 (cpu s)) <= 6 -> command_line s command t ->
  loader (Obj (padded (word (command_text t)))) (parsed s t) = Some (e, s6) ->
  u32 e <> 4294967295 ->
  execute command s = Some (start_process (find_pid (r_cr3 (cpu s))) (u32 e) s6) /\
  tasks (sysg s6) = aset (tasks (sysg s)) q (find_pid (r_cr3 (cpu s))) /\ new_pid (sysg s6) = q.
Proof.
  intros Hord Hf Hq Hcur Hcl E He. subst q.
  pose proof (free_task_range 7 1 (tasks (sysg s)) ltac:(lia)) as Hq1.
  destruct (parsed_frame s t) as (_ & _ & _ & Fp & _ & _ & _ & _ & Ft).
  rewrite (execute_ordinary command s t Hord Hq Hcur Hcl), E, bind_some. cbv beta iota.
  change (u32 (-1)) with 4294967295. destruct (Z.eqb_spec (u32 e) 4294967295) as [|_]; [contradiction|].
  apply loader_effect in E as (L1 & L2 & _); [|rewrite Fp; lia].
  rewrite L1, L2, Fp, Ft, (u32_small (find_pid _)) by lia. split_and!; reflexivity.
Qed.

(** the loader of an ordinary command's executable *)
Lemma execute_loader s t q i lo sz inode :
  free_task 7 1 (tasks (sysg s)) = q -> 1 <= q <= 6 ->
  executable s (Obj (padded (word (command_text t)))) i lo sz -> image_mapped (mem_of s) q ->
  inode = rd32 (mem_of s) (entry_addr s i + 36) ->
  exists s6, loader (Obj (padded (word (command_text t)))) (parsed s t) =
      Some (s32 (le32 (file_content s inode) 24), s6) /\
    rdn (mem_of s6) (image_base q) (Z.to_nat (file_size s inode)) = file_content s inode /\
    r_cr3 (cpu s6) = proc_pd q /\
    pcb_of s6 = pcb_file (fd_val (fsg s)) (set_fpos (file_size s inode)) (pcb_of (parsed s t)).
Proof.
  intros Hq Hq1 Hex Hmap ->.
  destruct (parsed_frame s t) as (Fm & Fg & _ & Fp & _). rewrite Hq in Fp.
  assert (executable (parsed s t) (Obj (padded (word (command_text t)))) i lo sz) as Hex'
    by now apply (executable_ext s).
  assert ((forall j, file_content (parsed s t) j = file_content s j) /\
    (forall j, file_size (parsed s t) j = file_size s j) /\
    (forall j, entry_addr (parsed s t) j = entry_addr s j)) as (Gc & Gs & Ge).
  { unfold file_content, file_size, entry_addr, inode_addr. now rewrite Fm, Fg. }
  destruct (loader_loads (parsed s t) _ i lo sz Hex') as (s6 & E & Hc & Hcr & Hpcb & _);
    [rewrite Fp; exact Hq1 | rewrite Fm, Fp; exact Hmap |].
  rewrite Fm, Ge, Gc in E. rewrite Fm, Ge, Gc, Gs, Fp in Hc. rewrite Fm, Ge, Gs, Fg in Hpcb.
  rewrite Fp in Hcr. exists s6. split; [exact E|]. split; [exact Hc|]. split; [exact Hcr | exact Hpcb].
Qed.

Lemma pcb_wf_pcb_file fd f b : pcb_wf b -> pcb_wf (pcb_file fd f b).
Proof. intros (W1 & W2 & W3). split; [|split; assumption]. unfold pcb_file. cbn [file_struct set_file_struct]. now rewrite length_aset. Qed.

Lemma parsed_wf s command t :
  pcb_wf (pcb_of s) -> command_line s command t -> pcb_wf (pcb_of (parsed s t)).
Proof.
  intros (W1 & W2 & _ & _) [_ _ _ C1 C2].
  destruct (parsed_frame s t) as (_ & _ & _ & _ & Ff & Fd & Fcn & Fan & _).
  split; [rewrite Ff; exact W1|]. split; [rewrite Fd; exact W2|]. rewrite Fcn, Fan.
  unfold padded. rewrite !length_app, !length_replicate. lia.
Qed.

Lemma arg_name_pcb_file fd f b : arg_name (pcb_file fd f b) = arg_name b.
Proof. reflexivity. Qed.

(** what a started process finds *)
Record started (s : kst) (q parent : Z) (arg : list Z) (s' : kst) : Prop := {
  st_cr3 : r_cr3 (cpu s') = proc_pd q;
  st_stack : tss_esp0 (cpu s') = EIGHT_MB - KB_8 * (q - 1) - START;
  st_tasks : tasks (sysg s') = aset (tasks (sysg s)) q parent;
  st_arg : arg_name (pcb_of s') = padded arg;
  st_std : forall j, 0 <= j < 2 -> fops_ptr (file_at s' j) = terminal_fops /\ flags (file_at s' j) = 1;
  st_closed : forall j, 2 <= j < 8 -> flags (file_at s' j) = 0
}.

Lemma start_process_started s s6 q parent entry arg :
  1 <= q <= 6 -> new_pid (sysg s6) = q -> r_cr3 (cpu s6) = proc_pd q ->
  tasks (sysg s6) = aset (tasks (sysg s)) q parent -> arg_name (pcb_of s6) = padded arg ->
  pcb_wf (pcb_of s6) ->
  exists s', start_process parent entry s6 = EntersUser entry (MB_132 - START) s' /\
    mem_of s' = mem_of s6 /\ started s q parent arg s'.
Proof.
  intros Hq Hn Hcr Ht Ha Hwf.
  destruct (start_process_effect parent entry s6) as
    (b & s' & E & S1 & _ & _ & _ & S5 & _ & _ & S8 & _ & _ & S11 & S12 & S13); [lia|].
  exists s'. split; [exact E|]. split; [exact S13|].
  destruct (init_files_spec s6 Hwf) as [I1 I2]. unfold file_at in I1, I2.
  split.
  - congruence.
  - rewrite S8, Hn. unfold EIGHT_MB, KB_8, START. apply u32_small. lia.
  - congruence.
  - congruence.
  - intros j Hj. unfold file_at. rewrite S11, (I1 j Hj). split; reflexivity.
  - intros j Hj. unfold file_at. rewrite S11, (I2 j Hj). reflexivity.
Qed.

(** C6: A command line whose first word names an executable of 28 to 8191 bytes
    starts it, when a task slot is free: execute takes the first free one of
    the slots 1, 4, 5 and 6, loads the whole file into that process's image,
    gives the process its page directory, kernel stack, argument and an open
    stdin and stdout and nothing else ([started]), and enters user mode at the
    entry point the file names (not 0xffffffff), with the user stack at the end
    of the image page.  The line has at most 255 characters, starts neither
    with a space nor with "shell" (such lines can go to a terminal's shell
    slot), and its words fit the 40 bytes of the PCB; a program is running
    already.  Files of 8192 bytes and more are left out because read_data can
    copy their end from the wrong block, so that a program as long as the
    repository's fish (36164 bytes) is not loaded whole.  *)
Theorem execute_starts_program command s t q i lo sz inode :
  ordinary command s -> free_task 7 1 (tasks (sysg s)) = q -> q < 7 ->
  1 <= find_pid (r_cr3 (cpu s)) <= 6 ->
  command_line s command t -> pcb_wf (pcb_of s) ->
  executable s (Obj (padded (word (command_text t)))) i lo sz -> image_mapped (mem_of s) q ->
  inode = rd32 (mem_of s) (entry_addr s i + 36) ->
  u32 (le32 (file_content s inode) 24) <> 4294967295 ->
  exists s', execute command s =
      Some (EntersUser (u32 (le32 (file_content s inode) 24)) (MB_132 - START) s') /\
    rdn (mem_of s') (image_base q) (Z.to_nat (file_size s inode)) = file_content s inode /\
    started s q (find_pid (r_cr3 (cpu s))) (nonspaces (after_word (command_text t))) s'.
Proof.
  intros Hord Hf Hq Hcur Hcl Hwf Hex Hmap Hi Hent.
  pose proof (free_task_range 7 1 (tasks (sysg s)) ltac:(lia)) as Hq1. rewrite Hf in Hq1.
  destruct (execute_loader s t q i lo sz inode Hf ltac:(lia) Hex Hmap Hi) as (s6 & E & Hc & Hcr & Hpcb).
  destruct (execute_loaded command s t q _ s6 Hord Hf Hq Hcur Hcl E) as (-> & Ht & Hn);
    [rewrite u32_s32; exact Hent|]. rewrite u32_s32.
  destruct (parsed_frame s t) as (_ & _ & _ & _ & _ & _ & _ & Fan & _).
  destruct (start_process_started s s6 q (find_pid (r_cr3 (cpu s)))
    (u32 (le32 (file_content s inode) 24)) (nonspaces (after_word (command_text t))))
    as (s' & -> & Hm & Hst); try done.
  - lia.
  - rewrite Hpcb, arg_name_pcb_file. exact Fan.
  - rewrite Hpcb. apply pcb_wf_pcb_file. exact (parsed_wf s command t Hwf Hcl).
  - exists s'. split; [reflexivity|]. split; [rewrite Hm; exact Hc | exact Hst].
Qed.
End Launch.

(** paging_init maps every process's image page *)
Lemma paging_init_image_mapped `{Platform} m r p :
  1 <= p <= 6 -> image_mapped (fst (paging_init m r)) p.
Proof.
  intros Hp. unfold image_mapped. change 128 with (4 * 32). rewrite pde_load by lia.
  assert (p = 1 \/ p = 2 \/ p = 3 \/ p = 4 \/ p = 5 \/ p = 6)
    as [-> | [-> | [-> | [-> | [-> | ->] ] ] ] ] by lia; reflexivity.
Qed.

#[local] Existing Instance demo_platform.

Lemma demo_executable : executable demo_shell (Obj (padded (chars "ls"))) 2 demo_boot 65536.
Proof.
  split.
  - intros d. destruct d. vm_compute. reflexivity.
  - vm_compute. split; [discriminate | reflexivity].
  - vm_compute. split; [discriminate | reflexivity].
  - unfold region, demo_boot. lia.
  - left. vm_compute. discriminate.
  - cbv zeta. split.
    + vm_compute. split; discriminate.
    + vm_compute. split; discriminate.
    + intros j Hj1 Hj2.
      assert (file_size demo_shell (rd32 (mem_of demo_shell) (entry_addr demo_shell 2 + 36)) = 64)
        as Hs by (vm_compute; reflexivity).
      rewrite Hs in Hj2. replace j with 0 by lia. vm_compute. intuition discriminate.
  - vm_compute. reflexivity.
  - reflexivity.
  - left. vm_compute. discriminate.
Qed.

Lemma execute_starts_program_witness :
  exists s', execute demo_command demo_shell = Some (EntersUser PROGRAM_IMG (MB_132 - START) s') /\
    rdn (mem_of s') (image_base 4) 64 = file_content demo_shell 0 /\
    started demo_shell 4 1 (chars "-ax") s'.
Proof.
  destruct (execute_starts_program demo_command demo_shell (chars "ls -a x") 4 2 demo_boot 65536 0)
    as (s' & E & Hc & Hs).
  - apply demo_ordinary; vm_compute; reflexivity.
  - vm_compute. reflexivity.
  - lia.
  - vm_compute. split; discriminate.
  - now apply demo_line; [reflexivity | discriminate | apply Nat.leb_le].
  - vm_compute. intuition discriminate.
  - exact demo_executable.
  - vm_compute. reflexivity.
  - vm_compute. reflexivity.
  - vm_compute. discriminate.
  - exists s'. replace (u32 (le32 (file_content demo_shell 0) 24)) with PROGRAM_IMG in E
      by (vm_compute; reflexivity).
    replace (Z.to_nat (file_size demo_shell 0)) with 64%nat in Hc by (vm_compute; reflexivity).
    replace (find_pid (r_cr3 (cpu demo_shell))) with 1 in Hs by (vm_compute; reflexivity).
    split; [exact E|]. split; [exact Hc | exact Hs].
Defined.
