(* ===== verification/Terminal.v ===== *)
(** * The line editor and the three terminals (terminal.c)

    [keyboard_read] is called by the keyboard interrupt with one keystroke;
    it edits the line that [terminal_read] hands to the program, echoes it,
    and switches terminals.  [terminal_switch] ends in a C return, in a new
    shell (execute) or, for a process never saved, in undefined behaviour.

    Its final load of %esp has no effect on the return: the compiled function
    leaves through its frame pointer.  The model keeps the loaded value in
    [r_esp]. *)

From Stdlib Require Import ZArith Lia String.
From stdpp Require Import base list gmap.
From S2P Require Import Prelude Memory CMem CStr Machine Console Pic Rtc Paging KState Filesystem TermIO Syscalls Process.
Open Scope Z_scope.

Definition BACKSPACE : Z := 8.
Definition CTRL_L : Z := 255.
Definition CTRL_C : Z := 248.
Definition T1_SWITCH : Z := 245.
Definition T2_SWITCH : Z := 246.
Definition T3_SWITCH : Z := 247.
Definition STRUCTS : Z := 8.
Definition S_4 : Z := 4.
Definition T1_NUM : Z := 1.
Definition T2_NUM : Z := 2.
Definition T3_NUM : Z := 3.

Section Terminal.
Context `{Platform}.

(** ** terminal_switch *)

(** [terminals[i]] *)
Definition terminal_at (s : kst) (i : Z) : terminal_t := aget (terminals (trm s)) i.
Definition upd_terminal (i : Z) (f : terminal_t -> terminal_t) (s : kst) : kst :=
  upd_trm (fun g => set_terminals (aset (terminals g) i (f (aget (terminals g) i))) g) s.

(** copies video memory to the buffer of terminal [t] *)
Definition save_screen (t : Z) (m : mem) : mem :=
  if t =? T1_NUM then memcpy m TERM1 V_MEM_ADDR MEM_4KB
  else if t =? T2_NUM then memcpy m TERM2 V_MEM_ADDR MEM_4KB
  else if t =? T3_NUM then memcpy m TERM3 V_MEM_ADDR MEM_4KB
  else m.

(** and back *)
Definition load_screen (t : Z) (m : mem) : mem :=
  if t =? T1_NUM then memcpy m V_MEM_ADDR TERM1 MEM_4KB
  else if t =? T2_NUM then memcpy m V_MEM_ADDR TERM2 MEM_4KB
  else if t =? T3_NUM then memcpy m V_MEM_ADDR TERM3 MEM_4KB
  else m.

(** up to [cur_terminal = t_num]: the current terminal is put away *)
Definition leave_terminal (s : kst) : option kst :=
  let cterm := cur_terminal (trm s) - 1 in
  if negb (in_range cterm 3) then None
  else
    let s := upd_terminal cterm (set_t_esp (r_esp (cpu s))) s in
    let s := upd_terminal cterm (set_t_cr3 (r_cr3 (cpu s))) s in
    let s := upd_terminal cterm (set_kernel_esp (tss_esp0 (cpu s))) s in
    let pid := get_pid_from_cr3 (t_cr3 (terminal_at s cterm)) in
    b ← saved s !! pcb_slot pid;
    let s := upd_trm (set_term_pcb b) s in
    let s := upd_terminal cterm
      (set_t_file_struct (map (aget (file_struct (term_pcb (trm s)))) (zrange 0 STRUCTS))) s in
    let s := upd_terminal cterm (set_pos_x (getx (hw s))) s in
    let s := upd_terminal cterm (set_pos_y (gety (hw s))) s in
    let s := upd_terminal cterm
      (set_t_linebuffer (map (aget (text_buf (trm s))) (zrange 0 BUF_MAX))) s in
    let s := upd_mem (save_screen (cur_terminal (trm s))) s in
    let s := upd_hw clear s in
    Some (upd_hw (set_cursor 0 0) s).

(** the first switch to terminals 2 and 3 *)
Definition new_terminal (s : kst) : option outcome :=
  let s := upd_trm (set_text_buf (map (fun _ => 0) (zrange 0 BUF_MAX))) s in
  let s := upd_trm (set_counter 0) s in
  let s := upd_hw (send_eoi PIC_1) s in
  o ← execute (Obj SHELL) s;
  Some (match o with Returns _ s => Returns 0 s | _ => o end).

(** from [term2_press = 0] on: terminal [t_num] comes back *)
Definition enter_terminal (t_num : Z) (s : kst) : option outcome :=
  let cterm := cur_terminal (trm s) - 1 in
  let s := upd_trm (fun g => set_term3_press 0 (set_term2_press 0 g)) s in
  let s := upd_mem (load_screen t_num) s in
  let s := upd_hw (set_cursor (pos_x (terminal_at s cterm)) (pos_y (terminal_at s cterm))) s in
  let s := upd_trm (set_text_buf (map (aget (t_linebuffer (terminal_at s cterm))) (zrange 0 BUF_MAX))) s in
  let s := upd_hw (send_eoi PIC_1) s in
  let pid := get_pid_from_cr3 (t_cr3 (terminal_at s cterm)) in
  b ← saved s !! pcb_slot pid;
  let s := upd_trm (set_term_pcb b) s in
  let s := upd_trm (fun g => set_term_pcb (set_file_struct
    (map (aget (t_file_struct (aget (terminals g) cterm))) (zrange 0 STRUCTS)) (term_pcb g)) g) s in
  let s := upd_pcb (fun _ => term_pcb (trm s)) s in
  let s := upd_cpu (fun c => set_tss_esp0 (u32 (EIGHT_MB - KB_8 * (pid - 1) - S_4))
                               (set_tss_ss0 KERNEL_DS c)) s in
  let s := upd_cpu (set_r_cr3 (t_cr3 (terminal_at s cterm))) s in
  let s := upd_cpu (set_r_esp (t_esp (terminal_at s cterm))) s in
  Some (Returns 0 s).

Definition terminal_switch (t_num : Z) (s : kst) : option outcome :=
  if cur_terminal (trm s) =? t_num then Some (Returns 0 s)
  else
    s ← leave_terminal s;
    let s := upd_trm (set_cur_terminal t_num) s in
    if (t_num =? T2_NUM) && (term2_flag (trm s) =? 0) then
      new_terminal (upd_trm (set_term2_flag 1) s)
    else if (t_num =? T3_NUM) && (term3_flag (trm s) =? 0) then
      new_terminal (upd_trm (set_term3_flag 1) s)
    else enter_terminal t_num s.

(** ** keyboard_read *)

Definition PROMPT : list Z := chars "391OS> ".

(** the scroll of keyboard_read clears the screen first; the cursor stays
    where the last [putc] left it *)
Definition key_scroll (s : mach) : mach :=
  let hist := text_hist (fun i j => get_char j i s) in
  shift_rows hist (clear s).

(** the first seven cells of the row read the prompt *)
Definition at_prompt (y : Z) (s : kst) : bool :=
  let buf := map (fun i => get_char i y (hw s)) (zrange 0 BUF_MIN) in
  strncmp (mem_of s) (Obj buf) (Obj PROMPT) BUF_MIN =? 0.

(** the [else if((x >= WIDTH - 1) || (keystroke == '\n'))] branch *)
Definition key_newline (keystroke y : Z) (s : kst) : option kst :=
  let s := if y >=? HEIGHT - 1 then upd_hw key_scroll s else s in
  let s := upd_hw (putc 10) s in
  if keystroke =? 10 then
    if counter (trm s) <? BUF_MAX then
      Some (upd_trm (fun g => set_entered 1 (set_counter 0
        (set_text_buf (aset (text_buf g) (counter g) keystroke) g))) s)
    else None                                                  (* text_buf[128] *)
  else Some s.

Definition key_backspace (x y : Z) (s : kst) : kst :=
  if at_prompt y s && (x =? BUF_MIN) then upd_hw (send_eoi PIC_1) s
  else if counter (trm s) =? 0 then upd_hw (send_eoi PIC_1) s
  else
    let s := upd_hw (setx (x - 1)) s in
    let s := upd_hw (putc 32) s in
    let s := upd_trm (fun g => set_text_buf (aset (text_buf g) (u32 (counter g - 1)) 0)
               (set_counter (u32 (counter g - 1)) g)) s in
    upd_hw (set_cursor (x - 1) y) s.

Definition key_char (keystroke : Z) (s : kst) : kst :=
  let s := upd_trm (fun g => set_text_buf (aset (text_buf g) (counter g) keystroke) g) s in
  let s := upd_hw (putc keystroke) s in
  upd_trm (fun g => set_counter (u32 (counter g + 1)) g) s.

Definition keyboard_read (keystroke : Z) (s : kst) : option outcome :=
  let x := getx (hw s) in
  let y := gety (hw s) in
  let s := upd_hw (set_cursor x y) s in
  if keystroke =? 9 then
    '(_, h) ← printf (chars "    ") [] (hw s);
    Some (Returns 0 (upd_hw (set_cursor (x + 4) y) (set_hw h s)))
  else if keystroke =? CTRL_C then Some (Returns 0 (upd_hw (send_eoi PIC_8) s))
  else if keystroke =? CTRL_L then
    let s := upd_hw clear s in
    let s := upd_hw (set_cursor 0 0) s in
    '(_, h) ← printf PROMPT [] (hw s);
    Some (Returns 0 (set_hw h s))
  else if (x >=? WIDTH - 1) || (keystroke =? 10) then
    s ← key_newline keystroke y s; Some (Returns 0 s)
  else if keystroke =? BACKSPACE then Some (Returns 0 (key_backspace x y s))
  else if (keystroke >=? 32) && (keystroke <=? 126) && (counter (trm s) <? BUF_MAX - 1) then
    Some (Returns 0 (key_char keystroke s))
  else if (keystroke >=? T1_SWITCH) && (keystroke <=? T3_SWITCH) then
    if keystroke =? T1_SWITCH then terminal_switch 1 s
    else if keystroke =? T2_SWITCH then terminal_switch 2 (upd_trm (set_term2_press 1) s)
    else terminal_switch 3 (upd_trm (set_term3_press 1) s)
  else Some (Returns 0 s).

(** the interrupt as [read_helper]'s wait sees it, when it returns *)
Definition typed (keystroke : Z) (s : kst) : kst :=
  match keyboard_read keystroke s with Some o => state_of o | None => s end.
End Terminal.

(** ** The line editor *)

Section Editor.
Context `{Platform}.

(** what the keys for text do to a line *)
Inductive key := Char (c : Z) | Back.
Definition key_code (k : key) : Z := match k with Char c => c | Back => BACKSPACE end.
Definition key_ok (k : key) : Prop := match k with Char c => 32 <= c <= 126 | Back => True end.
Definition edit (l : list Z) (k : key) : list Z :=
  match k with Char c => l ++ [c] | Back => take (length l - 1) l end.

(** only the terminal's variables, the screen and the ports differ *)
Definition terminal_only (s s' : kst) : Prop :=
  fsg s' = fsg s /\ sysg s' = sysg s /\ cpu s' = cpu s /\ saved s' = saved s.

#[export] Instance terminal_only_preorder : PreOrder terminal_only.
Proof.
  split; [now intros s|]. intros s1 s2 s3 H1 H2. unfold terminal_only in *.
  destruct_and!. split_and!; congruence.
Qed.

Lemma terminal_only_hw f s : terminal_only s (upd_hw f s).
Proof. now split. Qed.
Lemma terminal_only_trm f s : terminal_only s (upd_trm f s).
Proof. now split. Qed.

(** the line [l] is being typed from column [x0] of row [y] *)
Record editing (s0 : kst) (x0 y : Z) (l : list Z) (s : kst) : Prop := {
  ed_counter : counter (trm s) = Z.of_nat (length l);
  ed_room : (length l <= 127)%nat;
  ed_size : length (text_buf (trm s)) = 128%nat;
  ed_line : take (length l) (text_buf (trm s)) = l;
  ed_entered : entered (trm s) = 0;
  ed_x : screen_x (hw s) = x0 + Z.of_nat (length l);
  ed_y : screen_y (hw s) = y;
  ed_shown : forall j, 0 <= j < Z.of_nat (length l) -> get_char (x0 + j) y (hw s) = aget l j;
  ed_chars : Forall (fun c => 32 <= c <= 126) l;
  ed_other : terminal_only s0 s
}.

Lemma take_aset (l : list Z) n v : (n < length l)%nat -> take (S n) (aset l (Z.of_nat n) v) = take n l ++ [v].
Proof.
  intros Hn. unfold aset. rewrite Nat2Z.id.
  rewrite (take_S_r _ _ v); [|now apply list_lookup_insert_eq].
  f_equal. rewrite take_insert_ge; [done | lia].
Qed.

Lemma get_char_putc c s x y :
  printable c -> cursor_ok s -> 0 <= x < 80 -> 0 <= y < 25 ->
  get_char x y (putc c s) =
    if (x =? screen_x s) && (y =? screen_y s) then u8 c else get_char x y s.
Proof.
  intros Hc Hok Hx Hy. pose proof Hok as [Hx1 Hy1]. unfold NUM_COLS, NUM_ROWS in *.
  destruct (putc_printable c s Hc Hok) as (Hf & _). unfold get_char. rewrite Hf, !cell_lin.
  unfold NUM_COLS. unfold VIDEO.
  destruct (Z.eqb_spec x (screen_x s)) as [Ex|Ex], (Z.eqb_spec y (screen_y s)) as [Ey|Ey]; cbn [andb].
  1: { subst x y. rewrite Z.sub_diag. reflexivity. }
  all: match goal with |- context [u32 ?o <? 2] => destruct (Z.ltb_spec (u32 o) 2) as [Hlt|]; [|reflexivity] end;
    exfalso; zlia.
Qed.

Lemma editing_cursor s0 x0 y l s :
  editing s0 x0 y l s -> 0 <= x0 -> x0 + Z.of_nat (length l) < 80 -> 0 <= y < 25 -> cursor_ok (hw s).
Proof. intros [] ? ? ?. unfold cursor_ok, NUM_COLS, NUM_ROWS. lia. Qed.

(** setting the cursor to where it is *)
Lemma editing_set_cursor s0 x0 y l s :
  editing s0 x0 y l s -> editing s0 x0 y l (upd_hw (set_cursor (screen_x (hw s)) (screen_y (hw s))) s).
Proof. intros []. now split. Qed.

Lemma editing_send_eoi s0 x0 y l s i : editing s0 x0 y l s -> editing s0 x0 y l (upd_hw (send_eoi i) s).
Proof.
  intros []. assert (forall h, mm (send_eoi i h) = mm h /\ screen_x (send_eoi i h) = screen_x h /\
    screen_y (send_eoi i h) = screen_y h) as Hs by (intros h; unfold send_eoi; case_match; done).
  destruct (Hs (hw s)) as (Hm & Hx & Hy).
  split; try done; try (unfold upd_hw; cbn [hw set_hw]; congruence).
  intros j Hj. unfold upd_hw, get_char. cbn [hw set_hw]. rewrite Hm. now apply ed_shown0.
Qed.

Lemma key_char_edits s0 x0 y l s c :
  editing s0 x0 y l s -> 32 <= c <= 126 -> 0 <= x0 -> x0 + Z.of_nat (length l) < 79 -> 0 <= y < 25 ->
  editing s0 x0 y (l ++ [c]) (key_char c s).
Proof.
  intros He Hc Hx0 Hx Hy. pose proof (editing_cursor _ _ _ _ _ He Hx0 ltac:(lia) Hy) as Hok.
  destruct He. assert (printable c) as Hp by (split; lia).
  destruct (putc_printable c (hw s) Hp Hok) as (_ & Px & Py & _).
  split; rewrite ?length_app; cbn [length].
  - unfold key_char. kst_cbn. rewrite u32_small; lia.
  - lia.
  - unfold key_char. kst_cbn. now rewrite length_aset.
  - unfold key_char. kst_cbn. rewrite ed_counter0, Nat.add_1_r, take_aset by lia. now rewrite ed_line0.
  - done.
  - unfold key_char. kst_cbn. rewrite Px, ed_x0, Z.mod_small by (unfold NUM_COLS; lia). lia.
  - unfold key_char. kst_cbn. now rewrite Py.
  - intros j Hj. unfold key_char. kst_cbn. rewrite get_char_putc by (done || lia). rewrite ed_x0, ed_y0.
    destruct (Z.eqb_spec (x0 + j) (x0 + Z.of_nat (length l))), (Z.eqb_spec y y); try lia; cbn [andb].
    + unfold aget. rewrite lookup_total_app_r by lia.
      replace (Z.to_nat j - length l)%nat with 0%nat by lia. rewrite u8_small by lia. reflexivity.
    + unfold aget. rewrite lookup_total_app_l by lia. apply ed_shown0. lia.
  - apply Forall_app. split; [done|]. constructor; [lia | constructor].
  - etrans; [done|]. now split.
Qed.

Lemma key_backspace_edits s0 x0 y l s :
  editing s0 x0 y l s -> 7 <= x0 -> x0 + Z.of_nat (length l) < 79 -> 0 <= y < 25 ->
  editing s0 x0 y (take (length l - 1) l) (key_backspace (screen_x (hw s)) y s).
Proof.
  intros He Hx0 Hx Hy. unfold key_backspace, BUF_MIN.
  pose proof (ed_counter _ _ _ _ _ He) as Hcnt. pose proof (ed_x _ _ _ _ _ He) as Hsx.
  destruct (at_prompt y s && (screen_x (hw s) =? 7)) eqn:Hp; [|destruct (Z.eqb_spec (counter (trm s)) 0)].
  1: apply andb_true_iff in Hp as [_ Hp%Z.eqb_eq].
  1, 2: assert (length l = 0)%nat as Hl by lia; apply nil_length_inv in Hl as ->;
    now apply editing_send_eoi.
  set (s1 := upd_hw (setx (screen_x (hw s) - 1)) s).
  assert (cursor_ok (hw s1)) as Hok
    by (destruct He; unfold cursor_ok, NUM_COLS, NUM_ROWS; cbn; lia).
  assert (printable 32) as Hp32 by (split; lia).
  destruct He.
  assert (length (take (length l - 1) l) = (length l - 1)%nat) as Hlen by (rewrite length_take; lia).
  split; rewrite ?Hlen.
  - unfold s1. kst_cbn. rewrite u32_small; lia.
  - lia.
  - unfold s1. kst_cbn. now rewrite length_aset.
  - unfold s1. kst_cbn. rewrite <- ed_line0 at 3. rewrite take_take. unfold aset. rewrite u32_small by lia.
    rewrite take_insert_ge by lia. f_equal. lia.
  - done.
  - cbn. lia.
  - done.
  - intros j Hj. unfold s1. kst_cbn. rewrite get_char_set_cursor, get_char_putc by (done || lia).
    cbn [setx screen_x screen_y set_screen_x].
    destruct (Z.eqb_spec (x0 + j) (screen_x (hw s) - 1)); [lia|]. cbn [andb].
    unfold aget. rewrite lookup_total_take, decide_True by lia. apply (ed_shown0 j). lia.
  - now apply Forall_take.
  - etrans; [done|]. now split.
Qed.

(** what the interrupt does for a key of the line *)
Definition key_step (k : key) (s : kst) : kst :=
  let x := getx (hw s) in
  let y := gety (hw s) in
  let s := upd_hw (set_cursor x y) s in
  match k with Char c => key_char c s | Back => key_backspace x y s end.

Lemma keyboard_read_key s0 x0 y l s k :
  editing s0 x0 y l s -> key_ok k -> x0 + Z.of_nat (length l) < 79 -> 0 <= x0 ->
  keyboard_read (key_code k) s = Some (Returns 0 (key_step k s)).
Proof.
  intros He Hk Hx Hx0. pose proof He as [Hcnt _ _ _ _ Hsx Hsy _ _ _].
  unfold keyboard_read, key_step, getx, gety. set (s1 := upd_hw _ s).
  assert (counter (trm s1) = Z.of_nat (length l)) as Hc1 by exact Hcnt.
  unfold WIDTH, BUF_MAX, BACKSPACE, CTRL_C, CTRL_L.
  destruct (Z.geb_spec (screen_x (hw s)) (80 - 1)); [lia|].
  destruct k as [c|]; cbn [key_code key_ok] in *; [|reflexivity].
  destruct (Z.eqb_spec c 9), (Z.eqb_spec c 248), (Z.eqb_spec c 255), (Z.eqb_spec c 10),
    (Z.eqb_spec c 8), (Z.geb_spec c 32), (Z.leb_spec c 126), (Z.ltb_spec (counter (trm s1)) (128 - 1));
    try lia; reflexivity.
Qed.

(** one key of the line *)
Lemma key_step_edits s0 x0 y l s k :
  editing s0 x0 y l s -> key_ok k -> 0 <= x0 -> (k = Back -> 7 <= x0) ->
  x0 + Z.of_nat (length l) < 79 -> 0 <= y < 25 -> editing s0 x0 y (edit l k) (key_step k s).
Proof.
  intros He Hk Hx0 Hback Hx Hy. pose proof (ed_y _ _ _ _ _ He) as Hsy.
  apply editing_set_cursor in He as He1. unfold key_step, getx, gety.
  destruct k as [c|]; cbn [edit key_ok] in *; [now apply key_char_edits|].
  set (s1 := upd_hw _ s) in *. rewrite Hsy.
  change (screen_x (hw s)) with (screen_x (hw s1)). apply key_backspace_edits; auto.
Qed.
End Editor.

Section Enter.
Context `{Platform}.

(** the enter key: the row scrolls, the line is finished *)
Definition enter_step (s : kst) : kst :=
  let y := gety (hw s) in
  let s := upd_hw (set_cursor (getx (hw s)) y) s in
  let s := if y >=? HEIGHT - 1 then upd_hw key_scroll s else s in
  upd_trm (fun g => set_entered 1 (set_counter 0 (set_text_buf (aset (text_buf g) (counter g) 10) g)))
    (upd_hw (putc 10) s).

Lemma keyboard_read_enter s0 x0 y l s :
  editing s0 x0 y l s ->
  keyboard_read 10 s = Some (Returns 0 (enter_step s)) /\ line_ready (enter_step s) l /\
  counter (trm (enter_step s)) = 0 /\ length (text_buf (trm (enter_step s))) = 128%nat /\
  terminal_only s0 (enter_step s).
Proof.
  intros [Hcnt Hroom Hsize Hline _ _ _ _ Hch Hoth]. unfold keyboard_read, key_newline, enter_step.
  change (10 =? 9) with false. change (10 =? CTRL_C) with false. change (10 =? CTRL_L) with false.
  change (10 =? 10) with true. rewrite orb_true_r. cbv iota zeta. unfold gety, getx.
  generalize (set_cursor (screen_x (hw s)) (screen_y (hw s))). intros f.
  set (s1 := if screen_y (hw s) >=? HEIGHT - 1 then upd_hw key_scroll (upd_hw f s) else upd_hw f s).
  assert (trm s1 = trm s /\ terminal_only s s1) as [Ht Ho]
    by (unfold s1; now destruct (screen_y (hw s) >=? HEIGHT - 1)).
  clearbody s1. change (trm (upd_hw (putc 10) s1)) with (trm s1).
  unfold BUF_MAX. rewrite Ht. destruct (Z.ltb_spec (counter (trm s)) 128); [|lia]. rewrite bind_some.
  split; [reflexivity|]. unfold line_ready. kst_cbn. rewrite Ht, Hcnt, length_aset.
  split_and!; try done; try lia.
  - eapply Forall_impl; [exact Hch|]. intros c Hc. cbn in Hc. lia.
  - intros j Hj. rewrite aget_aset_ne by lia. unfold aget. rewrite <- Hline at 1.
    rewrite lookup_total_take, decide_True by lia. done.
  - apply (aget_aset_eq (text_buf (trm s))). lia.
  - etrans; [exact Hoth|]. etrans; [exact Ho|]. now split.
Qed.

Lemma typed_returns k s s' : keyboard_read k s = Some (Returns 0 s') -> typed k s = s'.
Proof. unfold typed. now intros ->. Qed.

Lemma read_helper_wait irq irqs buf n s :
  entered (trm s) = 0 -> read_helper (irq :: irqs) buf n s = read_helper irqs buf n (irq s).
Proof. intros He. cbn [read_helper]. now rewrite He. Qed.

Lemma edit_length l k : (length (edit l k) <= S (length l))%nat.
Proof. destruct k; cbn [edit]; [rewrite length_app; cbn; lia | rewrite length_take; lia]. Qed.

End Enter.

(** ** The line buffer never overflows *)

Section LineBuffer.
Context `{Platform}.

(** the index is in range, with room for the newline *)
Definition line_inv (s : kst) : Prop :=
  length (text_buf (trm s)) = 128%nat /\ 0 <= counter (trm s) <= 127.

(** the line is as it was *)
Definition line_kept (s s' : kst) : Prop :=
  text_buf (trm s') = text_buf (trm s) /\ counter (trm s') = counter (trm s).

#[export] Instance line_kept_preorder : PreOrder line_kept.
Proof. split; [now intros s|]. intros s1 s2 s3 [] []. split; congruence. Qed.

Lemma line_kept_inv s s' : line_kept s s' -> line_inv s -> line_inv s'.
Proof. unfold line_inv. now intros [-> ->]. Qed.

Lemma line_kept_trm s s' : trm s' = trm s -> line_kept s s'.
Proof. unfold line_kept. now intros ->. Qed.

Lemma read_data_trm inode offset buf n s r s' :
  read_data inode offset buf n s = Some (r, s') -> trm s' = trm s.
Proof.
  unfold read_data. repeat case_match; try discriminate; try (now intros [= <- <-]).
  all: intros (m' & _ & E)%bind_Some; case_match; [|discriminate]; injection E as <- <-; done.
Qed.

Lemma loader_trm filename s r s' : loader filename s = Some (r, s') -> trm s' = trm s.
Proof.
  unfold loader. destruct (read_dentry_by_name _ _ _) as [r0 d].
  repeat case_match; try discriminate; try (now intros [= <- <-]).
  intros ([r1 s2] & Er & Hb)%bind_Some. apply read_data_trm in Er.
  cbv beta iota zeta in Hb. apply bind_Some in Hb as (s4 & Em & Hb). injection Hb as <- <-.
  unfold memcpy_virtual in Em. repeat case_match; try discriminate. injection Em as <-.
  transitivity (trm s2); [|exact Er]. unfold load_page_directory. repeat case_match; reflexivity.
Qed.

Lemma terminal_write_trm fd buf n s : trm (snd (terminal_write fd buf n s)) = trm s.
Proof. unfold terminal_write. case_match; [done|]. now destruct (write_helper _ _ _). Qed.

Lemma write_trm fd buf n s r s' : write fd buf n s = Some (r, s') -> trm s' = trm s.
Proof.
  unfold write. case_match; [now intros [= <- <-]|]. unfold call_write.
  destruct (fops_ptr (file_at s fd)).
  - discriminate.
  - destruct buf; [|discriminate]. destruct (rtc_write _ _ _ _). now intros [= <- <-].
  - intros [= E]. now rewrite <- (terminal_write_trm fd buf n s), E.
  - intros [= E]. now rewrite <- (terminal_write_trm fd buf n s), E.
Qed.

Lemma choose_pid_trm command s : trm (choose_pid command s) = trm s.
Proof. unfold choose_pid. repeat case_match; reflexivity. Qed.

Lemma save_parent_trm p s : trm (save_parent p s) = trm s.
Proof. unfold save_parent. cbv zeta. now destruct (_ =? 1). Qed.

Lemma init_files_trm s : trm (init_files s) = trm s.
Proof. unfold init_files. now rewrite (fold_kept trm). Qed.

Lemma fill_pcb_trm p s : trm (fill_pcb p s) = trm s.
Proof. now destruct s. Qed.

Lemma start_process_line p e s : line_kept s (state_of (start_process p e s)).
Proof.
  unfold start_process. cbv zeta. set (s0 := upd_trm _ s).
  assert (line_kept s s0) as H0 by now split. etrans; [exact H0|]. apply line_kept_trm.
  assert (trm (fill_pcb p (init_files s0)) = trm s0) as <-
    by (now rewrite fill_pcb_trm, init_files_trm).
  generalize (fill_pcb p (init_files s0)). intros s2. destruct (task_directory _); reflexivity.
Qed.

Lemma execute_line command s o : execute command s = Some o -> line_kept s (state_of o).
Proof.
  unfold execute. case_match; [now intros [= <-]|].
  match goal with |- context [choose_pid command ?x] => set (s1 := x) end.
  assert (trm (choose_pid command s1) = trm s) as Hs2 by (rewrite choose_pid_trm; done).
  set (s2 := choose_pid command s1) in *. clearbody s2. case_match.
  - intros ([r s3] & E & [= <-])%bind_Some. apply write_trm in E. apply line_kept_trm.
    cbn [state_of]. congruence.
  - cbv zeta. intros (s3 & E3 & ([e s4] & E4 & Hb)%bind_Some)%bind_Some.
    apply loader_trm in E4.
    assert (trm s3 = trm s) as Hs3.
    { revert E3. unfold parse_cmd. intros (n & _ & (p & _ & [= <-])%bind_Some)%bind_Some.
      rewrite <- Hs2. cbn [trm upd_pcb upd_sysg set_sysg]. apply save_parent_trm. }
    cbv beta iota in Hb. case_match; injection Hb as <-.
    + apply line_kept_trm. cbn [state_of]. congruence.
    + etrans; [|apply start_process_line]. apply line_kept_trm. congruence.
Qed.

Lemma line_inv_zero s :
  line_inv (upd_trm (set_counter 0) (upd_trm (set_text_buf (map (fun _ => 0) (zrange 0 BUF_MAX))) s)).
Proof. split; [reflexivity | cbn; lia]. Qed.

(** the line buffer that a switch puts back has 128 bytes; the counter stays *)
Lemma line_inv_buf s f :
  0 <= counter (trm s) <= 127 -> line_inv (upd_trm (set_text_buf (map f (zrange 0 BUF_MAX))) s).
Proof. intros Hc. split; [|exact Hc]. cbn [trm upd_trm set_trm text_buf set_text_buf]. now rewrite length_map. Qed.

Lemma new_terminal_line s o : new_terminal s = Some o -> line_inv (state_of o).
Proof.
  unfold new_terminal. cbv zeta. intros (o' & E & [= <-])%bind_Some. apply execute_line in E.
  assert (line_inv (state_of o')) as Hi.
  { apply (line_kept_inv _ _ E). apply (line_kept_inv (upd_trm (set_counter 0) (upd_trm
      (set_text_buf (map (fun _ => 0) (zrange 0 BUF_MAX))) s))); [now apply line_kept_trm|].
    apply line_inv_zero. }
  now destruct o'.
Qed.

Lemma leave_terminal_line s s' : leave_terminal s = Some s' -> line_kept s s'.
Proof.
  unfold leave_terminal. cbv zeta. case_match; [discriminate|].
  intros (b & _ & [= <-])%bind_Some. split; reflexivity.
Qed.

Lemma enter_terminal_line t s o :
  0 <= counter (trm s) <= 127 -> enter_terminal t s = Some o -> line_inv (state_of o).
Proof.
  intros Hc. unfold enter_terminal. intros (b & _ & [= <-])%bind_Some.
  split; [|exact Hc]. cbn [state_of]. transitivity (length (zrange 0 BUF_MAX)); [|reflexivity].
  rewrite <- (length_map (aget (t_linebuffer (terminal_at s (cur_terminal (trm s) - 1))))). reflexivity.
Qed.

Lemma terminal_switch_line t s o :
  line_inv s -> terminal_switch t s = Some o -> line_inv (state_of o).
Proof.
  intros Hi. unfold terminal_switch. case_match; [now intros [= <-]|].
  intros (s1 & E & Hb)%bind_Some. apply leave_terminal_line in E. cbv zeta in Hb.
  pose proof (line_kept_inv _ _ E Hi) as [_ Hc].
  repeat case_match; eauto using new_terminal_line. now apply enter_terminal_line in Hb.
Qed.

Lemma printf_total f s : render (length f) f [] <> None -> exists r h, printf f [] s = Some (r, h).
Proof.
  unfold printf. destruct (render _ _ _) as [l|] eqn:E; [|done]. intros _.
  rewrite (printf_loop_renders _ _ _ _ _ E). cbn. eauto.
Qed.

Lemma key_newline_line k y s :
  line_inv s -> exists s', key_newline k y s = Some s' /\ line_inv s'.
Proof.
  intros [Hs Hc]. unfold key_newline. set (s1 := if y >=? _ then _ else s).
  assert (trm s1 = trm s) as Ht by (unfold s1; now destruct (y >=? _)). clearbody s1. cbv zeta.
  change (trm (upd_hw (putc 10) s1)) with (trm s1). rewrite Ht. unfold BUF_MAX.
  destruct (k =? 10); [|eexists; split; [reflexivity|]; unfold line_inv; kst_cbn; now rewrite Ht].
  destruct (Z.ltb_spec (counter (trm s)) 128); [|lia].
  eexists. split; [reflexivity|]. unfold line_inv. kst_cbn. rewrite Ht, length_aset. split; [done | lia].
Qed.

Lemma key_backspace_line x y s : line_inv s -> line_inv (key_backspace x y s).
Proof.
  intros [Hs Hc]. unfold key_backspace. case_match; [now split|].
  destruct (Z.eqb_spec (counter (trm s)) 0); [now split|]. unfold line_inv. kst_cbn.
  rewrite length_aset. split; [done|]. rewrite u32_small; lia.
Qed.

Lemma key_char_line k s : line_inv s -> counter (trm s) < 127 -> line_inv (key_char k s).
Proof.
  intros [Hs Hc] Hlt. unfold key_char, line_inv. kst_cbn. rewrite length_aset. split; [done|].
  rewrite u32_small; lia.
Qed.

(** C18: The line editor stays inside its 128-byte buffer: with the counter at
    most 127, every keystroke that does not switch terminals is handled
    without undefined behaviour, and whatever a keystroke does, including
    switching to another terminal or starting a shell in it, the counter is
    at most 127 afterwards. *)
Theorem line_buffer_never_overflows k s :
  line_inv s ->
  (~ T1_SWITCH <= k <= T3_SWITCH -> exists s', keyboard_read k s = Some (Returns 0 s')) /\
  (forall o, keyboard_read k s = Some o -> line_inv (state_of o)).
Proof.
  intros Hi. unfold keyboard_read. set (s1 := upd_hw (set_cursor _ _) s).
  assert (line_inv s1) as Hi1 by exact Hi. cbv zeta. clearbody s1.
  destruct (k =? 9).
  { destruct (printf_total (chars "    ") (hw s1)) as (r & h & ->); [discriminate|].
    rewrite bind_some. split; [intros; eexists; reflexivity|]. now intros o [= <-]. }
  destruct (k =? CTRL_C); [split; [intros; eexists; reflexivity | now intros o [= <-]]|].
  destruct (k =? CTRL_L).
  { destruct (printf_total PROMPT (hw (upd_hw (set_cursor 0 0) (upd_hw clear s1))))
      as (r & h & ->); [discriminate|].
    rewrite bind_some. split; [intros; eexists; reflexivity|]. now intros o [= <-]. }
  destruct ((_ >=? _) || (k =? 10)).
  { destruct (key_newline_line k (gety (hw s)) s1 Hi1) as (s2 & -> & Hi2). rewrite bind_some.
    split; [intros; eexists; reflexivity|]. now intros o [= <-]. }
  destruct (k =? BACKSPACE).
  { split; [intros; eexists; reflexivity|]. intros o [= <-]. now apply key_backspace_line. }
  destruct ((k >=? 32) && _ && _) eqn:Hk.
  { rewrite !andb_true_iff, Z.ltb_lt in Hk. unfold BUF_MAX in Hk.
    split; [intros; eexists; reflexivity|]. intros o [= <-]. apply key_char_line; [done | lia]. }
  destruct ((k >=? T1_SWITCH) && (k <=? T3_SWITCH)) eqn:Hs.
  - split; [intros Hn; exfalso; rewrite andb_true_iff in Hs; lia|].
    intros o. case_match; [|case_match]; apply terminal_switch_line; exact Hi1.
  - split; [intros; eexists; reflexivity|]. now intros o [= <-].
Qed.
End LineBuffer.

(** ** Switching away and back *)

Section Switch.
Context `{Platform}.

Definition term_addr (t : Z) : Z := MEM_6MB + 16384 * (t - 1).

Lemma save_screen_copied t m :
  1 <= t <= 3 -> copied m (save_screen t m) V_MEM_ADDR (term_addr t) 4096.
Proof.
  intros Ht. assert (t = 1 \/ t = 2 \/ t = 3) as [-> | [-> | ->]] by lia;
    refine (memcpy_copied m _ V_MEM_ADDR 4096 _); right; vm_compute; discriminate.
Qed.

Lemma load_screen_copied t m :
  1 <= t <= 3 -> copied m (load_screen t m) (term_addr t) V_MEM_ADDR 4096.
Proof.
  intros Ht. assert (t = 1 \/ t = 2 \/ t = 3) as [-> | [-> | ->]] by lia;
    refine (memcpy_copied m V_MEM_ADDR _ 4096 _); right; vm_compute; discriminate.
Qed.

(** the memory of the steps between leaving and coming back to terminal [t] *)
Definition screen_kept (t : Z) (m m' : mem) : Prop :=
  forall i, 0 <= i < 4096 -> rd m' (term_addr t + i) = rd m (term_addr t + i).

#[export] Instance screen_kept_preorder t : PreOrder (screen_kept t).
Proof. split; [now intros m i|]. intros m1 m2 m3 H1 H2 i Hi. now rewrite H2, H1. Qed.

Lemma screen_kept_clear t s : 1 <= t <= 3 -> screen_kept t (mm s) (mm (clear s)).
Proof.
  intros Ht i Hi. destruct (clear_spec s) as (Hf & _). rewrite Hf.
  destruct (Z.ltb_spec (off VIDEO (term_addr t + i)) 4000) as [Hlt|]; [|reflexivity].
  exfalso. unfold VIDEO, term_addr, MEM_6MB in Hlt. zlia.
Qed.

Lemma screen_kept_save t u m : 1 <= t <= 3 -> 1 <= u <= 3 -> t <> u -> screen_kept t m (save_screen u m).
Proof.
  intros Ht Hu Hne i Hi. rewrite (save_screen_copied u m Hu).
  destruct (Z.ltb_spec (off (term_addr u) (term_addr t + i)) 4096) as [Hlt|]; [|reflexivity].
  exfalso. unfold term_addr, MEM_6MB in Hlt. zlia.
Qed.

Lemma screen_kept_load t u m : 1 <= t <= 3 -> 1 <= u <= 3 -> screen_kept t m (load_screen u m).
Proof.
  intros Ht Hu i Hi. rewrite (load_screen_copied u m Hu).
  destruct (Z.ltb_spec (off V_MEM_ADDR (term_addr t + i)) 4096) as [Hlt|]; [|reflexivity].
  exfalso. unfold V_MEM_ADDR, term_addr, MEM_6MB in Hlt. zlia.
Qed.

(** what leave_terminal does: the current terminal's record, its screen's
    buffer, a cleared screen *)
Record left (a : Z) (s s' : kst) : Prop := {
  le_mem : mem_of s' = mm (clear (set_mm (save_screen a (mem_of s)) (hw s)));
  le_text : text_buf (trm s') = text_buf (trm s);
  le_counter : counter (trm s') = counter (trm s);
  le_rest : terminal_only s s';
  le_count : length (terminals (trm s')) = length (terminals (trm s));
  le_flags : term2_flag (trm s') = term2_flag (trm s) /\ term3_flag (trm s') = term3_flag (trm s);
  le_cursor : pos_x (terminal_at s' (a - 1)) = screen_x (hw s) /\
              pos_y (terminal_at s' (a - 1)) = screen_y (hw s);
  le_line : t_linebuffer (terminal_at s' (a - 1)) = map (aget (text_buf (trm s))) (zrange 0 BUF_MAX);
  le_regs : t_cr3 (terminal_at s' (a - 1)) = r_cr3 (cpu s) /\
            t_esp (terminal_at s' (a - 1)) = r_esp (cpu s);
  le_files : forall b, saved s !! pcb_slot (get_pid_from_cr3 (r_cr3 (cpu s))) = Some b ->
    t_file_struct (terminal_at s' (a - 1)) = map (aget (file_struct b)) (zrange 0 STRUCTS);
  le_others : forall j, 0 <= j < 3 -> j <> a - 1 -> terminal_at s' j = terminal_at s j
}.

Lemma mem_of_blanked s f :
  mem_of (upd_hw (set_cursor 0 0) (upd_hw clear (upd_mem f s))) =
  mm (clear (set_mm (f (mem_of s)) (hw s))).
Proof.
  unfold mem_of. cbn [hw upd_hw set_hw upd_mem]. set (c := clear _).
  exact (proj1 (set_cursor_frame 0 0 c)).
Qed.

#[local] Opaque clear save_screen load_screen.

Lemma leave_terminal_left a s b :
  cur_terminal (trm s) = a -> 1 <= a <= 3 -> length (terminals (trm s)) = 3%nat ->
  saved s !! pcb_slot (get_pid_from_cr3 (r_cr3 (cpu s))) = Some b ->
  exists s', leave_terminal s = Some s' /\ left a s s'.
Proof.
  intros Ha Ha13 Hlen Hb.
  destruct s as [h g y [tb cn en ct f2 f3 p2 p3 ts tp] c v]. cbn in Ha, Hlen, Hb. subst ct.
  destruct ts as [|t0 [|t1 [|t2 [|]]]]; try discriminate.
  assert (a = 1 \/ a = 2 \/ a = 3) as [-> | [-> | ->]] by lia; clear Ha13 Hlen.
  all: unfold leave_terminal; cbn [cur_terminal trm]; cbv zeta;
    lazymatch goal with |- context [if negb (in_range ?x 3) then _ else _] =>
      change (in_range x 3) with true end; cbn [negb];
    lazymatch goal with |- context [saved ?x !! pcb_slot (get_pid_from_cr3 ?y)] =>
      change (saved x !! pcb_slot (get_pid_from_cr3 y)) with (v !! pcb_slot (get_pid_from_cr3 (r_cr3 c))) end;
    rewrite Hb, bind_some.
  all: eexists; split; [reflexivity|].
  all: split; [rewrite mem_of_blanked; reflexivity | ..]; try reflexivity;
    try (repeat split; reflexivity).
  all: try (cbn [saved cpu]; rewrite Hb; intros b' [= <-]; reflexivity).
  all: intros j Hj Hne; assert (j = 0 \/ j = 1 \/ j = 2) as [-> | [-> | ->]] by lia; try lia; reflexivity.
Qed.

(** what enter_terminal does, for the terminal record [T] and the PCB [b] *)
Record entered_as (t : Z) (T : terminal_t) (b : pcb_t) (s s' : kst) : Prop := {
  en_mem : mem_of s' = load_screen t (mem_of s);
  en_cursor : screen_x (hw s') = pos_x T /\ screen_y (hw s') = pos_y T;
  en_text : text_buf (trm s') = map (aget (t_linebuffer T)) (zrange 0 BUF_MAX);
  en_pcb : pcb_of s' = set_file_struct (map (aget (t_file_struct T)) (zrange 0 STRUCTS)) b;
  en_regs : r_cr3 (cpu s') = t_cr3 T /\ r_esp (cpu s') = t_esp T;
  en_stack : tss_esp0 (cpu s') =
    u32 (EIGHT_MB - KB_8 * (get_pid_from_cr3 (t_cr3 T) - 1) - S_4);
  en_saved : saved s' = saved s;
  en_trm : terminals (trm s') = terminals (trm s) /\ cur_terminal (trm s') = cur_terminal (trm s) /\
    counter (trm s') = counter (trm s);
  en_flags : term2_flag (trm s') = term2_flag (trm s) /\ term3_flag (trm s') = term3_flag (trm s);
  en_tasks : tasks (sysg s') = tasks (sysg s) /\ fsg s' = fsg s
}.

Lemma enter_terminal_entered t s b :
  cur_terminal (trm s) = t ->
  saved s !! pcb_slot (get_pid_from_cr3 (t_cr3 (terminal_at s (t - 1)))) = Some b ->
  exists s', enter_terminal t s = Some (Returns 0 s') /\ entered_as t (terminal_at s (t - 1)) b s s'.
Proof.
  intros Ht Hb. unfold terminal_at in Hb.
  destruct s as [h g [bb fi np fr ta r1 r2 r3] [tb cn en ct f2 f3 p2 p3 ts tp] [c1 c2 c3 c4 c5] v].
  cbn in Ht, Hb. subst ct. unfold enter_terminal. cbn [cur_terminal trm]. cbv zeta.
  lazymatch goal with |- context [saved ?x !! pcb_slot (get_pid_from_cr3 ?y)] =>
    change (saved x !! pcb_slot (get_pid_from_cr3 y))
      with (v !! pcb_slot (get_pid_from_cr3 (t_cr3 (aget ts (t - 1))))) end.
  rewrite Hb, bind_some. eexists. split; [reflexivity|].
  split; try reflexivity; repeat split; reflexivity.
Qed.

(** the terminal has been entered before *)
Definition running (t : Z) (s : kst) : Prop :=
  (t = 2 -> term2_flag (trm s) <> 0) /\ (t = 3 -> term3_flag (trm s) <> 0).

Lemma running_flags t s s' :
  term2_flag (trm s') = term2_flag (trm s) /\ term3_flag (trm s') = term3_flag (trm s) ->
  running t s -> running t s'.
Proof. unfold running. now intros [-> ->]. Qed.

Lemma terminal_switch_running t s s1 :
  cur_terminal (trm s) <> t -> leave_terminal s = Some s1 -> running t s1 ->
  terminal_switch t s = enter_terminal t (upd_trm (set_cur_terminal t) s1).
Proof.
  intros Hne Hl [H2 H3]. unfold terminal_switch. destruct (Z.eqb_spec (cur_terminal (trm s)) t); [done|].
  rewrite Hl, bind_some. cbv zeta. cbn [trm upd_trm set_trm term2_flag term3_flag set_cur_terminal].
  unfold T2_NUM, T3_NUM. destruct (Z.eqb_spec t 2) as [E2|]; cbn [andb].
  - destruct (Z.eqb_spec (term2_flag (trm s1)) 0); [exfalso; now apply H2|].
    destruct (Z.eqb_spec t 3); [lia | done].
  - destruct (Z.eqb_spec t 3) as [E3|]; cbn [andb]; [|done].
    destruct (Z.eqb_spec (term3_flag (trm s1)) 0); [exfalso; now apply H3 | done].
Qed.

(** one switch between running terminals *)
Lemma terminal_switch_effect a t s pa pt :
  cur_terminal (trm s) = a -> 1 <= a <= 3 -> 1 <= t <= 3 -> a <> t ->
  length (terminals (trm s)) = 3%nat -> running t s ->
  saved s !! pcb_slot (get_pid_from_cr3 (r_cr3 (cpu s))) = Some pa ->
  saved s !! pcb_slot (get_pid_from_cr3 (t_cr3 (terminal_at s (t - 1)))) = Some pt ->
  exists s1 s', terminal_switch t s = Some (Returns 0 s') /\ left a s s1 /\
    entered_as t (terminal_at s (t - 1)) pt (upd_trm (set_cur_terminal t) s1) s'.
Proof.
  intros Hcur Ha Ht Hat Hlen Hrun Hpa Hpt.
  destruct (leave_terminal_left a s pa Hcur Ha Hlen Hpa) as (s1 & Hl & Hleft).
  exists s1. pose proof Hleft as [_ _ _ (_ & _ & _ & Hsv) _ Hfl _ _ _ _ Ho].
  assert (terminal_at (upd_trm (set_cur_terminal t) s1) (t - 1) = terminal_at s (t - 1)) as Ht1
    by (rewrite <- (Ho (t - 1)) by lia; reflexivity).
  destruct (enter_terminal_entered t (upd_trm (set_cur_terminal t) s1) pt) as (s' & E & Hen).
  { reflexivity. }
  { rewrite Ht1. change (saved (upd_trm (set_cur_terminal t) s1)) with (saved s1). now rewrite Hsv. }
  rewrite Ht1 in Hen. exists s'. split; [|split; [exact Hleft | exact Hen]].
  rewrite (terminal_switch_running t s s1); [exact E | congruence | exact Hl |].
  now apply (running_flags t s).
Qed.

Lemma set_file_struct_same b : set_file_struct (file_struct b) b = b.
Proof. now destruct b. Qed.

(** the screen of terminal [a], after leaving it and as long as its buffer is kept *)
Lemma left_screen a s s' m :
  1 <= a <= 3 -> left a s s' -> screen_kept a (mem_of s') m ->
  forall i, 0 <= i < 4096 -> rd m (term_addr a + i) = rd (mem_of s) (V_MEM_ADDR + i).
Proof.
  intros Ha Hl Hk i Hi. rewrite (Hk i Hi), (le_mem _ _ _ Hl), screen_kept_clear by done.
  cbn [mm set_mm]. rewrite (save_screen_copied a _ Ha).
  replace (off (term_addr a) (term_addr a + i)) with i by zlia.
  destruct (Z.ltb_spec i 4096); [done | lia].
Qed.

Lemma left_kept a t s s' : 1 <= a <= 3 -> 1 <= t <= 3 -> t <> a -> left a s s' ->
  screen_kept t (mem_of s) (mem_of s').
Proof.
  intros Ha Ht Hne Hl. rewrite (le_mem _ _ _ Hl).
  etrans; [|now apply screen_kept_clear]. cbn [mm set_mm]. now apply screen_kept_save.
Qed.

Lemma load_screen_at u m i :
  1 <= u <= 3 -> 0 <= i < 4096 -> rd (load_screen u m) (V_MEM_ADDR + i) = rd m (term_addr u + i).
Proof.
  intros Hu Hi. rewrite (load_screen_copied u m Hu).
  replace (off V_MEM_ADDR (V_MEM_ADDR + i)) with i by zlia.
  destruct (Z.ltb_spec i 4096); [done | lia].
Qed.

(** C14: Switching from a terminal to another running one and back restores the
    first: the whole of its screen, its cursor, its partly typed line, and its
    address space, stack pointer and saved PCB.  In between, the other
    terminal's own screen, cursor, line and address space are in place.  The
    counter of typed characters is not kept per terminal, which terminal.h and
    the bug log say it is: it stays what it was through both switches, so in
    between it counts the first terminal's characters over the second's line. *)
Theorem switching_back_restores_terminal a t s pa pt :
  cur_terminal (trm s) = a -> 1 <= a <= 3 -> 1 <= t <= 3 -> a <> t ->
  length (terminals (trm s)) = 3%nat -> length (text_buf (trm s)) = 128%nat ->
  running a s -> running t s -> length (file_struct pa) = 8%nat ->
  saved s !! pcb_slot (get_pid_from_cr3 (r_cr3 (cpu s))) = Some pa ->
  saved s !! pcb_slot (get_pid_from_cr3 (t_cr3 (terminal_at s (t - 1)))) = Some pt ->
  exists s1 s2, terminal_switch t s = Some (Returns 0 s1) /\
    terminal_switch a s1 = Some (Returns 0 s2) /\
    (forall i, 0 <= i < 4096 -> rd (mem_of s1) (V_MEM_ADDR + i) = rd (mem_of s) (term_addr t + i)) /\
    r_cr3 (cpu s1) = t_cr3 (terminal_at s (t - 1)) /\
    screen_x (hw s1) = pos_x (terminal_at s (t - 1)) /\ screen_y (hw s1) = pos_y (terminal_at s (t - 1)) /\
    text_buf (trm s1) = map (aget (t_linebuffer (terminal_at s (t - 1)))) (zrange 0 BUF_MAX) /\
    counter (trm s1) = counter (trm s) /\ counter (trm s2) = counter (trm s) /\
    (forall i, 0 <= i < 4096 -> rd (mem_of s2) (V_MEM_ADDR + i) = rd (mem_of s) (V_MEM_ADDR + i)) /\
    screen_x (hw s2) = screen_x (hw s) /\ screen_y (hw s2) = screen_y (hw s) /\
    text_buf (trm s2) = text_buf (trm s) /\
    r_cr3 (cpu s2) = r_cr3 (cpu s) /\ r_esp (cpu s2) = r_esp (cpu s) /\
    pcb_of s2 = pa /\ cur_terminal (trm s2) = a /\ tasks (sysg s2) = tasks (sysg s).
Proof.
  intros Hcur Ha Ht Hat Hlen Htb Hra Hrt Hfa Hpa Hpt.
  destruct (terminal_switch_effect a t s pa pt) as (l1 & s1 & E1 & L1 & N1); try done.
  pose proof (le_rest _ _ _ L1) as (Lf & Ls & _ & Lsv).
  pose proof (en_trm _ _ _ _ _ N1) as (T1 & T2 & T3). pose proof (en_regs _ _ _ _ _ N1) as [R1 R2].
  assert (forall j, terminal_at s1 j = terminal_at l1 j) as Htj
    by (intros j; unfold terminal_at; now rewrite T1).
  assert (saved s1 = saved s) as Hsv by (rewrite (en_saved _ _ _ _ _ N1); exact Lsv).
  destruct (le_regs _ _ _ L1) as [LR1 LR2]. destruct (le_cursor _ _ _ L1) as [LC1 LC2].
  destruct (terminal_switch_effect t a s1 pt pa) as (l2 & s2 & E2 & L2 & N2).
  { exact T2. } { done. } { done. } { congruence. }
  { rewrite T1. change (terminals (trm (upd_trm (set_cur_terminal t) l1))) with (terminals (trm l1)).
    now rewrite (le_count _ _ _ L1). }
  { apply (running_flags a l1); [exact (en_flags _ _ _ _ _ N1)|].
    apply (running_flags a s); [exact (le_flags _ _ _ L1) | exact Hra]. }
  { rewrite R1, Hsv. exact Hpt. } { rewrite Htj, LR1, Hsv. exact Hpa. }
  rewrite Htj in N2. exists s1, s2. split; [exact E1|]. split; [exact E2|].
  pose proof (en_mem _ _ _ _ _ N1) as M1. pose proof (en_mem _ _ _ _ _ N2) as M2.
  change (mem_of (upd_trm (set_cur_terminal t) l1)) with (mem_of l1) in M1.
  change (mem_of (upd_trm (set_cur_terminal a) l2)) with (mem_of l2) in M2.
  destruct (en_cursor _ _ _ _ _ N1) as [X1 Y1]. destruct (en_cursor _ _ _ _ _ N2) as [X2 Y2].
  destruct (en_regs _ _ _ _ _ N2) as [Q1 Q2]. destruct (en_tasks _ _ _ _ _ N1) as [K1 _].
  destruct (en_tasks _ _ _ _ _ N2) as [K2 _]. pose proof (le_rest _ _ _ L2) as (_ & Ls2 & _ & _).
  assert (counter (trm s1) = counter (trm s)) as C1 by (rewrite T3; exact (le_counter _ _ _ L1)).
  assert (counter (trm s2) = counter (trm s)) as C2.
  { destruct (en_trm _ _ _ _ _ N2) as (_ & _ & ->). rewrite <- C1. exact (le_counter _ _ _ L2). }
  split_and!.
  - intros i Hi. rewrite M1, load_screen_at by done. now apply (left_kept a t s l1).
  - exact R1.
  - exact X1.
  - exact Y1.
  - exact (en_text _ _ _ _ _ N1).
  - exact C1.
  - exact C2.
  - intros i Hi. rewrite M2, load_screen_at by done. apply (left_screen a s l1); try done.
    etrans; [|apply (left_kept t a s1 l2); congruence]. rewrite M1. now apply screen_kept_load.
  - congruence.
  - congruence.
  - rewrite (en_text _ _ _ _ _ N2), (le_line _ _ _ L1).
    now rewrite !(map_aget_all (text_buf (trm s)) BUF_MAX) by now rewrite Htb.
  - congruence.
  - congruence.
  - rewrite (en_pcb _ _ _ _ _ N2), (le_files _ _ _ L1 pa Hpa).
    rewrite !(map_aget_all (file_struct pa) STRUCTS) by now rewrite Hfa. apply set_file_struct_same.
  - exact (proj1 (proj2 (en_trm _ _ _ _ _ N2))).
  - rewrite K2. change (sysg (upd_trm (set_cur_terminal a) l2)) with (sysg l2). rewrite Ls2, K1.
    change (sysg (upd_trm (set_cur_terminal t) l1)) with (sysg l1). now rewrite Ls.
Qed.
End Switch.

#[local] Existing Instance demo_platform.

(** behind the prompt, nothing typed *)
Definition demo_prompt : kst := upd_hw (setxy 7 2) (boot_kst ∅).

Lemma line_buffer_never_overflows_witness :
  exists s', keyboard_read 97 demo_prompt = Some (Returns 0 s') /\ line_inv s'.
Proof.
  destruct (line_buffer_never_overflows 97 demo_prompt) as [He Hi].
  - split; [reflexivity | cbn; lia].
  - destruct He as (s' & E); [unfold T1_SWITCH; lia|]. exists s'. split; [exact E|].
    exact (Hi _ E).
Defined.

(** shells of terminals 1 and 2 are running, the first is shown *)
Definition demo_terminals : kst :=
  let s := upd_cpu (set_r_cr3 (proc_pd 1)) demo_prompt in
  let s := upd_trm (set_term2_flag 1) s in
  let s := upd_trm (set_terminals [zero_terminal; set_t_cr3 (proc_pd 2) zero_terminal; zero_terminal]) s in
  set_saved (<[pcb_slot 1 := zero_pcb]> (<[pcb_slot 2 := zero_pcb]> ∅)) s.

Lemma switching_back_restores_terminal_witness :
  exists s1 s2, terminal_switch 2 demo_terminals = Some (Returns 0 s1) /\
    terminal_switch 1 s1 = Some (Returns 0 s2) /\ r_cr3 (cpu s1) = proc_pd 2 /\
    screen_x (hw s2) = 7 /\ r_cr3 (cpu s2) = proc_pd 1.
Proof.
  destruct (switching_back_restores_terminal 1 2 demo_terminals zero_pcb zero_pcb)
    as (s1 & s2 & E1 & E2 & _ & R1 & _ & _ & _ & _ & _ & _ & X2 & _ & _ & R2 & _).
  - reflexivity.
  - lia.
  - lia.
  - lia.
  - reflexivity.
  - reflexivity.
  - split; discriminate.
  - split; [discriminate | lia].
  - reflexivity.
  - reflexivity.
  - reflexivity.
  - exists s1, s2. split; [exact E1|]. split; [exact E2|]. split; [exact R1|]. split; [exact X2 | exact R2].
Defined.
