(* ===== verification/Tty.v ===== *)
(** * The terminal as its user sees it

    [tty] is an abstract terminal: 25 rows of 80 characters and a cursor, with
    what a character written by a program and a key typed do to it.  [screen]
    reads it off the machine (video memory and the statics of lib.c), and the
    theorems show that the kernel's write path and its line editor implement
    it, byte for byte, scrolling included. *)

From Stdlib Require Import ZArith Lia.
From stdpp Require Import base list gmap.
From S2P Require Import Prelude Memory CMem CStr Machine Console Pic KState Filesystem TermIO Terminal.
Open Scope Z_scope.

Record tty := Tty { glyphs : list Z; col : Z; row : Z }.

Definition glyph (t : tty) (i j : Z) : Z := aget (glyphs t) (80 * i + j).

(** a character where the cursor is: at the right edge the cursor goes back to
    the start of the same row *)
Definition tty_draw (c : Z) (t : tty) : tty :=
  Tty (aset (glyphs t) (80 * row t + col t) c) ((col t + 1) mod 80) (row t).
Definition tty_newline (t : tty) : tty := Tty (glyphs t) 0 (row t + 1).

(** the scroll of a write: the last row is neither moved nor cleared *)
Definition tty_scroll (t : tty) : tty :=
  Tty (take 1840 (drop 80 (glyphs t)) ++ replicate 80 32 ++ drop 1920 (glyphs t)) 0 23.
(** the scroll of the line editor *)
Definition tty_key_scroll (t : tty) : tty := Tty (drop 80 (glyphs t) ++ replicate 80 32) 0 23.

(** a character written by a program *)
Definition tty_char (t : tty) (c : Z) : tty :=
  let t := if row t >=? 24 then tty_scroll t else t in
  if c =? 0 then t else if (c =? 10) || (c =? 13) then tty_newline t else tty_draw c t.
Definition tty_show (l : list Z) (t : tty) : tty := fold_left tty_char l t.

(** a key typed behind a line of [n] characters, and the enter key *)
Definition tty_key (n : nat) (k : key) (t : tty) : tty :=
  match k with
  | Char c => tty_draw c t
  | Back => if decide (n = 0%nat) then t
            else Tty (aset (glyphs t) (80 * row t + (col t - 1)) 32) (col t - 1) (row t)
  end.
Fixpoint tty_keys (l : list Z) (keys : list key) (t : tty) : tty :=
  match keys with
  | [] => t
  | k :: keys => tty_keys (edit l k) keys (tty_key (length l) k t)
  end.
Definition tty_enter (t : tty) : tty := tty_newline (if row t >=? 24 then tty_key_scroll t else t).

(** the machine's screen *)
Definition screen (s : mach) : tty :=
  Tty (map (fun k => get_char (k mod 80) (k / 80) s) (zrange 0 2000)) (screen_x s) (screen_y s).

Definition tty_ok (t : tty) : Prop :=
  length (glyphs t) = 2000%nat /\ Forall (fun c => printable c /\ 0 <= c < 256) (glyphs t) /\
  0 <= col t < 80 /\ 0 <= row t <= 24.

Definition tty_okb (t : tty) : bool :=
  (length (glyphs t) =? 2000)%nat &&
  forallb (fun c => negb (c =? 10) && negb (c =? 13) && (0 <=? c) && (c <? 256)) (glyphs t) &&
  (0 <=? col t) && (col t <? 80) && (0 <=? row t) && (row t <=? 24).

Lemma tty_okb_ok t : tty_okb t = true -> tty_ok t.
Proof.
  unfold tty_okb. rewrite !andb_true_iff, forallb_forall, Nat.eqb_eq.
  intros (((((Hl & Hg) & H1) & H2) & H3) & H4). split; [exact Hl|]. split; [|lia].
  apply Forall_forall. intros c Hc%list_elem_of_In%Hg. unfold printable. lia.
Qed.

(** memory outside the 4000 bytes of the screen is the same *)
Definition only_screen (m m' : mem) : Prop := forall a, 4000 <= off VIDEO a -> rd m' a = rd m a.

#[export] Instance only_screen_preorder : PreOrder only_screen.
Proof. split; [now intros m a|]. intros m1 m2 m3 H1 H2 a Ha. now rewrite H2, H1. Qed.

(** ** Reading the screen *)

Lemma glyph_screen s i j : 0 <= i < 25 -> 0 <= j < 80 -> glyph (screen s) i j = get_char j i s.
Proof.
  intros Hi Hj. unfold glyph, screen, aget. cbn [glyphs].
  apply list_lookup_total_correct. change (map ?g ?l) with (g <$> l).
  rewrite list_lookup_fmap, zrange_lookup by lia. cbn [fmap option_fmap option_map].
  replace (0 + Z.of_nat (Z.to_nat (80 * i + j))) with (80 * i + j) by lia.
  replace ((80 * i + j) mod 80) with j by zlia. now replace ((80 * i + j) / 80) with i by zlia.
Qed.

(** a terminal is its characters and its cursor *)
Lemma screen_is s t :
  length (glyphs t) = 2000%nat -> screen_x s = col t -> screen_y s = row t ->
  (forall i j, 0 <= i < 25 -> 0 <= j < 80 -> get_char j i s = glyph t i j) -> screen s = t.
Proof.
  intros Hl Hx Hy Hg. destruct t as [g x y]. cbn [glyphs col row] in *. unfold screen. rewrite Hx, Hy.
  f_equal. rewrite <- (map_aget_all g 2000) by lia. apply map_zrange_ext. intros k Hk.
  rewrite Hg by zlia. unfold glyph. cbn [glyphs]. f_equal. zlia.
Qed.

Lemma tty_ok_screen s : tty_ok (screen s) <-> cursor_ok s /\ screen_printable s.
Proof.
  unfold tty_ok, cursor_ok, screen_printable, NUM_COLS, NUM_ROWS. split.
  - intros (_ & Hg & Hx & Hy). cbn in Hx, Hy. split; [lia|]. intros i j Hi Hj.
    rewrite <- glyph_screen by done. rewrite Forall_lookup in Hg. unfold glyph, aget.
    destruct (lookup_lt_is_Some_2 (glyphs (screen s)) (Z.to_nat (80 * i + j))) as [c Hc].
    { cbn [glyphs screen]. rewrite length_map, length_zrange. lia. }
    rewrite (list_lookup_total_correct _ _ _ Hc). now apply (Hg _ _ Hc).
  - intros [[Hx Hy] Hp]. cbn [glyphs screen col row]. split; [now rewrite length_map, length_zrange|].
    split; [|lia]. apply Forall_forall. intros c Hc%list_elem_of_In.
    apply in_map_iff in Hc as (k & <- & Hk%list_elem_of_In%elem_of_zrange).
    split; [apply Hp; zlia | apply rd_range].
Qed.

(** ** What a character does *)

Lemma tty_draw_ok c t : tty_ok t -> printable c -> 0 <= c < 256 -> tty_ok (tty_draw c t).
Proof.
  intros (Hl & Hg & Hx & Hy) Hc Hr. unfold tty_draw, tty_ok. cbn [glyphs col row].
  split; [now rewrite length_aset|]. split; [|pose proof (Z.mod_pos_bound (col t + 1) 80); lia].
  unfold aset. now apply Forall_insert.
Qed.

Lemma tty_scroll_ok t : tty_ok t -> tty_ok (tty_scroll t).
Proof.
  intros (Hl & Hg & Hx & Hy). unfold tty_scroll, tty_ok. cbn [glyphs col row].
  split; [rewrite !length_app, length_take, !length_drop, length_replicate; lia|].
  split; [|lia]. apply Forall_app. split; [now apply Forall_take, Forall_drop|].
  apply Forall_app. split; [|now apply Forall_drop]. apply Forall_replicate. unfold printable. lia.
Qed.

Lemma tty_key_scroll_ok t : tty_ok t -> tty_ok (tty_key_scroll t).
Proof.
  intros (Hl & Hg & Hx & Hy). unfold tty_key_scroll, tty_ok. cbn [glyphs col row].
  split; [rewrite length_app, length_drop, length_replicate; lia|].
  split; [|lia]. apply Forall_app. split; [now apply Forall_drop|].
  apply Forall_replicate. unfold printable. lia.
Qed.

Lemma tty_newline_ok t : tty_ok t -> row t < 24 -> tty_ok (tty_newline t).
Proof. intros (Hl & Hg & Hx & Hy) Hr. unfold tty_ok. cbn. split; [exact Hl | split; [exact Hg | lia]]. Qed.

Lemma tty_char_ok t c : tty_ok t -> 0 <= c < 256 -> tty_ok (tty_char t c).
Proof.
  intros Ht Hc. unfold tty_char. set (t1 := if row t >=? 24 then _ else t).
  assert (tty_ok t1 /\ row t1 < 24) as [Ht1 Hr1].
  { unfold t1. destruct (Z.geb_spec (row t) 24); [split; [now apply tty_scroll_ok | cbn; lia]|].
    split; [exact Ht | lia]. }
  clearbody t1. cbv zeta. destruct (Z.eqb_spec c 0); [exact Ht1|].
  destruct (Z.eqb_spec c 10), (Z.eqb_spec c 13); cbn [orb]; try (now apply tty_newline_ok).
  apply tty_draw_ok; [exact Ht1 | now split | exact Hc].
Qed.

Lemma tty_show_ok l t : Forall (fun c => 0 <= c < 256) l -> tty_ok t -> tty_ok (tty_show l t).
Proof.
  revert t. induction l as [|c l IH]; intros t Hl Ht; [exact Ht|].
  apply Forall_cons_1 in Hl as [Hc Hl]. apply IH; [exact Hl | now apply tty_char_ok].
Qed.

Lemma tty_show_app l1 l2 t : tty_show (l1 ++ l2) t = tty_show l2 (tty_show l1 t).
Proof. apply fold_left_app. Qed.

Lemma text_chars l : forallb (fun c => negb ((c =? 0) || (c =? 10) || (c =? 13))) l = true -> Forall text_char l.
Proof.
  rewrite forallb_forall. intros Hl. apply Forall_forall. intros c Hc%list_elem_of_In%Hl. unfold text_char. lia.
Qed.

(** text that fits the row moves the cursor by its length *)
Lemma tty_show_col_from l t :
  Forall text_char l -> 0 <= col t -> col t + Z.of_nat (length l) < 80 -> row t < 24 ->
  col (tty_show l t) = col t + Z.of_nat (length l).
Proof.
  revert t. induction l as [|c l IH]; intros t Hl Hx Hf Hr; cbn [length tty_show fold_left] in *; [lia|].
  apply Forall_cons_1 in Hl as [(H0 & H1 & H2) Hl]. unfold tty_char at 2.
  destruct (Z.geb_spec (row t) 24); [lia|]. cbv zeta.
  destruct (Z.eqb_spec c 0), (Z.eqb_spec c 10), (Z.eqb_spec c 13); try lia. cbn [orb].
  fold (tty_show l (tty_draw c t)). rewrite IH; cbn [col row tty_draw]; rewrite ?Z.mod_small by lia;
    done || lia.
Qed.

Lemma tty_show_col l t :
  Forall text_char l -> col t = 0 -> Z.of_nat (length l) < 80 ->
  col (tty_show l t) = Z.of_nat (length l).
Proof.
  intros Hl Hx Hf. destruct (Z.ltb_spec (row t) 24) as [Hr|Hr].
  - rewrite tty_show_col_from by (done || lia). lia.
  - destruct l as [|c l]; [done|]. apply Forall_cons_1 in Hl as [(H0 & H1 & H2) Hl].
    cbn [length tty_show fold_left] in *. unfold tty_char at 2.
    destruct (Z.geb_spec (row t) 24); [|lia]. cbv zeta.
    destruct (Z.eqb_spec c 0), (Z.eqb_spec c 10), (Z.eqb_spec c 13); try lia. cbn [orb].
    fold (tty_show l (tty_draw c (tty_scroll t))).
    rewrite tty_show_col_from; cbn [col row tty_draw tty_scroll]; rewrite ?Z.mod_small by lia; done || lia.
Qed.

(** ** The machine does it *)

Lemma only_screen_filled m m' a n f :
  VIDEO <= a -> 0 <= n -> a + n <= VIDEO + 4000 -> filled m m' a n f -> only_screen m m'.
Proof.
  intros Ha Hn He Hf b Hb. rewrite Hf. destruct (Z.ltb_spec (off a b) n); [|done].
  exfalso. unfold VIDEO in *. zlia.
Qed.

Lemma aget_aset (l : list Z) i j v :
  0 <= i < Z.of_nat (length l) -> 0 <= j -> aget (aset l i v) j = if i =? j then v else aget l j.
Proof.
  intros Hi Hj. destruct (Z.eqb_spec i j) as [->|]; [now apply aget_aset_eq | apply aget_aset_ne; lia].
Qed.

Lemma draw_screen c s :
  printable c -> 0 <= c < 256 -> tty_ok (screen s) ->
  screen (putc c s) = tty_draw c (screen s) /\ only_screen (mm s) (mm (putc c s)).
Proof.
  intros Hc Hr Hok. apply tty_ok_screen in Hok as Hok'. destruct Hok' as [Hcur _].
  destruct (putc_printable c s Hc Hcur) as (Hf & Ex & Ey & _). pose proof Hcur as [Hx Hy].
  unfold NUM_COLS, NUM_ROWS in *. split.
  - apply screen_is; [apply (tty_draw_ok c _ Hok Hc Hr) | exact Ex | exact Ey |].
    intros i j Hi Hj. rewrite get_char_putc by done. unfold glyph, tty_draw. cbn [glyphs].
    rewrite aget_aset by (try lia; rewrite (proj1 Hok); cbn [row col screen]; lia).
    cbn [row col screen]. fold (glyph (screen s) i j).
    destruct (Z.eqb_spec j (screen_x s)), (Z.eqb_spec i (screen_y s)),
      (Z.eqb_spec (80 * screen_y s + screen_x s) (80 * i + j)); cbn [andb]; try lia;
      [now apply u8_small | | |]; symmetry; now apply glyph_screen.
  - eapply only_screen_filled; [| | |exact Hf]; rewrite ?cell_lin; unfold NUM_COLS; lia.
Qed.

(** ** Writing *)

Lemma glyph_scroll t i j :
  length (glyphs t) = 2000%nat -> 0 <= i < 25 -> 0 <= j < 80 ->
  glyph (tty_scroll t) i j = if i <? 23 then glyph t (i + 1) j else if i =? 23 then 32 else glyph t i j.
Proof.
  intros Hl Hi Hj. unfold glyph, aget, tty_scroll. cbn [glyphs].
  assert (length (take 1840 (drop 80 (glyphs t))) = 1840%nat) as Hl1
    by (rewrite length_take, length_drop; lia).
  destruct (Z.ltb_spec i 23); [|destruct (Z.eqb_spec i 23)].
  - rewrite lookup_total_app_l, lookup_total_take, decide_True, lookup_total_drop by lia. f_equal. lia.
  - rewrite lookup_total_app_r, Hl1 by lia. rewrite lookup_total_app_l by (rewrite length_replicate; lia).
    apply list_lookup_total_correct, lookup_replicate_2. lia.
  - rewrite lookup_total_app_r, Hl1 by lia. rewrite lookup_total_app_r by (rewrite length_replicate; lia).
    rewrite length_replicate, lookup_total_drop. f_equal. lia.
Qed.

Lemma mm_set_cursor x y s : mm (set_cursor x y s) = mm s.
Proof. reflexivity. Qed.

Lemma scroll_screen s :
  tty_ok (screen s) ->
  screen (write_scroll s) = tty_scroll (screen s) /\ only_screen (mm s) (mm (write_scroll s)).
Proof.
  intros Hok. pose proof (proj1 Hok) as Hl. apply tty_ok_screen in Hok as [Hcur Hp]. split.
  - apply screen_is.
    + unfold tty_scroll. cbn [glyphs]. rewrite !length_app, length_take, !length_drop, length_replicate. lia.
    + reflexivity.
    + reflexivity.
    + intros i j Hi Hj. rewrite glyph_scroll by done.
      rewrite (proj1 (write_scroll_rows s i j Hp Hi Hj)).
      destruct (Z.ltb_spec i 23); [rewrite glyph_screen by lia; done|].
      now rewrite glyph_screen by lia.
  - unfold write_scroll. rewrite mm_set_cursor.
    eapply (only_screen_filled _ _ VIDEO 3840); [lia | lia | lia | apply shift_rows_filled].
    intros i j Hi Hj. cbv beta. case_match; [unfold printable; lia|]. split; [now apply Hp | apply rd_range].
Qed.

Lemma off_screen_ldc p n (m m' : mem) k :
  off_screen p n -> only_screen m m' -> 0 <= k < n -> ldc m' p k = ldc m p k.
Proof.
  destruct p as [a|]; [|done]. cbn [off_screen ldc]. intros Ho Hm Hk. apply Hm. unfold VIDEO in *. zlia.
Qed.

(** one character of write_helper's loop *)
Lemma write_char_tty p k n i s :
  tty_ok (screen s) -> off_screen p n -> 0 <= k < n ->
  let '(i', s') := write_char p k i s in
  screen s' = tty_char (screen s) (ldc (mm s) p k) /\ only_screen (mm s) (mm s') /\ (i' = i \/ i' = 25).
Proof.
  intros Hok Hoff Hk. unfold write_char, tty_char, getx, gety, HEIGHT.
  change (row (screen s)) with (screen_y s). change (25 - 1) with 24.
  assert ((screen_x s =? WIDTH) = false) as ->
    by (destruct Hok as (_ & _ & Hx & _); cbn [col screen] in Hx; unfold WIDTH; lia).
  cbn [andb]. pose proof (ldc_range (mm s) p k) as Hr.
  set (s1 := if screen_y s >=? 24 then write_scroll s else s).
  assert ((if screen_y s >=? 24 then (25, write_scroll s) else (i, s)) =
    ((if screen_y s >=? 24 then 25 else i), s1)) as -> by (unfold s1; now case_match).
  assert (screen s1 = (if screen_y s >=? 24 then tty_scroll (screen s) else screen s) /\
    only_screen (mm s) (mm s1)) as [E1 Hm1].
  { unfold s1. case_match; [now apply scroll_screen | split; [done | reflexivity]]. }
  assert (tty_ok (screen s1)) as Hok1 by (rewrite E1; case_match; [now apply tty_scroll_ok | exact Hok]).
  rewrite <- E1. clearbody s1. cbv zeta beta. rewrite (off_screen_ldc p n _ _ k Hoff Hm1 Hk).
  generalize dependent (ldc (mm s) p k). intros c Hr.
  split; [|split; [|case_match; auto]].
  - destruct (Z.eqb_spec c 0); [done|]. destruct (Z.eqb_spec c 10) as [->|]; [reflexivity|].
    destruct (Z.eqb_spec c 13) as [->|]; [reflexivity|]. cbn [orb].
    apply draw_screen; [now split | exact Hr | exact Hok1].
  - etrans; [exact Hm1|]. destruct (Z.eqb_spec c 0); [reflexivity|].
    destruct (Z.eqb_spec c 10) as [->|]; [reflexivity|].
    destruct (Z.eqb_spec c 13) as [->|]; [reflexivity|].
    apply draw_screen; [now split | exact Hr | exact Hok1].
Qed.

Lemma write_loop_tty p n l k i s :
  tty_ok (screen s) -> off_screen p n -> 0 <= k -> k + Z.of_nat (length l) <= n ->
  text_at (mm s) p k l ->
  let '(i', s') := write_loop (length l) p k i s in
  screen s' = tty_show l (screen s) /\ only_screen (mm s) (mm s') /\ (i' = i \/ i' = 25).
Proof.
  intros Hok Hoff. revert k i s Hok. induction l as [|c l IH]; intros k i s Hok Hk Hn Ht; cbn [length write_loop].
  - split; [done|]. split; [reflexivity | auto].
  - cbn [length] in *.
    assert (ldc (mm s) p k = c) as Hc by (rewrite <- (Z.add_0_r k); apply (Ht 0); cbn [length]; lia).
    pose proof (write_char_tty p k n i s Hok Hoff ltac:(lia)) as Hw. rewrite Hc in Hw.
    destruct (write_char p k i s) as [i1 s1]. destruct Hw as (E1 & Hm1 & Hi1).
    assert (tty_ok (screen s1)) as Hok1.
    { rewrite E1. apply tty_char_ok; [exact Hok|]. rewrite <- Hc. apply ldc_range. }
    specialize (IH (k + 1) i1 s1 Hok1 ltac:(lia) ltac:(lia)).
    destruct (write_loop (length l) p (k + 1) i1 s1) as [i2 s2].
    destruct IH as (E2 & Hm2 & Hi2).
    + intros j Hj. rewrite (off_screen_ldc p n _ _ _ Hoff Hm1) by lia.
      specialize (Ht (j + 1) ltac:(cbn [length]; lia)).
      replace (k + 1 + j) with (k + (j + 1)) by lia. rewrite Ht. unfold aget.
      now replace (Z.to_nat (j + 1)) with (S (Z.to_nat j)) by lia.
    + split; [now rewrite E2, E1|]. split; [etrans; [exact Hm1 | exact Hm2]|].
      destruct Hi1 as [-> | ->], Hi2 as [-> | ->]; auto.
Qed.

(** what terminal_write returns: [i + 1], where [i] is only set by a scroll *)
Definition write_result `{Platform} (s : kst) (r : Z) : Prop :=
  r = s32 (s32 (stack_junk (ports (hw s))) + 1) \/ r = 26.

Lemma terminal_write_tty `{Platform} fd p l s :
  let h := hw s in
  let n := Z.of_nat (length l) in
  fd <> 0 -> is_null p = false -> off_screen p n -> text_at (mm h) p 0 l -> tty_ok (screen h) ->
  exists r h', terminal_write fd p n s = (r, set_hw h' s) /\ write_result s r /\
    screen h' = tty_show l (screen h) /\ only_screen (mm h) (mm h') /\ if_flag h' = true /\
    exists log, ports h' = log ++ vga_cursor (col (screen h')) (row (screen h')).
Proof.
  intros h n Hfd Hnull Hoff Ht Hok. unfold terminal_write, write_helper.
  destruct (Z.eqb_spec fd 0); [done|]. rewrite Hnull. destruct (Z.ltb_spec n 0); [lia|]. cbn [orb].
  unfold n at 1. rewrite Nat2Z.id. fold h.
  pose proof (write_loop_tty p n l 0 (s32 (stack_junk (ports (cli h)))) (cli h) Hok Hoff) as Hw.
  destruct (write_loop (length l) p 0 (s32 (stack_junk (ports (cli h)))) (cli h)) as [i s1].
  destruct Hw as (E1 & Hm1 & Hi1); [lia | lia | exact Ht |].
  set (h2 := set_cursor (getx s1) (gety s1) s1).
  assert (screen h2 = screen s1) as E2 by reflexivity.
  exists (s32 (i + 1)), (sti h2). split; [reflexivity|]. split.
  { unfold write_result. destruct Hi1 as [-> | ->]; [now left | now right]. }
  change (screen (sti h2)) with (screen h2). split; [now rewrite E2|]. split; [exact Hm1|]. split; [reflexivity|].
  exists (ports s1). exact (set_cursor_ports (getx s1) (gety s1) s1).
Qed.

(** ** Typing *)

(** only the screen's part of memory, and nothing of the other state but the
    terminal's, differs *)
Definition shows (s : kst) (t : tty) (s' : kst) : Prop :=
  screen (hw s') = t /\ only_screen (mem_of s) (mem_of s').

Lemma shows_trans s1 s2 s3 t2 t3 : shows s1 t2 s2 -> shows s2 t3 s3 -> shows s1 t3 s3.
Proof. intros [E1 M1] [E2 M2]. split; [exact E2 | etrans; [exact M1 | exact M2]]. Qed.

(** drawing, whatever the terminal's variables become *)
Lemma shows_putc c s f g :
  printable c -> 0 <= c < 256 -> tty_ok (screen (hw s)) ->
  shows s (tty_draw c (screen (hw s))) (upd_trm g (upd_hw (putc c) (upd_trm f s))).
Proof.
  intros Hc Hr Hok. destruct (draw_screen c (hw s) Hc Hr Hok) as [E M].
  unfold shows, mem_of. cbn [hw upd_trm set_trm upd_hw set_hw]. split; [exact E | exact M].
Qed.

(** setting the cursor to where it is shows nothing *)
Lemma set_cursor_same s :
  let s1 := upd_hw (set_cursor (screen_x (hw s)) (screen_y (hw s))) s in
  screen (hw s1) = screen (hw s) /\ mem_of s1 = mem_of s /\ trm s1 = trm s /\
  screen_x (hw s1) = screen_x (hw s) /\ screen_y (hw s1) = screen_y (hw s).
Proof. split_and!; reflexivity. Qed.

Lemma shows_send_eoi i s : shows s (screen (hw s)) (upd_hw (send_eoi i) s).
Proof. unfold send_eoi. split; cbn [upd_hw set_hw hw]; case_match; done. Qed.

(** erasing the character left of the cursor *)
Lemma erase_screen s :
  tty_ok (screen s) -> 0 < screen_x s ->
  let s' := set_cursor (screen_x s - 1) (screen_y s) (putc 32 (setx (screen_x s - 1) s)) in
  screen s' = Tty (aset (glyphs (screen s)) (80 * screen_y s + (screen_x s - 1)) 32)
    (screen_x s - 1) (screen_y s) /\ only_screen (mm s) (mm s').
Proof.
  intros Hok Hx s'. set (s1 := setx (screen_x s - 1) s).
  assert (screen s1 = Tty (glyphs (screen s)) (screen_x s - 1) (screen_y s)) as E1 by reflexivity.
  assert (tty_ok (screen s1)) as Hok1.
  { rewrite E1. destruct Hok as (Hl & Hg & Hc & Hr). cbn [col row screen] in *.
    split; [exact Hl|]. split; [exact Hg|]. cbn [col row]. lia. }
  destruct (draw_screen 32 s1) as [E2 Hm2]; [unfold printable; lia | lia | exact Hok1 |].
  assert (screen s' = Tty (glyphs (screen (putc 32 s1))) (screen_x s - 1) (screen_y s)) as -> by reflexivity.
  split; [now rewrite E2, E1 | exact Hm2].
Qed.

Lemma shows_erase s f :
  tty_ok (screen (hw s)) -> 0 < screen_x (hw s) ->
  shows s (Tty (aset (glyphs (screen (hw s))) (80 * screen_y (hw s) + (screen_x (hw s) - 1)) 32)
      (screen_x (hw s) - 1) (screen_y (hw s)))
    (upd_hw (set_cursor (screen_x (hw s) - 1) (screen_y (hw s)))
      (upd_trm f (upd_hw (putc 32) (upd_hw (setx (screen_x (hw s) - 1)) s)))).
Proof.
  intros Hok Hx. destruct (erase_screen (hw s) Hok Hx) as [E M].
  unfold shows, mem_of. cbn [hw upd_trm set_trm upd_hw set_hw]. split; [exact E | exact M].
Qed.

Lemma key_step_shows s0 x0 y l s k :
  editing s0 x0 y l s -> key_ok k -> 0 <= x0 -> (k = Back -> 7 <= x0) ->
  x0 + Z.of_nat (length l) < 79 -> tty_ok (screen (hw s)) ->
  shows s (tty_key (length l) k (screen (hw s))) (key_step k s).
Proof.
  intros He Hk Hx0 Hback Hx Hok. unfold key_step, getx, gety.
  destruct (set_cursor_same s) as (E1 & Em & Et & Ex & Ey).
  pose proof (ed_counter _ _ _ _ _ He) as Hcnt. pose proof (ed_x _ _ _ _ _ He) as Hsx.
  set (s1 := upd_hw (set_cursor _ _) s) in *. clearbody s1.
  rewrite <- E1 in Hok. rewrite <- Et in Hcnt. rewrite <- Ex in Hsx.
  unfold shows. rewrite <- E1, <- Em, <- Ex, <- Ey. clear He E1 Em Et Ex Ey.
  destruct k as [c|]; cbn [tty_key key_ok] in *.
  - apply shows_putc; [unfold printable; lia | lia | exact Hok].
  - unfold key_backspace. specialize (Hback eq_refl).
    unfold BUF_MIN. destruct (at_prompt _ s1 && _) eqn:Hp;
      [|destruct (Z.eqb_spec (counter (trm s1)) 0)].
    1: apply andb_true_iff in Hp as [_ Hp%Z.eqb_eq].
    1, 2: rewrite decide_True by lia; apply shows_send_eoi.
    rewrite decide_False by lia. apply shows_erase; [exact Hok | lia].
Qed.

Lemma tty_key_ok n k t : key_ok k -> tty_ok t -> (k = Back -> n <> 0%nat -> 0 < col t) -> tty_ok (tty_key n k t).
Proof.
  intros Hk Hok Hb. destruct k as [c|]; cbn [tty_key key_ok] in *.
  - apply tty_draw_ok; [exact Hok | unfold printable; lia | lia].
  - case_decide; [exact Hok|]. specialize (Hb eq_refl H). destruct Hok as (Hl & Hg & Hc & Hr).
    split; [cbn; now rewrite length_aset|]. cbn [glyphs col row]. split; [|lia].
    unfold aset. apply Forall_insert; [exact Hg | unfold printable; lia].
Qed.

(** the line editor while it waits for the line *)
Lemma keys_shown `{Platform} s0 x0 y keys l s rest buf n :
  editing s0 x0 y l s -> Forall key_ok keys -> 0 <= x0 -> (Back ∈ keys -> 7 <= x0) ->
  x0 + Z.of_nat (length l) + Z.of_nat (length keys) <= 79 -> 0 <= y < 25 -> tty_ok (screen (hw s)) ->
  exists s', editing s0 x0 y (fold_left edit keys l) s' /\
    shows s (tty_keys l keys (screen (hw s))) s' /\ tty_ok (screen (hw s')) /\
    read_helper (map (fun k => typed (key_code k)) keys ++ rest) buf n s = read_helper rest buf n s'.
Proof.
  revert l s. induction keys as [|k keys IH]; intros l s He Hk Hx0 Hback Hx Hy Hok.
  { exists s. split; [exact He|]. split; [split; [done | reflexivity] | auto]. }
  apply Forall_cons_1 in Hk as [Hk Hks]. cbn [length map app fold_left tty_keys] in *.
  assert (k = Back -> 7 <= x0) as Hback1 by (intros ->; apply Hback, list_elem_of_here).
  pose proof (keyboard_read_key _ _ _ _ _ _ He Hk ltac:(lia) Hx0) as E.
  pose proof (key_step_edits _ _ _ _ _ _ He Hk Hx0 Hback1 ltac:(lia) Hy) as He1.
  pose proof (key_step_shows _ _ _ _ _ _ He Hk Hx0 Hback1 ltac:(lia) Hok) as S1.
  rewrite read_helper_wait, (typed_returns _ _ _ E) by apply He.
  destruct (IH (edit l k) (key_step k s)) as (s2 & He2 & S2 & Hok2 & Hr); try done.
  - intros Hb. apply Hback. now apply list_elem_of_further.
  - pose proof (edit_length l k). lia.
  - rewrite (proj1 S1). apply tty_key_ok; [exact Hk | exact Hok |].
    intros -> Hn. cbn [col screen]. rewrite (ed_x _ _ _ _ _ He). lia.
  - exists s2. split; [exact He2|]. split; [|split; [exact Hok2 | exact Hr]].
    rewrite (proj1 S1) in S2. exact (shows_trans _ _ _ _ _ S1 S2).
Qed.

(** the cursor behind the last row drawn *)
Lemma shift_rows_cursor f s :
  (forall i j, 0 <= i < 25 -> 0 <= j < 80 -> printable (f i j) /\ 0 <= f i j < 256) ->
  screen_x (shift_rows (text_hist f) s) = 0 /\ screen_y (shift_rows (text_hist f) s) = 23.
Proof.
  intros Hf. unfold shift_rows. rewrite (zrange_app 1 24 HEIGHT) by (unfold HEIGHT; lia).
  change (zrange 24 HEIGHT) with [24]. rewrite fold_left_app. cbn [fold_left].
  generalize (fold_left (fun s i => put_chars (aget (text_hist f) i) (set_cursor 0 (i - 1) s)) (zrange 1 24) s).
  intros s1. destruct (hist_rows f 24 Hf ltac:(lia)) as [Hlen Hpr].
  destruct (put_chars_row (aget (text_hist f) 24) (set_cursor 0 (24 - 1) s1)) as (_ & -> & -> & _);
    [exact Hpr | split; cbn; unfold NUM_COLS, NUM_ROWS; lia | rewrite Hlen; cbn; unfold NUM_COLS; lia |].
  rewrite Hlen. split; reflexivity.
Qed.

Lemma glyph_key_scroll t i j :
  length (glyphs t) = 2000%nat -> 0 <= i < 25 -> 0 <= j < 80 ->
  glyph (tty_key_scroll t) i j = if i <? 24 then glyph t (i + 1) j else 32.
Proof.
  intros Hl Hi Hj. unfold glyph, aget, tty_key_scroll. cbn [glyphs].
  destruct (Z.ltb_spec i 24).
  - rewrite lookup_total_app_l, lookup_total_drop by (rewrite length_drop; lia). f_equal. lia.
  - rewrite lookup_total_app_r by (rewrite length_drop; lia).
    apply list_lookup_total_correct, lookup_replicate_2. rewrite length_drop. lia.
Qed.

Lemma key_scroll_screen s :
  tty_ok (screen s) ->
  screen (key_scroll s) = tty_key_scroll (screen s) /\ only_screen (mm s) (mm (key_scroll s)).
Proof.
  intros Hok. pose proof (proj1 Hok) as Hl. apply tty_ok_screen in Hok as [Hcur Hp].
  assert (forall i j, 0 <= i < 25 -> 0 <= j < 80 -> printable (get_char j i s) /\ 0 <= get_char j i s < 256)
    as Hf by (intros; split; [now apply Hp | apply rd_range]).
  unfold key_scroll. destruct (clear_spec s) as (Hc & _). split.
  - destruct (shift_rows_cursor (fun i j => get_char j i s) (clear s) Hf) as [Hx Hy].
    apply screen_is; [| exact Hx | exact Hy |].
    + unfold tty_key_scroll. cbn [glyphs]. rewrite length_app, length_drop, length_replicate. lia.
    + intros i j Hi Hj. rewrite glyph_key_scroll, shift_rows_screen by done.
      destruct (Z.ltb_spec i 24); [now rewrite glyph_screen by lia|].
      rewrite (get_char_filled _ _ s _ _ _ i j eq_refl eq_refl Hc) by lia.
      destruct (Z.ltb_spec (160 * i + 2 * j) 4000); [|lia]. unfold blank_cells.
      now replace ((160 * i + 2 * j) mod 2) with 0 by zlia.
  - etrans; [eapply (only_screen_filled _ _ VIDEO 4000); [lia | lia | lia | exact Hc]|].
    eapply (only_screen_filled _ _ VIDEO 3840); [lia | lia | lia | now apply shift_rows_filled].
Qed.

Lemma tty_enter_ok t : tty_ok t -> tty_ok (tty_enter t).
Proof.
  intros Hok. unfold tty_enter. destruct (Z.geb_spec (row t) 24).
  - apply tty_newline_ok; [now apply tty_key_scroll_ok | cbn; lia].
  - apply tty_newline_ok; [exact Hok | lia].
Qed.

(** the newline, behind whatever the terminal's variables become *)
Lemma shows_newline s h g :
  shows (set_hw h s) (tty_newline (screen h)) (upd_trm g (upd_hw (putc 10) (set_hw h s))).
Proof. split; reflexivity. Qed.

Lemma enter_step_shows s :
  tty_ok (screen (hw s)) -> shows s (tty_enter (screen (hw s))) (enter_step s).
Proof.
  intros Hok. unfold enter_step, getx, gety.
  destruct (set_cursor_same s) as (E1 & Em & _ & _ & Ey).
  set (s1 := upd_hw (set_cursor _ _) s) in *. clearbody s1.
  unfold shows, tty_enter. change (row (screen (hw s))) with (screen_y (hw s)). rewrite <- E1 in Hok |- *.
  rewrite <- Em. clear E1 Em Ey. unfold HEIGHT. change (25 - 1) with 24. destruct (screen_y (hw s) >=? 24).
  - destruct (key_scroll_screen (hw s1) Hok) as [<- Hm].
    change (upd_hw key_scroll s1) with (set_hw (key_scroll (hw s1)) s1). revert Hm.
    generalize (key_scroll (hw s1)). intros h Hm.
    destruct (shows_newline s1 h (fun g => set_entered 1 (set_counter 0
      (set_text_buf (aset (text_buf g) (counter g) 10) g)))) as [Es Em].
    split; [exact Es|]. etrans; [exact Hm | exact Em].
  - exact (shows_newline s1 (hw s1) _).
Qed.

(** writing outside video memory changes nothing on the screen *)
Lemma screen_same h m' :
  (forall a, VIDEO <= a < VIDEO + 4000 -> rd m' a = rd (mm h) a) -> screen (set_mm m' h) = screen h.
Proof.
  intros Hm. unfold screen. cbn [screen_x screen_y set_mm]. f_equal. apply map_zrange_ext.
  intros k Hk. unfold get_char. cbn [mm set_mm]. apply Hm. rewrite cell_lin. unfold NUM_COLS. zlia.
Qed.

Section Lines.
Context `{Platform}.

(** the interrupts of a line: its keys, then enter *)
Definition typing (keys : list key) : list (kst -> kst) :=
  map (fun k => typed (key_code k)) keys ++ [typed 10].

(** no line is begun, and the keys fit the rest of the row *)
Record ready_for (keys : list key) (s : kst) : Prop := {
  rf_counter : counter (trm s) = 0;
  rf_entered : entered (trm s) = 0;
  rf_buffer : length (text_buf (trm s)) = 128%nat;
  rf_screen : tty_ok (screen (hw s));
  rf_back : Back ∈ keys -> 7 <= screen_x (hw s);
  rf_fit : screen_x (hw s) + Z.of_nat (length keys) <= 79;
  rf_keys : Forall key_ok keys
}.

Lemma line_typed s keys fd buf len rest :
  let l := fold_left edit keys [] in
  fd <> 1 -> ready_for keys s -> off_screen (Addr buf) len -> Z.of_nat (length l) < len ->
  exists s', terminal_read (typing keys ++ rest) fd buf len s = Some (Z.of_nat (length l), s') /\
    screen (hw s') = tty_enter (tty_keys [] keys (screen (hw s))) /\ tty_ok (screen (hw s')) /\
    rdn (mem_of s') buf (length l + 1) = l ++ [10] /\
    (forall a, 4000 <= off VIDEO a -> Z.of_nat (length l) + 1 <= off buf a ->
       rd (mem_of s') a = rd (mem_of s) a) /\
    Forall (fun c => 32 <= c <= 126) l /\ (length l <= 127)%nat /\
    counter (trm s') = 0 /\ entered (trm s') = 0 /\ length (text_buf (trm s')) = 128%nat /\
    terminal_only s s'.
Proof.
  intros l Hfd [Hc He Hsz Hok Hback Hx Hk] Hoff Hlen. unfold typing. rewrite <- app_assoc. cbn [app].
  pose proof Hok as (_ & _ & Hx0 & Hy0). cbn [col row screen] in Hx0, Hy0.
  assert (editing s (screen_x (hw s)) (screen_y (hw s)) [] s) as Hed by (split; try done; cbn; lia).
  destruct (keys_shown _ _ _ keys [] s (typed 10 :: rest) buf len Hed Hk ltac:(lia) Hback)
    as (s1 & He1 & [S1 M1] & Hok1 & Hr); [cbn; lia | lia | exact Hok |]. fold l in He1.
  destruct (keyboard_read_enter _ _ _ _ _ He1) as (E2 & Hrd & Hc2 & Hsz2 & Ho2).
  destruct (enter_step_shows s1 Hok1) as [S2 M2].
  pose proof (tty_enter_ok _ Hok1) as Hok2. rewrite <- S2 in Hok2.
  destruct (terminal_read_line rest fd buf len (enter_step s1) l Hfd Hrd Hlen) as (m' & Hread & Hf).
  unfold terminal_read in Hread |- *. destruct (Z.eqb_spec fd 1); [done|].
  rewrite Hr, read_helper_wait, (typed_returns _ _ _ E2), Hread by apply He1.
  pose proof (ed_room _ _ _ _ _ He1) as Hroom. pose proof (ed_chars _ _ _ _ _ He1) as Hch.
  generalize dependent (enter_step s1). intros s2 E2 Hrd Hc2 Hsz2 Ho2 S2 M2 Hok2 _ Hf.
  eexists. split; [reflexivity|].
  assert (screen (hw (upd_trm (set_entered 0) (upd_mem (fun _ => m') s2))) = screen (hw s2)) as ->.
  { apply (screen_same (hw s2) m'). intros a Ha. apply (filled_frame _ _ _ _ _ _ Hf).
    clear -Ha Hoff Hlen. cbn [off_screen] in Hoff. unfold VIDEO in *. zlia. }
  split; [rewrite S2, S1; reflexivity|]. split; [exact Hok2|].
  change (mem_of (upd_trm (set_entered 0) (upd_mem (fun _ => m') s2))) with m'.
  split_and!; try done; try lia.
  - rewrite (rdn_filled _ _ _ _ _ _ Hf) by lia.
    replace (Z.of_nat (length l + 1)) with (Z.of_nat (length (l ++ [10])))
      by (rewrite length_app; cbn [length]; lia).
    apply map_aget_zrange.
  - intros a Ha Hb. rewrite (filled_frame _ _ _ _ _ _ Hf Hb), M2, M1 by exact Ha. reflexivity.
Qed.

(** C8: A program that reads from the terminal gets the line the user typed, and
    the user sees it: while the program waits, printable keys append to the
    line, backspace removes its last character, and enter ends the wait; the
    buffer then holds the edited line and a newline, the value returned is the
    line's length, and the line editor is empty again.  The screen is the
    abstract terminal's after the same keys.  The line stays left of the
    screen's last column, and starts after a prompt (column 7 or later) if
    backspace is used. *)
Theorem typed_line_is_read s keys fd buf len rest :
  let l := fold_left edit keys [] in
  fd <> 1 -> ready_for keys s -> off_screen (Addr buf) len -> Z.of_nat (length l) < len ->
  exists s', terminal_read (typing keys ++ rest) fd buf len s = Some (Z.of_nat (length l), s') /\
    rdn (mem_of s') buf (length l + 1) = l ++ [10] /\
    screen (hw s') = tty_enter (tty_keys [] keys (screen (hw s))) /\ ready_for [] s'.
Proof.
  intros l Hfd Hr Hoff Hlen.
  destruct (line_typed s keys fd buf len rest Hfd Hr Hoff Hlen)
    as (s' & E & Hs & Hok & Hb & _ & _ & _ & Hc & He & Hz & _).
  exists s'. split; [exact E|]. split; [exact Hb|]. split; [exact Hs|].
  split; try done; [intros Hin; now apply elem_of_nil in Hin|].
  change (Z.of_nat (length (@nil key))) with 0. destruct Hok as (_ & _ & Hx & _). cbn [col screen] in Hx. lia.
Qed.

(** C26: Writing shows the text as the abstract terminal would, whatever it holds
    and wherever the cursor is: each character goes to the cursor's cell,
    newlines move down, and on the last row the screen scrolls first; the
    screen, cursor included, is the terminal's after the whole text.  Nothing
    outside video memory changes, interrupts are on again, and the CRT
    controller has the new cursor. *)
Theorem write_implements_terminal fd p l s :
  let h := hw s in
  fd <> 0 -> is_null p = false -> off_screen p (Z.of_nat (length l)) -> text_at (mm h) p 0 l ->
  tty_ok (screen h) ->
  exists r h', terminal_write fd p (Z.of_nat (length l)) s = (r, set_hw h' s) /\
    screen h' = tty_show l (screen h) /\ only_screen (mm h) (mm h') /\ if_flag h' = true /\
    exists log, ports h' = log ++ vga_cursor (col (screen h')) (row (screen h')).
Proof.
  intros h Hfd Hn Hoff Ht Hok.
  destruct (terminal_write_tty fd p l s Hfd Hn Hoff Ht Hok) as (r & h' & E & _ & Hrest).
  exists r, h'. split; [exact E | exact Hrest].
Qed.
End Lines.

#[local] Existing Instance demo_platform.

Lemma typed_line_is_read_witness :
  exists s', terminal_read (typing [Char 108; Char 116; Back; Char 115] ++ []) 0 4194304 128 demo_prompt =
      Some (2, s') /\ rdn (mem_of s') 4194304 3 = [108; 115; 10].
Proof.
  destruct (typed_line_is_read demo_prompt [Char 108; Char 116; Back; Char 115] 0 4194304 128 [])
    as (s' & E & Hr & _).
  - discriminate.
  - split; try reflexivity; try (vm_compute; intuition discriminate); [|repeat constructor; lia].
    apply tty_ok_screen. split; [vm_compute; intuition discriminate|].
    intros i j _ _. split; discriminate.
  - vm_compute. intuition discriminate.
  - cbn. lia.
  - exists s'. split; [exact E | exact Hr].
Defined.

(** "a", newline and "b" from the last row of an empty screen *)
Lemma write_implements_terminal_witness :
  let s := upd_hw (setxy 3 24) (boot_kst ∅) in
  exists r h', terminal_write 1 (Obj [97; 10; 98]) 3 s = (r, set_hw h' s) /\
    glyph (screen h') 23 0 = 98 /\ glyph (screen h') 22 0 = 97.
Proof.
  intros s. destruct (write_implements_terminal 1 (Obj [97; 10; 98]) [97; 10; 98] s)
    as (r & h' & E & Hs & _).
  - discriminate.
  - reflexivity.
  - exact I.
  - intros j Hj. cbn in Hj. assert (j = 0 \/ j = 1 \/ j = 2) as [-> | [-> | ->]] by lia; reflexivity.
  - apply tty_ok_screen. split; [vm_compute; intuition discriminate|].
    intros i j _ _. split; discriminate.
  - exists r, h'. split; [exact E|]. rewrite Hs. split; vm_compute; reflexivity.
Defined.
