(* ===== verification/Keyboard.v ===== *)
(** * The keyboard driver (keyboard.c)

    From the scancode the interrupt handler reads to the keystroke it hands to
    [keyboard_read], through the modifier flags, which are this file's global
    state.  [None] is undefined behaviour: a press code from 90 to 127 indexes
    [key_codes] out of range.  For releases the byte behind the table is loaded
    too, but not used. *)

From Stdlib Require Import ZArith Lia String.
From stdpp Require Import base list gmap.
From S2P Require Import Prelude Memory CMem CStr Machine Console Pic Paging KState Filesystem TermIO Syscalls Process Terminal.
Open Scope Z_scope.

Definition LEFT_SHIFT_PRESS : Z := 66.
Definition RIGHT_SHIFT_PRESS : Z := 67.
Definition CTRL_PRESS : Z := 65.
Definition ALT_PRESS : Z := 68.
Definition CAPS : Z := 69.
Definition F1 : Z := 70.
Definition F2 : Z := 71.
Definition F3 : Z := 72.
Definition F4 : Z := 73.
Definition F5 : Z := 74.
Definition F6 : Z := 75.
Definition F7 : Z := 76.
Definition F8 : Z := 77.
Definition F9 : Z := 78.
Definition F10 : Z := 79.
Definition F11 : Z := 33.
Definition F12 : Z := 34.
Definition NUM_LOCK : Z := 80.
Definition SCROLL_LOCK : Z := 81.
Definition HOME : Z := 81.
Definition UP : Z := 83.
Definition PAGE_UP : Z := 84.
Definition LEFT : Z := 85.
Definition RIGHT : Z := 87.
Definition END : Z := 88.
Definition DOWN : Z := 89.
Definition PAGE_DOWN : Z := 90.
Definition INSERT : Z := 91.
Definition DELETE : Z := 92.
Definition CTRL_ALT : Z := 249.
Definition LEFT_SHIFT_R : Z := 170.
Definition RIGHT_SHIFT_R : Z := 182.
Definition CTRL_RELEASE : Z := 157.
Definition ALT_RELEASE : Z := 184.
Definition KB_DATA : Z := 96.
Definition KEY_PRESS : Z := 128.

Definition key_codes : list Z :=
  [0; 27] ++ chars "1234567890-=" ++ [BACKSPACE; 9] ++ chars "qwertyuiop[]" ++ [10; CTRL_PRESS] ++
  chars "asdfghjkl;'`" ++ [LEFT_SHIFT_PRESS] ++ chars "\zxcvbnm,./" ++
  [RIGHT_SHIFT_PRESS] ++ chars "*" ++ [ALT_PRESS] ++ chars " " ++ [CAPS;
   F1; F2; F3; F4; F5; F6; F7; F8; F9; F10;
   NUM_LOCK; SCROLL_LOCK; HOME; UP; PAGE_UP] ++ chars "-" ++ [LEFT;
   86; RIGHT] ++ chars "+" ++ [END; DOWN; PAGE_DOWN; INSERT; DELETE;
   93; 94; 95;
   F11; F12;
   35].

(** the [switch] of shift, as its table *)
Definition shift_from : list Z := chars "`1234567890-=[]\;',./".
Definition shift_to : list Z := chars "~!@#$%^&*()_+{}|:" ++ [34] ++ chars "<>?".
Definition shift (c : Z) : Z :=
  match find_first (fun i => aget shift_from i =? c) (length shift_from) 0 with
  | Some i => aget shift_to i
  | None => c
  end.

(** the global flags of keyboard.c *)
Record kbd := Kbd {
  shift_flag : Z;
  alt_flag : Z;
  caps_flag : Z;
  ctrl_flag : Z;
  l_shift : Z;
  r_shift : Z
}.

(** their initial values *)
Definition kbd_init : kbd := Kbd 0 0 0 0 0 0.

Definition between (lo c hi : Z) : bool := (c >=? lo) && (c <=? hi).

(** a key goes down; [junk] is the uninitialised [charval] *)
Definition press (code junk : Z) (k : kbd) : Z * kbd :=
  let '(Kbd sh alt caps ctrl l r) := k in
  if code =? LEFT_SHIFT_PRESS then (0, Kbd 1 alt caps ctrl 1 r)
  else if code =? RIGHT_SHIFT_PRESS then (0, Kbd 1 alt caps ctrl l 1)
  else if code =? ALT_PRESS then ((if negb (ctrl =? 0) then CTRL_ALT else 0), Kbd sh 1 caps ctrl l r)
  else if code =? CTRL_PRESS then (0, Kbd sh alt caps 1 l r)
  else if code =? CAPS then (0, Kbd sh alt (if caps =? 1 then 0 else 1) ctrl l r)
  else if (alt =? 1) && between F1 code F3 then
    ((if code =? F1 then T1_SWITCH else if code =? F2 then T2_SWITCH else T3_SWITCH), k)
  else if between 39 code 122 then
    ((if ctrl =? 1 then
        if code =? 99 then CTRL_C else if code =? 108 then CTRL_L else junk
      else if between 97 code 122 then
        if sh =? caps then code else code - (97 - 65)
      else if between 39 code 64 || between 91 code 96 then
        if negb (sh =? 0) then shift code else code
      else 0), k)
  else (code, k).

(** a key goes up *)
Definition release (scancode : Z) (k : kbd) : kbd :=
  let '(Kbd sh alt caps ctrl l r) := k in
  let '(alt, ctrl, l, r) :=
    if scancode =? LEFT_SHIFT_R then (alt, ctrl, 0, r)
    else if scancode =? RIGHT_SHIFT_R then (alt, ctrl, l, 0)
    else if scancode =? CTRL_RELEASE then (alt, 0, l, r)
    else if scancode =? ALT_RELEASE then (0, ctrl, l, r)
    else (alt, ctrl, l, r) in
  Kbd (b2z (negb (l =? 0) || negb (r =? 0))) alt caps ctrl l r.

(** the keystroke for a scancode, up to the call of keyboard_read *)
Definition keystroke (scancode junk : Z) (k : kbd) : option (Z * kbd) :=
  if scancode <? KEY_PRESS then
    code ← key_codes !! Z.to_nat scancode; Some (press code junk k)
  else Some (0, release scancode k).

Definition read_keyboard `{Platform} (k : kbd) (s : kst) : option (outcome * kbd) :=
  let '(scancode, h) := inb KB_DATA (hw s) in
  let s := set_hw h s in
  '(charval, k) ← keystroke scancode (u8 (stack_junk (ports h))) k;
  o ← keyboard_read charval s;
  Some (match o with Returns _ s => Returns 0 (upd_hw (send_eoi PIC_1) s) | _ => o end, k).

(** ** The modifier keys as a state machine *)

(** one scancode, whatever the uninitialised variable holds *)
Inductive key_step (k : kbd) (scancode : Z) (k' : kbd) : Prop :=
| Key_step junk c : keystroke scancode junk k = Some (c, k') -> key_step k scancode k'.

(** the states after a history of scancodes, latest first *)
Inductive reached : list Z -> kbd -> Prop :=
| reached_init : reached [] kbd_init
| reached_step hist k scancode k' :
    reached hist k -> 0 <= scancode < 256 -> key_step k scancode k' -> reached (scancode :: hist) k'.

(** is the key with these press and release codes down? *)
Fixpoint held (down up : Z) (hist : list Z) : bool :=
  match hist with
  | [] => false
  | c :: hist => if c =? down then true else if c =? up then false else held down up hist
  end.

(** has the key been pressed an odd number of times? *)
Fixpoint toggled (down : Z) (hist : list Z) : bool :=
  match hist with
  | [] => false
  | c :: hist => if c =? down then negb (toggled down hist) else toggled down hist
  end.

(** the flags a history of the keyboard ought to leave *)
Definition flags_of (hist : list Z) : kbd :=
  let l := held 42 170 hist in
  let r := held 54 182 hist in
  Kbd (b2z (l || r)) (b2z (held 56 184 hist)) (b2z (toggled 58 hist)) (b2z (held 29 157 hist))
    (b2z l) (b2z r).

(** the modifiers' codes occur once in the table *)
Lemma modifier_codes sc code :
  0 <= sc -> key_codes !! Z.to_nat sc = Some code ->
  (code =? LEFT_SHIFT_PRESS) = (sc =? 42) /\ (code =? RIGHT_SHIFT_PRESS) = (sc =? 54) /\
  (code =? ALT_PRESS) = (sc =? 56) /\ (code =? CTRL_PRESS) = (sc =? 29) /\ (code =? CAPS) = (sc =? 58).
Proof.
  intros Hsc Hc.
  assert (forallb (fun i => match key_codes !! Z.to_nat i with
    | Some c => Bool.eqb (c =? LEFT_SHIFT_PRESS) (i =? 42) && Bool.eqb (c =? RIGHT_SHIFT_PRESS) (i =? 54) &&
        Bool.eqb (c =? ALT_PRESS) (i =? 56) && Bool.eqb (c =? CTRL_PRESS) (i =? 29) &&
        Bool.eqb (c =? CAPS) (i =? 58)
    | None => false end) (zrange 0 90) = true) as Hall by (vm_compute; reflexivity).
  rewrite forallb_forall in Hall. specialize (Hall sc).
  assert (length key_codes = 90%nat) as Hlen by reflexivity.
  pose proof (lookup_lt_Some _ _ _ Hc) as Hlt.
  assert (List.In sc (zrange 0 90)) as Hin by (apply list_elem_of_In, elem_of_zrange; lia).
  specialize (Hall Hin). rewrite Hc in Hall.
  rewrite !andb_true_iff, !Bool.eqb_true_iff in Hall. destruct_and!. now split_and!.
Qed.

Lemma b2z_or a b : b2z (negb (b2z a =? 0) || negb (b2z b =? 0)) = b2z (a || b).
Proof. now destruct a, b. Qed.

Lemma press_flags hist sc code junk :
  0 <= sc < 128 -> key_codes !! Z.to_nat sc = Some code ->
  snd (press code junk (flags_of hist)) = flags_of (sc :: hist).
Proof.
  intros Hsc Hc. destruct (modifier_codes sc code (proj1 Hsc) Hc) as (E1 & E2 & E3 & E4 & E5).
  unfold press, flags_of. rewrite E1, E2, E3, E4, E5. cbn [held toggled].
  assert ((sc =? 170) = false /\ (sc =? 182) = false /\ (sc =? 184) = false /\ (sc =? 157) = false)
    as (-> & -> & -> & ->) by (clear -Hsc; rewrite !Z.eqb_neq; lia).
  destruct (Z.eqb_spec sc 42) as [->|]; [reflexivity|].
  destruct (Z.eqb_spec sc 54) as [->|]; [cbn; now rewrite orb_true_r|].
  destruct (Z.eqb_spec sc 56) as [->|]; [reflexivity|].
  destruct (Z.eqb_spec sc 29) as [->|]; [reflexivity|].
  destruct (Z.eqb_spec sc 58) as [->|]; [cbn; now destruct (toggled 58 hist)|].
  destruct (_ && between F1 code F3); [reflexivity|]. now destruct (between 39 code 122).
Qed.

Lemma release_flags hist sc :
  128 <= sc < 256 -> release sc (flags_of hist) = flags_of (sc :: hist).
Proof.
  intros Hsc. unfold release, flags_of, LEFT_SHIFT_R, RIGHT_SHIFT_R, CTRL_RELEASE, ALT_RELEASE.
  cbn [held toggled].
  assert ((sc =? 42) = false /\ (sc =? 54) = false /\ (sc =? 56) = false /\ (sc =? 29) = false /\
    (sc =? 58) = false) as (-> & -> & -> & -> & ->) by (clear -Hsc; rewrite !Z.eqb_neq; lia).
  destruct (Z.eqb_spec sc 170) as [->|]; [now destruct (held 54 182 hist)|].
  destruct (Z.eqb_spec sc 182) as [->|]; [now destruct (held 42 170 hist)|].
  destruct (Z.eqb_spec sc 157) as [->|]; [now rewrite b2z_or|].
  destruct (Z.eqb_spec sc 184) as [->|]; now rewrite b2z_or.
Qed.

Lemma keystroke_flags hist sc junk c k' :
  0 <= sc < 256 -> keystroke sc junk (flags_of hist) = Some (c, k') -> k' = flags_of (sc :: hist).
Proof.
  intros Hsc. unfold keystroke, KEY_PRESS. destruct (Z.ltb_spec sc 128).
  - intros (code & Hc & Hp)%bind_Some. rewrite <- (press_flags hist sc code junk) by (done || lia).
    assert (press code junk (flags_of hist) = (c, k')) as -> by congruence. reflexivity.
  - intros [= _ <-]. apply release_flags. lia.
Qed.

(** C21: In every state the driver can reach, its flags say exactly which
    modifier keys are down and whether caps lock is on: shift while either
    shift key is held, control and alt while held, caps lock after an odd
    number of presses. *)
Theorem modifier_flags_follow_keys hist k : reached hist k -> k = flags_of hist.
Proof.
  induction 1 as [|hist k sc k' _ -> Hsc [junk c Hk]]; [reflexivity|].
  exact (keystroke_flags hist sc junk c k' Hsc Hk).
Qed.

(** A scancode has a defined effect in every state unless it is a press
    code behind the end of the table (90 to 127), where the driver indexes the
    table out of range. *)
Theorem keystroke_undefined_beyond_table sc junk k :
  0 <= sc < 256 -> keystroke sc junk k = None <-> 90 <= sc < 128.
Proof.
  intros Hsc. unfold keystroke, KEY_PRESS. destruct (Z.ltb_spec sc 128); [|split; [discriminate | lia]].
  destruct (key_codes !! Z.to_nat sc) as [c|] eqn:Hc; cbn [mbind option_bind].
  - apply lookup_lt_Some in Hc. change (length key_codes) with 90%nat in Hc.
    split; [discriminate | lia].
  - apply lookup_ge_None in Hc. change (length key_codes) with 90%nat in Hc. split; [lia | done].
Qed.

(** ** The layout *)

(** scancode, character, character with shift *)
Definition layout_row (first : Z) (plain shifted : list Z) : list (Z * (Z * Z)) :=
  zip (zrange first (first + Z.of_nat (length plain))) (zip plain shifted).
Definition us_layout : list (Z * (Z * Z)) :=
  layout_row 2 (chars "1234567890-=") (chars "!@#$%^&*()_+") ++
  layout_row 16 (chars "qwertyuiop[]") (chars "QWERTYUIOP{}") ++
  layout_row 30 (chars "asdfghjkl;'`") (chars "ASDFGHJKL:" ++ [34] ++ chars "~") ++
  layout_row 43 (chars "\zxcvbnm,./") (chars "|ZXCVBNM<>?") ++
  layout_row 57 (chars " ") (chars " ").

Definition is_letter (c : Z) : bool := between 97 c 122.

(** caps lock affects letters only, and shift undoes it *)
Definition shown_char (sh caps : bool) (e : Z * Z) : Z :=
  if (if is_letter (fst e) then xorb sh caps else sh) then snd e else fst e.

Lemma layout_press sc e sh caps junk alt l r :
  (sc, e) ∈ us_layout ->
  keystroke sc junk (Kbd (b2z sh) alt (b2z caps) 0 l r) =
    Some (shown_char sh caps e, Kbd (b2z sh) alt (b2z caps) 0 l r).
Proof.
  intros He. revert sc e He.
  assert (Forall (fun p => forall sh caps,
    keystroke (fst p) junk (Kbd (b2z sh) alt (b2z caps) 0 l r) =
    Some (shown_char sh caps (snd p), Kbd (b2z sh) alt (b2z caps) 0 l r)) us_layout) as Hall.
  { set (L := us_layout). vm_compute in L. subst L.
    repeat (apply Forall_cons_2;
      [intros [|] [|]; unfold keystroke, press; cbv beta iota;
       generalize (alt =? 1); intros [|]; vm_compute; reflexivity|]).
    apply Forall_nil_2. }
  intros sc e He. rewrite Forall_forall in Hall. exact (Hall (sc, e) He sh caps).
Qed.

(** C22: The keys of the main block type what the US layout prints on them, with
    shift held or caps lock on or both, as long as control is up. *)
Theorem key_press_follows_layout sc e sh caps junk alt l r :
  (sc, e) ∈ us_layout ->
  keystroke sc junk (Kbd (b2z sh) alt (b2z caps) 0 l r) =
    Some (shown_char sh caps e, Kbd (b2z sh) alt (b2z caps) 0 l r).
Proof. apply layout_press. Qed.

(** ** From the keyboard port to the line *)

Section Typing.
Context `{Platform}.

Lemma shown_char_printable sc e sh caps : (sc, e) ∈ us_layout -> 32 <= shown_char sh caps e <= 126.
Proof.
  intros He.
  assert (Forall (fun p => 32 <= fst (snd p) <= 126 /\ 32 <= snd (snd p) <= 126) us_layout) as Hall.
  { apply Forall_forall. intros p Hp. revert p Hp. apply Forall_forall. unfold us_layout.
    repeat first [apply Forall_nil_2 | apply Forall_cons_2; [cbn; lia|]]. }
  rewrite Forall_forall in Hall. specialize (Hall _ He). cbn in Hall. unfold shown_char.
  destruct (if is_letter (fst e) then _ else _); lia.
Qed.

(** reading a port logs the access *)
Lemma editing_inb s0 x0 y l s v :
  editing s0 x0 y l s ->
  editing s0 x0 y l (set_hw (set_ports (ports (hw s) ++ [In KB_DATA v]) (hw s)) s).
Proof. intros []. now split. Qed.

(** in the last column a character starts a new row and is lost *)
Lemma last_column_loses_key c s :
  32 <= c <= 126 -> 79 <= screen_x (hw s) ->
  exists s', keyboard_read c s = Some (Returns 0 s') /\ trm s' = trm s /\ screen_x (hw s') = 0.
Proof.
  intros Hc Hx. unfold keyboard_read, CTRL_C, CTRL_L, WIDTH, getx. cbv zeta.
  destruct (Z.eqb_spec c 9); [lia|]. destruct (Z.eqb_spec c 248); [lia|].
  destruct (Z.eqb_spec c 255); [lia|]. destruct (Z.geb_spec (screen_x (hw s)) (80 - 1)); [|lia]. cbn [orb].
  unfold key_newline. cbv zeta. destruct (Z.eqb_spec c 10); [lia|]. rewrite bind_some.
  eexists. split; [reflexivity|]. generalize (set_cursor (screen_x (hw s)) (gety (hw s))). intros f.
  destruct (_ >=? _); split; reflexivity.
Qed.

(** C16: The keyboard interrupt for a key of the main block types its character.
    With control up and a line being typed that ends short of the last column,
    it reads the scancode from port 0x60, the character the layout gives for
    the shift and caps state appears at the cursor and at the end of the line,
    the flags stay, and the handler's last port access is the end-of-interrupt
    to the controller.  With the cursor in the last column the handler starts a
    new row instead, and the character is lost: no variable of the terminal
    changes, the line included. *)
Theorem key_press_types_character sc e sh caps alt lf rt s :
  let k := Kbd (b2z sh) alt (b2z caps) 0 lf rt in
  (sc, e) ∈ us_layout -> u8 (port_in (ports (hw s)) KB_DATA) = sc ->
  (forall s0 x0 y l, editing s0 x0 y l s -> 0 <= x0 -> x0 + Z.of_nat (length l) < 79 -> 0 <= y < 25 ->
   exists s', read_keyboard k s = Some (Returns 0 s', k) /\
     editing s0 x0 y (l ++ [shown_char sh caps e]) s' /\
     last (ports (hw s')) = Some (Out PIC_EOI MASTER_8259_PORT)) /\
  (79 <= screen_x (hw s) ->
   exists s', read_keyboard k s = Some (Returns 0 s', k) /\
     trm s' = trm s /\ screen_x (hw s') = 0 /\
     last (ports (hw s')) = Some (Out PIC_EOI MASTER_8259_PORT)).
Proof.
  intros k He Hport. subst k.
  assert (forall h, last (ports (hw (upd_hw (send_eoi PIC_1) h))) = Some (Out PIC_EOI MASTER_8259_PORT)) as Heoi.
  { intros h. cbn [hw upd_hw set_hw]. unfold send_eoi, outb. cbn [ports set_ports].
    change (negb (Z.land PIC_1 PORTS =? 0)) with false. cbv iota.
    change (u8 PIC_EOI) with PIC_EOI. now rewrite last_snoc. }
  unfold read_keyboard, inb. rewrite Hport.
  rewrite (layout_press sc e) by exact He. rewrite bind_some. cbv beta iota.
  assert (key_ok (Char (shown_char sh caps e))) as Hc by now apply (shown_char_printable sc).
  split.
  - intros s0 x0 y l Hed Hx0 Hx Hy. apply (editing_inb _ _ _ _ _ sc) in Hed as Hed1.
    pose proof (keyboard_read_key s0 x0 y l _ _ Hed1 Hc Hx Hx0) as E.
    pose proof (key_step_edits s0 x0 y l _ _ Hed1 Hc Hx0 ltac:(discriminate) Hx Hy) as Hed2.
    cbn [key_code edit] in E, Hed2. rewrite E, bind_some.
    eexists. split; [reflexivity|]. split; [now apply editing_send_eoi | apply Heoi].
  - intros Hx. destruct (last_column_loses_key (shown_char sh caps e)
      (set_hw (set_ports (ports (hw s) ++ [In KB_DATA sc]) (hw s)) s)) as (s1 & E & Ht & Hx1); [exact Hc | exact Hx |].
    rewrite E, bind_some. exists (upd_hw (send_eoi PIC_1) s1). split; [reflexivity|].
    split; [exact Ht|]. split; [exact Hx1 | apply Heoi].
Qed.
End Typing.

#[local] Existing Instance demo_platform.

(** left shift down, then caps lock *)
Lemma modifier_flags_follow_keys_witness :
  reached [58; 42] (Kbd 1 0 1 0 1 0) /\ Kbd 1 0 1 0 1 0 = flags_of [58; 42].
Proof.
  assert (reached [58; 42] (Kbd 1 0 1 0 1 0)) as Hr.
  { apply (reached_step _ (Kbd 1 0 0 0 1 0)); [|lia | now apply (Key_step _ _ _ 0 0)].
    apply (reached_step _ kbd_init); [constructor | lia | now apply (Key_step _ _ _ 0 0)]. }
  split; [exact Hr|]. exact (modifier_flags_follow_keys _ _ Hr).
Defined.

Lemma keystroke_undefined_beyond_table_witness : keystroke 100 7 kbd_init = None.
Proof. apply (keystroke_undefined_beyond_table 100 7 kbd_init); lia. Defined.

Lemma key_press_follows_layout_witness :
  keystroke 30 7 (Kbd 1 0 0 0 1 0) = Some (65, Kbd 1 0 0 0 1 0).
Proof.
  apply (key_press_follows_layout 30 (97, 65) true false 7 0 1 0).
  apply list_elem_of_In. vm_compute. intuition.
Defined.

(** port 0x60 of the demo platform reads 38, the scancode of "l" *)
Lemma key_press_types_character_witness :
  exists s', read_keyboard kbd_init demo_prompt = Some (Returns 0 s', kbd_init) /\
    editing demo_prompt 7 2 [108] s'.
Proof.
  destruct (key_press_types_character 38 (108, 76) false false 0 0 0 demo_prompt) as [Hk _].
  - apply list_elem_of_In. vm_compute. intuition.
  - reflexivity.
  - destruct (Hk demo_prompt 7 2 []) as (s' & E & He & _); try (cbn; lia).
    + split; try reflexivity; cbn; try lia. constructor.
    + exists s'. split; [exact E | exact He].
Defined.
