(* ===== verification/Boot.v ===== *)
(** * From the boot loader to the first shell (kernel.c, x86_desc.h)

    [entry] prints what the multiboot loader passed on, builds the two
    descriptors, initialises every component and executes "shell".  The
    multiboot structures are read from memory at their field offsets.  [None]
    is undefined behaviour or a loop that has not ended when its fuel has. *)

From Stdlib Require Import ZArith Lia String.
From stdpp Require Import base list gmap.
From S2P Require Import Prelude Memory CMem CStr Machine Console Pic Rtc Idt Paging KState Filesystem TermIO Syscalls Process Launch.
Open Scope Z_scope.

(** ** Segment descriptors (x86_desc.h) *)

Definition KERNEL_TSS : Z := 48.           (* 0x0030 *)
Definition KERNEL_LDT : Z := 56.           (* 0x0038 *)
Definition TSS_SIZE : Z := 104.

Module Seg.
Record seg_desc := SegDesc {
  seg_lim_15_00 : Z;
  base_15_00 : Z;
  base_23_16 : Z;
  type : Z;
  sys : Z;
  dpl : Z;
  present : Z;
  seg_lim_19_16 : Z;
  avail : Z;
  reserved : Z;
  opsize : Z;
  granularity : Z;
  base_31_24 : Z
}.

(** the two macros have the same body; [addr] and [lim] are unsigned words *)
Definition SET_LDT_PARAMS (str : seg_desc) (addr lim : Z) : seg_desc :=
  SegDesc (Z.land lim 65535) (Z.land (u32 addr) 65535)
    (Z.shiftr (Z.land (u32 addr) 16711680) 16)
    (type str) (sys str) (dpl str) (present str)
    (Z.shiftr (Z.land lim 983040) 16)
    (avail str) (reserved str) (opsize str) (granularity str)
    (Z.shiftr (Z.land (u32 addr) 4278190080) 24).
Definition SET_TSS_PARAMS (str : seg_desc) (addr lim : Z) : seg_desc :=
  SegDesc (Z.land lim 65535) (Z.land (u32 addr) 65535)
    (Z.shiftr (Z.land (u32 addr) 16711680) 16)
    (type str) (sys str) (dpl str) (present str)
    (Z.shiftr (Z.land lim 983040) 16)
    (avail str) (reserved str) (opsize str) (granularity str)
    (Z.shiftr (Z.land (u32 addr) 4278190080) 24).

(** the 64 bits of a [seg_desc_t], and the fields the processor takes from them *)
Definition desc_bits (d : seg_desc) : Z :=
  seg_lim_15_00 d + 2^16 * base_15_00 d + 2^32 * base_23_16 d + 2^40 * type d + 2^44 * sys d
  + 2^45 * dpl d + 2^47 * present d + 2^48 * seg_lim_19_16 d + 2^52 * avail d
  + 2^53 * reserved d + 2^54 * opsize d + 2^55 * granularity d + 2^56 * base_31_24 d.
Definition desc_base (bits : Z) : Z := (bits / 2^16) mod 2^24 + 2^24 * (bits / 2^56).
Definition desc_limit (bits : Z) : Z := bits mod 2^16 + 2^16 * ((bits / 2^48) mod 2^4).
(** type with the system bit, privilege, present *)
Definition desc_access (bits : Z) : Z * Z * Z :=
  ((bits / 2^40) mod 2^5, (bits / 2^45) mod 2^2, (bits / 2^47) mod 2).
End Seg.

(** ** Multiboot structures (multiboot.h), by field offset *)

Definition MULTIBOOT_BOOTLOADER_MAGIC : Z := 732803074.    (* 0x2BADB002 *)

Section Multiboot.
Variables (m : mem) (mbi : Z).
Definition mb_flags : Z := rd32 m mbi.
Definition mem_lower : Z := rd32 m (mbi + 4).
Definition mem_upper : Z := rd32 m (mbi + 8).
Definition boot_device : Z := rd32 m (mbi + 12).
Definition cmdline : Z := rd32 m (mbi + 16).
Definition mods_count : Z := rd32 m (mbi + 20).
Definition mods_addr : Z := rd32 m (mbi + 24).
Definition elf_sec (k : Z) : Z := rd32 m (mbi + 28 + 4 * k).   (* num, size, addr, shndx *)
Definition mmap_length : Z := rd32 m (mbi + 44).
Definition mmap_addr : Z := rd32 m (mbi + 48).
(** module_t at [p] *)
Definition mod_start (p : Z) : Z := rd32 m p.
Definition mod_end (p : Z) : Z := rd32 m (p + 4).
(** memory_map_t at [p]: size, base and length (low, high), type *)
Definition mmap_field (p k : Z) : Z := rd32 m (p + 4 * k).
End Multiboot.

Definition CHECK_FLAG (flags bit : Z) : bool := negb (Z.land flags (Z.shiftl 1 bit) =? 0).

(** ** entry *)

(** link addresses the linker resolves in kernel.c and idt.c *)
Record symbols := Symbols { handler_at : handler -> Z; ldt_at : Z; tss_at : Z }.

(** x86_desc.S: [ldt_bottom - ldt - 1] and [tss_bottom - tss - 1] *)
Definition ldt_size : Z := 31.
Definition tss_size : Z := 103.

(** the kernel's state with what only the boot code touches: control and task
    registers, the descriptors in the GDT, one more field of the TSS *)
Record boot_st := BootSt {
  kern : kst;
  ctrl : cregs;
  idt : list idt_desc;
  ldt_desc_ptr : Seg.seg_desc;
  tss_desc_ptr : Seg.seg_desc;
  ldt_segment_selector : Z;
  ldtr : Z;
  tr : Z
}.
Definition set_kern (k : kst) (b : boot_st) : boot_st :=
  BootSt k (ctrl b) (idt b) (ldt_desc_ptr b) (tss_desc_ptr b) (ldt_segment_selector b) (ldtr b) (tr b).
Definition upd_kern (f : kst -> kst) (b : boot_st) : boot_st := set_kern (f (kern b)) b.

(** how [entry] ends: it returns to boot.S, which halts; execute came back
    and it spins in [hlt]; or the processor is in user mode *)
Inductive boot_outcome :=
| BootHalts (b : boot_st)
| BootSpins (b : boot_st)
| BootRuns (eip esp : Z) (b : boot_st).

Section Entry.
Context `{Platform}.
Variable sym : symbols.

Definition print (fmt args : list Z) (s : kst) : option kst :=
  '(_, h) ← printf fmt args (hw s); Some (set_hw h s).

(** [for(i = 0; i<16; i++) printf("0x%x ", *((char* )(mod->mod_start+i)));] *)
Fixpoint first_bytes (n : nat) (i md : Z) (s : kst) : option kst :=
  match n with
  | O => Some s
  | S n' =>
      s ← print (chars "0x%x ") [s8 (rd (mem_of s) (mod_start (mem_of s) md + i))] s;
      first_bytes n' (i + 1) md s
  end.

(** [while(mod_count < mbi->mods_count)] *)
Fixpoint mods_loop (fuel : nat) (mbi mod_count md : Z) (s : kst) : option kst :=
  if u32 mod_count <? mods_count (mem_of s) mbi then
    match fuel with
    | O => None
    | S f =>
        s ← print (chars "Module %d loaded at address: 0x%#x" ++ [10])
              [mod_count; mod_start (mem_of s) md] s;
        s ← print (chars "Module %d ends at address: 0x%#x" ++ [10])
              [mod_count; mod_end (mem_of s) md] s;
        s ← print (chars "First few bytes of module:" ++ [10]) [] s;
        let s := upd_fsg (set_BOOT_BLOCK_PTR (mod_start (mem_of s) md)) s in
        s ← first_bytes 16 0 md s;
        s ← print [10] [] s;
        mods_loop f mbi (mod_count + 1) (md + 16) s
    end
  else Some s.

(** [for (mmap = mbi->mmap_addr; mmap < mmap_addr + mmap_length; ...)] *)
Fixpoint mmap_loop (fuel : nat) (mbi mmap : Z) (s : kst) : option kst :=
  if mmap <? u32 (mmap_addr (mem_of s) mbi + mmap_length (mem_of s) mbi) then
    match fuel with
    | O => None
    | S f =>
        let field := mmap_field (mem_of s) mmap in
        s ← print (chars " size = 0x%x,     base_addr = 0x%#x%#x" ++ [10] ++
                   chars "     type = 0x%x,  length    = 0x%#x%#x" ++ [10])
              [field 0; field 2; field 1; field 5; field 4; field 3] s;
        mmap_loop f mbi (u32 (mmap + mmap_field (mem_of s) mmap 0 + 4)) s
    end
  else Some s.

Definition print_if (c : bool) (fmt args : list Z) (s : kst) : option kst :=
  if c then print fmt args s else Some s.

(** entry up to the mutual exclusion of bits 4 and 5 *)
Definition announce_modules (mbi : Z) (s : kst) : option kst :=
  let flag bit s := CHECK_FLAG (mb_flags (mem_of s) mbi) bit in
  s ← print (chars "flags = 0x%#x" ++ [10]) [mb_flags (mem_of s) mbi] s;
  s ← print_if (flag 0 s) (chars "mem_lower = %uKB, mem_upper = %uKB" ++ [10])
        [mem_lower (mem_of s) mbi; mem_upper (mem_of s) mbi] s;
  s ← print_if (flag 1 s) (chars "boot_device = 0x%#x" ++ [10]) [boot_device (mem_of s) mbi] s;
  s ← print_if (flag 2 s) (chars "cmdline = %s" ++ [10]) [cmdline (mem_of s) mbi] s;
  if flag 3 s
  then mods_loop (Z.to_nat (mods_count (mem_of s) mbi)) mbi 0 (mods_addr (mem_of s) mbi) s
  else Some s.

(** the section headers and the memory map *)
Definition announce_maps (mbi : Z) (s : kst) : option kst :=
  let flag bit s := CHECK_FLAG (mb_flags (mem_of s) mbi) bit in
  s ← print_if (flag 5 s) (chars "elf_sec: num = %u, size = 0x%#x," ++
                           chars " addr = 0x%#x, shndx = 0x%#x" ++ [10])
        [elf_sec (mem_of s) mbi 0; elf_sec (mem_of s) mbi 1;
         elf_sec (mem_of s) mbi 2; elf_sec (mem_of s) mbi 3] s;
  if flag 6 s then
    s ← print (chars "mmap_addr = 0x%#x, mmap_length = 0x%x" ++ [10])
          [mmap_addr (mem_of s) mbi; mmap_length (mem_of s) mbi] s;
    mmap_loop (S (Z.to_nat (mmap_length (mem_of s) mbi))) mbi (mmap_addr (mem_of s) mbi) s
  else Some s.

(** the LDT and TSS entries of the GDT; [lldt] and [ltr] load the selectors *)
Definition set_ldt (b : boot_st) : boot_st :=
  let d := Seg.SET_LDT_PARAMS (Seg.SegDesc 0 0 0 2 0 0 1 0 0 0 1 0 0) (ldt_at sym) ldt_size in
  BootSt (kern b) (ctrl b) (idt b) d (tss_desc_ptr b) (ldt_segment_selector b) KERNEL_LDT (tr b).
Definition set_tss (b : boot_st) : boot_st :=
  let d := Seg.SegDesc (Z.land TSS_SIZE 65535) 0 0 9 0 0 1 (Z.land TSS_SIZE 983040 mod 16) 0 0 0 0 0 in
  let d := Seg.SET_TSS_PARAMS d (tss_at sym) tss_size in
  let k := upd_cpu (fun c => set_tss_esp0 8388608 (set_tss_ss0 KERNEL_DS c)) (kern b) in
  BootSt k (ctrl b) (idt b) (ldt_desc_ptr b) d KERNEL_LDT (ldtr b) KERNEL_TSS.

(** paging_init writes %cr0, %cr3 and %cr4 *)
Definition start_paging (b : boot_st) : boot_st :=
  let '(m, r) := paging_init (mem_of (kern b)) (ctrl b) in
  let k := upd_cpu (set_r_cr3 (cr3_reg r)) (upd_mem (fun _ => m) (kern b)) in
  BootSt k r (idt b) (ldt_desc_ptr b) (tss_desc_ptr b) (ldt_segment_selector b) (ldtr b) (tr b).

Definition start_idt (b : boot_st) : boot_st :=
  BootSt (kern b) (ctrl b) (init_idt (handler_at sym) (idt b)) (ldt_desc_ptr b) (tss_desc_ptr b)
    (ldt_segment_selector b) (ldtr b) (tr b).

(** from [i8259_init()] to [sti()] *)
Definition start_devices (b : boot_st) : boot_st :=
  let b := upd_kern (upd_hw i8259_init) b in
  let b := start_idt b in
  let b := upd_kern (upd_hw (fun h => fold_left (fun h i => disable_irq i h) (zrange 0 16) h)) b in
  let b := start_paging b in
  let b := upd_kern (upd_hw rtc_init) b in
  let b := upd_kern init_fs b in
  let b := upd_kern (upd_hw (enable_irq PIC_1)) b in
  let b := upd_kern (fun s => snd (terminal_open (Addr 0) s)) b in
  let b := upd_kern (upd_hw clear) b in
  upd_kern (upd_hw sti) b.

Definition entry (magic addr : Z) (b : boot_st) : option boot_outcome :=
  let b := upd_kern (upd_hw clear) b in
  if negb (u32 magic =? MULTIBOOT_BOOTLOADER_MAGIC) then
    s ← print (chars "Invalid magic number: 0x%#x" ++ [10]) [magic] (kern b);
    Some (BootHalts (set_kern s b))
  else
    let mbi := addr in
    s ← announce_modules mbi (kern b);
    if CHECK_FLAG (mb_flags (mem_of s) mbi) 4 && CHECK_FLAG (mb_flags (mem_of s) mbi) 5 then
      s ← print (chars "Both bits 4 and 5 are set." ++ [10]) [] s;
      Some (BootHalts (set_kern s b))
    else
      s ← announce_maps mbi s;
      let b := start_devices (set_tss (set_ldt (set_kern s b))) in
      o ← execute (Obj SHELL) (kern b);
      Some (match o with
            | Returns _ s => BootSpins (set_kern s b)
            | EntersUser eip esp s => BootRuns eip esp (set_kern s b)
            | ResumesParent _ s => BootSpins (set_kern s b)
            end).
End Entry.

(** ** The descriptors name the tables *)

(** masking and shifting out a field is taking its bits *)
Lemma field_bits v n k :
  0 <= v -> 0 <= n -> 0 <= k -> Z.shiftr (Z.land v (Z.shiftl (Z.ones n) k)) k = (v / 2 ^ k) mod 2 ^ n.
Proof.
  intros Hv Hn Hk. rewrite <- Z.land_ones, <- Z.shiftr_div_pow2 by lia. apply Z.bits_inj'. intros i Hi.
  rewrite Z.shiftr_spec, !Z.land_spec, Z.shiftr_spec, Z.shiftl_spec by lia.
  now replace (i + k - k) with i by lia.
Qed.

Module SegSpec.
Import Seg.

Record fits (d : seg_desc) : Prop := {
  f_type : 0 <= type d < 16; f_sys : 0 <= sys d < 2; f_dpl : 0 <= dpl d < 4;
  f_present : 0 <= present d < 2; f_avail : 0 <= avail d < 2; f_reserved : 0 <= reserved d < 2;
  f_opsize : 0 <= opsize d < 2; f_granularity : 0 <= granularity d < 2
}.

(** the processor reads back the base and limit the macros were given *)
Lemma params_roundtrip d addr lim :
  fits d -> 0 <= lim < 1048576 ->
  let bits := desc_bits (SET_LDT_PARAMS d addr lim) in
  desc_base bits = u32 addr /\ desc_limit bits = lim /\
  desc_access bits = (type d + 16 * sys d, dpl d, present d).
Proof.
  intros [] Hlim. unfold SET_LDT_PARAMS, desc_bits. cbn [seg_lim_15_00 base_15_00 base_23_16 type sys dpl
    present seg_lim_19_16 avail reserved opsize granularity base_31_24].
  pose proof (u32_range addr) as Ha. set (a := u32 addr) in *. clearbody a.
  change 65535 with (Z.ones 16). rewrite !Z.land_ones by lia.
  change 16711680 with (Z.shiftl (Z.ones 8) 16). change 983040 with (Z.shiftl (Z.ones 4) 16).
  change 4278190080 with (Z.shiftl (Z.ones 8) 24). rewrite !field_bits by lia.
  unfold desc_base, desc_limit, desc_access. cbv zeta.
  set (bits := _ + _ + _ + _ + _ + _ + _ + _ + _ + _ + _ + _ + _).
  assert ((bits / 2 ^ 16) mod 2 ^ 24 = a mod 16777216) as -> by (subst bits; zlia).
  assert (bits / 2 ^ 56 = a / 16777216) as -> by (subst bits; zlia).
  assert (bits mod 2 ^ 16 = lim mod 65536) as -> by (subst bits; zlia).
  assert ((bits / 2 ^ 48) mod 2 ^ 4 = lim / 65536) as -> by (subst bits; zlia).
  assert ((bits / 2 ^ 40) mod 2 ^ 5 = type d + 16 * sys d) as -> by (subst bits; zlia).
  assert ((bits / 2 ^ 45) mod 2 ^ 2 = dpl d) as -> by (subst bits; zlia).
  assert ((bits / 2 ^ 47) mod 2 = present d) as -> by (subst bits; zlia).
  split; [zlia|]. split; [zlia | reflexivity].
Qed.
End SegSpec.

(** C39: The descriptors [entry] builds in the GDT, read back from their 64 bits
    as the processor does, are a present LDT of 32 bytes at [ldt] and a present
    available TSS of 104 bytes at [tss], both of privilege 0; the task and LDT
    registers hold their selectors, and the TSS starts with the kernel's data
    segment and a kernel stack that grows down from 8 MiB. *)
Theorem descriptors_name_ldt_and_tss sym b :
  let b' := set_tss sym (set_ldt sym b) in
  let ldt := Seg.desc_bits (ldt_desc_ptr b') in
  let tss := Seg.desc_bits (tss_desc_ptr b') in
  Seg.desc_base ldt = u32 (ldt_at sym) /\ Seg.desc_limit ldt = 31 /\ Seg.desc_access ldt = (2, 0, 1) /\
  Seg.desc_base tss = u32 (tss_at sym) /\ Seg.desc_limit tss = 103 /\ Seg.desc_access tss = (9, 0, 1) /\
  ldtr b' = KERNEL_LDT /\ tr b' = KERNEL_TSS /\ ldt_segment_selector b' = KERNEL_LDT /\
  tss_ss0 (cpu (kern b')) = KERNEL_DS /\ tss_esp0 (cpu (kern b')) = 8388608.
Proof.
  cbv zeta.
  destruct (SegSpec.params_roundtrip (Seg.SegDesc 0 0 0 2 0 0 1 0 0 0 1 0 0) (ldt_at sym) ldt_size)
    as (L1 & L2 & L3); [split; cbn; lia | unfold ldt_size; lia |].
  destruct (SegSpec.params_roundtrip (Seg.SegDesc (Z.land TSS_SIZE 65535) 0 0 9 0 0 1
    (Z.land TSS_SIZE 983040 mod 16) 0 0 0 0 0) (tss_at sym) tss_size)
    as (T1 & T2 & T3); [split; cbn; lia | unfold tss_size; lia |].
  split_and!; [exact L1 | exact L2 | exact L3 | exact T1 | exact T2 | exact T3 | reflexivity..].
Qed.

(** ** The announcements

    Whatever the multiboot information says, printing it changes the screen
    and [BOOT_BLOCK_PTR] only, as long as the structures are not on the
    screen themselves. *)

Definition clear_of_video (a n : Z) : Prop := forall k, 0 <= k < n -> VIDEO_SPAN <= off VIDEO (a + k).

Lemma clear_of_video_sub a n b k :
  clear_of_video a n -> a <= b -> b + k <= a + n -> clear_of_video b k.
Proof. intros H Hb Hk i Hi. replace (b + i) with (a + (b - a + i)) by lia. apply H. lia. Qed.

Lemma rd32_frame s s' a :
  console_frame s s' -> clear_of_video a 4 -> rd32 (mm s') a = rd32 (mm s) a.
Proof.
  intros [_ Hm] Ha. unfold rd32. pose proof (Ha 0 ltac:(lia)) as H0. rewrite Z.add_0_r in H0.
  now rewrite !Hm by (exact H0 || (apply Ha; lia)).
Qed.

Record announced (s s' : kst) : Prop := {
  an_console : console_frame (hw s) (hw s');
  an_sysg : sysg s' = sysg s;
  an_trm : trm s' = trm s;
  an_cpu : cpu s' = cpu s;
  an_saved : saved s' = saved s;
  an_fsg : fsg s' = set_BOOT_BLOCK_PTR (BOOT_BLOCK_PTR (fsg s')) (fsg s)
}.

#[export] Instance announced_preorder : PreOrder announced.
Proof.
  split.
  - intros s. split; try done. now destruct (fsg s).
  - intros s1 s2 s3 [C1 S1 T1 P1 V1 F1] [C2 S2 T2 P2 V2 F2].
    split; try congruence; [etrans; [exact C1 | exact C2]|]. rewrite F2 at 1. now rewrite F1.
Qed.

Lemma announced_hw h s : console_frame (hw s) h -> announced s (set_hw h s).
Proof. intros F. split; try reflexivity; [exact F|]. cbn. now destruct (fsg s). Qed.

Lemma announced_rd32 s s' a :
  announced s s' -> clear_of_video a 4 -> rd32 (mem_of s') a = rd32 (mem_of s) a.
Proof. intros [Hc _ _ _ _ _]. now apply rd32_frame. Qed.

(** the screen is as the announcements need it: at most three rows too low *)
Definition screen_ready (s : kst) : Prop := rows_ok 3 (hw s).

Lemma rows_ok_weaken j k s : j <= k -> rows_ok j s -> rows_ok k s.
Proof. intros Hk [Hx Hy]. split; [done | lia]. Qed.

(** [s'] is [s] after an announcement that leaves the cursor at most [k] rows
    too low *)
Definition after_print (k : Z) (s s' : kst) : Prop :=
  announced s s' /\ rows_ok k (hw s') /\ fsg s' = fsg s.

Lemma print_text k fmt args c l s :
  render (length fmt) fmt args = Some (c :: l) -> newline c = false -> newlines l <= k -> k <= 3 ->
  screen_ready s -> exists s', print fmt args s = Some s' /\ after_print k s s'.
Proof.
  intros Hr Hc Hn Hk Hs. unfold print, printf. rewrite (printf_loop_renders _ _ _ _ _ Hr).
  cbn [mbind option_bind].
  destruct (put_line_frame c l 3 (hw s) Hs) as [F R]; [lia | done | lia |].
  eexists. split; [reflexivity|]. split; [now apply announced_hw|].
  split; [|done]. eapply rows_ok_weaken; [|exact R]. exact Hn.
Qed.

(** a lone newline, after something else was printed on the row *)
Lemma print_newline s :
  rows_ok 0 (hw s) ->
  exists s', print [10] [] s = Some s' /\ after_print 1 s s'.
Proof.
  intros Hs. unfold print, printf. cbn [printf_loop length mbind option_bind].
  destruct (putc_frame 10 0 (hw s) Hs) as [F [R1 R2]]; [lia|].
  eexists. split; [reflexivity|]. split; [now apply announced_hw|].
  split; [|done]. split; [exact R1|]. change (newline 10) with true in R2. cbn [hw set_hw] in *. lia.
Qed.

Ltac count_newlines :=
  repeat match goal with
  | |- context [newlines (?a ++ ?b)] => rewrite (newlines_app a b)
  | |- context [newlines (?c :: ?l)] => rewrite (newlines_cons c l)
  | |- context [newlines (hex_text ?v)] => rewrite (newlines_hex v)
  | |- context [newlines (hex8_text ?v)] => rewrite (newlines_hex8 v)
  | |- context [newlines (dec_text ?v)] => rewrite (newlines_dec v)
  | |- context [newlines (signed_text ?v)] => rewrite (newlines_signed v)
  end.

(** one announcement whose arguments are numbers *)
Ltac print_numbers :=
  eapply print_text;
    [ reflexivity | reflexivity
    | cbv iota; count_newlines; vm_compute; discriminate
    | vm_compute; discriminate
    | assumption ].

Lemma print_if_text (c : bool) k fmt args s :
  k <= 3 -> screen_ready s ->
  (exists s', print fmt args s = Some s' /\ after_print k s s') ->
  exists s', print_if c fmt args s = Some s' /\ after_print 3 s s'.
Proof.
  intros Hk Hs (s' & E & An & R & F). destruct c; cbn [print_if].
  - exists s'. split; [exact E|]. split; [exact An|]. split; [|exact F]. now apply (rows_ok_weaken k).
  - exists s. split; [done|]. split; [reflexivity | now split].
Qed.

(** the boot loader's command line, a string that is not on the screen *)
Lemma print_cmdline a t s :
  text_mem (mem_of s) a t -> (length t < STR_FUEL)%nat -> newlines t <= 2 -> screen_ready s ->
  exists s', print (chars "cmdline = %s" ++ [10]) [a] s = Some s' /\ after_print 3 s s'.
Proof.
  intros Ht Hl Hn Hs. unfold print, printf. pose proof (newlines_nonneg t).
  change (chars "cmdline = %s" ++ [10]) with (chars "cmdline = " ++ [37; 115; 10]).
  set (h1 := put_chars (chars "cmdline = ") (hw s)).
  destruct (put_line_frame 99 (chars "mdline = ") 3 (hw s) Hs) as [F1 R1];
    [lia | done | vm_compute; discriminate |].
  change (put_chars (99 :: chars "mdline = ") (hw s)) with h1 in F1, R1.
  change (newlines (chars "mdline = ")) with 0 in R1.
  destruct (put_chars_frame (t ++ [10]) 0 h1 R1) as [F2 R2];
    [lia | rewrite newlines_app; change (newlines [10]) with 1; lia |].
  rewrite newlines_app in R2. change (newlines [10]) with 1 in R2.
  exists (set_hw (put_chars (t ++ [10]) h1) s). split.
  - change (printf_loop (length (chars "cmdline = " ++ [37; 115; 10]))
      (chars "cmdline = " ++ [37; 115; 10]) [a] (hw s))
      with ('(fmt', args', s') ← ('(_, s') ← puts STR_FUEL (mem_src a) h1; Some ([10], [] : list Z, s'));
            printf_loop 2 fmt' args' s').
    unfold puts. rewrite (puts_mem STR_FUEL a a t 0 0 h1); [|..]; try lia; try done.
    + rewrite !bind_some. cbn [printf_loop]. rewrite put_chars_app. reflexivity.
    + now apply (text_mem_frame (hw s)).
  - split; [|split; [|done]].
    + apply announced_hw. etrans; [exact F1 | exact F2].
    + eapply rows_ok_weaken; [|exact R2]. lia.
Qed.

Lemma print_byte v s :
  screen_ready s -> exists s', print (chars "0x%x ") [v] s = Some s' /\ after_print 0 s s'.
Proof. intros Hs. print_numbers. Qed.

Lemma first_bytes_prints n i md s :
  screen_ready s -> exists s', first_bytes (S n) i md s = Some s' /\ after_print 0 s s'.
Proof.
  revert i s. induction n as [|n IH]; intros i s Hs.
  - cbn [first_bytes]. set (v := s8 _).
    destruct (print_byte v s Hs) as (s1 & -> & A). rewrite bind_some. now exists s1.
  - remember (S n) as k. cbn [first_bytes]. subst k. set (v := s8 _).
    destruct (print_byte v s Hs) as (s1 & -> & A1 & R1 & F1). rewrite bind_some.
    destruct (IH (i + 1) s1) as (s2 & E2 & A2 & R2 & F2);
      [now apply (rows_ok_weaken 0)|].
    exists s2. split; [exact E2|]. split; [etrans; [exact A1 | exact A2]|].
    split; [exact R2 | congruence].
Qed.

(** ** What the boot loader must have passed *)

(** the entries of the memory map, followed by their sizes *)
Inductive mmap_walk (m : mem) (limit : Z) : nat -> Z -> Prop :=
| walk_end p : limit <= p -> mmap_walk m limit 0 p
| walk_step n p : p < limit -> clear_of_video p 4 ->
    mmap_walk m limit n (u32 (p + rd32 m p + 4)) -> mmap_walk m limit (S n) p.

Record boot_info (m : mem) (mbi : Z) : Prop := {
  bi_video : clear_of_video mbi 52;
  bi_cmdline : CHECK_FLAG (mb_flags m mbi) 2 = true ->
    exists t, text_mem m (cmdline m mbi) t /\ (length t < STR_FUEL)%nat /\ newlines t <= 2;
  bi_has_mods : CHECK_FLAG (mb_flags m mbi) 3 = true;
  bi_mods_count : 1 <= mods_count m mbi;
  bi_mods : clear_of_video (mods_addr m mbi) (16 * mods_count m mbi);
  bi_mmap : CHECK_FLAG (mb_flags m mbi) 6 = true ->
    exists n, mmap_walk m (u32 (mmap_addr m mbi + mmap_length m mbi)) n (mmap_addr m mbi) /\
      (n <= Z.to_nat (mmap_length m mbi))%nat
}.

(** printing and clearing do not change what the boot loader passed *)
Lemma mmap_walk_frame s s' limit n p :
  console_frame s s' -> mmap_walk (mm s) limit n p -> mmap_walk (mm s') limit n p.
Proof.
  intros Hf Hw. induction Hw as [p Hp|n p Hp Hv Hw IH]; [now constructor|].
  constructor; [done | done |]. now rewrite (rd32_frame s s').
Qed.

Lemma boot_info_frame s s' mbi :
  console_frame s s' -> boot_info (mm s) mbi -> boot_info (mm s') mbi.
Proof.
  intros Hf [V C HM MC MO MM].
  assert (forall k, 0 <= k <= 48 -> rd32 (mm s') (mbi + k) = rd32 (mm s) (mbi + k)) as Hk.
  { intros k Hk. apply rd32_frame; [done|]. eapply clear_of_video_sub; [exact V | lia | lia]. }
  pose proof (Hk 0 ltac:(lia)) as H0. rewrite Z.add_0_r in H0.
  unfold mb_flags, cmdline, mods_count, mods_addr, mmap_addr, mmap_length in *.
  split; unfold mb_flags, cmdline, mods_count, mods_addr, mmap_addr, mmap_length;
    rewrite ?H0, ?Hk by lia; try done.
  - intros Hc. destruct (C Hc) as (t & Ht & Hl). exists t. split; [now apply (text_mem_frame s) | done].
  - intros Hc. destruct (MM Hc) as (n & Hw & Hl). exists n. split; [now apply (mmap_walk_frame s) | done].
Qed.

(** [after_print], but for the boot block pointer *)
Lemma print_loaded i v s :
  screen_ready s ->
  exists s', print (chars "Module %d loaded at address: 0x%#x" ++ [10]) [i; v] s = Some s' /\
    after_print 1 s s'.
Proof. intros Hs. print_numbers. Qed.
Lemma print_ends i v s :
  screen_ready s ->
  exists s', print (chars "Module %d ends at address: 0x%#x" ++ [10]) [i; v] s = Some s' /\
    after_print 1 s s'.
Proof. intros Hs. print_numbers. Qed.
Lemma print_first s :
  screen_ready s ->
  exists s', print (chars "First few bytes of module:" ++ [10]) [] s = Some s' /\ after_print 1 s s'.
Proof. intros Hs. print_numbers. Qed.

Lemma print_flags v s :
  screen_ready s ->
  exists s', print (chars "flags = 0x%#x" ++ [10]) [v] s = Some s' /\ after_print 3 s s'.
Proof. intros Hs. print_numbers. Qed.
Lemma print_mem c lo hi s :
  screen_ready s ->
  exists s', print_if c (chars "mem_lower = %uKB, mem_upper = %uKB" ++ [10]) [lo; hi] s = Some s' /\
    after_print 3 s s'.
Proof. intros Hs. apply (print_if_text _ 3); [done | done | print_numbers]. Qed.
Lemma print_device c v s :
  screen_ready s ->
  exists s', print_if c (chars "boot_device = 0x%#x" ++ [10]) [v] s = Some s' /\ after_print 3 s s'.
Proof. intros Hs. apply (print_if_text _ 3); [done | done | print_numbers]. Qed.

Lemma print_cmdline_if (c : bool) a s :
  screen_ready s ->
  (c = true -> exists t, text_mem (mem_of s) a t /\ (length t < STR_FUEL)%nat /\ newlines t <= 2) ->
  exists s', print_if c (chars "cmdline = %s" ++ [10]) [a] s = Some s' /\ after_print 3 s s'.
Proof.
  intros Hs Hc. destruct c; cbn [print_if].
  - destruct Hc as (t & Ht & Hl & Hn); [done|]. now apply (print_cmdline a t).
  - exists s. split; [done|]. split; [reflexivity | now split].
Qed.
Lemma print_elf c n sz a x s :
  screen_ready s ->
  exists s', print_if c (chars "elf_sec: num = %u, size = 0x%#x," ++
      chars " addr = 0x%#x, shndx = 0x%#x" ++ [10]) [n; sz; a; x] s = Some s' /\ after_print 3 s s'.
Proof. intros Hs. apply (print_if_text _ 3); [done | done | print_numbers]. Qed.
Lemma print_mmap a l s :
  screen_ready s ->
  exists s', print (chars "mmap_addr = 0x%#x, mmap_length = 0x%x" ++ [10]) [a; l] s = Some s' /\
    after_print 3 s s'.
Proof. intros Hs. print_numbers. Qed.
Lemma print_map a b c d e f s :
  screen_ready s ->
  exists s', print (chars " size = 0x%x,     base_addr = 0x%#x%#x" ++ [10] ++
                    chars "     type = 0x%x,  length    = 0x%#x%#x" ++ [10]) [a; b; c; d; e; f] s = Some s' /\
    after_print 3 s s'.
Proof. intros Hs. print_numbers. Qed.

Section Announce.
Variables (mbi : Z) (s0 : kst).
Hypothesis Hbi : boot_info (mem_of s0) mbi.

Lemma mbi_field s k :
  announced s0 s -> 0 <= k <= 48 -> rd32 (mem_of s) (mbi + k) = rd32 (mem_of s0) (mbi + k).
Proof.
  intros Ha Hk. apply (announced_rd32 s0); [done|].
  eapply clear_of_video_sub; [exact (bi_video _ _ Hbi) | lia | lia].
Qed.

Lemma mbi_flags s : announced s0 s -> mb_flags (mem_of s) mbi = mb_flags (mem_of s0) mbi.
Proof. intros Ha. pose proof (mbi_field s 0 Ha ltac:(lia)) as E. now rewrite Z.add_0_r in E. Qed.

(** the module table entry [i] *)
Definition mod_at (i : Z) : Z := mods_addr (mem_of s0) mbi + 16 * i.

Lemma mod_field s i k :
  announced s0 s -> 0 <= i < mods_count (mem_of s0) mbi -> 0 <= k <= 12 ->
  rd32 (mem_of s) (mod_at i + k) = rd32 (mem_of s0) (mod_at i + k).
Proof.
  intros Ha Hi Hk. apply (announced_rd32 s0); [done|].
  eapply clear_of_video_sub; [exact (bi_mods _ _ Hbi) | |]; unfold mod_at; lia.
Qed.

(** one module *)
Lemma mods_round s i f :
  announced s0 s -> screen_ready s -> 0 <= i < mods_count (mem_of s0) mbi ->
  exists s', mods_loop (S f) mbi i (mod_at i) s = mods_loop f mbi (i + 1) (mod_at (i + 1)) s' /\
    announced s0 s' /\ screen_ready s' /\
    BOOT_BLOCK_PTR (fsg s') = mod_start (mem_of s0) (mod_at i).
Proof.
  intros Ha Hs Hi. cbn [mods_loop].
  assert (mods_count (mem_of s) mbi = mods_count (mem_of s0) mbi) as Hc by (apply mbi_field; [done | lia]).
  rewrite Hc. pose proof (rd32_range (mem_of s0) (mbi + 20)) as Hr.
  change (rd32 (mem_of s0) (mbi + 20)) with (mods_count (mem_of s0) mbi) in Hr.
  rewrite u32_small by lia. destruct (Z.ltb_spec i (mods_count (mem_of s0) mbi)); [|lia].
  destruct (print_loaded i (mod_start (mem_of s) (mod_at i)) s Hs) as (s1 & -> & A1 & R1 & F1).
  rewrite bind_some. assert (screen_ready s1) as Hs1 by (apply (rows_ok_weaken 1); [lia | exact R1]).
  destruct (print_ends i (mod_end (mem_of s1) (mod_at i)) s1 Hs1) as (s2 & -> & A2 & R2 & F2).
  rewrite bind_some. assert (screen_ready s2) as Hs2 by (apply (rows_ok_weaken 1); [lia | exact R2]).
  destruct (print_first s2 Hs2) as (s3 & -> & A3 & R3 & F3).
  rewrite bind_some. set (s4 := upd_fsg _ s3).
  assert (announced s0 s3) as A03 by (etrans; [exact Ha | etrans; [exact A1 | etrans; [exact A2 | exact A3]]]).
  assert (announced s3 s4) as A4 by (split; try reflexivity; now destruct (hw s3)).
  assert (screen_ready s4) as Hs4 by (apply (rows_ok_weaken 1); [lia | exact R3]).
  destruct (first_bytes_prints 15 0 (mod_at i) s4 Hs4) as (s5 & E5 & A5 & R5 & F5).
  change (first_bytes 16) with (first_bytes (S 15)). rewrite E5, bind_some.
  destruct (print_newline s5 R5) as (s6 & -> & A6 & R6 & F6). rewrite bind_some.
  exists s6. split; [f_equal; unfold mod_at; lia|]. split; [|split].
  - etrans; [exact A03|]. etrans; [exact A4|]. etrans; [exact A5 | exact A6].
  - now apply (rows_ok_weaken 1).
  - rewrite F6, F5. cbn [fsg upd_fsg set_fsg BOOT_BLOCK_PTR set_BOOT_BLOCK_PTR s4].
    pose proof (mod_field s3 i 0 A03 Hi ltac:(lia)) as E. now rewrite Z.add_0_r in E.
Qed.

(** every module is announced; the boot block is the last one's start *)
Lemma mods_loop_prints n f i s :
  announced s0 s -> screen_ready s -> 0 <= i -> i + Z.of_nat n = mods_count (mem_of s0) mbi ->
  (n <= f)%nat ->
  exists s', mods_loop f mbi i (mod_at i) s = Some s' /\ announced s0 s' /\ screen_ready s' /\
    BOOT_BLOCK_PTR (fsg s') =
      if (n =? 0)%nat then BOOT_BLOCK_PTR (fsg s)
      else mod_start (mem_of s0) (mod_at (mods_count (mem_of s0) mbi - 1)).
Proof.
  revert f i s. induction n as [|n IH]; intros f i s Ha Hs Hi Hn Hf.
  - exists s. split; [|now split_and!].
    assert (mods_count (mem_of s) mbi = mods_count (mem_of s0) mbi) as Hc by (apply mbi_field; [done | lia]).
    pose proof (rd32_range (mem_of s0) (mbi + 20)) as Hr.
    change (rd32 (mem_of s0) (mbi + 20)) with (mods_count (mem_of s0) mbi) in Hr.
    assert ((u32 i <? mods_count (mem_of s) mbi) = false) as E
      by (rewrite Hc, u32_small by lia; apply Z.ltb_ge; lia).
    destruct f; cbn [mods_loop]; now rewrite E.
  - destruct f as [|f]; [lia|].
    destruct (mods_round s i f Ha Hs) as (s1 & -> & A1 & S1 & B1); [lia|].
    destruct (IH f (i + 1) s1 A1 S1) as (s2 & E2 & A2 & S2 & B2); [lia | lia | lia |].
    exists s2. split; [exact E2|]. split; [exact A2|]. split; [exact S2|].
    rewrite B2. destruct n as [|n]; cbn [Nat.eqb]; [|done]. rewrite B1. do 2 f_equal. lia.
Qed.

(** one optional announcement inside the sequence *)
Lemma announce_step (P : option kst) s :
  announced s0 s -> (exists s', P = Some s' /\ after_print 3 s s') ->
  exists s', P = Some s' /\ announced s0 s' /\ screen_ready s' /\ fsg s' = fsg s.
Proof.
  intros Ha (s' & E & A & R & F). exists s'. split; [exact E|]. split; [etrans; [exact Ha | exact A]|].
  now split.
Qed.

Lemma announce_modules_prints :
  screen_ready s0 ->
  exists s', announce_modules mbi s0 = Some s' /\ announced s0 s' /\ screen_ready s' /\
    BOOT_BLOCK_PTR (fsg s') = mod_start (mem_of s0) (mod_at (mods_count (mem_of s0) mbi - 1)).
Proof.
  intros Hs. unfold announce_modules.
  destruct (announce_step _ s0 ltac:(reflexivity) (print_flags (mb_flags (mem_of s0) mbi) s0 Hs))
    as (s1 & -> & A1 & S1 & _). rewrite bind_some.
  destruct (announce_step _ s1 A1 (print_mem (CHECK_FLAG (mb_flags (mem_of s1) mbi) 0)
    (mem_lower (mem_of s1) mbi) (mem_upper (mem_of s1) mbi) s1 S1)) as (s2 & -> & A2 & S2 & _).
  rewrite bind_some.
  destruct (announce_step _ s2 A2 (print_device (CHECK_FLAG (mb_flags (mem_of s2) mbi) 1)
    (boot_device (mem_of s2) mbi) s2 S2)) as (s3 & -> & A3 & S3 & _). rewrite bind_some.
  assert (exists s', print_if (CHECK_FLAG (mb_flags (mem_of s3) mbi) 2) (chars "cmdline = %s" ++ [10])
    [cmdline (mem_of s3) mbi] s3 = Some s' /\ after_print 3 s3 s') as Hcmd.
  { apply print_cmdline_if; [done|]. rewrite (mbi_flags s3 A3). intros Hf.
    destruct (bi_cmdline _ _ Hbi Hf) as (t & Ht & Hl & Hn). exists t. split; [|done].
    replace (cmdline (mem_of s3) mbi) with (cmdline (mem_of s0) mbi)
      by (symmetry; apply (mbi_field s3 16 A3); lia).
    exact (text_mem_frame _ _ _ _ (an_console _ _ A3) Ht). }
  destruct (announce_step _ s3 A3 Hcmd) as (s4 & -> & A4 & S4 & _). rewrite bind_some.
  rewrite (mbi_flags s4 A4), (bi_has_mods _ _ Hbi).
  pose proof (mbi_field s4 20 A4 ltac:(lia)) as Hc. fold (mods_count (mem_of s4) mbi) in Hc.
  fold (mods_count (mem_of s0) mbi) in Hc. rewrite Hc.
  replace (mods_addr (mem_of s4) mbi) with (mod_at 0)
    by (unfold mod_at; rewrite Z.add_0_r; symmetry; apply (mbi_field s4 24 A4); lia).
  pose proof (bi_mods_count _ _ Hbi).
  destruct (mods_loop_prints (Z.to_nat (mods_count (mem_of s0) mbi)) (Z.to_nat (mods_count (mem_of s0) mbi))
    0 s4 A4 S4) as (s5 & E5 & A5 & S5 & B5); [lia | lia | lia |].
  exists s5. split; [exact E5|]. split; [exact A5|]. split; [exact S5|].
  rewrite B5. destruct (Nat.eqb_spec (Z.to_nat (mods_count (mem_of s0) mbi)) 0); [lia | done].
Qed.

Lemma mmap_loop_prints limit n f p s :
  limit = u32 (mmap_addr (mem_of s0) mbi + mmap_length (mem_of s0) mbi) ->
  announced s0 s -> screen_ready s -> mmap_walk (mem_of s0) limit n p -> (n <= f)%nat ->
  exists s', mmap_loop f mbi p s = Some s' /\ announced s0 s' /\ screen_ready s' /\ fsg s' = fsg s.
Proof.
  intros Hl Ha Hs Hw. revert f s Ha Hs.
  assert (forall s, announced s0 s ->
    u32 (mmap_addr (mem_of s) mbi + mmap_length (mem_of s) mbi) = limit) as Hlim.
  { intros s Ha. subst limit. unfold mmap_addr, mmap_length.
    now rewrite !(mbi_field s _ Ha) by lia. }
  induction Hw as [p Hp|n p Hp Hv Hw IH]; intros f s Ha Hs Hf.
  - exists s. split; [|now split_and!].
    destruct f; cbn [mmap_loop]; rewrite Hlim by done; destruct (Z.ltb_spec p limit); (done || lia).
  - destruct f as [|f]; [lia|]. cbn [mmap_loop]. rewrite Hlim by done.
    destruct (Z.ltb_spec p limit); [|lia]. cbv zeta.
    destruct (announce_step _ s Ha (print_map (mmap_field (mem_of s) p 0) (mmap_field (mem_of s) p 2)
      (mmap_field (mem_of s) p 1) (mmap_field (mem_of s) p 5) (mmap_field (mem_of s) p 4)
      (mmap_field (mem_of s) p 3) s Hs)) as (s1 & -> & A1 & S1 & F1). rewrite bind_some.
    replace (mmap_field (mem_of s1) p 0) with (rd32 (mem_of s0) p).
    2:{ unfold mmap_field. rewrite Z.mul_0_r, Z.add_0_r. symmetry. now apply announced_rd32. }
    destruct (IH f s1 A1 S1) as (s2 & E2 & A2 & S2 & F2); [lia|].
    exists s2. split; [exact E2|]. split; [exact A2|]. split; [exact S2 | congruence].
Qed.

Lemma announce_maps_prints s :
  announced s0 s -> screen_ready s ->
  exists s', announce_maps mbi s = Some s' /\ announced s0 s' /\ screen_ready s' /\ fsg s' = fsg s.
Proof.
  intros Ha Hs. unfold announce_maps.
  destruct (announce_step _ s Ha (print_elf (CHECK_FLAG (mb_flags (mem_of s) mbi) 5)
    (elf_sec (mem_of s) mbi 0) (elf_sec (mem_of s) mbi 1) (elf_sec (mem_of s) mbi 2)
    (elf_sec (mem_of s) mbi 3) s Hs)) as (s1 & -> & A1 & S1 & F1). rewrite bind_some.
  rewrite (mbi_flags s1 A1). destruct (CHECK_FLAG (mb_flags (mem_of s0) mbi) 6) eqn:H6.
  2:{ exists s1. now split_and!. }
  destruct (announce_step _ s1 A1 (print_mmap (mmap_addr (mem_of s1) mbi) (mmap_length (mem_of s1) mbi)
    s1 S1)) as (s2 & -> & A2 & S2 & F2). rewrite bind_some.
  destruct (bi_mmap _ _ Hbi H6) as (n & Hw & Hn).
  assert (mmap_length (mem_of s2) mbi = mmap_length (mem_of s0) mbi /\
    mmap_addr (mem_of s2) mbi = mmap_addr (mem_of s0) mbi) as [-> ->]
    by (split; apply (mbi_field s2); done || lia).
  destruct (mmap_loop_prints _ n (S (Z.to_nat (mmap_length (mem_of s0) mbi))) _ s2 eq_refl A2 S2 Hw)
    as (s3 & E3 & A3 & S3 & F3); [lia|].
  exists s3. split; [exact E3|]. split; [exact A3|]. split; [exact S3 | congruence].
Qed.
End Announce.
