(* ===== verification/Startup.v ===== *)
(** * The state the boot sequence hands to the first program

    The devices after start-up, the file system found where the last boot
    module is, and the whole of [entry] up to user mode. *)

From Stdlib Require Import ZArith Lia String.
From stdpp Require Import base list gmap.
From S2P Require Import Prelude Memory CMem CStr Machine Console Pic Rtc Idt Paging KState Filesystem TermIO Syscalls Process Launch Boot.
Open Scope Z_scope.


(** ** The devices after start-up *)

Section Devices.
Context `{Platform}.

Lemma synced_outb d p s : p <> 33 -> p <> 161 -> synced s -> synced (outb d p s).
Proof.
  intros H1 H2 (S1 & S2 & S3 & S4). unfold synced, outb, MASTER_8259_IMR, SLAVE_8259_IMR in *.
  cbn [ports set_ports master_mask slave_mask]. rewrite !last_out_snoc.
  destruct (Z.eqb_spec p 33), (Z.eqb_spec p 161); try done.
Qed.
Lemma synced_inb p s : synced s -> synced (snd (inb p s)).
Proof.
  intros (S1 & S2 & S3 & S4). unfold synced, inb in *. cbn [ports set_ports master_mask slave_mask snd].
  now rewrite !last_out_snoc_in.
Qed.
Lemma synced_if b s : synced s -> synced (set_if_flag b s).
Proof. done. Qed.

Lemma set_cursor_mm x y s : mm (set_cursor x y s) = mm s.
Proof. reflexivity. Qed.

Lemma synced_mm m s : synced s -> synced (set_mm m s).
Proof. done. Qed.

Lemma synced_i8259_init s : master_mask s = 255 -> slave_mask s = 255 -> synced (i8259_init s).
Proof.
  intros H1 H2. unfold i8259_init, cli_and_save, restore_flags, outb, synced.
  cbn [ports set_ports master_mask slave_mask set_if_flag fst snd].
  rewrite !last_out_snoc. cbn. rewrite H1, H2. split_and!; try done; lia.
Qed.

(** the part of rtc_init before its two enable_irq calls *)
Lemma rtc_init_form s :
  exists s1, rtc_init s = enable_irq IRQ8 (enable_irq IRQ2 s1) /\
    (forall j, masked s1 j = masked s j) /\ (synced s -> synced s1) /\
    mm s1 = mm s /\ screen_x s1 = screen_x s /\ screen_y s1 = screen_y s.
Proof.
  unfold rtc_init. cbv zeta.
  destruct (inb RTC_DATA_PORT _) as [v1 s1] eqn:E1.
  destruct (inb RTC_DATA_PORT (outb RTC_SEL_A _ _)) as [v2 s2] eqn:E2.
  eexists. split; [reflexivity|].
  set (s0 := outb RTC_SEL_B RTC_INDEX_PORT (cli s)) in *.
  assert (s1 = snd (inb RTC_DATA_PORT s0)) as F1 by now rewrite E1.
  set (s1' := outb RTC_SEL_A RTC_INDEX_PORT _) in E2.
  assert (s2 = snd (inb RTC_DATA_PORT s1')) as F2 by now rewrite E2.
  split; [intros j; now rewrite F2; unfold s1'; rewrite F1|]. split.
  - intros Hs. apply synced_if, synced_outb, synced_outb; try done. rewrite F2. apply synced_inb.
    unfold s1'. do 3 (apply synced_outb; [done | done |]). rewrite F1. apply synced_inb.
    apply synced_outb; [done | done |]. now apply synced_if.
  - rewrite F2. unfold s1'. rewrite F1. done.
Qed.

Lemma enable_irq_frame i s :
  mm (enable_irq i s) = mm s /\ screen_x (enable_irq i s) = screen_x s /\
  screen_y (enable_irq i s) = screen_y s.
Proof. unfold enable_irq, outb. now case_match. Qed.

Lemma rtc_init_effect s :
  (forall j, 0 <= j < 16 -> masked (rtc_init s) j = masked s j && negb (j =? 2) && negb (j =? 8)) /\
  (synced s -> synced (rtc_init s)) /\ mm (rtc_init s) = mm s.
Proof.
  destruct (rtc_init_form s) as (s1 & -> & M & S & Hm & _). split_and!.
  - intros j Hj. now rewrite !masked_enable, M by (unfold IRQ2, IRQ8; lia).
  - intros Hs. now apply synced_enable, synced_enable, S.
  - destruct (enable_irq_frame IRQ8 (enable_irq IRQ2 s1)) as [-> _].
    now destruct (enable_irq_frame IRQ2 s1) as [-> _].
Qed.

(** all lines masked *)
Lemma disable_all s :
  let s' := fold_left (fun h i => disable_irq i h) (zrange 0 16) s in
  (forall j, 0 <= j < 16 -> masked s' j = true) /\ (synced s -> synced s') /\
  mm s' = mm s /\ screen_x s' = screen_x s /\ screen_y s' = screen_y s.
Proof.
  assert (forall l s, let s' := fold_left (fun h i => disable_irq i h) l s in
    (forall j, 0 <= j < 16 -> Forall (fun i => 0 <= i < 16) l ->
       masked s' j = masked s j || bool_decide (j ∈ l)) /\
    (synced s -> synced s') /\ mm s' = mm s /\ screen_x s' = screen_x s /\
    screen_y s' = screen_y s) as Hall.
  { clear s. induction l as [|i l IH]; intros s; cbn [fold_left].
    - split_and!; try done. intros j _ _. now rewrite orb_false_r.
    - destruct (IH (disable_irq i s)) as (M & S & H1 & H2 & H3). split_and!.
      + intros j Hj Hl. inversion Hl as [|? ? Hi Hl']; subst.
        rewrite M, masked_disable by done. rewrite <- orb_assoc. f_equal.
        destruct (Z.eqb_spec j i) as [->|Hne]; cbn [orb]; symmetry.
        * apply bool_decide_eq_true. apply list_elem_of_here.
        * apply bool_decide_ext. rewrite elem_of_cons. tauto.
      + intros Hs. now apply S, synced_disable.
      + rewrite H1. unfold disable_irq, outb. now case_match.
      + rewrite H2. unfold disable_irq, outb. now case_match.
      + rewrite H3. unfold disable_irq, outb. now case_match. }
  destruct (Hall (zrange 0 16) s) as (M & S & H1 & H2 & H3). split_and!; try done.
  intros j Hj. rewrite M; [|done|].
  - apply orb_true_iff. right. apply bool_decide_eq_true, elem_of_zrange. lia.
  - apply Forall_forall. intros i Hi%elem_of_zrange. lia.
Qed.

Lemma set_cursor_synced x y s : synced s -> synced (set_cursor x y s).
Proof.
  intros Hs. unfold set_cursor. do 4 (apply synced_outb; [done | done |]). done.
Qed.

(** the state the components are in when execute is called; [m'] is what
    paging_init makes of memory *)
Record devices_up (m' : mem) (k k' : kst) : Prop := {
  du_lines : forall j, 0 <= j < 16 ->
    masked (hw k') j = negb (j =? 1) && negb (j =? 2) && negb (j =? 8);
  du_synced : synced (hw k');
  du_if : if_flag (hw k') = true;
  du_cursor : screen_x (hw k') = 0 /\ screen_y (hw k') = 0;
  du_blank : forall i, 0 <= i < 4000 -> rd (mem_of k') (VIDEO + i) = blank_cells i;
  du_mem : forall a, 4000 <= off VIDEO a ->
    rd (mem_of k') a = rd m' a;
  du_cr3 : r_cr3 (cpu k') = proc_pd 0;
  du_sysg : sysg k' = sysg k;
  du_text : text_buf (trm k') = replicate 128 0 /\ counter (trm k') = 0;
  du_pc : pc (fsg k') = 0;
  du_fsg : fsg k' = fsg (init_fs (upd_mem (fun _ => m') k))
}.

Variable sym : symbols.

Lemma masked_sti h j : masked (sti h) j = masked h j.
Proof. reflexivity. Qed.
Lemma masked_set_mm m h j : masked (set_mm m h) j = masked h j.
Proof. reflexivity. Qed.
Lemma masked_set_cursor x y h j : masked (set_cursor x y h) j = masked h j.
Proof. reflexivity. Qed.
Lemma masked_clear h j : masked (clear h) j = masked h j.
Proof. destruct (clear_spec h) as (_ & _ & _ & (_ & Q & R & _)). unfold masked. now rewrite Q, R. Qed.
Lemma synced_clear h : synced h -> synced (clear h).
Proof. destruct (clear_spec h) as (_ & _ & _ & (P & Q & R & _)). unfold synced. now rewrite P, Q, R. Qed.

(** the hardware part of start_devices after paging_init *)
Definition late_hw (h : mach) : mach :=
  sti (clear (enable_irq PIC_1 (set_cursor 0 0 (enable_irq PIC_1 (rtc_init h))))).

#[local] Opaque set_cursor rtc_init enable_irq clear.

Lemma late_hw_lines h j :
  0 <= j < 16 ->
  masked (late_hw h) j = masked h j && negb (j =? 1) && negb (j =? 2) && negb (j =? 8).
Proof.
  intros Hj. unfold late_hw. rewrite masked_sti, masked_clear.
  rewrite masked_enable, masked_set_cursor, masked_enable by (unfold PIC_1; lia).
  destruct (rtc_init_effect h) as (L & _ & _). rewrite L by done. unfold PIC_1.
  destruct (masked h j), (j =? 1), (j =? 2), (j =? 8); reflexivity.
Qed.

Lemma late_hw_synced h : synced h -> synced (late_hw h).
Proof.
  intros Hs. unfold late_hw. apply synced_if, synced_clear, synced_enable, set_cursor_synced, synced_enable.
  now apply (rtc_init_effect h).
Qed.

Lemma sti_screen h :
  screen_x (sti h) = screen_x h /\ screen_y (sti h) = screen_y h /\ if_flag (sti h) = true /\
  mm (sti h) = mm h.
Proof. now destruct h. Qed.
Lemma set_cursor_screen x y h : screen_x (set_cursor x y h) = x /\ screen_y (set_cursor x y h) = y.
Proof. split; reflexivity. Qed.

Lemma late_hw_screen h :
  screen_x (late_hw h) = 0 /\ screen_y (late_hw h) = 0 /\ if_flag (late_hw h) = true /\
  filled (mm h) (mm (late_hw h)) VIDEO 4000 blank_cells.
Proof.
  unfold late_hw. destruct (rtc_init_effect h) as (_ & _ & M). revert M.
  generalize (rtc_init h). intros h4 M. destruct (enable_irq_frame PIC_1 h4) as [E4 _]. revert E4.
  generalize (enable_irq PIC_1 h4). intros h5 E4.
  destruct (set_cursor_screen 0 0 h5) as [X6 Y6]. pose proof (set_cursor_mm 0 0 h5) as E6.
  revert X6 Y6 E6. generalize (set_cursor 0 0 h5). intros h6 X6 Y6 E6.
  destruct (enable_irq_frame PIC_1 h6) as (E7 & X7 & Y7). revert E7 X7 Y7.
  generalize (enable_irq PIC_1 h6). intros h7 E7 X7 Y7.
  destruct (clear_spec h7) as (F & X & Y & _). revert F X Y. generalize (clear h7). intros h8 F X Y.
  destruct (sti_screen h8) as (-> & -> & -> & ->).
  split; [now rewrite X, X7|]. split; [now rewrite Y, Y7|]. split; [reflexivity|].
  intros a. now rewrite F, E7, E6, E4, M.
Qed.

Lemma init_fs_ext s s' :
  fsg s' = fsg s -> mem_of s' = mem_of s -> fsg (init_fs s') = fsg (init_fs s).
Proof. intros H1 H2. unfold init_fs. cbv zeta. cbn [fsg upd_fsg set_fsg]. rewrite H1, H2. reflexivity. Qed.

(** start_devices in two halves, either side of paging_init *)
Definition early_hw (h : mach) : mach :=
  fold_left (fun h i => disable_irq i h) (zrange 0 16) (i8259_init h).
Definition late (k : kst) : kst :=
  upd_hw sti (upd_hw clear (snd (terminal_open (Addr 0)
    (upd_hw (enable_irq PIC_1) (init_fs (upd_hw rtc_init k)))))).
Definition paged (r : cregs) (h : mach) (k : kst) : kst :=
  Kst (set_mm (fst (paging_init (mm h) r)) h) (fsg k) (sysg k) (trm k)
    (set_r_cr3 (cr3_reg (snd (paging_init (mm h) r))) (cpu k)) (saved k).

Lemma i8259_init_mm h : mm (i8259_init h) = mm h.
Proof. reflexivity. Qed.

Lemma early_hw_mm h : mm (early_hw h) = mm h.
Proof. unfold early_hw. destruct (disable_all (i8259_init h)) as (_ & _ & -> & _). apply i8259_init_mm. Qed.

Lemma late_parts k :
  hw (late k) = late_hw (hw k) /\ fsg (late k) = fsg (init_fs (upd_hw rtc_init k)) /\
  sysg (late k) = sysg k /\ cpu (late k) = cpu k /\ saved (late k) = saved k /\
  text_buf (trm (late k)) = replicate 128 0 /\ counter (trm (late k)) = 0.
Proof.
  unfold late. generalize dependent k. intros k.
  assert (hw (init_fs (upd_hw rtc_init k)) = rtc_init (hw k)) as E by reflexivity.
  assert (sysg (init_fs (upd_hw rtc_init k)) = sysg k) as E2 by reflexivity.
  assert (cpu (init_fs (upd_hw rtc_init k)) = cpu k) as E3 by reflexivity.
  assert (saved (init_fs (upd_hw rtc_init k)) = saved k) as E4 by reflexivity.
  revert E E2 E3 E4. generalize (init_fs (upd_hw rtc_init k)). intros k1 E E2 E3 E4.
  unfold late_hw. rewrite <- E, <- E2, <- E3, <- E4. clear. destruct k1 as [h g sg t c sv].
  split_and!; reflexivity.
Qed.

Lemma kern_upd f b : kern (upd_kern f b) = f (kern b).
Proof. reflexivity. Qed.
Lemma set_kern_upd s f b : set_kern s (upd_kern f b) = set_kern s b.
Proof. reflexivity. Qed.
Lemma ctrl_upd f b : ctrl (upd_kern f b) = ctrl b.
Proof. reflexivity. Qed.
Lemma kern_start_idt b : kern (start_idt sym b) = kern b /\ ctrl (start_idt sym b) = ctrl b.
Proof. split; reflexivity. Qed.
Lemma idt_upd f b : idt (upd_kern f b) = idt b.
Proof. reflexivity. Qed.
Lemma hw_upd_hw f k : hw (upd_hw f k) = f (hw k).
Proof. reflexivity. Qed.
Lemma paged_upd_hw r h f k : paged r h (upd_hw f k) = paged r h k.
Proof. reflexivity. Qed.
Lemma kern_start_paging b : kern (start_paging b) = paged (ctrl b) (hw (kern b)) (kern b).
Proof.
  destruct b as [[h g sg t c sv] r id d1 d2 z1 z2 z3]. unfold start_paging, paged.
  cbn [kern ctrl hw fsg sysg trm cpu saved]. change (mem_of (Kst h g sg t c sv)) with (mm h).
  destruct (paging_init (mm h) r) as [m r']. reflexivity.
Qed.

Lemma start_devices_kern b :
  kern (start_devices sym b) = late (paged (ctrl b) (early_hw (hw (kern b))) (kern b)).
Proof.
  unfold start_devices. cbv zeta. rewrite !kern_upd, kern_start_paging, kern_upd, ctrl_upd.
  destruct (kern_start_idt (upd_kern (upd_hw i8259_init) b)) as [-> ->].
  rewrite kern_upd, ctrl_upd, !paged_upd_hw, !hw_upd_hw. reflexivity.
Qed.

Lemma cr3_after_paging_init m r : cr3_reg (snd (paging_init m r)) = proc_pd 0.
Proof. reflexivity. Qed.

Lemma late_paged_fsg r h k :
  fsg (late (paged r h k)) = fsg (init_fs (upd_mem (fun _ => fst (paging_init (mm h) r)) k)).
Proof.
  destruct (late_parts (paged r h k)) as (_ & -> & _). apply init_fs_ext; [reflexivity|].
  rewrite mem_of_upd_mem. unfold mem_of. rewrite hw_upd_hw.
  destruct (rtc_init_effect (hw (paged r h k))) as (_ & _ & ->).
  unfold paged. generalize (fst (paging_init (mm h) r)). reflexivity.
Qed.

Lemma pc_init_fs k : pc (fsg (init_fs k)) = 0.
Proof. reflexivity. Qed.

Lemma late_up m' h k k' :
  (forall j, 0 <= j < 16 -> masked h j = true) -> synced h ->
  hw k' = late_hw (set_mm m' h) -> sysg k' = sysg k -> r_cr3 (cpu k') = proc_pd 0 ->
  text_buf (trm k') = replicate 128 0 -> counter (trm k') = 0 ->
  fsg k' = fsg (init_fs (upd_mem (fun _ => m') k)) -> devices_up m' k k'.
Proof.
  intros L S Eh Es Ec Et1 Et2 Eg.
  destruct (late_hw_screen (set_mm m' h)) as (X & Y & I & F). rewrite <- Eh in X, Y, I, F.
  change (mm (set_mm m' h)) with m' in F. change (mm (hw k')) with (mem_of k') in F.
  split; try assumption.
  - intros j Hj. rewrite Eh, late_hw_lines, masked_set_mm, L by done. reflexivity.
  - rewrite Eh. apply late_hw_synced, synced_mm, S.
  - split; assumption.
  - intros i Hi. rewrite F. replace (off VIDEO (VIDEO + i)) with i by (unfold off; rewrite Z.mod_small; lia).
    now rewrite (proj2 (Z.ltb_lt i 4000)) by lia.
  - intros a Ha. rewrite F. destruct (Z.ltb_spec (off VIDEO a) 4000); [lia | reflexivity].
  - split; assumption.
  - rewrite Eg. apply pc_init_fs.
Qed.

Lemma start_devices_up b :
  master_mask (hw (kern b)) = 255 -> slave_mask (hw (kern b)) = 255 ->
  devices_up (fst (paging_init (mem_of (kern b)) (ctrl b))) (kern b) (kern (start_devices sym b)).
Proof.
  intros Hm Hsl. rewrite start_devices_kern.
  pose proof (early_hw_mm (hw (kern b))) as Hmm.
  destruct (disable_all (i8259_init (hw (kern b)))) as (L & S & _).
  specialize (S (synced_i8259_init _ Hm Hsl)). fold (early_hw (hw (kern b))) in L, S.
  revert L S Hmm. generalize (early_hw (hw (kern b))). intros h L S Hmm.
  change (mm (hw (kern b))) with (mem_of (kern b)) in Hmm. rewrite <- Hmm.
  destruct (late_parts (paged (ctrl b) h (kern b))) as (Eh & _ & Es & Ec & _ & Et1 & Et2).
  apply (late_up _ h); [exact L | exact S | rewrite Eh; reflexivity | rewrite Es; reflexivity | |
    exact Et1 | exact Et2 | apply late_paged_fsg].
  rewrite Ec. apply cr3_after_paging_init.
Qed.

Lemma devices_up_ext m' k1 k2 k' :
  sysg k2 = sysg k1 -> fsg k2 = fsg k1 -> devices_up m' k1 k' -> devices_up m' k2 k'.
Proof.
  intros Hs Hf [U1 U2 U3 U4 U5 U6 U7 U8 U9 U10 U11]. split; try assumption.
  - now rewrite Hs.
  - rewrite U11. apply init_fs_ext; [cbn [upd_mem upd_hw fsg set_hw]; now rewrite Hf|].
    now rewrite !mem_of_upd_mem.
Qed.
End Devices.

(** ** The first execute *)

Section First.
Context `{Platform}.

(** an executable whose image, directory included, is copied unchanged *)
Lemma executable_moved s s' bs i lo sz :
  fsg s' = fsg s -> same_image lo sz (mem_of s) (mem_of s') -> 0 <= i < 62 ->
  lo <= dentry_begin (filesystem (fsg s)) /\ dentry_begin (filesystem (fsg s)) + 4032 <= lo + sz ->
  executable s (Obj bs) i lo sz ->
  executable s' (Obj bs) i lo sz /\
  rd32 (mem_of s') (entry_addr s' i + 36) = rd32 (mem_of s) (entry_addr s i + 36) /\
  let inode := rd32 (mem_of s) (entry_addr s i + 36) in
  file_size s' inode = file_size s inode /\ file_content s' inode = file_content s inode.
Proof.
  intros Hg Hm Hi Hdir [Hf Hin Hsz Hlo Hap Hfile Hmagic Hfd Htab]. cbv zeta in *.
  pose proof (entry_addr_moved s s' Hg i) as He.
  pose proof (entry_word_moved lo sz s s' Hm Hdir i 36 ltac:(lia) ltac:(lia)) as Hw.
  pose proof (file_size_moved lo sz s s' Hg Hm _ _ _ Hfile) as Hs.
  pose proof (file_content_moved lo sz s s' Hg Hm _ Hfile) as Hc.
  assert (rd32 (mem_of s') (entry_addr s' i + 36) = rd32 (mem_of s) (entry_addr s i + 36)) as Hinode
    by now rewrite He.
  split; [|split; [exact Hinode | split; [exact Hs | exact Hc]]].
  split; cbv zeta; rewrite ?Hinode, ?Hs, ?Hc, ?Hg; try assumption.
  - intros d. rewrite (lookup_moved lo sz s s' Hg Hm Hdir), Hf.
    now rewrite He, (load_dentry_moved lo sz s s' Hm Hdir).
  - rewrite (inode_addr_moved s s' Hg). now apply (file_in_image_kept lo sz _ _ _ (mem_of s)).
Qed.

(** the state in which the first execute calls the loader *)
Definition first_parsed (s : kst) : kst :=
  upd_pcb (fun b => set_data_arg_size 0 (set_arg_name (padded []) (set_cmd_name (padded SHELL) b)))
    (save_parent 1 (upd_sysg (set_new_pid 1) (chosen s))).

Lemma first_parsed_frame s :
  hw (first_parsed s) = hw s /\ fsg (first_parsed s) = fsg s /\
  new_pid (sysg (first_parsed s)) = 1 /\
  file_struct (pcb_of (first_parsed s)) = file_struct (pcb_of s) /\
  dentry (pcb_of (first_parsed s)) = dentry (pcb_of s) /\
  cmd_name (pcb_of (first_parsed s)) = padded SHELL /\
  arg_name (pcb_of (first_parsed s)) = padded [] /\
  tasks (sysg (first_parsed s)) = aset (tasks (sysg s)) 1 1.
Proof. destruct s as [h g [b ? ? ? ? ? ? ?] t c sv]. destruct b. split_and!; reflexivity. Qed.

Lemma shell_string m : string_at m (Obj SHELL) SHELL.
Proof.
  split_and!; [|reflexivity|].
  - intros j Hj. change (Z.of_nat (length SHELL)) with 5 in Hj.
    assert (j = 0 \/ j = 1 \/ j = 2 \/ j = 3 \/ j = 4) as [-> | [-> | [-> | [-> | ->] ] ] ] by lia; reflexivity.
  - change SHELL with [115; 104; 101; 108; 108]. repeat (constructor; [lia|]). constructor.
Qed.

(** no process is current, no program was counted: slot 1, whatever is free *)
Lemma execute_first_form s :
  pc (fsg s) = 0 -> r_cr3 (cpu s) = proc_pd 0 ->
  execute (Obj SHELL) s =
    '(eip, s') ← loader (Obj (padded SHELL)) (first_parsed s);
    if u32 eip =? u32 (-1) then Some (Returns (-1) s')
    else Some (start_process 1 (u32 eip) s').
Proof.
  intros Hpc Hcr. unfold execute. change (is_null (Obj SHELL)) with false. cbv iota zeta.
  fold (chosen s). unfold choose_pid.
  change (pc (fsg (chosen s))) with (pc (fsg s)). rewrite Hpc. change (0 =? 0) with true. cbv iota.
  change (new_pid (sysg (upd_sysg (set_new_pid 1) (chosen s)))) with 1.
  change (1 =? MAX_TASKS) with false. cbv iota.
  change (r_cr3 (cpu (upd_sysg (set_new_pid MAX_TASKS) (upd_pcb (set_cr3 (r_cr3 (cpu s))) s)))) with (r_cr3 (cpu s)).
  rewrite Hcr, find_pid_proc_pd by lia. change (0 =? 0) with true. cbv iota. change (0 + 1) with 1.
  rewrite (parse_cmd_spec _ (Obj SHELL) SHELL), bind_some;
    [|apply shell_string | apply Nat.ltb_lt; reflexivity | vm_compute; discriminate
     | apply Nat.leb_le; reflexivity | apply Nat.leb_le; reflexivity].
  change (word (command_text SHELL)) with SHELL.
  change (nonspaces (after_word (command_text SHELL))) with ([] : list Z).
  change (Z.of_nat (length ([] : list Z))) with 0. fold (first_parsed s).
  destruct (first_parsed_frame s) as (_ & _ & _ & _ & _ & -> & _). reflexivity.
Qed.
Lemma init_files_hw s : hw (init_files s) = hw s.
Proof. destruct s as [h g [b ? ? ? ? ? ? ?] t c sv]. reflexivity. Qed.

Lemma start_process_hw parent entry s :
  1 <= new_pid (sysg s) <= 6 -> hw (state_of (start_process parent entry s)) = sti (hw s).
Proof.
  intros Hq. unfold start_process.
  set (s0 := upd_trm _ s). assert (hw (init_files s0) = hw s) as E by (etrans; [apply init_files_hw | reflexivity]).
  assert (new_pid (sysg (init_files s0)) = new_pid (sysg s)) as En
    by (destruct (init_files_same s0) as [_ -> _ _ _ _]; reflexivity).
  clearbody s0. revert E En. generalize (init_files s0). intros s1 E En.
  change (new_pid (sysg (fill_pcb parent s1))) with (new_pid (sysg s1)). rewrite En.
  unfold task_directory.
  assert (new_pid (sysg s) = 1 \/ new_pid (sysg s) = 2 \/ new_pid (sysg s) = 3 \/ new_pid (sysg s) = 4 \/
    new_pid (sysg s) = 5 \/ new_pid (sysg s) = 6) as Hc by lia.
  destruct Hc as [-> | [-> | [-> | [-> | [-> | ->] ] ] ] ]; rewrite <- E; destruct s1; reflexivity.
Qed.

(** the whole of the first execute, for a shell of at most two blocks *)
Lemma execute_first s i lo sz :
  let inode := rd32 (mem_of s) (entry_addr s i + 36) in
  let entry := u32 (le32 (file_content s inode) 24) in
  pc (fsg s) = 0 -> r_cr3 (cpu s) = proc_pd 0 -> pcb_wf (pcb_of s) ->
  executable s (Obj (padded SHELL)) i lo sz -> image_mapped (mem_of s) 1 -> entry <> 4294967295 ->
  exists s', execute (Obj SHELL) s = Some (EntersUser entry (MB_132 - START) s') /\
    rdn (mem_of s') (image_base 1) (Z.to_nat (file_size s inode)) = file_content s inode /\
    started s 1 1 [] s' /\ hw s' = sti (set_mm (mem_of s') (hw s)) /\
    forall a, 0 <= a < NEW_LOAD \/ NEW_LOAD + 8192 <= a < image_base 1 ->
      rd (mem_of s') a = rd (mem_of s) a.
Proof.
  intros inode entry Hpc Hcr Hwf Hex Hmap Hent.
  destruct (first_parsed_frame s) as (Fh & Fg & Fn & Ff & Fd & Fc & Fa & Ft).
  assert (mem_of (first_parsed s) = mem_of s) as Fm by (unfold mem_of; now rewrite Fh).
  rewrite execute_first_form by done.
  destruct (loader_loads (first_parsed s) (Obj (padded SHELL)) i lo sz) as
    (s6 & E & Hc & Hcr6 & Hpcb & Hfr).
  { now apply (executable_ext s). }
  { rewrite Fn. lia. }
  { now rewrite Fm, Fn. }
  assert ((forall j, file_content (first_parsed s) j = file_content s j) /\
    (forall j, file_size (first_parsed s) j = file_size s j) /\
    (forall j, entry_addr (first_parsed s) j = entry_addr s j)) as (Gc & Gs & Ge).
  { unfold file_content, file_size, entry_addr, inode_addr. now rewrite Fm, Fg. }
  rewrite Fm, Ge, Gc in E. rewrite Fm, Ge, Gs, Gc, Fn in Hc. rewrite Fm, Ge, Gs in Hpcb. rewrite Fn in Hcr6, Hfr.
  rewrite E, bind_some. cbv beta iota. rewrite u32_s32. fold inode in Hc, Hpcb |- *. fold entry.
  change (u32 (-1)) with 4294967295. destruct (Z.eqb_spec entry 4294967295) as [|_]; [done|].
  apply loader_effect in E as (L1 & L2 & _); [|rewrite Fn; lia]. rewrite Ft in L1. rewrite Fn in L2.
  destruct (start_process_started s s6 1 1 entry []) as (s' & E' & Hm & Hst); try done.
  - rewrite Hpcb, arg_name_pcb_file. exact Fa.
  - rewrite Hpcb. apply pcb_wf_pcb_file. destruct Hwf as (W1 & W2 & _). split; [now rewrite Ff|].
    split; [now rewrite Fd|]. rewrite Fc, Fa. now split.
  - pose proof (start_process_hw 1 entry s6) as Hh. rewrite E' in Hh. cbn [state_of] in Hh.
    destruct Hfr as [Hh6 Hmf]. rewrite Hh6, <- Hm, Fh in Hh.
    exists s'. rewrite E'. split; [reflexivity|]. rewrite Hm. split; [exact Hc|]. split; [exact Hst|].
    split; [rewrite <- Hm; apply Hh; rewrite L2; lia|]. intros a Ha. rewrite <- Fm. now apply Hmf.
Qed.
End First.

(** ** From power-up to the shell *)

Section Startup.
Context `{Platform}.
Variable sym : symbols.

Lemma print_both s :
  screen_ready s ->
  exists s', print (chars "Both bits 4 and 5 are set." ++ [10]) [] s = Some s' /\ after_print 1 s s'.
Proof. intros Hs. print_numbers. Qed.
(** the texts of entry's two messages, and what printing them does *)
Definition magic_message (v : Z) : list Z := chars "Invalid magic number: 0x" ++ hex8_text v ++ [10].
Definition both_message : list Z := chars "Both bits 4 and 5 are set." ++ [10].

Lemma print_renders fmt args t s :
  render (length fmt) fmt args = Some t -> print fmt args s = Some (upd_hw (put_chars t) s).
Proof. intros Hr. unfold print, printf. now rewrite (printf_loop_renders _ _ _ _ _ Hr). Qed.

Lemma print_magic v s :
  print (chars "Invalid magic number: 0x%#x" ++ [10]) [v] s = Some (upd_hw (put_chars (magic_message v)) s).
Proof. now apply print_renders. Qed.
Lemma print_both_text s :
  print (chars "Both bits 4 and 5 are set." ++ [10]) [] s = Some (upd_hw (put_chars both_message) s).
Proof. now apply print_renders. Qed.

Lemma init_fs_moved s s' lo sz :
  fsg s' = fsg s -> same_image lo sz (mem_of s) (mem_of s') -> BOOT_BLOCK_PTR (fsg s) = lo -> 64 <= sz ->
  fsg (init_fs s') = fsg (init_fs s).
Proof.
  intros Hg Hm Hb Hs. unfold init_fs. cbv zeta. cbn [fsg upd_fsg set_fsg]. rewrite Hg, Hb.
  pose proof (same_image_rd32 lo sz (mem_of s) (mem_of s')) as Hr. unfold BYTES_4, BYTES_8.
  now rewrite !Hr by (done || lia).
Qed.

(** the LDT and TSS steps, and what start_devices adds to the boot state *)
Lemma start_devices_boot b :
  idt (start_devices sym b) = init_idt (handler_at sym) (idt b) /\
  ldtr (start_devices sym b) = ldtr b /\ tr (start_devices sym b) = tr b.
Proof.
  assert (forall f b, idt (upd_kern f b) = idt b /\ ldtr (upd_kern f b) = ldtr b /\ tr (upd_kern f b) = tr b)
    as U by (intros; split_and!; reflexivity).
  assert (forall b, idt (start_paging b) = idt b /\ ldtr (start_paging b) = ldtr b /\ tr (start_paging b) = tr b)
    as P by (intros b0; unfold start_paging; destruct (paging_init _ _); split_and!; reflexivity).
  assert (forall b, idt (start_idt sym b) = init_idt (handler_at sym) (idt b) /\
    ldtr (start_idt sym b) = ldtr b /\ tr (start_idt sym b) = tr b) as I
    by (intros; split_and!; reflexivity).
  unfold start_devices. cbv zeta. split_and!.
  - do 6 rewrite (proj1 (U _ _)). rewrite (proj1 (P _)), (proj1 (U _ _)), (proj1 (I _)).
    now rewrite (proj1 (U _ _)).
  - do 6 rewrite (proj1 (proj2 (U _ _))).
    rewrite (proj1 (proj2 (P _))), (proj1 (proj2 (U _ _))), (proj1 (proj2 (I _))).
    now rewrite (proj1 (proj2 (U _ _))).
  - do 6 rewrite (proj2 (proj2 (U _ _))).
    rewrite (proj2 (proj2 (P _))), (proj2 (proj2 (U _ _))), (proj2 (proj2 (I _))).
    now rewrite (proj2 (proj2 (U _ _))).
Qed.

(** flags 4 (a.out) and 5 (ELF) of the multiboot information are both set *)
Definition both_set (b : boot_st) (mbi : Z) : bool :=
  CHECK_FLAG (mb_flags (mem_of (kern b)) mbi) 4 && CHECK_FLAG (mb_flags (mem_of (kern b)) mbi) 5.

(** what the boot loader and the linker must provide for the shell to start:
    entry [i] of the last module is an executable called "shell" *)
Record bootable (b : boot_st) (mbi i sz : Z) : Prop := {
  bo_masks : master_mask (hw (kern b)) = 255 /\ slave_mask (hw (kern b)) = 255;
  bo_idt : length (idt b) = 256%nat;
  bo_tables : tables_zero (mem_of (kern b));
  bo_pcb : pcb_wf (pcb_of (kern b));
  bo_screen : screen_ready (kern b);
  bo_info : boot_info (mem_of (kern b)) mbi;
  bo_excl : both_set b mbi = false;
  bo_entry : 0 <= i < 62;
  bo_size : 64 <= sz
}.

(** the start of the last module, the file system there, its shell *)
Definition boot_image (b : boot_st) (mbi : Z) : Z :=
  mod_start (mem_of (kern b)) (mod_at mbi (kern b) (mods_count (mem_of (kern b)) mbi - 1)).
Definition boot_fs (b : boot_st) (mbi : Z) : kst :=
  init_fs (upd_fsg (set_BOOT_BLOCK_PTR (boot_image b mbi)) (kern b)).
Definition shell_inode (b : boot_st) (mbi i : Z) : Z :=
  rd32 (mem_of (kern b)) (entry_addr (boot_fs b mbi) i + 36).
Definition shell_file (b : boot_st) (mbi i : Z) : list Z :=
  file_content (boot_fs b mbi) (shell_inode b mbi i).

(** the image: the directory is in it, and it is off the screen and the page arrays *)
Record shell_image (b : boot_st) (mbi i sz : Z) : Prop := {
  si_exec : executable (boot_fs b mbi) (Obj (padded SHELL)) i (boot_image b mbi) sz;
  si_dir : boot_image b mbi <= dentry_begin (filesystem (fsg (boot_fs b mbi))) /\
    dentry_begin (filesystem (fsg (boot_fs b mbi))) + 4032 <= boot_image b mbi + sz;
  si_video : apart (boot_image b mbi) sz VIDEO VIDEO_SPAN;
  si_tables : apart (boot_image b mbi) sz pd_base 65536;
  si_entry : u32 (le32 (shell_file b mbi i) 24) <> 4294967295
}.

(** the machine when the shell's first instruction runs *)
Record shell_up (b : boot_st) (content : list Z) (b' : boot_st) : Prop := {
  su_image : rdn (mem_of (kern b')) (image_base 1) (length content) = content;
  su_process : started (kern b) 1 1 [] (kern b');
  su_space : forall va, 0 <= va < 4294967296 ->
    translate (mem_of (kern b')) (r_cr3 (cpu (kern b'))) va = process_map 1 va;
  su_vectors : forall v, 0 <= v < 256 ->
    gate_is (handler_at sym) (aget (idt b') v) (vector_handler v) (vector_kind v) (vector_dpl v);
  su_lines : forall j, 0 <= j < 16 ->
    masked (hw (kern b')) j = negb (j =? 1) && negb (j =? 2) && negb (j =? 8);
  su_synced : synced (hw (kern b'));
  su_if : if_flag (hw (kern b')) = true;
  su_screen : forall a, 0 <= a < 4000 -> rd (mem_of (kern b')) (VIDEO + a) = blank_cells a;
  su_cursor : screen_x (hw (kern b')) = 0 /\ screen_y (hw (kern b')) = 0;
  su_segments : ldtr b' = KERNEL_LDT /\ tr b' = KERNEL_TSS
}.

(** the state in which entry calls start_devices *)
Definition segmented (s : kst) (b : boot_st) : boot_st := set_tss sym (set_ldt sym (set_kern s b)).

(** entry up to there *)
Lemma entry_announces mbi b :
  screen_ready (kern b) -> boot_info (mem_of (kern b)) mbi ->
  exists s, announced (kern b) s /\ BOOT_BLOCK_PTR (fsg s) = boot_image b mbi /\
    if both_set b mbi then
      announce_modules mbi (upd_hw clear (kern b)) = Some s /\
      entry sym MULTIBOOT_BOOTLOADER_MAGIC mbi b =
        Some (BootHalts (set_kern (upd_hw (put_chars both_message) s) b))
    else entry sym MULTIBOOT_BOOTLOADER_MAGIC mbi b =
      o ← execute (Obj SHELL) (kern (start_devices sym (segmented s b)));
      Some (match o with
            | Returns _ s' => BootSpins (set_kern s' (start_devices sym (segmented s b)))
            | EntersUser eip esp s' => BootRuns eip esp (set_kern s' (start_devices sym (segmented s b)))
            | ResumesParent _ s' => BootSpins (set_kern s' (start_devices sym (segmented s b)))
            end).
Proof.
  intros Hs Hbi. set (k := upd_hw clear (kern b)).
  assert (announced (kern b) k) as A0 by (apply announced_hw, clear_frame).
  assert (screen_ready k) as S0 by (apply clear_rows; exact Hs).
  assert (boot_info (mem_of k) mbi) as B0 by (apply (boot_info_frame (hw (kern b))); [apply clear_frame | exact Hbi]).
  destruct (announce_modules_prints mbi k B0 S0) as (s1 & E1 & A1 & S1 & P1).
  assert (BOOT_BLOCK_PTR (fsg s1) = boot_image b mbi) as Hptr.
  { rewrite P1. unfold boot_image, mod_at.
    assert (forall a, clear_of_video a 4 -> rd32 (mem_of k) a = rd32 (mem_of (kern b)) a) as Hr
      by (intros; now apply announced_rd32).
    assert (forall j, 0 <= j <= 48 -> rd32 (mem_of k) (mbi + j) = rd32 (mem_of (kern b)) (mbi + j)) as Hf.
    { intros j Hj. apply Hr. eapply clear_of_video_sub; [exact (bi_video _ _ Hbi) | lia | lia]. }
    unfold mods_addr, mods_count, mod_start. rewrite !Hf by lia. apply Hr.
    pose proof (bi_mods_count _ _ Hbi) as Hc. unfold mods_count in Hc.
    eapply clear_of_video_sub; [exact (bi_mods _ _ Hbi) | |]; unfold mods_addr, mods_count; lia. }
  assert (announced (kern b) s1) as A01 by (etrans; [exact A0 | exact A1]).
  unfold entry. cbv zeta. rewrite kern_upd. fold k.
  change (negb (u32 MULTIBOOT_BOOTLOADER_MAGIC =? MULTIBOOT_BOOTLOADER_MAGIC)) with false. cbv iota.
  rewrite E1, bind_some, (mbi_flags mbi (kern b) Hbi s1 A01). fold (both_set b mbi).
  destruct (both_set b mbi).
  - exists s1. split; [exact A01|]. split; [exact Hptr|]. split; [reflexivity|].
    rewrite print_both_text, bind_some. now rewrite set_kern_upd.
  - destruct (announce_maps_prints mbi k B0 s1 A1 S1) as (s2 & E2 & A2 & S2 & F2).
    exists s2. split; [etrans; [exact A0 | exact A2]|]. split; [now rewrite F2|].
    rewrite E2, bind_some. rewrite set_kern_upd. fold (segmented s2 b). reflexivity.
Qed.

(** C38: [entry] gives up before it touches any device (on a screen whose
    cursor is at most three rows too low).  With another magic number it clears
    the screen and prints "Invalid magic number: " with the number in
    hexadecimal, and returns to boot.S; nothing else has changed.  With
    multiboot flags 4 and 5 both set (and at least one module, off the screen)
    it announces the modules, leaves [BOOT_BLOCK_PTR] at the start of the last
    one, prints "Both bits 4 and 5 are set." behind that and returns; nothing
    but the screen, the cursor and that pointer has changed.  *)
Theorem entry_rejects_bad_boot magic mbi b :
  screen_ready (kern b) ->
  (u32 magic <> MULTIBOOT_BOOTLOADER_MAGIC ->
     entry sym magic mbi b = Some (BootHalts (set_kern
       (upd_hw (fun h => put_chars (magic_message magic) (clear h)) (kern b)) b))) /\
  (boot_info (mem_of (kern b)) mbi -> both_set b mbi = true ->
     exists s, announce_modules mbi (upd_hw clear (kern b)) = Some s /\
       BOOT_BLOCK_PTR (fsg s) = boot_image b mbi /\
       entry sym MULTIBOOT_BOOTLOADER_MAGIC mbi b =
         Some (BootHalts (set_kern (upd_hw (put_chars both_message) s) b)) /\
       announced (kern b) (upd_hw (put_chars both_message) s)).
Proof.
  intros Hs. split.
  - intros Hm. unfold entry. cbv zeta. rewrite kern_upd.
    destruct (Z.eqb_spec (u32 magic) MULTIBOOT_BOOTLOADER_MAGIC); [contradiction|].
    cbn [negb]. rewrite print_magic, bind_some, set_kern_upd. reflexivity.
  - intros Hbi Hboth. destruct (entry_announces mbi b Hs Hbi) as (s & A & P & E). rewrite Hboth in E.
    destruct E as [Ea E]. exists s. split; [exact Ea|]. split; [exact P|]. split; [exact E|].
    destruct (announce_modules_prints mbi (upd_hw clear (kern b))) as (s1 & E1 & _ & S1 & _).
    { apply (boot_info_frame (hw (kern b))); [apply clear_frame | exact Hbi]. }
    { apply clear_rows; exact Hs. }
    rewrite Ea in E1. injection E1 as <-. destruct (print_both s S1) as (s2 & E2 & A2 & _).
    rewrite print_both_text in E2. injection E2 as <-. etrans; [exact A | exact A2].
Qed.

Lemma kern_segmented s b :
  hw (kern (segmented s b)) = hw s /\ fsg (kern (segmented s b)) = fsg s /\
  sysg (kern (segmented s b)) = sysg s /\ ctrl (segmented s b) = ctrl b /\
  idt (segmented s b) = idt b /\ ldtr (segmented s b) = KERNEL_LDT /\ tr (segmented s b) = KERNEL_TSS.
Proof. split_and!; reflexivity. Qed.

(** memory when the first program is executed *)
Record boot_memory (k k' : kst) : Prop := {
  bm_kept : forall a, 0 <= a < 4294967296 -> VIDEO_SPAN <= off VIDEO a -> 65536 <= off pd_base a ->
    rd (mem_of k') a = rd (mem_of k) a;
  bm_blank : forall i, 0 <= i < 4000 -> rd (mem_of k') (VIDEO + i) = blank_cells i;
  bm_tables : tables_built (mem_of k');
  bm_images : forall p, 1 <= p <= 6 -> image_mapped (mem_of k') p
}.

Lemma devices_memory k s k' r :
  announced k s -> tables_zero (mem_of k) -> devices_up (fst (paging_init (mem_of s) r)) s k' ->
  boot_memory k k'.
Proof.
  intros Ha Hz [_ _ _ _ Hb Hm _ _ _ _ _]. pose proof pd_base_range as Hpd.
  assert (forall a, VIDEO_SPAN <= off VIDEO a -> rd (mem_of s) a = rd (mem_of k) a) as Hs
    by exact (cf_mem _ _ (an_console _ _ Ha)).
  assert (tables_zero (mem_of s)) as Hz'.
  { intros j Hj. rewrite Hs; [now apply Hz|]. unfold VIDEO_SPAN, VIDEO. zlia. }
  assert (forall a, pd_base <= a < pd_base + 65536 ->
    rd (mem_of k') a = rd (fst (paging_init (mem_of s) r)) a) as Hpt.
  { intros a Hpa. apply Hm. unfold VIDEO. zlia. }
  split.
  - intros a Hra Hv Hp. rewrite Hm by (unfold VIDEO_SPAN in Hv; lia).
    rewrite paging_init_frame by done. now apply Hs.
  - exact Hb.
  - apply (tables_built_kept _ _ Hpt). now apply paging_init_built.
  - intros p Hp. apply (image_mapped_kept _ _ p Hp Hpt). now apply paging_init_image_mapped.
Qed.

(** the file system and the shell are found in that memory *)
Lemma boot_fs_found b mbi i sz s k' :
  bootable b mbi i sz -> shell_image b mbi i sz -> announced (kern b) s ->
  BOOT_BLOCK_PTR (fsg s) = boot_image b mbi -> boot_memory (kern b) k' ->
  (exists m', fsg k' = fsg (init_fs (upd_mem (fun _ => m') s)) /\
     (forall a, boot_image b mbi <= a < boot_image b mbi + sz -> rd m' a = rd (mem_of (kern b)) a)) ->
  executable k' (Obj (padded SHELL)) i (boot_image b mbi) sz /\
  rd32 (mem_of k') (entry_addr k' i + 36) = shell_inode b mbi i /\
  file_size k' (shell_inode b mbi i) = file_size (boot_fs b mbi) (shell_inode b mbi i) /\
  file_content k' (shell_inode b mbi i) = shell_file b mbi i.
Proof.
  intros [_ _ _ _ _ _ _ Hi Hsz] [Hex Hdir Hv Ht _] Ha Hb [Hk _ _ _] (m' & Hg & Hm').
  pose proof (ex_image _ _ _ _ _ Hex) as Hreg. unfold region in Hreg. pose proof pd_base_range as Hpd.
  assert (fsg k' = fsg (boot_fs b mbi)) as Hfs.
  { rewrite Hg. unfold boot_fs.
    apply (init_fs_moved (upd_fsg (set_BOOT_BLOCK_PTR (boot_image b mbi)) (kern b)) _ (boot_image b mbi) sz).
    - change (fsg (upd_mem (fun _ => m') s)) with (fsg s). rewrite (an_fsg _ _ Ha), Hb. reflexivity.
    - intros a Hra. rewrite mem_of_upd_mem. now apply Hm'.
    - reflexivity.
    - exact Hsz. }
  assert (same_image (boot_image b mbi) sz (mem_of (boot_fs b mbi)) (mem_of k')) as Hsame.
  { intros a Hra. change (mem_of (boot_fs b mbi)) with (mem_of (kern b)).
    unfold apart, VIDEO, VIDEO_SPAN in *. apply Hk; unfold VIDEO; zlia. }
  exact (executable_moved (boot_fs b mbi) k' (padded SHELL) i _ sz Hfs Hsame Hi Hdir Hex).
Qed.
(** C1: From power-up to the first program: with all interrupt lines masked, a
    boot loader that passed the multiboot magic and at least one module, and a
    file system in the last module with an executable "shell" of fewer than
    8192 bytes, [entry] ends in user mode at the entry point the shell's file
    names.  By then the whole file is in the image of process 1, which runs
    with its own address space, kernel stack, stdin and stdout and no argument;
    every vector of the IDT leads to the handler that init_idt means for it
    (for vectors 15 to 18 that of the next exception); exactly the keyboard,
    cascade and RTC lines are unmasked, in the PICs as in the kernel's copies;
    interrupts are on and the screen is blank with the cursor at its origin. *)
Theorem boot_starts_shell b mbi i sz :
  bootable b mbi i sz -> shell_image b mbi i sz ->
  exists b', entry sym MULTIBOOT_BOOTLOADER_MAGIC mbi b =
      Some (BootRuns (u32 (le32 (shell_file b mbi i) 24)) (MB_132 - START) b') /\
    shell_up b (shell_file b mbi i) b'.
Proof.
  intros Hbo Hsh. pose proof Hbo as [[Hmm Hms] Hidt Hz Hwf Hscr Hbi Hex0 Hi Hsz].
  destruct (entry_announces mbi b Hscr Hbi) as (s & Ha & Hb & Hent). rewrite Hex0 in Hent. rewrite Hent. clear Hent Hex0.
  destruct (kern_segmented s b) as (Gh & Gg & Gs & Gc & Gi & Gl & Gt).
  pose proof (an_console _ _ Ha) as [(_ & Cm & Cs & _) _].
  pose proof (start_devices_up sym (segmented s b)) as Hup. unfold mem_of in Hup. rewrite Gh, Gc in Hup.
  rewrite Cm, Cs in Hup. specialize (Hup Hmm Hms). apply (devices_up_ext _ _ s) in Hup; [|done..].
  destruct (start_devices_boot (segmented s b)) as (Bi & Bl & Bt). rewrite Gi in Bi. rewrite Gl in Bl. rewrite Gt in Bt.
  revert Hup Bi Bl Bt. generalize (start_devices sym (segmented s b)). intros b1 Hup Bi Bl Bt.
  change (mm (hw s)) with (mem_of s) in Hup. clear Gh Gg Gs Gc Gi Gl Gt.
  pose proof (devices_memory _ _ _ _ Ha Hz Hup) as Hmem.
  destruct Hup as [U1 U2 U3 U4 U5 U6 U7 U8 U9 U10 U11].
  destruct (boot_fs_found b mbi i sz s (kern b1) Hbo Hsh Ha Hb Hmem) as (Hex & Hin & Hsize & Hfile).
  { eexists. split; [exact U11|]. intros a Hra. destruct Hsh as [Hex _ Hv Ht _].
    pose proof (ex_image _ _ _ _ _ Hex) as Hreg. pose proof pd_base_range as Hpd.
    unfold apart, region, VIDEO, VIDEO_SPAN in *. rewrite paging_init_frame by zlia.
    apply (cf_mem _ _ (an_console _ _ Ha)). unfold VIDEO, VIDEO_SPAN. zlia. }
  destruct (execute_first (kern b1) i (boot_image b mbi) sz) as (s' & E & Hc & Hst & Hh & Hkept).
  { exact U10. }
  { exact U7. }
  { unfold pcb_of. rewrite U8, (an_sysg _ _ Ha). exact Hwf. }
  { exact Hex. }
  { apply (bm_images _ _ Hmem). lia. }
  { rewrite Hin, Hfile. exact (si_entry _ _ _ _ Hsh). }
  rewrite Hin, Hfile in E. rewrite Hin, Hsize, Hfile in Hc. rewrite E, bind_some.
  exists (set_kern s' b1). split; [reflexivity|].
  assert (r_cr3 (cpu s') = proc_pd 1) as Hcr by exact (st_cr3 _ _ _ _ _ Hst).
  split.
  - cbn [kern set_kern].
    replace (length (shell_file b mbi i)) with
      (Z.to_nat (file_size (boot_fs b mbi) (shell_inode b mbi i))); [exact Hc|].
    unfold shell_file, file_content. rewrite length_map, length_zrange. lia.
  - cbn [kern set_kern]. destruct Hst as [T1 T2 T3 T4 T5 T6]. split; try assumption.
    rewrite T3, U8. now rewrite (an_sysg _ _ Ha).
  - intros va Hva. cbn [kern set_kern]. rewrite Hcr. apply translate_built; [|lia | exact Hva].
    apply (tables_built_kept (mem_of (kern b1))); [|exact (bm_tables _ _ Hmem)].
    intros a Hra. apply Hkept. pose proof pd_base_range as Hpd.
    pose proof (ex_tables _ _ _ _ _ Hex) as Ht. unfold apart, NEW_LOAD, image_base, MB4 in *. lia.
  - intros v Hv. cbn [idt set_kern]. rewrite Bi.
    destruct (init_idt_denotes (handler_at sym) (idt b) Hidt) as [_ Hw].
    apply Hw; [exact Hv | now apply init_view_spec].
  - intros j Hj. cbn [kern set_kern]. rewrite Hh, masked_sti, masked_set_mm. now apply U1.
  - cbn [kern set_kern]. rewrite Hh. apply synced_if, synced_mm. exact U2.
  - cbn [kern set_kern]. now rewrite Hh.
  - intros a Hra. cbn [kern set_kern]. rewrite Hkept; [now apply U5|]. unfold VIDEO, NEW_LOAD. lia.
  - cbn [kern set_kern]. rewrite Hh. cbn [sti set_if_flag set_mm screen_x screen_y]. exact U4.
  - cbn [ldtr tr set_kern]. now split.
Qed.
End Startup.

(** ** A bootable machine *)

#[local] Existing Instance demo_platform.

(** the directory of [demo_exec_image] with its executable renamed "shell",
    the multiboot structures at 64 KiB naming it as the only module *)
Definition demo_boot_image : mem :=
  let w32 a v m := wr32 m (65536 + a) v in
  (w32 0 8 ∘ w32 20 1 ∘ w32 24 65600 ∘ w32 64 demo_boot ∘ w32 68 (demo_boot + 65536))
    (wrl demo_exec_image (demo_boot + 192) SHELL).

Definition demo_symbols : symbols := Symbols demo_addr 4263936 4264960.

Definition demo_boot_st : boot_st :=
  BootSt (boot_kst demo_boot_image) (CRegs 17 0 0) zero_idt (Seg.SegDesc 0 0 0 0 0 0 0 0 0 0 0 0 0)
    (Seg.SegDesc 0 0 0 0 0 0 0 0 0 0 0 0 0) 0 0 0.

(** nothing was stored from the page arrays on *)
Lemma demo_tables_zero : tables_zero (mem_of (kern demo_boot_st)).
Proof.
  assert (map_Forall (fun a _ => a < 4259840) demo_boot_image) as Ha.
  { apply (bool_decide_eq_true_1 _). vm_compute. reflexivity. }
  intros k Hk. change (mem_of (kern demo_boot_st)) with demo_boot_image. change pd_base with 4259840.
  change (u8 (default 0 (demo_boot_image !! u32 (4259840 + k))) = 0).
  destruct (demo_boot_image !! u32 (4259840 + k)) as [v|] eqn:E; [|reflexivity].
  specialize (Ha _ _ E). cbn beta in Ha. rewrite u32_small in Ha by lia. lia.
Qed.

Lemma demo_clear_of_video a n : 0 <= a -> a + n <= 700000 -> clear_of_video a n.
Proof. intros Ha Hn k Hk. unfold VIDEO_SPAN, VIDEO. zlia. Qed.

Lemma demo_bootable : bootable demo_boot_st 65536 2 65536.
Proof.
  split.
  - split; reflexivity.
  - reflexivity.
  - exact demo_tables_zero.
  - split_and!; reflexivity.
  - unfold screen_ready. change (rows_ok 3 (hw (boot_kst demo_boot_image))). unfold rows_ok, NUM_COLS, NUM_ROWS. cbn. lia.
  - split.
    + apply demo_clear_of_video; lia.
    + intros Hc. vm_compute in Hc. discriminate.
    + vm_compute. reflexivity.
    + vm_compute. discriminate.
    + apply demo_clear_of_video; vm_compute; discriminate.
    + intros Hc. vm_compute in Hc. discriminate.
  - vm_compute. reflexivity.
  - lia.
  - lia.
Qed.

Lemma demo_shell_image : shell_image demo_boot_st 65536 2 65536.
Proof.
  assert (boot_image demo_boot_st 65536 = demo_boot) as Hb by (vm_compute; reflexivity).
  split; rewrite ?Hb.
  - split.
    + intros d. destruct d. vm_compute. reflexivity.
    + vm_compute. split; [discriminate | reflexivity].
    + vm_compute. split; [discriminate | reflexivity].
    + unfold region, demo_boot. lia.
    + left. vm_compute. discriminate.
    + cbv zeta. split.
      * vm_compute. split; discriminate.
      * vm_compute. split; discriminate.
      * intros j Hj1 Hj2.
        assert (file_size (boot_fs demo_boot_st 65536) (rd32 (mem_of (boot_fs demo_boot_st 65536))
          (entry_addr (boot_fs demo_boot_st 65536) 2 + 36)) = 64) as Hs by (vm_compute; reflexivity).
        rewrite Hs in Hj2. replace j with 0 by lia. vm_compute. intuition discriminate.
    + vm_compute. reflexivity.
    + reflexivity.
    + left. vm_compute. discriminate.
  - vm_compute. split; discriminate.
  - right. vm_compute. discriminate.
  - left. vm_compute. discriminate.
  - vm_compute. discriminate.
Qed.

Lemma boot_starts_shell_witness :
  exists b', entry demo_symbols MULTIBOOT_BOOTLOADER_MAGIC 65536 demo_boot_st =
      Some (BootRuns PROGRAM_IMG (MB_132 - START) b') /\
    shell_up demo_symbols demo_boot_st (shell_file demo_boot_st 65536 2) b'.
Proof.
  destruct (boot_starts_shell demo_symbols demo_boot_st 65536 2 65536 demo_bootable demo_shell_image)
    as (b' & E & Hup).
  replace (u32 (le32 (shell_file demo_boot_st 65536 2) 24)) with PROGRAM_IMG in E by (vm_compute; reflexivity).
  exists b'. split; [exact E | exact Hup].
Defined.

(** the same machine with multiboot flags 4 and 5 *)
Definition demo_bad_flags : boot_st :=
  upd_kern (upd_mem (fun m => wr32 m 65536 56)) demo_boot_st.

Lemma demo_bad_info : boot_info (mem_of (kern demo_bad_flags)) 65536.
Proof.
  split.
  - apply demo_clear_of_video; lia.
  - intros Hc. vm_compute in Hc. discriminate.
  - vm_compute. reflexivity.
  - vm_compute. discriminate.
  - apply demo_clear_of_video; vm_compute; discriminate.
  - intros Hc. vm_compute in Hc. discriminate.
Qed.

Lemma entry_rejects_bad_boot_witness :
  entry demo_symbols 0 65536 demo_boot_st = Some (BootHalts (set_kern
    (upd_hw (fun h => put_chars (magic_message 0) (clear h)) (kern demo_boot_st)) demo_boot_st)) /\
  exists s, entry demo_symbols MULTIBOOT_BOOTLOADER_MAGIC 65536 demo_bad_flags =
    Some (BootHalts (set_kern (upd_hw (put_chars both_message) s) demo_bad_flags)).
Proof.
  split.
  - apply (entry_rejects_bad_boot demo_symbols 0 65536 demo_boot_st (bo_screen _ _ _ _ demo_bootable)).
    vm_compute. discriminate.
  - destruct (entry_rejects_bad_boot demo_symbols 0 65536 demo_bad_flags (bo_screen _ _ _ _ demo_bootable))
      as [_ Hb]. destruct (Hb demo_bad_info) as (s & _ & _ & E & _); [vm_compute; reflexivity|].
    exists s. exact E.
Defined.
