(* ===== verification/Dispatch.v ===== *)
(** * The system call gate (syscall_table.S)

    [syscall_handler] checks the number in [%eax] and jumps through the table;
    each entry pushes [%ebx], [%ecx] and [%edx] as the C function's arguments.
    A register holds a number or, for the one kind of pointer the model does
    not put in memory, a string literal of the calling program. *)

From Stdlib Require Import ZArith Lia.
From stdpp Require Import base list gmap.
From S2P Require Import Prelude Memory CMem CStr Machine Console Pic Rtc Paging KState Filesystem TermIO Syscalls Process.
Open Scope Z_scope.

(** [Addr v]: the 32-bit value [v]; [Obj bs]: the address of a literal *)
Abbreviation reg := cptr.

Definition SYS_HALT : Z := 1.
Definition SYS_EXECUTE : Z := 2.
Definition SYS_READ : Z := 3.
Definition SYS_WRITE : Z := 4.
Definition SYS_OPEN : Z := 5.
Definition SYS_CLOSE : Z := 6.
Definition SYS_GETARGS : Z := 7.
Definition SYS_VIDMAP : Z := 8.
Definition SYS_SET_HANDLER : Z := 9.
Definition SYS_SIGRETURN : Z := 10.

(** an argument the C function declares as a number or stores through *)
Definition word_arg (r : reg) : option Z := match r with Addr v => Some v | Obj _ => None end.

Section Dispatch.
Context `{Platform}.
Variable w : schedule.

Definition returned (r : option (Z * kst)) : option outcome :=
  '(v, s) ← r; Some (Returns v s).

(** the entries of [system_call_table] *)
Definition sys_halt (ebx : reg) (s : kst) : option outcome :=
  status ← word_arg ebx; halt (u8 status) s.
Definition sys_execute (ebx : reg) (s : kst) : option outcome := execute ebx s.
Definition sys_read (ebx ecx edx : reg) (s : kst) : option outcome :=
  fd ← word_arg ebx; buf ← word_arg ecx; nbytes ← word_arg edx;
  returned (read w (s32 fd) buf (s32 nbytes) s).
Definition sys_write (ebx ecx edx : reg) (s : kst) : option outcome :=
  fd ← word_arg ebx; nbytes ← word_arg edx;
  returned (write (s32 fd) ecx (s32 nbytes) s).
Definition sys_open (ebx : reg) (s : kst) : option outcome := returned (open ebx s).
Definition sys_close (ebx : reg) (s : kst) : option outcome :=
  fd ← word_arg ebx; returned (close (s32 fd) s).
Definition sys_getargs (ebx ecx : reg) (s : kst) : option outcome :=
  buf ← word_arg ebx; nbytes ← word_arg ecx; returned (getargs buf (s32 nbytes) s).
Definition sys_vidmap (ebx : reg) (s : kst) : option outcome :=
  screen_start ← word_arg ebx; returned (Some (vidmap (u32 screen_start) s)).
Definition sys_set_handler (ebx ecx : reg) (s : kst) : option outcome :=
  signum ← word_arg ebx; handler ← word_arg ecx; returned (Some (set_handler (s32 signum) handler s)).
Definition sys_sigreturn (s : kst) : option outcome := returned (Some (sigreturn s)).

(** the unsigned comparisons [jbe 0] and [jae 11], then the jump table *)
Definition syscall_handler (eax : Z) (ebx ecx edx : reg) (s : kst) : option outcome :=
  let n := u32 eax in
  if (n <=? 0) || (n >=? 11) then Some (Returns (-1) s)
  else if n =? SYS_HALT then sys_halt ebx s
  else if n =? SYS_EXECUTE then sys_execute ebx s
  else if n =? SYS_READ then sys_read ebx ecx edx s
  else if n =? SYS_WRITE then sys_write ebx ecx edx s
  else if n =? SYS_OPEN then sys_open ebx s
  else if n =? SYS_CLOSE then sys_close ebx s
  else if n =? SYS_GETARGS then sys_getargs ebx ecx s
  else if n =? SYS_VIDMAP then sys_vidmap ebx s
  else if n =? SYS_SET_HANDLER then sys_set_handler ebx ecx s
  else sys_sigreturn s.
End Dispatch.

(** a number outside the table: nothing happens *)
Lemma bad_number `{Platform} w eax ebx ecx edx s :
  u32 eax = 0 \/ 11 <= u32 eax -> syscall_handler w eax ebx ecx edx s = Some (Returns (-1) s).
Proof.
  intros Hn. unfold syscall_handler.
  now destruct (Z.leb_spec (u32 eax) 0), (Z.geb_spec (u32 eax) 11); try lia.
Qed.
