(* ===== verification/Descriptors.v ===== *)
(** * What the descriptor tables keep across system calls and keystrokes

    Every process starts with descriptors 0 and 1 open on the terminal and 2 to
    7 closed.  [tables] says that of the running PCB, of every saved one and of
    the copies terminal.c makes on a switch, together with what [close] needs
    of the scan index that [open] leaves behind.  Each operation keeps it; the
    steps of the system, system calls with the interrupts that run during them
    and keystrokes between them, keep it by rule induction. *)

From Stdlib Require Import ZArith Lia String.
From stdpp Require Import base list gmap relations.
From S2P Require Import Prelude Memory CMem CStr Machine Console Pic Rtc Paging KState Filesystem TermIO Syscalls Process Terminal Boot Startup Dispatch.
Open Scope Z_scope.

(** ** The invariant *)

(** descriptor 0 or 1 of a process *)
Definition std_file (f : file_struct_t) : Prop := flags f = 1 /\ fops_ptr f = terminal_fops.

(** a descriptor from 2 on; [i] is the scan index of the last open *)
Definition other_file (i : Z) (f : file_struct_t) : Prop :=
  (flags f = 0 \/ flags f = 1 /\ 2 <= i) /\ fops_ptr f <> terminal_fops.

(** a descriptor table; the first PCB has its standard streams from execute on *)
Record fds (io : bool) (i : Z) (l : list file_struct_t) : Prop := {
  fds_len : length l = 8%nat;
  fds_std : io = true -> forall j, 0 <= j < 2 -> std_file (aget l j);
  fds_other : forall j, 2 <= j < 8 -> other_file i (aget l j)
}.

(** the terminals a shell has been started on *)
Definition has_shell (t : Z) (g : term_glob) : Prop :=
  t = 1 \/ (t = 2 /\ term2_flag g <> 0) \/ (t = 3 /\ term3_flag g <> 0).

Record tables (io : bool) (s : kst) : Prop := {
  tb_run : fds io (fd_index (sysg s)) (file_struct (pcb_of s));
  tb_saved : map_Forall (fun _ p => fds true (fd_index (sysg s)) (file_struct p)) (saved s);
  tb_away : forall t, 1 <= t <= 3 -> t <> cur_terminal (trm s) -> has_shell t (trm s) ->
    fds true (fd_index (sysg s)) (t_file_struct (terminal_at s (t - 1)));
  tb_terms : length (terminals (trm s)) = 3%nat;
  tb_index : 0 <= fd_index (sysg s) <= 8
}.

Lemma fds_weaken io i l : fds true i l -> fds io i l.
Proof. intros [L S O]. split; [exact L | intros _; now apply S | exact O]. Qed.

Lemma fds_index io i i' l : (2 <= i -> 2 <= i') -> fds io i l -> fds io i' l.
Proof.
  intros Hi [L S O]. split; [exact L | exact S |]. intros j Hj. destruct (O j Hj) as [[F | [F I]] N].
  - split; [now left | exact N].
  - split; [right; split; [exact F | now apply Hi] | exact N].
Qed.

(** storing a descriptor *)
Lemma fds_aset io i l fd v :
  0 <= fd -> fds io i l -> (fd < 2 -> std_file (aget l fd) -> std_file v) ->
  (2 <= fd -> other_file i (aget l fd) -> other_file i v) -> fds io i (aset l fd v).
Proof.
  intros Hfd [L S O] Hs Ho. split; [now rewrite length_aset | |]; intros; destruct (decide (j = fd)) as [->|Hne].
  - rewrite aget_aset_eq by lia. apply Hs; [lia | now apply S].
  - rewrite aget_aset_ne by lia. now apply S.
  - rewrite aget_aset_eq by lia. apply Ho; [lia | now apply O].
  - rewrite aget_aset_ne by lia. now apply O.
Qed.

Lemma fds_copy io i l : fds io i l -> map (aget l) (zrange 0 STRUCTS) = l.
Proof. intros [L _ _]. apply map_aget_all. now rewrite L. Qed.

(** what [tables] sees of the terminals *)
Definition term_view (g : term_glob) := (terminals g, cur_terminal g, (term2_flag g, term3_flag g)).

Lemma tables_same io s s' :
  file_struct (pcb_of s') = file_struct (pcb_of s) -> saved s' = saved s ->
  fd_index (sysg s') = fd_index (sysg s) -> term_view (trm s') = term_view (trm s) ->
  tables io s -> tables io s'.
Proof.
  unfold term_view. intros E1 E2 E3 E4 [T1 T2 T3 T4 T5].
  injection E4 as Et Ec E2f E3f. unfold terminal_at, has_shell in *.
  split; unfold terminal_at, has_shell; rewrite ?E1, ?E2, ?E3, ?Et, ?Ec, ?E2f, ?E3f; assumption.
Qed.

(** a step that touches nothing of what [tables] sees *)
Ltac same_tables H := refine (tables_same _ _ _ _ _ _ _ H); reflexivity.

Lemma tables_weaken io s : tables true s -> tables io s.
Proof. intros [T1 T2 T3 T4 T5]. split; try assumption. now apply fds_weaken. Qed.

Lemma tables_hw io f s : tables io s -> tables io (upd_hw f s).
Proof. intros Ht. same_tables Ht. Qed.
Lemma tables_set_hw io h s : tables io s -> tables io (set_hw h s).
Proof. intros Ht. same_tables Ht. Qed.
Lemma tables_mem io f s : tables io s -> tables io (upd_mem f s).
Proof. intros Ht. same_tables Ht. Qed.
Lemma tables_cpu io f s : tables io s -> tables io (upd_cpu f s).
Proof. intros Ht. same_tables Ht. Qed.
Lemma tables_fsg io f s : tables io s -> tables io (upd_fsg f s).
Proof. intros Ht. same_tables Ht. Qed.
Lemma tables_dentry io fd f s : tables io s -> tables io (upd_dentry fd f s).
Proof. intros Ht. same_tables Ht. Qed.
Lemma tables_trm io f s :
  (forall g, term_view (f g) = term_view g) -> tables io s -> tables io (upd_trm f s).
Proof.
  intros Hf Ht. apply (tables_same io s); [reflexivity.. | | exact Ht]. apply Hf.
Qed.
(** updates of the other variables of systemcalls.c *)
Lemma tables_sysg io f s :
  (forall g, file_struct (pcblock (f g)) = file_struct (pcblock g) /\ fd_index (f g) = fd_index g) ->
  tables io s -> tables io (upd_sysg f s).
Proof.
  intros Hf Ht. destruct (Hf (sysg s)) as [E1 E2].
  apply (tables_same io s); [exact E1 | reflexivity | exact E2 | reflexivity | exact Ht].
Qed.
Lemma tables_pcb io f s :
  (forall p, file_struct (f p) = file_struct p) -> tables io s -> tables io (upd_pcb f s).
Proof. intros Hf. apply tables_sysg. intros g. split; [apply Hf | reflexivity]. Qed.

Lemma tables_run io io' f s :
  tables io s -> fds io' (fd_index (sysg s)) (file_struct (f (pcb_of s))) -> tables io' (upd_pcb f s).
Proof. intros [T1 T2 T3 T4 T5] Hf. now split. Qed.

Lemma tables_file io fd f s :
  0 <= fd -> (fd < 2 -> std_file (file_at s fd) -> std_file (f (file_at s fd))) ->
  (2 <= fd -> other_file (fd_index (sysg s)) (file_at s fd) ->
    other_file (fd_index (sysg s)) (f (file_at s fd))) ->
  tables io s -> tables io (upd_file fd f s).
Proof.
  intros Hfd Hs Ho Ht. apply (tables_run io); [exact Ht|]. cbn [file_struct set_file_struct].
  apply fds_aset; [exact Hfd | exact (tb_run _ _ Ht) | exact Hs | exact Ho].
Qed.

Lemma tables_fpos io fd f s : 0 <= fd -> (forall x, flags (f x) = flags x /\ fops_ptr (f x) = fops_ptr x) ->
  tables io s -> tables io (upd_file fd f s).
Proof.
  intros Hfd Hf. destruct (Hf (file_at s fd)) as [E1 E2]. apply tables_file; [exact Hfd | |]; intros _;
    unfold std_file, other_file; now rewrite E1, E2.
Qed.
Lemma tables_flags0 io fd s : 2 <= fd -> tables io s -> tables io (upd_file fd (set_flags 0) s).
Proof.
  intros Hfd. apply tables_file; [lia | lia |]. intros _ [_ N]. split; [now left | exact N].
Qed.
Lemma tables_fops io fd ops s :
  2 <= fd -> ops <> terminal_fops -> tables io s -> tables io (upd_file fd (set_fops_ptr ops) s).
Proof. intros Hfd Hops. apply tables_file; [lia | lia |]. intros _ [F _]. now split. Qed.
Lemma tables_flags1 io fd s :
  2 <= fd -> 2 <= fd_index (sysg s) -> tables io s -> tables io (upd_file fd (set_flags 1) s).
Proof.
  intros Hfd Hi. apply tables_file; [lia | lia |]. intros _ [_ N]. split; [now right | exact N].
Qed.

Lemma tables_index io i s :
  2 <= i <= 8 -> tables io s -> tables io (upd_sysg (set_fd_index i) s).
Proof.
  intros Hi [T1 T2 T3 T4 T5].
  assert (forall b l, fds b (fd_index (sysg s)) l -> fds b i l) as Hf by (intros b l; apply fds_index; lia).
  split; [now apply Hf | | | exact T4 | cbn; lia].
  - intros k p Hp. exact (Hf _ _ (T2 k p Hp)).
  - intros t Ht Hc Hs. exact (Hf _ _ (T3 t Ht Hc Hs)).
Qed.
Lemma tables_save slot s : tables true s -> tables true (save_pcb slot s).
Proof.
  intros [T1 T2 T3 T4 T5]. split; try assumption. cbn [saved save_pcb set_saved].
  now apply map_Forall_insert_2.
Qed.

Create HintDb tables.
#[export] Hint Resolve tables_hw tables_set_hw tables_mem tables_cpu tables_fsg tables_dentry tables_save : tables.

(** ** File system calls *)

Section Calls.
Context `{Platform}.

Lemma read_data_tables io inode offset buf n s r s' :
  read_data inode offset buf n s = Some (r, s') -> tables io s -> tables io s'.
Proof.
  unfold read_data. intros Hr Ht. apply (tables_mem io (zero_buf (Z.to_nat n) 0 buf)) in Ht. revert Hr Ht.
  generalize (upd_mem (zero_buf (Z.to_nat n) 0 buf) s). intros z Hr Hz.
  destruct (offset >=? _); [injection Hr as <- <-; exact Hz|].
  destruct (inode >=? _); [injection Hr as <- <-; exact Hz|].
  apply bind_Some in Hr as (m' & _ & Hr). destruct (in_range _ 8) eqn:E; [|discriminate].
  injection Hr as <- <-. apply andb_true_iff in E as [E%Z.leb_le _]. apply tables_fpos; [exact E | done |]. now apply tables_mem.
Qed.

Lemma filesystem_open_tables io fname s r s' :
  filesystem_open fname s = Some (r, s') -> tables io s -> tables io s'.
Proof.
  unfold filesystem_open. intros Ho Ht. destruct (negb _); [|injection Ho as <- <-; exact Ht].
  destruct (in_range (fd_val (fsg s)) 8); [|discriminate].
  destruct (read_dentry_by_name fname (dentry_at s (fd_val (fsg s))) s) as [r0 d].
  injection Ho as <- <-. now apply tables_dentry.
Qed.

Lemma filesystem_open_index fname s r s' :
  filesystem_open fname s = Some (r, s') -> fd_index (sysg s') = fd_index (sysg s).
Proof.
  unfold filesystem_open. destruct (negb _); [|now intros [= <- <-]].
  destruct (in_range _ 8); [|discriminate].
  destruct (read_dentry_by_name fname (dentry_at s (fd_val (fsg s))) s) as [r0 d]. now intros [= <- <-].
Qed.

Lemma dir_scan_tables io n fd s p s' :
  0 <= fd -> dir_scan n fd s = Some (p, s') -> tables io s -> tables io s'.
Proof.
  intros Hfd. revert s. induction n as [|n IH]; intros s; cbn [dir_scan]; [discriminate|].
  intros Hd Ht. apply (tables_fpos io fd (fun f => set_fpos (u32 (fpos f + 1)) f)) in Ht; [|exact Hfd | done].
  destruct (_ =? 0); [exact (IH _ Hd Ht)|]. injection Hd as <- <-. exact Ht.
Qed.

Lemma filesystem_read_tables io fd buf n s r s' :
  0 <= fd -> filesystem_read fd buf n s = Some (r, s') -> tables io s -> tables io s'.
Proof.
  unfold filesystem_read. intros Hfd Hr Ht. apply (tables_fsg io (set_fd_val fd)) in Ht. revert Hr Ht.
  generalize (upd_fsg (set_fd_val fd) s). intros z Hr Ht.
  destruct (_ =? 1); [|exact (read_data_tables _ _ _ _ _ _ _ _ Hr Ht)].
  revert Hr. unfold dirread. destruct (_ >=? _); [intros [= <- <-]; exact Ht|].
  intros ([p s1] & Hs & Hr)%bind_Some. apply (dir_scan_tables io) in Hs; [|exact Hfd | exact Ht].
  apply bind_Some in Hr as (l1 & _ & Hr). apply bind_Some in Hr as (l2 & _ & Hr).
  injection Hr as <- <-. now apply tables_mem.
Qed.

Lemma filesystem_close_tables io fd s : 2 <= fd -> tables io s -> tables io (snd (filesystem_close fd s)).
Proof.
  unfold filesystem_close. intros Hfd Ht. apply (tables_fsg io (set_fd_val fd)) in Ht.
  destruct (_ =? 1); [exact Ht|]. destruct (_ || _); [exact Ht|]. now apply tables_flags0.
Qed.

(** open hands out a descriptor from 2 on, and one that was not in use *)
Lemma open_tables fname s r s' :
  open fname s = Some (r, s') -> tables true s ->
  tables true s' /\ (r = -1 \/ 2 <= r < 8 /\ flags (file_at s r) = 0).
Proof.
  unfold open. intros Ho Ht. apply (tables_index true FD_MIN) in Ht; [|unfold FD_MIN; lia].
  change (fun i => flags_at s i =? 0) with (fun i => flags_at (upd_sysg (set_fd_index FD_MIN) s) i =? 0) in Ho.
  change (file_at s r) with (file_at (upd_sysg (set_fd_index FD_MIN) s) r).
  revert Ho Ht. generalize (upd_sysg (set_fd_index FD_MIN) s). intros s1 Ho Ht.
  destruct (is_null fname); [injection Ho as <- <-; split; [exact Ht | now left]|].
  destruct (find_first _ 7 FD_MIN) as [k|] eqn:Ek; [|discriminate].
  apply find_first_Some in Ek as (Hk & Hfree & _). unfold FD_MIN in Hk.
  apply (tables_index true k) in Ht; [|lia]. destruct (Z.eqb_spec k FILE_ARRAY_SIZE) as [|Hne];
    [injection Ho as <- <-; split; [exact Ht | now left]|]. unfold FILE_ARRAY_SIZE in Hne.
  assert (flags (file_at s1 k) = 0) as Hf0.
  { revert Hfree. unfold flags_at, FILE_ARRAY_SIZE. destruct (Z.ltb_spec k 8); [|lia]. apply Z.eqb_eq. }
  assert (2 <= fd_index (sysg (upd_sysg (set_fd_index k) s1))) as Hi by (cbn; lia).
  revert Ho Ht Hi. generalize (upd_sysg (set_fd_index k) s1). intros s2 Ho Ht Hi.
  apply (tables_flags1 true k) in Ht; [|lia | exact Hi].
  change (fd_index (sysg s2)) with (fd_index (sysg (upd_file k (set_flags 1) s2))) in Hi.
  revert Ho Ht Hi. set (s3 := if negb _ then _ else _). intros Ho Ht Hi.
  assert (tables true s3 /\ 2 <= fd_index (sysg s3)) as [H3 I3].
  { subst s3. destruct (negb _); (split; [|exact Hi]); [now apply tables_dentry | exact Ht]. }
  clearbody s3. apply bind_Some in Ho as ([r0 s4] & Ho & Hb).
  rewrite <- (filesystem_open_index _ _ _ _ Ho) in I3. apply (filesystem_open_tables true) in Ho; [|exact H3].
  destruct (r0 =? -1).
  { injection Hb as <- <-. split; [|now left]. apply tables_save, tables_flags0; [lia | exact Ho]. }
  destruct (file_type (dentry_at s4 k) =? 0); injection Hb as <- <-; (split; [|right; split; [lia | exact Hf0]]);
    apply tables_save, tables_fops; try done; try lia.
  - apply tables_flags1; [lia | exact I3 |]. apply tables_hw, tables_sysg; [done | exact Ho].
  - apply tables_fpos; [lia | done | exact Ho].
Qed.

Lemma null_fops_tables io i s s' :
  2 <= i -> null_fops i s = Some s' -> tables io s -> tables io s'.
Proof.
  unfold null_fops. intros Hi Hn Ht. destruct (in_range i _); [injection Hn as <-; now apply tables_fops|].
  destruct (_ =? _); [|discriminate]. injection Hn as <-. now apply tables_dentry.
Qed.

(** only descriptors from 2 on are closed, and the index that close then uses
    is one that open left behind *)
Lemma close_tables io fd s r s' : close fd s = Some (r, s') -> tables io s -> tables io s'.
Proof.
  unfold close, FD_MAX, FD_MIN. intros Hc Ht.
  destruct (Z.gtb_spec fd 7), (Z.ltb_spec fd 2); cbn [orb] in Hc; try (injection Hc as <- <-; exact Ht).
  destruct (Z.eqb_spec (flags (file_at s fd)) 1) as [F1|]; [|injection Hc as <- <-; exact Ht].
  destruct (fds_other _ _ _ (tb_run _ _ Ht) fd ltac:(lia)) as [[F | [_ Hi]] _];
    [unfold file_at in F1; congruence|].
  set (s1 := upd_dentry fd (set_inode_number 0) _) in Hc.
  assert (tables io s1) as Hs1 by (apply tables_dentry, tables_dentry, tables_fpos; [lia | done | exact Ht]).
  change (fd_index (sysg s)) with (fd_index (sysg s1)) in Hi. clearbody s1.
  apply bind_Some in Hc as (s2 & Hn & Hb). apply (null_fops_tables io) in Hn; [|exact Hi | exact Hs1].
  revert Hb. set (s3 := upd_dentry fd (set_reserved _) _). set (s4 := if (_ : bool) then _ else _).
  assert (tables io s3) as Hs3 by now apply tables_dentry, tables_dentry.
  intros [= <- <-]. apply tables_flags0; [lia|]. subst s4. clearbody s3.
  destruct (_ && _); [now apply tables_hw | now apply filesystem_close_tables].
Qed.

Lemma getargs_tables io buf n s r s' : getargs buf n s = Some (r, s') -> tables io s -> tables io s'.
Proof.
  unfold getargs, copy_args. intros Hg Ht. destruct (_ || _); [injection Hg as <- <-; exact Ht|].
  apply bind_Some in Hg as (s1 & Hc & Hr). injection Hr as <- <-.
  apply (tables_mem io (zero_buf (Z.to_nat BUFF_MAX) 0 buf)) in Ht. revert Hc Ht.
  generalize (upd_mem (zero_buf (Z.to_nat BUFF_MAX) 0 buf) s). intros z Hc Ht.
  destruct (_ <=? 40); [|discriminate]. injection Hc as <-. now apply tables_mem.
Qed.

Lemma write_tables io fd buf n s r s' : write fd buf n s = Some (r, s') -> tables io s -> tables io s'.
Proof.
  unfold write. intros Hw Ht. destruct (_ || _); [injection Hw as <- <-; exact Ht|].
  assert (forall r s', terminal_write fd buf n s = (r, s') -> tables io s') as Htw.
  { unfold terminal_write. intros r1 s1. destruct (fd =? 0); [now intros [= <- <-]|].
    destruct (write_helper buf n (hw s)) as [v h]. intros [= <- <-]. now apply tables_set_hw. }
  destruct (fops_ptr (file_at s fd)); cbn [call_write] in Hw; [discriminate | | |].
  - destruct buf; [|discriminate]. destruct (rtc_write fd a n (hw s)) as [v h].
    injection Hw as <- <-. now apply tables_set_hw.
  - injection Hw as Hw. exact (Htw _ _ Hw).
  - injection Hw as Hw. exact (Htw _ _ Hw).
Qed.

Lemma vidmap_tables io p s : tables io s -> tables io (snd (vidmap p s)).
Proof. unfold vidmap. intros Ht. destruct (_ || _); [exact Ht | now apply tables_mem]. Qed.

Lemma read_helper_tables io irqs buf n s r s' :
  Forall (fun irq => forall s, tables io s -> tables io (irq s)) irqs ->
  read_helper irqs buf n s = Some (r, s') -> tables io s -> tables io s'.
Proof.
  intros Hi. revert s. induction Hi as [|irq irqs Hq _ IH]; intros s Hr Ht; cbn [read_helper] in Hr;
    destruct (entered (trm s) =? 1); try discriminate; try exact (IH _ Hr (Hq _ Ht)).
  all: destruct (read_loop _ _ _ _ _) as [v m]; injection Hr as <- <-;
    apply tables_trm; [done | now apply tables_mem].
Qed.

Lemma read_tables io w fd buf n s r s' :
  Forall (fun irq => forall s, tables io s -> tables io (irq s)) (key_irqs w) ->
  read w fd buf n s = Some (r, s') -> tables io s -> tables io s'.
Proof.
  unfold read, FD_MAX. intros Hi Hr Ht. destruct (Z.ltb_spec fd 0), (Z.gtb_spec fd 7);
    rewrite ?orb_true_r in Hr; cbn [orb] in Hr; try (injection Hr as <- <-; exact Ht).
  destruct (_ || _); [injection Hr as <- <-; exact Ht|].
  destruct (fops_ptr (file_at s fd)); cbn [call_read] in Hr; [discriminate | | |].
  - apply bind_Some in Hr as ([v h] & _ & [= <- <-]). now apply tables_set_hw.
  - unfold terminal_read in Hr. destruct (fd =? 1); [injection Hr as <- <-; exact Ht|].
    exact (read_helper_tables _ _ _ _ _ _ _ Hi Hr Ht).
  - exact (filesystem_read_tables io fd buf n s r s' ltac:(lia) Hr Ht).
Qed.
End Calls.

(** ** Processes *)

Section Processes.
Context `{Platform}.

Lemma parse_cmd_tables io input s s' : parse_cmd input s = Some s' -> tables io s -> tables io s'.
Proof.
  unfold parse_cmd. intros (len & _ & (p & _ & [= <-])%bind_Some)%bind_Some Ht. now apply tables_pcb.
Qed.

Lemma load_page_directory_tables io s : tables io s -> tables io (load_page_directory s).
Proof.
  unfold load_page_directory. intros Ht.
  repeat case_match; try exact Ht; try apply tables_fsg; now apply tables_cpu.
Qed.

Lemma loader_tables io fname s r s' : loader fname s = Some (r, s') -> tables io s -> tables io s'.
Proof.
  unfold loader. intros Hl Ht. destruct (read_dentry_by_name _ _ _) as [r0 d].
  apply (tables_fsg io (set_dentry1 d)) in Ht.
  revert Hl Ht. generalize (upd_fsg (set_dentry1 d) s). intros s1 Hl Ht.
  repeat (match type of Hl with (if ?b then _ else _) = _ => destruct b end;
    try (injection Hl as <- <-; exact Ht)).
  apply bind_Some in Hl as ([v s2] & Hr & Hl). apply (read_data_tables io) in Hr; [|exact Ht].
  apply bind_Some in Hl as (s3 & Hm & Hl). injection Hl as <- <-.
  unfold memcpy_virtual in Hm. destruct (translate _ _ _); [|discriminate].
  destruct (_ <=? _); [|discriminate]. injection Hm as <-. now apply tables_mem, load_page_directory_tables.
Qed.

Lemma choose_pid_tables io command s : tables io s -> tables io (choose_pid command s).
Proof. intros Ht. unfold choose_pid. repeat case_match; try exact Ht; now apply tables_sysg. Qed.

Lemma choose_pid_first command s : pc (fsg s) = 0 -> new_pid (sysg (choose_pid command s)) = 1.
Proof. intros E. unfold choose_pid. rewrite E. reflexivity. Qed.

Lemma save_parent_tables io p s :
  io = true \/ new_pid (sysg s) = 1 -> tables io s -> tables io (save_parent p s).
Proof.
  intros Hio Ht. unfold save_parent. set (s1 := upd_sysg _ s).
  assert (tables io s1) as H1 by now apply tables_sysg.
  change (new_pid (sysg s)) with (new_pid (sysg s1)) in Hio. clearbody s1. set (s2 := upd_pcb _ s1).
  assert (tables io s2) as H2 by now apply tables_pcb.
  change (new_pid (sysg s1)) with (new_pid (sysg s2)) in Hio. clearbody s2.
  destruct (Z.eqb_spec (new_pid (sysg s2)) 1) as [|Hne]; [exact H2|]. apply tables_pcb; [done|].
  destruct Hio as [-> | ]; [now apply tables_save | contradiction].
Qed.

(** the standard streams of the new process *)
Lemma init_files_tables io s : tables io s -> tables true (init_files s).
Proof.
  intros Ht. unfold init_files.
  set (std := fun f => set_fops_ptr terminal_fops (set_flags 1 f)).
  assert (forall f, std_file (std f)) as Hstd by done.
  assert (tables true (upd_file SDOUT std (upd_file SDIN std s))) as H2.
  { apply (tables_run io).
    - apply tables_file; [done | intros _ _; apply Hstd | unfold SDIN; lia | exact Ht].
    - destruct (tb_run _ _ Ht) as [L _ O]. unfold SDOUT, SDIN. cbn [file_struct set_file_struct pcb_of
        upd_file upd_pcb upd_sysg set_sysg sysg set_pcblock pcblock fd_index].
      fold (pcb_of s). split; [now rewrite !length_aset | |].
      + intros _ j Hj. assert (j = 0 \/ j = 1) as [-> | ->] by lia.
        * rewrite aget_aset_ne, aget_aset_eq by (rewrite ?length_aset; lia). apply Hstd.
        * rewrite aget_aset_eq by (rewrite ?length_aset; lia). apply Hstd.
      + intros j Hj. rewrite !aget_aset_ne by lia. now apply O. }
  revert H2. generalize (upd_file SDOUT std (upd_file SDIN std s)). unfold MAX_FD.
  assert (Forall (fun i => 2 <= i) (zrange 2 (7 + 1))) as Hl
    by (apply Forall_forall; intros i Hi%elem_of_zrange; lia).
  induction Hl as [|i l Hi _ IH]; intros z Hz; cbn [fold_left]; [exact Hz|].
  now apply IH, tables_flags0.
Qed.

Lemma fill_pcb_tables p s : tables true s -> tables true (fill_pcb p s).
Proof. intros Ht. unfold fill_pcb. apply tables_pcb; [done|]. apply tables_save. now apply tables_pcb. Qed.

Lemma start_process_tables io p e s : tables io s -> tables true (state_of (start_process p e s)).
Proof.
  intros Ht. unfold start_process.
  apply (tables_trm io (fun g => set_term3_press 0 (set_term2_press 0 g))), init_files_tables,
    (fill_pcb_tables p) in Ht; [|done].
  revert Ht. generalize (fill_pcb p (init_files
    (upd_trm (fun g => set_term3_press 0 (set_term2_press 0 g)) s))). intros s1 Ht.
  destruct (task_directory _) as [pd|]; [|exact Ht]. cbn [state_of].
  apply tables_hw, tables_cpu. now apply tables_pcb.
Qed.

(** a program that execute starts has its standard streams, also the first *)
Lemma execute_tables io command s o :
  io = true \/ pc (fsg s) = 0 -> execute command s = Some o -> tables io s ->
  tables (match o with EntersUser _ _ _ => true | _ => io end) (state_of o).
Proof.
  unfold execute. intros Hio He Ht. destruct (is_null command); [injection He as <-; exact Ht|].
  apply (tables_pcb io (set_cr3 (r_cr3 (cpu s)))) in Ht; [|done].
  change (pc (fsg s)) with (pc (fsg (upd_pcb (set_cr3 (r_cr3 (cpu s))) s))) in Hio.
  revert Hio He Ht. cbv zeta. generalize (upd_pcb (set_cr3 (r_cr3 (cpu s))) s). intros s1 Hio He Ht.
  apply (tables_sysg io (set_new_pid MAX_TASKS)) in Ht; [|done].
  change (pc (fsg s1)) with (pc (fsg (upd_sysg (set_new_pid MAX_TASKS) s1))) in Hio.
  revert Hio He Ht. generalize (upd_sysg (set_new_pid MAX_TASKS) s1). intros s2 Hio He Ht.
  set (s3 := upd_sysg (fun g => set_new_pid (free_task 7 1 (tasks g)) g) s2) in *.
  assert (tables io s3) as H3 by now apply tables_sysg.
  change (pc (fsg s2)) with (pc (fsg s3)) in Hio. clearbody s3.
  assert (io = true \/ new_pid (sysg (choose_pid command s3)) = 1) as Hio'
    by (destruct Hio as [|E]; [now left | right; now apply choose_pid_first]).
  apply (choose_pid_tables io command) in H3. revert He H3 Hio'. generalize (choose_pid command s3).
  intros s4 He H4 Hio'. destruct (_ =? MAX_TASKS).
  { apply bind_Some in He as ([v s5] & Hw & [= <-]). exact (write_tables _ _ _ _ _ _ _ Hw H4). }
  apply (save_parent_tables io (if find_pid (r_cr3 (cpu s2)) =? 0 then find_pid (r_cr3 (cpu s2)) + 1
    else find_pid (r_cr3 (cpu s2)))) in H4; [|exact Hio'].
  apply bind_Some in He as (s5 & Hp & He). apply (parse_cmd_tables io) in Hp; [|exact H4].
  apply bind_Some in He as ([e s6] & Hl & He). apply (loader_tables io) in Hl; [|exact Hp].
  destruct (_ =? _); injection He as <-; [exact Hl|].
  apply (start_process_tables io (if find_pid (r_cr3 (cpu s2)) =? 0 then find_pid (r_cr3 (cpu s2)) + 1
    else find_pid (r_cr3 (cpu s2))) (u32 e)) in Hl. revert Hl.
  destruct (start_process _ _ _); intros Hl; [now apply tables_weaken | exact Hl | now apply tables_weaken].
Qed.

Lemma execute_keeps command s o : execute command s = Some o -> tables true s -> tables true (state_of o).
Proof. intros He Ht. apply (execute_tables true) in He; [|now left | exact Ht]. now destruct o. Qed.

Lemma close_all_tables io n i s s' : close_all n i s = Some s' -> tables io s -> tables io s'.
Proof.
  revert i s. induction n as [|n IH]; intros i s; cbn [close_all]; [now intros [= <-]|].
  intros ([r s1] & Hc & Hr)%bind_Some Ht. apply (IH _ _ Hr). exact (close_tables _ _ _ _ _ Hc Ht).
Qed.

Lemma halt_tables status s o : halt status s = Some o -> tables true s -> tables true (state_of o).
Proof.
  unfold halt. intros Hh Ht. destruct (_ <=? T_SHELL_MAX).
  - revert Hh. set (s1 := if _ =? 1 then _ else _).
    assert (tables true s1) as H1 by (subst s1; repeat case_match; try exact Ht; now apply tables_sysg).
    clearbody s1. destruct (_ <? 0); [discriminate|]. cbv zeta. set (s2 := upd_sysg _ s1).
    assert (tables true s2) as H2 by now apply tables_sysg. clearbody s2.
    intros (o1 & He & [= <-])%bind_Some. apply execute_keeps in He; [|now apply tables_fsg]. now destruct o1.
  - revert Hh. cbv zeta. intros (tp & _ & Hh)%bind_Some. apply (tables_fsg true (fun g => set_pc (u32 (pc g - 1)) g)) in Ht.
    revert Hh Ht. generalize (upd_fsg (fun g => set_pc (u32 (pc g - 1)) g) s). intros s1 Hh Ht.
    revert Hh. set (s2 := upd_sysg _ s1). assert (tables true s2) as H2 by now apply tables_sysg. clearbody s2.
    intros (s3 & Hc & [= <-])%bind_Some. apply (close_all_tables true) in Hc; [|exact H2].
    now do 4 apply tables_cpu.
Qed.

(** ** Terminals *)

Lemma upd_terminal_tables io c f s :
  0 <= c < 3 -> (forall x, t_file_struct (f x) = t_file_struct x) -> tables io s -> tables io (upd_terminal c f s).
Proof.
  intros Hc Hf [T1 T2 T3 T4 T5]. split; try assumption; [|cbn [trm upd_terminal upd_trm set_trm terminals set_terminals]; now rewrite length_aset].
  intros t Ht Hcur Hs. specialize (T3 t Ht Hcur Hs). unfold terminal_at in *.
  cbn [trm upd_terminal upd_trm set_trm terminals set_terminals]. destruct (decide (t - 1 = c)) as [<-|Hne].
  - rewrite aget_aset_eq by (rewrite T4; lia). now rewrite Hf.
  - now rewrite aget_aset_ne by lia.
Qed.

(** the PCB of the process in front is copied to its terminal's record *)
Lemma set_terminal_files io c l s :
  0 <= c < 3 -> fds true (fd_index (sysg s)) l -> tables io s ->
  tables io (upd_terminal c (set_t_file_struct l) s) /\
  fds true (fd_index (sysg s)) (t_file_struct (terminal_at (upd_terminal c (set_t_file_struct l) s) c)).
Proof.
  intros Hc Hl [T1 T2 T3 T4 T5].
  assert (forall j, 0 <= j -> terminal_at (upd_terminal c (set_t_file_struct l) s) j =
    if j =? c then set_t_file_struct l (terminal_at s c) else terminal_at s j) as Hat.
  { intros j Hj. unfold terminal_at. cbn [trm upd_terminal upd_trm set_trm terminals set_terminals].
    destruct (Z.eqb_spec j c) as [->|Hne]; [now rewrite aget_aset_eq by (rewrite T4; lia) | now rewrite aget_aset_ne by lia]. }
  split; [|rewrite Hat, Z.eqb_refl by lia; exact Hl].
  split; [exact T1 | exact T2 | | | exact T5].
  - intros t Ht Hcur Hs. rewrite Hat by lia. destruct (_ =? c); [exact Hl | exact (T3 t Ht Hcur Hs)].
  - cbn [trm upd_terminal upd_trm set_trm terminals set_terminals]. now rewrite length_aset.
Qed.

(** terminal_switch while it puts away the terminal [c + 1]; [g] are the
    terminal's variables before, [had] once the descriptors have been copied *)
Record leaving (c : Z) (g : term_glob) (had : bool) (s : kst) : Prop := {
  lv_tables : tables true s;
  lv_cur : cur_terminal (trm s) = cur_terminal g;
  lv_flags : term2_flag (trm s) = term2_flag g /\ term3_flag (trm s) = term3_flag g;
  lv_files : had = true -> fds true (fd_index (sysg s)) (t_file_struct (terminal_at s c))
}.

Lemma leaving_hw c g had f s : leaving c g had s -> leaving c g had (upd_hw f s).
Proof. intros [H1 H2 H3 H4]. split; [now apply tables_hw | exact H2 | exact H3 | exact H4]. Qed.

Lemma leaving_term_pcb c g had b s : leaving c g had s -> leaving c g had (upd_trm (set_term_pcb b) s).
Proof. intros [H1 H2 H3 H4]. split; [now apply tables_trm | exact H2 | exact H3 | exact H4]. Qed.

Lemma leaving_terminal c g had f s :
  0 <= c < 3 -> (forall x, t_file_struct (f x) = t_file_struct x) -> leaving c g had s ->
  leaving c g had (upd_terminal c f s).
Proof.
  intros Hc Hf [H1 H2 H3 H4]. split; [now apply upd_terminal_tables | exact H2 | exact H3 |].
  intros Hh. specialize (H4 Hh). unfold terminal_at in *. pose proof (tb_terms _ _ H1) as L.
  cbn [trm upd_terminal upd_trm set_trm terminals set_terminals]. now rewrite aget_aset_eq, Hf by (rewrite L; lia).
Qed.

Lemma leaving_files c g had l s :
  0 <= c < 3 -> fds true (fd_index (sysg s)) l -> leaving c g had s ->
  leaving c g true (upd_terminal c (set_t_file_struct l) s).
Proof.
  intros Hc Hl [H1 H2 H3 _]. destruct (set_terminal_files true c l s Hc Hl H1) as [Ht Hf].
  split; [exact Ht | exact H2 | exact H3 | intros _; exact Hf].
Qed.

Lemma leave_terminal_tables s s' :
  leave_terminal s = Some s' -> tables true s ->
  leaving (cur_terminal (trm s) - 1) (trm s) true s'.
Proof.
  unfold leave_terminal. set (c := cur_terminal (trm s) - 1). intros Hl Ht.
  destruct (in_range c 3) eqn:Hc; [|discriminate]. cbn [negb] in Hl.
  apply andb_true_iff in Hc as [Hc1%Z.leb_le Hc2%Z.ltb_lt]. assert (0 <= c < 3) as Hc by lia.
  assert (leaving c (trm s) false s) as H0 by now split.
  set (s1 := upd_terminal c (set_kernel_esp _) _) in Hl.
  assert (leaving c (trm s) false s1) as H1
    by (do 3 (apply leaving_terminal; [exact Hc | reflexivity |]); exact H0).
  clearbody s1. apply bind_Some in Hl as (b & Hb & Hl). apply (inj Some) in Hl.
  assert (fds true (fd_index (sysg s1)) (file_struct b)) as Hf by exact (tb_saved _ _ (lv_tables _ _ _ _ H1) _ _ Hb).
  change (fd_index (sysg s1)) with (fd_index (sysg (upd_trm (set_term_pcb b) s1))) in Hf.
  apply (leaving_term_pcb _ _ _ b) in H1.
  change (file_struct b) with (file_struct (term_pcb (trm (upd_trm (set_term_pcb b) s1)))) in Hf.
  revert Hl Hf H1. generalize (upd_trm (set_term_pcb b) s1). clear Hb b s1. intros s2 Hl Hf H2.
  rewrite (fds_copy _ _ _ Hf) in Hl. apply (leaving_files _ _ _ _ _ Hc Hf) in H2.
  revert Hl H2. generalize (upd_terminal c (set_t_file_struct (file_struct (term_pcb (trm s2)))) s2).
  intros s3 <- H3. do 2 apply leaving_hw. unfold upd_mem. apply leaving_hw.
  do 3 (apply leaving_terminal; [exact Hc | reflexivity |]). exact H3.
Qed.

(** another terminal comes to the front, the one before has its record *)
Lemma set_cur_terminal_tables t s :
  fds true (fd_index (sysg s)) (t_file_struct (terminal_at s (cur_terminal (trm s) - 1))) ->
  tables true s -> tables true (upd_trm (set_cur_terminal t) s).
Proof.
  intros Hc [T1 T2 T3 T4 T5]. split; try assumption. intros u Hu _ Hs.
  destruct (decide (u = cur_terminal (trm s))) as [->|Hne]; [exact Hc | exact (T3 u Hu Hne Hs)].
Qed.

(** the flag of the terminal in front *)
Lemma set_flag_tables f s :
  terminals (f (trm s)) = terminals (trm s) -> cur_terminal (f (trm s)) = cur_terminal (trm s) ->
  (forall t, t <> cur_terminal (trm s) -> has_shell t (f (trm s)) -> has_shell t (trm s)) ->
  tables true s -> tables true (upd_trm f s).
Proof.
  intros E1 E2 E3 [T1 T2 T3 T4 T5].
  split; try assumption; unfold terminal_at in *; cbn [trm upd_trm set_trm]; rewrite ?E1; [|exact T4].
  intros t Ht Hne Hs. rewrite E2 in Hne. apply T3; [exact Ht | exact Hne | now apply E3].
Qed.

Lemma new_terminal_tables s o : new_terminal s = Some o -> tables true s -> tables true (state_of o).
Proof.
  unfold new_terminal. intros (o1 & He & [= <-])%bind_Some Ht. apply execute_keeps in He; [now destruct o1|].
  apply tables_hw, tables_trm, tables_trm; done.
Qed.

Lemma enter_terminal_tables t s o :
  enter_terminal t s = Some o ->
  fds true (fd_index (sysg s)) (t_file_struct (terminal_at s (cur_terminal (trm s) - 1))) ->
  tables true s -> tables true (state_of o).
Proof.
  unfold enter_terminal. intros He Hc Ht.
  set (s1 := upd_hw (send_eoi PIC_1) _) in He.
  assert (tables true s1) as H1.
  { apply tables_hw, tables_trm, tables_hw, tables_mem, tables_trm; done. }
  change (terminal_at s (cur_terminal (trm s) - 1)) with (terminal_at s1 (cur_terminal (trm s) - 1)) in He, Hc.
  change (fd_index (sysg s)) with (fd_index (sysg s1)) in Hc.
  clearbody s1. clear Ht. generalize dependent (cur_terminal (trm s) - 1). intros c He Hc.
  apply bind_Some in He as (b & _ & He). apply (inj Some) in He. subst o. cbn [state_of].
  do 3 apply tables_cpu. set (s2 := upd_trm (set_term_pcb b) s1).
  assert (tables true s2) as H2 by now apply tables_trm.
  set (s3 := upd_trm _ s2). assert (tables true s3) as H3 by now apply tables_trm.
  apply (tables_run true); [exact H3|].
  change (file_struct (term_pcb (trm s3))) with (map (aget (t_file_struct (terminal_at s1 c))) (zrange 0 STRUCTS)).
  rewrite (fds_copy _ _ _ Hc). exact Hc.
Qed.

Lemma terminal_switch_tables t s o :
  1 <= t <= 3 -> terminal_switch t s = Some o -> tables true s -> tables true (state_of o).
Proof.
  unfold terminal_switch. intros Hrange Hsw Ht. destruct (Z.eqb_spec (cur_terminal (trm s)) t) as [|Hne];
    [injection Hsw as <-; exact Ht|].
  apply bind_Some in Hsw as (s1 & Hl & Hsw). apply leave_terminal_tables in Hl; [|exact Ht].
  destruct Hl as [H1 C1 _ A1]. specialize (A1 eq_refl). rewrite <- C1 in A1, Hne. clear C1 Ht s.
  pose proof (tb_away _ _ H1 t Hrange (not_eq_sym Hne)) as Ha. apply (set_cur_terminal_tables t) in H1; [|exact A1].
  change (term2_flag (trm (upd_trm (set_cur_terminal t) s1))) with (term2_flag (trm s1)) in Hsw.
  change (term3_flag (trm (upd_trm (set_cur_terminal t) s1))) with (term3_flag (trm s1)) in Hsw.
  unfold T2_NUM, T3_NUM in Hsw. unfold has_shell in Ha.
  destruct (Z.eqb_spec t 2) as [->|N2]; cbn [andb] in Hsw.
  - destruct (Z.eqb_spec (term2_flag (trm s1)) 0) as [|F].
    + apply new_terminal_tables in Hsw; [exact Hsw|]. apply set_flag_tables; try done.
      intros u Hu. cbn in Hu. unfold has_shell. cbn. intuition congruence.
    + apply enter_terminal_tables in Hsw; [exact Hsw | apply Ha; tauto | exact H1].
  - destruct (Z.eqb_spec t 3) as [->|N3]; cbn [andb] in Hsw.
    + destruct (Z.eqb_spec (term3_flag (trm s1)) 0) as [|F].
      * apply new_terminal_tables in Hsw; [exact Hsw|]. apply set_flag_tables; try done.
        intros u Hu. cbn in Hu. unfold has_shell. cbn. intuition congruence.
      * apply enter_terminal_tables in Hsw; [exact Hsw | apply Ha; tauto | exact H1].
    + apply enter_terminal_tables in Hsw; [exact Hsw | apply Ha; lia | exact H1].
Qed.

(** whatever key is pressed *)
Lemma keyboard_read_tables k s o : keyboard_read k s = Some o -> tables true s -> tables true (state_of o).
Proof.
  unfold keyboard_read. intros Hk Ht. apply (tables_hw true (set_cursor (getx (hw s)) (gety (hw s)))) in Ht.
  generalize dependent (gety (hw s)). generalize (getx (hw s)). intros x y Hk Ht. revert Hk Ht.
  generalize (upd_hw (set_cursor x y) s). clear s. intros s Hk Ht.
  destruct (k =? 9); [apply bind_Some in Hk as ([v h] & _ & [= <-]); now apply tables_hw, tables_set_hw|].
  destruct (k =? CTRL_C); [injection Hk as <-; now apply tables_hw|].
  destruct (k =? CTRL_L).
  { apply bind_Some in Hk as ([v h] & _ & [= <-]). now apply tables_set_hw, tables_hw, tables_hw. }
  destruct ((x >=? _) || _).
  { apply bind_Some in Hk as (s1 & Hn & [= <-]). revert Hn. unfold key_newline. cbv zeta.
    assert (tables true (if y >=? HEIGHT - 1 then upd_hw key_scroll s else s)) as H2
      by (destruct (_ >=? _); [now apply tables_hw | exact Ht]).
    revert H2. generalize (if y >=? HEIGHT - 1 then upd_hw key_scroll s else s). intros s2 H2. apply (tables_hw true (putc 10)) in H2. destruct (k =? 10); [|now intros [= <-]].
    destruct (_ <? _); [|discriminate]. intros Hn. apply (inj Some) in Hn. subst s1. now apply tables_trm. }
  destruct (k =? BACKSPACE).
  { apply (inj Some) in Hk. subst o. cbn [state_of]. unfold key_backspace. cbv zeta.
    destruct (_ && _); [now apply tables_hw|]. destruct (_ =? 0); [now apply tables_hw|].
    apply tables_hw, tables_trm; [done|]. now apply tables_hw, tables_hw. }
  destruct (_ && _).
  { apply (inj Some) in Hk. subst o. cbn [state_of]. unfold key_char. cbv zeta.
    apply tables_trm; [done|]. now apply tables_hw, tables_trm. }
  destruct (_ && _); [|injection Hk as <-; exact Ht].
  repeat (destruct (k =? _)); apply terminal_switch_tables in Hk; try lia; try exact Hk; try exact Ht;
    now apply tables_trm.
Qed.
End Processes.

(** ** The steps of the system *)

Section Steps.
Context `{Platform}.

(** the page a program runs in *)
Definition own_page (a n : Z) : Prop := 134217728 <= a /\ a + n <= 138412032.

(** the call stores nothing outside the program's page, or is given NULL and
    stores nothing.  The kernel checks the pointers of read, getargs and vidmap
    against NULL only (vidmap also against 4 MiB); a store through another one
    could reach its own variables, which are records here and not bytes of
    memory. *)
Definition own_buffers (eax : Z) (ebx ecx edx : reg) : Prop :=
  (u32 eax = SYS_READ -> forall a n, word_arg ecx = Some a -> word_arg edx = Some n ->
     u32 a = 0 \/ own_page a (s32 n `max` 64)) /\
  (u32 eax = SYS_GETARGS -> forall a, word_arg ebx = Some a -> u32 a = 0 \/ own_page a BUFF_MAX) /\
  (u32 eax = SYS_VIDMAP -> forall a, word_arg ebx = Some a -> u32 a = 0 \/ own_page (u32 a) 4).

(** what runs while a call waits: the keyboard's handler with some key, or one
    that touches the hardware only, such as the clock's *)
Definition handler_of (irq : kst -> kst) : Prop :=
  (exists k, irq = Terminal.typed k) \/ (exists f, irq = upd_hw f).

(** a system call that comes back to a program, or starts one; a key pressed
    in between; work in the program's own memory, and interrupts that touch
    the hardware only *)
Inductive step : kst -> kst -> Prop :=
| step_call w eax ebx ecx edx s o :
    Forall handler_of (key_irqs w) -> own_buffers eax ebx ecx edx ->
    syscall_handler w eax ebx ecx edx s = Some o -> step s (state_of o)
| step_key k s o : keyboard_read k s = Some o -> step s (state_of o)
| step_hw f s : step s (upd_hw f s).

Lemma handler_tables irq s : handler_of irq -> tables true s -> tables true (irq s).
Proof.
  intros [[k ->] | [f ->] ] Ht; [|now apply tables_hw]. unfold Terminal.typed.
  destruct (keyboard_read k s) as [o|] eqn:E; [exact (keyboard_read_tables _ _ _ E Ht) | exact Ht].
Qed.

Lemma syscall_tables w eax ebx ecx edx s o :
  Forall handler_of (key_irqs w) -> syscall_handler w eax ebx ecx edx s = Some o ->
  tables true s -> tables true (state_of o).
Proof.
  intros Hi Hs Ht. revert Hs. unfold syscall_handler, sys_halt, sys_execute, sys_read, sys_write, sys_open,
    sys_close, sys_getargs, sys_vidmap, sys_set_handler, sys_sigreturn, returned.
  destruct (_ || _); [now intros [= <-]|].
  destruct (_ =? SYS_HALT); [intros (st & _ & Hh)%bind_Some; exact (halt_tables _ _ _ Hh Ht)|].
  destruct (_ =? SYS_EXECUTE); [intros He; exact (execute_keeps _ _ _ He Ht)|].
  destruct (_ =? SYS_READ).
  { intros (fd & _ & (buf & _ & (n & _ & ([r s'] & Hr & [= <-])%bind_Some)%bind_Some)%bind_Some)%bind_Some.
    refine (read_tables true w _ _ _ _ _ _ _ Hr Ht).
    apply (Forall_impl _ _ _ Hi). intros irq Hq z. now apply handler_tables. }
  destruct (_ =? SYS_WRITE).
  { intros (fd & _ & (n & _ & ([r s'] & Hr & [= <-])%bind_Some)%bind_Some)%bind_Some.
    exact (write_tables _ _ _ _ _ _ _ Hr Ht). }
  destruct (_ =? SYS_OPEN).
  { intros ([r s'] & Hr & [= <-])%bind_Some. exact (proj1 (open_tables _ _ _ _ Hr Ht)). }
  destruct (_ =? SYS_CLOSE).
  { intros (fd & _ & ([r s'] & Hr & [= <-])%bind_Some)%bind_Some. exact (close_tables _ _ _ _ _ Hr Ht). }
  destruct (_ =? SYS_GETARGS).
  { intros (buf & _ & (n & _ & ([r s'] & Hr & [= <-])%bind_Some)%bind_Some)%bind_Some.
    exact (getargs_tables _ _ _ _ _ _ Hr Ht). }
  destruct (_ =? SYS_VIDMAP).
  { intros (p & _ & ([r s'] & Hr & [= <-])%bind_Some)%bind_Some. apply (vidmap_tables true (u32 p)) in Ht.
    injection Hr as Hr. now rewrite Hr in Ht. }
  destruct (_ =? SYS_SET_HANDLER).
  { intros (a & _ & (b & _ & ([r s'] & [= <- <-] & [= <-])%bind_Some)%bind_Some)%bind_Some. exact Ht. }
  intros ([r s'] & [= <- <-] & [= <-])%bind_Some. exact Ht.
Qed.

Lemma steps_tables s s' : rtc step s s' -> tables true s -> tables true s'.
Proof.
  induction 1 as [|s1 s2 s3 Hs _ IH]; intros Ht; [exact Ht|]. apply IH. destruct Hs as [w ? ? ? ? ? ? Hi _ E | ? ? ? E |].
  - exact (syscall_tables _ _ _ _ _ _ _ Hi E Ht).
  - exact (keyboard_read_tables _ _ _ E Ht).
  - now apply tables_hw.
Qed.

(** the zeros these variables begin with, and the first terminal in front:
    the state in which entry executes the shell ([start_devices_fresh]) *)
Record fresh (s : kst) : Prop := {
  fr_files : file_struct (pcb_of s) = replicate 8 zero_file;
  fr_index : fd_index (sysg s) = 0;
  fr_saved : saved s = ∅;
  fr_programs : pc (fsg s) = 0;
  fr_front : cur_terminal (trm s) = 1 /\ term2_flag (trm s) = 0 /\ term3_flag (trm s) = 0;
  fr_terms : length (terminals (trm s)) = 3%nat
}.

Lemma fresh_tables s : fresh s -> tables false s.
Proof.
  intros [E1 E2 E3 _ (E4 & E5 & E6) E7]. split; rewrite ?E1, ?E2, ?E3, ?E4; try done.
  - split; [done | discriminate |]. intros j Hj. unfold aget. rewrite lookup_total_replicate_2 by lia.
    split; [now left | discriminate].
  - unfold has_shell. rewrite E5, E6. intros t _ Hne. intuition congruence.
Qed.

(** the start-up of the devices keeps it so *)
Lemma late_term_view k : term_view (trm (late k)) = term_view (trm k).
Proof.
  unfold late. assert (trm (init_fs (upd_hw rtc_init k)) = trm k) as E by reflexivity.
  revert E. generalize (init_fs (upd_hw rtc_init k)). intros k1 <-. destruct k1 as [h g sg t c sv]. reflexivity.
Qed.

Lemma start_devices_fresh sym b : fresh (kern b) -> fresh (kern (start_devices sym b)).
Proof.
  intros [E1 E2 E3 _ E4 E5]. rewrite start_devices_kern. set (k := paged _ _ _).
  pose proof (late_term_view k) as V. destruct (late_parts k) as (_ & Eg & Es & _ & Esv & _).
  change (sysg k) with (sysg (kern b)) in Es. change (saved k) with (saved (kern b)) in Esv.
  change (term_view (trm (late k)) = term_view (trm (kern b))) in V.
  revert Eg Es Esv V. generalize (late k). clearbody k. intros k' Eg Es Esv V. unfold term_view in V.
  injection V as V1 V2 V3 V4.
  split; unfold pcb_of; rewrite ?Es, ?Esv, ?Eg, ?V1, ?V2, ?V3, ?V4; assumption || apply pc_init_fs.
Qed.

End Steps.

(** ** The first program of a small system, with a file open *)

#[local] Existing Instance demo_platform.

Definition demo_start : kst :=
  upd_cpu (set_r_cr3 (proc_pd 0)) (init_fs (upd_fsg (set_BOOT_BLOCK_PTR demo_boot)
    (boot_kst (fst (paging_init demo_exec_image (CRegs 0 0 0)))))).

Lemma demo_fresh : fresh demo_start.
Proof. split; try (vm_compute; reflexivity). split_and!; vm_compute; reflexivity. Qed.

Definition demo_fish : reg := Obj (chars "fish").

