(* ===== verification/UserLib.v ===== *)
(** * The user-space library (src/syscalls/ece391syscall.S, ece391support.c)

    Programs see the kernel through [int $0x80] only.  [SysCalls] is that
    interface, over any type of system states: the trap, and the program's own
    memory.  The wrappers and the string routines are translated on top of it;
    [Contract] is what a program may rely on, as laws about what the terminal
    has shown and what the descriptors deliver.  The programs are verified
    against it, and the kernel is proved to satisfy it in UserKernel.v. *)

From Stdlib Require Import ZArith Lia String.
From stdpp Require Import base list gmap.
From S2P Require Import Prelude Memory CMem CStr Console TermIO Terminal Tty Dispatch.
Open Scope Z_scope.

(** ** The trap *)

Class SysCalls (St : Type) := {
  int80 : Z -> reg -> reg -> reg -> St -> option (Z * St);   (* eax ebx ecx edx *)
  umem : St -> mem;
  set_umem : mem -> St -> St
}.

(** a C function of a program: a value and the state it leaves, or a fault *)
Definition prog (St A : Type) : Type := St -> option (A * St).
#[export] Instance prog_ret {St} : MRet (prog St) := fun A a s => Some (a, s).
#[export] Instance prog_bind {St} : MBind (prog St) := fun A B f p s =>
  match p s with Some (a, s') => f a s' | None => None end.

Section Calls.
Context {St : Type} `{SysCalls St}.

(** DO_CALL(name, number); the handlers ignore registers beyond their arguments *)
Definition ece391_halt (status : Z) : prog St Z := int80 SYS_HALT (Addr status) (Addr 0) (Addr 0).
Definition ece391_execute (command : reg) : prog St Z := int80 SYS_EXECUTE command (Addr 0) (Addr 0).
Definition ece391_read (fd : Z) (buf nbytes : Z) : prog St Z :=
  int80 SYS_READ (Addr fd) (Addr buf) (Addr nbytes).
Definition ece391_write (fd : Z) (buf : reg) (nbytes : Z) : prog St Z :=
  int80 SYS_WRITE (Addr fd) buf (Addr nbytes).
Definition ece391_open (filename : reg) : prog St Z := int80 SYS_OPEN filename (Addr 0) (Addr 0).
Definition ece391_close (fd : Z) : prog St Z := int80 SYS_CLOSE (Addr fd) (Addr 0) (Addr 0).
Definition ece391_getargs (buf nbytes : Z) : prog St Z :=
  int80 SYS_GETARGS (Addr buf) (Addr nbytes) (Addr 0).
Definition ece391_vidmap (screen_start : Z) : prog St Z :=
  int80 SYS_VIDMAP (Addr screen_start) (Addr 0) (Addr 0).
Definition ece391_set_handler (signum handler : Z) : prog St Z :=
  int80 SYS_SET_HANDLER (Addr signum) (Addr handler) (Addr 0).
Definition ece391_sigreturn : prog St Z := int80 SYS_SIGRETURN (Addr 0) (Addr 0) (Addr 0).

(** loads and stores of the program, and a routine of the string library *)
Definition load (p : reg) (i : Z) : prog St Z := fun s => Some (ldc (umem s) p i, s).
Definition store (a v : Z) : prog St unit := fun s => Some (tt, set_umem (wr (umem s) a v) s).
Definition on_mem (f : mem -> option mem) : prog St unit := fun s =>
  match f (umem s) with Some m => Some (tt, set_umem m s) | None => None end.
Definition of_mem {A} (f : mem -> option A) : prog St A := fun s =>
  match f (umem s) with Some a => Some (a, s) | None => None end.
Definition fault {A} : prog St A := fun _ => None.
End Calls.

(** ** ece391support.c *)

Section Support.
Context {M : Type} `{ByteStoreLaws M}.
Implicit Types m : M.

(** [for (len = 0; '\0' != *s; s++, len++);] *)
Fixpoint ece391_strlen_loop (fuel : nat) (m : M) (s : cptr) (len : Z) : option Z :=
  match fuel with
  | O => None
  | S f => if negb (0 =? ldc m s len) then ece391_strlen_loop f m s (len + 1) else Some len
  end.
Definition ece391_strlen (fuel : nat) (m : M) (s : cptr) : option Z := ece391_strlen_loop fuel m s 0.

(** [while ('\0' != ( *dst++ = *src++));] *)
Fixpoint ece391_strcpy_loop (fuel : nat) (m : M) (dst : Z) (src : cptr) (i : Z) : option M :=
  match fuel with
  | O => None
  | S f =>
      let c := ldc m src i in
      let m := wr m (dst + i) c in
      if negb (0 =? c) then ece391_strcpy_loop f m dst src (i + 1) else Some m
  end.
Definition ece391_strcpy (fuel : nat) (m : M) (dst : Z) (src : cptr) : option M :=
  ece391_strcpy_loop fuel m dst src 0.

Fixpoint ece391_strcmp_loop (fuel : nat) (m : M) (s1 s2 : cptr) (i : Z) : option Z :=
  match fuel with
  | O => None
  | S f =>
      if ldc m s1 i =? ldc m s2 i then
        if ldc m s1 i =? 0 then Some 0 else ece391_strcmp_loop f m s1 s2 (i + 1)
      else Some (ldc m s1 i - ldc m s2 i)
  end.
Definition ece391_strcmp (fuel : nat) (m : M) (s1 s2 : cptr) : option Z :=
  ece391_strcmp_loop fuel m s1 s2 0.

(** [n] counts down to the last character compared *)
Fixpoint ece391_strncmp_loop (n : nat) (m : M) (s1 s2 : cptr) (i : Z) : Z :=
  match n with
  | O => 0
  | S n' =>
      if ldc m s1 i =? ldc m s2 i then
        if ldc m s1 i =? 0 then 0 else ece391_strncmp_loop n' m s1 s2 (i + 1)
      else ldc m s1 i - ldc m s2 i
  end.
Definition ece391_strncmp (m : M) (s1 s2 : cptr) (n : Z) : Z :=
  ece391_strncmp_loop (Z.to_nat (u32 n)) m s1 s2 0.

Fixpoint ece391_strrev_loop (fuel : nat) (m : M) (s beg end_ : Z) : M :=
  match fuel with
  | O => m
  | S f =>
      if beg <? end_ then
        let tmp := rd m (s + end_) in
        let m := wr m (s + end_) (rd m (s + beg)) in
        let m := wr m (s + beg) tmp in
        ece391_strrev_loop f m s (beg + 1) (end_ - 1)
      else m
  end.
Definition ece391_strrev (fuel : nat) (m : M) (s : Z) : option M :=
  len ← ece391_strlen fuel m (Addr s);
  let end_ := s32 (len - 1) in
  Some (if end_ <=? 0 then m else ece391_strrev_loop (Z.to_nat len) m s 0 end_).

Fixpoint ece391_itoa_loop (fuel : nat) (m : M) (newbuf newval radix : Z) : option (M * Z) :=
  if newval >? 0 then
    match fuel with
    | O => None
    | S f =>
        c ← lookup_digits !! Z.to_nat (newval mod radix);
        ece391_itoa_loop f (wr m newbuf c) (newbuf + 1) (newval / radix) radix
    end
  else Some (m, newbuf).
Definition ece391_itoa (m : M) (value buf radix : Z) : option M :=
  if value =? 0 then Some (wr (wr m buf 48) (buf + 1) 0)
  else
    '(m, newbuf) ← ece391_itoa_loop 32 m buf value (u32 radix);
    ece391_strrev 33 (wr m newbuf 0) buf.

(** ** The same library as the kernel's *)

Lemma strlen_loop_same fuel m s i : ece391_strlen_loop fuel m s i = strlen_loop fuel m s i.
Proof.
  revert i. induction fuel as [|f IH]; intros i; cbn [ece391_strlen_loop strlen_loop]; [done|].
  rewrite s8_zero, (Z.eqb_sym 0) by apply ldc_range. now rewrite IH.
Qed.

Lemma strcpy_loop_same fuel m dst src i :
  ece391_strcpy_loop fuel m dst src i = strcpy_loop fuel m dst src i.
Proof.
  revert m i. induction fuel as [|f IH]; intros m i; cbn [ece391_strcpy_loop strcpy_loop]; [done|].
  rewrite s8_zero, (Z.eqb_sym 0) by apply ldc_range. cbv zeta.
  destruct (Z.eqb_spec (ldc m src i) 0) as [->|]; cbn [negb]; [done | apply IH].
Qed.

Lemma strncmp_loop_cstrn n m p q i :
  ece391_strncmp_loop n m p q i = 0 <-> cstrn m p n i = cstrn m q n i.
Proof.
  revert i. induction n as [|n IH]; intros i; cbn [ece391_strncmp_loop cstrn]; [done|].
  destruct (Z.eqb_spec (ldc m p i) (ldc m q i)) as [E|E].
  - rewrite <- E. destruct (Z.eqb_spec (ldc m p i) 0); [done|]. rewrite IH.
    split; [now intros -> | now intros [= ->]].
  - split; [lia|]. intros Hc.
    destruct (Z.eqb_spec (ldc m p i) 0), (Z.eqb_spec (ldc m q i) 0); congruence.
Qed.

Lemma itoa_loop_same fuel m b v r :
  0 <= v -> 0 < r -> ece391_itoa_loop fuel m b v r = itoa_loop fuel m b v r.
Proof.
  intros Hv Hr. revert m b v Hv. induction fuel as [|f IH]; intros m b v Hv;
    cbn [ece391_itoa_loop itoa_loop]; destruct (Z.gtb_spec v 0), (Z.eqb_spec v 0); try lia; try done.
  destruct (lookup_digits !! Z.to_nat (v mod r)) as [c|]; [|done].
  rewrite bind_some. apply IH. apply Z.div_pos; lia.
Qed.

Lemma strrev_loop_same fuel m s i j : ece391_strrev_loop fuel m s i j = strrev_loop fuel m s i j.
Proof.
  revert m i j. induction fuel as [|f IH]; intros m i j; cbn [ece391_strrev_loop strrev_loop]; [done|].
  destruct (i <? j); [apply IH | done].
Qed.

Lemma strrev_same fuel m s : (fuel <= 1000)%nat -> ece391_strrev fuel m s = strrev fuel m s.
Proof.
  intros Hf. unfold ece391_strrev, strrev, ece391_strlen, strlen. rewrite strlen_loop_same.
  destruct (strlen_loop fuel m (Addr s) 0) as [len|] eqn:E; [|done]. rewrite bind_some. cbv zeta.
  apply (proj1 (strlen_spec fuel m (Addr s) len)) in E as [Hl _]. rewrite s32_small by lia.
  rewrite strrev_loop_same. destruct (Z.leb_spec (len - 1) 0); [|done].
  destruct (Z.to_nat len); [done|]. cbn [strrev_loop]. now destruct (Z.ltb_spec 0 (len - 1)); [lia|].
Qed.

Lemma itoa_same m v buf r :
  0 <= v -> 0 < r < 2147483648 -> ece391_itoa m v buf r = itoa m v buf r.
Proof.
  intros Hv Hr. unfold ece391_itoa, itoa. destruct (v =? 0); [done|].
  rewrite itoa_loop_same by (rewrite ?u32_small; lia).
  destruct (itoa_loop 32 m buf v (u32 r)) as [[m' b]|]; [|done].
  rewrite bind_some. apply strrev_same. lia.
Qed.

(** C29: The string library linked into the programs computes what the kernel's
    own does, on every memory: strlen and strcpy agree for any bound on the
    length, itoa writes the same bytes for every 32-bit value and every radix
    from 1 to 2^31 - 1, and strncmp accepts the same pairs (the kernel compares
    signed characters, the programs unsigned ones, so only the sign of a
    difference can differ). *)
Theorem support_library_is_the_kernels fuel m p q dst v buf r n :
  0 <= v < 4294967296 -> 0 < r < 2147483648 ->
  ece391_strlen fuel m p = strlen fuel m p /\
  ece391_strcpy fuel m dst p = strcpy fuel m dst p /\
  ece391_itoa m v buf r = itoa m v buf r /\
  (ece391_strncmp m p q n = 0 <-> strncmp m p q n = 0).
Proof.
  intros Hv Hr. split; [apply strlen_loop_same|]. split; [apply strcpy_loop_same|]. split.
  - now apply itoa_same.
  - unfold ece391_strncmp. rewrite strncmp_loop_cstrn, strncmp_zero. done.
Qed.
End Support.

(** 255 in hexadecimal, and a string against another *)
Lemma support_library_is_the_kernels_witness :
  let m : mem := ∅ in
  ece391_itoa m 255 4096 16 = itoa m 255 4096 16 /\
  (ece391_strncmp m (Obj [99; 97; 116]) (Obj [99; 97; 98]) 2 = 0 <->
   strncmp m (Obj [99; 97; 116]) (Obj [99; 97; 98]) 2 = 0).
Proof.
  intros m.
  destruct (support_library_is_the_kernels 10 m (Obj [99; 97; 116]) (Obj [99; 97; 98]) 8192 255 4096 16 2)
    as (_ & _ & Hi & Hc); [lia | lia |].
  exact (conj Hi Hc).
Defined.

(** ** What a program may rely on *)

(** what a descriptor still delivers *)
Inductive source :=
| Bytes (rest : list Z)             (* a regular file, from its position on *)
| Entries (names : list (list Z)).  (* a directory *)

(** the bytes of a read of [n], and what is left *)
Definition pull (n : Z) (src : source) : list Z * source :=
  match src with
  | Bytes l => (take (Z.to_nat n) l, Bytes (drop (Z.to_nat n) l))
  | Entries [] => ([], Entries [])
  | Entries (x :: xs) => (x, Entries xs)
  end.

(** [t] is the C string at [p] *)
Definition c_string (m : mem) (p : reg) (t : list Z) : Prop :=
  text_at m p 0 t /\ ldc m p (Z.of_nat (length t)) = 0 /\ Forall (fun c => 0 < c < 256) t.

(** the program's variables are in the [n] bytes from [lo] on *)
Definition in_frame (lo n a k : Z) : Prop := lo <= a /\ 0 <= k /\ a + k <= lo + n.
Definition readable_arg (lo n : Z) (p : reg) (k : Z) : Prop :=
  match p with Addr a => in_frame lo n a k | Obj _ => True end.
(** the same frame *)
Definition same_frame (lo n : Z) (m m' : mem) : Prop := forall a, lo <= a < lo + n -> rd m' a = rd m a.

(** What a program's state is worth to it.  [shown] is the terminal;
    [stream fd src] is an open descriptor, [free] says that open will find one;
    [arg] is the program's argument, [holds] and [lacks] are names the directory
    has, with what they lead to, and has not; [lines] are the keys the user will
    type, line by line, while the program waits for them. *)
Class View (St : Type) := {
  ok : St -> Prop;
  shown : St -> tty;
  stream : Z -> source -> St -> Prop;
  free : St -> Prop;
  arg : list Z -> St -> Prop;
  holds : list Z -> source -> St -> Prop;
  lacks : list Z -> St -> Prop;
  lines : list (list key) -> St -> Prop
}.

(** the text a line of keys comes to *)
Definition text_of (keys : list key) : list Z := fold_left edit keys [].

Section Views.
Context {St : Type} `{View St}.

(** [s'] follows [s]; the terminal went through [f] *)
Record follows (f : tty -> tty) (s s' : St) : Prop := {
  fo_ok : ok s';
  fo_shown : shown s' = f (shown s);
  fo_arg : forall a, arg a s -> arg a s';
  fo_holds : forall t src, holds t src s -> holds t src s';
  fo_lacks : forall t, lacks t s -> lacks t s'
}.
(** ... the program printed [l] *)
Record after (l : list Z) (s s' : St) : Prop := {
  af_follows : follows (tty_show l) s s';
  af_lines : forall ls, lines ls s -> lines ls s'
}.
(** and the descriptors are as before *)
Record kept (l : list Z) (s s' : St) : Prop := {
  kp_after : after l s s';
  kp_stream : forall fd src, stream fd src s -> stream fd src s';
  kp_free : free s -> free s'
}.

Lemma af_ok l s s' : after l s s' -> ok s'.
Proof. intros A. exact (fo_ok _ _ _ (af_follows _ _ _ A)). Qed.
Lemma af_shown l s s' : after l s s' -> shown s' = tty_show l (shown s).
Proof. intros A. exact (fo_shown _ _ _ (af_follows _ _ _ A)). Qed.
Lemma af_arg l s s' : after l s s' -> forall a, arg a s -> arg a s'.
Proof. intros A. exact (fo_arg _ _ _ (af_follows _ _ _ A)). Qed.
Lemma af_holds l s s' : after l s s' -> forall t src, holds t src s -> holds t src s'.
Proof. intros A. exact (fo_holds _ _ _ (af_follows _ _ _ A)). Qed.
Lemma af_lacks l s s' : after l s s' -> forall t, lacks t s -> lacks t s'.
Proof. intros A. exact (fo_lacks _ _ _ (af_follows _ _ _ A)). Qed.

Lemma follows_trans f g s1 s2 s3 :
  follows f s1 s2 -> follows g s2 s3 -> follows (fun t => g (f t)) s1 s3.
Proof. intros [O1 S1 A1 H1 L1] [O2 S2 A2 H2 L2]. split; auto. now rewrite S2, S1. Qed.
Lemma after_app l1 l2 s1 s2 s3 : after l1 s1 s2 -> after l2 s2 s3 -> after (l1 ++ l2) s1 s3.
Proof.
  intros [[O1 S1 A1 H1 L1] T1] [[O2 S2 A2 H2 L2] T2]. split; [split|]; auto.
  now rewrite tty_show_app, S2, S1.
Qed.
Lemma kept_app l1 l2 s1 s2 s3 : kept l1 s1 s2 -> kept l2 s2 s3 -> kept (l1 ++ l2) s1 s3.
Proof. intros [A1 T1 F1] [A2 T2 F2]. split; auto. eapply after_app; eassumption. Qed.
Lemma kept_nil_l l s1 s2 s3 : kept [] s1 s2 -> kept l s2 s3 -> kept l s1 s3.
Proof. apply (kept_app []). Qed.
Lemma after_nil_l l s1 s2 s3 : after [] s1 s2 -> after l s2 s3 -> after l s1 s3.
Proof. apply (after_app []). Qed.
Lemma after_nil_r l s1 s2 s3 : after l s1 s2 -> after [] s2 s3 -> after l s1 s3.
Proof. intros A B. rewrite <- (app_nil_r l). eapply after_app; eassumption. Qed.
Lemma after_refl s : ok s -> after [] s s.
Proof. intros. split; [split|]; auto. Qed.
End Views.

(** The contract: what each call does for a program whose variables are in
    the [n] bytes from [lo] on. *)
Class Contract (St : Type) `{SysCalls St} `{View St} (lo n : Z) := {
  frame_range : 0 < lo /\ lo + n <= 4294967296;
  law_store : forall s m, ok s -> (forall a, n <= off lo a -> rd m a = rd (umem s) a) ->
    umem (set_umem m s) = m /\ kept [] s (set_umem m s);
  law_write : forall s p l, ok s -> text_at (umem s) p 0 l -> readable_arg lo n p (Z.of_nat (length l)) ->
    Forall (fun c => 0 <= c < 256) l -> Z.of_nat (length l) < 2147483648 ->
    exists r s', ece391_write 1 p (Z.of_nat (length l)) s = Some (r, s') /\ r <> -1 /\
      kept l s s' /\ same_frame lo n (umem s) (umem s');
  law_read : forall s fd src buf k, ok s -> stream fd src s -> in_frame lo n buf k -> 32 <= k <= 4096 ->
    let '(l, src') := pull k src in
    exists s', ece391_read fd buf k s = Some (Z.of_nat (length l), s') /\ after [] s s' /\
      stream fd src' s' /\ Z.of_nat (length l) <= k /\ Forall (fun c => 0 <= c < 256) l /\
      rdn (umem s') buf (length l) = l /\
      (forall a, lo <= a < lo + n -> k <= off buf a -> rd (umem s') a = rd (umem s) a);
  law_open : forall s p t src, ok s -> free s -> holds t src s -> c_string (umem s) p t ->
    readable_arg lo n p (Z.of_nat (length t) + 1) ->
    exists fd s', ece391_open p s = Some (fd, s') /\ fd <> -1 /\ after [] s s' /\ stream fd src s' /\
      same_frame lo n (umem s) (umem s');
  law_missing : forall s p t, ok s -> free s -> lacks t s -> c_string (umem s) p t ->
    readable_arg lo n p (Z.of_nat (length t) + 1) ->
    exists s', ece391_open p s = Some (-1, s') /\ kept [] s s' /\ same_frame lo n (umem s) (umem s');
  law_close : forall s fd src, ok s -> stream fd src s ->
    exists s', ece391_close fd s = Some (0, s') /\ after [] s s' /\ free s' /\
      same_frame lo n (umem s) (umem s');
  law_getargs : forall s t buf, ok s -> arg t s -> in_frame lo n buf 1024 ->
    exists s', ece391_getargs buf 1024 s = Some (0, s') /\ kept [] s s' /\
      (length t < 1024)%nat /\ c_string (umem s') (Addr buf) t;
  law_line : forall s keys ls buf k, ok s -> lines (keys :: ls) s -> in_frame lo n buf k -> k <= 4096 ->
    Z.of_nat (length (text_of keys)) < k -> (Back ∈ keys -> 7 <= col (shown s)) ->
    col (shown s) + Z.of_nat (length keys) <= 79 ->
    exists s', ece391_read 0 buf k s = Some (Z.of_nat (length (text_of keys)), s') /\
      follows (fun t => tty_enter (tty_keys [] keys t)) s s' /\ lines ls s' /\
      (forall fd src, stream fd src s -> stream fd src s') /\ (free s -> free s') /\
      Forall (fun c => 32 <= c <= 126) (text_of keys) /\
      rdn (umem s') buf (length (text_of keys)) = text_of keys /\
      (forall a, lo <= a < lo + n -> k <= off buf a -> rd (umem s') a = rd (umem s) a)
}.

(** ** Printing a string *)

(** [(void)ece391_write (fd, s, ece391_strlen(s))] *)
Definition ece391_fdputs {St} `{SysCalls St} (fd : Z) (p : reg) : prog St unit :=
  n ← of_mem (fun m => ece391_strlen STR_FUEL m p);
  _ ← ece391_write fd p n;
  mret tt.

(** a literal *)
Definition lit (s : string) : reg := Obj (chars s).

Lemma c_string_strlen fuel (m : mem) p t :
  c_string m p t -> (length t < fuel)%nat ->
  ece391_strlen fuel m p = Some (Z.of_nat (length t)).
Proof.
  intros (Ht & Hz & Hc) Hf. unfold ece391_strlen. rewrite strlen_loop_same. apply strlen_spec.
  split; [lia|]. split; [done|].
  intros j Hj. specialize (Ht j Hj). rewrite Z.add_0_l in Ht. rewrite Ht.
  rewrite Forall_lookup in Hc. destruct (lookup_lt_is_Some_2 t (Z.to_nat j)) as [x Hx]; [lia|].
  unfold aget. rewrite (list_lookup_total_correct _ _ _ Hx). specialize (Hc _ _ Hx). cbn in Hc. lia.
Qed.

(** the rest of a C string, from a character or its end on *)
Lemma c_string_rest (m : mem) p t i :
  c_string m p t -> (i <= length t)%nat ->
  match drop i t with
  | [] => ldc m p (Z.of_nat i) = 0 /\ i = length t
  | c :: t' => ldc m p (Z.of_nat i) = c /\ c <> 0 /\ drop (S i) t = t' /\ (i < length t)%nat
  end.
Proof.
  intros (Ht & Hz & Hc) Hi. destruct (drop i t) as [|c t'] eqn:E.
  - assert (i = length t) as -> by (apply (f_equal length) in E; rewrite length_drop in E; cbn in E; lia).
    exact (conj Hz eq_refl).
  - assert (i < length t)%nat as Hlt by (apply (f_equal length) in E; rewrite length_drop in E; cbn in E; lia).
    destruct (lookup_lt_is_Some_2 t i Hlt) as [x Hx]. pose proof (drop_S t x i Hx) as Hd. rewrite E in Hd.
    injection Hd as -> ->. rewrite Forall_lookup in Hc. specialize (Hc _ _ Hx). cbn in Hc.
    specialize (Ht (Z.of_nat i) ltac:(lia)). rewrite Z.add_0_l in Ht. rewrite Ht. unfold aget.
    rewrite Nat2Z.id, (list_lookup_total_correct _ _ _ Hx). split_and!; try done; lia.
Qed.

(** strcmp tells C strings apart *)
Lemma strcmp_loop_compares fuel (m : mem) p q t u i :
  c_string m p t -> c_string m q u -> (i <= length t)%nat -> (i <= length u)%nat -> (length t - i < fuel)%nat ->
  exists d, ece391_strcmp_loop fuel m p q (Z.of_nat i) = Some d /\ (d = 0 <-> drop i t = drop i u).
Proof.
  intros Hp Hq. revert i. induction fuel as [|f IH]; intros i Hi Hj Hf; [lia|]. cbn [ece391_strcmp_loop].
  pose proof (c_string_rest m p t i Hp Hi) as Ht. pose proof (c_string_rest m q u i Hq Hj) as Hu.
  destruct (drop i t) as [|c t'] eqn:Et, (drop i u) as [|c' u'] eqn:Eu.
  - destruct Ht as [-> _], Hu as [-> _]. now exists 0.
  - destruct Ht as [-> _], Hu as (-> & Hc & _). destruct (Z.eqb_spec 0 c'); [congruence|].
    exists (0 - c'). split; [reflexivity|]. split; [lia | discriminate].
  - destruct Ht as (-> & Hc & _), Hu as [-> _]. destruct (Z.eqb_spec c 0); [congruence|].
    exists (c - 0). split; [reflexivity|]. split; [lia | discriminate].
  - destruct Ht as (-> & Hc & Ht & Hlt), Hu as (-> & Hc' & Hu & Hlu). destruct (Z.eqb_spec c c') as [->|Hne].
    + destruct (Z.eqb_spec c' 0); [congruence|]. replace (Z.of_nat i + 1) with (Z.of_nat (S i)) by lia.
      destruct (IH (S i)) as (d & E & Hd); [lia | lia | lia |]. exists d. split; [exact E|].
      rewrite Hd, Ht, Hu. split; [now intros -> | now intros [= ->]].
    + exists (c - c'). split; [reflexivity|]. split; [lia | intros [= ? ?]; congruence].
Qed.

Lemma strcmp_compares fuel (m : mem) p q t u :
  c_string m p t -> c_string m q u -> (length t < fuel)%nat ->
  exists d, ece391_strcmp fuel m p q = Some d /\ (d = 0 <-> t = u).
Proof. intros Hp Hq Hf. exact (strcmp_loop_compares fuel m p q t u 0 Hp Hq ltac:(lia) ltac:(lia) ltac:(lia)). Qed.

Definition text_bytes (t : list Z) : bool := forallb (fun c => (0 <? c) && (c <? 256)) t.

Lemma text_bytes_spec t : text_bytes t = true -> Forall (fun c => 0 < c < 256) t.
Proof.
  unfold text_bytes. rewrite forallb_forall. intros Ht. apply Forall_forall. intros c Hc%list_elem_of_In.
  apply Ht in Hc. lia.
Qed.

Lemma c_string_literal (m : mem) t : text_bytes t = true -> c_string m (Obj t) t.
Proof.
  intros Hc%text_bytes_spec. split; [|split; [|exact Hc]].
  - intros j Hj. rewrite Z.add_0_l. cbn [ldc]. unfold in_range.
    destruct (Z.leb_spec 0 j), (Z.ltb_spec j (Z.of_nat (length t))); try lia. cbn [andb].
    apply u8_small. unfold aget. rewrite Forall_lookup in Hc.
    destruct (lookup_lt_is_Some_2 t (Z.to_nat j)) as [x Hx]; [lia|].
    rewrite (list_lookup_total_correct _ _ _ Hx). specialize (Hc _ _ Hx). cbn in Hc. lia.
  - cbn [ldc]. unfold in_range. now rewrite Z.ltb_irrefl, andb_false_r.
Qed.

Section Printing.
Context {St : Type} `{Contract St lo n}.

Lemma same_frame_refl m : same_frame lo n m m.
Proof. now intros a. Qed.
Lemma same_frame_trans m1 m2 m3 : same_frame lo n m1 m2 -> same_frame lo n m2 m3 -> same_frame lo n m1 m3.
Proof. intros E1 E2 a Ha. now rewrite E2, E1. Qed.

Lemma fdputs_shows s p t :
  ok s -> c_string (umem s) p t -> (length t < STR_FUEL)%nat ->
  readable_arg lo n p (Z.of_nat (length t)) ->
  exists s', ece391_fdputs 1 p s = Some (tt, s') /\ kept t s s' /\ same_frame lo n (umem s) (umem s').
Proof.
  intros Hok Hs Hl Hp. unfold ece391_fdputs, mbind, prog_bind, of_mem.
  rewrite (c_string_strlen _ _ _ _ Hs Hl). destruct Hs as (Ht & _ & Hc).
  destruct (law_write s p t Hok Ht Hp) as (r & s' & E & _ & Hk & Hf).
  - eapply Forall_impl; [exact Hc|]. intros c Hr. cbn in Hr. lia.
  - assert (STR_FUEL < 5000)%nat by (apply Nat.ltb_lt; reflexivity). lia.
  - rewrite E. exists s'. split; [reflexivity|]. split; [exact Hk | exact Hf].
Qed.

Lemma fdputs_literal s t :
  ok s -> text_bytes (chars t) = true -> (length (chars t) < STR_FUEL)%nat ->
  exists s', ece391_fdputs 1 (lit t) s = Some (tt, s') /\ kept (chars t) s s' /\
    same_frame lo n (umem s) (umem s').
Proof.
  intros Hok Hc Hl. apply fdputs_shows; [exact Hok | now apply c_string_literal | exact Hl | done].
Qed.
End Printing.
