(* ===== verification/Programs.v ===== *)
(** * The user programs (src/syscalls)

    cat, ls, hello, testprint, counter, grep and the shell, over the interface
    of UserLib.v.  A program's arrays are at the addresses it is
    given; [None] is a fault or a loop that has not ended when its fuel has. *)

From Stdlib Require Import ZArith Lia String.
From stdpp Require Import base list gmap.
From S2P Require Import Prelude Memory CMem CStr Console TermIO Terminal Tty Dispatch UserLib.
Open Scope Z_scope.

Definition BUFSIZE : Z := 1024.
Definition SBUFSIZE : Z := 33.

Section Programs.
Context {St : Type} `{SysCalls St}.
#[local] Abbreviation puts s := (ece391_fdputs 1 (lit s)).
#[local] Abbreviation putln s := (ece391_fdputs 1 (Obj (chars s ++ [10]))).

(** ** ece391cat.c *)

(** [while (0 != (cnt = ece391_read (fd, buf, 1024)))] *)
Fixpoint cat_loop (fuel : nat) (fd buf : Z) : prog St Z :=
  match fuel with
  | O => fault
  | S f =>
      cnt ← ece391_read fd buf 1024;
      if cnt =? 0 then mret 0
      else if cnt =? -1 then _ ← putln "file read failed"; mret 3
      else
        r ← ece391_write 1 (Addr buf) cnt;
        if r =? -1 then mret 3 else cat_loop f fd buf
  end.

Definition cat (fuel : nat) (buf : Z) : prog St Z :=
  r ← ece391_getargs buf 1024;
  if negb (0 =? r) then _ ← putln "could not read arguments"; mret 3
  else
    fd ← ece391_open (Addr buf);
    if fd =? -1 then _ ← putln "file not found"; mret 2
    else cat_loop fuel fd buf.

(** ** ece391ls.c *)

Fixpoint ls_loop (fuel : nat) (fd buf : Z) : prog St Z :=
  match fuel with
  | O => fault
  | S f =>
      cnt ← ece391_read fd buf (SBUFSIZE - 1);
      if cnt =? 0 then mret 0
      else if cnt =? -1 then _ ← putln "directory entry read failed"; mret 3
      else
        _ ← store (buf + cnt) 10;
        r ← ece391_write 1 (Addr buf) (cnt + 1);
        if r =? -1 then mret 3 else ls_loop f fd buf
  end.

Definition ls (fuel : nat) (buf : Z) : prog St Z :=
  fd ← ece391_open (lit ".");
  if fd =? -1 then _ ← putln "directory open failed"; mret 2
  else ls_loop fuel fd buf.

(** ** ece391testprint.c and ece391hello.c *)

Definition testprint : prog St Z :=
  _ ← putln "Hello, if this ran, the program was correct. Yay!"; mret 0.

Definition hello (buf : Z) : prog St Z :=
  _ ← puts "Hi, what's your name? ";
  cnt ← ece391_read 0 buf (BUFSIZE - 1);
  if cnt =? -1 then _ ← putln "Can't read name from keyboard."; mret 3
  else
    _ ← store (buf + cnt) 0;
    _ ← puts "Hello, ";
    _ ← ece391_fdputs 1 (Addr buf);
    mret 0.

(** ** ece391counter.c *)

(** [for (i = 0; i < max; i++)] *)
Fixpoint count_loop (k : nat) (i buf : Z) : prog St unit :=
  match k with
  | O => mret tt
  | S k' =>
      _ ← on_mem (fun m => ece391_itoa m (u32 (i + 1)) buf 10);
      _ ← ece391_fdputs 1 (Addr buf);
      _ ← putln "";
      count_loop k' (i + 1) buf
  end.

(** the [switch] on the first character *)
Definition count_max (c : Z) : Z :=
  if c =? 48 then 100 else if c =? 49 then 10000 else if c =? 50 then 100000 else 0.

Definition counter (buf : Z) : prog St Z :=
  _ ← putln "Enter the Test Number: (0): 100, (1): 10000, (2): 100000";
  cnt ← ece391_read 0 buf (BUFSIZE - 1);
  if u32 cnt =? u32 (-1) then _ ← putln "Can't read the number from keyboard."; mret 3
  else
    _ ← store (buf + cnt) 0;
    len ← of_mem (fun m => ece391_strlen STR_FUEL m (Addr buf));
    c ← load (Addr buf) 0;
    if (len >? 1) || ((len =? 1) && ((c <? 48) || (c >? 50)))
    then _ ← putln "Wrong Choice!"; mret 0
    else _ ← count_loop (Z.to_nat (count_max c)) 0 buf; mret 0.

(** ** ece391grep.c *)

(** [while (line_end < last && '\n' != data[line_end]) line_end++;] *)
Fixpoint find_end (fuel : nat) (data last line_end : Z) : prog St Z :=
  match fuel with
  | O => fault
  | S f =>
      if line_end <? last then
        c ← load (Addr data) line_end;
        if c =? 10 then mret line_end else find_end f data last (line_end + 1)
      else mret line_end
  end.

(** [for (check = line_start; check < line_end; check++)]: [k] rounds *)
Fixpoint search_line (k : nat) (s : reg) (fname : reg) (data s_len line_start check : Z) : prog St unit :=
  match k with
  | O => mret tt
  | S k' =>
      s0 ← load s 0;
      c ← load (Addr data) check;
      d ← of_mem (fun m => Some (ece391_strncmp m (Addr (data + check)) s s_len));
      if (s0 =? c) && (d =? 0) then
        _ ← ece391_fdputs 1 fname;
        _ ← puts ":";
        _ ← ece391_fdputs 1 (Addr (data + line_start));
        putln ""
      else search_line k' s fname data s_len line_start (check + 1)
  end.

(** the inner [while (1)]: the lines of [data]; the new [last] *)
Fixpoint grep_lines (fuel : nat) (s fname : reg) (data s_len cnt last line_start : Z) : prog St Z :=
  match fuel with
  | O => fault
  | S f =>
      line_end ← find_end (S (Z.to_nat (last - line_start))) data last line_start;
      c ← load (Addr data) line_end;
      if negb (c =? 10) && negb (cnt =? 0) && negb (line_start =? 0) then
        _ ← store (data + line_end) 0;
        _ ← on_mem (fun m => ece391_strcpy STR_FUEL m data (Addr (data + line_start)));
        mret (last - line_start)
      else
        _ ← store (data + line_end) 0;
        _ ← search_line (Z.to_nat (line_end - line_start)) s fname data s_len line_start line_start;
        if line_end + 1 >=? last then mret 0
        else grep_lines f s fname data s_len cnt last (line_end + 1)
  end.

(** the outer [while (1)] *)
Fixpoint grep_loop (fuel : nat) (s fname : reg) (data s_len fd last : Z) : prog St Z :=
  match fuel with
  | O => fault
  | S f =>
      cnt ← ece391_read fd (data + last) (BUFSIZE - last);
      if cnt =? -1 then _ ← putln "file read failed"; mret (-1)
      else
        let last := last + cnt in
        last ← grep_lines (S (S (Z.to_nat last))) s fname data s_len cnt last 0;
        if cnt =? 0 then
          r ← ece391_close fd;
          if r =? -1 then _ ← putln "file close failed"; mret (-1) else mret 0
        else grep_loop f s fname data s_len fd last
  end.

Definition do_one_file (fuel : nat) (s fname : reg) (data : Z) : prog St Z :=
  s_len ← of_mem (fun m => ece391_strlen STR_FUEL m s);
  fd ← ece391_open fname;
  if fd =? -1 then _ ← putln "file open failed"; mret (-1)
  else grep_loop fuel s fname data s_len fd 0.

Fixpoint grep_dir (fuel fuel1 : nat) (fd buf search data : Z) : prog St Z :=
  match fuel with
  | O => fault
  | S f =>
      cnt ← ece391_read fd buf (SBUFSIZE - 1);
      if cnt =? 0 then mret 0
      else if cnt =? -1 then _ ← putln "directory entry read failed"; mret 3
      else
        c ← load (Addr buf) 0;
        if c =? 46 then grep_dir f fuel1 fd buf search data
        else
          _ ← store (buf + cnt) 0;
          r ← do_one_file fuel1 (Addr search) (Addr buf) data;
          if negb (r =? 0) then mret 3 else grep_dir f fuel1 fd buf search data
  end.

Definition grep (fuel fuel1 : nat) (buf search data : Z) : prog St Z :=
  r ← ece391_getargs search BUFSIZE;
  if negb (0 =? r) then _ ← putln "could not read argument"; mret 3
  else
    fd ← ece391_open (lit ".");
    if fd =? -1 then _ ← putln "directory open failed"; mret 2
    else grep_dir fuel fuel1 fd buf search data.

(** ** ece391shell.c *)

Fixpoint shell_loop (fuel : nat) (buf : Z) : prog St Z :=
  match fuel with
  | O => fault
  | S f =>
      _ ← puts "391OS> ";
      cnt ← ece391_read 0 buf (BUFSIZE - 1);
      if cnt =? -1 then _ ← putln "read from keyboard failed"; mret 3
      else
        cnt ← (if cnt >? 0
               then c ← load (Addr buf) (cnt - 1); mret (if c =? 10 then cnt - 1 else cnt)
               else mret cnt);
        _ ← store (buf + cnt) 0;
        d ← of_mem (fun m => ece391_strcmp STR_FUEL m (Addr buf) (lit "exit"));
        if d =? 0 then mret 0
        else
          c ← load (Addr buf) 0;
          if c =? 0 then shell_loop f buf
          else
            rval ← ece391_execute (Addr buf);
            _ ← (if rval =? -1 then putln "no such command"
                 else if rval =? 256 then putln "program terminated by exception"
                 else if negb (rval =? 0) then putln "program terminated abnormally"
                 else mret tt);
            shell_loop f buf
  end.

Definition shell (fuel : nat) (buf : Z) : prog St Z :=
  _ ← putln "Starting 391 Shell";
  shell_loop fuel buf.

(** ** Running a program: [_start] calls main and halts with its value *)

Definition start (main : prog St Z) : prog St Z := v ← main; ece391_halt v.
End Programs.

(** ** What the programs do *)

Section Correct.
Context {St : Type} `{Contract St lo n}.

Lemma run_bind {A B} (p : prog St A) (f : A -> prog St B) s a s' :
  p s = Some (a, s') -> (p ≫= f) s = f a s'.
Proof. intros E. unfold mbind, prog_bind. now rewrite E. Qed.

Lemma text_at_rdn (m : mem) a l : rdn m a (length l) = l -> text_at m (Addr a) 0 l.
Proof.
  intros Hr j Hj. rewrite Z.add_0_l. cbn [ldc]. unfold aget. rewrite <- Hr at 1.
  rewrite rdn_lookup by lia. f_equal. lia.
Qed.

(** printing a literal, in front of the rest of a program *)
Lemma puts_then {B} t (f : unit -> prog St B) s :
  ok s -> text_bytes t = true -> (length t < STR_FUEL)%nat ->
  exists s', (ece391_fdputs 1 (Obj t) ≫= f) s = f tt s' /\ kept t s s' /\
    same_frame lo n (umem s) (umem s').
Proof.
  intros Hok Hc Hl.
  destruct (fdputs_shows (lo := lo) (n := n) s (Obj t) t Hok (c_string_literal _ _ Hc) Hl I) as (s' & E & Hk & Hf).
  exists s'. split; [exact (run_bind _ _ _ _ _ E)|]. split; [exact Hk | exact Hf].
Qed.

(** *** cat *)

Lemma cat_loop_copies l fuel fd buf s :
  ok s -> stream fd (Bytes l) s -> in_frame lo n buf 1024 -> (length l < fuel)%nat ->
  exists s', cat_loop fuel fd buf s = Some (0, s') /\ after l s s'.
Proof.
  revert l s. induction fuel as [|f IH]; intros l s Hok Hst Hb Hf; [lia|]. cbn [cat_loop].
  destruct (law_read s fd (Bytes l) buf 1024 Hok Hst Hb ltac:(lia))
    as (s1 & E1 & A1 & St1 & Hlen & Hbytes & Hrd & _).
  rewrite (run_bind _ _ _ _ _ E1). change (Z.to_nat 1024) with 1024%nat in *.
  destruct (Z.eqb_spec (Z.of_nat (length (take 1024 l))) 0) as [E0|Hne].
  - exists s1. split; [reflexivity|]. rewrite length_take in E0.
    destruct l; [exact A1 | cbn [length] in E0; lia].
  - destruct (Z.eqb_spec (Z.of_nat (length (take 1024 l))) (-1)); [lia|].
    destruct (law_write s1 (Addr buf) (take 1024 l)) as (r & s2 & E2 & Hr & K2 & _).
    + exact (af_ok _ _ _ A1).
    + now apply text_at_rdn.
    + unfold readable_arg, in_frame in *. lia.
    + exact Hbytes.
    + lia.
    + rewrite (run_bind _ _ _ _ _ E2). destruct (Z.eqb_spec r (-1)); [contradiction|].
      destruct (IH (drop 1024 l) s2) as (s3 & E3 & A3).
      * exact (af_ok _ _ _ (kp_after _ _ _ K2)).
      * apply (kp_stream _ _ _ K2). exact St1.
      * exact Hb.
      * rewrite length_drop. rewrite length_take in Hne. lia.
      * exists s3. split; [exact E3|]. rewrite <- (take_drop 1024 l).
        eapply after_app; [|exact A3]. eapply after_nil_l; [exact A1 | exact (kp_after _ _ _ K2)].
Qed.

Lemma cat_copies s name content buf fuel :
  ok s -> free s -> arg name s -> holds name (Bytes content) s -> in_frame lo n buf 1024 ->
  (length content < fuel)%nat ->
  exists s', cat fuel buf s = Some (0, s') /\ after content s s'.
Proof.
  intros Hok Hfree Harg Hh Hb Hf. unfold cat.
  destruct (law_getargs s name buf Hok Harg Hb) as (s1 & E1 & K1 & Hn & Hs).
  rewrite (run_bind _ _ _ _ _ E1). change (negb (0 =? 0)) with false. cbv iota.
  pose proof (kp_after _ _ _ K1) as A1.
  destruct (law_open s1 (Addr buf) name (Bytes content)) as (fd & s2 & E2 & Hfd & A2 & St2 & _).
  - exact (af_ok _ _ _ A1).
  - exact (kp_free _ _ _ K1 Hfree).
  - exact (af_holds _ _ _ A1 _ _ Hh).
  - exact Hs.
  - unfold readable_arg, in_frame in *. lia.
  - rewrite (run_bind _ _ _ _ _ E2). destruct (Z.eqb_spec fd (-1)); [contradiction|].
    destruct (cat_loop_copies content fuel fd buf s2 (af_ok _ _ _ A2) St2 Hb Hf) as (s3 & E3 & A3).
    exists s3. split; [exact E3|].
    eapply after_nil_l; [exact A1|]. eapply after_nil_l; [exact A2 | exact A3].
Qed.

Lemma cat_not_found s name buf fuel :
  ok s -> free s -> arg name s -> lacks name s -> in_frame lo n buf 1024 ->
  exists s', cat fuel buf s = Some (2, s') /\ after (chars "file not found" ++ [10]) s s'.
Proof.
  intros Hok Hfree Harg Hh Hb. unfold cat.
  destruct (law_getargs s name buf Hok Harg Hb) as (s1 & E1 & K1 & Hn & Hs).
  rewrite (run_bind _ _ _ _ _ E1). change (negb (0 =? 0)) with false. cbv iota.
  pose proof (kp_after _ _ _ K1) as A1.
  destruct (law_missing s1 (Addr buf) name) as (s2 & E2 & K2 & _).
  - exact (af_ok _ _ _ A1).
  - exact (kp_free _ _ _ K1 Hfree).
  - exact (af_lacks _ _ _ A1 _ Hh).
  - exact Hs.
  - unfold readable_arg, in_frame in *. lia.
  - rewrite (run_bind _ _ _ _ _ E2). change (-1 =? -1) with true. cbv iota.
    pose proof (kp_after _ _ _ K2) as A2.
    destruct (puts_then (chars "file not found" ++ [10]) (fun _ => mret 2) s2 (af_ok _ _ _ A2))
      as (s3 & -> & K3 & _); [reflexivity | apply Nat.ltb_lt; reflexivity |].
    exists s3. split; [reflexivity|].
    eapply after_nil_l; [exact A1|]. eapply after_nil_l; [exact A2 | exact (kp_after _ _ _ K3)].
Qed.

(** *** ls *)

(** the names as ls prints them *)
Definition listing (names : list (list Z)) : list Z := concat (map (fun x => x ++ [10]) names).

Lemma rd_store_frame (m : mem) a v : in_frame lo n a 1 -> forall b, n <= off lo b -> rd (wr m a v) b = rd m b.
Proof.
  intros Ha b Hb. rewrite rd_wr_off. destruct (Z.eqb_spec (off a b) 0) as [E|]; [|done].
  pose proof frame_range. unfold in_frame in Ha. exfalso. zlia.
Qed.

Lemma store_then {B} a v (f : unit -> prog St B) s :
  ok s -> in_frame lo n a 1 ->
  exists s', (store a v ≫= f) s = f tt s' /\ kept [] s s' /\ umem s' = wr (umem s) a v.
Proof.
  intros Hok Ha. destruct (law_store s (wr (umem s) a v) Hok) as [E K]; [now apply rd_store_frame|].
  exists (set_umem (wr (umem s) a v) s). split; [reflexivity|]. split; [exact K | exact E].
Qed.

Lemma ls_loop_lists names fuel fd buf s :
  ok s -> stream fd (Entries names) s -> in_frame lo n buf 33 -> Forall (fun x => x <> []) names ->
  (length names < fuel)%nat ->
  exists s', ls_loop fuel fd buf s = Some (0, s') /\ after (listing names) s s'.
Proof.
  revert names s. induction fuel as [|f IH]; intros names s Hok Hst Hb Hne Hf; [lia|]. cbn [ls_loop].
  assert (in_frame lo n buf 32) as Hb32 by (unfold in_frame in *; lia).
  pose proof (law_read s fd (Entries names) buf 32 Hok Hst Hb32 ltac:(lia)) as Hl.
  change (SBUFSIZE - 1) with 32. destruct names as [|x names]; cbn [pull] in Hl.
  - destruct Hl as (s1 & E1 & A1 & _). rewrite (run_bind _ _ _ _ _ E1). exists s1. split; [reflexivity | exact A1].
  - destruct Hl as (s1 & E1 & A1 & St1 & Hlen & Hbytes & Hrd & _). rewrite (run_bind _ _ _ _ _ E1).
    apply Forall_cons_1 in Hne as [Hx Hne]. assert (0 < length x)%nat by (destruct x; [done | cbn; lia]).
    destruct (Z.eqb_spec (Z.of_nat (length x)) 0); [lia|].
    destruct (Z.eqb_spec (Z.of_nat (length x)) (-1)); [lia|].
    destruct (store_then (buf + Z.of_nat (length x)) 10 (fun _ =>
      r ← ece391_write 1 (Addr buf) (Z.of_nat (length x) + 1);
      if r =? -1 then mret 3 else ls_loop f fd buf) s1) as (s2 & -> & K2 & Hm2).
    { exact (af_ok _ _ _ A1). }
    { unfold in_frame in *. lia. }
    pose proof (kp_after _ _ _ K2) as A2. cbv beta.
    replace (Z.of_nat (length x) + 1) with (Z.of_nat (length (x ++ [10])))
      by (rewrite length_app; cbn [length]; lia).
    destruct (law_write s2 (Addr buf) (x ++ [10])) as (r & s3 & E3 & Hr & K3 & _).
    + exact (af_ok _ _ _ A2).
    + rewrite Hm2. apply text_at_rdn. rewrite length_app. cbn [length].
      rewrite <- Hrd at 3. pose proof frame_range as Hfr. unfold in_frame in Hb.
      rewrite !rdn_map by lia. replace (Z.of_nat (length x + 1)) with (Z.of_nat (length x) + 1) by lia.
      rewrite (zrange_app 0 (Z.of_nat (length x))), map_app by lia. f_equal.
      * apply map_zrange_ext. intros j Hj. rewrite rd_wr_off.
        destruct (Z.eqb_spec (off (buf + Z.of_nat (length x)) (buf + j)) 0); [zlia | done].
      * rewrite zrange_one. cbn [map]. rewrite rd_wr_off, Z.sub_diag. reflexivity.
    + rewrite length_app. cbn [length]. unfold readable_arg, in_frame in *. lia.
    + apply Forall_app. split; [exact Hbytes | repeat constructor; lia].
    + rewrite length_app. cbn [length]. lia.
    + rewrite (run_bind _ _ _ _ _ E3). destruct (Z.eqb_spec r (-1)); [contradiction|].
      destruct (IH names s3) as (s4 & E4 & A4).
      * exact (af_ok _ _ _ (kp_after _ _ _ K3)).
      * apply (kp_stream _ _ _ K3), (kp_stream _ _ _ K2). exact St1.
      * exact Hb.
      * exact Hne.
      * cbn [length] in Hf. lia.
      * exists s4. split; [exact E4|]. cbn [listing map concat]. fold (listing names).
        eapply after_app; [|exact A4].
        eapply after_nil_l; [exact A1|]. eapply after_nil_l; [exact A2 | exact (kp_after _ _ _ K3)].
Qed.

Lemma ls_lists s names buf fuel :
  ok s -> free s -> holds (chars ".") (Entries names) s -> in_frame lo n buf 33 ->
  Forall (fun x => x <> []) names -> (length names < fuel)%nat ->
  exists s', ls fuel buf s = Some (0, s') /\ after (listing names) s s'.
Proof.
  intros Hok Hfree Hh Hb Hne Hf. unfold ls.
  destruct (law_open s (lit ".") (chars ".") (Entries names) Hok Hfree Hh)
    as (fd & s1 & E1 & Hfd & A1 & St1 & _); [now apply c_string_literal | exact I |].
  rewrite (run_bind _ _ _ _ _ E1). destruct (Z.eqb_spec fd (-1)); [contradiction|].
  destruct (ls_loop_lists names fuel fd buf s1 (af_ok _ _ _ A1) St1 Hb Hne Hf) as (s2 & E2 & A2).
  exists s2. split; [exact E2|]. eapply after_nil_l; [exact A1 | exact A2].
Qed.
End Correct.

(** ** Programs that read a line *)

Section Interactive.
Context {St : Type} `{Contract St lo n}.

(** the dialogue has come to terminal [t]; the user will type [ls] *)
Record dialogue (t : tty) (ls : list (list key)) (s : St) : Prop := {
  di_ok : ok s;
  di_shown : shown s = t;
  di_lines : lines ls s
}.

Lemma dialogue_kept t l ls s s' : dialogue t ls s -> kept l s s' -> dialogue (tty_show l t) ls s'.
Proof.
  intros [O S1 L] [A _ _]. split; [exact (af_ok _ _ _ A) | | exact (af_lines _ _ _ A _ L)].
  now rewrite (af_shown _ _ _ A), S1.
Qed.

(** printing a literal, in a dialogue *)
Lemma say l t ls s :
  dialogue t ls s -> text_bytes l = true -> (length l < STR_FUEL)%nat ->
  exists s', ece391_fdputs 1 (Obj l) s = Some (tt, s') /\ dialogue (tty_show l t) ls s' /\
    same_frame lo n (umem s) (umem s').
Proof.
  intros Hd Hc Hl.
  destruct (fdputs_shows (lo := lo) (n := n) s (Obj l) l (di_ok _ _ _ Hd) (c_string_literal _ _ Hc) Hl I)
    as (s' & E & K & Hf).
  exists s'. split; [exact E|]. split; [exact (dialogue_kept _ _ _ _ _ Hd K) | exact Hf].
Qed.

(** reading a line into a buffer *)
Lemma hear buf keys t ls s :
  dialogue t (keys :: ls) s -> in_frame lo n buf 1023 -> Z.of_nat (length (text_of keys)) < 1023 ->
  (Back ∈ keys -> 7 <= col t) -> col t + Z.of_nat (length keys) <= 79 ->
  exists s', ece391_read 0 buf (BUFSIZE - 1) s = Some (Z.of_nat (length (text_of keys)), s') /\
    dialogue (tty_enter (tty_keys [] keys t)) ls s' /\ Forall (fun c => 32 <= c <= 126) (text_of keys) /\
    rdn (umem s') buf (length (text_of keys)) = text_of keys.
Proof.
  intros [Hok <- Hls] Hb Ht Hcol Hk.
  destruct (law_line s keys ls buf 1023 Hok Hls Hb ltac:(lia) Ht Hcol Hk)
    as (s' & E & F & L & _ & _ & Hc & Hr & _).
  exists s'. split; [exact E|]. split; [|split; [exact Hc | exact Hr]].
  split; [exact (fo_ok _ _ _ F) | exact (fo_shown _ _ _ F) | exact L].
Qed.

(** the NUL behind the line *)
Lemma terminate buf l t ls s :
  dialogue t ls s -> in_frame lo n buf 1023 -> Z.of_nat (length l) < 1023 ->
  Forall (fun c => 32 <= c <= 126) l -> rdn (umem s) buf (length l) = l ->
  exists s', store (buf + Z.of_nat (length l)) 0 s = Some (tt, s') /\ dialogue t ls s' /\
    c_string (umem s') (Addr buf) l.
Proof.
  intros Hd Hb Ht Hc Hr.
  destruct (store_then (buf + Z.of_nat (length l)) 0 (fun _ => mret tt) s (di_ok _ _ _ Hd))
    as (s' & E & K & Hm); [unfold in_frame in *; lia|].
  exists s'. split; [exact E|]. split; [exact (dialogue_kept _ [] _ _ _ Hd K)|].
  pose proof frame_range as Hfr. unfold in_frame in Hb. rewrite Hm. split; [|split].
  - apply text_at_rdn. rewrite <- Hr at 3. apply rdn_ext. intros i Hi. rewrite rd_wr_off.
    destruct (Z.eqb_spec (off (buf + Z.of_nat (length l)) i) 0); [zlia | done].
  - cbn [ldc]. rewrite rd_wr_off, Z.sub_diag. reflexivity.
  - eapply Forall_impl; [exact Hc|]. intros c Hrange. cbn in Hrange. lia.
Qed.

(** a string of the program, after a call that leaves its variables alone *)
Lemma c_string_frame (m m' : mem) a l :
  c_string m (Addr a) l -> same_frame lo n m m' -> in_frame lo n a (Z.of_nat (length l) + 1) ->
  c_string m' (Addr a) l.
Proof.
  intros (S1 & S2 & S3) Hf Ha. unfold in_frame in Ha. cbn [ldc] in *. split; [|split; [|exact S3]].
  - intros j Hj. specialize (S1 j Hj). cbn [ldc] in *. rewrite <- S1. apply Hf. lia.
  - cbn [ldc]. rewrite <- S2. apply Hf. lia.
Qed.

Lemma text_of_length keys : (length (text_of keys) <= length keys)%nat.
Proof.
  unfold text_of. assert (forall l, (length (fold_left edit keys l) <= length l + length keys)%nat) as Hl.
  { induction keys as [|k keys IH]; intros l; cbn [fold_left length]; [lia|].
    specialize (IH (edit l k)). pose proof (edit_length l k). lia. }
  apply (Hl []).
Qed.

Lemma short_string (t : list Z) : Z.of_nat (length t) < 1023 -> (length t < STR_FUEL)%nat.
Proof. intros Ht. assert (2000 <= STR_FUEL)%nat by (apply Nat.leb_le; reflexivity). lia. Qed.

(** *** hello *)

Definition hello_prompt : list Z := chars "Hi, what's your name? ".

Lemma hello_greets s buf keys ls :
  ok s -> lines (keys :: ls) s -> in_frame lo n buf 1024 -> col (shown s) = 0 ->
  Z.of_nat (length keys) <= 57 ->
  exists s', hello buf s = Some (0, s') /\
    dialogue (tty_show (chars "Hello, " ++ text_of keys)
      (tty_enter (tty_keys [] keys (tty_show hello_prompt (shown s))))) ls s'.
Proof.
  intros Hok Hls Hb Hcol Hk. unfold hello, lit. fold hello_prompt.
  assert (in_frame lo n buf 1023) as Hb' by (unfold in_frame in *; lia).
  assert (dialogue (shown s) (keys :: ls) s) as D0 by now split.
  pose proof (text_of_length keys) as Hlen.
  destruct (say hello_prompt _ _ _ D0) as (s1 & E1 & D1 & _);
    [reflexivity | apply Nat.ltb_lt; reflexivity |]. rewrite (run_bind _ _ _ _ _ E1).
  set (t1 := tty_show hello_prompt (shown s)) in *.
  assert (col t1 = 22) as Hcol1 by (unfold t1; rewrite tty_show_col; [reflexivity | now apply text_chars | exact Hcol | reflexivity]).
  destruct (hear buf keys t1 ls s1 D1 Hb') as (s2 & E2 & D2 & Hc & Hr); [lia | intros _; lia | lia |].
  rewrite (run_bind _ _ _ _ _ E2). destruct (Z.eqb_spec (Z.of_nat (length (text_of keys))) (-1)); [lia|].
  destruct (terminate buf (text_of keys) _ ls s2 D2 Hb') as (s3 & E3 & D3 & Hs); [lia | exact Hc | exact Hr |].
  rewrite (run_bind _ _ _ _ _ E3).
  destruct (say (chars "Hello, ") _ _ _ D3) as (s4 & E4 & D4 & Hf4);
    [reflexivity | apply Nat.ltb_lt; reflexivity |]. rewrite (run_bind _ _ _ _ _ E4).
  destruct (fdputs_shows (lo := lo) (n := n) s4 (Addr buf) (text_of keys) (di_ok _ _ _ D4)) as (s5 & E5 & K5 & _).
  - apply (c_string_frame (umem s3)); [exact Hs | exact Hf4 |]. unfold in_frame in *. lia.
  - apply short_string. lia.
  - unfold readable_arg, in_frame in *. lia.
  - rewrite (run_bind _ _ _ _ _ E5). exists s5. split; [reflexivity|].
    rewrite tty_show_app. exact (dialogue_kept _ _ _ _ _ D4 K5).
Qed.

(** *** counter *)

(** the numbers from [i + 1] on, one to a line *)
Definition numbers (i : Z) (k : nat) : list Z :=
  concat (map (fun j => itoa_string (j + 1) 10 ++ [10]) (zrange i (i + Z.of_nat k))).

Lemma itoa_stores s v buf :
  ok s -> 0 <= v < 4294967296 -> in_frame lo n buf 33 ->
  exists s', on_mem (fun m => ece391_itoa m v buf 10) s = Some (tt, s') /\ kept [] s s' /\
    c_string (umem s') (Addr buf) (itoa_string v 10).
Proof.
  intros Hok Hv Hb. unfold on_mem. rewrite itoa_same by lia.
  destruct (itoa_writes (umem s) v buf 10 ltac:(lia) Hv) as (m' & -> & Hm).
  pose proof (itoa_string_chars v 10 ltac:(lia)) as Hch. pose proof (itoa_string_length v 10) as Hlen. set (t := itoa_string v 10) in *. clearbody t.
  pose proof frame_range as Hfr. unfold in_frame in Hb.
  destruct (law_store s m' Hok) as [Em K].
  { intros a Ha. rewrite Hm, rd_wrl by (rewrite length_app; cbn [length]; lia). rewrite length_app. cbn [length].
    destruct (Z.ltb_spec (off buf a) (Z.of_nat (length t + 1))); [zlia | done]. }
  exists (set_umem m' s). split; [reflexivity|]. split; [exact K|]. rewrite Em.
  split; [|split; [|exact Hch]]; cbn [ldc].
  - intros j Hj. rewrite Z.add_0_l. cbn [ldc]. rewrite Hm, rd_wrl_in by (rewrite length_app; cbn [length]; lia).
    unfold aget. rewrite lookup_total_app_l by lia.
    rewrite Forall_lookup in Hch. destruct (lookup_lt_is_Some_2 t (Z.to_nat j)) as [c Hc]; [lia|].
    rewrite (list_lookup_total_correct _ _ _ Hc). specialize (Hch _ _ Hc). cbn in Hch. apply u8_small. lia.
  - rewrite Hm, rd_wrl_in by (rewrite length_app; cbn [length]; lia).
    rewrite lookup_total_app_r by lia.
    now replace (Z.to_nat (Z.of_nat (length t)) - length t)%nat with 0%nat by lia.
Qed.

Lemma count_loop_counts k i buf t ls s :
  dialogue t ls s -> 0 <= i -> i + Z.of_nat k < 4294967296 -> in_frame lo n buf 1024 ->
  exists s', count_loop k i buf s = Some (tt, s') /\ dialogue (tty_show (numbers i k) t) ls s'.
Proof.
  revert i t s. induction k as [|k IH]; intros i t s Hd Hi Hk Hb; cbn [count_loop].
  - exists s. unfold numbers. rewrite Z.add_0_r, zrange_nil. split; [reflexivity | exact Hd].
  - assert (in_frame lo n buf 33) as Hb33 by (unfold in_frame in *; lia).
    rewrite u32_small by lia.
    destruct (itoa_stores s (i + 1) buf (di_ok _ _ _ Hd)) as (s1 & E1 & K1 & Hs); [lia | exact Hb33 |].
    rewrite (run_bind _ _ _ _ _ E1). pose proof (dialogue_kept _ _ _ _ _ Hd K1) as D1.
    pose proof (itoa_string_length (i + 1) 10) as Hlen.
    destruct (fdputs_shows (lo := lo) (n := n) s1 (Addr buf) _ (di_ok _ _ _ D1) Hs) as (s2 & E2 & K2 & _).
    { apply short_string. lia. }
    { unfold readable_arg, in_frame in *. lia. }
    rewrite (run_bind _ _ _ _ _ E2). pose proof (dialogue_kept _ _ _ _ _ D1 K2) as D2.
    destruct (say [10] _ _ _ D2) as (s3 & E3 & D3 & _); [reflexivity | apply Nat.ltb_lt; reflexivity |].
    rewrite (run_bind _ _ _ _ _ E3).
    destruct (IH (i + 1) _ s3 D3) as (s4 & E4 & D4); [lia | lia | exact Hb |].
    exists s4. split; [exact E4|].
    assert (numbers i (S k) = itoa_string (i + 1) 10 ++ [10] ++ numbers (i + 1) k) as ->.
    { unfold numbers. rewrite (zrange_app i (i + 1)), zrange_one by lia. cbn [map concat app]. rewrite <- app_assoc.
      replace (i + Z.of_nat (S k)) with (i + 1 + Z.of_nat k) by lia. reflexivity. }
    rewrite !tty_show_app. exact D4.
Qed.

(** what counter answers to the line [t] *)
Definition counter_prompt : list Z := chars "Enter the Test Number: (0): 100, (1): 10000, (2): 100000" ++ [10].
Definition counter_answer (t : list Z) : list Z :=
  match t with
  | [] => []
  | [c] => if (48 <=? c) && (c <=? 50) then numbers 0 (Z.to_nat (count_max c)) else chars "Wrong Choice!" ++ [10]
  | _ => chars "Wrong Choice!" ++ [10]
  end.

Lemma tty_show_line_col l t : col (tty_show (l ++ [10]) t) = 0.
Proof. rewrite tty_show_app. cbn [tty_show fold_left]. unfold tty_char. now destruct (row _ >=? 24). Qed.

Lemma counter_counts s buf keys ls :
  ok s -> lines (keys :: ls) s -> in_frame lo n buf 1024 -> Back ∉ keys -> Z.of_nat (length keys) <= 79 ->
  exists s', counter buf s = Some (0, s') /\
    dialogue (tty_show (counter_answer (text_of keys))
      (tty_enter (tty_keys [] keys (tty_show counter_prompt (shown s))))) ls s'.
Proof.
  intros Hok Hls Hb Hback Hk. unfold counter. fold counter_prompt.
  assert (in_frame lo n buf 1023) as Hb' by (unfold in_frame in *; lia).
  assert (dialogue (shown s) (keys :: ls) s) as D0 by now split.
  pose proof (text_of_length keys) as Hlen.
  destruct (say counter_prompt _ _ _ D0) as (s1 & E1 & D1 & _);
    [reflexivity | apply Nat.ltb_lt; reflexivity |]. rewrite (run_bind _ _ _ _ _ E1).
  pose proof (tty_show_line_col (chars "Enter the Test Number: (0): 100, (1): 10000, (2): 100000") (shown s)) as Hcol.
  fold counter_prompt in Hcol. set (t1 := tty_show counter_prompt (shown s)) in *.
  destruct (hear buf keys t1 ls s1 D1 Hb') as (s2 & E2 & D2 & Hc & Hr); [lia | done | lia |].
  rewrite (run_bind _ _ _ _ _ E2). rewrite u32_small by lia.
  change (u32 (-1)) with 4294967295. destruct (Z.eqb_spec (Z.of_nat (length (text_of keys))) 4294967295); [lia|].
  destruct (terminate buf (text_of keys) _ ls s2 D2 Hb') as (s3 & E3 & D3 & Hs); [lia | exact Hc | exact Hr |].
  rewrite (run_bind _ _ _ _ _ E3). clear E1 E2 E3 D1 D2 Hr.
  generalize dependent (tty_enter (tty_keys [] keys t1)). intros t3 D3.
  set (t := text_of keys) in *. clearbody t.
  assert (of_mem (fun m => ece391_strlen STR_FUEL m (Addr buf)) s3 = Some (Z.of_nat (length t), s3)) as E4.
  { unfold of_mem. rewrite (c_string_strlen _ _ _ t Hs); [reflexivity | apply short_string; lia]. }
  rewrite (run_bind _ _ _ _ _ E4). clear E4.
  assert (load (Addr buf) 0 s3 = Some (aget (t ++ [0]) 0, s3)) as E5.
  { unfold load. do 2 f_equal. destruct Hs as (Ht & Hz & _). destruct t as [|c t]; [exact Hz|].
    specialize (Ht 0 ltac:(cbn [length]; lia)). exact Ht. }
  rewrite (run_bind _ _ _ _ _ E5). clear E5.
  assert (exists s', (_ ← ece391_fdputs 1 (Obj (chars "Wrong Choice!" ++ [10])); mret 0) s3 = Some (0, s') /\
    dialogue (tty_show (chars "Wrong Choice!" ++ [10]) t3) ls s') as Hwrong.
  { destruct (say (chars "Wrong Choice!" ++ [10]) _ _ _ D3) as (s4 & E4 & D4 & _);
      [reflexivity | apply Nat.ltb_lt; reflexivity |]. exists s4. now rewrite (run_bind _ _ _ _ _ E4). }
  destruct t as [|c [|c' t]].
  - exists s3. split; [reflexivity | exact D3].
  - change (Z.of_nat (length [c]) >? 1) with false. change (Z.of_nat (length [c]) =? 1) with true.
    change (aget ([c] ++ [0]) 0) with c. cbn [orb andb counter_answer].
    destruct (Z.ltb_spec c 48), (Z.gtb_spec c 50), (Z.leb_spec 48 c), (Z.leb_spec c 50); try lia; cbn [orb andb];
      try exact Hwrong.
    assert (0 <= count_max c <= 100000) as Hmax by (unfold count_max; repeat case_match; lia).
    destruct (count_loop_counts (Z.to_nat (count_max c)) 0 buf t3 ls s3 D3) as (s4 & E4 & D4); [lia | lia | exact Hb |].
    rewrite (run_bind _ _ _ _ _ E4). exists s4. split; [reflexivity | exact D4].
  - cbn [length]. destruct (Z.gtb_spec (Z.of_nat (S (S (length t)))) 1); [|lia]. exact Hwrong.
Qed.
End Interactive.
