(* ===== verification/UserKernel.v ===== *)
(** * The kernel behind the trap

    [int80] of UserLib.v, implemented by the kernel: the system call gate of
    Dispatch.v runs on the kernel's state, with the interrupts that arrive
    while a call waits.  The view of a process is read off that state (the
    screen, the descriptor tables, the file system image), and every clause of
    the contract the programs rely on is proved about the calls of
    Syscalls.v. *)

From Stdlib Require Import ZArith Lia.
From stdpp Require Import base list gmap.
From S2P Require Import Prelude Memory CMem CStr Machine Console Pic Rtc Paging KState Filesystem TermIO Syscalls Process Terminal Tty Dispatch UserLib.
Open Scope Z_scope.

(** the kernel, and for each coming read that waits for a device, what the
    interrupt handlers do meanwhile *)
Record ust := Ust { kern : kst; future : list schedule }.

Definition idle : schedule := Schedule [] [].

(** a read that the kernel accepts waits, unless it is from a file or from
    the terminal's output side *)
Definition waits (fd buf nbytes : Z) (k : kst) : bool :=
  in_range fd 8 && negb (flags (file_at k fd) =? 0) && negb (u32 buf =? 0) && (0 <=? nbytes) &&
  match fops_ptr (file_at k fd) with
  | rtc_fops => true
  | terminal_fops => negb (fd =? 1)
  | _ => false
  end.
Definition call_waits (eax : Z) (ebx ecx edx : reg) (k : kst) : bool :=
  match ebx, ecx, edx with
  | Addr fd, Addr buf, Addr nbytes => (u32 eax =? SYS_READ) && waits (s32 fd) buf (s32 nbytes) k
  | _, _, _ => false
  end.

Section Trap.
Context `{Platform}.
(** where control goes when a call does not return, until it is back *)
Variable elsewhere : outcome -> option (Z * kst).

Definition user_call (eax : Z) (ebx ecx edx : reg) (s : ust) : option (Z * ust) :=
  let '(w, fut) := if call_waits eax ebx ecx edx (kern s) then (hd idle (future s), tl (future s))
                   else (idle, future s) in
  o ← syscall_handler w eax ebx ecx edx (kern s);
  '(v, k) ← match o with Returns v k => Some (v, k) | _ => elsewhere o end;
  Some (v, Ust k fut).

Definition kernel_calls : SysCalls ust := {|
  int80 := user_call;
  umem s := mem_of (kern s);
  set_umem m s := Ust (upd_mem (fun _ => m) (kern s)) (future s)
|}.
End Trap.

(** ** What a process sees of the kernel *)

Section View.
Context `{Platform}.
(** the image the boot loader left in [img, img + sz) of state [s0] *)
Variables (img sz : Z) (s0 : kst).

(** the file of [inode] is stored in the image *)
Definition file_ok (inode : Z) : Prop :=
  file_in_image (mem_of s0) img sz (inode_addr s0 inode) (data_start (filesystem (fsg s0))) (file_size s0 inode) /\
  0 <= inode < u32 (num_inodes (filesystem (fsg s0)) - 1).

#[local] Abbreviation N := (num_dir_entries (filesystem (fsg s0))).

(** the directory's entries have names, [name i] in slot [i] *)
Definition dir_ok (name : Z -> list Z) : Prop :=
  0 <= N <= 63 /\
  (forall i, 0 <= i < N -> listed s0 i = true -> has_name s0 i (name i) /\ name i <> []) /\
  (0 < N -> listed s0 (N - 1) = true).

(** what descriptor [fd] delivers *)
Definition delivers (k : kst) (fd : Z) (src : source) : Prop :=
  match src with
  | Bytes rest => exists p, let inode := inode_number (dentry_at k fd) in
      file_ok inode /\ file_type (dentry_at k fd) <> 1 /\ fpos (file_at k fd) = p /\
      0 <= p <= file_size s0 inode /\ rest = drop (Z.to_nat p) (file_content s0 inode)
  | Entries names => exists name p,
      dir_ok name /\ file_type (dentry_at k fd) = 1 /\ fpos (file_at k fd) = p /\
      0 <= p <= N /\ names = names_from s0 name p
  end.

Record k_stream (fd : Z) (src : source) (k : kst) : Prop := {
  ks_fd : 2 <= fd < 8;
  ks_flags : flags (file_at k fd) = 1;
  ks_ops : fops_ptr (file_at k fd) = filesystem_fops;
  ks_index : 2 <= fd_index (sysg k) < 8;
  ks_src : delivers k fd src
}.

Definition k_free (k : kst) : Prop := exists j, 2 <= j < 8 /\ flags (file_at k j) = 0.

(** the argument execute left in the PCB *)
Definition k_arg (t : list Z) (k : kst) : Prop :=
  let p := pcb_of k in
  Z.of_nat (length t) <= data_arg_size p <= 40 /\ Forall (fun c => 0 < c < 256) t /\
  Forall (fun c => 0 <= c < 256) (arg_name p) /\ take (length t) (arg_name p) = t /\
  (data_arg_size p = Z.of_nat (length t) \/ aget (arg_name p) (Z.of_nat (length t)) = 0).

(** slot [i] is the first of the directory whose name is [t] (at most 32
    characters are looked at) *)
Definition first_slot (t : list Z) (i : Z) : Prop :=
  0 <= i < 62 /\ entry_name s0 i = take 32 t /\ forall j, 0 <= j < i -> entry_name s0 j <> take 32 t.

Definition k_holds (t : list Z) (src : source) : Prop :=
  t <> [] /\ exists i, first_slot t i /\
    let type := rd32 (mem_of s0) (entry_addr s0 i + 32) in
    let inode := rd32 (mem_of s0) (entry_addr s0 i + 36) in
    match src with
    | Bytes content => 1 < type /\ file_ok inode /\ content = file_content s0 inode
    | Entries names => type = 1 /\ exists name, dir_ok name /\ names = names_from s0 name 0
    end.

Definition k_lacks (t : list Z) : Prop :=
  t = [] \/ forall i, 0 <= i < 62 -> entry_name s0 i <> take 32 t.

(** the user will type these lines, whatever else happens *)
Definition k_lines (ls : list (list key)) (fut : list schedule) : Prop :=
  exists ws more, fut = ws ++ more /\
    Forall2 (fun keys w => Forall key_ok keys /\ exists rest, key_irqs w = typing keys ++ rest) ls ws.

(** the terminal is open at descriptors 0 and 1, the file system is the one of
    [s0], the line editor is empty *)
Record k_ok (k : kst) : Prop := {
  ko_wf : pcb_wf (pcb_of k);
  ko_val : 0 <= fd_val (fsg k) < 8;
  ko_std : forall fd, fd = 0 \/ fd = 1 -> flags (file_at k fd) = 1 /\ fops_ptr (file_at k fd) = terminal_fops;
  ko_fs : filesystem (fsg k) = filesystem (fsg s0);
  ko_boot : BOOT_BLOCK_PTR (fsg k) = BOOT_BLOCK_PTR (fsg s0);
  ko_image : same_image img sz (mem_of s0) (mem_of k);
  ko_screen : tty_ok (screen (hw k));
  ko_line : counter (trm k) = 0 /\ entered (trm k) = 0 /\ length (text_buf (trm k)) = 128%nat
}.

Definition kernel_view : View ust := {|
  ok s := k_ok (kern s);
  shown s := screen (hw (kern s));
  stream fd src s := k_stream fd src (kern s);
  free s := k_free (kern s);
  arg t s := k_arg t (kern s);
  holds t src _ := k_holds t src;
  lacks t _ := k_lacks t;
  lines ls s := k_lines ls (future s)
|}.
End View.

(** ** The kernel keeps the contract *)

(** where the process's variables, the image and the screen are; and what the
    uninitialised counter of write_helper is not *)
Class Layout `{Platform} (img sz : Z) (s0 : kst) (lo n : Z) := {
  ly_frame : 0 < lo /\ 0 <= n /\ lo + n < 4294967296;
  ly_frame_screen : apart lo n VIDEO 4000;
  ly_image : region img sz;
  ly_image_frame : apart img sz lo n;
  ly_image_screen : apart img sz VIDEO 4000;
  ly_dir : img <= dentry_begin (filesystem (fsg s0)) /\
           dentry_begin (filesystem (fsg s0)) + 4032 <= img + sz;
  ly_junk : forall l, s32 (stack_junk l) <> -2
}.

(** a literal's bytes, and a C string's, as strncmp reads them *)
Lemma cstrn_literal (m m' : mem) bs N i : cstrn m (Obj bs) N i = cstrn m' (Obj bs) N i.
Proof. revert i. induction N as [|N IH]; intros i; cbn [cstrn]; [done|]. rewrite IH. reflexivity. Qed.

Lemma cstrn_string (m : mem) p t N i :
  c_string m p t -> (i <= length t)%nat -> cstrn m p N (Z.of_nat i) = take N (drop i t).
Proof.
  intros (Ht & Hz & Hc). revert i. induction N as [|N IH]; intros i Hi; cbn [cstrn]; [done|].
  destruct (Nat.eq_dec i (length t)) as [->|Hne].
  - rewrite Hz. change (0 =? 0) with true. cbv iota. now rewrite drop_ge by lia.
  - destruct (lookup_lt_is_Some_2 t i) as [c Hlk]; [lia|].
    assert (ldc m p (Z.of_nat i) = c) as E.
    { specialize (Ht (Z.of_nat i) ltac:(lia)). rewrite Z.add_0_l in Ht. rewrite Ht. unfold aget.
      rewrite Nat2Z.id. now apply list_lookup_total_correct. }
    rewrite E. rewrite Forall_lookup in Hc. specialize (Hc _ _ Hlk). cbn in Hc.
    destruct (Z.eqb_spec c 0); [lia|]. rewrite (drop_S t c i Hlk). cbn [take]. f_equal.
    replace (Z.of_nat i + 1) with (Z.of_nat (S i)) by lia. apply IH. lia.
Qed.

Section Laws.
Context `{Platform} {img sz : Z} {s0 : kst} {lo n : Z} `{!Layout img sz s0 lo n}.
Variable elsewhere : outcome -> option (Z * kst).
#[local] Hint Extern 0 (SysCalls _) => exact (kernel_calls elsewhere) : typeclass_instances.
#[local] Hint Extern 0 (View _) => exact (kernel_view img sz s0) : typeclass_instances.


(** what no call but the terminal's changes of a state *)
Record call_frame (k k' : kst) : Prop := {
  cf_wf : pcb_wf (pcb_of k) -> pcb_wf (pcb_of k');
  cf_val : 0 <= fd_val (fsg k) < 8 -> 0 <= fd_val (fsg k') < 8;
  cf_fs : filesystem (fsg k') = filesystem (fsg k) /\ BOOT_BLOCK_PTR (fsg k') = BOOT_BLOCK_PTR (fsg k);
  cf_trm : trm k' = trm k;
  cf_arg : arg_name (pcb_of k') = arg_name (pcb_of k) /\
           data_arg_size (pcb_of k') = data_arg_size (pcb_of k);
  cf_screen : screen (hw k') = screen (hw k);
  cf_image : forall a, img <= a < img + sz -> rd (mem_of k') a = rd (mem_of k) a;
  cf_std : forall fd, fd = 0 \/ fd = 1 -> file_at k' fd = file_at k fd
}.

Lemma call_frame_ok k k' : k_ok img sz s0 k -> call_frame k k' -> k_ok img sz s0 k'.
Proof.
  intros [O1 O2 O3 O4 O5 O6 O7 O8] [F1 F2 [F3 F3'] F4 F5 F6 F7 F8]. split; auto.
  - intros fd Hfd. rewrite (F8 fd Hfd). now apply O3.
  - congruence.
  - congruence.
  - intros a Ha. rewrite F7 by exact Ha. now apply O6.
  - now rewrite F6.
  - now rewrite F4.
Qed.

Lemma call_frame_arg k k' t : call_frame k k' -> k_arg t k -> k_arg t k'.
Proof. intros [_ _ _ _ [E1 E2] _ _ _]. unfold k_arg. cbv zeta. now rewrite E1, E2. Qed.

(** a call that keeps the frame is silent *)
Lemma frame_after s k' : k_ok img sz s0 (kern s) -> call_frame (kern s) k' ->
  after [] s (Ust k' (future s)).
Proof.
  intros Hok Hf. split; [split|]; try (intros; assumption).
  - exact (call_frame_ok _ _ Hok Hf).
  - exact (cf_screen _ _ Hf).
  - intros a. exact (call_frame_arg _ _ a Hf).
Qed.

(** ... and keeps the descriptors that it keeps *)
Lemma stream_kept fd src k k' :
  k_stream img sz s0 fd src k -> flags (file_at k' fd) = flags (file_at k fd) ->
  fops_ptr (file_at k' fd) = fops_ptr (file_at k fd) -> fpos (file_at k' fd) = fpos (file_at k fd) ->
  dentry_at k' fd = dentry_at k fd -> 2 <= fd_index (sysg k') < 8 -> k_stream img sz s0 fd src k'.
Proof.
  intros [S1 S2 S3 S4 S5] E1 E2 E3 E4 Hi. split; try congruence; try assumption.
  unfold delivers in *. now rewrite E3, E4.
Qed.

Lemma frame_kept s k' : k_ok img sz s0 (kern s) -> call_frame (kern s) k' ->
  (forall fd, 2 <= fd < 8 -> file_at k' fd = file_at (kern s) fd /\ dentry_at k' fd = dentry_at (kern s) fd) ->
  (2 <= fd_index (sysg (kern s)) < 8 -> 2 <= fd_index (sysg k') < 8) ->
  kept [] s (Ust k' (future s)).
Proof.
  intros Hok Hf Hd Hi. split.
  - now apply frame_after.
  - intros fd src St. pose proof (ks_fd _ _ _ _ _ _ St) as Hfd. destruct (Hd fd Hfd) as [E1 E2].
    apply (stream_kept fd src (kern s) k' St); try (now rewrite E1); [exact E2|].
    exact (Hi (ks_index _ _ _ _ _ _ St)).
  - intros (j & Hj & Hfl). exists j. split; [exact Hj|]. cbn [kern]. destruct (Hd j Hj) as [-> _]. exact Hfl.
Qed.

(** *** Storing *)

Lemma frame_screen m k :
  (forall a, n <= off lo a -> rd m a = rd (mem_of k) a) -> screen (hw (upd_mem (fun _ => m) k)) = screen (hw k).
Proof.
  intros Hm. apply (screen_same (hw k) m). intros a Ha. apply Hm.
  pose proof ly_frame as Hf. pose proof ly_frame_screen as Hs. unfold apart, VIDEO in *. zlia.
Qed.

Lemma frame_image (m m' : mem) :
  (forall a, n <= off lo a -> rd m' a = rd m a) -> forall a, img <= a < img + sz -> rd m' a = rd m a.
Proof.
  intros Hm a Ha. apply Hm. pose proof ly_frame. pose proof ly_image. pose proof ly_image_frame.
  unfold apart, region in *. zlia.
Qed.

(** memory changes in the process's frame only *)
Lemma call_frame_mem m k :
  (forall a, n <= off lo a -> rd m a = rd (mem_of k) a) -> call_frame k (upd_mem (fun _ => m) k).
Proof.
  intros Hm. split; try (intros; done); [now apply frame_screen | now apply frame_image].
Qed.

Lemma kernel_store s m :
  ok s -> (forall a, n <= off lo a -> rd m a = rd (umem s) a) ->
  umem (set_umem m s) = m /\ kept [] s (set_umem m s).
Proof.
  intros Hok Hm. split; [reflexivity|].
  apply (frame_kept s (upd_mem (fun _ => m) (kern s)) Hok); [now apply call_frame_mem | done | done].
Qed.

(** *** The gate, call by call *)

(** what an ordinary call's C function gives *)
Definition back (fut : list schedule) (r : option (Z * kst)) : option (Z * ust) :=
  '(v, k) ← r; Some (v, Ust k fut).

(** a call whose C function returns *)
Lemma gate_returns eax ebx ecx edx s r :
  call_waits eax ebx ecx edx (kern s) = false ->
  syscall_handler idle eax ebx ecx edx (kern s) = returned r ->
  int80 eax ebx ecx edx s = back (future s) r.
Proof.
  intros Hw Hr. cbn [int80 kernel_calls]. unfold user_call. rewrite Hw, Hr. now destruct r as [[v k]|].
Qed.

Lemma number_does_not_wait eax ebx ecx edx k : u32 eax <> SYS_READ -> call_waits eax ebx ecx edx k = false.
Proof. intros Hn. unfold call_waits. destruct ebx, ecx, edx; try done. destruct (Z.eqb_spec (u32 eax) SYS_READ); done. Qed.

Lemma gate_write fd p l s : ece391_write fd p l s = back (future s) (write (s32 fd) p (s32 l) (kern s)).
Proof. now apply gate_returns; [apply number_does_not_wait|]. Qed.
Lemma gate_open p s : ece391_open p s = back (future s) (open p (kern s)).
Proof. now apply gate_returns; [apply number_does_not_wait|]. Qed.
Lemma gate_close fd s : ece391_close fd s = back (future s) (close (s32 fd) (kern s)).
Proof. now apply gate_returns; [apply number_does_not_wait|]. Qed.
Lemma gate_getargs buf l s : ece391_getargs buf l s = back (future s) (getargs buf (s32 l) (kern s)).
Proof. now apply gate_returns; [apply number_does_not_wait|]. Qed.
Lemma gate_vidmap a s : ece391_vidmap a s = back (future s) (Some (vidmap (u32 a) (kern s))).
Proof. now apply gate_returns; [apply number_does_not_wait|]. Qed.

(** a read that does not wait, and one that does *)
Lemma gate_read fd buf l s :
  waits (s32 fd) buf (s32 l) (kern s) = false ->
  ece391_read fd buf l s = back (future s) (read idle (s32 fd) buf (s32 l) (kern s)).
Proof. intros Hw. now apply gate_returns. Qed.

Lemma gate_read_waits fd buf l s w fut :
  waits (s32 fd) buf (s32 l) (kern s) = true -> future s = w :: fut ->
  ece391_read fd buf l s = back fut (read w (s32 fd) buf (s32 l) (kern s)).
Proof.
  intros Hw Hf. unfold ece391_read. cbn [int80 kernel_calls]. unfold user_call, call_waits.
  change (u32 SYS_READ =? SYS_READ) with true. cbn [andb]. rewrite Hw, Hf. cbn [hd tl].
  change (syscall_handler w SYS_READ (Addr fd) (Addr buf) (Addr l) (kern s))
    with (returned (read w (s32 fd) buf (s32 l) (kern s))).
  now destruct (read _ _ _ _ _) as [[v k]|].
Qed.

Lemma file_does_not_wait fd buf l k : fops_ptr (file_at k fd) = filesystem_fops -> waits fd buf l k = false.
Proof. intros Ho. unfold waits. rewrite Ho. apply andb_false_r. Qed.

(** *** Writing *)

Lemma arg_not_null p (k : Z) : readable_arg lo n p k -> is_null p = false.
Proof.
  destruct p as [a|]; [|done]. cbn. unfold in_frame. pose proof ly_frame. intros Ha.
  apply Z.eqb_neq. rewrite u32_small; lia.
Qed.
Lemma arg_off_screen p (k : Z) : readable_arg lo n p k -> off_screen p k.
Proof.
  destruct p as [a|]; [|done]. cbn. unfold in_frame. pose proof ly_frame. pose proof ly_frame_screen.
  unfold apart in *. lia.
Qed.

Lemma only_screen_frame (m m' : mem) : only_screen m m' -> same_frame lo n m m'.
Proof.
  intros Hm a Ha. apply Hm. pose proof ly_frame. pose proof ly_frame_screen. unfold apart, VIDEO in *. zlia.
Qed.
Lemma only_screen_image (m m' : mem) : only_screen m m' -> forall a, img <= a < img + sz -> rd m' a = rd m a.
Proof.
  intros Hm a Ha. apply Hm. pose proof ly_image. pose proof ly_image_screen. unfold apart, region, VIDEO in *. zlia.
Qed.

(** a write to the terminal, exactly *)
Lemma kernel_writes s p l :
  ok s -> text_at (umem s) p 0 l -> readable_arg lo n p (Z.of_nat (length l)) ->
  Forall (fun c => 0 <= c < 256) l -> Z.of_nat (length l) < 2147483648 ->
  exists r h', ece391_write 1 p (Z.of_nat (length l)) s = Some (r, Ust (set_hw h' (kern s)) (future s)) /\
    r <> -1 /\ screen h' = tty_show l (screen (hw (kern s))) /\ only_screen (mem_of (kern s)) (mm h') /\
    k_ok img sz s0 (set_hw h' (kern s)).
Proof.
  intros Hok Ht Hp Hb Hlen. rewrite gate_write. change (s32 1) with 1. rewrite s32_small by lia.
  destruct Hok as [O1 O2 O3 O4 O5 O6 O7 O8]. destruct (O3 1) as [Hfl Hops]; [now right|].
  unfold write. rewrite (arg_not_null _ _ Hp), Hfl, Hops. unfold FD_MAX.
  destruct (Z.ltb_spec (Z.of_nat (length l)) 0); [lia|]. cbn [orb call_write].
  destruct (terminal_write_tty 1 p l (kern s)) as (r & h' & -> & Hr & Hs & Hm & _);
    [done | exact (arg_not_null _ _ Hp) | exact (arg_off_screen _ _ Hp) | exact Ht | exact O7 |].
  exists r, h'. split; [reflexivity|]. split.
  { destruct Hr as [-> | ->]; [|done]. pose proof (ly_junk (ports (hw (kern s)))) as Hj.
    pose proof (s32_range (stack_junk (ports (hw (kern s))))). zlia. }
  split; [exact Hs|]. split; [exact Hm|]. split; try assumption.
  - intros a Ha. etrans; [exact (only_screen_image _ _ Hm a Ha) | now apply O6].
  - cbn [kern hw set_hw]. rewrite Hs. now apply tty_show_ok.
Qed.

Lemma kernel_write s p l :
  ok s -> text_at (umem s) p 0 l -> readable_arg lo n p (Z.of_nat (length l)) ->
  Forall (fun c => 0 <= c < 256) l -> Z.of_nat (length l) < 2147483648 ->
  exists r s', ece391_write 1 p (Z.of_nat (length l)) s = Some (r, s') /\ r <> -1 /\
    kept l s s' /\ same_frame lo n (umem s) (umem s').
Proof.
  intros Hok Ht Hp Hb Hlen. destruct (kernel_writes s p l Hok Ht Hp Hb Hlen) as (r & h' & E & Hr & Hs & Hm & Hok').
  exists r, (Ust (set_hw h' (kern s)) (future s)). split; [exact E|]. split; [exact Hr|].
  split; [|now apply only_screen_frame].
  split; [split; [split|]|..]; try (intros; assumption).
  intros fd src [S1 S2 S3 S4 S5]. now split.
Qed.

(** printing a literal, exactly *)
Lemma kernel_prints s l :
  ok s -> text_bytes l = true -> (length l < STR_FUEL)%nat ->
  exists h', ece391_fdputs 1 (Obj l) s = Some (tt, Ust (set_hw h' (kern s)) (future s)) /\
    screen h' = tty_show l (screen (hw (kern s))) /\ k_ok img sz s0 (set_hw h' (kern s)).
Proof.
  intros Hok Hl Hf. pose proof (text_bytes_spec l Hl) as Hbytes.
  assert (STR_FUEL < 5000)%nat as Hsf by (apply Nat.ltb_lt; reflexivity).
  destruct (kernel_writes s (Obj l) l Hok) as (r & h' & E & _ & Hs & _ & Hok').
  - exact (proj1 (c_string_literal (umem s) l Hl)).
  - exact I.
  - eapply Forall_impl; [exact Hbytes|]. intros c Hr. cbn in Hr. lia.
  - lia.
  - exists h'. split; [|exact (conj Hs Hok')]. unfold ece391_fdputs, mbind, prog_bind, of_mem.
    rewrite (c_string_strlen _ _ _ _ (c_string_literal (umem s) l Hl) Hf).
    rewrite E. reflexivity.
Qed.

(** *** Arguments *)

Lemma buffer_frame (m m' : mem) buf k :
  in_frame lo n buf k -> (forall a, k <= off buf a -> rd m' a = rd m a) ->
  forall a, n <= off lo a -> rd m' a = rd m a.
Proof. intros Hb Hm a Ha. apply Hm. pose proof ly_frame. unfold in_frame in *. zlia. Qed.

Lemma kernel_getargs s t buf :
  ok s -> arg t s -> in_frame lo n buf 1024 ->
  exists s', ece391_getargs buf 1024 s = Some (0, s') /\ kept [] s s' /\
    (length t < 1024)%nat /\ c_string (umem s') (Addr buf) t.
Proof.
  intros Hok (Hsz & Hc & Hall & Ht & Hend) Hb. rewrite gate_getargs. change (s32 1024) with 1024.
  pose proof (ko_wf _ _ _ _ Hok) as Hwf. pose proof ly_frame as Hfr.
  pose proof Hwf as (_ & _ & _ & Hlen).
  destruct (getargs_fills (kern s) buf 1024 Hwf) as (m' & -> & Hf);
    [lia | exact Hall | unfold in_frame in Hb; rewrite u32_small; lia | lia |].
  set (d := data_arg_size (pcb_of (kern s))) in *. rewrite Z.min_l in Hf by lia.
  set (a := arg_name (pcb_of (kern s))) in *.
  exists (Ust (upd_mem (fun _ => m') (kern s)) (future s)). split; [reflexivity|]. split; [|split; [lia|]].
  - apply (frame_kept s); [exact Hok | | done | done]. apply call_frame_mem.
    apply (buffer_frame _ _ buf 1024 Hb). intros b Hoff. exact (filled_frame _ _ _ _ _ _ Hf Hoff).
  - change (umem (Ust (upd_mem (fun _ => m') (kern s)) (future s))) with m'.
    assert (forall j, 0 <= j <= 40 -> rd m' (buf + j) = if j <? d then aget a j else 0) as Hrd.
    { intros j Hj. rewrite Hf. replace (buf + j - buf) with j by lia. rewrite u32_small by lia.
      now destruct (Z.ltb_spec j 1024); [|lia]. }
    split; [|split; [|exact Hc]]; cbn [ldc].
    + intros j Hj. rewrite Z.add_0_l. cbn [ldc]. rewrite Hrd by lia. destruct (Z.ltb_spec j d); [|lia].
      unfold aget. rewrite <- Ht at 1. rewrite lookup_total_take, decide_True by lia. reflexivity.
    + rewrite Hrd by lia. destruct (Z.ltb_spec (Z.of_nat (length t)) d); [|done].
      destruct Hend as [|Hz]; [lia | exact Hz].
Qed.

(** *** Reading *)

#[export] Instance call_frame_preorder : PreOrder call_frame.
Proof.
  split; [intros k; now split|]. intros k1 k2 k3 [A1 A2 [A3 A3'] A4 [A5 A5'] A6 A7 A8]
    [B1 B2 [B3 B3'] B4 [B5 B5'] B6 B7 B8].
  split; auto; try (split; congruence); try congruence.
  - intros a Ha. now rewrite B7, A7.
  - intros fd Hfd. now rewrite B8, A8.
Qed.

Lemma call_frame_val fd k : 0 <= fd < 8 -> call_frame k (upd_fsg (set_fd_val fd) k).
Proof. intros Hfd. now split. Qed.

Lemma call_frame_file fd g k : 2 <= fd < 8 -> call_frame k (upd_file fd g k).
Proof.
  intros Hfd. split; try (intros; done).
  - intros Hwf. destruct (fd_ok_upd_file k 0 fd g) as [Hw _]; [split; [exact Hwf | lia] | exact Hw].
  - intros j Hj. apply file_at_upd_file_ne; lia.
Qed.

Lemma call_frame_dentry fd g k : 0 <= fd < 8 -> call_frame k (upd_dentry fd g k).
Proof.
  intros Hfd. split; try (intros; done).
  intros Hwf. destruct (fd_ok_upd_dentry k 0 fd g) as [Hw _]; [split; [exact Hwf | lia] | exact Hw].
Qed.

Lemma call_frame_index i k : call_frame k (upd_sysg (set_fd_index i) k).
Proof. now split. Qed.
Lemma call_frame_save slot k : call_frame k (save_pcb slot k).
Proof. now split. Qed.

(** the state behind a read of [k] bytes of descriptor [fd] into the frame *)
Definition read_to (fd : Z) (g : file_struct_t -> file_struct_t) (m : mem) (k : kst) : kst :=
  upd_file fd g (upd_mem (fun _ => m) (upd_fsg (set_fd_val fd) k)).

Lemma call_frame_read_to fd g m k :
  2 <= fd < 8 -> (forall a, n <= off lo a -> rd m a = rd (mem_of k) a) -> call_frame k (read_to fd g m k).
Proof.
  intros Hfd Hm. unfold read_to. etrans; [apply (call_frame_val fd); lia|].
  etrans; [apply (call_frame_mem m); exact Hm|]. now apply call_frame_file.
Qed.

Lemma file_at_read_to fd g m k : fd_ok k fd -> file_at (read_to fd g m k) fd = g (file_at k fd).
Proof. intros Hok. exact (file_at_upd_file (upd_mem (fun _ => m) (upd_fsg (set_fd_val fd) k)) fd g Hok). Qed.

Lemma upd_file_same fd k g : fd_ok k fd -> g (file_at k fd) = file_at k fd -> upd_file fd g k = k.
Proof.
  intros Hok Hf. apply fd_ok_file in Hok. unfold upd_file, upd_pcb, upd_sysg, file_at, pcb_of in *.
  rewrite Hf. destruct k as [h g1 sg t c sv], sg as [pc ? ? ? ? ? ? ?], pc. cbn in *.
  unfold set_sysg, set_pcblock, set_file_struct, aset, aget in *. cbn in *. do 3 f_equal.
  apply list_insert_id, list_lookup_lookup_total_lt. lia.
Qed.

(** a read that leaves [src'] in the descriptor *)
Lemma read_to_stream s fd buf k src src' g m :
  ok s -> stream fd src s -> in_frame lo n buf k ->
  flags (g (file_at (kern s) fd)) = 1 -> fops_ptr (g (file_at (kern s) fd)) = filesystem_fops ->
  (forall k', file_at k' fd = g (file_at (kern s) fd) -> dentry_at k' fd = dentry_at (kern s) fd ->
     delivers img sz s0 k' fd src') ->
  (forall a, k <= off buf a -> rd m a = rd (mem_of (kern s)) a) ->
  let s' := Ust (read_to fd g m (kern s)) (future s) in
  after [] s s' /\ stream fd src' s' /\
  (forall a, lo <= a < lo + n -> k <= off buf a -> rd (umem s') a = rd (umem s) a).
Proof.
  intros Hok Hst Hb Hfl Hops Hdel Hm s'. pose proof (ks_fd _ _ _ _ _ _ Hst) as Hfd.
  assert (fd_ok (kern s) fd) as Hfdok by (split; [exact (ko_wf _ _ _ _ Hok) | lia]).
  split; [|split].
  - apply frame_after; [exact Hok|]. apply call_frame_read_to; [exact Hfd|].
    exact (buffer_frame _ _ buf k Hb Hm).
  - pose proof (file_at_read_to fd g m (kern s) Hfdok) as E. change (k_stream img sz s0 fd src' (read_to fd g m (kern s))).
    split; [exact Hfd | now rewrite E | now rewrite E | exact (ks_index _ _ _ _ _ _ Hst) |].
    now apply Hdel.
  - intros a Ha Hoff. exact (Hm a Hoff).
Qed.

Lemma file_byte_range m ip ds q : 0 <= file_byte m ip ds q < 256.
Proof. apply rd_range. Qed.

Lemma kernel_read_file s fd rest buf k :
  ok s -> stream fd (Bytes rest) s -> in_frame lo n buf k -> 32 <= k <= 4096 ->
  let l := take (Z.to_nat k) rest in
  exists s', ece391_read fd buf k s = Some (Z.of_nat (length l), s') /\ after [] s s' /\
    stream fd (Bytes (drop (Z.to_nat k) rest)) s' /\
    Forall (fun c => 0 <= c < 256) l /\ rdn (umem s') buf (length l) = l /\
    (forall a, lo <= a < lo + n -> k <= off buf a -> rd (umem s') a = rd (umem s) a).
Proof.
  intros Hok Hst Hb Hk l. pose proof Hst as [Hfd Hfl Hops Hidx (p & [Hfile Hino] & Hty & Hpos & Hp & Hrest)].
  pose proof ly_frame as Hfr. pose proof ly_image as Himg. pose proof ly_image_frame as Hap.
  rewrite gate_read by (apply file_does_not_wait; rewrite s32_small by lia; exact Hops). rewrite !s32_small by lia.
  set (inode := inode_number (dentry_at (kern s) fd)) in *.
  assert (fd_ok (kern s) fd) as Hfdok by (split; [exact (ko_wf _ _ _ _ Hok) | lia]).
  assert (reading fd img sz inode s0 (kern s) p) as Hr.
  { split; [split; try done; lia|]. destruct Hok as [_ _ _ F1 F2 F3 _ _]. now split_and!. }
  assert (region buf k) as Hbuf by (unfold region, in_frame in *; lia).
  assert (apart img sz buf k) as Hapb by (unfold apart, in_frame in *; lia).
  assert (u32 buf <> 0) as Hnull by (unfold in_frame in *; rewrite u32_small; lia).
  assert (length (file_content s0 inode) = Z.to_nat (file_size s0 inode)) as Hlen
    by (unfold file_content; rewrite length_map, length_zrange; f_equal; lia).
  assert (Forall (fun c => 0 <= c < 256) l) as Hl.
  { subst l rest. apply Forall_take, Forall_drop. unfold file_content. apply Forall_map, Forall_forall.
    intros; apply file_byte_range. }
  destruct (Z.lt_ge_cases p (file_size s0 inode)) as [Hlt|Hge].
  - destruct (reading_exact idle fd buf k img sz inode s0 Himg Hbuf Hapb Hfile Hino ltac:(lia) Hnull
      (kern s) p Hr ltac:(lia)) as (m' & E & Hbytes & Hframe).
    set (r := k `min` (file_size s0 inode - p)) in *.
    assert (l = take (Z.to_nat r) (drop (Z.to_nat p) (file_content s0 inode))) as El.
    { subst l rest. destruct (Z.le_ge_cases k (file_size s0 inode - p)).
      - do 2 f_equal. lia.
      - rewrite !take_ge by (rewrite length_drop; lia). reflexivity. }
    assert (length l = Z.to_nat r) as Hll by (rewrite El, length_take, length_drop; lia).
    destruct (read_to_stream s fd buf k (Bytes rest) (Bytes (drop (Z.to_nat k) rest))
      (set_fpos (p + r)) m' Hok Hst Hb) as (HA & HS & HF); [exact Hfl | exact Hops | | exact Hframe |].
    { intros k' Ef Ed. exists (p + r). rewrite Ed, Ef. fold inode. split_and!; try done; try lia.
      rewrite Hrest, drop_drop. destruct (Z.le_ge_cases k (file_size s0 inode - p)).
      - f_equal. lia.
      - rewrite !drop_ge by lia. reflexivity. }
    exists (Ust (read_to fd (set_fpos (p + r)) m' (kern s)) (future s)).
    rewrite E. split; [rewrite Hll, Z2Nat.id by lia; reflexivity|].
    split_and!; try assumption. rewrite Hll, El. exact Hbytes.
  - rewrite (reading_end idle fd buf k img sz inode s0 Himg Hbuf Hapb Hfile Hino ltac:(lia) Hnull (kern s) p Hr Hge).
    assert (l = []) as El.
    { subst l rest. rewrite drop_ge by lia. now rewrite take_nil. }
    assert (rest = []) as Er by (rewrite Hrest; apply drop_ge; lia).
    set (m' := zero_buf (Z.to_nat k) 0 buf (mem_of (kern s))).
    destruct (read_to_stream s fd buf k (Bytes rest) (Bytes (drop (Z.to_nat k) rest)) id m' Hok Hst Hb)
      as (HA & HS & HF); [exact Hfl | exact Hops | | |].
    { intros k' Ef Ed. exists p. rewrite Ed, Ef. fold inode. split_and!; try done; try lia.
      rewrite Er, drop_nil, drop_ge by lia. reflexivity. }
    { intros a Ha. apply (filled_frame _ _ (buf + 0) (Z.of_nat (Z.to_nat k)) (fun _ => 0));
        [apply zero_buf_filled; unfold in_frame in *; lia | rewrite Z.add_0_r; lia]. }
    exists (Ust (read_to fd id m' (kern s)) (future s)). rewrite El in *.
    split; [|split_and!; try assumption; reflexivity].
    unfold back. cbn. do 3 f_equal. unfold read_to. symmetry. apply upd_file_same; [|done].
    exact Hfdok.
Qed.

Lemma upd_mem_same k : upd_mem (fun _ => mem_of k) k = k.
Proof. destruct k as [h g sg t c sv], h. reflexivity. Qed.

(** a read of a directory *)
Lemma read_directory k fd buf nb :
  fd_ok k fd -> flags (file_at k fd) = 1 -> fops_ptr (file_at k fd) = filesystem_fops ->
  file_type (dentry_at k fd) = 1 -> u32 buf <> 0 -> 0 <= nb ->
  read idle fd buf nb k = dirread fd buf (upd_fsg (set_fd_val fd) k).
Proof.
  intros [_ Hfd] Hfl Hops Hty Hb Hn. unfold read, FD_MAX. rewrite Hfl, Hops. cbn [call_read].
  destruct (Z.eqb_spec (u32 buf) 0), (Z.ltb_spec fd 0), (Z.gtb_spec fd 7), (Z.ltb_spec nb 0); try done; try lia.
  cbn [orb]. unfold filesystem_read. autorewrite with kst. now rewrite Hty.
Qed.

Lemma kernel_read_dir s fd names buf k :
  ok s -> stream fd (Entries names) s -> in_frame lo n buf k -> 32 <= k <= 4096 ->
  let '(l, src') := pull k (Entries names) in
  exists s', ece391_read fd buf k s = Some (Z.of_nat (length l), s') /\ after [] s s' /\
    stream fd src' s' /\ Z.of_nat (length l) <= 32 /\ Forall (fun c => 0 <= c < 256) l /\
    rdn (umem s') buf (length l) = l /\
    (forall a, lo <= a < lo + n -> k <= off buf a -> rd (umem s') a = rd (umem s) a).
Proof.
  intros Hok Hst Hb Hk.
  pose proof Hst as [Hfd Hfl Hops Hidx (name & p & Hdir & Hty & Hpos & Hp & Hnames)].
  pose proof Hdir as (Hcount & Hall & Hlast).
  pose proof ly_frame as Hfr. pose proof ly_image as Himg. pose proof ly_image_frame as Hap.
  pose proof ly_dir as Hd.
  assert (u32 buf <> 0) as Hnull by (unfold in_frame in *; rewrite u32_small; lia).
  assert (fd_ok (kern s) fd) as Hfdok by (split; [exact (ko_wf _ _ _ _ Hok) | lia]).
  rewrite gate_read by (apply file_does_not_wait; rewrite s32_small by lia; exact Hops). rewrite !s32_small by lia.
  rewrite read_directory by (done || lia).
  set (k1 := upd_fsg (set_fd_val fd) (kern s)).
  assert (scanning fd s0 k1) as Hs.
  { split; [exact Hfdok|]. split; [exact (ko_fs _ _ _ _ Hok)|].
    change (file_at k1 fd) with (file_at (kern s) fd). rewrite Hpos. split; [exact Hp|].
    intros a Ha. apply (ko_image _ _ _ _ Hok). lia. }
  assert (region (dentry_begin (filesystem (fsg s0))) (64 * num_dir_entries (filesystem (fsg s0)))) as Hreg
    by (unfold region in *; lia).
  assert (region buf 32) as Hbuf by (unfold region, in_frame in *; lia).
  assert (apart (dentry_begin (filesystem (fsg s0))) (64 * num_dir_entries (filesystem (fsg s0))) buf 32) as Hapb
    by (unfold apart, in_frame in *; lia).
  destruct (Z.lt_ge_cases p (num_dir_entries (filesystem (fsg s0)))) as [Hlt|Hge].
  - destruct (scanning_step fd buf s0 name Hreg Hbuf Hapb (proj2 Hcount) Hall Hlast k1 Hs) as
      (i & m' & E & Hnext & Hi & Hne & Hlen & Hrd & Hframe).
    { change (file_at k1 fd) with (file_at (kern s) fd). now rewrite Hpos. }
    change (file_at k1 fd) with (file_at (kern s) fd) in Hnext, Hi. rewrite Hpos in Hnext, Hi.
    rewrite Hnames, Hnext. cbn [pull]. rewrite E.
    destruct (read_to_stream s fd buf k (Entries names) (Entries (names_from s0 name (i + 1)))
      (set_fpos (i + 1)) m' Hok Hst Hb) as (HA & HS & HF); [exact Hfl | exact Hops | | |].
    { intros k' Ef Ed. exists name, (i + 1). rewrite Ed, Ef. split_and!; try done; try apply Hdir; lia. }
    { intros a Ha. apply Hframe. lia. }
    exists (Ust (read_to fd (set_fpos (i + 1)) m' (kern s)) (future s)). split; [reflexivity|].
    assert (Forall (fun c => 0 <= c < 256) (name i)) as Hbytes.
    { rewrite <- Hrd, rdn_map by (unfold in_frame in *; lia). apply Forall_map, Forall_forall.
      intros; apply rd_range. }
    split_and!; try assumption. lia.
  - assert (p = num_dir_entries (filesystem (fsg s0))) as Ep by lia.
    assert (names = []) as -> by (rewrite Hnames, Ep; unfold names_from; now rewrite zrange_nil).
    cbn [pull]. unfold dirread. destruct Hs as (_ & Hg & _).
    change (file_at k1 fd) with (file_at (kern s) fd). rewrite Hg, Hpos, Ep.
    destruct (Z.geb_spec (num_dir_entries (filesystem (fsg s0))) (num_dir_entries (filesystem (fsg s0)))); [|lia].
    destruct (read_to_stream s fd buf k (Entries []) (Entries []) id (mem_of (kern s)) Hok Hst Hb)
      as (HA & HS & HF); [exact Hfl | exact Hops | | done |].
    { intros k' Ef Ed. exists name, p. rewrite Ed, Ef. split_and!; try done; try apply Hdir; lia. }
    exists (Ust (read_to fd id (mem_of (kern s)) (kern s)) (future s)).
    split; [|split_and!; try assumption; try reflexivity; cbn; try lia; constructor].
    unfold back. cbn. do 3 f_equal. unfold read_to. rewrite upd_file_same by done.
    symmetry. exact (upd_mem_same k1).
Qed.

Lemma kernel_read s fd src buf k :
  ok s -> stream fd src s -> in_frame lo n buf k -> 32 <= k <= 4096 ->
  let '(l, src') := pull k src in
  exists s', ece391_read fd buf k s = Some (Z.of_nat (length l), s') /\ after [] s s' /\
    stream fd src' s' /\ Z.of_nat (length l) <= k /\ Forall (fun c => 0 <= c < 256) l /\
    rdn (umem s') buf (length l) = l /\
    (forall a, lo <= a < lo + n -> k <= off buf a -> rd (umem s') a = rd (umem s) a).
Proof.
  intros Hok Hst Hb Hk. destruct src as [rest|names].
  - cbn [pull]. destruct (kernel_read_file s fd rest buf k Hok Hst Hb Hk) as (s' & E & HA & HS & Hbytes & Hrd & HF).
    exists s'. split_and!; try assumption. rewrite length_take. lia.
  - pose proof (kernel_read_dir s fd names buf k Hok Hst Hb Hk) as Hr.
    destruct (pull k (Entries names)) as [l src']. destruct Hr as (s' & E & HA & HS & Hlen & Hrest).
    exists s'. split_and!; try assumption; try apply Hrest. lia.
Qed.

(** *** Opening *)

Lemma free_lowest k : k_free k -> exists i, lowest_free k i.
Proof.
  intros (j & Hj & Hf).
  destruct (find_first (fun i => flags (file_at k i) =? 0) 6 2) as [i|] eqn:E.
  - apply find_first_Some in E as (Hi & Hfi & Hlt). exists i. split; [lia|].
    split; [now apply Z.eqb_eq|]. intros q Hq. apply Z.eqb_neq. now apply Hlt.
  - rewrite find_first_None in E. specialize (E j ltac:(lia)). cbn beta in E. now rewrite Hf in E.
Qed.

(** the name field of a slot is in the image *)
Lemma slot_kept k i : k_ok img sz s0 k -> 0 <= i < 62 ->
  entry_addr k i = entry_addr s0 i /\ entry_name k i = entry_name s0 i /\
  (forall w, 0 <= w <= 60 -> rd32 (mem_of k) (entry_addr s0 i + w) = rd32 (mem_of s0) (entry_addr s0 i + w)).
Proof.
  intros Hok Hi. pose proof ly_dir as Hd. pose proof ly_image as Himg. unfold region in Himg.
  assert (entry_addr k i = entry_addr s0 i) as Ea by (unfold entry_addr; now rewrite (ko_fs _ _ _ _ Hok)).
  split; [exact Ea|]. split.
  - assert (rdn (mem_of k) (entry_addr s0 i) 32 = rdn (mem_of s0) (entry_addr s0 i) 32) as Er.
    { apply rdn_ext. intros a Ha. apply (ko_image _ _ _ _ Hok). unfold entry_addr, B_64 in Ha. lia. }
    unfold entry_name. rewrite Ea, Er. apply cstrn_literal.
  - intros w Hw. apply (same_image_rd32 img sz); [exact (ko_image _ _ _ _ Hok) | |]; unfold entry_addr, B_64; lia.
Qed.

(** a C string compares by its first 32 characters *)
Lemma name_of_string k p t : c_string (mem_of k) p t -> name_of k p = take 32 t.
Proof. intros Hs. apply (cstrn_string (mem_of k) p t 32 0 Hs). lia. Qed.

Lemma holds_found k p t i :
  k_ok img sz s0 k -> c_string (mem_of k) p t -> is_null p = false -> t <> [] -> first_slot s0 t i ->
  found k p i.
Proof.
  intros Hok Hs Hn Ht (Hi & He & Hj). split; [exact Hn|]. split.
  - destruct Hs as (Htext & _ & Hc). destruct t as [|c t]; [done|].
    specialize (Htext 0 ltac:(cbn [length]; lia)). rewrite Z.add_0_l in Htext. rewrite Htext.
    apply Forall_cons_1 in Hc as [Hc _]. change (aget (c :: t) 0) with c. lia.
  - intros d. pose proof (read_dentry_by_name_spec p d k) as Hspec.
    assert (find_first (fun i => bool_decide (name_of k p = entry_name k i)) 62 0 = Some i) as E.
    { apply find_first_Some. split; [lia|]. rewrite (name_of_string k p t Hs). split.
      - apply bool_decide_eq_true. destruct (slot_kept k i Hok ltac:(lia)) as (_ & -> & _). exact (eq_sym He).
      - intros j Hlt. apply bool_decide_eq_false. destruct (slot_kept k j Hok ltac:(lia)) as (_ & -> & _).
        intros Eq. exact (Hj j Hlt (eq_sym Eq)). }
    now rewrite E in Hspec.
Qed.

Lemma call_frame_opened k i j :
  0 <= fd_val (fsg k) < 8 -> 2 <= j < 8 -> call_frame k (opened_file k i j).
Proof.
  intros Hv Hj. unfold opened_file, looked_up.
  etrans; [apply (call_frame_index j)|].
  etrans; [apply (call_frame_file j (set_flags 1)); exact Hj|].
  etrans; [apply (call_frame_dentry j (load_dentry (mem_of k) (entry_addr k i))); lia|].
  etrans; [apply (call_frame_dentry (fd_val (fsg k)) (load_dentry (mem_of k) (entry_addr k i))); exact Hv|].
  etrans; [apply (call_frame_file j (set_fpos 0)); exact Hj|].
  etrans; [apply (call_frame_file j (set_fops_ptr filesystem_fops)); exact Hj|].
  apply call_frame_save.
Qed.

Lemma kernel_open s p t src :
  ok s -> free s -> holds t src s -> c_string (umem s) p t ->
  readable_arg lo n p (Z.of_nat (length t) + 1) ->
  exists fd s', ece391_open p s = Some (fd, s') /\ fd <> -1 /\ after [] s s' /\ stream fd src s' /\
    same_frame lo n (umem s) (umem s').
Proof.
  intros Hok Hfree (Ht & i & Hslot & Hsrc) Hs Hp. cbv zeta in Hsrc.
  destruct (free_lowest _ Hfree) as (j & Hj). pose proof Hj as (Hj2 & _).
  pose proof (holds_found _ p t i Hok Hs (arg_not_null _ _ Hp) Ht Hslot) as Hf.
  destruct (slot_kept _ i Hok (proj1 Hslot)) as (Ea & _ & Hw).
  pose proof (Hw 32 ltac:(lia)) as Hw32. pose proof (Hw 36 ltac:(lia)) as Hw36. clear Hw.
  destruct (open_file (kern s) p i j (ko_wf _ _ _ _ Hok) (ko_val _ _ _ _ Hok) Hf Hj) as (E & Ho & Hpos).
  { rewrite Ea, Hw32. destruct src; [lia|]. destruct Hsrc as [-> _]. lia. }
  rewrite gate_open, E. exists j, (Ust (opened_file (kern s) i j) (future s)). split; [reflexivity|].
  split; [lia|]. split; [|split].
  - apply frame_after; [exact Hok|]. now apply call_frame_opened; [exact (ko_val _ _ _ _ Hok)|].
  - change (k_stream img sz s0 j src (opened_file (kern s) i j)).
    pose proof (op_entry _ _ _ _ _ Ho) as Hd. rewrite Ea in Hd.
    assert (file_type (dentry_at (opened_file (kern s) i j) j) = rd32 (mem_of s0) (entry_addr s0 i + 32)) as Hty
      by (rewrite Hd; exact Hw32).
    assert (inode_number (dentry_at (opened_file (kern s) i j) j) = rd32 (mem_of s0) (entry_addr s0 i + 36)) as Hin
      by (rewrite Hd; exact Hw36).
    split; [exact Hj2 | exact (op_flags _ _ _ _ _ Ho) | exact (op_ops _ _ _ _ _ Ho) | exact Hj2 |].
    destruct src as [content|names]; cbn [delivers].
    + destruct Hsrc as (H1 & Hfo & ->). exists 0. rewrite Hin, Hty, Hpos. split_and!; try done; try lia.
      pose proof (fi_size _ _ _ _ _ _ (proj1 Hfo)). lia.
    + destruct Hsrc as (H1 & name & Hdir & ->). exists name, 0. rewrite Hty, Hpos. split_and!; try done; try apply Hdir.
  - intros a Ha. exact (f_equal (fun m => rd m a) (op_mem _ _ _ _ _ Ho)).
Qed.

(** the state behind an open that finds no such name *)
Definition failed_open (k : kst) (j : Z) : kst :=
  save_pcb (pcb_slot (find_pid (r_cr3 (cpu k)))) (upd_file j (set_flags 0) (upd_sysg (set_fd_index j) k)).

Lemma call_frame_failed k j : 2 <= j < 8 -> call_frame k (failed_open k j).
Proof.
  intros Hj. unfold failed_open. etrans; [|apply call_frame_save].
  etrans; [apply (call_frame_index j)|]. now apply call_frame_file.
Qed.

Lemma file_at_failed k j q :
  pcb_wf (pcb_of k) -> 2 <= j < 8 -> flags (file_at k j) = 0 -> 0 <= q < 8 ->
  file_at (failed_open k j) q = file_at k q.
Proof.
  intros Hwf Hj Hfl Hq. unfold failed_open, save_pcb. autorewrite with kst.
  destruct (decide (q = j)) as [->|Hne]; [|now rewrite file_at_upd_file_ne by lia].
  rewrite file_at_upd_file by (split; [exact Hwf | lia]). rewrite file_at_fd_index, <- Hfl.
  now destruct (file_at k j).
Qed.

Lemma lacks_missing k p t : k_ok img sz s0 k -> k_lacks s0 t -> c_string (mem_of k) p t -> missing p k.
Proof.
  intros Hok [->|Hl] Hs.
  - left. destruct Hs as (_ & Hz & _). exact Hz.
  - right. intros d. pose proof (read_dentry_by_name_spec p d k) as Hspec.
    assert (find_first (fun i => bool_decide (name_of k p = entry_name k i)) 62 0 = None) as E.
    { apply find_first_None. intros i Hi. apply bool_decide_eq_false. rewrite (name_of_string _ p t Hs).
      destruct (slot_kept _ i Hok ltac:(lia)) as (_ & -> & _). intros Eq. exact (Hl i ltac:(lia) (eq_sym Eq)). }
    now rewrite E in Hspec.
Qed.

Lemma kernel_missing_exact s p t :
  ok s -> free s -> lacks t s -> c_string (umem s) p t -> is_null p = false ->
  exists j, lowest_free (kern s) j /\ ece391_open p s = Some (-1, Ust (failed_open (kern s) j) (future s)).
Proof.
  intros Hok Hfree Hlacks Hs Hp. destruct (free_lowest _ Hfree) as (j & Hj). exists j. split; [exact Hj|].
  rewrite gate_open, (open_missing (kern s) p j Hp Hj (ko_wf _ _ _ _ Hok) (ko_val _ _ _ _ Hok)); [reflexivity|].
  exact (lacks_missing _ _ _ Hok Hlacks Hs).
Qed.

Lemma kernel_missing s p t :
  ok s -> free s -> lacks t s -> c_string (umem s) p t ->
  readable_arg lo n p (Z.of_nat (length t) + 1) ->
  exists s', ece391_open p s = Some (-1, s') /\ kept [] s s' /\ same_frame lo n (umem s) (umem s').
Proof.
  intros Hok Hfree Hlacks Hs Hp.
  destruct (kernel_missing_exact s p t Hok Hfree Hlacks Hs (arg_not_null _ _ Hp)) as (j & (Hj & Hfl & _) & E).
  exists (Ust (failed_open (kern s) j) (future s)). split; [exact E|]. split; [|now intros a Ha].
  apply frame_kept; [exact Hok | now apply call_frame_failed | | intros _; exact Hj].
  intros q Hq. split; [apply file_at_failed; [exact (ko_wf _ _ _ _ Hok) | exact Hj | exact Hfl | lia] | reflexivity].
Qed.

(** *** Closing *)

Lemma call_frame_device b fd k : 2 <= fd < 8 ->
  call_frame k (if b : bool then upd_hw (fun h => snd (rtc_close fd h)) k else snd (filesystem_close fd k)).
Proof.
  intros Hfd. destruct b; [now split|]. unfold filesystem_close.
  assert (call_frame k (upd_fsg (set_fd_val fd) k)) as F by (apply call_frame_val; lia).
  case_match; [exact F|]. case_match; [exact F|]. etrans; [exact F|]. now apply call_frame_file.
Qed.

Lemma call_frame_null q k k' : 2 <= q <= 8 -> null_fops q k = Some k' -> call_frame k k'.
Proof.
  intros Hq. unfold null_fops. destruct (in_range q FILE_ARRAY_SIZE) eqn:Hr.
  - unfold in_range, FILE_ARRAY_SIZE in Hr. intros [= <-]. apply call_frame_file. lia.
  - case_match; [|discriminate]. intros [= <-]. apply call_frame_dentry. lia.
Qed.

Lemma call_frame_close fd k r k' :
  2 <= fd_index (sysg k) <= 8 -> close fd k = Some (r, k') -> call_frame k k'.
Proof.
  intros Hq. unfold close, FD_MAX, FD_MIN.
  destruct (Z.gtb_spec fd 7), (Z.ltb_spec fd 2); cbn [orb]; try (intros [= _ <-]; reflexivity).
  assert (2 <= fd < 8) as Hfd by lia. destruct (flags (file_at k fd) =? 1); [|intros [= _ <-]; reflexivity].
  intros (k4 & Hn & Hb)%bind_Some. revert Hn Hb. cbv zeta.
  change (fd_index (sysg (upd_dentry fd (set_inode_number 0) (upd_dentry fd (set_file_type 0)
    (upd_file fd (set_fpos 0) k))))) with (fd_index (sysg k)).
  set (k1 := upd_file fd (set_fpos 0) k).
  assert (call_frame k k1) as F1 by now apply call_frame_file.
  set (k3 := upd_dentry fd (set_inode_number 0) (upd_dentry fd (set_file_type 0) k1)).
  assert (call_frame k k3) as F3.
  { etrans; [exact F1|]. etrans; [apply (call_frame_dentry fd (set_file_type 0)); lia|].
    apply (call_frame_dentry fd (set_inode_number 0)); lia. }
  clearbody k3. clear F1 k1. intros Hn.
  assert (call_frame k k4) as F4 by (etrans; [exact F3 | exact (call_frame_null _ _ _ Hq Hn)]).
  clear Hn F3 k3.
  set (k5 := upd_dentry fd (set_reserved _) _).
  assert (call_frame k k5) as F5.
  { etrans; [exact F4|]. etrans; [apply (call_frame_dentry fd (set_file_name (map (fun _ => 0) (zrange 0 B_32)))); lia|].
    apply (call_frame_dentry fd); lia. }
  clearbody k5. clear F4 k4. intros [= _ <-].
  etrans; [exact F5|]. etrans; [exact (call_frame_device ((fd_rtc (sysg k5) >? 1) && (fd =? fd_rtc (sysg k5))) fd k5 Hfd)|].
  now apply call_frame_file.
Qed.

Lemma kernel_close s fd src :
  ok s -> stream fd src s ->
  exists s', ece391_close fd s = Some (0, s') /\ after [] s s' /\ free s' /\
    same_frame lo n (umem s) (umem s').
Proof.
  intros Hok [Hfd Hfl Hops Hidx Hsrc]. rewrite gate_close, s32_small by lia.
  destruct (close_open (kern s) fd) as (k' & E & Hf & _ & _ & Hm & _);
    [split; [exact (ko_wf _ _ _ _ Hok) | lia] | lia | exact Hfl | lia |].
  rewrite E. exists (Ust k' (future s)). split; [reflexivity|]. split; [|split].
  - apply frame_after; [exact Hok|]. apply (call_frame_close fd (kern s) 0 k'); [lia | exact E].
  - exists fd. split; [exact Hfd|]. cbn [kern]. now rewrite Hf.
  - intros a Ha. exact (f_equal (fun m => rd m a) Hm).
Qed.

(** *** Reading a line *)

(** the line, and that no other global changes *)
Lemma kernel_line_exact s keys ls buf k :
  ok s -> lines (keys :: ls) s -> in_frame lo n buf k -> k <= 4096 ->
  Z.of_nat (length (text_of keys)) < k -> (Back ∈ keys -> 7 <= col (shown s)) ->
  col (shown s) + Z.of_nat (length keys) <= 79 ->
  exists s', ece391_read 0 buf k s = Some (Z.of_nat (length (text_of keys)), s') /\
    follows (fun t => tty_enter (tty_keys [] keys t)) s s' /\ lines ls s' /\
    (forall fd src, stream fd src s -> stream fd src s') /\ (free s -> free s') /\
    Forall (fun c => 32 <= c <= 126) (text_of keys) /\
    rdn (umem s') buf (length (text_of keys)) = text_of keys /\
    (forall a, lo <= a < lo + n -> k <= off buf a -> rd (umem s') a = rd (umem s) a) /\
    sysg (kern s') = sysg (kern s) /\ fsg (kern s') = fsg (kern s) /\ cpu (kern s') = cpu (kern s).
Proof.
  intros Hok (ws & more & Hfut & Hws) Hb Hk Hlen Hback Hfit. pose proof ly_frame as Hfr.
  apply Forall2_cons_inv_l in Hws as (w & ws' & (Hkeys & rest & Hirqs) & Hws & ->). cbn [app] in Hfut.
  destruct Hok as [O1 O2 O3 O4 O5 O6 O7 (O8 & O9 & O10)]. destruct (O3 0) as [Hfl Hops]; [now left|].
  assert (s32 k = k) as Hsk by (apply s32_small; unfold in_frame in *; lia).
  assert (u32 buf <> 0) as Hnull by (unfold in_frame in *; rewrite u32_small; lia).
  rewrite (gate_read_waits 0 buf k s w (ws' ++ more)); [| |exact Hfut].
  2:{ unfold waits. change (s32 0) with 0. rewrite Hfl, Hops, Hsk. destruct (Z.eqb_spec (u32 buf) 0); [done|].
      destruct (Z.leb_spec 0 k); [reflexivity | unfold in_frame in *; lia]. }
  change (s32 0) with 0. rewrite Hsk.
  unfold read, FD_MAX. rewrite Hfl, Hops. destruct (Z.eqb_spec (u32 buf) 0), (Z.ltb_spec k 0); try done; [lia|].
  cbn [orb call_read]. rewrite Hirqs.
  destruct (line_typed (kern s) keys 0 buf k rest) as
    (k' & E & Hs & Hok' & Hbuf & Hframe & Hch & Hroom & Hc & He & Hz & Ho); [done | | | exact Hlen |].
  { split; try assumption. }
  { exact (arg_off_screen (Addr buf) k Hb). }
  fold (text_of keys) in *. rewrite E. exists (Ust k' (ws' ++ more)). split; [reflexivity|].
  destruct Ho as (Hg & Hsys & Hcpu & Hsv).
  assert (pcb_of k' = pcb_of (kern s)) as Hp by (unfold pcb_of; now rewrite Hsys).
  assert (forall fd, file_at k' fd = file_at (kern s) fd) as Hfa by (intros; unfold file_at; now rewrite Hp).
  assert (forall fd, dentry_at k' fd = dentry_at (kern s) fd) as Hda by (intros; unfold dentry_at; now rewrite Hp).
  split_and!.
  - split; try (intros; assumption).
    + split; cbn [kern]; rewrite ?Hp, ?Hg; try assumption.
      * intros fd Hfd. rewrite Hfa. exact (O3 fd Hfd).
      * intros a Ha. etrans; [apply Hframe | now apply O6];
          pose proof ly_image; pose proof ly_image_screen; pose proof ly_image_frame;
          unfold region, apart, in_frame, VIDEO in *; zlia.
      * exact (conj Hc (conj He Hz)).
    + intros t Ht. unfold arg, kernel_view, k_arg in *. cbn [kern] in *. rewrite Hp. exact Ht.
  - exists ws', more. exact (conj eq_refl Hws).
  - intros fd src [S1 S2 S3 S4 S5]. split; cbn [kern]; rewrite ?Hfa, ?Hsys; try assumption.
    unfold delivers in *. rewrite Hda, Hfa. exact S5.
  - intros (j & Hj & Hfj). exists j. cbn [kern]. rewrite Hfa. exact (conj Hj Hfj).
  - exact Hch.
  - change (umem (Ust k' (ws' ++ more))) with (mem_of k').
    rewrite <- (take_rdn _ _ _ (length (text_of keys) + 1)), Hbuf by lia. now rewrite take_app_length.
  - intros a Ha Hoff. apply Hframe; [|lia]. pose proof ly_frame_screen. unfold apart, VIDEO in *. zlia.
  - exact Hsys.
  - exact Hg.
  - exact Hcpu.
Qed.

Lemma kernel_line s keys ls buf k :
  ok s -> lines (keys :: ls) s -> in_frame lo n buf k -> k <= 4096 ->
  Z.of_nat (length (text_of keys)) < k -> (Back ∈ keys -> 7 <= col (shown s)) ->
  col (shown s) + Z.of_nat (length keys) <= 79 ->
  exists s', ece391_read 0 buf k s = Some (Z.of_nat (length (text_of keys)), s') /\
    follows (fun t => tty_enter (tty_keys [] keys t)) s s' /\ lines ls s' /\
    (forall fd src, stream fd src s -> stream fd src s') /\ (free s -> free s') /\
    Forall (fun c => 32 <= c <= 126) (text_of keys) /\
    rdn (umem s') buf (length (text_of keys)) = text_of keys /\
    (forall a, lo <= a < lo + n -> k <= off buf a -> rd (umem s') a = rd (umem s) a).
Proof.
  intros Hok Hl Hb Hk Hlen Hback Hfit.
  destruct (kernel_line_exact s keys ls buf k Hok Hl Hb Hk Hlen Hback Hfit) as
    (s' & E & HF & HL & HS & HR & Hch & Hrd & Hfr & _).
  exists s'. now split_and!.
Qed.

(** *** The contract *)

Lemma kernel_contract : Contract ust lo n.
Proof.
  split.
  - pose proof ly_frame. lia.
  - exact kernel_store.
  - exact kernel_write.
  - exact kernel_read.
  - exact kernel_open.
  - exact kernel_missing.
  - exact kernel_close.
  - exact kernel_getargs.
  - exact kernel_line.
Qed.
End Laws.
