(* ===== verification/Userland.v ===== *)
(** * The user programs on the kernel

    The programs of Programs.v, run through the trap on the kernel: what they
    show on the screen, with the file system image, the descriptor tables, the
    line editor and the console underneath. *)

From Stdlib Require Import ZArith Lia String.
From stdpp Require Import base list gmap.
From S2P Require Import Prelude Memory CMem CStr Machine Console Pic Rtc Paging KState Filesystem TermIO Syscalls Process Terminal Tty Dispatch UserLib Programs UserKernel.
Open Scope Z_scope.

Section Userland.
Context `{Platform} {img sz : Z} {s0 : kst} {lo n : Z} `{!Layout img sz s0 lo n}.
Variable elsewhere : outcome -> option (Z * kst).
#[local] Hint Extern 0 (SysCalls _) => exact (kernel_calls elsewhere) : typeclass_instances.
#[local] Hint Extern 0 (View _) => exact (kernel_view img sz s0) : typeclass_instances.
#[local] Hint Extern 0 (Contract _ _ _) => exact (kernel_contract elsewhere) : typeclass_instances.

(** run from kernel state [k] while the devices do [fut], the program returns
    [v] and leaves the screen [t] and a kernel ready for the next one *)
Definition runs (main : prog ust Z) (k : kst) (fut : list schedule) (v : Z) (t : tty) : Prop :=
  exists s', main (Ust k fut) = Some (v, s') /\ screen (hw (kern s')) = t /\ k_ok img sz s0 (kern s').

(** C2: cat shows the file: run with the name of a regular file of the image as
    its argument, it returns 0 and the screen is what the terminal makes of
    exactly the file's bytes.  It gets them through getargs, open and read in
    pieces of 1024 bytes, and prints them with write, on the kernel.  The stack
    word that write returns uninitialised is taken not to be -2, which cat
    would take for a failure. *)
Theorem cat_shows_file k fut name content buf fuel :
  k_ok img sz s0 k -> k_free k -> k_arg name k -> k_holds img sz s0 name (Bytes content) ->
  in_frame lo n buf 1024 -> (length content < fuel)%nat ->
  runs (cat fuel buf) k fut 0 (tty_show content (screen (hw k))).
Proof.
  intros Hok Hfree Harg Hh Hb Hf.
  destruct (cat_copies (Ust k fut) name content buf fuel) as (s' & E & A); try assumption.
  exists s'. split; [exact E|]. split; [exact (af_shown _ _ _ A) | exact (af_ok _ _ _ A)].
Qed.

(** C30: cat with a name the directory does not hold says so and returns 2, and
    the kernel is as ready for the next command as before; the stack word that
    write returns uninitialised is not -2. *)
Theorem cat_reports_missing_file k fut name buf fuel :
  k_ok img sz s0 k -> k_free k -> k_arg name k -> k_lacks s0 name -> in_frame lo n buf 1024 ->
  runs (cat fuel buf) k fut 2 (tty_show (chars "file not found" ++ [10]) (screen (hw k))).
Proof.
  intros Hok Hfree Harg Hh Hb.
  destruct (cat_not_found (Ust k fut) name buf fuel) as (s' & E & A); try assumption.
  exists s'. split; [exact E|]. split; [exact (af_shown _ _ _ A) | exact (af_ok _ _ _ A)].
Qed.

(** C13: ls shows the names that the directory read lists, one to a line, in the
    image's order, and returns 0.  These are the entries whose type is not 0:
    the device entry "rtc" of the repository's image, of type 0, is left out.
    The names are non-empty and shorter than 32 characters, the last entry of
    the directory is a listed one, and the stack word that write returns
    uninitialised is not -2. *)
Theorem ls_shows_directory k fut names buf fuel :
  k_ok img sz s0 k -> k_free k -> k_holds img sz s0 (chars ".") (Entries names) ->
  in_frame lo n buf 33 -> (length names < fuel)%nat ->
  runs (ls fuel buf) k fut 0 (tty_show (listing names) (screen (hw k))).
Proof.
  intros Hok Hfree Hh Hb Hf. pose proof Hh as (_ & i & _ & _ & name & (_ & Hall & _) & Hnames).
  assert (Forall (fun x => x <> []) names) as Hne.
  { subst names. apply Forall_map, Forall_forall. intros j (Hj & Hr)%list_elem_of_In%List.filter_In.
    apply list_elem_of_In, elem_of_zrange in Hj. now apply Hall. }
  destruct (ls_lists (Ust k fut) names buf fuel) as (s' & E & A); try assumption.
  exists s'. split; [exact E|]. split; [exact (af_shown _ _ _ A) | exact (af_ok _ _ _ A)].
Qed.

(** C12: hello, started at the beginning of a row, asks for a name, waits while
    it is typed with at most 57 keys, corrections included, and greets it: the
    screen is the prompt's, then the typing's, then the greeting's, with the
    line as the user left it; the stack word that write returns uninitialised
    is not -2. *)
Theorem hello_greets_user k fut w keys rest buf :
  k_ok img sz s0 k -> key_irqs w = typing keys ++ rest -> Forall key_ok keys ->
  Z.of_nat (length keys) <= 57 -> screen_x (hw k) = 0 -> in_frame lo n buf 1024 ->
  runs (hello buf) k (w :: fut) 0
    (tty_show (chars "Hello, " ++ text_of keys)
      (tty_enter (tty_keys [] keys (tty_show (chars "Hi, what's your name? ") (screen (hw k)))))).
Proof.
  intros Hok Hw Hkeys Hlen Hcol Hb.
  destruct (hello_greets (Ust k (w :: fut)) buf keys []) as (s' & E & [O S' _]); try assumption.
  { exists [w], fut. split; [reflexivity|]. constructor; [|constructor]. split; [exact Hkeys|]. now exists rest. }
  exists s'. split; [exact E|]. split; [exact S' | exact O].
Qed.

(** C31: counter counts: it asks for a test number, waits while it is typed with
    at most 79 keys and no backspace, and for 0, 1 or 2 prints the decimal
    numbers from 1 to 100, 10000 or 100000, one to a line; any other line is
    refused, and nothing is printed for an empty one; the stack word that write
    returns uninitialised is not -2. *)
Theorem counter_counts_up k fut w keys rest buf :
  k_ok img sz s0 k -> key_irqs w = typing keys ++ rest -> Forall key_ok keys -> Back ∉ keys ->
  Z.of_nat (length keys) <= 79 -> in_frame lo n buf 1024 ->
  runs (counter buf) k (w :: fut) 0
    (tty_show (counter_answer (text_of keys))
      (tty_enter (tty_keys [] keys (tty_show counter_prompt (screen (hw k)))))).
Proof.
  intros Hok Hw Hkeys Hback Hlen Hb.
  destruct (counter_counts (Ust k (w :: fut)) buf keys []) as (s' & E & [O S' _]); try assumption.
  { exists [w], fut. split; [reflexivity|]. constructor; [|constructor]. split; [exact Hkeys|]. now exists rest. }
  exists s'. split; [exact E|]. split; [exact S' | exact O].
Qed.
End Userland.

(** ** A small system *)

#[local] Existing Instance demo_platform.

Definition user_page : Z := 134217728.

#[local] Instance demo_layout : Layout demo_boot 65536 demo_fs user_page 4194304.
Proof.
  split; unfold region, apart, user_page, demo_boot, VIDEO; try lia.
  - vm_compute. intuition discriminate.
  - intros l. vm_compute. discriminate.
Qed.

(** no slot has the name, decided slot by slot *)
Lemma names_apart t :
  forallb (fun i => negb (bool_decide (entry_name demo_fs i = take 32 t))) (zrange 0 62) = true ->
  forall i, 0 <= i < 62 -> entry_name demo_fs i <> take 32 t.
Proof.
  rewrite forallb_forall. intros Hn i Hi E. specialize (Hn i).
  rewrite bool_decide_true in Hn by exact E. discriminate Hn. now apply list_elem_of_In, elem_of_zrange.
Qed.

#[local] Instance demo_calls : SysCalls ust := kernel_calls (fun _ => None).

(** a process with the argument "fish" and the terminal open *)
Definition demo_process : kst :=
  let term := FileStruct terminal_fops 0 0 1 in
  upd_pcb (fun p => set_arg_name ([102; 105; 115; 104] ++ replicate 36 0) (set_data_arg_size 5 p))
    (upd_file 0 (fun _ => term) (upd_file 1 (fun _ => term) demo_fs)).

Lemma demo_process_ok : k_ok demo_boot 65536 demo_fs demo_process.
Proof.
  split; try reflexivity.
  - repeat split.
  - vm_compute. intuition discriminate.
  - intros fd [-> | ->]; split; reflexivity.
  - intros a Ha. reflexivity.
  - apply tty_okb_ok. vm_compute. reflexivity.
  - repeat split.
Qed.

Lemma demo_free : k_free demo_process.
Proof. exists 2. split; [lia | reflexivity]. Qed.

Lemma demo_arg : k_arg [102; 105; 115; 104] demo_process.
Proof.
  split; [vm_compute; intuition discriminate|]. split; [repeat constructor; lia|].
  split; [|split; [reflexivity | right; reflexivity]].
  apply Forall_app. split; [repeat constructor; lia | apply Forall_replicate; lia].
Qed.

Lemma demo_holds_fish : k_holds demo_boot 65536 demo_fs [102; 105; 115; 104] (Bytes (file_content demo_fs 1)).
Proof.
  split; [discriminate|]. exists 1. split.
  - split; [lia|]. split; [reflexivity|]. intros j Hj. assert (j = 0) as -> by lia. vm_compute. discriminate.
  - split; [reflexivity|]. split; [split; [exact demo_file_in_image | vm_compute; intuition discriminate]|].
    reflexivity.
Qed.

Lemma demo_frame k : 0 <= k <= 4194304 -> in_frame user_page 4194304 user_page k.
Proof. unfold in_frame, user_page. lia. Qed.

Lemma cat_shows_file_witness :
  let content := file_content demo_fs 1 in
  exists s', cat (S (length content)) user_page (Ust demo_process []) = Some (0, s') /\
    screen (hw (kern s')) = tty_show content (screen (hw demo_process)).
Proof.
  intros content.
  destruct (cat_shows_file (fun _ => None) demo_process [] [102; 105; 115; 104] content
    user_page (S (length content)) demo_process_ok demo_free demo_arg demo_holds_fish) as (s' & E & S & _).
  - apply demo_frame. lia.
  - lia.
  - exists s'. split; [exact E | exact S].
Defined.

(** "fisx" is not in the directory *)
Definition demo_process2 : kst :=
  upd_pcb (set_arg_name ([102; 105; 115; 120] ++ replicate 36 0)) demo_process.

Lemma demo_process2_ok : k_ok demo_boot 65536 demo_fs demo_process2.
Proof.
  destruct demo_process_ok as [O1 O2 O3 O4 O5 O6 O7 O8]. split; assumption.
Qed.

Lemma cat_reports_missing_file_witness :
  exists s', cat 1 user_page (Ust demo_process2 []) = Some (2, s') /\
    screen (hw (kern s')) = tty_show (chars "file not found" ++ [10]) (screen (hw demo_process2)).
Proof.
  destruct (cat_reports_missing_file (fun _ => None) demo_process2 [] [102; 105; 115; 120]
    user_page 1 demo_process2_ok) as (s' & E & S & _).
  - exists 2. split; [lia | reflexivity].
  - split; [vm_compute; intuition discriminate|]. split; [repeat constructor; lia|].
    split; [|split; [reflexivity | right; reflexivity]].
    apply Forall_app. split; [repeat constructor; lia | apply Forall_replicate; lia].
  - right. apply names_apart. vm_compute. reflexivity.
  - apply demo_frame. lia.
  - exists s'. split; [exact E | exact S].
Defined.

Lemma demo_dir : dir_ok demo_fs demo_name.
Proof.
  split; [vm_compute; intuition discriminate|]. split; [|reflexivity].
  intros i Hi _. change (num_dir_entries (filesystem (fsg demo_fs))) with 3 in Hi.
  assert (i = 0 \/ i = 1 \/ i = 2) as [-> | [-> | ->]] by lia;
    (split; [|discriminate]; split; [cbn; lia | split; [|reflexivity]]; repeat constructor; lia).
Qed.

Lemma ls_shows_directory_witness :
  exists s', ls 4 user_page (Ust demo_process []) = Some (0, s') /\
    screen (hw (kern s')) = tty_show (listing [[46]; [102; 105; 115; 104]; [108; 115]]) (screen (hw demo_process)).
Proof.
  destruct (ls_shows_directory (fun _ => None) demo_process [] [[46]; [102; 105; 115; 104]; [108; 115]]
    user_page 4 demo_process_ok demo_free) as (s' & E & S & _).
  - split; [discriminate|]. exists 0. split.
    + split; [lia|]. split; [reflexivity | lia].
    + split; [reflexivity|]. exists demo_name. split; [exact demo_dir | reflexivity].
  - apply demo_frame. lia.
  - cbn. lia.
  - exists s'. split; [exact E | exact S].
Defined.

(** "ab", a correction, "c" *)
Lemma hello_greets_user_witness :
  let keys := [Char 97; Char 98; Back; Char 99] in
  exists s', hello user_page (Ust demo_process [Schedule (typing keys ++ []) []]) = Some (0, s') /\
    glyph (screen (hw (kern s'))) 1 7 = 97 /\ glyph (screen (hw (kern s'))) 1 8 = 99.
Proof.
  intros keys.
  destruct (hello_greets_user (fun _ => None) demo_process [] (Schedule (typing keys ++ []) []) keys []
    user_page demo_process_ok) as (s' & E & S & _).
  - reflexivity.
  - repeat constructor; lia.
  - cbn. lia.
  - reflexivity.
  - apply demo_frame. lia.
  - exists s'. split; [exact E|]. rewrite S. split; vm_compute; reflexivity.
Defined.

(** test 0: the screen ends with 99 and 100 *)
Lemma counter_counts_up_witness :
  let keys := [Char 48] in
  exists s', counter user_page (Ust demo_process [Schedule (typing keys ++ []) []]) = Some (0, s') /\
    map (glyph (screen (hw (kern s'))) 23) [0; 1; 2] = [49; 48; 48].
Proof.
  intros keys.
  destruct (counter_counts_up (fun _ => None) demo_process [] (Schedule (typing keys ++ []) []) keys []
    user_page demo_process_ok) as (s' & E & S & _).
  - reflexivity.
  - repeat constructor; lia.
  - apply not_elem_of_cons. split; [discriminate | apply not_elem_of_nil].
  - cbn. lia.
  - apply demo_frame. lia.
  - exists s'. split; [exact E|]. rewrite S. vm_compute. reflexivity.
Defined.
