(* ===== verification/Syserr.v ===== *)
(** * The kernel's acceptance tests (src/syscalls/ece391syserr.c)

    The program that provokes every error the system calls are to report, and
    the theorem that run on the kernel it prints PASS for each of its eight
    tests. *)

From Stdlib Require Import ZArith Lia String.
From stdpp Require Import base list gmap.
From S2P Require Import Prelude Memory CMem CStr Machine Console Pic Rtc Paging KState Filesystem TermIO Syscalls Process Terminal Tty Dispatch UserLib Programs UserKernel Userland.
Open Scope Z_scope.

Definition NEG_FD : Z := -1073741823.
Definition BIG_FD : Z := 1073741823.
Definition BIG_NUM : Z := 1073741823.
Definition NEG_NUM : Z := -1073741823.

Section Program.
Context {St : Type} `{SysCalls St}.
(** what the registers hold that call_sys does not set *)
Variable garbage : reg.

Definition call_sys (num : Z) : prog St Z := int80 num garbage garbage garbage.

Definition line (s : string) : list Z := chars s ++ [10].
#[local] Abbreviation putln s := (ece391_fdputs 1 (Obj (line s))).

(** [if (-1 != call) { fail = 2; ece391_fdputs (1, msg); }] *)
Definition expect_error (call : prog St Z) (msg : string) (fail : Z) : prog St Z :=
  r ← call;
  if negb (-1 =? r) then _ ← putln msg; mret 2 else mret fail.

(** [if (fail) ... FAIL else ... PASS; return fail;] *)
Definition verdict (name : string) (fail : Z) : prog St Z :=
  _ ← (if negb (fail =? 0) then ece391_fdputs 1 (Obj (chars name ++ line ": FAIL"))
       else ece391_fdputs 1 (Obj (chars name ++ line ": PASS")));
  mret fail.

Definition err_neg_fd (buf : Z) : prog St Z :=
  fail ← expect_error (ece391_read NEG_FD buf 31) "read fail" 0;
  fail ← expect_error (ece391_write NEG_FD (Addr buf) 31) "write fail" fail;
  fail ← expect_error (ece391_close NEG_FD) "close fail" fail;
  verdict "err_neg_fd" fail.

Definition err_big_fd (buf : Z) : prog St Z :=
  fail ← expect_error (ece391_read BIG_FD buf 31) "read fail" 0;
  fail ← expect_error (ece391_write BIG_FD (Addr buf) 31) "write fail" fail;
  fail ← expect_error (ece391_close BIG_FD) "close fail" fail;
  verdict "err_big_fd" fail.

(** [for (i = 0; i < n; i++) if (-1 == ece391_open(".")) cnt++;] *)
Fixpoint open_lots (n : nat) (cnt : Z) : prog St Z :=
  match n with
  | O => mret cnt
  | S n' => r ← ece391_open (lit "."); open_lots n' (if -1 =? r then cnt + 1 else cnt)
  end.
(** [for(i = 2; i < 8; i++) ece391_close(i);] *)
Fixpoint close_lots (n : nat) (i : Z) : prog St unit :=
  match n with
  | O => mret tt
  | S n' => _ ← ece391_close i; close_lots n' (i + 1)
  end.

Definition err_open_lots : prog St Z :=
  cnt ← open_lots 7 0;
  _ ← close_lots 6 2;
  if cnt =? 1 then _ ← putln "err_open_lots: PASS"; mret 0
  else _ ← putln "err_open_lots: FAIL"; mret 2.

Definition err_open : prog St Z :=
  fail ← expect_error (ece391_open (lit "helloo")) "'helloo' fail" 0;
  fail ← expect_error (ece391_open (lit "shel")) "'shel' fail" fail;
  fail ← expect_error (ece391_open (lit "")) "empty string fail" fail;
  verdict "err_open" fail.

(** [for (i = i; i < 8; i++) if (-1 != call(i)) ...]: [n] rounds *)
Fixpoint expect_errors (n : nat) (i : Z) (call : Z -> prog St Z) (msg : string) (fail : Z) : prog St Z :=
  match n with
  | O => mret fail
  | S n' => fail ← expect_error (call i) msg fail; expect_errors n' (i + 1) call msg fail
  end.

Definition err_unopened (buf : Z) : prog St Z :=
  fail ← expect_errors 8 0 ece391_close "close unopened or invalid fd fail" 0;
  fail ← expect_errors 6 2 (fun i => ece391_read i buf 31) "read from unopened fd fail" fail;
  fail ← expect_errors 6 2 (fun i => ece391_write i (Addr buf) 31) "write to unopened fd fail" fail;
  verdict "err_unopened" fail.

Definition err_vidmap : prog St Z :=
  fail ← expect_error (ece391_vidmap 0) "Null pointer fail" 0;
  fail ← expect_error (ece391_vidmap 4194304) "Kernel pointer fail fail" fail;
  verdict "err_vidmap" fail.

Definition err_stdin_out (buf : Z) : prog St Z :=
  fail ← expect_error (ece391_write 0 (Addr buf) 31) "write to stdin fail" 0;
  fail ← expect_error (ece391_read 1 buf 31) "read from stdout fail" fail;
  verdict "err_stdin_out" fail.

Definition err_syscall_num : prog St Z :=
  fail ← expect_error (call_sys BIG_NUM) "syscall 0 fail" 0;
  fail ← expect_error (call_sys NEG_NUM) "big num syscall fail" fail;
  fail ← expect_error (call_sys 0) "neg num syscall fail" fail;
  verdict "err_syscall_num" fail.

(** [case 0:]; the arrays of the tests are at [buf2], that of main at [buf] *)
Definition all_tests (buf2 : Z) : prog St Z :=
  f1 ← err_neg_fd buf2;
  f2 ← err_big_fd buf2;
  f3 ← err_open_lots;
  f4 ← err_open;
  f5 ← err_unopened buf2;
  f6 ← err_vidmap;
  f7 ← err_stdin_out buf2;
  f8 ← err_syscall_num;
  let fail := f1 + f2 + f3 + f4 + f5 + f6 + f7 + f8 in
  _ ← (if negb (fail =? 0) then ece391_fdputs 1 (Obj (10 :: line "Overall Tests: FAIL"))
       else ece391_fdputs 1 (Obj (10 :: line "Overall Tests: PASS")));
  mret fail.

(** the switch on [buf[0] - '0'] *)
Definition chosen (buf2 c : Z) : prog St Z :=
  let select := c - 48 in
  if select =? 0 then all_tests buf2
  else if select =? 1 then err_neg_fd buf2
  else if select =? 2 then err_big_fd buf2
  else if select =? 3 then err_open_lots
  else if select =? 4 then err_open
  else if select =? 5 then err_unopened buf2
  else if select =? 6 then err_vidmap
  else if select =? 7 then err_stdin_out buf2
  else if select =? 8 then err_syscall_num
  else _ ← ece391_fdputs 1 (lit "Invalid test number. Choose from tests 1-8 or 0"); mret 0.

Definition syserr (buf buf2 : Z) : prog St Z :=
  _ ← ece391_fdputs 1 (lit "Choose from tests 1-8. 0 to run all: ");
  cnt ← ece391_read 0 buf 127;
  if -1 =? cnt then _ ← putln "Can't read test #"; mret 2
  else
    c ← load (Addr buf) 0;
    chosen buf2 c.
End Program.

(** ** On the kernel *)

Section OnKernel.
Context `{Platform} {img sz : Z} {s0 : kst} {lo n : Z} `{!Layout img sz s0 lo n}.
Variable elsewhere : outcome -> option (Z * kst).
#[local] Hint Extern 0 (SysCalls _) => exact (kernel_calls elsewhere) : typeclass_instances.
#[local] Hint Extern 0 (View _) => exact (kernel_view img sz s0) : typeclass_instances.
#[local] Hint Extern 0 (Contract _ _ _) => exact (kernel_contract elsewhere) : typeclass_instances.

(** the process has opened nothing; the word behind the descriptor table,
    which open takes for one more descriptor, is 0 *)
Record ready (k : kst) : Prop := {
  rd_ok : k_ok img sz s0 k;
  rd_closed : forall j, 2 <= j < 8 -> flags (file_at k j) = 0;
  rd_behind : flags_at k 8 = 0
}.

(** a test that passes: it prints [text] and is silent otherwise *)
Definition passes (text : list Z) (test : prog ust Z) : Prop :=
  forall s, ready (kern s) ->
  exists k, test s = Some (0, Ust k (future s)) /\ ready k /\
    screen (hw k) = tty_show text (screen (hw (kern s))).

Lemma ust_eta s : Ust (kern s) (future s) = s.
Proof. now destruct s. Qed.

(** printing a literal *)
Lemma print_ready l s :
  ready (kern s) -> text_bytes l = true -> (length l < STR_FUEL)%nat ->
  exists k, ece391_fdputs 1 (Obj l) s = Some (tt, Ust k (future s)) /\ ready k /\
    screen (hw k) = tty_show l (screen (hw (kern s))).
Proof.
  intros [Hok Hc Hb] Hl Hf.
  destruct (kernel_prints (lo := lo) (n := n) elsewhere s l Hok Hl Hf) as (h' & E & Hs & Hok').
  exists (set_hw h' (kern s)). split; [exact E|]. split; [|exact Hs].
  split; [exact Hok' | exact Hc | exact Hb].
Qed.

(** a call that fails as it should *)
Lemma expected (call : prog ust Z) msg f s s' : call s = Some (-1, s') -> expect_error call msg f s = Some (f, s').
Proof. intros E. unfold expect_error, mbind, prog_bind. now rewrite E. Qed.

Lemma verdict_passes name s :
  ready (kern s) -> text_bytes (chars name) = true -> (length (chars name) < 100)%nat ->
  exists k, verdict name 0 s = Some (0, Ust k (future s)) /\ ready k /\
    screen (hw k) = tty_show (chars name ++ line ": PASS") (screen (hw (kern s))).
Proof.
  intros Hr Hn Hl. unfold verdict. change (negb (0 =? 0)) with false. cbv iota.
  destruct (print_ready (chars name ++ line ": PASS") s Hr) as (k & E & Hk & Hs).
  - unfold text_bytes. rewrite forallb_app. apply andb_true_iff. split; [exact Hn | reflexivity].
  - rewrite length_app. assert (200 < STR_FUEL)%nat by (apply Nat.ltb_lt; reflexivity).
    change (length (line ": PASS")) with 7%nat. lia.
  - exists k. split; [|now split]. unfold mbind, prog_bind. now rewrite E.
Qed.

(** three calls that fail at once, then the verdict *)
Lemma rejected_read s fd buf l :
  -2147483648 <= fd < 2147483648 -> 0 <= l < 2147483648 ->
  fd < 0 \/ 7 < fd \/ flags (file_at (kern s) fd) = 0 -> ece391_read fd buf l s = Some (-1, s).
Proof.
  intros Hfd Hl Hbad. rewrite gate_read; rewrite !s32_small by lia.
  - destruct (rejected idle fd buf l (kern s)) as [-> _]; [tauto|]. cbn. now rewrite ust_eta.
  - unfold waits, in_range. destruct Hbad as [Hb | [Hb | Hb]].
    + now destruct (Z.leb_spec 0 fd); [lia|].
    + destruct (Z.ltb_spec fd 8); [lia|]. now rewrite andb_false_r.
    + rewrite Hb. change (negb (0 =? 0)) with false. now rewrite andb_false_r.
Qed.

Lemma rejected_write s fd buf l :
  -2147483648 <= fd < 2147483648 -> 0 <= l < 2147483648 ->
  fd < 0 \/ 7 < fd \/ flags (file_at (kern s) fd) = 0 -> ece391_write fd (Addr buf) l s = Some (-1, s).
Proof.
  intros Hfd Hl Hbad. rewrite gate_write, !s32_small by lia.
  destruct (rejected idle fd buf l (kern s)) as [_ ->]; [tauto|]. cbn. now rewrite ust_eta.
Qed.

Lemma rejected_close s fd :
  -2147483648 <= fd < 2147483648 -> fd < 2 \/ 7 < fd \/ flags (file_at (kern s) fd) = 0 ->
  ece391_close fd s = Some (-1, s).
Proof.
  intros Hfd Hbad. rewrite gate_close, s32_small by lia.
  assert (close fd (kern s) = Some (-1, kern s)) as ->; [|cbn; now rewrite ust_eta].
  unfold close, FD_MAX, FD_MIN. destruct (Z.gtb_spec fd 7), (Z.ltb_spec fd 2); try reflexivity.
  destruct Hbad as [|[| -> ]]; [lia | lia | reflexivity].
Qed.

Lemma bad_fd_passes fd name buf :
  -2147483648 <= fd < 0 \/ 7 < fd < 2147483648 -> text_bytes (chars name) = true ->
  (length (chars name) < 100)%nat ->
  passes (chars name ++ line ": PASS")
    (fail ← expect_error (ece391_read fd buf 31) "read fail" 0;
     fail ← expect_error (ece391_write fd (Addr buf) 31) "write fail" fail;
     fail ← expect_error (ece391_close fd) "close fail" fail;
     verdict name fail).
Proof.
  intros Hfd Hn Hl s Hr.
  rewrite (run_bind _ _ _ _ _ (expected _ _ _ _ _ (rejected_read s fd buf 31 ltac:(lia) ltac:(lia) ltac:(lia)))).
  rewrite (run_bind _ _ _ _ _ (expected _ _ _ _ _ (rejected_write s fd buf 31 ltac:(lia) ltac:(lia) ltac:(lia)))).
  rewrite (run_bind _ _ _ _ _ (expected _ _ _ _ _ (rejected_close s fd ltac:(lia) ltac:(lia)))).
  now apply verdict_passes.
Qed.

Lemma err_neg_fd_passes buf : passes (line "err_neg_fd: PASS") (err_neg_fd buf).
Proof. apply (bad_fd_passes NEG_FD "err_neg_fd"); [unfold NEG_FD; lia | reflexivity | now apply Nat.ltb_lt]. Qed.
Lemma err_big_fd_passes buf : passes (line "err_big_fd: PASS") (err_big_fd buf).
Proof. apply (bad_fd_passes BIG_FD "err_big_fd"); [unfold BIG_FD; lia | reflexivity | now apply Nat.ltb_lt]. Qed.

Lemma err_vidmap_passes : passes (line "err_vidmap: PASS") err_vidmap.
Proof.
  intros s Hr. unfold err_vidmap.
  assert (forall a, u32 a = 0 \/ u32 a = 4194304 -> ece391_vidmap a s = Some (-1, s)) as Hv.
  { intros a Ha. rewrite gate_vidmap. unfold vidmap, ZERO_MB, FOUR_MB.
    destruct Ha as [-> | ->]; cbn; now rewrite ust_eta. }
  rewrite (run_bind _ _ _ _ _ (expected _ _ _ _ _ (Hv 0 ltac:(now left)))).
  rewrite (run_bind _ _ _ _ _ (expected _ _ _ _ _ (Hv 4194304 ltac:(now right)))).
  now apply (verdict_passes "err_vidmap"); [exact Hr | reflexivity | apply Nat.ltb_lt].
Qed.

Lemma err_stdin_out_passes buf : u32 buf <> 0 -> passes (line "err_stdin_out: PASS") (err_stdin_out buf).
Proof.
  intros Hbuf s Hr. unfold err_stdin_out. pose proof (ko_std _ _ _ _ (rd_ok _ Hr)) as Hstd.
  assert (ece391_write 0 (Addr buf) 31 s = Some (-1, s)) as Hw.
  { rewrite gate_write. change (s32 0) with 0. change (s32 31) with 31.
    destruct (Hstd 0 ltac:(now left)) as [Hfl Hops]. unfold write, is_null. rewrite Hfl, Hops.
    destruct (Z.eqb_spec (u32 buf) 0); [done|]. cbn. now rewrite ust_eta. }
  assert (ece391_read 1 buf 31 s = Some (-1, s)) as Hrd.
  { destruct (Hstd 1 ltac:(now right)) as [Hfl Hops].
    rewrite gate_read; change (s32 1) with 1; change (s32 31) with 31.
    - unfold read. rewrite Hfl, Hops. destruct (Z.eqb_spec (u32 buf) 0); [done|]. cbn. now rewrite ust_eta.
    - unfold waits. rewrite Hops. apply andb_false_r. }
  rewrite (run_bind _ _ _ _ _ (expected _ _ _ _ _ Hw)).
  rewrite (run_bind _ _ _ _ _ (expected _ _ _ _ _ Hrd)).
  now apply (verdict_passes "err_stdin_out"); [exact Hr | reflexivity | apply Nat.ltb_lt].
Qed.

Lemma err_syscall_num_passes garbage : passes (line "err_syscall_num: PASS") (err_syscall_num garbage).
Proof.
  intros s Hr. unfold err_syscall_num.
  assert (forall num, u32 num = 0 \/ 11 <= u32 num -> call_sys garbage num s = Some (-1, s)) as Hc.
  { intros num Hn. unfold call_sys.
    rewrite (gate_returns elsewhere num garbage garbage garbage s (Some (-1, kern s))).
    - cbn. now rewrite ust_eta.
    - apply number_does_not_wait. unfold SYS_READ. lia.
    - now apply bad_number. }
  rewrite (run_bind _ _ _ _ _ (expected _ _ _ _ _ (Hc BIG_NUM ltac:(right; vm_compute; discriminate)))).
  rewrite (run_bind _ _ _ _ _ (expected _ _ _ _ _ (Hc NEG_NUM ltac:(right; vm_compute; discriminate)))).
  rewrite (run_bind _ _ _ _ _ (expected _ _ _ _ _ (Hc 0 ltac:(now left)))).
  now apply (verdict_passes "err_syscall_num"); [exact Hr | reflexivity | apply Nat.ltb_lt].
Qed.

(** *** Unopened descriptors *)

Lemma all_expected call msg k i f s :
  (forall j, i <= j < i + Z.of_nat k -> call j s = Some (-1, s)) -> expect_errors k i call msg f s = Some (f, s).
Proof.
  revert i f. induction k as [|k IH]; intros i f Hc; cbn [expect_errors]; [done|].
  rewrite (run_bind _ _ _ _ _ (expected _ msg f _ _ (Hc i ltac:(lia)))). apply IH.
  intros j Hj. apply Hc. lia.
Qed.

Lemma err_unopened_passes buf : passes (line "err_unopened: PASS") (err_unopened buf).
Proof.
  intros s Hr. pose proof (rd_closed _ Hr) as Hc. unfold err_unopened.
  rewrite (run_bind _ _ _ _ _ (all_expected ece391_close "close unopened or invalid fd fail" 8 0 0 s
    ltac:(intros j Hj; apply rejected_close; [lia|]; destruct (Z.lt_ge_cases j 2); [lia | right; right; apply Hc; lia]))).
  rewrite (run_bind _ _ _ _ _ (all_expected (fun i => ece391_read i buf 31) "read from unopened fd fail" 6 2 0 s
    ltac:(intros j Hj; apply rejected_read; [lia | lia | right; right; apply Hc; lia]))).
  rewrite (run_bind _ _ _ _ _ (all_expected (fun i => ece391_write i (Addr buf) 31) "write to unopened fd fail" 6 2 0 s
    ltac:(intros j Hj; apply rejected_write; [lia | lia | right; right; apply Hc; lia]))).
  now apply (verdict_passes "err_unopened"); [exact Hr | reflexivity | apply Nat.ltb_lt].
Qed.

(** *** Names that are almost there *)

Lemma missing_ready t s :
  ready (kern s) -> text_bytes t = true -> k_lacks s0 t ->
  exists k, ece391_open (Obj t) s = Some (-1, Ust k (future s)) /\ ready k /\
    screen (hw k) = screen (hw (kern s)).
Proof.
  intros [Hok Hc Hb] Ht Hl.
  destruct (kernel_missing_exact elsewhere s (Obj t) t) as (j & (Hj & Hfl & _) & E);
    [exact Hok | exists 2; split; [lia | apply Hc; lia] | exact Hl | now apply c_string_literal | reflexivity |].
  exists (failed_open (kern s) j). split; [exact E|].
  pose proof (call_frame_failed (img := img) (sz := sz) (kern s) j Hj) as F.
  split; [|exact (cf_screen _ _ F)]. split; [exact (call_frame_ok _ _ Hok F) | | exact Hb].
  intros q Hq. rewrite file_at_failed; [now apply Hc | exact (ko_wf _ _ _ _ Hok) | exact Hj | exact Hfl | lia].
Qed.

Lemma err_open_passes :
  k_lacks s0 (chars "helloo") -> k_lacks s0 (chars "shel") -> passes (line "err_open: PASS") err_open.
Proof.
  intros H1 H2 s Hr. unfold err_open, lit.
  destruct (missing_ready (chars "helloo") s Hr eq_refl H1) as (k1 & E1 & R1 & S1).
  rewrite (run_bind _ _ _ _ _ (expected _ _ _ _ _ E1)).
  destruct (missing_ready (chars "shel") (Ust k1 (future s)) R1 eq_refl H2) as (k2 & E2 & R2 & S2).
  rewrite (run_bind _ _ _ _ _ (expected _ _ _ _ _ E2)). cbn [future] in *.
  destruct (missing_ready [] (Ust k2 (future s)) R2 eq_refl ltac:(now left)) as (k3 & E3 & R3 & S3).
  rewrite (run_bind _ _ _ _ _ (expected _ _ _ _ _ E3)). cbn [future kern] in *.
  rewrite <- S1, <- S2, <- S3.
  now apply (verdict_passes "err_open" (Ust k3 (future s))); [exact R3 | reflexivity | apply Nat.ltb_lt].
Qed.

(** *** Opening too many files *)

(** the descriptors below [m] are in use, the others are not *)
Record opened_below (m : Z) (k : kst) : Prop := {
  ob_ok : k_ok img sz s0 k;
  ob_flags : forall j, 2 <= j < 8 -> flags (file_at k j) = (if j <? m then 1 else 0);
  ob_behind : flags_at k 8 = 0
}.

(** the directory holds ".", an entry that is not a device, and the name's
    padding is 0 *)
Variable i_dot : Z.
Hypothesis Hdot : first_slot s0 (chars ".") i_dot.
Hypothesis Hdot_type : rd32 (mem_of s0) (entry_addr s0 i_dot + 32) <> 0.
Hypothesis Hdot_pad : forall j, 12 <= j < 16 -> rd (mem_of s0) (entry_addr s0 i_dot + j) = 0.

(** the word behind the table, from the name field of dentry 0 *)
Lemma behind_zero k : (forall j, 12 <= j < 16 -> aget (file_name (dentry_at k 0)) j = 0) -> flags_at k 8 = 0.
Proof. intros Hz. unfold flags_at. change (8 <? FILE_ARRAY_SIZE) with false. cbv iota zeta. now rewrite !Hz by lia. Qed.

Lemma dot_padding k d j : k_ok img sz s0 k -> 12 <= j < 16 ->
  aget (file_name (load_dentry (mem_of k) (entry_addr k i_dot) d)) j = 0.
Proof.
  intros Hok Hj. destruct Hdot as (Hi & _). cbn [file_name load_dentry].
  pose proof ly_dir as Hd. pose proof ly_image as Himg. unfold region in Himg.
  destruct (slot_kept k i_dot Hok ltac:(lia)) as (-> & _).
  assert (0 <= entry_addr s0 i_dot /\ entry_addr s0 i_dot + 64 <= img + sz /\ img <= entry_addr s0 i_dot) as Ha
    by (unfold entry_addr, B_64; lia).
  unfold aget. rewrite rdn_lookup by lia. rewrite Z2Nat.id by lia.
  rewrite (ko_image _ _ _ _ Hok) by lia. exact (Hdot_pad j Hj).
Qed.

Lemma behind_same k k' : dentry_at k' 0 = dentry_at k 0 -> flags_at k' 8 = flags_at k 8.
Proof. intros E. unfold flags_at. change (8 <? FILE_ARRAY_SIZE) with false. cbv iota zeta. now rewrite E. Qed.

(** opening "." once more *)
Lemma open_dot m s :
  2 <= m < 8 -> opened_below m (kern s) ->
  exists k, ece391_open (lit ".") s = Some (m, Ust k (future s)) /\ opened_below (m + 1) k /\
    screen (hw k) = screen (hw (kern s)).
Proof.
  intros Hm [Hok Hfl Hb]. pose proof (ko_val _ _ _ _ Hok) as Hv.
  destruct (slot_kept _ i_dot Hok (proj1 Hdot)) as (Ea & _ & Hw). specialize (Hw 32 ltac:(lia)).
  assert (found (kern s) (lit ".") i_dot) as Hf.
  { apply (holds_found _ _ (chars ".")); [exact Hok | now apply c_string_literal | reflexivity | discriminate | exact Hdot]. }
  assert (lowest_free (kern s) m) as Hl.
  { split; [exact Hm|]. rewrite Hfl by exact Hm. destruct (Z.ltb_spec m m); [lia|]. split; [reflexivity|].
    intros j Hj. rewrite Hfl by lia. destruct (Z.ltb_spec j m); lia. }
  destruct (open_file (kern s) (lit ".") i_dot m (ko_wf _ _ _ _ Hok) Hv Hf Hl) as (E & Ho & _).
  { rewrite Ea, Hw. exact Hdot_type. }
  pose proof (call_frame_opened (img := img) (sz := sz) (kern s) i_dot m Hv Hm) as F.
  exists (opened_file (kern s) i_dot m). rewrite gate_open, E. split; [reflexivity|].
  clear E Hf Hl. generalize dependent (opened_file (kern s) i_dot m). intros k Ho F.
  split; [split; [exact (call_frame_ok _ _ Hok F) | |] | exact (cf_screen _ _ F)].
  - intros j Hj. destruct (Z.eq_dec j m) as [->|Hne].
    + rewrite (op_flags _ _ _ _ _ Ho). now destruct (Z.ltb_spec m (m + 1)); [|lia].
    + rewrite (op_files _ _ _ _ _ Ho), Hfl by lia. destruct (Z.ltb_spec j m), (Z.ltb_spec j (m + 1)); lia.
  - destruct (Z.eq_dec (fd_val (fsg (kern s))) 0) as [Hz|Hz].
    + apply behind_zero. intros j Hj. pose proof (op_last _ _ _ _ _ Ho) as Hlast. cbv zeta in Hlast.
      rewrite Hz in Hlast. rewrite Hlast by lia. now apply dot_padding.
    + rewrite (behind_same (kern s)); [exact Hb|]. apply (op_dentries _ _ _ _ _ Ho); lia.
Qed.

(** six descriptors are found, the seventh open fails *)
Lemma open_lots_counts s :
  ready (kern s) ->
  exists k, open_lots 7 0 s = Some (1, Ust k (future s)) /\ opened_below 8 k /\ fd_index (sysg k) = 8 /\
    screen (hw k) = screen (hw (kern s)).
Proof.
  intros [Hok Hc Hb].
  assert (forall n m s, 2 <= m -> m + Z.of_nat n = 8 -> opened_below m (kern s) -> forall c,
    exists k, open_lots (n + 1) c s = open_lots 1 c (Ust k (future s)) /\ opened_below 8 k /\
      screen (hw k) = screen (hw (kern s))) as Hrun.
  { clear s Hok Hc Hb. intros n0 m s1 Hm Hn. revert m s1 Hm Hn. induction n0 as [|n0 IH]; intros m s1 Hm Hn Ho c.
    - exists (kern s1). rewrite ust_eta. replace m with 8 in Ho by lia. now split_and!.
    - destruct (open_dot m s1) as (k1 & E1 & O1 & S1); [lia | exact Ho|].
      cbn [Nat.add open_lots]. rewrite (run_bind _ _ _ _ _ E1).
      destruct (Z.eqb_spec (-1) m); [lia|].
      destruct (IH (m + 1) (Ust k1 (future s1)) ltac:(lia) ltac:(lia) O1 c) as (k & E & O & S).
      exists k. split; [exact E|]. split; [exact O|]. cbn [kern] in S. congruence. }
  destruct (Hrun 6%nat 2 s ltac:(lia) ltac:(lia)) with (c := 0) as (k & E & O & S).
  { split; [exact Hok | | exact Hb]. intros j Hj. rewrite Hc by exact Hj. destruct (Z.ltb_spec j 2); lia. }
  change (6 + 1)%nat with 7%nat in E. exists (upd_sysg (set_fd_index 8) k). rewrite E. cbn [open_lots].
  assert (ece391_open (lit ".") (Ust k (future s)) = Some (-1, Ust (upd_sysg (set_fd_index 8) k) (future s))) as Ef.
  { rewrite gate_open. cbn [kern]. rewrite open_full; [reflexivity | reflexivity | | exact (ob_behind _ _ O)].
    intros j Hj. rewrite (ob_flags _ _ O) by exact Hj. destruct (Z.ltb_spec j 8); lia. }
  rewrite (run_bind _ _ _ _ _ Ef). split; [reflexivity|]. split; [|now split].
  destruct O as [O1 O2 O3]. split; [exact (call_frame_ok _ _ O1 (call_frame_index _ _)) | exact O2 | exact O3].
Qed.

(** closing a descriptor while every one was in use: the jump table erased is
    the word behind the table *)
Lemma erased_name l j : 4 <= j -> aget (replicate 4 0 ++ drop 4 l) j = aget l j.
Proof.
  intros Hj. unfold aget. rewrite lookup_total_app_r by (rewrite length_replicate; lia).
  rewrite length_replicate, lookup_total_drop. f_equal. lia.
Qed.

Lemma close_full k fd :
  fd_ok k fd -> 2 <= fd -> flags (file_at k fd) = 1 -> fd_index (sysg k) = 8 ->
  exists k', close fd k = Some (0, k') /\ flags (file_at k' fd) = 0 /\
    (forall j, 2 <= j < 8 -> j <> fd -> file_at k' j = file_at k j) /\
    fd_index (sysg k') = 8 /\ flags_at k' 8 = flags_at k 8.
Proof.
  intros Hok H2 Hfl Hq. pose proof Hok as [Hwf Hfd]. unfold close, FD_MAX, FD_MIN.
  destruct (Z.gtb_spec fd 7), (Z.ltb_spec fd 2); try lia. cbn [orb].
  rewrite Hfl. change (1 =? 1) with true. cbv iota.
  set (k1 := upd_file fd (set_fpos 0) k).
  set (k3 := upd_dentry fd (set_inode_number 0) _).
  change (fd_index (sysg k3)) with (fd_index (sysg k)). rewrite Hq.
  change (null_fops 8 k3) with (Some (upd_dentry 0 (fun d => set_file_name (replicate 4 0 ++ drop 4 (file_name d)) d) k3)).
  rewrite bind_some. cbv beta zeta.
  set (k4 := upd_dentry 0 _ k3).
  set (k5 := upd_dentry fd (set_reserved (map (fun _ => 0) (zrange 0 B_24))) _).
  assert (forall j, 0 <= j < 8 -> fd_ok k3 j) as Hok3
    by (intros j Hj; unfold k3; apply fd_ok_upd_dentry, fd_ok_upd_dentry, fd_ok_upd_file; now split).
  assert (fd_ok k4 fd) as Hok4 by (apply fd_ok_upd_dentry, Hok3; lia).
  assert (fd_ok k5 fd) as Hok5 by now apply fd_ok_upd_dentry, fd_ok_upd_dentry.
  assert (file_type (dentry_at k4 fd) = 0) as Hty4.
  { unfold k4. rewrite dentry_at_upd_dentry_ne by lia. unfold k3.
    rewrite dentry_at_upd_dentry by now apply fd_ok_upd_dentry, fd_ok_upd_file.
    rewrite dentry_at_upd_dentry by now apply fd_ok_upd_file. reflexivity. }
  assert (file_type (dentry_at k5 fd) = 0) as Hty.
  { unfold k5. rewrite dentry_at_upd_dentry by now apply fd_ok_upd_dentry.
    rewrite dentry_at_upd_dentry by exact Hok4. exact Hty4. }
  assert (forall j, file_at k5 j = file_at k1 j) as Hf5 by reflexivity.
  assert (flags_at k5 8 = flags_at k 8) as Hb5.
  { unfold flags_at. change (8 <? FILE_ARRAY_SIZE) with false. cbv iota zeta.
    assert (dentry_at k5 0 = dentry_at k4 0) as ->
      by (unfold k5; now rewrite !dentry_at_upd_dentry_ne by lia).
    unfold k4. rewrite dentry_at_upd_dentry by (apply Hok3; lia).
    assert (dentry_at k3 0 = dentry_at k 0) as ->
      by (unfold k3; now rewrite !dentry_at_upd_dentry_ne by lia).
    cbv beta. unfold set_file_name. cbn [file_name]. now rewrite !erased_name by lia. }
  destruct (device_close_kept ((fd_rtc (sysg k5) >? 1) && (fd =? fd_rtc (sysg k5))) k5 fd)
    as (Hm & Hd & Hf & Hfne & Hok6); [exact Hok5 | lia | exact Hty |].
  assert (fd_index (sysg k5) = 8) as Hq5 by exact Hq.
  clearbody k5. clear Hty4 Hok4 Hok3 k4 k3.
  assert (fd_index (sysg (if (fd_rtc (sysg k5) >? 1) && (fd =? fd_rtc (sysg k5))
    then upd_hw (fun h => snd (rtc_close fd h)) k5 else snd (filesystem_close fd k5))) = 8) as Hq6.
  { destruct (_ && _); [exact Hq5|]. unfold filesystem_close. repeat case_match; exact Hq5. }
  set (k6 := if _ : bool then _ else _) in *. clearbody k6.
  exists (upd_file fd (set_flags 0) k6). split; [reflexivity|]. split; [|split; [|split]].
  - now rewrite file_at_upd_file.
  - intros j Hj Hne. rewrite file_at_upd_file_ne, Hfne, Hf5 by lia. unfold k1.
    now rewrite file_at_upd_file_ne by lia.
  - exact Hq6.
  - rewrite (behind_same k6) by reflexivity. rewrite (behind_same k5) by apply Hd. exact Hb5.
Qed.

Lemma close_dot m s :
  2 <= m < 8 -> k_ok img sz s0 (kern s) -> flags (file_at (kern s) m) = 1 -> fd_index (sysg (kern s)) = 8 ->
  exists k, ece391_close m s = Some (0, Ust k (future s)) /\ k_ok img sz s0 k /\
    flags (file_at k m) = 0 /\ (forall j, 2 <= j < 8 -> j <> m -> file_at k j = file_at (kern s) j) /\
    fd_index (sysg k) = 8 /\ flags_at k 8 = flags_at (kern s) 8 /\ screen (hw k) = screen (hw (kern s)).
Proof.
  intros Hm Hok Hfl Hq. rewrite gate_close, s32_small by lia.
  destruct (close_full (kern s) m) as (k & E & Hz & Hsame & Hq' & Hb);
    [split; [exact (ko_wf _ _ _ _ Hok) | lia] | lia | exact Hfl | exact Hq |].
  assert (call_frame (img := img) (sz := sz) (kern s) k) as F
    by (apply (call_frame_close m (kern s) 0 k); [lia | exact E]).
  exists k. rewrite E. split; [reflexivity|]. split; [exact (call_frame_ok _ _ Hok F)|].
  split; [exact Hz|]. split; [exact Hsame|]. split; [exact Hq'|]. split; [exact Hb | exact (cf_screen _ _ F)].
Qed.

(** ... and all six are closed again *)
Lemma close_lots_closes c m s :
  2 <= m -> m + Z.of_nat c = 8 -> k_ok img sz s0 (kern s) -> fd_index (sysg (kern s)) = 8 ->
  flags_at (kern s) 8 = 0 ->
  (forall j, 2 <= j < 8 -> flags (file_at (kern s) j) = (if j <? m then 0 else 1)) ->
  exists k, close_lots c m s = Some (tt, Ust k (future s)) /\ ready k /\
    screen (hw k) = screen (hw (kern s)).
Proof.
  revert m s. induction c as [|c IH]; intros m s Hm Hc Hok Hq Hb Hfl.
  - exists (kern s). rewrite ust_eta. split; [reflexivity|]. split; [|reflexivity].
    split; [exact Hok | | exact Hb]. intros j Hj. rewrite Hfl by exact Hj. destruct (Z.ltb_spec j m); lia.
  - destruct (close_dot m s) as (k1 & E1 & Hok1 & Hz & Hsame & Hq1 & Hb1 & S1);
      [lia | exact Hok | | exact Hq |].
    { rewrite Hfl by lia. destruct (Z.ltb_spec m m); lia. }
    destruct (IH (m + 1) (Ust k1 (future s))) as (k & E & Hr & S);
      [lia | lia | exact Hok1 | exact Hq1 | cbn [kern]; lia | |].
    { intros j Hj. cbn [kern]. destruct (Z.eq_dec j m) as [->|Hne].
      - rewrite Hz. destruct (Z.ltb_spec m (m + 1)); lia.
      - rewrite Hsame, Hfl by lia. destruct (Z.ltb_spec j m), (Z.ltb_spec j (m + 1)); lia. }
    exists k. cbn [close_lots]. rewrite (run_bind _ _ _ _ _ E1). split; [exact E|]. split; [exact Hr|].
    cbn [kern] in S. congruence.
Qed.

Lemma err_open_lots_passes : passes (line "err_open_lots: PASS") err_open_lots.
Proof.
  intros s Hr. unfold err_open_lots.
  destruct (open_lots_counts s Hr) as (k1 & E1 & [Hok1 Hfl1 Hb1] & Hq1 & S1).
  rewrite (run_bind _ _ _ _ _ E1).
  destruct (close_lots_closes 6 2 (Ust k1 (future s))) as (k2 & E2 & R2 & S2);
    [lia | lia | exact Hok1 | exact Hq1 | exact Hb1 | |].
  { intros j Hj. cbn [kern]. rewrite Hfl1 by exact Hj. destruct (Z.ltb_spec j 8), (Z.ltb_spec j 2); lia. }
  rewrite (run_bind _ _ _ _ _ E2). change (1 =? 1) with true. cbv iota. cbn [future kern] in *.
  destruct (print_ready (line "err_open_lots: PASS") (Ust k2 (future s)) R2) as (k & E & Hk & Hs);
    [reflexivity | now apply Nat.ltb_lt|].
  exists k. rewrite (run_bind _ _ _ _ _ E). split; [reflexivity|]. split; [exact Hk|].
  cbn [kern] in Hs. now rewrite Hs, S2, S1.
Qed.

(** *** The whole program *)

(** run the next test, knowing that it passes *)
#[local] Ltac next_test H R k S :=
  let E := fresh "E" in let R' := fresh "R" in
  lazymatch goal with |- exists _, mbind _ _ ?s = _ /\ _ =>
    destruct (H s R) as (k & E & R' & S); rewrite (run_bind _ _ _ _ _ E); clear E R; rename R' into R
  end.

(** what the program prints when everything is as it should be *)
Definition all_pass : list Z :=
  line "err_neg_fd: PASS" ++ line "err_big_fd: PASS" ++ line "err_open_lots: PASS" ++ line "err_open: PASS" ++
  line "err_unopened: PASS" ++ line "err_vidmap: PASS" ++ line "err_stdin_out: PASS" ++
  line "err_syscall_num: PASS" ++ 10 :: line "Overall Tests: PASS".

Lemma all_tests_pass garbage buf2 :
  u32 buf2 <> 0 -> k_lacks s0 (chars "helloo") -> k_lacks s0 (chars "shel") ->
  passes all_pass (all_tests garbage buf2).
Proof.
  intros Hbuf H1 H2 s0' R. unfold all_tests.
  next_test (err_neg_fd_passes buf2) R k1 S1. next_test (err_big_fd_passes buf2) R k2 S2.
  next_test err_open_lots_passes R k3 S3. next_test (err_open_passes H1 H2) R k4 S4.
  next_test (err_unopened_passes buf2) R k5 S5. next_test err_vidmap_passes R k6 S6.
  next_test (err_stdin_out_passes buf2 Hbuf) R k7 S7. next_test (err_syscall_num_passes garbage) R k8 S8.
  cbn [future kern] in *. change (0 + 0 + 0 + 0 + 0 + 0 + 0 + 0) with 0. change (negb (0 =? 0)) with false. cbv iota zeta.
  destruct (print_ready (10 :: line "Overall Tests: PASS") (Ust k8 (future s0')) R) as (k & E & Hk & Hs);
    [reflexivity | now apply Nat.ltb_lt|].
  exists k. rewrite (run_bind _ _ _ _ _ E). split; [reflexivity|]. split; [exact Hk|].
  cbn [kern] in Hs. unfold all_pass. now rewrite Hs, S8, S7, S6, S5, S4, S3, S2, S1, !tty_show_app.
Qed.

(** what the program prints for the test the user chose *)
Definition report (c : Z) : list Z :=
  if c =? 48 then all_pass
  else if c =? 49 then line "err_neg_fd: PASS"
  else if c =? 50 then line "err_big_fd: PASS"
  else if c =? 51 then line "err_open_lots: PASS"
  else if c =? 52 then line "err_open: PASS"
  else if c =? 53 then line "err_unopened: PASS"
  else if c =? 54 then line "err_vidmap: PASS"
  else if c =? 55 then line "err_stdin_out: PASS"
  else if c =? 56 then line "err_syscall_num: PASS"
  else chars "Invalid test number. Choose from tests 1-8 or 0".

Lemma chosen_passes garbage buf2 c :
  u32 buf2 <> 0 -> k_lacks s0 (chars "helloo") -> k_lacks s0 (chars "shel") ->
  passes (report c) (chosen garbage buf2 c).
Proof.
  intros Hbuf H1 H2. unfold chosen, report. cbv zeta.
  destruct (Z.eqb_spec (c - 48) 0), (Z.eqb_spec c 48); try lia; [now apply all_tests_pass|].
  destruct (Z.eqb_spec (c - 48) 1), (Z.eqb_spec c 49); try lia; [apply err_neg_fd_passes|].
  destruct (Z.eqb_spec (c - 48) 2), (Z.eqb_spec c 50); try lia; [apply err_big_fd_passes|].
  destruct (Z.eqb_spec (c - 48) 3), (Z.eqb_spec c 51); try lia; [apply err_open_lots_passes|].
  destruct (Z.eqb_spec (c - 48) 4), (Z.eqb_spec c 52); try lia; [now apply err_open_passes|].
  destruct (Z.eqb_spec (c - 48) 5), (Z.eqb_spec c 53); try lia; [apply err_unopened_passes|].
  destruct (Z.eqb_spec (c - 48) 6), (Z.eqb_spec c 54); try lia; [apply err_vidmap_passes|].
  destruct (Z.eqb_spec (c - 48) 7), (Z.eqb_spec c 55); try lia; [now apply err_stdin_out_passes|].
  destruct (Z.eqb_spec (c - 48) 8), (Z.eqb_spec c 56); try lia; [apply err_syscall_num_passes|].
  intros s Hr.
  destruct (print_ready (chars "Invalid test number. Choose from tests 1-8 or 0") s Hr) as (k & E & Hk & Hs);
    [reflexivity | now apply Nat.ltb_lt|].
  exists k. rewrite (run_bind _ _ _ _ _ E). exact (conj eq_refl (conj Hk Hs)).
Qed.

(** C4: The kernel passes the repository's own acceptance tests.  The program,
    started at the beginning of a row, asks which test to run and waits while
    the answer is typed with at most 42 keys; whatever the answer's first
    character, what it then prints is PASS for every test it runs (for 0, all
    eight and the overall verdict), or that there is no such test, and it
    returns 0 with no descriptor left open.  So on this kernel the calls do
    report a bad descriptor, a seventh open, a name that is not quite there, a
    descriptor not opened, a bad address, the wrong direction and a number that
    is no system call.  The directory must have ".", with zeros behind the
    name, and not the two misspelt names; at the start descriptors 2 to 7 are
    closed and the word behind the table, which open takes for a ninth
    descriptor's flags, is 0; the stack word that write returns uninitialised
    is not -2. *)
Theorem kernel_passes_its_tests garbage k fut w keys rest buf buf2 c text :
  ready k -> key_irqs w = typing keys ++ rest -> Forall key_ok keys ->
  Z.of_nat (length keys) <= 42 -> text_of keys = c :: text -> screen_x (hw k) = 0 ->
  in_frame lo n buf 127 -> u32 buf2 <> 0 ->
  k_lacks s0 (chars "helloo") -> k_lacks s0 (chars "shel") ->
  exists s', syserr garbage buf buf2 (Ust k (w :: fut)) = Some (0, s') /\ ready (kern s') /\
    screen (hw (kern s')) = tty_show (report c)
      (tty_enter (tty_keys [] keys (tty_show (chars "Choose from tests 1-8. 0 to run all: ") (screen (hw k))))).
Proof.
  intros Hr Hw Hkeys Hlen Ht Hcol Hb Hbuf H1 H2. pose proof (text_of_length keys) as Htl.
  unfold syserr, lit. set (prompt := chars "Choose from tests 1-8. 0 to run all: ").
  destruct (print_ready prompt (Ust k (w :: fut)) Hr) as (k1 & E1 & [Hok1 Hc1 Hb1] & S1);
    [reflexivity | now apply Nat.ltb_lt|].
  rewrite (run_bind _ _ _ _ _ E1). cbn [future kern] in *.
  assert (col (screen (hw k1)) = 37) as Hcol1
    by (rewrite S1, tty_show_col; [reflexivity | now apply text_chars | exact Hcol | reflexivity]).
  destruct (kernel_line_exact elsewhere (Ust k1 (w :: fut)) keys [] buf 127) as
    (s2 & E2 & [Hok2 S2 _] & _ & _ & _ & Hch & Hrd & _ & Hsys & _); [exact Hok1 | | exact Hb | lia | lia | | |].
  { exists [w], fut. split; [reflexivity|]. constructor; [|constructor]. split; [exact Hkeys|]. now exists rest. }
  { intros _. change (7 <= col (screen (hw k1))). lia. }
  { change (col (screen (hw k1)) + Z.of_nat (length keys) <= 79). lia. }
  rewrite (run_bind _ _ _ _ _ E2). destruct (Z.eqb_spec (-1) (Z.of_nat (length (text_of keys)))); [lia|].
  assert (load (Addr buf) 0 s2 = Some (c, s2)) as E3.
  { unfold load. cbn [ldc]. do 2 f_equal. rewrite Ht in Hrd. cbn [length rdn] in Hrd.
    injection Hrd as Hc _. rewrite Z.add_0_r. exact Hc. }
  rewrite (run_bind _ _ _ _ _ E3).
  destruct (chosen_passes garbage buf2 c Hbuf H1 H2 s2) as (k' & E & Hk & Hs).
  { split; [exact Hok2 | |].
    - intros j Hj. rewrite <- (Hc1 j Hj). unfold file_at, pcb_of. now rewrite Hsys.
    - rewrite <- Hb1. unfold flags_at, dentry_at, pcb_of. now rewrite Hsys. }
  exists (Ust k' (future s2)). split; [exact E|]. split; [exact Hk|]. cbn [kern].
  rewrite Hs. change (screen (hw (kern s2))) with (shown s2). rewrite S2.
  change (shown (Ust k1 (w :: fut))) with (screen (hw k1)). now rewrite S1.
Qed.
End OnKernel.

(** ** On the small system *)

#[local] Existing Instance demo_platform.
#[local] Existing Instance demo_layout.

Lemma demo_ready : ready (img := demo_boot) (sz := 65536) (s0 := demo_fs) demo_process.
Proof.
  split; [exact demo_process_ok | | reflexivity]. intros j Hj.
  assert (j = 2 \/ j = 3 \/ j = 4 \/ j = 5 \/ j = 6 \/ j = 7) as Hcases by lia.
  now destruct Hcases as [-> | [-> | [-> | [-> | [-> | ->]]]]].
Qed.

Lemma demo_dot : first_slot demo_fs (chars ".") 0.
Proof. split; [lia|]. split; [vm_compute; reflexivity | lia]. Qed.

(** the user answers 0 *)
Lemma kernel_passes_its_tests_witness :
  exists s', @syserr ust (kernel_calls (fun _ => None)) (Addr 0) user_page (user_page + 128)
      (Ust demo_process [Schedule (typing [Char 48] ++ []) []]) = Some (0, s') /\
    screen (hw (kern s')) = tty_show all_pass
      (tty_enter (tty_keys [] [Char 48] (tty_show (chars "Choose from tests 1-8. 0 to run all: ")
        (screen (hw demo_process))))).
Proof.
  destruct (kernel_passes_its_tests (fun _ => None) 0 demo_dot) with (garbage := Addr 0) (k := demo_process) (fut := @nil schedule)
    (w := Schedule (typing [Char 48] ++ []) []) (keys := [Char 48]) (rest := @nil (kst -> kst))
    (buf := user_page) (buf2 := user_page + 128) (c := 48) (text := @nil Z) as (s' & E & _ & S).
  - vm_compute. discriminate.
  - intros j Hj. assert (j = 12 \/ j = 13 \/ j = 14 \/ j = 15) as [-> | [-> | [-> | ->]]] by lia; vm_compute; reflexivity.
  - exact demo_ready.
  - reflexivity.
  - repeat constructor; lia.
  - cbn. lia.
  - reflexivity.
  - reflexivity.
  - apply demo_frame. lia.
  - vm_compute. discriminate.
  - right. apply names_apart. vm_compute. reflexivity.
  - right. apply names_apart. vm_compute. reflexivity.
  - exists s'. exact (conj E S).
Defined.
