(* ===== verification/Session.v ===== *)
(** * A session at the shell (src/syscalls/ece391shell.c on the kernel)

    The shell's loop run through the trap: the prompt, the line the user
    types, the comparison with "exit", and execute, for commands that name no
    program.  The abstract session counts the task slots that are left,
    because each failed command uses one up. *)

From Stdlib Require Import ZArith Lia String.
From stdpp Require Import base list gmap.
From S2P Require Import Prelude Memory CMem CStr Machine Console Pic Rtc Paging KState Filesystem TermIO Syscalls Process Terminal Tty Dispatch UserLib Programs UserKernel Userland.
Open Scope Z_scope.

(** ** What the session looks like *)

Definition prompt : list Z := chars "391OS> ".
Definition no_such_command : list Z := chars "no such command" ++ [10].

(** the shell's answer to a command that names no program *)
Definition refusal (slots : nat) : list Z :=
  match slots with O => FULL_MESSAGE ++ no_such_command | S _ => no_such_command end.

(** the terminal at the end of the session, with [slots] task slots left *)
Fixpoint session (slots : nat) (ls : list (list key)) (t : tty) : tty :=
  match ls with
  | [] => t
  | keys :: ls =>
      let t := tty_enter (tty_keys [] keys (tty_show prompt t)) in
      if decide (text_of keys = chars "exit") then t
      else if decide (text_of keys = []) then session slots ls t
      else session (pred slots) ls (tty_show (refusal slots) t)
  end.

(** the task slots that execute may give to a command *)
Definition free_slots (tasks : list Z) : nat :=
  length (List.filter (fun i => aget tasks i =? 0) [1; 4; 5; 6]).

Lemma free_task_first tasks :
  free_task 7 1 tasks =
    if aget tasks 1 =? 0 then 1 else if aget tasks 4 =? 0 then 4
    else if aget tasks 5 =? 0 then 5 else if aget tasks 6 =? 0 then 6 else 7.
Proof. reflexivity. Qed.

Lemma free_task_full tasks : free_slots tasks = 0%nat -> free_task 7 1 tasks = 7.
Proof.
  rewrite free_task_first. unfold free_slots. cbn [List.filter].
  repeat (case_match; [discriminate|]). reflexivity.
Qed.

(** the slot taken is one of those *)
Lemma free_task_takes tasks p k :
  length tasks = 7%nat -> p <> 0 -> free_slots tasks = S k ->
  free_task 7 1 tasks < 7 /\ free_slots (aset tasks (free_task 7 1 tasks) p) = k.
Proof.
  intros Hl Hp. rewrite free_task_first. unfold free_slots. cbn [List.filter].
  assert ((p =? 0) = false) as Hp0 by now apply Z.eqb_neq.
  assert (forall i, 0 <= i < 7 -> aget (aset tasks i p) i = p) as Heq by (intros i Hi; apply aget_aset_eq; lia).
  assert (forall i j, 0 <= i -> 0 <= j -> i <> j -> aget (aset tasks i p) j = aget tasks j) as Hne
    by (intros; now apply aget_aset_ne).
  destruct (aget tasks 1 =? 0) eqn:E1; [|destruct (aget tasks 4 =? 0) eqn:E4;
    [|destruct (aget tasks 5 =? 0) eqn:E5; [|destruct (aget tasks 6 =? 0) eqn:E6; [|discriminate]]]];
    intros Hk; (split; [lia|]); rewrite Heq, ?Hp0 by lia; rewrite !Hne by lia; rewrite ?E1, ?E4, ?E5, ?E6;
    cbn [length] in *; lia.
Qed.

(** ** The kernel's part *)

Section OnKernel.
Context `{Platform} {img sz : Z} {s0 : kst} {lo n : Z} `{!Layout img sz s0 lo n}.
Variable elsewhere : outcome -> option (Z * kst).
#[local] Hint Extern 0 (SysCalls _) => exact (kernel_calls elsewhere) : typeclass_instances.
#[local] Hint Extern 0 (View _) => exact (kernel_view img sz s0) : typeclass_instances.
#[local] Hint Extern 0 (Contract _ _ _) => exact (kernel_contract elsewhere) : typeclass_instances.

(** a shell that waits for its next command, with [slots] task slots left *)
Record at_prompt (slots : nat) (k : kst) : Prop := {
  ap_ok : k_ok img sz s0 k;
  ap_slots : free_slots (tasks (sysg k)) = slots;
  ap_tasks : length (tasks (sysg k)) = 7%nat;
  ap_pid : 1 <= find_pid (r_cr3 (cpu k)) <= 6;
  ap_pc : pc (fsg k) <> 0
}.

(** a line that names no program: not a shell's name, its words fit the PCB,
    and the directory does not have the first one *)
Record unknown (t : list Z) : Prop := {
  un_start : t <> [] /\ hd 0 t <> 32;
  un_shell : take 5 t <> SHELL;
  un_word : (length (word t) <= 40)%nat;
  un_arg : (length (nonspaces (after_word t)) <= 40)%nat;
  un_lacks : k_lacks s0 (word t)
}.

Lemma at_prompt_same slots k k' :
  at_prompt slots k -> k_ok img sz s0 k' -> sysg k' = sysg k -> cpu k' = cpu k -> pc (fsg k') = pc (fsg k) ->
  at_prompt slots k'.
Proof. intros [A1 A2 A3 A4 A5] Hok E1 E2 E3. split; congruence. Qed.

(** the word as execute hands it to the loader *)
Lemma padded_string (m : mem) w :
  Forall (fun c => 0 < c < 256) w -> (length w <= 40)%nat -> c_string m (Obj (padded w)) w.
Proof.
  intros Hw Hl. unfold padded. split; [|split; [|exact Hw]].
  - intros j Hj. rewrite Z.add_0_l. cbn [ldc]. unfold in_range. rewrite length_app, length_replicate.
    destruct (Z.leb_spec 0 j), (Z.ltb_spec j (Z.of_nat (length w + (40 - length w)))); try lia. cbn [andb].
    unfold aget. rewrite lookup_total_app_l by lia.
    destruct (lookup_lt_is_Some_2 w (Z.to_nat j)) as [x Hx]; [lia|].
    rewrite Forall_lookup in Hw. specialize (Hw _ _ Hx). cbn in Hw.
    rewrite (list_lookup_total_correct _ _ _ Hx). apply u8_small. lia.
  - cbn [ldc]. unfold in_range. rewrite length_app, length_replicate.
    destruct (Z.leb_spec 0 (Z.of_nat (length w))), (Z.ltb_spec (Z.of_nat (length w)) (Z.of_nat (length w + (40 - length w))));
      try lia; cbn [andb]; [|reflexivity].
    unfold aget. rewrite lookup_total_app_r by lia. rewrite Nat2Z.id, Nat.sub_diag.
    now destruct (40 - length w)%nat as [|r] eqn:E; [lia|].
Qed.

Lemma word_subset t : Forall (fun c => 0 < c < 256) t -> Forall (fun c => 0 < c < 256) (word t).
Proof. induction 1 as [|c t Hc Ht IH]; cbn [word]; [constructor|]. case_match; [constructor | now constructor]. Qed.

Lemma not_a_shell k p t : c_string (mem_of k) p t -> take 5 t <> SHELL -> is_shell p k = false.
Proof.
  intros Hs Hn. unfold is_shell. apply Z.eqb_neq. rewrite strncmp_zero. change (Z.to_nat (u32 5)) with 5%nat.
  pose proof (cstrn_string (mem_of k) p t 5 0 Hs ltac:(lia)) as E.
  change (Z.of_nat 0) with 0 in E. rewrite E.
  intros Heq. apply Hn. exact Heq.
Qed.

Lemma unknown_line k p t :
  c_string (mem_of k) p t -> unknown t -> (length t < 256)%nat -> command_line k p t.
Proof.
  intros Hs [[_ Hhd] _ Hw Ha _] Hl. assert (command_text t = t) as E.
  { unfold command_text. now destruct (Z.eqb_spec (hd 0 t) 32). }
  split; [exact Hs | exact Hl | now rewrite E | now rewrite E | now rewrite E].
Qed.

Lemma k_ok_same k k' :
  k_ok img sz s0 k -> pcb_wf (pcb_of k') -> file_struct (pcb_of k') = file_struct (pcb_of k) ->
  fd_val (fsg k') = fd_val (fsg k) -> filesystem (fsg k') = filesystem (fsg k) ->
  BOOT_BLOCK_PTR (fsg k') = BOOT_BLOCK_PTR (fsg k) -> hw k' = hw k -> trm k' = trm k -> k_ok img sz s0 k'.
Proof.
  intros [O1 O2 O3 O4 O5 O6 O7 O8] Hwf Hf Hv Hfs Hb Hh Ht.
  assert (mem_of k' = mem_of k) as Hm by (unfold mem_of; now rewrite Hh).
  split; try congruence.
  - intros fd Hfd. unfold file_at. rewrite Hf. exact (O3 fd Hfd).
  - rewrite Hm. exact O6.
Qed.

(** execute refuses a command that names no program, and uses a slot up *)
Lemma execute_refuses k p t slots :
  at_prompt (S slots) k -> c_string (mem_of k) p t -> is_null p = false -> unknown t -> (length t < 256)%nat ->
  exists k', execute p k = Some (Returns (-1) k') /\ at_prompt slots k' /\ hw k' = hw k.
Proof.
  intros [A1 A2 A3 A4 A5] Hs Hp Hun Hl. pose proof (unknown_line k p t Hs Hun Hl) as Hline.
  destruct Hun as [[Hne Hhd] Hsh Hw Ha Hlacks].
  assert (ordinary p k) as Hord by (split; [exact Hp | split; [exact A5 | exact (not_a_shell k p t Hs Hsh)]]).
  assert (find_pid (r_cr3 (cpu k)) <> 0) as Hpid by (clear -A4; lia).
  destruct (free_task_takes (tasks (sysg k)) (find_pid (r_cr3 (cpu k))) slots A3 Hpid A2) as [Hq Hslots].
  rewrite (execute_ordinary p k t Hord Hq A4 Hline).
  assert (command_text t = t) as Et by (unfold command_text; now destruct (Z.eqb_spec (hd 0 t) 32)).
  rewrite Et in *. destruct (parsed_frame k t) as (Fm & Fg & Fc & _ & Ff & Fd & Fcmd & Farg & Ft).
  assert (hw (parsed k t) = hw k /\ trm (parsed k t) = trm k) as [Fh Ftr].
  { unfold parsed, save_parent, save_pcb, Process.chosen. kst_cbn. destruct (_ =? 1); kst_cbn; split; reflexivity. }
  rewrite Et in Fcmd, Farg. generalize dependent (parsed k t). intros k1 Fm Fg Fc Ff Fd Fcmd Farg Ft Fh Ftr.
  assert (missing (Obj (padded (word t))) k) as [H0|Hmiss].
  { apply (lacks_missing (lo := lo) (n := n) k _ (word t) A1 Hlacks). apply padded_string; [|exact Hw].
    apply word_subset, Hs. }
  { exfalso. destruct t as [|c t]; [done|]. cbn [hd] in Hhd. destruct Hs as (_ & _ & Hc).
    apply Forall_cons_1 in Hc as [Hc _]. cbn [word] in H0. destruct (Z.eqb_spec c 32); [done|].
    cbn [padded app ldc] in H0. unfold in_range in H0. cbn [length] in H0.
    change (aget (c :: (word t ++ replicate (40 - S (length (word t))) 0)) 0) with c in H0.
    destruct (Z.leb_spec 0 0), (Z.ltb_spec 0 (Z.of_nat (S (length (word t ++ replicate (40 - S (length (word t))) 0)))));
      try lia. cbn [andb] in H0. rewrite u8_small in H0; lia. }
  assert (loader (Obj (padded (word t))) k1 = Some (-1, upd_fsg (set_dentry1 (dentry1 (fsg k1))) k1)) as ->.
  { unfold loader. rewrite (lookup_ext _ _ k), Hmiss by (exact Fg || exact Fm). reflexivity. }
  rewrite bind_some. cbv beta iota. change (u32 (-1) =? u32 (-1)) with true. cbv iota.
  exists (upd_fsg (set_dentry1 (dentry1 (fsg k1))) k1). split; [reflexivity|]. split; [|exact Fh].
  rewrite u32_small in Ft by (clear -A4; lia). split.
  - apply (k_ok_same k); try assumption; try reflexivity; cbn [fsg set_fsg upd_fsg set_dentry1 fd_val filesystem BOOT_BLOCK_PTR];
      try (now rewrite Fg).
    destruct (ko_wf _ _ _ _ A1) as (W1 & W2 & _). change (pcb_wf (pcb_of k1)). unfold pcb_wf.
    rewrite Ff, Fd, Fcmd, Farg. split; [exact W1|]. split; [exact W2|].
    unfold padded. rewrite !length_app, !length_replicate. split; lia.
  - change (free_slots (tasks (sysg k1)) = slots). rewrite Ft. exact Hslots.
  - change (length (tasks (sysg k1)) = 7%nat). rewrite Ft, length_aset. exact A3.
  - change (1 <= find_pid (r_cr3 (cpu k1)) <= 6). rewrite Fc. exact A4.
  - change (pc (fsg k1) <> 0). rewrite Fg. exact A5.
Qed.

(** with no slot left it says so first *)
Lemma execute_full k p t :
  at_prompt 0 k -> c_string (mem_of k) p t -> is_null p = false -> unknown t ->
  exists k', execute p k = Some (Returns (-1) k') /\ at_prompt 0 k' /\ trm k' = trm k /\
    screen (hw k') = tty_show FULL_MESSAGE (screen (hw k)).
Proof.
  intros [A1 A2 A3 A4 A5] Hs Hp [_ Hsh _ _ _].
  assert (ordinary p k) as Hord by (split; [exact Hp | split; [exact A5 | exact (not_a_shell k p t Hs Hsh)]]).
  assert (k_ok img sz s0 (Process.chosen k)) as Hok.
  { apply (k_ok_same k); try reflexivity; [exact A1|]. destruct (ko_wf _ _ _ _ A1) as (W1 & W2 & W3 & W4).
    now split_and!. }
  destruct (kernel_writes (lo := lo) (n := n) elsewhere (Ust (Process.chosen k) []) (Obj FULL_MESSAGE) FULL_MESSAGE Hok)
    as (r & h' & E & _ & Hscr & _ & Hok');
    [exact (proj1 (c_string_literal _ FULL_MESSAGE eq_refl)) | exact I | | reflexivity |].
  { eapply Forall_impl; [exact (text_bytes_spec FULL_MESSAGE eq_refl)|]. intros c Hc. cbn in Hc. lia. }
  rewrite gate_write in E. change (s32 1) with 1 in E. change (s32 (Z.of_nat (length FULL_MESSAGE))) with 25 in E.
  cbn [kern future] in *. unfold execute. rewrite Hp. fold (Process.chosen k). rewrite choose_ordinary by exact Hord.
  change (new_pid (sysg (Process.chosen k))) with (free_task 7 1 (tasks (sysg k))).
  rewrite (free_task_full _ A2). change (7 =? MAX_TASKS) with true. cbv iota zeta.
  destruct (write 1 (Obj FULL_MESSAGE) 25 (Process.chosen k)) as [[r' k']|]; [|discriminate E].
  injection E as -> ->. exists (set_hw h' (Process.chosen k)). split; [reflexivity|].
  split; [|split; [reflexivity | exact Hscr]].
  split; [exact Hok' | exact A2 | exact A3 | exact A4 | exact A5].
Qed.

Lemma gate_execute p s v k :
  execute p (kern s) = Some (Returns v k) -> ece391_execute p s = Some (v, Ust k (future s)).
Proof.
  intros E. unfold ece391_execute. rewrite (gate_returns elsewhere SYS_EXECUTE p (Addr 0) (Addr 0) s (Some (v, k))).
  - reflexivity.
  - apply number_does_not_wait. discriminate.
  - exact E.
Qed.

(** execute and the message *)
Lemma shell_refuses {B} slots s p t (f : unit -> prog ust B) :
  at_prompt slots (kern s) -> c_string (umem s) p t -> is_null p = false -> unknown t -> (length t < 256)%nat ->
  exists k, (rval ← ece391_execute p;
             x ← (if rval =? -1 then ece391_fdputs 1 (Obj no_such_command)
                  else if rval =? 256 then ece391_fdputs 1 (Obj (chars "program terminated by exception" ++ [10]))
                  else if negb (rval =? 0) then ece391_fdputs 1 (Obj (chars "program terminated abnormally" ++ [10]))
                  else mret tt);
             f x) s = f tt (Ust k (future s)) /\
    at_prompt (pred slots) k /\ screen (hw k) = tty_show (refusal slots) (screen (hw (kern s))).
Proof.
  intros Ha Hs Hp Hun Hl.
  assert (exists k, execute p (kern s) = Some (Returns (-1) k) /\ at_prompt (pred slots) k /\
    screen (hw k) = tty_show (match slots with O => FULL_MESSAGE | S _ => [] end) (screen (hw (kern s))))
    as (k & E & Hk & Hscr).
  { destruct slots as [|slots].
    - destruct (execute_full (kern s) p t Ha Hs Hp Hun) as (k & E & Hk & _ & Hscr). exact (ex_intro _ k (conj E (conj Hk Hscr))).
    - destruct (execute_refuses (kern s) p t slots Ha Hs Hp Hun Hl) as (k & E & Hk & Hh). exists k.
      split; [exact E|]. split; [exact Hk|]. rewrite Hh. reflexivity. }
  rewrite (run_bind _ _ _ _ _ (gate_execute p s (-1) k E)). change (-1 =? -1) with true. cbv iota.
  destruct (kernel_prints (lo := lo) (n := n) elsewhere (Ust k (future s)) no_such_command (ap_ok _ _ Hk))
    as (h' & E' & Hs' & Hok'); [reflexivity | apply Nat.ltb_lt; reflexivity |].
  rewrite (run_bind _ _ _ _ _ E'). cbn [kern future] in *. exists (set_hw h' k). split; [reflexivity|].
  split; [exact (at_prompt_same _ k _ Hk Hok' eq_refl eq_refl eq_refl)|].
  change (screen h' = tty_show (refusal slots) (screen (hw (kern s)))). rewrite Hs', Hscr, <- tty_show_app.
  now destruct slots.
Qed.

(** *** The loop *)

(** a line of the session: "exit", nothing, or a command that names no program *)
Record session_line (keys : list key) : Prop := {
  sl_length : Z.of_nat (length keys) <= 72;
  sl_text : text_of keys = chars "exit" \/ text_of keys = [] \/ unknown (text_of keys)
}.

(** a round of the loop, once the line is in the buffer *)
Definition shell_rest (f : nat) (buf : Z) : prog ust Z :=
  d ← of_mem (fun m => ece391_strcmp STR_FUEL m (Addr buf) (lit "exit"));
  if d =? 0 then mret 0
  else
    c ← load (Addr buf) 0;
    if c =? 0 then shell_loop f buf
    else
      rval ← ece391_execute (Addr buf);
      _ ← (if rval =? -1 then ece391_fdputs 1 (Obj no_such_command)
           else if rval =? 256 then ece391_fdputs 1 (Obj (chars "program terminated by exception" ++ [10]))
           else if negb (rval =? 0) then ece391_fdputs 1 (Obj (chars "program terminated abnormally" ++ [10]))
           else mret tt);
      shell_loop f buf.

(** the prompt, the line and the NUL behind it *)
Lemma shell_reads slots buf keys ls f s :
  at_prompt slots (kern s) -> k_lines (keys :: ls) (future s) -> session_line keys ->
  col (screen (hw (kern s))) = 0 -> in_frame lo n buf 1024 ->
  exists s', shell_loop (S f) buf s = shell_rest f buf s' /\
    at_prompt slots (kern s') /\ k_lines ls (future s') /\ c_string (umem s') (Addr buf) (text_of keys) /\
    screen (hw (kern s')) = tty_enter (tty_keys [] keys (tty_show prompt (screen (hw (kern s))))).
Proof.
  intros Ha Hls [Hk _] Hcol Hb. pose proof (text_of_length keys) as Hlen.
  assert (in_frame lo n buf 1023) as Hb' by (unfold in_frame in *; lia).
  cbn [shell_loop].
  destruct (kernel_prints (lo := lo) (n := n) elsewhere s prompt (ap_ok _ _ Ha)) as (h1 & E1 & S1 & Hok1);
    [reflexivity | apply Nat.ltb_lt; reflexivity |].
  rewrite (run_bind _ _ _ _ _ E1). clear E1.
  pose proof (at_prompt_same _ _ (set_hw h1 (kern s)) Ha Hok1 eq_refl eq_refl eq_refl) as Ha1.
  assert (col (screen h1) = 7) as Hcol1
    by (rewrite S1, tty_show_col; [reflexivity | now apply text_chars | exact Hcol | reflexivity]).
  destruct (kernel_line_exact elsewhere (Ust (set_hw h1 (kern s)) (future s)) keys ls buf 1023) as
    (s2 & E2 & [Hok2 S2 _] & L2 & _ & _ & Hch & Hrd & _ & Hsys & Hfsg & Hcpu);
    [exact Hok1 | exact Hls | exact Hb' | lia | lia | | |].
  { intros _. change (7 <= col (screen h1)). lia. }
  { change (col (screen h1) + Z.of_nat (length keys) <= 79). lia. }
  assert (at_prompt slots (kern s2)) as Ha2
    by (apply (at_prompt_same _ _ (kern s2) Ha1 Hok2 Hsys Hcpu); now rewrite Hfsg).
  change (BUFSIZE - 1) with 1023. rewrite (run_bind _ _ _ _ _ E2). clear E2.
  set (t := text_of keys) in *. destruct (Z.eqb_spec (Z.of_nat (length t)) (-1)); [lia|].
  assert ((if Z.of_nat (length t) >? 0
    then c ← load (Addr buf) (Z.of_nat (length t) - 1); mret (if c =? 10 then Z.of_nat (length t) - 1 else Z.of_nat (length t))
    else mret (Z.of_nat (length t))) s2 = Some (Z.of_nat (length t), s2)) as E3.
  { destruct (Z.gtb_spec (Z.of_nat (length t)) 0); [|reflexivity]. unfold load, mbind, prog_bind. cbn [ldc].
    destruct (lookup_lt_is_Some_2 t (length t - 1)) as [c Hc]; [lia|].
    assert (rd (umem s2) (buf + (Z.of_nat (length t) - 1)) = c) as ->.
    { apply list_lookup_total_correct in Hc. assert (rdn (umem s2) buf (length t) !!! (length t - 1)%nat = c) as Hr
        by (rewrite Hrd; exact Hc).
      rewrite rdn_lookup in Hr by lia. rewrite <- Hr. f_equal. lia. }
    rewrite Forall_lookup in Hch. specialize (Hch _ _ Hc). cbn in Hch. destruct (Z.eqb_spec c 10); [lia | reflexivity]. }
  rewrite (run_bind _ _ _ _ _ E3). clear E3.
  assert (dialogue (screen (hw (kern s2))) ls s2) as D2 by (split; [exact Hok2 | reflexivity | exact L2]).
  destruct (terminate (lo := lo) (n := n) buf t _ ls s2 D2 Hb') as (s3 & E3 & [Hok3 S3 L3] & Hs);
    [lia | exact Hch | exact Hrd |].
  rewrite (run_bind _ _ _ _ _ E3). unfold store in E3. injection E3 as <-.
  eexists. split; [reflexivity|]. split; [|split; [exact L3 | split; [exact Hs|]]].
  - exact (at_prompt_same _ _ _ Ha2 Hok3 eq_refl eq_refl eq_refl).
  - etrans; [exact S3|]. etrans; [exact S2|]. cbn [shown kernel_view kern]. change (hw (set_hw h1 (kern s))) with h1.
    now rewrite S1.
Qed.

(** the session ends with "exit", and the terminal shows it *)
Lemma shell_loop_session buf ls f slots s :
  at_prompt slots (kern s) -> k_lines ls (future s) -> Forall session_line ls ->
  Exists (fun keys => text_of keys = chars "exit") ls ->
  col (screen (hw (kern s))) = 0 -> in_frame lo n buf 1024 -> (length ls <= f)%nat ->
  exists s' slots', shell_loop f buf s = Some (0, s') /\ at_prompt slots' (kern s') /\
    screen (hw (kern s')) = session slots ls (screen (hw (kern s))).
Proof.
  revert ls slots s. induction f as [|f IH]; intros ls slots s Ha Hls Hall Hex Hcol Hb Hf.
  { destruct ls; [inversion Hex | cbn in Hf; lia]. }
  destruct ls as [|keys ls]; [inversion Hex|]. cbn [length] in Hf. apply Forall_cons_1 in Hall as [Hline Hall].
  destruct (shell_reads slots buf keys ls f s Ha Hls Hline Hcol Hb) as (s1 & -> & Ha1 & Hls1 & Hs & S1).
  cbn [session]. rewrite <- S1. set (t := text_of keys) in *.
  assert (length t <= 72)%nat as Hlen by (pose proof (text_of_length keys); pose proof (sl_length _ Hline); unfold t; lia).
  assert (length t < STR_FUEL)%nat as Hfuel by (apply short_string; lia).
  destruct (strcmp_compares STR_FUEL (umem s1) (Addr buf) (lit "exit") t (chars "exit") Hs) as (d & Ed & Hd);
    [now apply c_string_literal | exact Hfuel |].
  assert (of_mem (fun m => ece391_strcmp STR_FUEL m (Addr buf) (lit "exit")) s1 = Some (d, s1)) as E1
    by (unfold of_mem; now rewrite Ed).
  unfold shell_rest. rewrite (run_bind _ _ _ _ _ E1). clear E1 Ed.
  destruct (Z.eqb_spec d 0) as [E0|Hne].
  { apply Hd in E0. exists s1, slots. destruct (decide (t = chars "exit")); [|contradiction].
    split; [reflexivity|]. split; [exact Ha1 | reflexivity]. }
  assert (t <> chars "exit") as Hnot by tauto. destruct (decide (t = chars "exit")); [contradiction|].
  assert (Exists (fun keys => text_of keys = chars "exit") ls) as Hex' by (inversion Hex; [contradiction | assumption]).
  assert (col (screen (hw (kern s1))) = 0) as Hcol1 by (rewrite S1; reflexivity).
  assert (load (Addr buf) 0 s1 = Some (hd 0 t, s1)) as E2.
  { unfold load. do 2 f_equal. pose proof (c_string_rest _ _ _ 0 Hs ltac:(lia)) as Hr. rewrite drop_0 in Hr.
    destruct t; exact (proj1 Hr). }
  rewrite (run_bind _ _ _ _ _ E2). clear E2.
  destruct (decide (t = [])) as [Et|Hnil].
  - rewrite Et. change (hd 0 [] =? 0) with true. cbv iota.
    exact (IH ls slots s1 Ha1 Hls1 Hall Hex' Hcol1 Hb ltac:(lia)).
  - assert (hd 0 t <> 0) as Hhd.
    { destruct Hs as (_ & _ & Hc). destruct t as [|c t']; [done|]. apply Forall_cons_1 in Hc as [Hc _]. cbn. lia. }
    destruct (Z.eqb_spec (hd 0 t) 0); [contradiction|].
    assert (unknown t) as Hun by (destruct (sl_text _ Hline) as [|[|]]; [contradiction | contradiction | assumption]).
    assert (is_null (Addr buf) = false) as Hnull.
    { pose proof ly_frame. unfold in_frame in Hb. unfold is_null. rewrite u32_small by lia. apply Z.eqb_neq. lia. }
    destruct (shell_refuses slots s1 (Addr buf) t (fun _ => shell_loop f buf) Ha1 Hs Hnull Hun ltac:(lia))
      as (k & E & Hk & Hscr).
    rewrite E. rewrite <- Hscr.
    apply (IH ls (pred slots) (Ust k (future s1)) Hk Hls1 Hall Hex'); [|exact Hb | lia].
    cbn [kern]. rewrite Hscr. destruct slots; [|apply tty_show_line_col].
    unfold refusal, no_such_command. rewrite app_assoc. apply tty_show_line_col.
Qed.

(** C3: A session at the shell, on the kernel.  Whatever the user types, line by
    line, "exit", nothing or the name of a program the directory does not have,
    the shell comes back to its prompt until "exit", and then returns 0; the
    screen shows the prompts, the typing with its corrections, and the answers.
    A command with no program is answered "no such command", but each one
    costs a task slot: when none is left, the kernel's "6 programs already
    open." comes first, although no program runs.  A line takes at most 72
    keys; a command starts neither with a space nor with "shell" and its words
    have at most 40 characters; the stack word that write returns uninitialised
    is not -2. *)
Theorem shell_session slots k fut ls fuel buf :
  at_prompt slots k -> k_lines ls fut -> Forall session_line ls ->
  Exists (fun keys => text_of keys = chars "exit") ls ->
  in_frame lo n buf 1024 -> (length ls <= fuel)%nat ->
  exists s', shell fuel buf (Ust k fut) = Some (0, s') /\ k_ok img sz s0 (kern s') /\
    screen (hw (kern s')) =
      session slots ls (tty_show (chars "Starting 391 Shell" ++ [10]) (screen (hw k))).
Proof.
  intros Ha Hls Hall Hex Hb Hf. unfold shell.
  destruct (kernel_prints (lo := lo) (n := n) elsewhere (Ust k fut) (chars "Starting 391 Shell" ++ [10]) (ap_ok _ _ Ha))
    as (h1 & E1 & S1 & Hok1); [reflexivity | apply Nat.ltb_lt; reflexivity |].
  rewrite (run_bind _ _ _ _ _ E1). clear E1. cbn [kern future] in *.
  pose proof (at_prompt_same _ _ (set_hw h1 k) Ha Hok1 eq_refl eq_refl eq_refl) as Ha1.
  destruct (shell_loop_session buf ls fuel slots (Ust (set_hw h1 k) fut) Ha1 Hls Hall Hex) as (s' & slots' & E & Hk & Hs);
    [| exact Hb | exact Hf |].
  { change (col (screen h1) = 0). rewrite S1. apply tty_show_line_col. }
  exists s'. split; [exact E|]. split; [exact (ap_ok _ _ Hk)|]. rewrite Hs.
  change (screen (hw (kern (Ust (set_hw h1 k) fut)))) with (screen h1). now rewrite S1.
Qed.
End OnKernel.

(** ** On the small system *)

#[local] Existing Instance demo_platform.
#[local] Existing Instance demo_layout.

(** the first shell, with one task slot left *)
Definition demo_at_shell : kst :=
  upd_fsg (set_pc 1) (upd_cpu (set_r_cr3 task1_page_directory)
    (upd_sysg (set_tasks [0; 1; 1; 1; 0; 5; 6]) demo_process)).

Lemma demo_at_prompt : at_prompt (img := demo_boot) (sz := 65536) (s0 := demo_fs) 1 demo_at_shell.
Proof.
  split; [| reflexivity | reflexivity | vm_compute; split; discriminate | discriminate].
  destruct demo_process_ok as [O1 O2 O3 O4 O5 O6 O7 O8]. split; assumption.
Qed.

(** "vi" twice, the second time with a correction, and "exit" *)
Definition demo_lines : list (list key) :=
  [[Char 118; Char 105]; [Char 118; Char 118; Back; Char 105]; map Char (chars "exit")].

Lemma demo_unknown : unknown (s0 := demo_fs) [118; 105].
Proof.
  split; [split; discriminate | discriminate | cbn; lia | cbn; lia |].
  right. apply names_apart. vm_compute. reflexivity.
Qed.

Lemma shell_session_witness :
  let fut := map (fun keys => Schedule (typing keys ++ []) []) demo_lines in
  exists s', @shell ust (kernel_calls (fun _ => None)) 3 user_page (Ust demo_at_shell fut) = Some (0, s') /\
    screen (hw (kern s')) = session 1 demo_lines
      (tty_show (chars "Starting 391 Shell" ++ [10]) (screen (hw demo_at_shell))) /\
    glyph (screen (hw (kern s'))) 4 0 = 54.
Proof.
  intros fut.
  destruct (shell_session (fun _ => None) 1 demo_at_shell fut demo_lines 3 user_page demo_at_prompt) as (s' & E & _ & S).
  - exists fut, []. split; [symmetry; apply app_nil_r|].
    assert (Forall (Forall key_ok) demo_lines) as Hok 
      by (change demo_lines with [[Char 118; Char 105]; [Char 118; Char 118; Back; Char 105];
            [Char 101; Char 120; Char 105; Char 116]]; repeat apply Forall_cons_2; try apply Forall_nil_2; cbn; try lia; exact I).
    unfold fut. clear fut. induction Hok as [|keys ls Hk _ IH]; cbn [map]; constructor; [|exact IH].
    split; [exact Hk | now exists []].
  - apply Forall_cons. split; [split; [cbn; lia | right; right; exact demo_unknown]|].
    apply Forall_cons. split; [split; [cbn; lia | right; right; exact demo_unknown]|].
    apply Forall_cons. split; [split; [cbn; lia | left; reflexivity] | constructor].
  - apply Exists_cons_tl, Exists_cons_tl, Exists_cons_hd. reflexivity.
  - apply demo_frame. lia.
  - cbn. lia.
  - exists s'. split; [exact E|]. split; [exact S|]. rewrite S. vm_compute. reflexivity.
Defined.
